(* ===== verification/_CoqProject ===== *)
-Q . S2P
Prelude.v
CString.v
BlockDevice.v
PortIO.v
Ata.v
AtaFacts.v
AtaProps.v
Descriptors.v
DescriptorProps.v
Pic.v
Screen.v
ScreenProps.v
Cmos.v
CmosProps.v
FatLayout.v
Fat32.v
FatFacts.v
FatChain.v
FatLoops.v
FatSpec.v
FatRefine.v
FatWrite.v
FatMount.v
FatContract.v
FatProps.v
FatInvariant.v
FatLimits.v
FatWitness.v
Paging.v
PagingFacts.v
PagingProps.v
Mmu.v
UserMemory.v
Process.v
FatBuffer.v
ProcessFacts.v
ProcessProps.v
ProcessImage.v
ProcessCreate.v
KernelProps.v
KernelWitness.v
Interrupt.v
InterruptFacts.v
InterruptProps.v
Preemption.v
KernelBoot.v
KeyProps.v
MachineWitness.v
ShellBase.v
Shell.v
ShellPath.v
ShellFiles.v
ShellCommands.v
ShellMove.v
ShellFacts.v
ShellLine.v
DirTree.v
DiskTree.v
DiskRemove.v
DiskMap.v
DiskProps.v
ShellSplit.v
ShellNames.v
Inserting.v
ShellWalk.v
UserCalls.v
UserFiles.v
ShellCd.v
ShellMkdir.v
ShellRm.v
ShellCat.v
ShellCp.v
ShellSession.v
ShellListing.v
ShellMv.v
UserExec.v
Booted.v
InserterMain.v
ShellWitness.v
SystemWitness.v
