(* ===== verification/Prelude.v ===== *)
(** * semogakelar: a 32-bit x86 operating system and its shell

    The repository is a kernel with a FAT-like file system on an ATA disk,
    4 MiB paging, up to sixteen processes under a round-robin scheduler, a text
    terminal and 18 system calls; a shell and a clock that run as user programs;
    and a host tool that inserts files into a disk image.  All C sources are in
    src/src.  This library translates them into functions and states what makes
    them correct.

    ** How the parts fit together

    The host tool (external-inserter.c) links fat32.c against an array in
    memory and writes the shell into the image.  The kernel (kernel.c) links the
    same fat32.c against the ATA driver (disk.c); [kernel_setup] mounts the
    disk, creates a process from the file called shell (process.c, paging.c) and
    lets the scheduler enter it (scheduler.c).  The shell (user-shell.c and a
    file per command) reaches the kernel only through interrupt 0x30
    (interrupt.c), which calls fat32.c, process.c and the terminal (keyboard.c,
    framebuffer.c); the timer interrupt saves the running context and switches.

    ** Outcomes and state

    A C function is a function to [res]: [Ret] for a normal return, [Ub] for an
    access outside the object it is made in (and for a page that is not
    present), [Hang] for a loop that outruns its fuel.  Global variables are
    records that are passed and returned.  A string literal is an object of its
    length: making a folder outside the root, for which [init_directory_table]
    copies eight bytes over the literal "", is [Ub], and FatSpec names those
    calls ([overruns_literal]).  Integers are [Z], wrapped with [u8],
    [u16], [u32], [s8] where C converts them; memory is a list of bytes.

    - CString: string.c, on arrays of bytes.
    - BlockDevice: the two transfer routines fat32.c calls, as a class with its
      law, and the array implementation of external-inserter.c ([Inserter]).
      PortIO (portio.c), Ata, AtaFacts, AtaProps: disk.c over the I/O ports,
      shown to satisfy that law for every controller that obeys [AtaDevice].
    - FatLayout, Fat32: the packed structures and every function of fat32.c;
      [fs] is the device and [fat32_driver_state].  FatFacts, FatChain, FatLoops
      reduce its disk accesses and loops to functions on a volume of 512
      clusters; FatSpec is the abstract specification of the four file calls and
      FatRefine, FatWrite, FatMount, FatContract the refinement.  FatProps,
      FatInvariant, FatLimits: what follows from it.
    - Paging (paging.c), PagingFacts, PagingProps: the frame map, the 32 page
      directories and CR3.  Mmu: address translation.
    - Process (process.c, scheduler.c), ProcessFacts, ProcessProps: the process
      table and the scheduler.  ProcessImage, ProcessCreate, KernelProps: process
      creation with its file read, its frames and its memory.
    - Descriptors (gdt.c, idt.c), Pic (the PICs and the timer of interrupt.c),
      Screen (framebuffer.c, keyboard.c), Cmos (cmos.c), with their theorems in
      DescriptorProps, ScreenProps, CmosProps.
    - UserMemory: memory as a process sees it through its page directory.
      FatBuffer: a request whose buffer is the memory from an address on.
    - Interrupt: interrupt.c and kernel.c on [machine], the whole state of the
      kernel.  InterruptFacts, InterruptProps, Preemption, KernelBoot, KeyProps:
      its theorems.  A pointer that a process passes is followed in either half
      of the address space; loads and stores in the kernel's half are the
      parameters of [KernelHalf].
    - ShellBase: the system calls as the shell sees them ([SysCalls]) and its
      variables.  Shell (user-shell.c), ShellPath (cd.c), ShellFiles (cat.c, cp.c,
      mkdir.c), ShellCommands (rm.c, ls.c, exec.c, find.c) and ShellMove (mv.c,
      clock.c, the main loop): every function of the shell.  ShellFacts, ShellLine,
      ShellSplit, ShellNames: its strings.  DirTree: the directory tree of a
      volume.  DiskTree, DiskRemove: disks in order ([disk_ok]) and what a write
      and a removal do to them; DiskMap, DiskProps: the disk as a map from folder
      and name to bytes ([disk_map], [disk_step]).  ShellWalk, ShellCd, ShellMkdir,
      ShellRm, ShellCat, ShellCp, ShellMv, ShellListing (ls and find) and
      ShellSession: the commands on that tree and that map, for every kernel
      whose file calls satisfy [FileServer].
    - UserCalls: syscall of user-shell.c, that is, the calls of [SysCalls] made
      through interrupt 0x30 on [machine].  UserFiles: such calls satisfy
      [FileServer].  UserExec: exec, from the command to the timer interrupt
      that enters the program.
    - Inserting, InserterMain: the host tool, from its command line and the
      host's files to the image it writes back.  Booted: the shell on the
      kernel that start-up leaves.  The end of InserterMain is the theorem on
      the whole system.
    - FatWitness, KernelWitness, MachineWitness, ShellWitness, SystemWitness: the
      theorems at concrete disks, tables, machines and sessions.

    ** What is shown

    - Refinement: each call of fat32.c implements FatSpec on any block device;
      disk.c implements the block device; on a disk in order the calls implement
      a finite map from folder, name and extension to bytes; [cd] implements the
      walk [follow], and [rm], [cat], [cp], [ls] and the renaming [mv] what that
      map says of their paths; [find] goes over the directories of [search].  A
      file call through interrupt 0x30 is a step of the same map.
    - Invariants: the allocated clusters are the disjoint union of the files'
      chains; every user page maps a frame of its own and the frame map agrees;
      every interrupt keeps the kernel's tables well formed, and with them no
      two processes share a frame, as long as the pointers of the system calls
      are in the user half ([user_pointers]); a session of [cd], [mkdir], [rm],
      [cat] and [cp] whose commands are [admissible] does to the map what the
      commands say ([session_steps]) and keeps the disk in order and the shell's
      place in it.
    - Composition: the command line of the tool makes an image that boots into
      its shell, whose sessions, made through interrupt 0x30, are such steps on
      the map of that disk, and whose exec starts a program that the timer
      enters;
      a typed key arrives in the memory of the process that asks for it; a
      preempted process comes back with the context it lost; no system call on
      user pointers but the creation of a process writes to another process's
      memory, while one on a kernel pointer stores where it points
      ([kernel_pointer_stored]).
    - Round trips: write and read, write and delete, format and mount; the text
      of a path and its names.
    - Ends of the contract: buffers smaller than a file's clusters, processes
      created without enough frames, leaks, the digits of a zero on the clock,
      folders outside the root.  Where the map allows a refusal for want of
      room, [has_room] and [room_used] say that there was none.

    ** Bounds and fuel

    Loops over an array have the array's length as fuel, one more where the
    source looks past the end; loops to a string's terminator the length of the
    buffer and one.  [read] follows a chain for one round more than its buffer
    has bytes and [Delete] for [delete_fuel] rounds, more than there are clusters; on a disk whose table
    is a union of chains neither runs out, which the refinement theorems show.
    [change_path] has one round per name: it runs out exactly when a [..] in the
    root keeps the source in its loop for ever.  [find] searches at most one
    directory for each word of its queue, more than there are clusters, and
    [trackToParent] has a row for every folder above.  The polls of the ATA and clock
    drivers are parameters that the theorems require to exceed the time the
    device is busy.  The shell's theorems keep the printed path within its 512
    bytes: 510 for the path so far and nine for each new name.

    ** What is assumed

    [PortIO] and the laws of [AtaDevice], [RtcDevice] and [SharedBus] describe
    the hardware; simulated devices satisfy them.  [directory_layout] says that
    the linker places the page directories 4 KiB apart in the kernel's half.
    [FileServer] says that the shell's file calls are those of fat32.c on some
    volume, undefined where those are; the kernel of Interrupt.v and the terminal of ShellWitness satisfy
    it.  The addresses of the three objects of a call (request, result, buffer)
    are parameters ([call_area]), in memory the process has mapped; no interrupt
    comes between the stores, the call and the loads of one call.  For exec the
    buffer address is in the first page, where the program is loaded.  [Screen]
    (what was printed, for cat, ls and find) is a log of the texts the shell
    passed to the kernel; any kernel with such a log is one ([logged]).
    [after_path] is the memory behind [current_path], which cd.c saves and
    restores with it; the model keeps the shell's other variables out of it and
    apart from the memory of its calls.  On the host a file that is there can
    be opened for writing.  Uninitialised locals are arguments; the queue of
    find starts as zeros in its theorem.

    ** What is not modelled

    The assembly stubs (register save and restore, loading of descriptor and
    control registers) appear as the outcome [SwitchTo] and as the interrupt
    frame; linker scripts, boot menu and build have no logic.  All C code is
    translated; ps, kill, clear and clock of the shell have theorems on the
    kernel's side of their calls only, and [mv] into another folder, which
    takes slot 2 whatever is in it, has one on that step only
    ([move_takes_slot_2]).  Kernel memory is not part of
    [ram]: what a byte stored in the kernel's half changes depends on where the
    linker put the kernel's data, so [KernelHalf] leaves it open and the
    invariants have [user_pointers] as a condition.  [umem] holds 4 MiB frames, caches and the TLB are not modelled beyond the sequence of
    invalidations. *)
From stdpp Require Export base numbers list gmap strings.
#[global] Open Scope Z_scope.
#[global] Set Default Proof Using "Type".

(** Notations of the development. *)
Declare Scope os_scope.
Delimit Scope os_scope with os.
#[global] Open Scope os_scope.

(** [l.[i]]: the element that a C index addresses, if it is in range. *)
Notation "l '.[' i ']'" := (l !! Z.to_nat i) (at level 2, left associativity, format "l .[ i ]") : os_scope.

(** [words]: bounds of machine words and of the bytes of buffers.
    [lengths]: rewrites the length of a composed list to those of its parts. *)
Create HintDb words.
Create HintDb lengths.

(** ** Outcomes of a C computation

    [Ret a] is a normal result.  [Ub] is an access outside the object it is
    addressed to (array bound, end of a buffer, division by zero, ...).
    [Hang] is a loop that used up the fuel it was given. *)
Inductive res (A : Type) : Type :=
| Ret (a : A)
| Ub
| Hang.
Arguments Ret {A} a.
Arguments Ub {A}.
Arguments Hang {A}.

#[export] Instance res_ret : MRet res := fun A a => Ret a.
#[export] Instance res_bind : MBind res := fun A B f m =>
  match m with Ret a => f a | Ub => Ub | Hang => Hang end.
#[export] Instance res_fmap : FMap res := fun A B f m =>
  match m with Ret a => Ret (f a) | Ub => Ub | Hang => Hang end.

Definition of_option {A} (o : option A) : res A :=
  match o with Some a => Ret a | None => Ub end.

Definition is_ret {A} (m : res A) : bool :=
  match m with Ret _ => true | _ => false end.

Lemma bind_ret {A B} (a : A) (f : A -> res B) : (x ← Ret a; f x) = f a.
Proof. reflexivity. Qed.

Lemma bind_assoc {A B C} (m : res A) (f : A -> res B) (g : B -> res C) :
  (y ← (x ← m; f x); g y) = (x ← m; y ← f x; g y).
Proof. by destruct m. Qed.

Lemma bind_Ret_inv {A B} (m : res A) (f : A -> res B) (b : B) :
  (x ← m; f x) = Ret b -> exists a, m = Ret a /\ f a = Ret b.
Proof. destruct m; simpl; naive_solver. Qed.

(** Take a computation that ended in [Ret] apart, step by step. *)
Ltac invert_ret H :=
  lazymatch type of H with
  | mbind _ _ = Ret _ =>
      let x := fresh "x" in let Hx := fresh "Hret" in
      apply bind_Ret_inv in H as (x & Hx & H); cbv beta in H; invert_ret H
  | (let '(_, _) := ?x in _) = Ret _ =>
      let a := fresh "a" in let b := fresh "b" in destruct x as [a b]; invert_ret H
  | Ret _ = Ret _ => simplify_eq
  | _ => idtac
  end.

(** ** Arrays indexed by C integers *)
Definition arr_get {A} (l : list A) (i : Z) : res A :=
  if decide (0 ≤ i) then of_option (l !! Z.to_nat i) else Ub.

Definition arr_set {A} (l : list A) (i : Z) (x : A) : res (list A) :=
  if decide (0 ≤ i < Z.of_nat (length l)) then Ret (<[Z.to_nat i := x]> l) else Ub.

Definition Zlen {A} (l : list A) : Z := Z.of_nat (length l).

Section arrays.
Context {A : Type}.
Implicit Types (l : list A) (i j : Z) (x : A).

Lemma arr_get_Ret l i x :
  arr_get l i = Ret x <-> 0 ≤ i /\ l !! Z.to_nat i = Some x.
Proof.
  unfold arr_get, of_option. case_decide; [|split; [done|lia]].
  destruct (l !! Z.to_nat i); naive_solver.
Qed.

Lemma arr_get_lookup l i x :
  0 ≤ i -> l !! Z.to_nat i = Some x -> arr_get l i = Ret x.
Proof. intros. by apply arr_get_Ret. Qed.

Lemma arr_get_is l i : 0 ≤ i < Zlen l -> exists x, arr_get l i = Ret x /\ l !! Z.to_nat i = Some x.
Proof.
  unfold Zlen. intros Hi. destruct (lookup_lt_is_Some_2 l (Z.to_nat i)) as [x Hx]; [lia|].
  exists x. split; [apply arr_get_lookup; [lia|done] | done].
Qed.

Lemma arr_get_oob l i : Zlen l ≤ i \/ i < 0 -> arr_get l i = Ub.
Proof.
  unfold arr_get, Zlen. intros Hi. case_decide; [|done].
  rewrite lookup_ge_None_2; [done|lia].
Qed.

Lemma arr_set_in l i x :
  0 ≤ i < Zlen l -> arr_set l i x = Ret (<[Z.to_nat i := x]> l).
Proof. unfold arr_set, Zlen. intros. by rewrite decide_True. Qed.

Lemma arr_set_oob l i x : ~ (0 ≤ i < Zlen l) -> arr_set l i x = Ub.
Proof. unfold arr_set, Zlen. intros. by rewrite decide_False. Qed.

Lemma Zlen_insert l (i : nat) x : Zlen (<[i := x]> l) = Zlen l.
Proof. unfold Zlen. by rewrite length_insert. Qed.

Lemma Zlen_app l l' : Zlen (l ++ l') = Zlen l + Zlen l'.
Proof. unfold Zlen. rewrite length_app. lia. Qed.
End arrays.

(** ** Counted and bounded loops *)
Section loops.
Context {S : Type}.

(** [for (i = i0; i < i0 + k; i++) body]. *)
Fixpoint for_up (k : nat) (i : Z) (body : Z -> S -> res S) (s : S) : res S :=
  match k with
  | O => Ret s
  | Datatypes.S k' => s' ← body i s; for_up k' (i + 1) body s'
  end.

Lemma for_up_inv (P : Z -> S -> Prop) body k : forall i s,
  P i s ->
  (forall j s, i ≤ j < i + Z.of_nat k -> P j s -> exists s', body j s = Ret s' /\ P (j + 1) s') ->
  exists s', for_up k i body s = Ret s' /\ P (i + Z.of_nat k) s'.
Proof.
  induction k as [|k IH]; intros i s Hs Hstep; simpl.
  - exists s. split; [done|]. by replace (i + Z.of_nat 0) with i by lia.
  - destruct (Hstep i s) as (s1 & -> & H1); [lia|done|]. simpl.
    destruct (IH (i + 1) s1 H1) as (s2 & -> & H2).
    { intros j s' Hj. apply Hstep. lia. }
    exists s2. split; [done|].
    by replace (i + Z.of_nat (Datatypes.S k)) with (i + 1 + Z.of_nat k) by lia.
Qed.
End loops.

(** [while (idx < idx0 + k && go (idx)) idx++]: the value of [idx] after it. *)
Fixpoint scan_while (k : nat) (go : Z -> res bool) (idx : Z) : res Z :=
  match k with
  | O => Ret idx
  | S k' => b ← go idx; if (b : bool) then scan_while k' go (idx + 1) else Ret idx
  end.

(** Index of the first element that satisfies [p], the length if there is none. *)
Fixpoint first_idx {A} (p : A -> bool) (l : list A) : nat :=
  match l with
  | [] => O
  | x :: l' => if p x then O else S (first_idx p l')
  end.

Section first_idx.
Context {A : Type}.
Implicit Types (p : A -> bool) (l : list A).

Lemma first_idx_le p l : (first_idx p l ≤ length l)%nat.
Proof. induction l; simpl; [done|]. destruct (p a); lia. Qed.

Lemma first_idx_lookup p l :
  (first_idx p l < length l)%nat -> exists x, l !! first_idx p l = Some x /\ p x = true.
Proof.
  induction l as [|a l IH]; simpl; [lia|]. destruct (p a) eqn:E; simpl; [eauto|].
  intros. apply IH. lia.
Qed.

Lemma first_idx_before p l i x :
  (i < first_idx p l)%nat -> l !! i = Some x -> p x = false.
Proof.
  revert i. induction l as [|a l IH]; intros i; simpl; [lia|].
  destruct (p a) eqn:E; [lia|]. destruct i; simpl; [naive_solver|].
  intros. eapply IH; [|done]. lia.
Qed.

Lemma first_idx_eq p l (i : nat) x :
  l !! i = Some x -> p x = true ->
  (forall j y, (j < i)%nat -> l !! j = Some y -> p y = false) -> first_idx p l = i.
Proof.
  revert i. induction l as [|a l IH]; intros i Hi Hp Hbefore; [done|]. simpl.
  destruct i as [|i]; simplify_eq/=; [by rewrite Hp|].
  rewrite (Hbefore 0%nat a); [|lia|done]. f_equal. apply (IH i); [done..|].
  intros j y Hj Hy. apply (Hbefore (S j) y); [lia|done].
Qed.

Lemma first_idx_none p l :
  first_idx p l = length l <-> Forall (fun x => p x = false) l.
Proof.
  induction l as [|a l IH]; simpl; [done|]. rewrite Forall_cons, <- IH.
  destruct (p a); naive_solver lia.
Qed.

Lemma first_idx_forall p l : Forall (fun x => p x = false) l -> first_idx p l = length l.
Proof. apply first_idx_none. Qed.

Lemma first_idx_ext p q l : (forall x, x ∈ l -> p x = q x) -> first_idx p l = first_idx q l.
Proof.
  induction l as [|a l IH]; intros H; simpl; [done|].
  rewrite (H a) by set_solver. rewrite IH; [done|]. set_solver.
Qed.
End first_idx.

(** The scan of an array from [idx] for at most [k] places. *)
Lemma scan_while_arr {A} (p : A -> bool) (l : list A) (go : Z -> res bool) (k : nat) :
  forall idx, 0 ≤ idx -> idx + Z.of_nat k ≤ Zlen l ->
  (forall i y, idx ≤ i < idx + Z.of_nat k -> l !! Z.to_nat i = Some y -> go i = Ret (negb (p y))) ->
  scan_while k go idx = Ret (idx + Z.of_nat (first_idx p (take k (drop (Z.to_nat idx) l)))).
Proof.
  unfold Zlen. induction k as [|k IH]; intros idx H0 Hlen Hgo; cbn [scan_while].
  - rewrite firstn_O. simpl. f_equal. lia.
  - destruct (lookup_lt_is_Some_2 l (Z.to_nat idx)) as [x Hx]; [lia|].
    rewrite (Hgo idx x) by (lia || done). rewrite bind_ret.
    erewrite drop_S by done. simpl. destruct (p x); simpl; [f_equal; lia|].
    rewrite IH; [|lia|lia|intros; apply Hgo; [lia|done]].
    replace (Z.to_nat (idx + 1)) with (S (Z.to_nat idx)) by lia. f_equal. lia.
Qed.

(** ** Machine integers and bytes *)
Definition wrap (w z : Z) : Z := z mod 2 ^ w.
Abbreviation u8 := (wrap 8).
Abbreviation u16 := (wrap 16).
Abbreviation u32 := (wrap 32).

(** Conversion of a [w]-bit pattern to the signed type of the same width. *)
Definition to_signed (w z : Z) : Z :=
  let r := z mod 2 ^ w in if decide (r < 2 ^ (w - 1)) then r else r - 2 ^ w.
Abbreviation s8 := (to_signed 8).
Abbreviation s32 := (to_signed 32).

Definition is_word (w z : Z) : Prop := 0 ≤ z < 2 ^ w.
Abbreviation is_byte := (is_word 8).
Abbreviation bytes_ok := (Forall (is_word 8)).

#[export] Instance is_word_dec w z : Decision (is_word w z).
Proof. unfold is_word. apply _. Defined.

Lemma wrap_word w z : 0 ≤ w -> is_word w (wrap w z).
Proof. intros. unfold wrap, is_word. apply Z.mod_pos_bound. lia. Qed.

Lemma wrap_small w z : is_word w z -> wrap w z = z.
Proof. intros. by apply Z.mod_small. Qed.

#[export] Hint Resolve wrap_word : words.
#[export] Hint Extern 1 (0 ≤ _) => lia : words.

(** Bounds of words of the usual widths, with the powers evaluated. *)
Ltac word :=
  first [ solve [auto with words]
        | unfold is_word in *; change (2 ^ 8) with 256 in *; change (2 ^ 16) with 65536 in *;
          change (2 ^ 32) with 4294967296 in *; lia ].

(** Little-endian encoding of an integer on [n] bytes, as the x86 stores it. *)
Fixpoint le_bytes (n : nat) (z : Z) : list Z :=
  match n with
  | O => []
  | S n' => z mod 256 :: le_bytes n' (z / 256)
  end.

Fixpoint le_val (bs : list Z) : Z :=
  match bs with
  | [] => 0
  | b :: bs' => b + 256 * le_val bs'
  end.

Lemma length_le_bytes n z : length (le_bytes n z) = n.
Proof. revert z. induction n; intros; simpl; auto. Qed.

Lemma le_bytes_ok n z : bytes_ok (le_bytes n z).
Proof.
  revert z. induction n; intros; simpl; constructor; [|done].
  unfold is_word. apply Z.mod_pos_bound. lia.
Qed.

Lemma le_val_bytes n z : is_word (8 * Z.of_nat n) z -> le_val (le_bytes n z) = z.
Proof.
  revert z. induction n as [|n IH]; intros z Hz; simpl.
  - unfold is_word in Hz. lia.
  - rewrite IH; [pose proof (Z.div_mod z 256); lia|]. unfold is_word in *.
    split; [apply Z.div_pos; lia|]. apply Z.div_lt_upper_bound; [lia|].
    replace (8 * Z.of_nat (S n)) with (8 + 8 * Z.of_nat n) in Hz by lia.
    rewrite Z.pow_add_r in Hz by lia. lia.
Qed.

Lemma le_val_word bs : bytes_ok bs -> is_word (8 * Zlen bs) (le_val bs).
Proof.
  unfold is_word, Zlen. induction 1 as [|b bs Hb Hbs IH]; simpl; [lia|].
  replace (8 * Z.of_nat (S (length bs))) with (8 + 8 * Z.of_nat (length bs)) by lia.
  rewrite Z.pow_add_r by lia. unfold is_word in Hb. lia.
Qed.

Lemma le_bytes_val bs : bytes_ok bs -> le_bytes (length bs) (le_val bs) = bs.
Proof.
  induction 1 as [|b bs Hb Hbs IH]; simpl; [done|]. unfold is_word in Hb.
  rewrite (Z.mul_comm 256), Z.mod_add, Z.mod_small, Z.div_add, Z.div_small, Z.add_0_l by lia.
  by rewrite IH.
Qed.

(** ** Sub-ranges of a byte array *)
Definition slice {A} (off n : nat) (l : list A) : list A := take n (drop off l).
Definition splice {A} (off : nat) (bs l : list A) : list A :=
  take off l ++ bs ++ drop (off + length bs) l.

#[global] Arguments replicate : simpl never.
#[global] Arguments slice : simpl never.
#[global] Arguments splice : simpl never.
#[global] Arguments seqZ : simpl never.
#[global] Arguments Z.pow : simpl never.

Section slices.
Context {A : Type}.
Implicit Types (l bs : list A).

Lemma length_slice off n l : (off + n ≤ length l)%nat -> length (slice off n l) = n.
Proof. intros. unfold slice. rewrite length_take, length_drop. lia. Qed.

Lemma length_splice off bs l :
  (off + length bs ≤ length l)%nat -> length (splice off bs l) = length l.
Proof. intros. unfold splice. rewrite !length_app, length_take, length_drop. lia. Qed.

Lemma lookup_slice off n l i :
  (i < n)%nat -> slice off n l !! i = l !! (off + i)%nat.
Proof. intros. unfold slice. by rewrite lookup_take_lt, lookup_drop by done. Qed.

Lemma lookup_splice off bs l i :
  (off + length bs ≤ length l)%nat ->
  splice off bs l !! i =
    if decide (off ≤ i < off + length bs)%nat then bs !! (i - off)%nat else l !! i.
Proof.
  intros Hlen. unfold splice. case_decide as Hi.
  - rewrite lookup_app_r; rewrite length_take; [|lia].
    rewrite lookup_app_l by lia. f_equal. lia.
  - destruct (decide (i < off)%nat).
    + rewrite lookup_app_l by (rewrite length_take; lia). by rewrite lookup_take_lt by lia.
    + rewrite !lookup_app_r; rewrite ?length_take; [|lia..].
      rewrite lookup_drop. f_equal. lia.
Qed.

Lemma slice_0 off l : slice off 0 l = [].
Proof. unfold slice. by rewrite firstn_O. Qed.

Lemma splice_all bs l : length bs = length l -> splice 0 bs l = bs.
Proof. intros H. unfold splice. rewrite firstn_O. simpl. by rewrite H, drop_all, app_nil_r. Qed.

Lemma slice_all l : slice 0 (length l) l = l.
Proof. unfold slice. by rewrite drop_0, firstn_all. Qed.

Lemma slice_split off n m l :
  slice off (n + m) l = slice off n l ++ slice (off + n) m l.
Proof. unfold slice. rewrite <- drop_drop. symmetry. apply take_take_drop. Qed.

Lemma Forall_slice (P : A -> Prop) off n l : Forall P l -> Forall P (slice off n l).
Proof. intros. by apply Forall_take, Forall_drop. Qed.

Lemma slice_app_l off n l l' :
  (off + n ≤ length l)%nat -> slice off n (l ++ l') = slice off n l.
Proof.
  intros. unfold slice. rewrite drop_app_le by lia. rewrite take_app_le; [done|].
  rewrite length_drop. lia.
Qed.

Lemma slice_app_r off n l l' :
  (length l ≤ off)%nat -> slice off n (l ++ l') = slice (off - length l) n l'.
Proof. intros. unfold slice. by rewrite drop_app_ge by lia. Qed.

Lemma splice_splice_end off bs bs' l :
  (off + length bs + length bs' ≤ length l)%nat ->
  splice (off + length bs) bs' (splice off bs l) = splice off (bs ++ bs') l.
Proof.
  intros. apply list_eq. intros i.
  rewrite !lookup_splice by (rewrite ?length_app, ?length_splice by lia; lia).
  rewrite length_app. repeat case_decide; try lia; [| |done].
  - rewrite lookup_app_r by lia. f_equal. lia.
  - by rewrite lookup_app_l by lia.
Qed.
End slices.

#[export] Hint Resolve le_bytes_ok Forall_slice : words.
#[export] Hint Rewrite @length_app @length_insert @length_replicate @length_fmap @length_le_bytes : lengths.
#[export] Hint Rewrite @length_slice @length_splice using lia : lengths.

(** Linear arithmetic on the lengths of lists. *)
Ltac len := unfold Zlen in *; autorewrite with lengths in *; simpl length in *; lia.

(** ** Byte strings written as text *)
Definition bytes_of_string (s : string) : list Z :=
  (fun c => Z.of_N (Ascii.N_of_ascii c)) <$> String.list_ascii_of_string s.

Lemma bytes_of_string_ok s : bytes_ok (bytes_of_string s).
Proof.
  apply Forall_fmap, Forall_forall. intros c _. simpl. unfold is_word.
  pose proof (Ascii.N_ascii_bounded c). change (2 ^ 8) with 256. lia.
Qed.

#[export] Hint Resolve bytes_of_string_ok : words.

(** ** Bit fields *)
Lemma land_shiftl_low a b n : 0 ≤ n -> 0 ≤ b < 2 ^ n -> Z.land (Z.shiftl a n) b = 0.
Proof.
  intros Hn Hb. apply Z.bits_inj'. intros i Hi. rewrite Z.land_spec, Z.bits_0.
  destruct (Z.ltb_spec i n).
  - rewrite Z.shiftl_spec_low by done. done.
  - rewrite <- (Z.mod_small b (2 ^ n)) by done.
    rewrite Z.mod_pow2_bits_high by lia. apply andb_false_r.
Qed.

Lemma lor_shiftl_add a b n : 0 ≤ n -> 0 ≤ b < 2 ^ n -> Z.lor (Z.shiftl a n) b = a * 2 ^ n + b.
Proof.
  intros Hn Hb. rewrite <- Z.lxor_lor by by apply land_shiftl_low.
  rewrite <- Z.add_nocarry_lxor by by apply land_shiftl_low. by rewrite Z.shiftl_mul_pow2.
Qed.

Lemma land_ones_mod a n m : 0 ≤ n -> m = 2 ^ n - 1 -> Z.land a m = a mod 2 ^ n.
Proof. intros Hn ->. rewrite <- Z.land_ones by done. f_equal. rewrite Z.ones_equiv. lia. Qed.

(** The two 16-bit halves of a 32-bit number, split and joined again. *)
Lemma halves_join c :
  is_word 32 c ->
  Z.lor (Z.shiftl (Z.land (Z.shiftr c 16) 0xFFFF) 16) (Z.land c 0xFFFF) = c.
Proof.
  unfold is_word. intros Hc. rewrite !(land_ones_mod _ 16) by done.
  rewrite Z.shiftr_div_pow2 by done.
  rewrite (Z.mod_small (c / 2 ^ 16)) by (split; [apply Z.div_pos; lia|apply Z.div_lt_upper_bound; lia]).
  rewrite lor_shiftl_add by (done || by apply Z.mod_pos_bound).
  rewrite (Z.mul_comm (c / 2 ^ 16)). symmetry. by apply Z.div_mod.
Qed.

(** ** Counting *)
Fixpoint count {A} (p : A -> bool) (l : list A) : nat :=
  match l with
  | [] => O
  | x :: l' => if p x then S (count p l') else count p l'
  end.

Section count.
Context {A : Type}.
Implicit Types (p : A -> bool) (l : list A).

Lemma count_app p l l' : count p (l ++ l') = (count p l + count p l')%nat.
Proof. induction l; simpl; [done|]. destruct (p a); simpl; lia. Qed.

Lemma count_le p l : (count p l ≤ length l)%nat.
Proof. induction l; simpl; [done|]. destruct (p a); lia. Qed.

Lemma count_zero p l : count p l = 0%nat <-> first_idx p l = length l.
Proof. induction l; simpl; [done|]. destruct (p a); lia. Qed.

Lemma count_pos p l : (0 < count p l)%nat <-> (first_idx p l < length l)%nat.
Proof. pose proof (count_zero p l). pose proof (first_idx_le p l). lia. Qed.

Lemma count_drop_first p l :
  count p (drop (S (first_idx p l)) l) = pred (count p l).
Proof.
  induction l as [|a l IH]; simpl; [done|]. destruct (p a); simpl; [by rewrite drop_0|done].
Qed.

Lemma count_insert p l (i : nat) x y :
  l !! i = Some y ->
  (count p (<[i := x]> l) + (if p y then 1 else 0) = count p l + (if p x then 1 else 0))%nat.
Proof.
  revert i. induction l as [|a l IH]; intros i Hi; [done|].
  destruct i as [|i]; simplify_eq/=.
  - destruct (p x), (p y); lia.
  - specialize (IH i Hi). destruct (p a); lia.
Qed.
End count.
