(* ===== verification/CString.v ===== *)
(** * string.c: byte-buffer and string routines

    A pointer is the list of bytes from the address it holds up to the end of
    the object it points into; reading or writing past that end is [Ub].
    [memmove] is the exception: its source and destination may overlap, so
    both are offsets into one memory. *)
From S2P Require Import Prelude.

Module CString.

(** ** Definitions *)

Definition memset (s : list Z) (c : Z) (n : nat) : res (list Z) :=
  for_up n 0 (fun i buf => arr_set buf i (u8 c)) s.

Definition memcpy (dest src : list Z) (n : nat) : res (list Z) :=
  for_up n 0 (fun i dstbuf => b ← arr_get src i; arr_set dstbuf i b) dest.

Fixpoint memcmp_from (k : nat) (i : Z) (buf1 buf2 : list Z) : res Z :=
  match k with
  | O => Ret 0
  | S k' =>
      a ← arr_get buf1 i;
      b ← arr_get buf2 i;
      if a <? b then Ret (-1)
      else if b <? a then Ret 1
      else memcmp_from k' (i + 1) buf1 buf2
  end.

Definition memcmp (s1 s2 : list Z) (n : nat) : res Z := memcmp_from n 0 s1 s2.

(** The loop [for (i = n; i != 0; i--) dstbuf[i-1] = srcbuf[i-1]]. *)
Fixpoint move_down (k : nat) (mem : list Z) (dest src : Z) : res (list Z) :=
  match k with
  | O => Ret mem
  | S k' =>
      b ← arr_get mem (src + Z.of_nat k');
      mem' ← arr_set mem (dest + Z.of_nat k') b;
      move_down k' mem' dest src
  end.

Definition memmove (mem : list Z) (dest src : Z) (n : nat) : res (list Z) :=
  if dest <? src
  then for_up n 0 (fun i m => b ← arr_get m (src + i); arr_set m (dest + i) b) mem
  else move_down n mem dest src.

Definition strlen (str : list Z) : res Z :=
  scan_while (S (length str)) (fun i => c ← arr_get str i; Ret (negb (c =? 0))) 0.

Definition strclear (str : list Z) (n : nat) : res (list Z) :=
  for_up n 0 (fun i ptr => arr_set ptr i 0) str.

(** ["0123456789abcdef"] with its terminator. *)
Definition itoa_digits : list Z :=
  [48; 49; 50; 51; 52; 53; 54; 55; 56; 57; 97; 98; 99; 100; 101; 102; 0].

(** [for (; val && i; --i, val /= base)], entered with [i = k]; the result is
    the buffer and the final [i].  [/] and [%] truncate, and trap on a zero
    divisor and on [INT_MIN / -1]. *)
Fixpoint itoa_loop (k : nat) (val base : Z) (buf : list Z) : res (list Z * Z) :=
  match k with
  | O => Ret (buf, 0)
  | S k' =>
      if val =? 0 then Ret (buf, Z.of_nat k)
      else if (base =? 0) || ((val =? - 2 ^ 31) && (base =? -1)) then Ub
      else
        d ← arr_get itoa_digits (Z.rem val base);
        buf' ← arr_set buf (Z.of_nat k) d;
        itoa_loop k' (Z.quot val base) base buf'
  end.

(** The static 32-byte buffer is threaded through; the returned pointer
    [&buf[i+1]] is the offset [i + 1]. *)
Definition itoa_buf0 : list Z := replicate 32 0.

Definition itoa (buf : list Z) (val base : Z) : res (list Z * Z) :=
  r ← itoa_loop 30 val base buf;
  Ret (r.1, r.2 + 1).

(** The bytes of the C string that starts the buffer. *)
Fixpoint cstr (l : list Z) : list Z :=
  match l with
  | [] => []
  | c :: l' => if c =? 0 then [] else c :: cstr l'
  end.

(** ** The loops as list functions *)

Lemma arr_set_splice_end (l bs : list Z) (off : nat) (i x : Z) :
  i = Z.of_nat (off + length bs) -> (off + length bs < length l)%nat ->
  arr_set (splice off bs l) i x = Ret (splice off (bs ++ [x]) l).
Proof.
  intros -> Hlen. rewrite arr_set_in by (unfold Zlen; rewrite length_splice by lia; lia).
  f_equal. apply list_eq. intros j. rewrite Nat2Z.id.
  rewrite lookup_splice by len. rewrite length_app. simpl.
  destruct (decide (j = off + length bs)%nat) as [->|Hj].
  - rewrite list_lookup_insert_eq by (rewrite length_splice by lia; lia).
    rewrite decide_True by lia. by rewrite list_lookup_middle by lia.
  - rewrite list_lookup_insert_ne by done. rewrite lookup_splice by lia.
    repeat case_decide; try lia; [|done]. by rewrite lookup_app_l by lia.
Qed.

Lemma arr_set_splice_front (l bs : list Z) (off : nat) (i x : Z) :
  i = Z.of_nat off -> (off + S (length bs) ≤ length l)%nat ->
  arr_set (splice (S off) bs l) i x = Ret (splice off (x :: bs) l).
Proof.
  intros -> Hlen. rewrite arr_set_in by (unfold Zlen; rewrite length_splice by lia; lia).
  f_equal. apply list_eq. intros j. rewrite Nat2Z.id.
  rewrite lookup_splice by (simpl; lia). simpl.
  destruct (decide (j = off)) as [->|Hj].
  - rewrite list_lookup_insert_eq by (rewrite length_splice by lia; lia).
    rewrite decide_True by lia. by replace (off - off)%nat with 0%nat by lia.
  - rewrite list_lookup_insert_ne by done. rewrite lookup_splice by lia.
    repeat case_decide; try lia; [|done].
    replace (j - off)%nat with (S (j - S off)) by lia. done.
Qed.

Lemma splice_nil (l : list Z) off : splice off [] l = l.
Proof. unfold splice. simpl. by rewrite Nat.add_0_r, take_drop. Qed.

Lemma slice_snoc (l : list Z) off n x :
  l !! (off + n)%nat = Some x -> slice off (S n) l = slice off n l ++ [x].
Proof.
  intros H. replace (S n) with (n + 1)%nat by lia. rewrite slice_split. f_equal.
  unfold slice. erewrite drop_S by done. by rewrite firstn_cons, firstn_O.
Qed.

Lemma slice_cons (l : list Z) off n x :
  l !! off = Some x -> slice off (S n) l = x :: slice (S off) n l.
Proof. intros H. unfold slice. by erewrite drop_S by done. Qed.

Lemma memcpy_eq dest src n :
  (n ≤ length dest)%nat -> (n ≤ length src)%nat ->
  memcpy dest src n = Ret (splice 0 (take n src) dest).
Proof.
  intros Hd Hs. unfold memcpy.
  destruct (for_up_inv (fun i d => d = splice 0 (take (Z.to_nat i) src) dest)
    (fun i d => b ← arr_get src i; arr_set d i b) n 0 dest) as (r & -> & ->);
    [by rewrite firstn_O, splice_nil| |by rewrite Z.add_0_l, Nat2Z.id].
  intros j s Hj ->. destruct (arr_get_is src j) as (x & -> & Hx); [unfold Zlen; lia|].
  exists (splice 0 (take (Z.to_nat (j + 1)) src) dest). split; [|done]. simpl.
  rewrite arr_set_splice_end; rewrite ?length_take; [|lia..].
  replace (Z.to_nat (j + 1)) with (S (Z.to_nat j)) by lia. by erewrite take_S_r.
Qed.

Lemma memset_eq s c n :
  (n ≤ length s)%nat -> memset s c n = Ret (replicate n (u8 c) ++ drop n s).
Proof.
  intros Hn. unfold memset.
  destruct (for_up_inv (fun i d => d = splice 0 (replicate (Z.to_nat i) (u8 c)) s)
    (fun i d => arr_set d i (u8 c)) n 0 s) as (r & -> & ->);
    [by rewrite splice_nil| |].
  - intros j d Hj ->. eexists. split; [|done].
    rewrite arr_set_splice_end; rewrite ?length_replicate; [|lia..].
    replace (Z.to_nat (j + 1)) with (S (Z.to_nat j)) by lia. by rewrite replicate_S_end.
  - f_equal. unfold splice. rewrite length_replicate, Z.add_0_l, Nat2Z.id. done.
Qed.

Lemma strclear_memset s n : strclear s n = memset s 0 n.
Proof. reflexivity. Qed.

(** ** Properties *)

Lemma lookup_splice_old (l bs : list Z) off i :
  (off + length bs ≤ length l)%nat -> (i < off \/ off + length bs ≤ i)%nat ->
  splice off bs l !! i = l !! i.
Proof. intros. rewrite lookup_splice by done. by rewrite decide_False by lia. Qed.

Lemma move_up_spec (mem : list Z) dest src n :
  0 ≤ dest < src -> src + Z.of_nat n ≤ Zlen mem ->
  for_up n 0 (fun i m => b ← arr_get m (src + i); arr_set m (dest + i) b) mem =
    Ret (splice (Z.to_nat dest) (slice (Z.to_nat src) n mem) mem).
Proof.
  unfold Zlen. intros Hd Hs.
  destruct (for_up_inv (fun i m => m = splice (Z.to_nat dest) (slice (Z.to_nat src) (Z.to_nat i) mem) mem)
    (fun i m => b ← arr_get m (src + i); arr_set m (dest + i) b) n 0 mem) as (r & -> & ->);
    [by rewrite slice_0, splice_nil| |by rewrite Z.add_0_l, Nat2Z.id].
  intros j m Hj ->. destruct (arr_get_is mem (src + j)) as (x & _ & Hx); [unfold Zlen; lia|].
  exists (splice (Z.to_nat dest) (slice (Z.to_nat src) (Z.to_nat (j + 1)) mem) mem).
  split; [|done].
  rewrite (arr_get_lookup _ _ x); [simpl|lia|].
  - rewrite arr_set_splice_end; rewrite ?length_slice by lia; [|lia..].
    replace (Z.to_nat (j + 1)) with (S (Z.to_nat j)) by lia.
    erewrite slice_snoc; [done|]. rewrite <- Hx. f_equal. lia.
  - rewrite lookup_splice_old; rewrite ?length_slice by lia; [done|lia..].
Qed.

Lemma move_down_spec (mem : list Z) dest src n k :
  0 ≤ src ≤ dest -> dest + Z.of_nat n ≤ Zlen mem -> (k ≤ n)%nat ->
  move_down k (splice (Z.to_nat dest + k) (slice (Z.to_nat src + k) (n - k) mem) mem) dest src =
    Ret (splice (Z.to_nat dest) (slice (Z.to_nat src) n mem) mem).
Proof.
  unfold Zlen. intros Hd Hs. induction k as [|k IH]; intros Hk; cbn [move_down].
  - by rewrite !Nat.add_0_r, Nat.sub_0_r.
  - destruct (arr_get_is mem (src + Z.of_nat k)) as (x & _ & Hx); [unfold Zlen; lia|].
    rewrite (arr_get_lookup _ _ x); [|lia|].
    2: { rewrite lookup_splice_old; rewrite ?length_slice by lia; [done|lia..]. }
    simpl. replace (Z.to_nat dest + S k)%nat with (S (Z.to_nat dest + k)) by lia.
    rewrite arr_set_splice_front; rewrite ?length_slice by lia; [|lia..].
    simpl. rewrite <- IH by lia. do 2 f_equal.
    replace (n - k)%nat with (S (n - S k)) by lia. erewrite slice_cons.
    + do 2 f_equal. lia.
    + rewrite <- Hx. f_equal. lia.
Qed.

(** [memmove] copies correctly whatever the overlap of source and
    destination: afterwards the destination range holds the bytes the source
    range held before, and every other byte is unchanged. *)
Theorem memmove_overlap_correct (mem : list Z) (dest src : Z) (n : nat) :
  0 ≤ dest -> 0 ≤ src -> dest + Z.of_nat n ≤ Zlen mem -> src + Z.of_nat n ≤ Zlen mem ->
  memmove mem dest src n = Ret (splice (Z.to_nat dest) (slice (Z.to_nat src) n mem) mem).
Proof.
  intros Hd Hs Hdn Hsn. unfold memmove. destruct (Z.ltb_spec dest src).
  - apply move_up_spec; lia.
  - rewrite <- (move_down_spec mem dest src n n) by lia.
    by rewrite Nat.sub_diag; rewrite slice_0, splice_nil.
Qed.

Lemma memmove_overlap_correct_witness :
  memmove [1; 2; 3; 4; 5; 6] 2 0 4 = Ret [1; 2; 1; 2; 3; 4] /\
  memmove [1; 2; 3; 4; 5; 6] 0 2 4 = Ret [3; 4; 5; 6; 5; 6].
Proof.
  split.
  - rewrite (memmove_overlap_correct [1; 2; 3; 4; 5; 6] 2 0 4); unfold Zlen; simpl; (reflexivity || lia).
  - rewrite (memmove_overlap_correct [1; 2; 3; 4; 5; 6] 0 2 4); unfold Zlen; simpl; (reflexivity || lia).
Defined.

Lemma memcmp_from_spec n i (s1 s2 : list Z) :
  (i + n ≤ length s1)%nat -> (i + n ≤ length s2)%nat ->
  exists r, memcmp_from n (Z.of_nat i) s1 s2 = Ret r /\
    ((r = 0 /\ slice i n s1 = slice i n s2) \/
     exists j a b, (i ≤ j < i + n)%nat /\ slice i (j - i) s1 = slice i (j - i) s2 /\
       s1 !! j = Some a /\ s2 !! j = Some b /\ ((a < b /\ r = -1) \/ (b < a /\ r = 1))).
Proof.
  revert i. induction n as [|n IH]; intros i H1 H2; cbn [memcmp_from]; [eauto|].
  destruct (lookup_lt_is_Some_2 s1 i) as [a Ha]; [lia|].
  destruct (lookup_lt_is_Some_2 s2 i) as [b Hb]; [lia|].
  rewrite (arr_get_lookup s1 (Z.of_nat i) a), (arr_get_lookup s2 (Z.of_nat i) b)
    by (rewrite ?Nat2Z.id; lia || done). simpl.
  assert (Hii : slice i (i - i) s1 = slice i (i - i) s2) by (by rewrite Nat.sub_diag, !slice_0).
  destruct (Z.ltb_spec a b); [eexists; split; [done|]; right; exists i, a, b; rewrite Hii; split_and!; (lia || auto)|].
  destruct (Z.ltb_spec b a); [eexists; split; [done|]; right; exists i, a, b; rewrite Hii; split_and!; (lia || auto)|].
  assert (b = a) as -> by lia.
  destruct (IH (S i)) as (r & Hr & Hspec); [lia..|]. exists r.
  replace (Z.of_nat i + 1) with (Z.of_nat (S i)) by lia. split; [done|].
  destruct Hspec as [[-> Heq]|(j & x & y & Hj & Heq & Hx & Hy & Hc)].
  - left. split; [done|]. by rewrite (slice_cons s1 _ _ a), (slice_cons s2 _ _ a), Heq by done.
  - right. exists j, x, y. split; [lia|]. split; [|auto].
    replace (j - i)%nat with (S (j - S i)) by lia.
    by rewrite (slice_cons s1 _ _ a), (slice_cons s2 _ _ a), Heq by done.
Qed.

(** [memcmp] is [0] exactly on equal prefixes; otherwise its sign is the order
    of the first bytes that differ. *)
Lemma memcmp_spec (s1 s2 : list Z) n :
  (n ≤ length s1)%nat -> (n ≤ length s2)%nat ->
  exists r, memcmp s1 s2 n = Ret r /\
    ((r = 0 /\ take n s1 = take n s2) \/
     exists j a b, (j < n)%nat /\ take j s1 = take j s2 /\
       s1 !! j = Some a /\ s2 !! j = Some b /\ ((a < b /\ r = -1) \/ (b < a /\ r = 1))).
Proof.
  intros H1 H2. destruct (memcmp_from_spec n 0 s1 s2) as (r & Hr & Hs); [lia..|].
  exists r. split; [done|]. unfold slice in Hs. rewrite !drop_0 in Hs.
  destruct Hs as [?|(j & a & b & Hj & Heq & ?)]; [by left|right].
  exists j, a, b. rewrite ?Nat.sub_0_r, ?drop_0 in Heq. split; [lia|done].
Qed.

Lemma memcmp_eqb (s1 s2 : list Z) n :
  (n ≤ length s1)%nat -> (n ≤ length s2)%nat ->
  (r ← memcmp s1 s2 n; Ret (r =? 0)) = Ret (bool_decide (take n s1 = take n s2)).
Proof.
  intros H1 H2. destruct (memcmp_spec s1 s2 n) as (r & -> & [[-> ->]|H]); [done..| |]; simpl.
  - by rewrite bool_decide_true.
  - destruct H as (j & a & b & Hj & _ & Ha & Hb & Hc). rewrite bool_decide_false.
    + f_equal. apply Z.eqb_neq. lia.
    + intros Heq. apply (f_equal (.!! j)) in Heq. rewrite !lookup_take_lt in Heq by done.
      rewrite Ha, Hb in Heq. simplify_eq. lia.
Qed.

Lemma strlen_scan str k i :
  (i + k = S (length str))%nat -> (k > 0)%nat ->
  scan_while k (fun i => c ← arr_get str i; Ret (negb (c =? 0))) (Z.of_nat i) =
    if decide (0 ∈ drop i str) then Ret (Z.of_nat i + Zlen (cstr (drop i str))) else Ub.
Proof.
  revert i. induction k as [|k IH]; intros i Hk Hpos; [by apply Nat.lt_irrefl in Hpos|]. cbn [scan_while].
  destruct (str !! i) as [c|] eqn:Hi.
  - rewrite (arr_get_lookup _ _ c) by (rewrite ?Nat2Z.id; lia || done). rewrite !bind_ret.
    pose proof (lookup_lt_Some _ _ _ Hi) as Hlt. erewrite (drop_S _ _ i) by done. cbn [cstr].
    destruct (Z.eqb_spec c 0) as [->|Hc]; cbn [negb].
    + rewrite decide_True by set_solver. f_equal. unfold Zlen. simpl. lia.
    + replace (Z.of_nat i + 1) with (Z.of_nat (S i)) by lia. rewrite IH by lia.
      assert (0 ∈ c :: drop (S i) str <-> 0 ∈ drop (S i) str) as Hiff by (rewrite elem_of_cons; naive_solver).
      repeat case_decide; try tauto. f_equal. unfold Zlen. simpl. lia.
  - apply lookup_ge_None_1 in Hi. rewrite arr_get_oob by (unfold Zlen; lia). simpl.
    rewrite drop_ge by lia. by rewrite decide_False by set_solver.
Qed.

(** [strlen] returns the length of the string up to its first NUL, and
    runs off the object exactly when the object holds no NUL. *)
Theorem strlen_correct (str : list Z) :
  strlen str = if decide (0 ∈ str) then Ret (Zlen (cstr str)) else Ub.
Proof.
  unfold strlen. change 0 with (Z.of_nat 0) at 2. rewrite strlen_scan by lia. by rewrite drop_0.
Qed.

(** Reading a number back from its digits. *)
Definition digit_val (c : Z) : Z := if c <? 58 then c - 48 else c - 87.
Definition parse_num (base : Z) (ds : list Z) : Z :=
  foldl (fun acc c => acc * base + digit_val c) 0 ds.

Lemma itoa_digit r :
  0 ≤ r < 16 ->
  exists d, arr_get itoa_digits r = Ret d /\ digit_val d = r /\ d ≠ 0 /\ (d = 48 <-> r = 0).
Proof.
  intros Hr. assert (r ∈ seqZ 0 16) as Hin by (apply elem_of_seqZ; lia).
  repeat (apply elem_of_cons in Hin as [->|Hin];
    [eexists; split; [reflexivity|by vm_compute; repeat split]|]).
  by apply elem_of_nil in Hin.
Qed.

Lemma itoa_loop_spec base : 2 ≤ base ≤ 16 -> forall k val (buf : list Z),
  0 ≤ val < 2 ^ 31 -> val < base ^ Z.of_nat k -> (k < length buf)%nat ->
  exists ds i, itoa_loop k val base buf = Ret (splice (S (Z.to_nat i)) ds buf, i) /\
    0 ≤ i /\ (Z.to_nat i + length ds = k)%nat /\
    Forall (.≠ 0) ds /\ parse_num base ds = val /\ head ds ≠ Some 48.
Proof.
  intros Hb. induction k as [|k IH]; intros val buf Hv Hlt Hlen; cbn [itoa_loop].
  - exists [], 0. rewrite splice_nil. split_and!; try done. change (base ^ Z.of_nat 0) with 1 in Hlt. unfold parse_num. simpl. lia.
  - destruct (Z.eqb_spec val 0) as [->|Hnz].
    { exists [], (Z.of_nat (S k)). rewrite splice_nil. split_and!; simpl; (done || lia). }
    replace ((base =? 0) || _) with false
      by (symmetry; apply orb_false_intro; [|apply andb_false_intro1]; apply Z.eqb_neq; lia).
    rewrite Z.rem_mod_nonneg, Z.quot_div_nonneg by lia.
    destruct (itoa_digit (val mod base)) as (d & -> & Hd & Hd0 & Hd48); [pose proof (Z.mod_pos_bound val base); lia|].
    rewrite bind_ret, arr_set_in, bind_ret, Nat2Z.id by (unfold Zlen; lia).
    assert (Hq : 0 ≤ val / base < val) by (split; [apply Z.div_pos; lia|apply Z.div_lt; lia]).
    destruct (IH (val / base) (<[S k := d]> buf)) as (ds & i & -> & Hi & Hk & Hnz' & Hp & Hh);
      [lia| |rewrite length_insert; lia|].
    { apply Z.div_lt_upper_bound; [lia|]. rewrite Nat2Z.inj_succ, Z.pow_succ_r in Hlt by lia. lia. }
    exists (ds ++ [d]), i. split_and!; [| done | len | | |].
    + do 2 f_equal. apply list_eq. intros j.
      rewrite !lookup_splice by (rewrite ?length_app, ?length_insert; simpl; lia).
      rewrite length_app. simpl. destruct (decide (j = S k)) as [->|Hj].
      * rewrite decide_False, decide_True by lia. rewrite list_lookup_insert_eq by lia.
        rewrite lookup_app_r by lia. by replace (S k - S (Z.to_nat i) - length ds)%nat with 0%nat by lia.
      * rewrite list_lookup_insert_ne by done. repeat case_decide; try lia; [|done].
        by rewrite lookup_app_l by lia.
    + apply Forall_app. split; [done|]. by apply Forall_singleton.
    + unfold parse_num in *. rewrite foldl_app, Hp. simpl. rewrite Hd. pose proof (Z.div_mod val base). lia.
    + destruct ds as [|c ds]; [|done]. simpl. intros [= ->].
      unfold parse_num in Hp. simpl in Hp. pose proof (Z.div_mod val base). destruct Hd48 as [Hd48 _]. specialize (Hd48 eq_refl). lia.
Qed.

Lemma cstr_app_nul ds l : Forall (.≠ 0) ds -> cstr (ds ++ 0 :: l) = ds.
Proof. induction 1 as [|d ds Hd _ IH]; [done|]. cbn. apply Z.eqb_neq in Hd. by rewrite Hd, IH. Qed.

(** for a positive number of at most 30 digits [itoa] returns a pointer to a
    string of digits without a leading zero that reads back as that number,
    whatever digits earlier calls left in the static buffer. *)
Theorem itoa_roundtrip (buf : list Z) (val base : Z) :
  2 ≤ base ≤ 16 -> 0 < val < 2 ^ 31 -> val < base ^ 30 ->
  length buf = 32%nat -> buf !! 31%nat = Some 0 ->
  exists buf' p s, itoa buf val base = Ret (buf', p) /\ length buf' = 32%nat /\ buf' !! 31%nat = Some 0 /\
    s = cstr (drop (Z.to_nat p) buf') /\ parse_num base s = val /\ s ≠ [] /\ head s ≠ Some 48.
Proof.
  intros Hb Hv Hlt Hlen Hend. unfold itoa.
  destruct (itoa_loop_spec base Hb 30 val buf) as (ds & i & -> & Hi & Hk & Hnz & Hp & Hh); [lia|done|lia|].
  simpl. eexists _, _, ds.
  assert (Hl : (S (Z.to_nat i) + length ds ≤ length buf)%nat) by lia.
  split_and!; [done|by rewrite length_splice| | |done| |done].
  - rewrite lookup_splice_old by lia. done.
  - replace (Z.to_nat (i + 1)) with (S (Z.to_nat i)) by lia.
    unfold splice. rewrite drop_app_ge by (rewrite length_take; lia).
    rewrite length_take, Nat.min_l, Nat.sub_diag, drop_0 by lia.
    replace (S (Z.to_nat i) + length ds)%nat with 31%nat by lia.
    erewrite drop_S by done. by rewrite cstr_app_nul.
  - intros ->. unfold parse_num in Hp. simpl in Hp. lia.
Qed.

Lemma itoa_roundtrip_witness :
  exists buf' p s, itoa itoa_buf0 2024 10 = Ret (buf', p) /\ length buf' = 32%nat /\ buf' !! 31%nat = Some 0 /\
    s = cstr (drop (Z.to_nat p) buf') /\ parse_num 10 s = 2024 /\ s ≠ [] /\ head s ≠ Some 48.
Proof. apply (itoa_roundtrip itoa_buf0 2024 10); (lia || reflexivity). Defined.

(** [itoa] of zero is the empty string at the end of the buffer, for any base. *)
Lemma itoa_zero (buf : list Z) (base : Z) : itoa buf 0 base = Ret (buf, 31).
Proof. reflexivity. Qed.

End CString.
