(* ===== verification/BlockDevice.v ===== *)
(** * The block device interface and the memory image of the inserter

    fat32.c is linked against one of two implementations of [read_blocks] and
    [write_blocks]: the ATA driver of disk.c in the kernel, and the array
    [image_storage] of external-inserter.c in the host tool.  [BlockDevice] is
    the pair of operations fat32.c calls and [BlockDeviceSpec] what it relies
    on; [Inserter] implements both with the memory image. *)
From S2P Require Import Prelude.

Definition BLOCK_SIZE : Z := 512.

(** [read_blocks d lba n]: the bytes stored at [ptr] and the device after the
    call.  [write_blocks d ptr lba n]: [ptr] is the object from the pointer on. *)
Class BlockDevice (D : Type) := {
  read_blocks : D -> Z -> Z -> res (list Z * D);
  write_blocks : D -> list Z -> Z -> Z -> res D
}.

Class BlockDeviceSpec (D : Type) `{!BlockDevice D} := {
  sector : D -> Z -> list Z;
  sectors : D -> Z;
  dev_ok : D -> Prop;
  sector_ok d k : dev_ok d -> 0 ≤ k < sectors d ->
    length (sector d k) = 512%nat /\ bytes_ok (sector d k);
  read_blocks_spec d lba n :
    dev_ok d -> 0 ≤ lba -> 0 < n < 256 -> lba + n ≤ sectors d ->
    exists d', read_blocks d lba n = Ret (concat (sector d <$> seqZ lba n), d') /\
      dev_ok d' /\ sectors d' = sectors d /\
      (forall k, 0 ≤ k < sectors d -> sector d' k = sector d k);
  write_blocks_spec d bs lba n :
    dev_ok d -> 0 ≤ lba -> 0 < n < 256 -> lba + n ≤ sectors d ->
    512 * n ≤ Zlen bs -> bytes_ok bs ->
    exists d', write_blocks d bs lba n = Ret d' /\ dev_ok d' /\ sectors d' = sectors d /\
      (forall k, 0 ≤ k < sectors d -> sector d' k =
         if decide (lba ≤ k < lba + n)
         then slice (Z.to_nat (512 * (k - lba))) 512 bs else sector d k)
}.

Module Inserter.

(** [image_storage]: the malloc'ed array, as its rows of [BLOCK_SIZE] bytes
    (every access is a [memcpy] of one row at a multiple of [BLOCK_SIZE]). *)
Record image := Image { rows : list (list Z) }.

(** The index of the row at [image_storage + BLOCK_SIZE*(lba+i)]; both the sum
    and the product are 32-bit. *)
Definition row_index (lba i : Z) : Z := u32 (BLOCK_SIZE * u32 (lba + i)) / BLOCK_SIZE.

Definition read_blocks (img : image) (lba block_count : Z) : res (list Z * image) :=
  ptr ← for_up (Z.to_nat block_count) 0
    (fun i ptr => row ← arr_get (rows img) (row_index lba i); Ret (ptr ++ row)) [];
  Ret (ptr, img).

Definition write_blocks (img : image) (ptr : list Z) (lba block_count : Z) : res image :=
  for_up (Z.to_nat block_count) 0
    (fun i img =>
       if decide (BLOCK_SIZE * (i + 1) ≤ Zlen ptr) then
         r ← arr_set (rows img) (row_index lba i) (slice (Z.to_nat (BLOCK_SIZE * i)) 512 ptr);
         Ret (Image r)
       else Ub) img.

#[global] Instance image_device : BlockDevice image := {
  BlockDevice.read_blocks := read_blocks;
  BlockDevice.write_blocks := write_blocks
}.

Definition row_ok (r : list Z) : Prop := length r = 512%nat /\ bytes_ok r.

(** An image of at most 2^23 rows (4 GiB); the tool allocates 8192 of them. *)
Definition image_ok (img : image) : Prop :=
  Forall row_ok (rows img) /\ Zlen (rows img) ≤ 2 ^ 23.

Definition image_sector (img : image) (k : Z) : list Z := default [] (rows img !! Z.to_nat k).

Definition blank (n : nat) : image := Image (replicate n (replicate 512 0)).

Lemma blank_ok n : (Z.of_nat n ≤ 2 ^ 23) -> image_ok (blank n).
Proof.
  intros Hn. split; simpl.
  - apply Forall_replicate. split; [apply length_replicate|]. by apply Forall_replicate.
  - unfold Zlen. rewrite length_replicate. lia.
Qed.

Lemma row_index_small lba i : 0 ≤ lba + i < 2 ^ 23 -> row_index lba i = lba + i.
Proof.
  intros H. unfold row_index, BLOCK_SIZE, wrap.
  rewrite (Z.mod_small (lba + i)) by lia. rewrite Z.mod_small by lia.
  rewrite Z.mul_comm. by apply Z.div_mul.
Qed.

Lemma seqZ_snoc m n : 0 ≤ n -> seqZ m (n + 1) = seqZ m n ++ [m + n].
Proof. intros. rewrite seqZ_app by lia. reflexivity. Qed.

Lemma image_read img lba n :
  image_ok img -> 0 ≤ lba -> 0 ≤ n -> lba + n ≤ Zlen (rows img) ->
  read_blocks img lba n = Ret (concat (image_sector img <$> seqZ lba n), img).
Proof.
  intros [_ Hlen] Hl Hn Hr. unfold read_blocks.
  destruct (for_up_inv (fun i ptr => ptr = concat (image_sector img <$> seqZ lba i))
    (fun i ptr => row ← arr_get (rows img) (row_index lba i); Ret (ptr ++ row))
    (Z.to_nat n) 0 []) as (r & -> & ->); [done| |simpl; by rewrite Z2Nat.id by lia].
  intros j ptr Hj ->. rewrite row_index_small by lia.
  destruct (arr_get_is (rows img) (lba + j)) as (row & -> & Hrow); [lia|]. simpl.
  eexists. split; [done|]. rewrite seqZ_snoc, fmap_app, concat_app by lia. simpl.
  rewrite app_nil_r. f_equal. unfold image_sector. by rewrite Hrow.
Qed.

Lemma image_write img ptr lba n :
  image_ok img -> 0 ≤ lba -> 0 ≤ n -> lba + n ≤ Zlen (rows img) ->
  512 * n ≤ Zlen ptr -> bytes_ok ptr ->
  exists img', write_blocks img ptr lba n = Ret img' /\ image_ok img' /\
    Zlen (rows img') = Zlen (rows img) /\
    forall k, 0 ≤ k -> image_sector img' k =
      if decide (lba ≤ k < lba + n)
      then slice (Z.to_nat (512 * (k - lba))) 512 ptr else image_sector img k.
Proof.
  intros Hok Hl Hn Hr Hp Hb. unfold write_blocks.
  set (P := fun i img' => image_ok img' /\ Zlen (rows img') = Zlen (rows img) /\
    forall k, 0 ≤ k -> image_sector img' k =
      if decide (lba ≤ k < lba + i)
      then slice (Z.to_nat (512 * (k - lba))) 512 ptr else image_sector img k).
  edestruct (for_up_inv P) as (r & Hrun & HP); [| |exists r; split; [exact Hrun|]].
  - split_and!; [done..|]. intros k Hk. by rewrite decide_False by lia.
  - intros j img' Hj ([Hrows Hmax] & HZ & Hsec). rewrite decide_True by (unfold BLOCK_SIZE; lia).
    rewrite row_index_small by lia. rewrite arr_set_in by lia. eexists. split; [reflexivity|].
    unfold BLOCK_SIZE. split_and!; simpl.
    + split; simpl; [|by rewrite Zlen_insert]. apply Forall_insert; [done|]. split.
      * apply length_slice. unfold Zlen in *. lia.
      * auto with words.
    + by rewrite Zlen_insert.
    + intros k Hk. unfold image_sector in *. simpl. destruct (decide (k = lba + j)) as [->|Hne].
      * rewrite list_lookup_insert_eq by (unfold Zlen in *; lia). simpl.
        rewrite decide_True by lia. do 2 f_equal. lia.
      * rewrite list_lookup_insert_ne by lia. rewrite Hsec by done.
        repeat case_decide; (lia || done).
  - rewrite Z.add_0_l, Z2Nat.id in HP by lia. exact HP.
Qed.

#[global, program] Instance image_spec : BlockDeviceSpec image := {
  sector := image_sector;
  sectors := fun img => Zlen (rows img);
  dev_ok := image_ok
}.
Next Obligation.
  intros img k [Hrows _] Hk. unfold image_sector.
  destruct (lookup_lt_is_Some_2 (rows img) (Z.to_nat k)) as [r Hr]; [unfold Zlen in *; lia|].
  rewrite Hr. simpl. by eapply Forall_lookup_1 in Hrows.
Qed.
Next Obligation.
  intros img lba n Hok Hl Hn Hr. exists img. split_and!; [|done..].
  apply image_read; (done || lia).
Qed.
Next Obligation.
  intros img bs lba n Hok Hl Hn Hr Hlen Hb.
  destruct (image_write img bs lba n) as (img' & ? & ? & ? & Hs); [done || lia..|].
  exists img'. split_and!; [done..|]. intros k Hk. apply Hs. lia.
Qed.

End Inserter.
