(* ===== verification/PortIO.v ===== *)
(** * portio.c: the x86 I/O ports

    The devices behind the ports are not part of the repository: a type [P] of
    their states with the four port instructions is a parameter of every
    driver.  The functions of portio.c truncate their operands to the widths
    of their parameters. *)
From S2P Require Import Prelude.

(** [inb], [outb], [inw] and [outw]; a read may change the device. *)
Class PortIO (P : Type) := {
  inb : P -> Z -> Z * P;
  outb : P -> Z -> Z -> P;
  inw : P -> Z -> Z * P;
  outw : P -> Z -> Z -> P
}.

Section portio.
Context {P : Type} `{!PortIO P}.
Implicit Types (p : P).

Definition out (p : P) (port data : Z) : P := outb p (u16 port) (u8 data).

(** [in] of the source. *)
Definition in_ (p : P) (port : Z) : Z * P :=
  let '(result, p) := inb p (u16 port) in (u8 result, p).

Definition out16 (p : P) (port data : Z) : P := outw p (u16 port) (u16 data).

Definition in16 (p : P) (port : Z) : Z * P :=
  let '(result, p) := inw p (u16 port) in (u16 result, p).

(** A sequence of bytes written to ports, in order. *)
Fixpoint outs (p : P) (l : list (Z * Z)) : P :=
  match l with
  | [] => p
  | (port, data) :: l' => outs (out p port data) l'
  end.

Lemma outs_app p l l' : outs p (l ++ l') = outs (outs p l) l'.
Proof. revert p. induction l as [|[port data] l IH]; intros p; simpl; [done|apply IH]. Qed.

(** [while (go (in (port)));], for at most [k] reads. *)
Fixpoint poll (k : nat) (port : Z) (go : Z -> bool) (p : P) : res P :=
  match k with
  | O => Hang
  | S k' => let '(v, p) := in_ p port in if go v then poll k' port go p else Ret p
  end.
End portio.

(** A machine that only records what is written to its ports, newest last;
    every read of a byte returns the last byte written to that port, 0 if
    there is none. *)
Module PortLog.
Definition log := list (Z * Z).

Fixpoint last_written (l : log) (port acc : Z) : Z :=
  match l with
  | [] => acc
  | (q, v) :: l' => last_written l' port (if q =? port then v else acc)
  end.

#[global] Instance log_ports : PortIO log := {
  inb := fun l port => (last_written l port 0, l);
  outb := fun l port v => l ++ [(port, v)];
  inw := fun l port => (last_written l port 0, l);
  outw := fun l port v => l ++ [(port, v)]
}.

Definition in_range (w : Z * Z) : Prop := is_word 16 w.1 /\ is_word 8 w.2.

(** On this machine a sequence of writes is appended to the log. *)
Lemma outs_log (l : log) ws : Forall in_range ws -> outs l ws = l ++ ws.
Proof.
  revert l. induction ws as [|[port v] ws IH]; intros l Hw; simpl; [by rewrite app_nil_r|].
  apply Forall_cons in Hw as [[Hp Hv] Hw]. rewrite IH by done. unfold out, outb. simpl.
  rewrite !wrap_small by done. by rewrite <- app_assoc.
Qed.
End PortLog.
