(* ===== verification/Ata.v ===== *)
(** * disk.c: the ATA PIO driver

    [Ata.read_blocks] and [Ata.write_blocks] talk to the controller through
    its ports.  [AtaDevice] states the part of the ATA PIO protocol the driver
    relies on, as laws on the controller's registers, its current transfer and
    its sectors; under these laws the driver implements the block device
    interface that fat32.c is written against. *)
From S2P Require Import Prelude BlockDevice PortIO.

Definition ATA_STATUS_BSY : Z := 0x80.
Definition ATA_STATUS_RDY : Z := 0x40.
Definition HALF_BLOCK_SIZE : Z := BLOCK_SIZE / 2.

Module Ata.
Section driver.
(** [polls]: how often a wait loop reads the status before it counts as hung. *)
Context {P : Type} `{!PortIO P} (polls : nat).

Definition ATA_busy_wait (p : P) : res P :=
  poll polls 0x1F7 (fun status => negb (Z.land status ATA_STATUS_BSY =? 0)) p.

Definition ATA_DRQ_wait (p : P) : res P :=
  poll polls 0x1F7 (fun status => Z.land status ATA_STATUS_RDY =? 0) p.

(** The register writes that start a command. *)
Definition start_command (p : P) (logical_block_address block_count command : Z) : P :=
  outs p [(0x1F6, Z.lor 0xE0 (Z.land (Z.shiftr logical_block_address 24) 0xF));
          (0x1F2, block_count);
          (0x1F3, logical_block_address);
          (0x1F4, Z.shiftr logical_block_address 8);
          (0x1F5, Z.shiftr logical_block_address 16);
          (0x1F7, command)].

(** The inner loop of [read_blocks]: the bytes of one block. *)
Definition read_block (p : P) : res (list Z * P) :=
  for_up (Z.to_nat HALF_BLOCK_SIZE) 0
    (fun _ '(target, p) => let '(w, p) := in16 p 0x1F0 in Ret (target ++ le_bytes 2 w, p)) ([], p).

Definition read_blocks (p : P) (logical_block_address block_count : Z) : res (list Z * P) :=
  p ← ATA_busy_wait p;
  for_up (Z.to_nat block_count) 0
    (fun _ '(target, p) =>
       p ← ATA_busy_wait p;
       p ← ATA_DRQ_wait p;
       '(block, p) ← read_block p;
       Ret (target ++ block, p)) ([], start_command p logical_block_address block_count 0x20).

(** [((uint16_t* ) ptr)[k]]. *)
Definition word_at (ptr : list Z) (k : Z) : res Z :=
  lo ← arr_get ptr (2 * k);
  hi ← arr_get ptr (2 * k + 1);
  Ret (lo + 256 * hi).

Definition write_block (ptr : list Z) (i : Z) (p : P) : res P :=
  for_up (Z.to_nat HALF_BLOCK_SIZE) 0
    (fun j p => w ← word_at ptr (HALF_BLOCK_SIZE * i + j); Ret (out16 p 0x1F0 w)) p.

Definition write_blocks (p : P) (ptr : list Z) (logical_block_address block_count : Z) : res P :=
  p ← ATA_busy_wait p;
  for_up (Z.to_nat block_count) 0
    (fun i p =>
       p ← ATA_busy_wait p;
       p ← ATA_DRQ_wait p;
       write_block ptr i p) (start_command p logical_block_address block_count 0x30).
End driver.

(** ** The controller *)

(** [ReadTransfer k n w]: sector [k] is being sent, [n] sectors are left with
    it, [w] of its words are already read.  [WriteTransfer k n got]: the bytes
    [got] of sector [k] have arrived. *)
Inductive transfer :=
| NoTransfer
| ReadTransfer (k n w : Z)
| WriteTransfer (k n : Z) (got : list Z).

Record controller := MkController {
  sector_count : Z;
  lba_low : Z;
  lba_mid : Z;
  lba_high : Z;
  device : Z;
  active : transfer;
  media : Z -> list Z
}.

Definition set_register (c : controller) (port v : Z) : controller :=
  MkController (if port =? 0x1F2 then v else sector_count c)
    (if port =? 0x1F3 then v else lba_low c) (if port =? 0x1F4 then v else lba_mid c)
    (if port =? 0x1F5 then v else lba_high c) (if port =? 0x1F6 then v else device c)
    (active c) (media c).

Definition set_active (c : controller) (t : transfer) : controller :=
  MkController (sector_count c) (lba_low c) (lba_mid c) (lba_high c) (device c) t (media c).

Definition set_media (c : controller) (k : Z) (bs : list Z) : controller :=
  MkController (sector_count c) (lba_low c) (lba_mid c) (lba_high c) (device c) (active c)
    (fun i => if i =? k then bs else media c i).

(** The 28-bit address in the registers; a count of 0 stands for 256. *)
Definition address (c : controller) : Z :=
  lba_low c + 2 ^ 8 * lba_mid c + 2 ^ 16 * lba_high c + 2 ^ 24 * (device c mod 16).
Definition blocks (c : controller) : Z := if sector_count c =? 0 then 256 else sector_count c.

Definition issue (c : controller) (command : Z) : controller :=
  set_active c (if command =? 0x20 then ReadTransfer (address c) (blocks c) 0
                else WriteTransfer (address c) (blocks c) []).

Definition next_read (k n w : Z) : transfer :=
  if w + 1 <? HALF_BLOCK_SIZE then ReadTransfer k n (w + 1)
  else if n =? 1 then NoTransfer else ReadTransfer (k + 1) (n - 1) 0.

Definition data_word (c : controller) (k w : Z) : Z := le_val (slice (Z.to_nat (2 * w)) 2 (media c k)).

Definition accept (c : controller) (k n : Z) (got : list Z) (v : Z) : controller :=
  let got := got ++ le_bytes 2 v in
  if Zlen got <? BLOCK_SIZE then set_active c (WriteTransfer k n got)
  else set_active (set_media c k got) (if n =? 1 then NoTransfer else WriteTransfer (k + 1) (n - 1) []).

(** The registers the driver sets, and the addressing mode bit it sets. *)
Definition is_register (port : Z) : Prop := 0x1F2 ≤ port ≤ 0x1F6.
Definition lba_mode (c : controller) : Prop := Z.testbit (device c) 6 = true.

(** [pending p] status reads still see BSY; it only grows when a command is
    issued or a sector is complete, and never beyond [patience]. *)
Class AtaDevice (P : Type) `{!PortIO P} := {
  view : P -> controller;
  pending : P -> nat;
  patience : nat;
  capacity : Z;
  capacity_28 : 0 ≤ capacity ≤ 2 ^ 28;
  pending_bound p : (pending p ≤ patience)%nat;
  status_law p : exists status p', inb p 0x1F7 = (status, p') /\ view p' = view p /\ is_byte status /\
    pending p' = pred (pending p) /\
    (pending p = 0%nat -> Z.testbit status 7 = false /\ Z.testbit status 6 = true) /\
    (pending p ≠ 0%nat -> Z.testbit status 7 = true);
  register_law p port v : pending p = 0%nat -> active (view p) = NoTransfer -> is_register port -> is_byte v ->
    view (outb p port v) = set_register (view p) port v /\ pending (outb p port v) = 0%nat;
  command_law p v : pending p = 0%nat -> active (view p) = NoTransfer -> lba_mode (view p) ->
    address (view p) + blocks (view p) ≤ capacity -> v = 0x20 \/ v = 0x30 ->
    view (outb p 0x1F7 v) = issue (view p) v;
  data_in_law p k n w : pending p = 0%nat -> active (view p) = ReadTransfer k n w ->
    exists p', inw p 0x1F0 = (data_word (view p) k w, p') /\ view p' = set_active (view p) (next_read k n w) /\
      (w + 1 < HALF_BLOCK_SIZE -> pending p' = 0%nat);
  data_out_law p k n got v : pending p = 0%nat -> active (view p) = WriteTransfer k n got -> is_word 16 v ->
    view (outw p 0x1F0 v) = accept (view p) k n got v /\
      (Zlen got + 2 < BLOCK_SIZE -> pending (outw p 0x1F0 v) = 0%nat)
}.
End Ata.
