(* ===== verification/AtaFacts.v ===== *)
(** * disk.c implements the block device interface

    Under the laws of [Ata.AtaDevice], and with more polls than the device can
    stay busy, [Ata.read_blocks] and [Ata.write_blocks] are total and move the
    addressed sectors: the instance at the end lets every theorem on fat32.c
    apply to the kernel's disk. *)
From S2P Require Import Prelude CString BlockDevice PortIO Ata.
Import Ata.

(** ** Bits and registers *)
Lemma land_bit v n : 0 ≤ n -> (Z.land v (2 ^ n) =? 0) = negb (Z.testbit v n).
Proof.
  intros Hn. assert (H : Z.land v (2 ^ n) = if Z.testbit v n then 2 ^ n else 0).
  { apply Z.bits_inj'. intros i Hi. rewrite Z.land_spec, Z.pow2_bits_eqb by done.
    destruct (Z.eqb_spec n i) as [->|Hne].
    - rewrite andb_true_r. destruct (Z.testbit v i); [by rewrite Z.pow2_bits_true|by rewrite Z.bits_0].
    - rewrite andb_false_r. destruct (Z.testbit v n); [by rewrite Z.pow2_bits_false|by rewrite Z.bits_0]. }
  rewrite H. destruct (Z.testbit v n); [|done]. pose proof (Z.pow_pos_nonneg 2 n). apply Z.eqb_neq. lia.
Qed.

Lemma land_busy v : negb (Z.land v ATA_STATUS_BSY =? 0) = Z.testbit v 7.
Proof. change ATA_STATUS_BSY with (2 ^ 7). rewrite land_bit by done. apply negb_involutive. Qed.

Lemma land_ready v : (Z.land v ATA_STATUS_RDY =? 0) = negb (Z.testbit v 6).
Proof. change ATA_STATUS_RDY with (2 ^ 6). by apply land_bit. Qed.

Lemma u8_nibble lba : 0 ≤ lba -> u8 (Z.lor 0xE0 (Z.land (Z.shiftr lba 24) 0xF)) = 0xE0 + (lba / 2 ^ 24) mod 16.
Proof.
  intros Hl. rewrite (land_ones_mod _ 4) by done. rewrite Z.shiftr_div_pow2 by done.
  pose proof (Z.mod_pos_bound (lba / 2 ^ 24) (2 ^ 4)) as Hb. change 0xE0 with (Z.shiftl 14 4).
  rewrite lor_shiftl_add by lia. change (Z.shiftl 14 4) with 224. change (2 ^ 4) with 16 in *.
  rewrite wrap_small; [lia|]. unfold is_word. change (2 ^ 8) with 256. lia.
Qed.

Lemma lba_bytes lba : 0 ≤ lba < 2 ^ 28 ->
  u8 lba + 2 ^ 8 * u8 (Z.shiftr lba 8) + 2 ^ 16 * u8 (Z.shiftr lba 16) +
    2 ^ 24 * ((0xE0 + (lba / 2 ^ 24) mod 16) mod 16) = lba.
Proof.
  intros Hl. rewrite !Z.shiftr_div_pow2 by done. unfold wrap.
  change (2 ^ 8) with 256. change (2 ^ 16) with 65536. change (2 ^ 24) with 16777216. change (2 ^ 28) with 268435456 in *.
  Z.div_mod_to_equations. lia.
Qed.

Lemma slice_words (l : list Z) off j : 0 ≤ j -> Z.of_nat off + 2 * j + 2 ≤ Zlen l -> bytes_ok l ->
  slice off (Z.to_nat (2 * j)) l ++ le_bytes 2 (u16 (le_val (slice (off + Z.to_nat (2 * j)) 2 l))) =
  slice off (Z.to_nat (2 * (j + 1))) l.
Proof.
  unfold Zlen. intros Hj Hlen Hb. set (w := slice (off + Z.to_nat (2 * j)) 2 l).
  assert (Hw : length w = 2%nat) by (apply length_slice; lia).
  assert (Hwb : bytes_ok w) by by apply Forall_slice.
  rewrite (wrap_small 16) by (pose proof (le_val_word w Hwb) as H; unfold Zlen in H; by rewrite Hw in H).
  rewrite <- Hw at 1. rewrite le_bytes_val by done.
  replace (Z.to_nat (2 * (j + 1))) with (Z.to_nat (2 * j) + 2)%nat by lia. by rewrite slice_split.
Qed.

Lemma word_at_slice (ptr : list Z) k : 0 ≤ k -> 2 * k + 2 ≤ Zlen ptr ->
  word_at ptr k = Ret (le_val (slice (Z.to_nat (2 * k)) 2 ptr)).
Proof.
  intros Hk Hlen. unfold word_at.
  destruct (arr_get_is ptr (2 * k)) as (x & -> & Hx); [lia|].
  destruct (arr_get_is ptr (2 * k + 1)) as (y & -> & Hy); [lia|]. rewrite !bind_ret.
  rewrite (CString.slice_cons _ _ _ x) by done. rewrite (CString.slice_cons _ _ _ y), slice_0.
  - simpl. f_equal. lia.
  - rewrite <- Hy. f_equal. lia.
Qed.

Section laws.
Context {P : Type} `{!PortIO P, !AtaDevice P}.
Implicit Types (p : P).

(** ** Waiting *)
Lemma poll_busy p k : (pending p < k)%nat ->
  exists p', poll k 0x1F7 (fun status => negb (Z.land status ATA_STATUS_BSY =? 0)) p = Ret p' /\
    view p' = view p /\ pending p' = 0%nat.
Proof using Type.
  revert p. induction k as [|k IH]; intros p Hk; [lia|]. cbn [poll].
  destruct (status_law p) as (st & p' & Hin & Hv & Hst & Hpend & Hidle & Hbusy).
  unfold in_. change (u16 0x1F7) with 0x1F7. rewrite Hin, (wrap_small 8 st), land_busy by done.
  destruct (decide (pending p = 0%nat)) as [H0|H0].
  - destruct (Hidle H0) as [-> _]. exists p'. split_and!; [done..|lia].
  - rewrite (Hbusy H0). destruct (IH p') as (p2 & Hrun & Hv2 & Hp2); [lia|].
    exists p2. by rewrite Hrun, Hv2, Hv.
Qed.

(** ** Starting a command *)
Lemma out_register p port v : pending p = 0%nat -> active (view p) = NoTransfer -> is_register port ->
  view (out p port v) = set_register (view p) port (u8 v) /\ pending (out p port v) = 0%nat.
Proof using Type.
  intros Hp Ha Hr. unfold out. rewrite (wrap_small 16 port) by (unfold is_register, is_word in *; lia).
  apply register_law; [done..|]. auto with words.
Qed.

Lemma start_command_ok p lba n command :
  pending p = 0%nat -> active (view p) = NoTransfer -> 0 ≤ lba -> 0 < n < 256 -> lba + n ≤ capacity ->
  command = 0x20 \/ command = 0x30 ->
  active (view (start_command p lba n command)) =
    (if command =? 0x20 then ReadTransfer lba n 0 else WriteTransfer lba n []) /\
  media (view (start_command p lba n command)) = media (view p).
Proof using Type.
  intros Hp Ha Hl Hn Hcap Hcmd. pose proof capacity_28 as Hc28. unfold start_command. cbn [outs].
  destruct (out_register p 0x1F6 (Z.lor 0xE0 (Z.land (Z.shiftr lba 24) 0xF))) as [V1 P1]; [done..|].
  set (p1 := out p _ _) in *. rewrite u8_nibble in V1 by done.
  destruct (out_register p1 0x1F2 n) as [V2 P2]; [done|by rewrite V1|done|]. set (p2 := out p1 _ _) in *.
  destruct (out_register p2 0x1F3 lba) as [V3 P3]; [done|by rewrite V2, V1|done|]. set (p3 := out p2 _ _) in *.
  destruct (out_register p3 0x1F4 (Z.shiftr lba 8)) as [V4 P4]; [done|by rewrite V3, V2, V1|done|]. set (p4 := out p3 _ _) in *.
  destruct (out_register p4 0x1F5 (Z.shiftr lba 16)) as [V5 P5]; [done|by rewrite V4, V3, V2, V1|done|].
  set (p5 := out p4 _ _) in *. rewrite (wrap_small 8 n) in V2 by word.
  assert (HV : view p5 = MkController n (u8 lba) (u8 (Z.shiftr lba 8)) (u8 (Z.shiftr lba 16))
    (0xE0 + (lba / 2 ^ 24) mod 16) NoTransfer (media (view p))).
  { rewrite V5, V4, V3, V2, V1. unfold set_register. cbn. by rewrite Ha. }
  assert (Hadr : address (view p5) = lba).
  { rewrite HV. unfold address. cbn [lba_low lba_mid lba_high device]. apply lba_bytes. lia. }
  assert (Hblk : blocks (view p5) = n).
  { rewrite HV. unfold blocks. cbn [sector_count]. destruct (Z.eqb_spec n 0); lia. }
  assert (Hcm : is_word 8 command) by (destruct Hcmd as [-> | ->]; done).
  unfold out. change (u16 0x1F7) with 0x1F7. rewrite (wrap_small 8 command) by done.
  rewrite command_law; [|done|by rewrite HV| |lia|done].
  - unfold issue. rewrite Hadr, Hblk. cbn. by rewrite HV.
  - unfold lba_mode. rewrite HV. cbn [device]. apply Z.testbit_true; [done|].
    change (2 ^ 6) with 64. generalize (lba / 2 ^ 24). intros z. Z.div_mod_to_equations. lia.
Qed.

(** ** Reading *)
Definition after_read (k n : Z) : transfer := if n =? 1 then NoTransfer else ReadTransfer (k + 1) (n - 1) 0.
Definition after_write (k n : Z) : transfer := if n =? 1 then NoTransfer else WriteTransfer (k + 1) (n - 1) [].

Lemma read_block_ok p k n :
  pending p = 0%nat -> active (view p) = ReadTransfer k n 0 ->
  length (media (view p) k) = 512%nat -> bytes_ok (media (view p) k) ->
  exists p', read_block p = Ret (media (view p) k, p') /\ active (view p') = after_read k n /\
    media (view p') = media (view p).
Proof using Type.
  intros Hp Ha Hlen Hb. set (bs := media (view p) k) in *. unfold read_block.
  destruct (for_up_inv (fun j '(target, q) => target = slice 0 (Z.to_nat (2 * j)) bs /\
      media (view q) = media (view p) /\
      if decide (j < 256) then active (view q) = ReadTransfer k n j /\ pending q = 0%nat
      else active (view q) = after_read k n)
    (fun _ '(target, p) => let '(w, p) := in16 p 0x1F0 in Ret (target ++ le_bytes 2 w, p))
    (Z.to_nat HALF_BLOCK_SIZE) 0 ([], p)) as ([target q] & -> & -> & Hm & H).
  - by rewrite slice_0.
  - change (Z.of_nat (Z.to_nat HALF_BLOCK_SIZE)) with 256. intros j [target q] Hj (-> & Hm & H).
    rewrite decide_True in H by lia. destruct H as [Hq Hq0].
    destruct (data_in_law q k n j Hq0 Hq) as (q' & Hin & Hv & Hpend). unfold in16. change (u16 0x1F0) with 0x1F0.
    rewrite Hin. eexists. split; [reflexivity|]. unfold data_word. rewrite Hm. split_and!.
    + apply (slice_words bs 0); [lia| |done]. unfold Zlen. rewrite Hlen. lia.
    + by rewrite Hv.
    + rewrite Hv. cbn [set_active active]. unfold next_read. change HALF_BLOCK_SIZE with 256 in *.
      case_decide; [rewrite (proj2 (Z.ltb_lt _ _)) by done; split; [done|by apply Hpend]|].
      by rewrite (proj2 (Z.ltb_ge _ _)) by lia.
  - exists q. rewrite decide_False in H by done. split_and!; [|done..].
    change (Z.to_nat (2 * (0 + Z.of_nat (Z.to_nat HALF_BLOCK_SIZE)))) with 512%nat. by rewrite <- Hlen, slice_all.
Qed.

Definition sector_ok_at (c : controller) (k : Z) : Prop := length (media c k) = 512%nat /\ bytes_ok (media c k).

(** No transfer is open and the sectors hold 512 bytes. *)
Definition idle (p : P) : Prop :=
  active (view p) = NoTransfer /\ forall k, 0 ≤ k < capacity -> sector_ok_at (view p) k.

(** ** Writing *)
Lemma write_block_ok p ptr i k n :
  pending p = 0%nat -> active (view p) = WriteTransfer k n [] -> 0 ≤ i -> 512 * (i + 1) ≤ Zlen ptr -> bytes_ok ptr ->
  exists p', write_block ptr i p = Ret p' /\ active (view p') = after_write k n /\
    forall x, media (view p') x = if x =? k then slice (Z.to_nat (512 * i)) 512 ptr else media (view p) x.
Proof using Type.
  intros Hp Ha Hi Hlen Hb. unfold write_block.
  set (got := fun j => slice (Z.to_nat (512 * i)) (Z.to_nat (2 * j)) ptr).
  destruct (for_up_inv (fun j q =>
      if decide (j < 256) then active (view q) = WriteTransfer k n (got j) /\ pending q = 0%nat /\ media (view q) = media (view p)
      else active (view q) = after_write k n /\
        forall x, media (view q) x = if x =? k then slice (Z.to_nat (512 * i)) 512 ptr else media (view p) x)
    (fun j p => w ← word_at ptr (HALF_BLOCK_SIZE * i + j); Ret (out16 p 0x1F0 w))
    (Z.to_nat HALF_BLOCK_SIZE) 0 p) as (q & -> & H).
  - rewrite decide_True by lia. unfold got. by rewrite slice_0.
  - change (Z.of_nat (Z.to_nat HALF_BLOCK_SIZE)) with 256. change HALF_BLOCK_SIZE with 256.
    intros j q Hj H. rewrite decide_True in H by lia. destruct H as (Hq & Hq0 & Hm).
    rewrite word_at_slice, bind_ret by lia. eexists. split; [reflexivity|].
    set (w := le_val _). unfold out16. change (u16 0x1F0) with 0x1F0.
    destruct (data_out_law q k n (got j) (u16 w) Hq0 Hq) as [Hv Hpend]; [auto with words|].
    assert (Hgot : got j ++ le_bytes 2 (u16 w) = got (j + 1)).
    { unfold got, w. replace (Z.to_nat (2 * (256 * i + j))) with (Z.to_nat (512 * i) + Z.to_nat (2 * j))%nat by lia.
      apply slice_words; (done || lia). }
    assert (Hgl : forall y, 0 ≤ y ≤ 256 -> Zlen (got y) = 2 * y).
    { intros y Hy. unfold Zlen, got. rewrite length_slice; [lia|]. unfold Zlen in Hlen. lia. }
    rewrite Hv. unfold accept. rewrite Hgot, Hgl by lia. rewrite Hgl in Hpend by lia. change BLOCK_SIZE with 512 in *.
    case_decide; [rewrite (proj2 (Z.ltb_lt _ _)) by lia|rewrite (proj2 (Z.ltb_ge _ _)) by lia].
    + split_and!; [done|apply Hpend; lia|done].
    + split; [done|]. intros x. cbn [set_active set_media media]. rewrite Hm.
      destruct (x =? k); [|done]. unfold got. f_equal. lia.
  - exists q. by rewrite decide_False in H by done.
Qed.

(** ** The wait loops *)
Context (polls : nat) (Hpolls : (patience < polls)%nat).

Lemma busy_wait_ok p :
  exists p', ATA_busy_wait polls p = Ret p' /\ view p' = view p /\ pending p' = 0%nat.
Proof using Hpolls. apply poll_busy. pose proof (pending_bound p). lia. Qed.

Lemma drq_wait_ok p : pending p = 0%nat ->
  exists p', ATA_DRQ_wait polls p = Ret p' /\ view p' = view p /\ pending p' = 0%nat.
Proof using Hpolls.
  intros H0. unfold ATA_DRQ_wait. destruct polls as [|k]; [lia|]. cbn [poll].
  destruct (status_law p) as (st & p' & Hin & Hv & Hst & Hpend & Hidle & _).
  unfold in_. change (u16 0x1F7) with 0x1F7. rewrite Hin, (wrap_small 8 st), land_ready by done.
  destruct (Hidle H0) as [_ ->]. exists p'. split_and!; [done..|lia].
Qed.

Lemma read_blocks_ata p lba n :
  idle p -> 0 ≤ lba -> 0 < n < 256 -> lba + n ≤ capacity ->
  exists p', read_blocks polls p lba n = Ret (concat (media (view p) <$> seqZ lba n), p') /\
    active (view p') = NoTransfer /\ media (view p') = media (view p).
Proof using Hpolls.
  intros [Ha Hsec] Hl Hn Hcap. unfold read_blocks. destruct (busy_wait_ok p) as (p0 & -> & Hv0 & Hp0). rewrite bind_ret.
  destruct (start_command_ok p0 lba n 0x20) as [Hs Hsm]; [done|by rewrite Hv0|done..|by left|].
  set (p1 := start_command p0 lba n 0x20) in *. rewrite Hv0 in Hsm.
  change (0x20 =? 0x20) with true in Hs. cbv iota in Hs.
  destruct (for_up_inv (fun i '(target, q) => target = concat (media (view p) <$> seqZ lba i) /\
      media (view q) = media (view p) /\
      active (view q) = if decide (i < n) then ReadTransfer (lba + i) (n - i) 0 else NoTransfer)
    (fun _ '(target, p) => p ← ATA_busy_wait polls p; p ← ATA_DRQ_wait polls p;
       '(block, p) ← read_block p; Ret (target ++ block, p))
    (Z.to_nat n) 0 ([], p1)) as ([target q] & -> & -> & Hm & H).
  - split_and!; [done..|]. rewrite decide_True by lia. rewrite Hs. f_equal; lia.
  - intros j [target q] Hj (-> & Hm & H). rewrite decide_True in H by lia.
    destruct (busy_wait_ok q) as (q1 & -> & Hv1 & Hq1). rewrite bind_ret.
    destruct (drq_wait_ok q1 Hq1) as (q2 & -> & Hv2 & Hq2). rewrite bind_ret.
    assert (Hmq : media (view q2) = media (view p)) by (rewrite Hv2, Hv1; exact Hm).
    destruct (Hsec (lba + j)) as [Hlen Hby]; [lia|].
    destruct (read_block_ok q2 (lba + j) (n - j)) as (q3 & -> & Ha3 & Hm3);
      [done|by rewrite Hv2, Hv1|by rewrite Hmq..|]. rewrite bind_ret.
    eexists. split; [reflexivity|]. split_and!.
    + rewrite Inserter.seqZ_snoc, fmap_app, concat_app by lia. simpl. by rewrite app_nil_r, Hmq.
    + by rewrite Hm3.
    + rewrite Ha3. unfold after_read. destruct (Z.eqb_spec (n - j) 1); case_decide; (lia || done || f_equal; lia).
  - exists q. rewrite decide_False in H by lia. by rewrite Z.add_0_l, Z2Nat.id by lia.
Qed.

Lemma write_blocks_ata p ptr lba n :
  idle p -> 0 ≤ lba -> 0 < n < 256 -> lba + n ≤ capacity -> 512 * n ≤ Zlen ptr -> bytes_ok ptr ->
  exists p', write_blocks polls p ptr lba n = Ret p' /\ active (view p') = NoTransfer /\
    forall k, media (view p') k =
      if decide (lba ≤ k < lba + n) then slice (Z.to_nat (512 * (k - lba))) 512 ptr else media (view p) k.
Proof using Hpolls.
  intros [Ha _] Hl Hn Hcap Hlen Hb. unfold write_blocks. destruct (busy_wait_ok p) as (p0 & -> & Hv0 & Hp0). rewrite bind_ret.
  destruct (start_command_ok p0 lba n 0x30) as [Hs Hsm]; [done|by rewrite Hv0|done..|by right|].
  set (p1 := start_command p0 lba n 0x30) in *. rewrite Hv0 in Hsm.
  change (0x30 =? 0x20) with false in Hs. cbv iota in Hs.
  destruct (for_up_inv (fun i q =>
      (forall k, media (view q) k =
        if decide (lba ≤ k < lba + i) then slice (Z.to_nat (512 * (k - lba))) 512 ptr else media (view p) k) /\
      active (view q) = if decide (i < n) then WriteTransfer (lba + i) (n - i) [] else NoTransfer)
    (fun i p => p ← ATA_busy_wait polls p; p ← ATA_DRQ_wait polls p; write_block ptr i p)
    (Z.to_nat n) 0 p1) as (q & -> & Hm & H).
  - split.
    + intros k. rewrite Hsm. by rewrite decide_False by lia.
    + rewrite decide_True by lia. rewrite Hs. f_equal; lia.
  - intros j q Hj (Hm & H). rewrite decide_True in H by lia.
    destruct (busy_wait_ok q) as (q1 & -> & Hv1 & Hq1). rewrite bind_ret.
    destruct (drq_wait_ok q1 Hq1) as (q2 & -> & Hv2 & Hq2). rewrite bind_ret.
    destruct (write_block_ok q2 ptr j (lba + j) (n - j)) as (q3 & -> & Ha3 & Hm3); [done|by rewrite Hv2, Hv1|lia..|done|].
    exists q3. split; [done|]. split.
    + intros k. rewrite Hm3, Hv2, Hv1, Hm. destruct (Z.eqb_spec k (lba + j)) as [->|Hne].
      * rewrite decide_True by lia. do 2 f_equal. lia.
      * repeat case_decide; (lia || done).
    + rewrite Ha3. unfold after_write. destruct (Z.eqb_spec (n - j) 1); case_decide; (lia || done || f_equal; lia).
  - exists q. rewrite decide_False in H by lia. by rewrite Z.add_0_l, Z2Nat.id in Hm by lia.
Qed.

(** ** The instance *)
Definition ata_device : BlockDevice P := {|
  BlockDevice.read_blocks := read_blocks polls;
  BlockDevice.write_blocks := write_blocks polls
|}.

#[program] Definition ata_device_spec : @BlockDeviceSpec P ata_device := {|
  sector := fun p k => media (view p) k;
  sectors := fun _ => capacity;
  dev_ok := idle
|}.
Next Obligation. intros p k [_ Hs] Hk. by apply Hs. Qed.
Next Obligation.
  intros p lba n Hok Hl Hn Hcap. destruct (read_blocks_ata p lba n) as (p' & Hrun & Ha & Hm); [done..|].
  exists p'. split_and!; [exact Hrun| |done|by rewrite Hm]. split; [done|].
  destruct Hok as [_ Hs]. unfold sector_ok_at in *. by rewrite Hm.
Qed.
Next Obligation.
  intros p bs lba n Hok Hl Hn Hcap Hlen Hb. destruct (write_blocks_ata p bs lba n) as (p' & Hrun & Ha & Hm); [done..|].
  exists p'. split_and!; [exact Hrun| |done|by intros; apply Hm]. split; [done|].
  destruct Hok as [_ Hs]. intros k Hk. unfold sector_ok_at in *. rewrite Hm. case_decide; [|by apply Hs].
  split; [|auto with words]. apply length_slice. unfold Zlen in Hlen. lia.
Qed.
End laws.
