(* ===== verification/AtaProps.v ===== *)
(** * The contract of disk.c, and a simulated controller

    [SimulatedDisk] is a controller that keeps BSY set for three status reads
    after each command and each sector; it satisfies every law the driver
    relies on. *)
From S2P Require Import Prelude BlockDevice PortIO Ata AtaFacts.
Import Ata.

(** C29: disk.c does what its header promises, for every controller that
    follows the ATA PIO protocol and every request that fits a 28-bit address:
    [read_blocks] ends and returns exactly the addressed sectors without
    changing one, and [write_blocks] ends, stores the caller's bytes in the
    addressed sectors and leaves every other sector as it was.  No transfer is
    left open. *)
Theorem ata_moves_sectors {P : Type} `{!PortIO P, !AtaDevice P} (polls : nat) (p : P) lba n ptr :
  (patience < polls)%nat -> idle p -> 0 ≤ lba -> 0 < n < 256 -> lba + n ≤ capacity ->
  512 * n ≤ Zlen ptr -> bytes_ok ptr ->
  (exists p', Ata.read_blocks polls p lba n = Ret (concat (media (view p) <$> seqZ lba n), p') /\
     active (view p') = NoTransfer /\ media (view p') = media (view p)) /\
  (exists p', Ata.write_blocks polls p ptr lba n = Ret p' /\ active (view p') = NoTransfer /\
     forall k, media (view p') k =
       if decide (lba ≤ k < lba + n) then slice (Z.to_nat (512 * (k - lba))) 512 ptr else media (view p) k).
Proof.
  intros Hpolls Hidle Hl Hn Hcap Hlen Hb. split; [by apply read_blocks_ata|by apply write_blocks_ata].
Qed.

Module SimulatedDisk.
Record sim := MkSim { chip : controller; wait : nat }.

Definition status (s : sim) : Z := if Nat.min (wait s) 3 then 0x40 else 0x80.

Definition sim_outb (s : sim) (port v : Z) : sim :=
  if port =? 0x1F7 then MkSim (issue (chip s) v) 3 else MkSim (set_register (chip s) port v) (wait s).

Definition sim_inw (s : sim) : Z * sim :=
  match active (chip s) with
  | ReadTransfer k n w =>
      (data_word (chip s) k w,
       MkSim (set_active (chip s) (next_read k n w)) (if w + 1 <? HALF_BLOCK_SIZE then 0 else 3))
  | _ => (0, s)
  end.

Definition sim_outw (s : sim) (v : Z) : sim :=
  match active (chip s) with
  | WriteTransfer k n got => MkSim (accept (chip s) k n got v) (if Zlen got + 2 <? BLOCK_SIZE then 0 else 3)
  | _ => s
  end.

#[export] Instance sim_ports : PortIO sim := {
  inb := fun s port => if port =? 0x1F7 then (status s, MkSim (chip s) (pred (Nat.min (wait s) 3))) else (0, s);
  outb := sim_outb;
  inw := fun s _ => sim_inw s;
  outw := fun s _ v => sim_outw s v
}.

#[export, program] Instance sim_device : AtaDevice sim := {
  view := chip;
  pending := fun s => Nat.min (wait s) 3;
  patience := 3;
  capacity := 64
}.
Next Obligation. done. Qed.
Next Obligation. intros s. apply Nat.le_min_r. Qed.
Next Obligation.
  intros [c w]. exists (status (MkSim c w)), (MkSim c (pred (Nat.min w 3))). split; [done|]. split; [done|].
  unfold status. cbn [wait chip]. destruct w as [|[|[|[|w]]]];
    (split; [split; done|]; split; [done|]; split; intros H; [|]; by try split).
Qed.
Next Obligation.
  intros s port v Hp _ Hr _. unfold outb. simpl. unfold sim_outb. unfold is_register in Hr.
  destruct (Z.eqb_spec port 0x1F7); [lia|done].
Qed.
Next Obligation. intros s v _ _ _ _ _. done. Qed.
Next Obligation.
  intros s k n w Hp Ha. unfold inw. simpl. unfold sim_inw. rewrite Ha. eexists. split_and!; [done|done|].
  simpl. intros Hw. by rewrite (proj2 (Z.ltb_lt _ _)) by done.
Qed.
Next Obligation.
  intros s k n got v Hp Ha _. unfold outw. simpl. unfold sim_outw. rewrite Ha. split; [done|]. simpl.
  intros Hw. by rewrite (proj2 (Z.ltb_lt _ _)) by done.
Qed.

(** A disk of zeros, with the registers in any state. *)
Definition blank : sim := MkSim (MkController 0 0 0 0 0 NoTransfer (fun _ => replicate 512 0)) 2.

Lemma blank_idle : idle blank.
Proof.
  split; [done|]. intros k _. unfold sector_ok_at. cbn.
  split; [apply length_replicate|by apply Forall_replicate].
Qed.
End SimulatedDisk.
Import SimulatedDisk.

Lemma ata_moves_sectors_witness :
  exists p', Ata.write_blocks 4 blank (replicate 1024 7) 10 2 = Ret p' /\ media (view p') 11 = replicate 512 7.
Proof.
  destruct (ata_moves_sectors 4 blank 10 2 (replicate 1024 7)) as [_ (p' & Hrun & _ & Hm)].
  - apply Nat.ltb_lt. reflexivity.
  - exact blank_idle.
  - lia.
  - lia.
  - cbn. lia.
  - unfold Zlen. rewrite length_replicate. lia.
  - by apply Forall_replicate.
  - exists p'. split; [exact Hrun|]. rewrite Hm. rewrite decide_True by lia. vm_compute. reflexivity.
Defined.
