(* ===== verification/Descriptors.v ===== *)
(** * gdt.c and idt.c: the descriptor tables

    The two tables as the CPU reads them: every descriptor is a record of the
    packed bit fields of gdt.h and idt.h, and [encode_segment], [encode_gate]
    give the 64-bit word the fields make up, the first field lowest. *)
From S2P Require Import Prelude.

(** Bit fields of given widths, the first one lowest. *)
Fixpoint pack (l : list (Z * Z)) : Z :=
  match l with
  | [] => 0
  | (n, v) :: l' => v + 2 ^ n * pack l'
  end.

(** [len] bits of [w] from bit [off] on. *)
Definition field (w off len : Z) : Z := Z.land (Z.shiftr w off) (Z.ones len).

Module Gdt.
Definition GDT_MAX_ENTRY_COUNT : nat := 32.
Definition GDT_KERNEL_CODE_SEGMENT_SELECTOR : Z := 0x8.
Definition GDT_KERNEL_DATA_SEGMENT_SELECTOR : Z := 0x10.
Definition GDT_USER_CODE_SEGMENT_SELECTOR : Z := 0x18.
Definition GDT_USER_DATA_SEGMENT_SELECTOR : Z := 0x20.
Definition GDT_TSS_SELECTOR : Z := 0x28.

Record SegmentDescriptor := MkSegment {
  segment_low : Z;
  base_low : Z;
  base_mid : Z;
  type_bit : Z;
  non_system : Z;
  desc_privilege_lvl : Z;
  present_bit : Z;
  segment_mid : Z;
  available : Z;
  code_segment : Z;
  default_op_size : Z;
  granularity : Z;
  base_high : Z
}.

Definition zero_segment : SegmentDescriptor := MkSegment 0 0 0 0 0 0 0 0 0 0 0 0 0.

(** [sizeof(struct TSSEntry)]: 26 words. *)
Definition sizeof_TSSEntry : Z := 4 * 26.

Definition global_descriptor_table : list SegmentDescriptor :=
  [zero_segment;
   MkSegment 0xFFFF 0 0 0xA 1 0 1 0xF 0 0 1 1 0;
   MkSegment 0xFFFF 0 0 0x2 1 0 1 0xF 0 0 1 1 0;
   MkSegment 0xFFFF 0 0 0xA 1 0x3 1 0xF 0 0 1 1 0;
   MkSegment 0xFFFF 0 0 0x2 1 0x3 1 0xF 0 0 1 1 0;
   MkSegment (u16 sizeof_TSSEntry) 0 0 0x9 0 0 1 (Z.shiftr (Z.land sizeof_TSSEntry (Z.shiftl 0xF 16)) 16) 0 0 1 0 0]
  ++ replicate (GDT_MAX_ENTRY_COUNT - 6) zero_segment.

(** [_gdt_gdtr.size]: a descriptor has 8 bytes. *)
Definition gdtr_size : Z := 8 * Z.of_nat GDT_MAX_ENTRY_COUNT - 1.

Definition segment_fields (d : SegmentDescriptor) : list (Z * Z) :=
  [(16, segment_low d); (16, base_low d); (8, base_mid d); (4, type_bit d); (1, non_system d);
   (2, desc_privilege_lvl d); (1, present_bit d); (4, segment_mid d); (1, available d); (1, code_segment d);
   (1, default_op_size d); (1, granularity d); (8, base_high d)].

Definition encode_segment (d : SegmentDescriptor) : Z := pack (segment_fields d).

Definition set_base (d : SegmentDescriptor) (low mid high : Z) : SegmentDescriptor :=
  MkSegment (segment_low d) low mid (type_bit d) (non_system d) (desc_privilege_lvl d) (present_bit d)
    (segment_mid d) (available d) (code_segment d) (default_op_size d) (granularity d) high.

(** [base] is [&_interrupt_tss_entry]. *)
Definition gdt_install_tss (base : Z) (table : list SegmentDescriptor) : res (list SegmentDescriptor) :=
  d ← arr_get table 5;
  arr_set table 5
    (set_base d (u16 (Z.land base 0xFFFF))
       (u8 (Z.shiftr (Z.land base (Z.shiftl 0xFF 16)) 16))
       (u8 (Z.shiftr (Z.land base (Z.shiftl 0xFF 24)) 24))).

(** ** What the CPU extracts from a descriptor *)
Definition cpu_base (w : Z) : Z := field w 16 24 + 2 ^ 24 * field w 56 8.
Definition cpu_limit (w : Z) : Z := field w 0 16 + 2 ^ 16 * field w 48 4.
Definition cpu_dpl (w : Z) : Z := field w 45 2.
Definition cpu_present (w : Z) : bool := Z.testbit w 47.

(** The entry a selector refers to; its low three bits are not part of the index. *)
Definition selected (table : list SegmentDescriptor) (selector : Z) : option Z :=
  encode_segment <$> table !! Z.to_nat (Z.shiftr selector 3).
End Gdt.

Module Idt.
Definition IDT_MAX_ENTRY_COUNT : nat := 256.
Definition ISR_STUB_TABLE_LIMIT : nat := 64.
Definition INTERRUPT_GATE_R_BIT_1 : Z := 0.
Definition INTERRUPT_GATE_R_BIT_2 : Z := 6.
Definition INTERRUPT_GATE_R_BIT_3 : Z := 0.

Record IDTGate := MkGate {
  offset_low : Z;
  segment : Z;
  _reserved : Z;
  _r_bit_1 : Z;
  _r_bit_2 : Z;
  gate_32 : Z;
  _r_bit_3 : Z;
  desc_privilege_level : Z;
  valid_bit : Z;
  offset_high : Z
}.

Definition zero_gate : IDTGate := MkGate 0 0 0 0 0 0 0 0 0 0.

(** The table as the loader leaves it. *)
Definition interrupt_descriptor_table : list IDTGate := replicate IDT_MAX_ENTRY_COUNT zero_gate.

Definition gate_fields (g : IDTGate) : list (Z * Z) :=
  [(16, offset_low g); (16, segment g); (5, _reserved g); (3, _r_bit_1 g); (3, _r_bit_2 g); (1, gate_32 g);
   (1, _r_bit_3 g); (2, desc_privilege_level g); (1, valid_bit g); (16, offset_high g)].

Definition encode_gate (g : IDTGate) : Z := pack (gate_fields g).

Definition set_interrupt_gate (table : list IDTGate) (int_vector handler_address gdt_seg_selector privilege : Z) :
    res (list IDTGate) :=
  g ← arr_get table (u8 int_vector);
  arr_set table (u8 int_vector)
    (MkGate (Z.land handler_address 0xFFFF) (u16 gdt_seg_selector) (_reserved g) INTERRUPT_GATE_R_BIT_1
       INTERRUPT_GATE_R_BIT_2 1 INTERRUPT_GATE_R_BIT_3 (wrap 2 privilege) 1 (u16 (Z.shiftr handler_address 16))).

(** The loop of [initialize_idt]; [isr_stub_table] is laid out by the
    assembler. *)
Definition initialize_idt (isr_stub_table : list Z) (table : list IDTGate) : res (list IDTGate) :=
  for_up ISR_STUB_TABLE_LIMIT 0
    (fun i table =>
       stub ← arr_get isr_stub_table i;
       if (0x30 <=? i) && (i <=? 0x3F)
       then set_interrupt_gate table i stub Gdt.GDT_KERNEL_CODE_SEGMENT_SELECTOR 3
       else set_interrupt_gate table i stub Gdt.GDT_KERNEL_CODE_SEGMENT_SELECTOR 0) table.

(** ** What the CPU extracts from a gate *)
Definition handler (w : Z) : Z := field w 0 16 + 2 ^ 16 * field w 48 16.
Definition gate_selector (w : Z) : Z := field w 16 16.
(** Bits 40-44: 0xE is a 32-bit interrupt gate. *)
Definition gate_type (w : Z) : Z := field w 40 5.

(** The delivery of vector [v] to code running at privilege [cpl], by [int v]
    when [software]: the handler, or [None] for a fault. *)
Definition deliver (table : list IDTGate) (v cpl : Z) (software : bool) : option (Z * Z) :=
  g ← table !! Z.to_nat v;
  let w := encode_gate g in
  if negb (Gdt.cpu_present w) then None
  else if software && (Gdt.cpu_dpl w <? cpl) then None
  else if gate_type w =? 0xE then Some (gate_selector w, handler w) else None.
End Idt.
