(* ===== verification/DescriptorProps.v ===== *)
(** * What the CPU reads from the descriptor tables *)
From S2P Require Import Prelude Descriptors.
Import Gdt Idt.

(** ** Fields of a packed word *)
Lemma field_div w off len : 0 ≤ off -> 0 ≤ len -> field w off len = (w / 2 ^ off) mod 2 ^ len.
Proof. intros. unfold field. by rewrite Z.land_ones, Z.shiftr_div_pow2. Qed.

Lemma div_skip n a b : 0 ≤ n -> is_word n a -> (a + 2 ^ n * b) / 2 ^ n = b.
Proof.
  intros Hn Ha. rewrite (Z.mul_comm (2 ^ n)), Z.div_add by (apply Z.pow_nonzero; lia).
  rewrite (Z.div_small a) by done. lia.
Qed.

Lemma field_skip n a b off len : 0 ≤ n -> 0 ≤ len -> n ≤ off -> is_word n a ->
  field (a + 2 ^ n * b) off len = field b (off - n) len.
Proof.
  intros Hn Hl Ho Ha. rewrite !field_div by lia. f_equal.
  rewrite <- (div_skip n a b) at 2 by done. rewrite Z.div_div, <- Z.pow_add_r by (lia || (pose proof (Z.pow_pos_nonneg 2); lia)).
  do 2 f_equal. lia.
Qed.

Lemma field_low n a b : 0 ≤ n -> is_word n a -> field (a + 2 ^ n * b) 0 n = a.
Proof.
  intros Hn Ha. rewrite field_div, Z.div_1_r by lia.
  rewrite (Z.mul_comm (2 ^ n)), Z.mod_add by (apply Z.pow_nonzero; lia). by apply Z.mod_small.
Qed.

Lemma field_span n m a b : 0 ≤ n -> 0 ≤ m -> is_word n a ->
  field (a + 2 ^ n * b) 0 (n + m) = a + 2 ^ n * field b 0 m.
Proof.
  intros Hn Hm Ha. rewrite !field_div, !Z.div_1_r, Z.pow_add_r by lia.
  pose proof (Z.pow_pos_nonneg 2 n) as H1. pose proof (Z.pow_pos_nonneg 2 m) as H2.
  rewrite Z.rem_mul_r by lia. rewrite (Z.mul_comm (2 ^ n) b), Z.mod_add, Z.div_add by lia.
  by rewrite (Z.mod_small a), (Z.div_small a), Z.add_0_l by done.
Qed.

Lemma field_all n a : 0 ≤ n -> is_word n a -> field a 0 n = a.
Proof. intros Hn Ha. rewrite field_div, Z.div_1_r by lia. by apply Z.mod_small. Qed.

Lemma testbit_field w off : 0 ≤ off -> Z.testbit w off = (field w off 1 =? 1).
Proof.
  intros Ho. rewrite field_div by lia. change (2 ^ 1) with 2. pose proof (Z.mod_pos_bound (w / 2 ^ off) 2).
  destruct (Z.eqb_spec ((w / 2 ^ off) mod 2) 1) as [He|He].
  - by apply Z.testbit_true.
  - apply Z.testbit_false; lia.
Qed.

(** ** Packed fields *)
Definition fits (f : Z * Z) : Prop := 0 ≤ f.1 /\ is_word f.1 f.2.
#[export] Instance fits_dec f : Decision (fits f).
Proof. unfold fits. apply _. Defined.

Fixpoint widths (l : list (Z * Z)) : Z :=
  match l with
  | [] => 0
  | f :: l' => f.1 + widths l'
  end.

Lemma widths_nonneg l : Forall fits l -> 0 ≤ widths l.
Proof. induction 1 as [|f l [Hf _] _ IH]; simpl; lia. Qed.

Lemma pack_drop l i off len : Forall fits l -> 0 ≤ len -> widths (take i l) ≤ off ->
  field (pack l) off len = field (pack (drop i l)) (off - widths (take i l)) len.
Proof.
  intros Hl Hlen. revert i off. induction Hl as [|[n v] l [Hn Hv] Hl IH]; intros i off Ho.
  - rewrite take_nil, drop_nil. simpl. f_equal. lia.
  - destruct i as [|i]; simpl in *; [f_equal; lia|]. pose proof (widths_nonneg (take i l)) as Hw.
    specialize (Hw (Forall_take _ _ _ Hl)). rewrite field_skip by (done || lia). rewrite (IH i) by lia. f_equal. lia.
Qed.

(** The field at index [i] of the list. *)
Lemma pack_field l i n v : Forall fits l -> l !! i = Some (n, v) -> field (pack l) (widths (take i l)) n = v.
Proof.
  intros Hl Hi. pose proof (Forall_lookup_1 _ _ _ _ Hl Hi) as [Hn Hv]. cbn [fst snd] in *.
  rewrite (pack_drop l i) by (done || lia). rewrite Z.sub_diag. erewrite drop_S by done. by apply field_low.
Qed.

(** Two neighbouring fields read together. *)
Lemma pack_field2 l i n a m b : Forall fits l -> l !! i = Some (n, a) -> l !! S i = Some (m, b) ->
  field (pack l) (widths (take i l)) (n + m) = a + 2 ^ n * b.
Proof.
  intros Hl Hi Hj. pose proof (Forall_lookup_1 _ _ _ _ Hl Hi) as [Hn Ha].
  pose proof (Forall_lookup_1 _ _ _ _ Hl Hj) as [Hm Hb]. cbn [fst snd] in *.
  rewrite (pack_drop l i) by (done || lia). rewrite Z.sub_diag. erewrite drop_S by done. simpl.
  rewrite field_span by done. erewrite drop_S by done. simpl. by rewrite field_low.
Qed.

(** ** Segments *)
Lemma segment_view d : Forall fits (segment_fields d) ->
  cpu_base (encode_segment d) = base_low d + 2 ^ 16 * base_mid d + 2 ^ 24 * base_high d /\
  cpu_limit (encode_segment d) = segment_low d + 2 ^ 16 * segment_mid d /\
  cpu_dpl (encode_segment d) = desc_privilege_lvl d /\
  cpu_present (encode_segment d) = (present_bit d =? 1).
Proof.
  intros Hd. unfold cpu_base, cpu_limit, cpu_dpl, cpu_present, encode_segment. rewrite testbit_field by done.
  rewrite (pack_field2 _ 1 16 _ 8 _ Hd eq_refl eq_refl : field _ 16 24 = _).
  rewrite (pack_field _ 12 8 _ Hd eq_refl : field _ 56 8 = _), (pack_field _ 0 16 _ Hd eq_refl : field _ 0 16 = _).
  rewrite (pack_field _ 7 4 _ Hd eq_refl : field _ 48 4 = _), (pack_field _ 5 2 _ Hd eq_refl : field _ 45 2 = _).
  by rewrite (pack_field _ 6 1 _ Hd eq_refl : field _ 47 1 = _).
Qed.

Lemma base_parts base : is_word 32 base ->
  u16 (Z.land base 0xFFFF) + 2 ^ 16 * u8 (Z.shiftr (Z.land base (Z.shiftl 0xFF 16)) 16) +
    2 ^ 24 * u8 (Z.shiftr (Z.land base (Z.shiftl 0xFF 24)) 24) = base.
Proof.
  intros Hb. unfold is_word in Hb. rewrite !Z.shiftr_land, !Z.shiftr_shiftl_l by done. change (Z.shiftl 0xFF (16 - 16)) with 0xFF.
  change (Z.shiftl 0xFF (24 - 24)) with 0xFF.
  rewrite (land_ones_mod _ 16), !(land_ones_mod _ 8), !Z.shiftr_div_pow2 by done. unfold wrap.
  rewrite !Z.mod_mod by done. change (2 ^ 8) with 256. change (2 ^ 16) with 65536. change (2 ^ 24) with 16777216.
  change (2 ^ 32) with 4294967296 in Hb. Z.div_mod_to_equations. lia.
Qed.

(** The descriptor table after [gdt_install_tss]: the TSS selector names a
    present ring 0 descriptor whose base is the address of the TSS, for every
    32-bit address; the kernel's and the user's selectors name the flat code
    and data segments of ring 0 and ring 3, and nothing else has changed. *)
Theorem gdt_segments base :
  is_word 32 base ->
  exists table w, gdt_install_tss base global_descriptor_table = Ret table /\
    selected table GDT_TSS_SELECTOR = Some w /\ cpu_base w = base /\ cpu_limit w = sizeof_TSSEntry /\
    cpu_present w = true /\ cpu_dpl w = 0 /\
    (forall i, i ≠ 5%nat -> table !! i = global_descriptor_table !! i) /\
    (forall sel ring, (sel, ring) ∈ [(GDT_KERNEL_CODE_SEGMENT_SELECTOR, 0); (GDT_KERNEL_DATA_SEGMENT_SELECTOR, 0);
        (Z.lor GDT_USER_CODE_SEGMENT_SELECTOR 3, 3); (Z.lor GDT_USER_DATA_SEGMENT_SELECTOR 3, 3)] ->
      exists s, selected table sel = Some s /\ cpu_base s = 0 /\ cpu_limit s = 2 ^ 20 - 1 /\ cpu_present s = true /\ cpu_dpl s = ring).
Proof.
  intros Hb. unfold gdt_install_tss. rewrite (arr_get_lookup _ _ (nth 5 global_descriptor_table zero_segment)), bind_ret by done.
  rewrite arr_set_in by done. set (d := set_base _ _ _ _).
  assert (Hd : Forall fits (segment_fields d)).
  { unfold segment_fields, d. cbn [set_base segment_low base_low base_mid base_high].
    repeat (apply Forall_cons; split; [split; [done|first [by apply wrap_word|split; done]]|]). done. }
  pose proof (segment_view d Hd) as (Hbase & Hlim & Hdpl & Hpres).
  eexists _, (encode_segment d). split; [done|]. split; [done|]. split; [by rewrite Hbase; apply base_parts|].
  split; [by rewrite Hlim|]. split; [by rewrite Hpres|]. split; [by rewrite Hdpl|]. split.
  - intros i Hi. by rewrite list_lookup_insert_ne.
  - intros sel ring Hin. repeat (apply elem_of_cons in Hin as [[= -> ->]|Hin]; [eexists; by repeat split|]). by apply elem_of_nil in Hin.
Qed.

(** ** Gates *)
Lemma gate_view g : Forall fits (gate_fields g) ->
  handler (encode_gate g) = offset_low g + 2 ^ 16 * offset_high g /\
  gate_selector (encode_gate g) = segment g /\
  gate_type (encode_gate g) = _r_bit_2 g + 2 ^ 3 * (gate_32 g + 2 * _r_bit_3 g) /\
  cpu_dpl (encode_gate g) = desc_privilege_level g /\
  cpu_present (encode_gate g) = (valid_bit g =? 1).
Proof.
  intros Hg. unfold handler, gate_selector, gate_type, cpu_dpl, cpu_present, encode_gate. rewrite testbit_field by done.
  rewrite (pack_field _ 0 16 _ Hg eq_refl : field _ 0 16 = _), (pack_field _ 9 16 _ Hg eq_refl : field _ 48 16 = _).
  rewrite (pack_field _ 1 16 _ Hg eq_refl : field _ 16 16 = _), (pack_field _ 7 2 _ Hg eq_refl : field _ 45 2 = _).
  rewrite (pack_field _ 8 1 _ Hg eq_refl : field _ 47 1 = _). split_and!; [done..| |done|done].
  rewrite (pack_drop _ 4) by done. change (40 - widths (take 4 (gate_fields g))) with 0.
  apply (Forall_drop _ 4) in Hg. cbn [gate_fields drop] in *.
  apply Forall_cons in Hg as [[_ H4] Hg]. apply Forall_cons in Hg as [[_ H5] Hg]. apply Forall_cons in Hg as [[_ H6] _].
  cbn [pack fst snd] in *. rewrite (field_span 3 2), (field_span 1 1), field_low by done. done.
Qed.

Lemma set_gate_lookup table v stub sel ring : 0 ≤ v < 256 -> length table = 256%nat ->
  (forall g, table !! Z.to_nat v = Some g -> _reserved g = 0) ->
  set_interrupt_gate table v stub sel ring =
    Ret (<[Z.to_nat v := MkGate (Z.land stub 0xFFFF) (u16 sel) 0 0 6 1 0 (wrap 2 ring) 1 (u16 (Z.shiftr stub 16))]> table).
Proof.
  intros Hv Hlen Hr. unfold set_interrupt_gate. rewrite (wrap_small 8 v) by word.
  destruct (arr_get_is table v) as (g & -> & Hg); [unfold Zlen; lia|].
  rewrite bind_ret, arr_set_in, (Hr g) by (done || unfold Zlen; lia). done.
Qed.

(** The gate of vector [v] after [initialize_idt]. *)
Definition installed (stub v : Z) : IDTGate :=
  MkGate (Z.land stub 0xFFFF) 8 0 0 6 1 0 (if (0x30 <=? v) && (v <=? 0x3F) then 3 else 0) 1 (u16 (Z.shiftr stub 16)).

Lemma initialize_idt_lookup stubs : length stubs = 64%nat ->
  exists table, initialize_idt stubs interrupt_descriptor_table = Ret table /\
    (forall v, 64 ≤ v < 256 -> table !! Z.to_nat v = Some zero_gate) /\
    (forall v stub, 0 ≤ v < 64 -> stubs !! Z.to_nat v = Some stub -> table !! Z.to_nat v = Some (installed stub v)).
Proof.
  intros Hlen. unfold initialize_idt.
  set (body := fun i table => stub ← arr_get stubs i; _).
  destruct (for_up_inv (fun i table => length table = 256%nat /\
      (forall v, i ≤ v < 256 -> table !! Z.to_nat v = Some zero_gate) /\
      (forall v stub, 0 ≤ v < i -> stubs !! Z.to_nat v = Some stub -> table !! Z.to_nat v = Some (installed stub v)))
    body ISR_STUB_TABLE_LIMIT 0 interrupt_descriptor_table) as (table & -> & _ & Hz & H); [| |by exists table].
  - split; [done|]. split; [|lia]. intros v Hv. apply lookup_replicate_2. change IDT_MAX_ENTRY_COUNT with 256%nat. lia.
  - change (Z.of_nat ISR_STUB_TABLE_LIMIT) with 64. intros i table Hi (Hl & Hz & H). unfold body.
    destruct (arr_get_is stubs i) as (stub & -> & Hs); [unfold Zlen; lia|]. rewrite bind_ret.
    exists (<[Z.to_nat i := installed stub i]> table). split.
    { unfold installed. destruct ((48 <=? i) && (i <=? 63)); rewrite set_gate_lookup; try done; try lia;
        intros g Hg; rewrite Hz in Hg by lia; by injection Hg as <-. }
    split; [by rewrite length_insert|]. split.
    + intros v Hv. rewrite list_lookup_insert_ne by lia. apply Hz. lia.
    + intros v stub' Hv Hs'. destruct (decide (v = i)) as [->|Hne].
      * rewrite list_lookup_insert_eq by lia. by rewrite Hs in Hs'; injection Hs' as <-.
      * rewrite list_lookup_insert_ne by lia. apply H; [lia|done].
Qed.

Lemma installed_delivery stub v : is_word 32 stub ->
  handler (encode_gate (installed stub v)) = stub /\ gate_selector (encode_gate (installed stub v)) = GDT_KERNEL_CODE_SEGMENT_SELECTOR /\
  gate_type (encode_gate (installed stub v)) = 0xE /\ cpu_present (encode_gate (installed stub v)) = true /\
  cpu_dpl (encode_gate (installed stub v)) = if (0x30 <=? v) && (v <=? 0x3F) then 3 else 0.
Proof.
  intros Hs. assert (Hsplit : Z.land stub 0xFFFF + 2 ^ 16 * u16 (Z.shiftr stub 16) = stub /\ is_word 16 (Z.land stub 0xFFFF)).
  { rewrite (land_ones_mod _ 16), Z.shiftr_div_pow2 by done. unfold is_word, wrap in *.
    change (2 ^ 16) with 65536. change (2 ^ 32) with 4294967296 in Hs. split; [|by apply Z.mod_pos_bound].
    Z.div_mod_to_equations. lia. }
  destruct Hsplit as [Hsplit Hlow].
  assert (Hf : Forall fits (gate_fields (installed stub v))).
  { unfold gate_fields, installed. cbn [offset_low segment _reserved _r_bit_1 _r_bit_2 gate_32 _r_bit_3 desc_privilege_level valid_bit offset_high].
    repeat (apply Forall_cons; split; [split; [done|first [done|by apply wrap_word|by split|by destruct (_ && _); split]]|]). done. }
  destruct (gate_view _ Hf) as (-> & -> & -> & -> & ->). done.
Qed.

(** C38: The interrupt table after [initialize_idt]: each of the 64 first
    vectors is delivered in the kernel's code segment to its own stub, whatever
    its address; a program in ring 3 can raise only the vectors 0x30 to 0x3F
    itself and faults on the others; no other vector is delivered at all. *)
Theorem idt_delivery stubs :
  length stubs = 64%nat -> Forall (is_word 32) stubs ->
  exists table, initialize_idt stubs interrupt_descriptor_table = Ret table /\
    forall v cpl software, 0 ≤ v < 256 -> 0 ≤ cpl ≤ 3 ->
      deliver table v cpl software =
        if v <? 64 then
          if software && (0 <? cpl) && negb ((0x30 <=? v) && (v <=? 0x3F)) then None
          else (fun stub => (GDT_KERNEL_CODE_SEGMENT_SELECTOR, stub)) <$> stubs !! Z.to_nat v
        else None.
Proof.
  intros Hlen Hw. destruct (initialize_idt_lookup stubs Hlen) as (table & Hrun & Hz & H). exists table. split; [done|].
  intros v cpl software Hv Hcpl. unfold deliver. destruct (Z.ltb_spec v 64).
  - destruct (lookup_lt_is_Some_2 stubs (Z.to_nat v)) as [stub Hs]; [lia|]. rewrite (H v stub), Hs by (lia || done).
    destruct (installed_delivery stub v) as (Hh & Hsel & Ht & Hp & Hdpl); [by eapply Forall_lookup_1 in Hw|].
    cbv [mbind option_bind fmap option_fmap option_map]. rewrite Hh, Hsel, Ht, Hp, Hdpl. clear Hh Hsel Ht Hp Hdpl.
    destruct ((48 <=? v) && (v <=? 63)); cbn [negb].
    + rewrite (proj2 (Z.ltb_ge 3 cpl)) by lia. by rewrite !andb_false_r.
    + by rewrite andb_true_r.
  - by rewrite Hz by lia.
Qed.

(** Stubs four bytes apart, the first at 0xC0101000. *)
Definition demo_stubs : list Z := (fun i => 0xC0101000 + 4 * i) <$> seqZ 0 64.

Lemma idt_delivery_witness :
  exists table, initialize_idt demo_stubs interrupt_descriptor_table = Ret table /\
    deliver table 0x30 3 true = Some (8, 0xC01010C0) /\ deliver table 0xE 3 true = None /\
    deliver table 0xE 3 false = Some (8, 0xC0101038).
Proof.
  destruct (idt_delivery demo_stubs) as (table & Hrun & H).
  - reflexivity.
  - apply (bool_decide_unpack _). vm_compute. exact I.
  - exists table. split; [exact Hrun|]. rewrite !H by lia. split; [|split]; vm_compute; reflexivity.
Defined.

Lemma gdt_segments_witness :
  exists table w, gdt_install_tss 0xC0104321 global_descriptor_table = Ret table /\
    selected table GDT_TSS_SELECTOR = Some w /\ cpu_base w = 0xC0104321.
Proof.
  destruct (gdt_segments 0xC0104321) as (table & w & Hrun & Hs & Hb & _).
  - split; [discriminate|reflexivity].
  - exists table, w. split; [exact Hrun|]. split; [exact Hs|exact Hb].
Defined.
