(* ===== verification/Pic.v ===== *)
(** * interrupt.c: the interrupt controllers and the timer

    The programming of the two PICs and of the PIT, as the sequences of port
    accesses of the source. *)
From S2P Require Import Prelude PortIO.

Definition PIC1_OFFSET : Z := 0x20.
Definition PIC2_OFFSET : Z := 0x28.
Definition PIC1_COMMAND : Z := 0x20.
Definition PIC1_DATA : Z := 0x20 + 1.
Definition PIC2_COMMAND : Z := 0xA0.
Definition PIC2_DATA : Z := 0xA0 + 1.
Definition PIC_ACK : Z := 0x20.
Definition PIC_DISABLE_ALL_MASK : Z := 0xFF.
Definition ICW1_ICW4 : Z := 0x01.
Definition ICW1_INIT : Z := 0x10.
Definition ICW4_8086 : Z := 0x01.
Definition IRQ_TIMER : Z := 0.
Definition IRQ_KEYBOARD : Z := 1.
Definition PAGE_FAULT : Z := 0xE.

Definition PIT_MAX_FREQUENCY : Z := 1193182.
Definition PIT_TIMER_FREQUENCY : Z := 1000.
Definition PIT_TIMER_COUNTER : Z := PIT_MAX_FREQUENCY / PIT_TIMER_FREQUENCY.
Definition PIT_COMMAND_REGISTER_PIO : Z := 0x43.
Definition PIT_COMMAND_VALUE : Z :=
  Z.lor (Z.lor (Z.lor 0 (Z.shiftl 3 1)) (Z.shiftl 3 4)) (Z.shiftl 0 6).
Definition PIT_CHANNEL_0_DATA_PIO : Z := 0x40.

Section pic.
Context {P : Type} `{!PortIO P}.
Implicit Types (p : P).

Definition io_wait (p : P) : P := out p 0x80 0.

Definition pic_ack (p : P) (irq : Z) : P :=
  let p := if 8 <=? irq then out p PIC2_COMMAND PIC_ACK else p in
  out p PIC1_COMMAND PIC_ACK.

Definition pic_remap (p : P) : P :=
  let p := io_wait (out p PIC1_COMMAND (Z.lor ICW1_INIT ICW1_ICW4)) in
  let p := io_wait (out p PIC2_COMMAND (Z.lor ICW1_INIT ICW1_ICW4)) in
  let p := io_wait (out p PIC1_DATA PIC1_OFFSET) in
  let p := io_wait (out p PIC2_DATA PIC2_OFFSET) in
  let p := io_wait (out p PIC1_DATA 4) in
  let p := io_wait (out p PIC2_DATA 2) in
  let p := io_wait (out p PIC1_DATA ICW4_8086) in
  let p := io_wait (out p PIC2_DATA ICW4_8086) in
  let p := out p PIC1_DATA PIC_DISABLE_ALL_MASK in
  out p PIC2_DATA PIC_DISABLE_ALL_MASK.

(** [out (PIC1_DATA, in (PIC1_DATA) & ~(1 << irq))]. *)
Definition unmask (p : P) (irq : Z) : P :=
  let '(mask, p) := in_ p PIC1_DATA in
  out p PIC1_DATA (Z.land mask (Z.lnot (Z.shiftl 1 irq))).

Definition activate_keyboard_interrupt (p : P) : P := unmask p IRQ_KEYBOARD.

(** After [cli]. *)
Definition activate_timer_interrupt (p : P) : P :=
  let p := out p PIT_COMMAND_REGISTER_PIO PIT_COMMAND_VALUE in
  let p := out p PIT_CHANNEL_0_DATA_PIO (Z.land PIT_TIMER_COUNTER 0xFF) in
  let p := out p PIT_CHANNEL_0_DATA_PIO (Z.land (Z.shiftr PIT_TIMER_COUNTER 8) 0xFF) in
  unmask p IRQ_TIMER.
End pic.

(** ** The 8259A

    What the programming sequence makes of a controller: [icw] counts the
    initialisation words still expected, the data port writes the mask
    otherwise. *)
Record pic8259 := MkPic { vector_base : Z; cascade : Z; mode_8086 : bool; mask : Z; icw : nat }.

Definition pic_command (c : pic8259) (v : Z) : pic8259 :=
  if Z.testbit v 4 then MkPic (vector_base c) (cascade c) (mode_8086 c) 0 3 else c.

Definition pic_data (c : pic8259) (v : Z) : pic8259 :=
  match icw c with
  | 3%nat => MkPic v (cascade c) (mode_8086 c) (mask c) 2
  | 2%nat => MkPic (vector_base c) v (mode_8086 c) (mask c) 1
  | 1%nat => MkPic (vector_base c) (cascade c) (Z.testbit v 0) (mask c) 0
  | _ => MkPic (vector_base c) (cascade c) (mode_8086 c) v 0
  end.

(** A machine with the two controllers and the reload value of the timer's
    channel 0, which arrives low byte first. *)
Record chipset := MkChipset { master : pic8259; slave : pic8259; reload : Z; got_low : bool }.

Definition chipset_out (c : chipset) (port v : Z) : chipset :=
  if port =? PIC1_COMMAND then MkChipset (pic_command (master c) v) (slave c) (reload c) (got_low c)
  else if port =? PIC1_DATA then MkChipset (pic_data (master c) v) (slave c) (reload c) (got_low c)
  else if port =? PIC2_COMMAND then MkChipset (master c) (pic_command (slave c) v) (reload c) (got_low c)
  else if port =? PIC2_DATA then MkChipset (master c) (pic_data (slave c) v) (reload c) (got_low c)
  else if port =? PIT_COMMAND_REGISTER_PIO then MkChipset (master c) (slave c) 0 false
  else if port =? PIT_CHANNEL_0_DATA_PIO then
    (if got_low c then MkChipset (master c) (slave c) (reload c + 256 * v) false
     else MkChipset (master c) (slave c) v true)
  else c.

Definition chipset_in (c : chipset) (port : Z) : Z :=
  if port =? PIC1_DATA then mask (master c) else if port =? PIC2_DATA then mask (slave c) else 0.

#[export] Instance chipset_ports : PortIO chipset := {
  inb := fun c port => (chipset_in c port, c);
  outb := chipset_out;
  inw := fun c port => (0, c);
  outw := fun c port v => c
}.

(** The interrupt controllers as the kernel sets them up, from any state:
    after [pic_remap], [activate_keyboard_interrupt] and
    [activate_timer_interrupt] IRQ 0-7 raise the vectors 0x20-0x27 and IRQ
    8-15 the vectors 0x28-0x2F in 8086 mode with the slave on line 2, only the
    timer and the keyboard are unmasked, and the timer reload value is
    1193182 / 1000. *)
Theorem interrupts_configured (c : chipset) :
  activate_timer_interrupt (activate_keyboard_interrupt (pic_remap c)) =
    MkChipset (MkPic 0x20 4 true 0xFC 0) (MkPic 0x28 2 true 0xFF 0) 1193 false.
Proof. destruct c as [[] [] r g]. reflexivity. Qed.
