(* ===== verification/Screen.v ===== *)
(** * framebuffer.c and keyboard.c: the text screen and the keyboard

    [vram] holds the 16-bit cells from FRAMEBUFFER_MEMORY_OFFSET on, by index;
    the screen is the first 2000 of them, and an index past those is memory
    behind it.  The cursor is in the VGA controller, reached through its
    ports. *)
From S2P Require Import Prelude PortIO Pic.

Definition SCREEN_WIDTH : Z := 80.
Definition SCREEN_HEIGHT : Z := 25.
Definition KEYBOARD_DATA_PORT : Z := 0x60.
Definition KEYBOARD_BUFFER_SIZE : Z := 256.

(** [keyboard_scancode_1_to_ascii_map]: its first 80 entries; the other 176
    are 0. *)
Definition keyboard_scancode_1_to_ascii_map : list Z :=
  [0; 0x1B] ++ bytes_of_string "1234567890-=" ++ [8; 9] ++
  bytes_of_string "qwertyuiop[]" ++ [10; 0] ++ bytes_of_string "as" ++
  bytes_of_string "dfghjkl;'`" ++ [0] ++ bytes_of_string "\zxcv" ++
  bytes_of_string "bnm,./" ++ [0] ++ bytes_of_string "*" ++ [0] ++ bytes_of_string " " ++ replicate 6 0 ++
  replicate 10 0 ++ bytes_of_string "-" ++ replicate 3 0 ++ bytes_of_string "+" ++ replicate 177 0.

(** The global variables of keyboard.c and the memory and the devices they
    are used with.  [l] counts the characters typed on the line. *)
Record console (P : Type) := MkConsole {
  keyboard_input_on : bool;
  keyboard_input : Z;
  row_now : Z;
  col_now : Z;
  l : Z;
  vram : gmap Z Z;
  ports : P
}.
Arguments MkConsole {P}.
Arguments keyboard_input_on {P}.
Arguments keyboard_input {P}.
Arguments row_now {P}.
Arguments col_now {P}.
Arguments l {P}.
Arguments vram {P}.
Arguments ports {P}.

Section screen.
Context {P : Type} `{!PortIO P}.
Implicit Types (s : console P).

Definition set_vram (s : console P) (m : gmap Z Z) : console P :=
  MkConsole (keyboard_input_on s) (keyboard_input s) (row_now s) (col_now s) (l s) m (ports s).
Definition set_ports (s : console P) (p : P) : console P :=
  MkConsole (keyboard_input_on s) (keyboard_input s) (row_now s) (col_now s) (l s) (vram s) p.
Definition set_position (s : console P) (r c n : Z) : console P :=
  MkConsole (keyboard_input_on s) (keyboard_input s) r c n (vram s) (ports s).
Definition set_input (s : console P) (on : bool) (v : Z) : console P :=
  MkConsole on v (row_now s) (col_now s) (l s) (vram s) (ports s).

(** ** framebuffer.c *)
Definition cursor_writes (pos : Z) : list (Z * Z) :=
  [(0x3D4, 0x0F); (0x3D5, Z.land pos 0xFF); (0x3D4, 0x0E); (0x3D5, Z.land (Z.shiftr pos 8) 0xFF)].

Definition framebuffer_set_cursor (s : console P) (r c : Z) : console P :=
  let pos := u16 (u8 r * 80 + u8 c) in set_ports s (outs (ports s) (cursor_writes pos)).

(** The character is signed: one from 0x80 on fills the attribute with ones. *)
Definition cell (c fg bg : Z) : Z :=
  let attrib := u16 (Z.lor (Z.shiftl (u8 bg) 4) (Z.land (u8 fg) 0x0F)) in
  u16 (Z.lor (s8 c) (Z.shiftl attrib 8)).

Definition framebuffer_write (s : console P) (row col c fg bg : Z) : console P :=
  set_vram s (<[u8 row * 80 + u8 col := cell c fg bg]> (vram s)).

Definition framebuffer_clear (s : console P) : console P :=
  foldl (fun s i => foldl (fun s j => framebuffer_write s i j 0 0x7 0) s (seqZ 0 SCREEN_WIDTH))
    s (seqZ 0 SCREEN_HEIGHT).

(** ** keyboard.c *)
Definition keyboard_state_activate (s : console P) : console P := set_input s true 0.
Definition keyboard_state_deactivate (s : console P) : console P := set_input s false (keyboard_input s).

(** The byte stored at [buf], and the state. *)
Definition get_keyboard_buffer (s : console P) : Z * console P :=
  (keyboard_input s, set_input s (keyboard_input_on s) 0).

Definition is_keyboard_blocking (s : console P) : bool := keyboard_input_on s.
Definition reset_write_position (s : console P) : console P := set_position s 0 0 (l s).

Definition putchar (s : console P) (c color : Z) : console P :=
  let s :=
    if c =? 10 then set_position s (u8 (row_now s + 1)) 0 0
    else if negb (c =? 0) then
      let s := framebuffer_write s (row_now s) (col_now s) c color 0 in
      set_position s (row_now s) (u8 (col_now s + 1)) (l s)
    else s in
  let s := framebuffer_write s (row_now s) (col_now s) 0 0xF 0 in
  framebuffer_set_cursor s (row_now s) (col_now s).

Definition puts (s : console P) (str : list Z) (len color : Z) : res (console P) :=
  for_up (Z.to_nat len) 0 (fun i s => c ← arr_get str i; Ret (putchar s c color)) s.

Definition backspace (s : console P) : console P :=
  if 0 <? l s then
    let s := framebuffer_write s (row_now s) (col_now s) 32 0 0 in
    let s := framebuffer_set_cursor s (row_now s) (col_now s) in
    set_position s (row_now s) (u8 (col_now s - 1)) (u8 (l s - 1))
  else s.

Definition tab_step (s : console P) : console P :=
  let s := framebuffer_write s (row_now s) (col_now s) 32 0 0 in
  set_position s (row_now s) (u8 (col_now s + 1)) (u8 (l s + 1)).

Definition keyboard_key (s : console P) (ascii_char : Z) : console P :=
  let s := set_input s (keyboard_input_on s) ascii_char in
  let s :=
    if ascii_char =? 10 then keyboard_state_deactivate (putchar s ascii_char 0)
    else if ascii_char =? 8 then backspace s
    else if ascii_char =? 9 then tab_step (tab_step s)
    else if negb (ascii_char =? 0) && (l s <? KEYBOARD_BUFFER_SIZE - 1) then
      let s := putchar s ascii_char 0xF in
      set_position s (row_now s) (col_now s) (u8 (l s + 1))
    else s in
  putchar s 0 0xF.

Definition keyboard_isr (s : console P) : res (console P) :=
  let '(scancode, p) := in_ (ports s) KEYBOARD_DATA_PORT in
  let s := set_ports s p in
  s ← (if negb (Z.land scancode 0x80 =? 0) then Ret s
       else if keyboard_input_on s then
         ascii_char ← arr_get keyboard_scancode_1_to_ascii_map scancode;
         Ret (keyboard_key s ascii_char)
       else Ret s);
  Ret (set_ports s (pic_ack (ports s) IRQ_KEYBOARD)).
End screen.
