(* ===== verification/ScreenProps.v ===== *)
(** * What the screen shows *)
From S2P Require Import Prelude PortIO Pic Screen.

(** A character that is drawn as itself. *)
Definition printable (c : Z) : Prop := 0 < c < 128 /\ c ≠ 10.
#[export] Instance printable_dec c : Decision (printable c).
Proof. unfold printable. apply _. Defined.

Definition glyph (c color : Z) : Z := c + 256 * (color mod 16).
Definition blank_cell : Z := 0xF00.

Lemma cell_glyph c color : 0 ≤ c < 128 -> cell c color 0 = glyph c color.
Proof.
  intros Hc. unfold cell, glyph. change (Z.shiftl (u8 0) 4) with 0. rewrite Z.lor_0_l.
  rewrite (land_ones_mod _ 4) by done. change (2 ^ 4) with 16. pose proof (Z.mod_pos_bound (u8 color) 16) as Hb.
  assert (Hm : u8 color mod 16 = color mod 16).
  { unfold wrap. change (2 ^ 8) with 256. Z.div_mod_to_equations. lia. }
  rewrite (wrap_small 16 (u8 color mod 16)) by word.
  unfold to_signed. change (2 ^ 8) with 256. change (2 ^ (8 - 1)) with 128. rewrite (Z.mod_small c) by lia.
  rewrite decide_True by lia. rewrite Z.lor_comm, lor_shiftl_add by (lia || (change (2 ^ 8) with 256; lia)).
  change (2 ^ 8) with 256. rewrite Hm in *. rewrite wrap_small by word. lia.
Qed.

(** The fields of a state built by the setters. *)
Ltac screen_cbn :=
  cbn [negb set_vram set_ports set_position set_input keyboard_input_on keyboard_input row_now col_now l vram ports].

Section screen.
Context {P : Type} `{!PortIO P}.
Implicit Types (s : console P).

(** The index of the cell the next character goes to. *)
Definition pos s : Z := row_now s * 80 + col_now s.
Definition on_grid s : Prop := is_byte (row_now s) /\ is_byte (col_now s).

Lemma u8_small z : 0 ≤ z < 256 -> u8 z = z.
Proof using Type. intros H. apply wrap_small. exact H. Qed.

Lemma putchar_text s c color : on_grid s -> printable c -> col_now s < 255 ->
  let s' := putchar s c color in
  row_now s' = row_now s /\ col_now s' = col_now s + 1 /\ l s' = l s /\
  keyboard_input_on s' = keyboard_input_on s /\ keyboard_input s' = keyboard_input s /\
  vram s' = <[pos s + 1 := blank_cell]> (<[pos s := glyph c color]> (vram s)) /\
  ports s' = outs (ports s) (cursor_writes (pos s + 1)).
Proof using Type.
  intros [Hr Hc] [Hch Hnl] Hcol. unfold putchar, on_grid, is_word in *. change (2 ^ 8) with 256 in *.
  rewrite (proj2 (Z.eqb_neq c 10)) by done. rewrite (proj2 (Z.eqb_neq c 0)) by lia.
  unfold framebuffer_write, framebuffer_set_cursor, pos. screen_cbn. rewrite !u8_small, !cell_glyph by lia.
  rewrite wrap_small by word.
  rewrite Z.add_assoc. by split_and!.
Qed.

Lemma putchar_nul s color : on_grid s ->
  putchar s 0 color = MkConsole (keyboard_input_on s) (keyboard_input s) (row_now s) (col_now s) (l s)
    (<[pos s := blank_cell]> (vram s)) (outs (ports s) (cursor_writes (pos s))).
Proof using Type.
  intros [Hr Hc]. unfold putchar, is_word in *. change (2 ^ 8) with 256 in *.
  change (0 =? 10) with false. change (0 =? 0) with true. cbv iota. cbn [negb].
  unfold framebuffer_write, framebuffer_set_cursor, pos. screen_cbn. rewrite !u8_small by lia.
  by rewrite wrap_small by word.
Qed.

(** [puts] of a line of text writes it: the characters appear with their
    colour in consecutive cells from the write position on, the cell behind
    them is blank, no other cell changes, the position and the hardware cursor
    are behind the text.  (Past column 79 the cells are those of the next
    row; past row 24 they are not on the screen, nothing scrolls.) *)
Theorem puts_line s str color :
  on_grid s -> Forall printable str -> 0 < Zlen str -> col_now s + Zlen str ≤ 255 ->
  exists s' p, puts s str (Zlen str) color = Ret s' /\
    row_now s' = row_now s /\ col_now s' = col_now s + Zlen str /\ l s' = l s /\
    ports s' = outs p (cursor_writes (pos s')) /\
    forall k, vram s' !! k =
      if decide (pos s ≤ k < pos s + Zlen str) then (fun c => glyph c color) <$> str !! Z.to_nat (k - pos s)
      else if decide (k = pos s + Zlen str) then Some blank_cell else vram s !! k.
Proof using Type.
  intros Hg Hstr Hne Hcol. unfold puts.
  destruct (for_up_inv (fun i t => on_grid t /\ row_now t = row_now s /\ col_now t = col_now s + i /\ l t = l s /\
      (0 < i -> exists p, ports t = outs p (cursor_writes (pos t))) /\
      forall k, vram t !! k =
        if decide (pos s ≤ k < pos s + i) then (fun c => glyph c color) <$> str !! Z.to_nat (k - pos s)
        else if decide (k = pos s + i /\ 0 < i) then Some blank_cell else vram s !! k)
    (fun i s => c ← arr_get str i; Ret (putchar s c color)) (Z.to_nat (Zlen str)) 0 s)
    as (t & -> & Ht & Hr & Hc & Hl & Hp & Hv).
  - split_and!; try apply Hg; [done|lia|done|lia|]. intros k. by rewrite !decide_False by lia.
  - intros i t Hi (Ht & Hr & Hc & Hl & Hp & Hv).
    destruct (arr_get_is str i) as (c & -> & Hci); [lia|]. pose proof (Forall_lookup_1 _ _ _ _ Hstr Hci) as Hpc.
    rewrite bind_ret. eexists. split; [reflexivity|].
    destruct (putchar_text t c color Ht Hpc) as (Hr' & Hc' & Hl' & _ & _ & Hv' & Hp'); [lia|].
    unfold on_grid, is_word in *. change (2 ^ 8) with 256 in *.
    assert (Hpos : pos t = pos s + i) by (unfold pos; rewrite Hr, Hc; lia).
    split_and!; [lia..| |].
    + intros _. exists (ports t). rewrite Hp'. do 2 f_equal. unfold pos. lia.
    + intros k. rewrite Hv', Hpos. destruct (decide (k = pos s + i + 1)) as [->|Hk1].
      { rewrite lookup_insert_eq, decide_False, decide_True by lia. done. }
      rewrite lookup_insert_ne by done. destruct (decide (k = pos s + i)) as [->|Hk2].
      { rewrite lookup_insert_eq, decide_True by lia. by rewrite Z.add_simpl_l, Hci. }
      rewrite lookup_insert_ne, Hv by done. repeat case_decide; (lia || done).
  - rewrite Z.add_0_l, Z2Nat.id in * by lia. destruct (Hp Hne) as [p Hpp]. exists t, p. split_and!; [done..|].
    intros k. rewrite Hv. repeat case_decide; (lia || done).
Qed.

(** ** The keyboard *)
Lemma isr_key s scancode p a : keyboard_input_on s = true -> in_ (ports s) KEYBOARD_DATA_PORT = (scancode, p) ->
  0 ≤ scancode < 128 -> keyboard_scancode_1_to_ascii_map !! Z.to_nat scancode = Some a ->
  let s' := keyboard_key (set_ports s p) a in
  keyboard_isr s = Ret (set_ports s' (pic_ack (ports s') IRQ_KEYBOARD)).
Proof using Type.
  intros Hon Hin Hsc Ha. unfold keyboard_isr. rewrite Hin.
  change 0x80 with (2 ^ 7). replace (Z.land scancode (2 ^ 7) =? 0) with true.
  - cbn [negb]. screen_cbn. rewrite Hon, (arr_get_lookup _ _ a) by (done || lia). reflexivity.
  - symmetry. apply Z.eqb_eq, Z.bits_inj'. intros i Hi. rewrite Z.land_spec, Z.bits_0, Z.pow2_bits_eqb by done.
    destruct (Z.eqb_spec 7 i) as [<-|]; [|apply andb_false_r]. rewrite andb_true_r, <- (Z.mod_small scancode (2 ^ 7)) by done.
    by apply Z.mod_pow2_bits_high.
Qed.

(** A key that is typed. *)
Definition typed (a : Z) : Prop := printable a /\ a ≠ 8 /\ a ≠ 9.

Lemma key_typed s a : on_grid s -> typed a -> col_now s < 255 -> 0 ≤ l s < 255 ->
  let s' := keyboard_key s a in
  row_now s' = row_now s /\ col_now s' = col_now s + 1 /\ l s' = l s + 1 /\
  keyboard_input_on s' = keyboard_input_on s /\ keyboard_input s' = a /\
  vram s' = <[pos s + 1 := blank_cell]> (<[pos s := glyph a 0xF]> (vram s)).
Proof using Type.
  intros Hg (Hp & H8 & H9) Hcol Hl. pose proof Hp as [Ha Hnl]. unfold keyboard_key.
  set (t := set_input s (keyboard_input_on s) a).
  rewrite (proj2 (Z.eqb_neq a 10)), (proj2 (Z.eqb_neq a 8)), (proj2 (Z.eqb_neq a 9)), (proj2 (Z.eqb_neq a 0)) by lia.
  change (l t) with (l s). rewrite (proj2 (Z.ltb_lt (l s) (KEYBOARD_BUFFER_SIZE - 1))) by (unfold KEYBOARD_BUFFER_SIZE; lia). cbn [negb andb].
  destruct (putchar_text t a 0xF) as (Hr & Hc & Hl' & Hon & Hin & Hv & _); [done..|]. set (u := putchar t a 0xF) in *.
  destruct Hg as [Hgr Hgc]. unfold is_word in *. change (2 ^ 8) with 256 in *.
  change (l t) with (l s) in *. change (row_now t) with (row_now s) in *. change (col_now t) with (col_now s) in *.
  change (vram t) with (vram s) in *. change (pos t) with (pos s) in *.
  rewrite putchar_nul by (split; screen_cbn; word). screen_cbn.
  rewrite Hl', u8_small by lia. split_and!; [done..|]. rewrite Hv. unfold pos at 1. screen_cbn. rewrite Hr, Hc.
  replace (row_now s * 80 + (col_now s + 1)) with (pos s + 1) by (unfold pos; lia). by rewrite insert_insert_eq.
Qed.

Lemma key_backspace s : on_grid s -> 0 < col_now s -> 0 < l s < 256 ->
  let s' := keyboard_key s 8 in
  row_now s' = row_now s /\ col_now s' = col_now s - 1 /\ l s' = l s - 1 /\
  keyboard_input_on s' = keyboard_input_on s /\ keyboard_input s' = 8 /\
  vram s' = <[pos s - 1 := blank_cell]> (<[pos s := 32]> (vram s)).
Proof using Type.
  intros [Hr Hc] Hcol Hl. unfold is_word in *. change (2 ^ 8) with 256 in *. unfold keyboard_key.
  change (8 =? 10) with false. change (8 =? 8) with true. cbv iota. unfold backspace. screen_cbn.
  rewrite (proj2 (Z.ltb_lt 0 (l s))) by lia. unfold framebuffer_set_cursor, framebuffer_write. screen_cbn.
  rewrite !u8_small by lia. rewrite putchar_nul by (split; screen_cbn; word).
  screen_cbn. split_and!; [done..|]. unfold pos. screen_cbn. do 2 f_equal. lia.
Qed.

(** Typing a key and pressing backspace: while the shell waits for input,
    the interrupt of a key that stands for a character shows the character at
    the write position and hands its code to the program; the interrupt of
    backspace right after it takes it off the screen again, back at the same
    position and line length, and no cell but those two has changed. *)
Theorem key_then_backspace s scancode p a :
  on_grid s -> keyboard_input_on s = true -> col_now s < 255 -> 0 ≤ l s < 255 ->
  in_ (ports s) KEYBOARD_DATA_PORT = (scancode, p) -> 0 ≤ scancode < 128 ->
  keyboard_scancode_1_to_ascii_map !! Z.to_nat scancode = Some a -> typed a ->
  exists s1, keyboard_isr s = Ret s1 /\ keyboard_input s1 = a /\ vram s1 !! pos s = Some (glyph a 0xF) /\
    forall p', in_ (ports s1) KEYBOARD_DATA_PORT = (0x0E, p') ->
    exists s2, keyboard_isr s1 = Ret s2 /\ keyboard_input s2 = 8 /\
      row_now s2 = row_now s /\ col_now s2 = col_now s /\ l s2 = l s /\ keyboard_input_on s2 = true /\
      vram s2 = <[pos s := blank_cell]> (<[pos s + 1 := 32]> (vram s)).
Proof using Type.
  intros Hg Hon Hcol Hl Hin Hsc Ha Ht. rewrite (isr_key s scancode p a) by done. set (s0 := set_ports s p).
  destruct (key_typed s0 a) as (Hr1 & Hc1 & Hl1 & Hon1 & Hin1 & Hv1); [done..|].
  set (k1 := keyboard_key s0 a) in *.
  change (row_now s0) with (row_now s) in *. change (col_now s0) with (col_now s) in *.
  change (l s0) with (l s) in *. change (vram s0) with (vram s) in *. change (pos s0) with (pos s) in *.
  eexists. split; [reflexivity|]. split; [exact Hin1|]. split.
  { screen_cbn. rewrite Hv1, lookup_insert_ne by (unfold pos; lia). by rewrite lookup_insert_eq. }
  set (s1 := set_ports k1 _). intros p' Hp'. change (set_ports k1 _) with s1 in Hp'.
  assert (Hon1' : keyboard_input_on s1 = true) by (change (keyboard_input_on k1 = true); rewrite Hon1; exact Hon).
  rewrite (isr_key s1 0x0E p' 8) by done. set (t := set_ports s1 p').
  destruct Hg as [Hgr Hgc]. unfold is_word in *. change (2 ^ 8) with 256 in *.
  assert (Hrt : row_now t = row_now s) by exact Hr1. assert (Hct : col_now t = col_now s + 1) by exact Hc1.
  assert (Hlt : l t = l s + 1) by exact Hl1. assert (Hvt : vram t = <[pos s + 1:=blank_cell]> (<[pos s:=glyph a 15]> (vram s))) by exact Hv1.
  destruct (key_backspace t) as (Hr2 & Hc2 & Hl2 & Hon2 & Hin2 & Hv2);
    [split; unfold is_word; change (2 ^ 8) with 256; lia|lia|lia|].
  set (k2 := keyboard_key t 8) in *. eexists. split; [reflexivity|]. split; [exact Hin2|].
  screen_cbn. split; [lia|]. split; [lia|]. split; [lia|]. split; [by rewrite Hon2|].
  assert (Hpt : pos t = pos s + 1) by (unfold pos; lia). rewrite Hv2, Hpt, Hvt, Z.add_simpl_r.
  rewrite insert_insert_eq. rewrite (insert_insert_ne _ (pos s) (pos s + 1)) by lia. rewrite insert_insert_eq.
  rewrite (insert_insert_ne _ (pos s)) by lia. done.
Qed.

(** A key release, and any key while no program waits, changes nothing. *)
Lemma isr_ignored s scancode p : in_ (ports s) KEYBOARD_DATA_PORT = (scancode, p) ->
  Z.land scancode 0x80 ≠ 0 \/ keyboard_input_on s = false ->
  keyboard_isr s = Ret (set_ports s (pic_ack p IRQ_KEYBOARD)).
Proof using Type.
  intros Hin Hign. unfold keyboard_isr. rewrite Hin. screen_cbn.
  destruct (Z.eqb_spec (Z.land scancode 0x80) 0) as [He|Hne]; [|done].
  destruct Hign as [Hn| ->]; [done|]. done.
Qed.
End screen.

(** ** Clearing the screen *)
Section clear.
Context {P : Type} `{!PortIO P}.
Implicit Types (s : console P).

Lemma clear_cells s i n : 0 ≤ i < 25 -> (n ≤ 80)%nat ->
  exists m, foldl (fun s j => framebuffer_write s i j 0 0x7 0) s (seqZ 0 (Z.of_nat n)) = set_vram s m /\
    forall k, m !! k = if decide (i * 80 ≤ k < i * 80 + Z.of_nat n) then Some 0x700 else vram s !! k.
Proof using Type.
  intros Hi. induction n as [|n IH]; intros Hn.
  - exists (vram s). split; [by destruct s|]. intros k. by rewrite decide_False by lia.
  - destruct IH as (m & Hrun & Hm); [lia|]. replace (Z.of_nat (S n)) with (Z.of_nat n + 1) by lia.
    rewrite seqZ_app, foldl_app by lia. rewrite Hrun. change (seqZ (0 + Z.of_nat n) 1) with [0 + Z.of_nat n]. cbn [foldl].
    unfold framebuffer_write. rewrite !wrap_small by word. screen_cbn.
    eexists. split; [reflexivity|]. intros k. change (cell 0 7 0) with 0x700.
    destruct (decide (k = i * 80 + (0 + Z.of_nat n))) as [->|Hk].
    + by rewrite lookup_insert_eq, decide_True by lia.
    + rewrite lookup_insert_ne, Hm by done. repeat case_decide; (lia || done).
Qed.

(** [framebuffer_clear] makes all 25 rows of 80 cells empty and grey on
    black, touches no memory behind the screen, and moves neither the write
    position nor the cursor. *)
Theorem framebuffer_clear_blank s :
  exists m, framebuffer_clear s = set_vram s m /\
    forall k, m !! k = if decide (0 ≤ k < SCREEN_WIDTH * SCREEN_HEIGHT) then Some 0x700 else vram s !! k.
Proof using Type.
  unfold framebuffer_clear. change SCREEN_HEIGHT with (Z.of_nat 25). change SCREEN_WIDTH with (Z.of_nat 80).
  enough (H : forall n, (n ≤ 25)%nat -> exists m,
    foldl (fun s i => foldl (fun s j => framebuffer_write s i j 0 0x7 0) s (seqZ 0 (Z.of_nat 80))) s (seqZ 0 (Z.of_nat n)) = set_vram s m /\
    forall k, m !! k = if decide (0 ≤ k < Z.of_nat 80 * Z.of_nat n) then Some 0x700 else vram s !! k) by by apply H.
  induction n as [|n IH]; intros Hn.
  - exists (vram s). split; [by destruct s|]. intros k. by rewrite decide_False by lia.
  - destruct IH as (m & Hrun & Hm); [lia|]. replace (Z.of_nat (S n)) with (Z.of_nat n + 1) by lia.
    rewrite seqZ_app, foldl_app by lia. rewrite Hrun. change (seqZ (0 + Z.of_nat n) 1) with [0 + Z.of_nat n].
    destruct (clear_cells (set_vram s m) (0 + Z.of_nat n) 80) as (m' & Hrow & Hm'); [lia|lia|].
    exists m'. split; [exact Hrow|]. intros k. rewrite Hm'. screen_cbn. rewrite Hm. repeat case_decide; (lia || done).
Qed.
End clear.

(** ** A keyboard *)

(** A keyboard controller with scancodes waiting; every other port is ignored. *)
Module KeyQueue.
#[global] Instance queue_ports : PortIO (list Z) := {
  inb := fun q port => if port =? KEYBOARD_DATA_PORT then (default 0 (head q), tail q) else (0, q);
  outb := fun q port v => q;
  inw := fun q port => (0, q);
  outw := fun q port v => q
}.
End KeyQueue.

(** The cursor in the middle of row 3, "A" then backspace on the keyboard. *)
Definition demo_console : console (list Z) := MkConsole true 0 3 10 4 ∅ [0x1E; 0x0E].

Lemma key_then_backspace_witness :
  exists s1 s2, keyboard_isr demo_console = Ret s1 /\ keyboard_input s1 = 97 /\
    keyboard_isr s1 = Ret s2 /\ col_now s2 = 10 /\ vram s2 !! 250 = Some blank_cell.
Proof.
  destruct (key_then_backspace demo_console 0x1E [0x0E] 97) as (s1 & H1 & Hin & _ & H).
  - split; split; reflexivity || discriminate.
  - reflexivity.
  - reflexivity.
  - split; [discriminate|reflexivity].
  - reflexivity.
  - split; [discriminate|reflexivity].
  - reflexivity.
  - by repeat split.
  - destruct (H []) as (s2 & H2 & _ & _ & Hc & _ & _ & Hv).
    + assert (Hrun : keyboard_isr demo_console = Ret s1) by exact H1. vm_compute in Hrun. injection Hrun as <-. reflexivity.
    + exists s1, s2. split; [exact H1|]. split; [exact Hin|]. split; [exact H2|]. split; [exact Hc|]. rewrite Hv. reflexivity.
Defined.

Lemma puts_line_witness :
  exists s' p, puts demo_console (bytes_of_string "shell") 5 0xF = Ret s' /\ col_now s' = 15 /\
    ports s' = outs p (cursor_writes 255) /\ vram s' !! 251 = Some (glyph 104 0xF).
Proof.
  destruct (puts_line demo_console (bytes_of_string "shell") 0xF) as (s' & p & Hrun & Hr & Hc & _ & Hp & Hv).
  - split; split; reflexivity || discriminate.
  - apply (bool_decide_unpack _). vm_compute. exact I.
  - reflexivity.
  - discriminate.
  - exists s', p. split; [exact Hrun|]. split; [exact Hc|]. split; [|rewrite Hv; reflexivity].
    rewrite Hp. unfold pos. rewrite Hr, Hc. reflexivity.
Defined.
