(* ===== verification/Cmos.v ===== *)
(** * cmos.c: the real-time clock

    The clock is read through the ports 0x70 and 0x71.  [polls] bounds the
    reads of the update flag in one wait and [rounds] the samples the
    comparison loop takes.  [century_register] is 0 in the source, so its
    branches are dead; [century] is then compared with itself.  The
    time is printed with the static buffer of [itoa], which is threaded
    through. *)
From S2P Require Import Prelude CString PortIO Screen.

Definition CURRENT_YEAR : Z := 2024.
Definition CMOS_ADDRESS : Z := 0x70.
Definition CMOS_DATA : Z := 0x71.

(** The global variables. *)
Record clock_time := MkRtc {
  second : Z;
  minute : Z;
  hour : Z;
  day : Z;
  month : Z;
  year : Z
}.

#[export] Instance clock_time_eq_dec : EqDecision clock_time.
Proof. solve_decision. Defined.

(** ** The conversions of [read_rtc] *)
Definition from_bcd (v : Z) : Z := Z.land v 0x0F + v / 16 * 10.

(** The top bit of the hour is the PM flag. *)
Definition hour_from_bcd (v : Z) : Z :=
  Z.lor (Z.land v 0x0F + Z.land v 0x70 / 16 * 10) (Z.land v 0x80).

Definition convert_bcd (registerB : Z) (t : clock_time) : clock_time :=
  if Z.land registerB 0x04 =? 0 then
    MkRtc (u8 (from_bcd (second t))) (u8 (from_bcd (minute t))) (u8 (hour_from_bcd (hour t)))
      (u8 (from_bcd (day t))) (u8 (from_bcd (month t))) (from_bcd (year t))
  else t.

Definition convert_12_hour (registerB : Z) (t : clock_time) : clock_time :=
  if (Z.land registerB 0x02 =? 0) && negb (Z.land (hour t) 0x80 =? 0) then
    MkRtc (second t) (minute t) ((Z.land (hour t) 0x7F + 12) mod 24) (day t) (month t) (year t)
  else t.

Definition full_year (t : clock_time) : clock_time :=
  let year1 := u32 (year t + CURRENT_YEAR / 100 * 100) in
  MkRtc (second t) (minute t) (hour t) (day t) (month t)
    (if year1 <? CURRENT_YEAR then u32 (year1 + 100) else year1).

Definition convert (registerB : Z) (t : clock_time) : clock_time := full_year (convert_12_hour registerB (convert_bcd registerB t)).

Section cmos.
Context {P : Type} `{!PortIO P} (polls rounds : nat).
Implicit Types (p : P).

Definition get_RTC_register (p : P) (reg : Z) : Z * P := in_ (out p CMOS_ADDRESS reg) CMOS_DATA.

Definition get_update_in_progress_flag (p : P) : Z * P :=
  let '(v, p) := in_ (out p CMOS_ADDRESS 0x0A) CMOS_DATA in (Z.land v 0x80, p).

(** [while (get_update_in_progress_flag ());]. *)
Fixpoint wait_update (k : nat) (p : P) : res P :=
  match k with
  | O => Hang
  | S k' => let '(f, p) := get_update_in_progress_flag p in if f =? 0 then Ret p else wait_update k' p
  end.

Definition sample (p : P) : res (clock_time * P) :=
  p ← wait_update polls p;
  let '(s, p) := get_RTC_register p 0x00 in
  let '(m, p) := get_RTC_register p 0x02 in
  let '(h, p) := get_RTC_register p 0x04 in
  let '(d, p) := get_RTC_register p 0x07 in
  let '(mo, p) := get_RTC_register p 0x08 in
  let '(y, p) := get_RTC_register p 0x09 in
  Ret (MkRtc s m h d mo y, p).

(** The [do ... while] loop: until two samples agree. *)
Fixpoint settle (k : nat) (last : clock_time) (p : P) : res (clock_time * P) :=
  match k with
  | O => Hang
  | S k' =>
      '(now, p) ← sample p;
      if decide (now = last) then Ret (now, p) else settle k' now p
  end.

Definition read_rtc (p : P) : res (clock_time * P) :=
  '(first, p) ← sample p;
  '(t, p) ← settle rounds first p;
  let '(registerB, p) := get_RTC_register p 0x0B in
  Ret (convert registerB t, p).

(** ** [print_current_time] *)

(** One of the three numbers, at columns [col] and [col + 1] of the last row. *)
Definition print_field (s : console P) (buf : list Z) (v col : Z) : res (console P * list Z) :=
  '(buf, ptr) ← CString.itoa buf v 10;
  len ← CString.strlen (drop (Z.to_nat ptr) buf);
  if len =? 1 then
    let s := framebuffer_write s (SCREEN_HEIGHT - 1) col 48 0xF 0 in
    c ← arr_get buf ptr;
    Ret (framebuffer_write s (SCREEN_HEIGHT - 1) (col + 1) c 0xF 0, buf)
  else
    c0 ← arr_get buf ptr;
    let s := framebuffer_write s (SCREEN_HEIGHT - 1) col (if c0 =? 0 then 48 else c0) 0xF 0 in
    c1 ← arr_get buf (ptr + 1);
    Ret (framebuffer_write s (SCREEN_HEIGHT - 1) (col + 1) (if c1 =? 0 then 48 else c1) 0xF 0, buf).

Definition print_current_time (s : console P) (buf : list Z) : res (console P * list Z * clock_time) :=
  '(t, p) ← read_rtc (ports s);
  let s := set_ports s p in
  '(s, buf) ← print_field s buf ((hour t + 7) mod 24) (SCREEN_WIDTH - 8);
  let s := framebuffer_write s (SCREEN_HEIGHT - 1) (SCREEN_WIDTH - 6) 58 0xF 0 in
  '(s, buf) ← print_field s buf (minute t) (SCREEN_WIDTH - 5);
  let s := framebuffer_write s (SCREEN_HEIGHT - 1) (SCREEN_WIDTH - 3) 58 0xF 0 in
  '(s, buf) ← print_field s buf (second t) (SCREEN_WIDTH - 2);
  Ret (s, buf, t).
End cmos.

(** ** The clock chip *)

(** What the registers show for a time of day [t] with a two-digit year, in
    one of the chip's four formats. *)
Definition to_bcd (v : Z) : Z := v / 10 * 16 + v mod 10.

Definition show (binary h24 : bool) (t : clock_time) : clock_time :=
  let enc v := if binary then v else to_bcd v in
  let h :=
    if h24 then enc (hour t)
    else enc (if hour t mod 12 =? 0 then 12 else hour t mod 12) + (if 12 <=? hour t then 0x80 else 0) in
  MkRtc (enc (second t)) (enc (minute t)) h (enc (day t)) (enc (month t)) (enc (year t)).

Definition format_register (binary h24 : bool) : Z := (if binary then 4 else 0) + (if h24 then 2 else 0).

Definition valid_time (t : clock_time) : Prop :=
  0 ≤ second t < 60 /\ 0 ≤ minute t < 60 /\ 0 ≤ hour t < 24 /\ 1 ≤ day t ≤ 31 /\ 1 ≤ month t ≤ 12 /\ 0 ≤ year t < 100.

Definition reg_value (t : clock_time) (format reg : Z) : Z :=
  if reg =? 0x00 then second t else if reg =? 0x02 then minute t else if reg =? 0x04 then hour t
  else if reg =? 0x07 then day t else if reg =? 0x08 then month t else if reg =? 0x09 then year t
  else if reg =? 0x0B then format else 0.

(** The port behaviour of the chip while its registers show [face] in format
    [format]: a write to 0x70 selects a register, 0x71 reads it; [updating]
    reads of register A still show the update flag.  A chip that ticks during
    the call is outside these laws. *)
Class RtcDevice (P : Type) `{!PortIO P} := {
  face : P -> clock_time;
  format : P -> Z;
  index : P -> Z;
  updating : P -> nat;
  format_byte p : is_byte (format p);
  select_law p reg : is_byte reg ->
    let p' := outb p CMOS_ADDRESS reg in
    face p' = face p /\ format p' = format p /\ updating p' = updating p /\ index p' = reg;
  data_law p : index p ≠ 0x0A ->
    exists p', inb p CMOS_DATA = (reg_value (face p) (format p) (index p), p') /\
      face p' = face p /\ format p' = format p /\ updating p' = updating p;
  status_a_law p : index p = 0x0A ->
    exists v p', inb p CMOS_DATA = (v, p') /\ is_byte v /\ (Z.testbit v 7 = true <-> updating p ≠ 0%nat) /\
      face p' = face p /\ format p' = format p /\ updating p' = pred (updating p)
}.
