(* ===== verification/CmosProps.v ===== *)
(** * The time of day: what [read_rtc] returns and what is printed *)
From S2P Require Import Prelude CString PortIO Screen ScreenProps AtaFacts Cmos.

(** ** Decoding *)
Lemma check_range (P : Z -> Prop) {dec : forall z, Decision (P z)} n :
  forallb (fun z => bool_decide (P z)) (seqZ 0 n) = true -> forall z, 0 ≤ z < n -> P z.
Proof.
  intros H z Hz. rewrite forallb_forall in H. apply (bool_decide_eq_true_1 (P z)), H.
  apply list_elem_of_In, elem_of_seqZ. lia.
Qed.

Lemma bcd_digits v : 0 ≤ v < 100 -> from_bcd (to_bcd v) = v /\ is_byte (to_bcd v).
Proof. revert v. apply (check_range _). by vm_compute. Qed.

Definition enc (binary : bool) (v : Z) : Z := if binary then v else to_bcd v.

Lemma hour_24_digits v : 0 ≤ v < 24 ->
  u8 (hour_from_bcd (to_bcd v)) = v /\ is_byte (to_bcd v) /\ is_byte v.
Proof. revert v. apply (check_range _). by vm_compute. Qed.

(** The hour a 12-hour clock shows, and what the source makes of it. *)
Definition face_12 (binary : bool) (h : Z) : Z :=
  enc binary (if h mod 12 =? 0 then 12 else h mod 12) + (if 12 <=? h then 0x80 else 0).

Definition read_12 (binary : bool) (h : Z) : Z :=
  let v := if binary then face_12 binary h else u8 (hour_from_bcd (face_12 binary h)) in
  if Z.land v 0x80 =? 0 then v else (Z.land v 0x7F + 12) mod 24.

Lemma hour_12_digits binary h : 0 ≤ h < 24 ->
  read_12 binary h = (if h mod 12 =? 0 then 12 - h else h) /\ is_byte (face_12 binary h).
Proof. revert h. destruct binary; apply (check_range _); by vm_compute. Qed.

(** The hour after [read_rtc]: right except at the two twelve o'clocks of a
    12-hour clock, which are exchanged. *)
Definition hour_read (h24 : bool) (h : Z) : Z := if negb h24 && (h mod 12 =? 0) then 12 - h else h.

Definition time_read (h24 : bool) (t : clock_time) : clock_time :=
  MkRtc (second t) (minute t) (hour_read h24 (hour t)) (day t) (month t)
    (if year t <? 24 then 2100 + year t else 2000 + year t).

Lemma year_digits y : 0 ≤ y < 100 ->
  (if u32 (y + CURRENT_YEAR / 100 * 100) <? CURRENT_YEAR then u32 (u32 (y + CURRENT_YEAR / 100 * 100) + 100)
   else u32 (y + CURRENT_YEAR / 100 * 100)) =
  (if y <? 24 then 2100 + y else 2000 + y).
Proof. revert y. apply (check_range _). by vm_compute. Qed.

Lemma enc_read (binary : bool) v : 0 ≤ v < 100 ->
  (if binary then enc binary v else u8 (from_bcd (enc binary v))) = v /\
  (if binary then enc binary v else from_bcd (enc binary v)) = v /\ is_byte (enc binary v).
Proof.
  intros Hv. destruct (bcd_digits v Hv) as [H1 H2]. unfold enc, is_word in *. change (2 ^ 8) with 256 in *.
  destruct binary; split_and!; try lia. rewrite H1. apply wrap_small. unfold is_word. change (2 ^ 8) with 256. lia.
Qed.

Lemma convert_show binary h24 t : valid_time t ->
  convert (format_register binary h24) (show binary h24 t) = time_read h24 t.
Proof.
  intros (Hs & Hm & Hh & Hd & Hmo & Hy). unfold convert, show.
  assert (Hb : (Z.land (format_register binary h24) 0x04 =? 0) = negb binary) by by destruct binary, h24.
  assert (H2 : (Z.land (format_register binary h24) 0x02 =? 0) = negb h24) by by destruct binary, h24.
  unfold convert_bcd, convert_12_hour. rewrite Hb, H2.
  destruct (enc_read binary (second t)) as (Es & _ & _); [lia|]. destruct (enc_read binary (minute t)) as (Em & _ & _); [lia|].
  destruct (enc_read binary (day t)) as (Ed & _ & _); [lia|]. destruct (enc_read binary (month t)) as (Emo & _ & _); [lia|].
  destruct (enc_read binary (year t)) as (_ & Ey & _); [lia|].
  destruct (hour_12_digits binary (hour t) Hh) as [E12 _]. destruct (hour_24_digits (hour t) Hh) as (E24 & _ & _).
  unfold enc, read_12, face_12 in *. unfold time_read, hour_read, full_year.
  destruct binary, h24; cbn [negb andb second minute hour day month year] in *;
    rewrite ?Es, ?Em, ?Ed, ?Emo, ?Ey, ?E24, ?year_digits by lia; try reflexivity.
  all: unfold enc in *; destruct (Z.land _ 0x80 =? 0); cbn [negb second minute hour day month year];
    by rewrite E12, year_digits by lia.
Qed.

(** ** Reading the chip *)
Definition face_ok (t : clock_time) : Prop :=
  is_byte (second t) /\ is_byte (minute t) /\ is_byte (hour t) /\ is_byte (day t) /\ is_byte (month t) /\ is_byte (year t).

Lemma show_ok binary h24 t : valid_time t -> face_ok (show binary h24 t).
Proof.
  intros (Hs & Hm & Hh & Hd & Hmo & Hy). unfold face_ok, show. cbn [second minute hour day month year].
  assert (Hbyte : forall v, 0 ≤ v < 100 -> is_byte (enc binary v)) by (intros v Hv; apply (enc_read binary v Hv)).
  split_and!; try (apply Hbyte; lia). destruct h24.
  - apply Hbyte. lia.
  - apply (hour_12_digits binary (hour t) Hh).
Qed.

Section chip.
Context {P : Type} `{!PortIO P, !RtcDevice P}.
Implicit Types (p : P).

(** The chip shows [t] in format [fmt]. *)
Definition shows p (t : clock_time) (fmt : Z) : Prop := face p = t /\ format p = fmt.

Lemma get_register_ok p t fmt reg : shows p t fmt -> is_byte reg -> reg ≠ 0x0A -> is_byte (reg_value t fmt reg) ->
  exists p', get_RTC_register p reg = (reg_value t fmt reg, p') /\ shows p' t fmt /\ updating p' = updating p.
Proof using Type.
  intros [Ht Hm] Hr Hne Hv. unfold get_RTC_register, out, in_. change (u16 CMOS_ADDRESS) with CMOS_ADDRESS.
  change (u16 CMOS_DATA) with CMOS_DATA. rewrite (wrap_small 8 reg) by done.
  destruct (select_law p reg Hr) as (Hf & Hfmt & Hu & Hi). set (q := outb p CMOS_ADDRESS reg) in *.
  destruct (data_law q) as (p' & Hin & Hf' & Hfmt' & Hu'); [by rewrite Hi|].
  rewrite Hin, Hi, Hf, Hfmt, Ht, Hm, wrap_small by done. exists p'. split; [done|]. split; [split|]; congruence.
Qed.

Lemma wait_update_ok k p t fmt : shows p t fmt -> (updating p < k)%nat ->
  exists p', wait_update k p = Ret p' /\ shows p' t fmt /\ updating p' = 0%nat.
Proof using Type.
  revert p. induction k as [|k IH]; intros p [Ht Hm] Hk; [lia|]. cbn [wait_update].
  unfold get_update_in_progress_flag, out, in_. change (u16 CMOS_ADDRESS) with CMOS_ADDRESS.
  change (u16 CMOS_DATA) with CMOS_DATA. change (u8 0x0A) with 0x0A.
  destruct (select_law p 0x0A) as (Hf & Hfmt & Hu & Hi); [done|]. set (q := outb p CMOS_ADDRESS 0x0A) in *.
  destruct (status_a_law q Hi) as (v & p' & Hin & Hv & Hbit & Hf' & Hfmt' & Hu'). rewrite Hin, (wrap_small 8 v) by done.
  change 0x80 with (2 ^ 7). rewrite land_bit by done. assert (Hs : shows p' t fmt) by (split; congruence).
  destruct (Z.testbit v 7) eqn:E; cbn [negb].
  - assert (updating q ≠ 0%nat) by by apply Hbit. apply IH; [done|lia].
  - exists p'. split; [done|]. split; [done|]. destruct (updating q); [done|]. by assert (false = true) by by apply Hbit.
Qed.

Lemma sample_ok polls p t fmt : shows p t fmt -> face_ok t -> (updating p < polls)%nat ->
  exists p', sample polls p = Ret (t, p') /\ shows p' t fmt /\ updating p' = 0%nat.
Proof using Type.
  intros Hs (H1 & H2 & H3 & H4 & H5 & H6) Hu. unfold sample.
  destruct (wait_update_ok polls p t fmt Hs Hu) as (p0 & -> & Hs0 & Hu0). rewrite bind_ret.
  repeat match goal with
  | Hs : shows ?q t fmt |- context [get_RTC_register ?q ?r] =>
      let p' := fresh "p" in let Hg := fresh "Hg" in let Hs' := fresh "Hs" in let Hu := fresh "Hu" in
      destruct (get_register_ok q t fmt r Hs) as (p' & Hg & Hs' & Hu); [done|done|assumption|]; rewrite Hg; clear Hg
  end.
  destruct t. eexists. split; [reflexivity|]. split; [assumption|congruence].
Qed.

Lemma read_rtc_ok polls rounds p t fmt : shows p t fmt -> face_ok t -> is_byte fmt ->
  (updating p < polls)%nat -> (0 < rounds)%nat ->
  exists p', read_rtc polls rounds p = Ret (convert fmt t, p') /\ shows p' t fmt.
Proof using Type.
  intros Hs Hok Hfmt Hu Hr. unfold read_rtc.
  destruct (sample_ok polls p t fmt Hs Hok Hu) as (p1 & -> & Hs1 & Hu1). rewrite bind_ret.
  destruct rounds as [|k]; [lia|]. cbn [settle].
  destruct (sample_ok polls p1 t fmt Hs1 Hok) as (p2 & -> & Hs2 & _); [lia|]. rewrite bind_ret, decide_True, bind_ret by done.
  destruct (get_register_ok p2 t fmt 0x0B Hs2) as (p3 & -> & Hs3 & _); [done|done|done|]. by eexists.
Qed.
End chip.

(** C39: [read_rtc] on a chip whose registers stand still ends and returns the
    time they show, in each of the chip's four formats, with the century
    added, except that a 12-hour clock's noon and midnight come out as each
    other. *)
Theorem read_rtc_time {P : Type} `{!PortIO P, !RtcDevice P} (polls rounds : nat) (p : P) t (binary h24 : bool) :
  valid_time t -> face p = show binary h24 t -> format p = format_register binary h24 ->
  (updating p < polls)%nat -> (0 < rounds)%nat ->
  exists p', read_rtc polls rounds p = Ret (MkRtc (second t) (minute t)
      (if negb h24 && (hour t mod 12 =? 0) then 12 - hour t else hour t) (day t) (month t)
      (if year t <? 24 then 2100 + year t else 2000 + year t), p') /\ face p' = face p.
Proof.
  intros Ht Hf Hm Hu Hr.
  destruct (read_rtc_ok polls rounds p (show binary h24 t) (format_register binary h24)) as (p' & Hrun & Hs & _);
    [done|by apply show_ok|by destruct binary, h24|done|done|].
  exists p'. rewrite Hrun, convert_show by done. split; [done|congruence].
Qed.

(** ** Printing *)
Definition itoa_buf_ok (buf : list Z) : Prop := length buf = 32%nat /\ buf !! 31%nat = Some 0.

Lemma digit_at r : 0 ≤ r < 10 -> arr_get CString.itoa_digits r = Ret (48 + r).
Proof.
  intros Hr. assert (Hin : r ∈ seqZ 0 10) by (apply elem_of_seqZ; lia).
  repeat (apply elem_of_cons in Hin as [->|Hin]; [reflexivity|]). by apply elem_of_nil in Hin.
Qed.

Lemma itoa_step k v buf : 0 < v < 2 ^ 31 -> (S k < length buf)%nat ->
  CString.itoa_loop (S k) v 10 buf = CString.itoa_loop k (v / 10) 10 (<[S k := 48 + v mod 10]> buf).
Proof.
  intros Hv Hk. cbn [CString.itoa_loop]. rewrite (proj2 (Z.eqb_neq v 0)) by lia.
  change (10 =? 0) with false. rewrite (proj2 (Z.eqb_neq v (- 2 ^ 31))) by lia. cbn [orb andb].
  rewrite Z.rem_mod_nonneg, Z.quot_div_nonneg by lia. rewrite digit_at by (apply Z.mod_pos_bound; lia).
  by rewrite bind_ret, arr_set_in, bind_ret, Nat2Z.id by (unfold Zlen; lia).
Qed.

Lemma itoa_two buf v : itoa_buf_ok buf -> 0 < v < 100 ->
  CString.itoa buf v 10 = Ret (if v <? 10 then (<[30%nat := 48 + v]> buf, 30)
                               else (<[29%nat := 48 + v / 10]> (<[30%nat := 48 + v mod 10]> buf), 29)).
Proof.
  intros [Hlen Hend] Hv. unfold CString.itoa. rewrite itoa_step by lia.
  destruct (Z.ltb_spec v 10).
  - rewrite Z.div_small, Z.mod_small by lia. reflexivity.
  - rewrite itoa_step by (rewrite ?length_insert; Z.div_mod_to_equations; lia).
    replace (v / 10 / 10) with 0 by (Z.div_mod_to_equations; lia).
    rewrite (Z.mod_small (v / 10)) by (Z.div_mod_to_equations; lia). reflexivity.
Qed.

Lemma strlen_one c : c ≠ 0 -> CString.strlen [c; 0] = Ret 1.
Proof. intros Hc. unfold CString.strlen. cbn. by destruct c. Qed.

Lemma strlen_two c d : c ≠ 0 -> d ≠ 0 -> CString.strlen [c; d; 0] = Ret 2.
Proof. intros Hc Hd. unfold CString.strlen. cbn. by destruct c, d. Qed.

Lemma drop_lookup {A} n (m : list A) x : m !! n = Some x -> drop n m = x :: drop (S n) m.
Proof. intros. by apply drop_S. Qed.

Section print.
Context {P : Type} `{!PortIO P}.
Implicit Types (s : console P).

Lemma write_glyph s row col c : 0 ≤ row < 25 -> 0 ≤ col < 80 -> 0 ≤ c < 128 ->
  framebuffer_write s row col c 0xF 0 = set_vram s (<[row * 80 + col := glyph c 0xF]> (vram s)).
Proof using Type.
  intros Hr Hc Hch. unfold framebuffer_write. rewrite cell_glyph by done.
  by rewrite !wrap_small by word.
Qed.

(** The two cells of a number: its digits. *)
Definition show_two (m : gmap Z Z) (v col : Z) : gmap Z Z :=
  <[24 * 80 + (col + 1) := glyph (48 + v mod 10) 0xF]> (<[24 * 80 + col := glyph (48 + v / 10) 0xF]> m).

Lemma print_field_shows s buf v col : itoa_buf_ok buf -> 0 < v < 100 -> 0 ≤ col < 79 ->
  exists buf', print_field s buf v col = Ret (set_vram s (show_two (vram s) v col), buf') /\ itoa_buf_ok buf'.
Proof using Type.
  intros Hb Hv Hcol. pose proof Hb as [Hlen Hend]. unfold print_field. rewrite itoa_two, bind_ret by done.
  change (SCREEN_HEIGHT - 1) with 24. unfold show_two. destruct (Z.ltb_spec v 10).
  - exists (<[30%nat := 48 + v]> buf). cbv iota beta. change (Z.to_nat 30) with 30%nat.
    rewrite (drop_lookup _ _ (48 + v)) by (apply list_lookup_insert_eq; lia).
    rewrite (drop_lookup _ _ 0) by by rewrite list_lookup_insert_ne.
    rewrite drop_ge by (rewrite length_insert; lia). rewrite strlen_one, bind_ret by lia.
    change (1 =? 1) with true. cbv iota. rewrite (arr_get_lookup _ 30 (48 + v)) by (done || (apply list_lookup_insert_eq; lia)).
    rewrite bind_ret, !write_glyph by lia. screen_cbn. rewrite Z.div_small, Z.mod_small by lia. split; [done|].
    split; [by rewrite length_insert|by rewrite list_lookup_insert_ne].
  - set (b := <[29%nat := 48 + v / 10]> _). exists b. cbv iota beta.
    assert (Hd : 0 < v / 10 < 10 /\ 0 ≤ v mod 10 < 10) by (Z.div_mod_to_equations; lia).
    assert (H29 : b !! 29%nat = Some (48 + v / 10)) by (apply list_lookup_insert_eq; rewrite length_insert; lia).
    assert (H30 : b !! 30%nat = Some (48 + v mod 10)) by (unfold b; rewrite list_lookup_insert_ne by done; apply list_lookup_insert_eq; lia).
    assert (H31 : b !! 31%nat = Some 0) by (unfold b; by rewrite !list_lookup_insert_ne).
    assert (Hbl : length b = 32%nat) by (unfold b; by rewrite !length_insert).
    change (Z.to_nat 29) with 29%nat. rewrite (drop_lookup _ _ _ H29), (drop_lookup _ _ _ H30), (drop_lookup _ _ _ H31), drop_ge by lia.
    rewrite strlen_two, bind_ret by lia. change (2 =? 1) with false. cbv iota.
    rewrite (arr_get_lookup _ 29 _ ltac:(done) H29), bind_ret, (arr_get_lookup _ (29 + 1) _ ltac:(done) H30), bind_ret.
    rewrite (proj2 (Z.eqb_neq (48 + v / 10) 0)), (proj2 (Z.eqb_neq (48 + v mod 10) 0)) by lia.
    rewrite !write_glyph by lia. screen_cbn. done.
Qed.

Lemma print_field_zero s buf col : itoa_buf_ok buf -> print_field s buf 0 col = Ub.
Proof using Type.
  intros [Hlen Hend]. unfold print_field. rewrite CString.itoa_zero, bind_ret. change (Z.to_nat 31) with 31%nat.
  rewrite (drop_lookup _ _ _ Hend), drop_ge by lia. change (CString.strlen [0]) with (Ret 0). rewrite bind_ret.
  change (0 =? 1) with false. cbv iota. rewrite (arr_get_lookup _ 31 _ ltac:(done) Hend), bind_ret, arr_get_oob; [done|].
  unfold Zlen. lia.
Qed.

(** ** The clock in the corner *)
Context `{!RtcDevice P} (polls rounds : nat).

(** The last eight cells of the last row: [hh:mm:ss]. *)
Definition clock_text (h m sec : Z) : list Z :=
  [48 + h / 10; 48 + h mod 10; 58; 48 + m / 10; 48 + m mod 10; 58; 48 + sec / 10; 48 + sec mod 10].

(** The screen and the chip before [print_current_time]: the registers stand
    still and show [t]. *)
Record clock_ready s buf t (binary h24 : bool) : Prop := MkClockReady {
  cr_buf : itoa_buf_ok buf;
  cr_time : valid_time t;
  cr_face : face (ports s) = show binary h24 t;
  cr_format : format (ports s) = format_register binary h24;
  cr_polls : (updating (ports s) < polls)%nat;
  cr_rounds : (0 < rounds)%nat
}.

Lemma clock_read s buf t binary h24 : clock_ready s buf t binary h24 ->
  exists p, read_rtc polls rounds (ports s) = Ret (time_read h24 t, p).
Proof using Type.
  intros [_ Ht Hf Hm Hu Hr].
  destruct (read_rtc_ok polls rounds (ports s) (show binary h24 t) (format_register binary h24)) as (p' & Hrun & _);
    [done|by apply show_ok|by destruct binary, h24|done|done|].
  exists p'. by rewrite Hrun, convert_show.
Qed.

(** [print_current_time] writes [hh:mm:ss] in Western Indonesian time into
    the last eight cells of the screen and changes no other cell, whenever none
    of the three numbers is zero. *)
Theorem print_current_time_shows s buf t binary h24 :
  clock_ready s buf t binary h24 -> let h := (hour_read h24 (hour t) + 7) mod 24 in
  h ≠ 0 -> minute t ≠ 0 -> second t ≠ 0 ->
  exists s' buf' t', print_current_time polls rounds s buf = Ret (s', buf', t') /\ itoa_buf_ok buf' /\
    row_now s' = row_now s /\ col_now s' = col_now s /\
    forall k, vram s' !! k = if decide (1992 ≤ k < 2000)
      then (fun c => glyph c 0xF) <$> clock_text h (minute t) (second t) !! Z.to_nat (k - 1992) else vram s !! k.
Proof using Type.
  intros Hr h Hh Hm Hs. destruct (clock_read _ _ _ _ _ Hr) as (p & Hrun). destruct Hr as [Hb (Hs' & Hm' & Hh' & _) _ _ _ _].
  unfold print_current_time. rewrite Hrun, bind_ret. cbn [hour minute second time_read]. fold h.
  assert (0 ≤ h < 24) by (apply Z.mod_pos_bound; lia).
  change (SCREEN_WIDTH - 8) with 72. change (SCREEN_WIDTH - 6) with 74. change (SCREEN_WIDTH - 5) with 75.
  change (SCREEN_WIDTH - 3) with 77. change (SCREEN_WIDTH - 2) with 78. change (SCREEN_HEIGHT - 1) with 24.
  destruct (print_field_shows (set_ports s p) buf h 72) as (b1 & -> & Hb1); [done|lia|lia|]. rewrite bind_ret, write_glyph by lia.
  set (s1 := set_vram _ (<[24 * 80 + 74 := _]> _)).
  destruct (print_field_shows s1 b1 (minute t) 75) as (b2 & -> & Hb2); [done|lia|lia|]. rewrite bind_ret, write_glyph by lia.
  set (s2 := set_vram _ (<[24 * 80 + 77 := _]> _)).
  destruct (print_field_shows s2 b2 (second t) 78) as (b3 & -> & Hb3); [done|lia|lia|]. rewrite bind_ret.
  eexists _, b3, _. split; [reflexivity|]. split; [done|]. split; [done|]. split; [done|]. intros k.
  subst s2 s1. unfold show_two, clock_text. screen_cbn. rewrite !lookup_insert. destruct (decide (1992 ≤ k < 2000)) as [Hk|Hk].
  - assert (Hin : k ∈ seqZ 1992 8) by (apply elem_of_seqZ; lia).
    vm_compute in Hin. repeat (apply elem_of_cons in Hin as [->|Hin]; [reflexivity|]). by apply elem_of_nil in Hin.
  - repeat case_decide; (lia || done).
Qed.

(** At every full minute, every full hour and at Western Indonesian
    midnight [print_current_time] reads past the static buffer of [itoa]:
    zero is printed as the empty string at the buffer's last byte and the code
    takes a second character from it. *)
Theorem print_current_time_zero s buf t binary h24 :
  clock_ready s buf t binary h24 ->
  (hour_read h24 (hour t) + 7) mod 24 = 0 \/ minute t = 0 \/ second t = 0 ->
  print_current_time polls rounds s buf = Ub.
Proof using Type.
  intros Hr Hz. destruct (clock_read _ _ _ _ _ Hr) as (p & Hrun). destruct Hr as [Hb (Hs' & Hm' & Hh' & _) _ _ _ _].
  unfold print_current_time. rewrite Hrun, bind_ret. cbn [hour minute second time_read].
  pose proof (Z.mod_pos_bound (hour_read h24 (hour t) + 7) 24) as Hh. set (h := (_ + 7) mod 24) in *.
  destruct (decide (h = 0)) as [->|H0]; [by rewrite print_field_zero|].
  destruct (print_field_shows (set_ports s p) buf h (SCREEN_WIDTH - 8)) as (b1 & -> & Hb1);
    [done|lia|unfold SCREEN_WIDTH; lia|]. rewrite bind_ret.
  destruct (decide (minute t = 0)) as [->|Hm0]; [by rewrite print_field_zero|].
  set (s1 := framebuffer_write _ _ _ _ _ _).
  destruct (print_field_shows s1 b1 (minute t) (SCREEN_WIDTH - 5)) as (b2 & -> & Hb2);
    [done|lia|unfold SCREEN_WIDTH; lia|]. rewrite bind_ret.
  destruct Hz as [?|[?|Hz]]; [done|done|]. by rewrite Hz, print_field_zero.
Qed.
End print.

(** ** A chip *)

(** A chip that still shows the update flag for [busy] reads of register A. *)
Module SimulatedClock.
Record chip := MkChip { regs : clock_time; fmt : Z; selected_reg : Z; busy : nat }.

Definition chip_in (c : chip) (port : Z) : Z * chip :=
  if port =? CMOS_DATA then
    (if selected_reg c =? 0x0A
     then (if busy c then 0 else 0x80, MkChip (regs c) (fmt c) (selected_reg c) (pred (busy c)))
     else (reg_value (regs c) (u8 (fmt c)) (selected_reg c), c))
  else (0, c).

#[global] Instance chip_ports : PortIO chip := {
  inb := chip_in;
  outb := fun c port v => if port =? CMOS_ADDRESS then MkChip (regs c) (fmt c) v (busy c) else c;
  inw := fun c port => (0, c);
  outw := fun c port v => c
}.

#[global, program] Instance chip_rtc : RtcDevice chip := {
  face := regs;
  format := fun c => u8 (fmt c);
  index := selected_reg;
  updating := busy
}.
Next Obligation. intros c. by apply wrap_word. Qed.
Next Obligation. done. Qed.
Next Obligation.
  intros c Hi. exists c. split; [|done]. unfold inb. simpl. unfold chip_in.
  change (CMOS_DATA =? CMOS_DATA) with true. by rewrite (proj2 (Z.eqb_neq (selected_reg c) 0x0A)).
Qed.
Next Obligation.
  intros c Hi. exists (if busy c then 0 else 0x80), (MkChip (regs c) (fmt c) (selected_reg c) (pred (busy c))).
  split. { unfold inb. simpl. unfold chip_in. change (CMOS_DATA =? CMOS_DATA) with true. by rewrite Hi. }
  destruct (busy c); (split; [by vm_compute|]); (split; [|done]); by split.
Qed.
End SimulatedClock.
Import SimulatedClock.

(** 9:05:07 in the morning of 8 June 2024, in 24-hour BCD, and the same day at
    ten o'clock. *)
Definition demo_time : clock_time := MkRtc 7 5 9 8 6 24.
Definition demo_full_hour : clock_time := MkRtc 7 0 10 8 6 24.
Definition demo_clock (t : clock_time) : console chip :=
  MkConsole false 0 0 0 0 ∅ (MkChip (show false true t) 2 0 2).

Lemma demo_clock_ready t : valid_time t -> clock_ready 3 1 (demo_clock t) CString.itoa_buf0 t false true.
Proof. intros Ht. split; [by split|done|done|done|simpl; lia|lia]. Qed.

Lemma read_rtc_time_witness : exists p', read_rtc 3 1 (ports (demo_clock demo_time)) = Ret (MkRtc 7 5 9 8 6 2024, p').
Proof.
  destruct (read_rtc_time 3 1 (ports (demo_clock demo_time)) demo_time false true) as (p' & H & _).
  - unfold valid_time. simpl. lia.
  - reflexivity.
  - reflexivity.
  - apply Nat.ltb_lt. reflexivity.
  - lia.
  - exists p'. exact H.
Defined.

Lemma print_current_time_shows_witness :
  exists s' buf' t', print_current_time 3 1 (demo_clock demo_time) CString.itoa_buf0 = Ret (s', buf', t') /\
    vram s' !! 1992 = Some (glyph 49 0xF) /\ vram s' !! 1993 = Some (glyph 54 0xF).
Proof.
  destruct (print_current_time_shows 3 1 (demo_clock demo_time) CString.itoa_buf0 demo_time false true)
    as (s' & buf' & t' & H & _ & _ & _ & Hv).
  - apply demo_clock_ready. unfold valid_time. simpl. lia.
  - discriminate.
  - discriminate.
  - discriminate.
  - exists s', buf', t'. split; [exact H|]. rewrite !Hv. split; reflexivity.
Defined.

Lemma print_current_time_zero_witness : print_current_time 3 1 (demo_clock demo_full_hour) CString.itoa_buf0 = Ub.
Proof.
  apply (print_current_time_zero 3 1 (demo_clock demo_full_hour) CString.itoa_buf0 demo_full_hour false true).
  - apply demo_clock_ready. unfold valid_time. simpl. lia.
  - right. left. reflexivity.
Defined.
