(* ===== verification/FatLayout.v ===== *)
(** * Data layout of the file system (header/filesystem/fat32.h)

    The packed structures that go to the disk as bytes: the directory entry,
    the directory table and the file allocation table.  [Packed] is the
    contract of a packed C type, and arrays of a packed type are packed. *)
From S2P Require Import Prelude.

(** [enc] is the object representation, [esize] its [sizeof]; every byte
    pattern of that size is the representation of one well-formed value. *)
Class Packed (A : Type) := {
  enc : A -> list Z;
  dec : list Z -> A;
  esize : nat;
  wf : A -> Prop;
  enc_length a : wf a -> length (enc a) = esize;
  enc_bytes a : wf a -> bytes_ok (enc a);
  dec_enc a : wf a -> dec (enc a) = a;
  dec_wf bs : length bs = esize -> bytes_ok bs -> wf (dec bs);
  enc_dec bs : length bs = esize -> bytes_ok bs -> enc (dec bs) = bs
}.

(** [uint32_t]. *)
#[export, program] Instance word32_packed : Packed Z := {
  enc := le_bytes 4;
  dec := le_val;
  esize := 4;
  wf := is_word 32
}.
Next Obligation. intros. apply length_le_bytes. Qed.
Next Obligation. intros. auto with words. Qed.
Next Obligation. intros. by apply le_val_bytes. Qed.
Next Obligation. intros bs Hlen Hb. pose proof (le_val_word bs Hb) as H. unfold Zlen in H. by rewrite Hlen in H. Qed.
Next Obligation. intros bs Hlen Hb. rewrite <- Hlen. by apply le_bytes_val. Qed.

(** Arrays of [n] packed elements. *)
Section array.
Context `{!Packed A}.

Definition enc_array (l : list A) : list Z := concat (enc <$> l).
Definition dec_array (n : nat) (bs : list Z) : list A :=
  (fun i => dec (slice (esize * i) esize bs)) <$> seq 0 n.

Lemma enc_array_cons a l : enc_array (a :: l) = enc a ++ enc_array l.
Proof. reflexivity. Qed.

Lemma length_enc_array l : Forall wf l -> length (enc_array l) = (esize * length l)%nat.
Proof.
  induction 1 as [|a l Ha Hl IH]; [simpl; lia|].
  rewrite enc_array_cons, length_app, enc_length, IH by done. simpl. lia.
Qed.

Lemma enc_array_bytes l : Forall wf l -> bytes_ok (enc_array l).
Proof.
  induction 1; [constructor|]. rewrite enc_array_cons. apply Forall_app. split; [by apply enc_bytes|done].
Qed.

Lemma length_dec_array n bs : length (dec_array n bs) = n.
Proof. unfold dec_array. by rewrite length_fmap, length_seq. Qed.

Lemma lookup_dec_array n bs i :
  (i < n)%nat -> dec_array n bs !! i = Some (dec (slice (esize * i) esize bs)).
Proof. intros. unfold dec_array. rewrite list_lookup_fmap, lookup_seq_lt by done. done. Qed.

Lemma dec_array_wf n bs : length bs = (esize * n)%nat -> bytes_ok bs -> Forall wf (dec_array n bs).
Proof.
  intros Hlen Hb. apply Forall_fmap, Forall_forall. intros i Hi%elem_of_seq. simpl.
  apply dec_wf; [apply length_slice; nia|auto with words].
Qed.

Lemma slice_enc_array l i a :
  Forall wf l -> l !! i = Some a -> slice (esize * i) esize (enc_array l) = enc a.
Proof.
  intros Hl. revert i. induction Hl as [|b l Hb Hl IH]; intros i Hi; [done|].
  rewrite enc_array_cons. destruct i as [|i]; simplify_eq/=.
  - rewrite Nat.mul_0_r, slice_app_l by (rewrite enc_length by done; lia).
    rewrite <- (enc_length a) at 1 by done. apply slice_all.
  - rewrite slice_app_r by (rewrite enc_length by done; lia).
    rewrite enc_length by done. rewrite <- (IH i Hi). f_equal. lia.
Qed.

Lemma dec_enc_array l n : Forall wf l -> length l = n -> dec_array n (enc_array l) = l.
Proof.
  intros Hl <-. apply list_eq. intros i. destruct (l !! i) as [a|] eqn:Hi.
  - rewrite lookup_dec_array by by eapply lookup_lt_Some.
    erewrite slice_enc_array by done. rewrite dec_enc; [done|]. by eapply Forall_lookup_1.
  - apply lookup_ge_None. rewrite length_dec_array. by apply lookup_ge_None.
Qed.

Lemma enc_dec_array n bs :
  length bs = (esize * n)%nat -> bytes_ok bs -> enc_array (dec_array n bs) = bs.
Proof.
  revert bs. induction n as [|n IH]; intros bs Hlen Hb.
  - unfold enc_array, dec_array. simpl. symmetry. apply length_zero_iff_nil. lia.
  - unfold enc_array, dec_array. cbn [seq fmap list_fmap concat].
    rewrite Nat.mul_0_r, enc_dec by (apply length_slice + apply Forall_slice; (done || lia)).
    assert (Hd : slice 0 esize bs ++ drop esize bs = bs) by (unfold slice; by rewrite drop_0, take_drop).
    rewrite <- Hd at 2. f_equal. rewrite <- (IH (drop esize bs)).
    2: rewrite length_drop; lia.
    2: by apply Forall_drop.
    unfold enc_array, dec_array. rewrite <- fmap_S_seq. f_equal.
    rewrite <- !list_fmap_compose. apply list_fmap_ext. intros i j Hj. simpl. do 2 f_equal.
    unfold slice. rewrite drop_drop. do 2 f_equal. lia.
Qed.
End array.

Arguments enc_array : simpl never.
Arguments dec_array : simpl never.

(** ** struct FAT32DirectoryEntry *)
Record FAT32DirectoryEntry := MkEntry {
  name : list Z;
  ext : list Z;
  attribute : Z;
  user_attribute : Z;
  undelete : Z;
  create_time : Z;
  create_date : Z;
  access_date : Z;
  cluster_high : Z;
  modified_time : Z;
  modified_date : Z;
  cluster_low : Z;
  filesize : Z
}.

Definition encode_entry (e : FAT32DirectoryEntry) : list Z :=
  name e ++ ext e ++ le_bytes 1 (attribute e) ++ le_bytes 1 (user_attribute e) ++
  le_bytes 1 (undelete e) ++ le_bytes 2 (create_time e) ++ le_bytes 2 (create_date e) ++
  le_bytes 2 (access_date e) ++ le_bytes 2 (cluster_high e) ++ le_bytes 2 (modified_time e) ++
  le_bytes 2 (modified_date e) ++ le_bytes 2 (cluster_low e) ++ le_bytes 4 (filesize e).

Definition decode_entry (bs : list Z) : FAT32DirectoryEntry := {|
  name := slice 0 8 bs;
  ext := slice 8 3 bs;
  attribute := le_val (slice 11 1 bs);
  user_attribute := le_val (slice 12 1 bs);
  undelete := le_val (slice 13 1 bs);
  create_time := le_val (slice 14 2 bs);
  create_date := le_val (slice 16 2 bs);
  access_date := le_val (slice 18 2 bs);
  cluster_high := le_val (slice 20 2 bs);
  modified_time := le_val (slice 22 2 bs);
  modified_date := le_val (slice 24 2 bs);
  cluster_low := le_val (slice 26 2 bs);
  filesize := le_val (slice 28 4 bs)
|}.

Record entry_ok (e : FAT32DirectoryEntry) : Prop := MkEntryOk {
  ok_name : length (name e) = 8%nat /\ bytes_ok (name e);
  ok_ext : length (ext e) = 3%nat /\ bytes_ok (ext e);
  ok_attr : is_byte (attribute e) /\ is_byte (user_attribute e) /\ is_byte (undelete e);
  ok_time : is_word 16 (create_time e) /\ is_word 16 (create_date e) /\ is_word 16 (access_date e) /\
            is_word 16 (modified_time e) /\ is_word 16 (modified_date e);
  ok_clus : is_word 16 (cluster_high e) /\ is_word 16 (cluster_low e);
  ok_size : is_word 32 (filesize e)
}.

Lemma length_encode_entry e : entry_ok e -> length (encode_entry e) = 32%nat.
Proof.
  intros [[Hn _] [He _] _ _ _ _]. unfold encode_entry.
  rewrite !length_app, !length_le_bytes, Hn, He. done.
Qed.

Lemma encode_entry_bytes e : entry_ok e -> bytes_ok (encode_entry e).
Proof.
  intros [[_ Hn] [_ He] _ _ _ _]. unfold encode_entry.
  repeat (apply Forall_app; split); auto with words.
Qed.

Lemma decode_encode_entry e : entry_ok e -> decode_entry (encode_entry e) = e.
Proof.
  intros [[Hn _] [He _] (H1 & H2 & H3) (H4 & H5 & H6 & H7 & H8) (H9 & H10) H11].
  destruct e as [n x a u d ct cd ad ch mt md cl fs]; simpl in *.
  do 8 (destruct n as [|? n]; [done|]). destruct n; [|done].
  do 3 (destruct x as [|? x]; [done|]). destruct x; [|done].
  unfold decode_entry, encode_entry. simpl name. simpl ext.
  f_equal; first [reflexivity|by apply (le_val_bytes 1)|by apply (le_val_bytes 2)|by apply (le_val_bytes 4)].
Qed.

Lemma decode_entry_ok bs : length bs = 32%nat -> bytes_ok bs -> entry_ok (decode_entry bs).
Proof.
  intros Hlen Hb. assert (forall off n, (off + n ≤ 32)%nat -> is_word (8 * Z.of_nat n) (le_val (slice off n bs))) as Hw.
  { intros off n Hn. pose proof (le_val_word (slice off n bs) (Forall_slice _ _ _ _ Hb)) as H.
    unfold Zlen in H. rewrite length_slice in H by lia. done. }
  split; simpl; split_and?; try (apply length_slice; lia); auto with words;
    first [apply (Hw _ 1%nat); lia | apply (Hw _ 2%nat); lia | apply (Hw _ 4%nat); lia].
Qed.

Lemma encode_decode_entry bs : length bs = 32%nat -> bytes_ok bs -> encode_entry (decode_entry bs) = bs.
Proof.
  intros Hlen Hb. unfold encode_entry, decode_entry.
  cbn [name ext attribute user_attribute undelete create_time create_date access_date cluster_high
       modified_time modified_date cluster_low filesize].
  assert (forall off n, (off + n ≤ 32)%nat -> le_bytes n (le_val (slice off n bs)) = slice off n bs) as Hw.
  { intros off n Hn. rewrite <- (length_slice off n bs) at 1 by lia. apply le_bytes_val. auto with words. }
  rewrite !Hw by lia. rewrite <- !slice_split. simpl. rewrite <- Hlen. apply slice_all.
Qed.

#[export] Instance entry_packed : Packed FAT32DirectoryEntry := {
  enc := encode_entry;
  dec := decode_entry;
  esize := 32;
  wf := entry_ok;
  enc_length := length_encode_entry;
  enc_bytes := encode_entry_bytes;
  dec_enc := decode_encode_entry;
  dec_wf := decode_entry_ok;
  enc_dec := encode_decode_entry
}.
