(* ===== verification/Fat32.v ===== *)
(** * fat32.c: the file system driver

    [fs] is a block device and the memory of the driver: [fat_table],
    [dir_table_buf] and [cluster_buf] are the fields of the packed
    [fat32_driver_state]; [after_signature] is the part of the read-only data
    section that the driver reaches through [fs_signature]. *)
From S2P Require Import Prelude CString BlockDevice FatLayout.

Definition CLUSTER_BLOCK_COUNT : Z := 4.
Definition CLUSTER_SIZE : Z := BLOCK_SIZE * CLUSTER_BLOCK_COUNT.
Definition CLUSTER_MAP_SIZE : Z := 512.
Definition CLUSTER_0_VALUE : Z := 0x0FFFFFF0.
Definition CLUSTER_1_VALUE : Z := 0x0FFFFFFF.
Definition FAT32_FAT_END_OF_FILE : Z := 0x0FFFFFFF.
Definition FAT32_FAT_EMPTY_ENTRY : Z := 0.
Definition BOOT_SECTOR : Z := 0.
Definition FAT_CLUSTER_NUMBER : Z := 1.
Definition ROOT_CLUSTER_NUMBER : Z := 2.
Definition ATTR_SUBDIRECTORY : Z := 16.
Definition UATTR_NOT_EMPTY : Z := 170.
(** [CLUSTER_SIZE / sizeof(struct FAT32DirectoryEntry)]. *)
Definition ENTRY_COUNT : nat := 64.
(** [(uint32_t) -1]. *)
Definition NO_CLUSTER : Z := 2 ^ 32 - 1.

Definition empty_entry : FAT32DirectoryEntry :=
  MkEntry (replicate 8 0) (replicate 3 0) 0 0 0 0 0 0 0 0 0 0 0.

Definition fs_signature : list Z :=
  bytes_of_string "Course          " ++ bytes_of_string "Designed by     " ++
  bytes_of_string "Lab Sister ITB  " ++ bytes_of_string "Made with <3    " ++
  bytes_of_string "-----------2024" ++ [10] ++ replicate 430 0 ++ bytes_of_string "Ok".

(** The string literals ["root\0\0\0\0"] and ["\0\0\0"]. *)
Definition root_literal : list Z := bytes_of_string "root" ++ [0; 0; 0; 0; 0].
Definition no_ext : list Z := [0; 0; 0; 0].

(** struct FAT32DriverRequest; [buf] is the object from the pointer on. *)
Record FAT32DriverRequest := MkRequest {
  buf : list Z;
  req_name : list Z;
  req_ext : list Z;
  parent_cluster_number : Z;
  buffer_size : Z
}.

(** struct FAT32DriverState, and the constant data next to it. *)
Record driver := MkDriver {
  fat_table : list Z;
  dir_table_buf : list FAT32DirectoryEntry;
  cluster_buf : list Z;
  after_signature : list Z
}.

Definition set_fat (m : driver) (fat : list Z) : driver :=
  MkDriver fat (dir_table_buf m) (cluster_buf m) (after_signature m).
Definition set_dir_table_buf (m : driver) (t : list FAT32DirectoryEntry) : driver :=
  MkDriver (fat_table m) t (cluster_buf m) (after_signature m).
Definition set_cluster_buf (m : driver) (c : list Z) : driver :=
  MkDriver (fat_table m) (dir_table_buf m) c (after_signature m).

(** [fat32_driver_state.fat_table.cluster_map[idx]].  The driver state is a
    packed struct, so an index past the map reads the directory buffer and
    then the cluster buffer that follow it. *)
Definition state_words (m : driver) : list Z :=
  fat_table m ++ dec_array 512 (enc_array (dir_table_buf m)) ++ dec_array 512 (cluster_buf m).

Definition cluster_map_get (m : driver) (idx : Z) : res Z :=
  if idx <? CLUSTER_MAP_SIZE then arr_get (fat_table m) idx else arr_get (state_words m) idx.

Definition cluster_map_set (m : driver) (idx v : Z) : res driver :=
  if idx <? CLUSTER_MAP_SIZE then
    fat ← arr_set (fat_table m) idx v; Ret (set_fat m fat)
  else if idx <? 2 * CLUSTER_MAP_SIZE then
    Ret (set_dir_table_buf m (dec_array ENTRY_COUNT
      (splice (Z.to_nat (4 * (idx - CLUSTER_MAP_SIZE))) (enc v) (enc_array (dir_table_buf m)))))
  else if idx <? 3 * CLUSTER_MAP_SIZE then
    Ret (set_cluster_buf m
      (splice (Z.to_nat (4 * (idx - 2 * CLUSTER_MAP_SIZE))) (enc v) (cluster_buf m)))
  else Ub.

Section driver.
Context {D : Type} `{!BlockDevice D}.

(** The block device and the memory of the driver. *)
Record fs := MkFs {
  dev : D;
  drv : driver
}.

Definition set_dev (s : fs) (d : D) : fs := MkFs d (drv s).
Definition set_drv (s : fs) (m : driver) : fs := MkFs (dev s) m.

Definition cluster_to_lba (cluster : Z) : Z := u32 (CLUSTER_BLOCK_COUNT * cluster).

Definition write_clusters (s : fs) (ptr : list Z) (cluster_number cluster_count : Z) : res fs :=
  d ← write_blocks (dev s) ptr (cluster_to_lba cluster_number) (u8 (cluster_count * CLUSTER_BLOCK_COUNT));
  Ret (set_dev s d).

Definition read_clusters (s : fs) (cluster_number cluster_count : Z) : res (list Z * fs) :=
  '(bs, d) ← read_blocks (dev s) (cluster_to_lba cluster_number) (u8 (cluster_count * CLUSTER_BLOCK_COUNT));
  Ret (bs, set_dev s d).

(** [read_clusters(&table, c, 1)] into a [struct FAT32DirectoryTable]. *)
Definition read_table (s : fs) (c : Z) : res (list FAT32DirectoryEntry * fs) :=
  '(bs, s) ← read_clusters s c 1; Ret (dec_array ENTRY_COUNT bs, s).

Definition init_directory_entry (dest : FAT32DirectoryEntry) (nm ex : list Z)
    (attr cluster_number fsize : Z) : res FAT32DirectoryEntry :=
  n ← CString.memcpy (name dest) nm 8;
  x ← CString.memcpy (ext dest) ex 3;
  Ret (MkEntry n x attr UATTR_NOT_EMPTY (undelete dest) (create_time dest) (create_date dest)
    (access_date dest) (Z.land (Z.shiftr cluster_number 16) 0xFFFF) (modified_time dest)
    (modified_date dest) (Z.land cluster_number 0xFFFF) fsize).

Definition find_empty_cluster (fat : list Z) : res Z :=
  idx ← scan_while 512 (fun idx => v ← arr_get fat idx; Ret (negb (v =? FAT32_FAT_EMPTY_ENTRY))) 0;
  Ret (if idx <? CLUSTER_MAP_SIZE then idx else NO_CLUSTER).

(** Compares [attribute], not [user_attribute], with [UATTR_NOT_EMPTY]. *)
Definition find_empty_dir_entry (table : list FAT32DirectoryEntry) : res Z :=
  idx ← scan_while ENTRY_COUNT (fun idx => e ← arr_get table idx; Ret (attribute e =? UATTR_NOT_EMPTY)) 0;
  Ret (if idx <? Z.of_nat ENTRY_COUNT then idx else NO_CLUSTER).

(** The loop of [enough_empty_cluster], entered with [idx = 512 - k]. *)
Fixpoint enough_loop (k : nat) (m : driver) (required idx number_of_empty_clusters : Z) : res Z :=
  match k with
  | O => Ret number_of_empty_clusters
  | S k' =>
      if number_of_empty_clusters <? required then
        v ← cluster_map_get m (idx + 1);
        enough_loop k' m required (idx + 1)
          (if v =? FAT32_FAT_EMPTY_ENTRY then number_of_empty_clusters + 1 else number_of_empty_clusters)
      else Ret number_of_empty_clusters
  end.

Definition enough_empty_cluster (m : driver) (required : Z) : res bool :=
  n ← enough_loop 510 m required 2 0; Ret (n =? required).

(** The object that [parent_name] points to at first: the string literal
    without characters is the terminating zero and nothing else. *)
Definition empty_literal : list Z := [0].

(** The new table and the state.  For a parent other than the root the 8 bytes
    of the parent's name are copied over [empty_literal], an object of one
    byte: [CString.memcpy] leaves it and the result is [Ub]. *)
Definition init_directory_table (s : fs) (nm : list Z) (parent_dir_cluster : Z) :
    res (list FAT32DirectoryEntry * fs) :=
  let table := replicate ENTRY_COUNT empty_entry in
  empty_cluster_idx ← find_empty_cluster (fat_table (drv s));
  if empty_cluster_idx =? NO_CLUSTER then Ret (table, s)
  else
    e0 ← init_directory_entry empty_entry nm no_ext ATTR_SUBDIRECTORY empty_cluster_idx 0;
    '(parent_name, s) ←
      (if parent_dir_cluster =? ROOT_CLUSTER_NUMBER then Ret (root_literal, s)
       else
         '(c, s) ← read_clusters s parent_dir_cluster 1;
         parent_name ← CString.memcpy empty_literal c 8;
         Ret (parent_name, s));
    e1 ← init_directory_entry empty_entry parent_name no_ext ATTR_SUBDIRECTORY parent_dir_cluster 0;
    Ret (<[0%nat := e0]> (<[1%nat := e1]> table), s).

Definition is_empty_storage (s : fs) : res (bool * fs) :=
  '(boot_sector, d) ← read_blocks (dev s) BOOT_SECTOR 1;
  r ← CString.memcmp boot_sector fs_signature 512;
  Ret (negb (r =? 0), set_dev s d).

Definition fresh_fat : list Z := CLUSTER_0_VALUE :: CLUSTER_1_VALUE :: replicate 510 FAT32_FAT_EMPTY_ENTRY.

Definition create_fat32 (s : fs) : res fs :=
  let s := set_drv s (set_fat (drv s) fresh_fat) in
  '(root_directory_table, s) ← init_directory_table s root_literal ROOT_CLUSTER_NUMBER;
  let fat := <[2%nat := FAT32_FAT_END_OF_FILE]> fresh_fat in
  let s := set_drv s (set_dir_table_buf (set_fat (drv s) fat) root_directory_table) in
  s ← write_clusters s (fs_signature ++ after_signature (drv s)) BOOT_SECTOR 1;
  s ← write_clusters s (enc_array fat) FAT_CLUSTER_NUMBER 1;
  write_clusters s (enc_array root_directory_table) ROOT_CLUSTER_NUMBER 1.

Definition initialize_filesystem_fat32 (s : fs) : res fs :=
  '(empty, s) ← is_empty_storage s;
  if (empty : bool) then create_fat32 s
  else
    '(bs, s) ← read_clusters s FAT_CLUSTER_NUMBER 1;
    Ret (set_drv s (set_fat (drv s) (dec_array 512 bs))).

(** ** The CRUD operations.  The result is the return code, the contents of
    the caller's buffer afterwards where the call writes to it, and the state. *)

Definition entry_cluster (e : FAT32DirectoryEntry) : Z :=
  u32 (Z.lor (Z.shiftl (cluster_high e) 16) (cluster_low e)).

Definition same_name (e : FAT32DirectoryEntry) (nm : list Z) : res bool :=
  r ← CString.memcmp (name e) nm 8; Ret (r =? 0).

Definition same_name_ext (e : FAT32DirectoryEntry) (nm ex : list Z) : res bool :=
  b ← same_name e nm;
  if (b : bool) then r ← CString.memcmp (ext e) ex 3; Ret (r =? 0) else Ret false.

(** [read_clusters] into [request.buf] at an offset. *)
Definition store_at (buffer : list Z) (off : nat) (bs : list Z) : res (list Z) :=
  if decide (off + length bs ≤ length buffer)%nat then Ret (splice off bs buffer) else Ub.

Definition read_directory (s : fs) (request : FAT32DriverRequest) : res (Z * list Z * fs) :=
  if buffer_size request <? CLUSTER_SIZE then Ret (-1, buf request, s)
  else
    '(table, s) ← read_table s (parent_cluster_number request);
    e0 ← arr_get table 0;
    if negb (attribute e0 =? ATTR_SUBDIRECTORY) then Ret (-1, buf request, s)
    else
      idx ← scan_while 62 (fun idx => e ← arr_get table idx; b ← same_name e (req_name request); Ret (negb b)) 2;
      if idx =? Z.of_nat ENTRY_COUNT then Ret (2, buf request, s)
      else
        dir_entry ← arr_get table idx;
        if negb (attribute dir_entry =? ATTR_SUBDIRECTORY) then Ret (1, buf request, s)
        else
          '(bs, s) ← read_clusters s (entry_cluster dir_entry) 1;
          buffer ← store_at (buf request) 0 bs;
          Ret (0, buffer, s).

Fixpoint read_chain (fuel : nat) (s : fs) (cluster_number : Z) (buffer : list Z) (off : nat) :
    res (list Z * fs) :=
  match fuel with
  | O => Hang
  | S fuel' =>
      if cluster_number =? FAT32_FAT_END_OF_FILE then Ret (buffer, s)
      else
        '(bs, s) ← read_clusters s cluster_number 1;
        buffer ← store_at buffer off bs;
        next ← cluster_map_get (drv s) cluster_number;
        read_chain fuel' s next buffer (off + Z.to_nat CLUSTER_SIZE)
  end.

(** Index of the entry with the requested name and extension, 64 if none. *)
Definition find_entry (table : list FAT32DirectoryEntry) (nm ex : list Z) : res Z :=
  scan_while ENTRY_COUNT (fun idx => e ← arr_get table idx; b ← same_name_ext e nm ex; Ret (negb b)) 0.

(** Every iteration of the chain loop fills a cluster of the buffer, so one
    more round than the buffer has bytes is enough fuel. *)
Definition read (s : fs) (request : FAT32DriverRequest) : res (Z * list Z * fs) :=
  '(table, s) ← read_table s (parent_cluster_number request);
  e0 ← arr_get table 0;
  if negb (attribute e0 =? ATTR_SUBDIRECTORY) then Ret (-1, buf request, s)
  else
    idx ← find_entry table (req_name request) (req_ext request);
    if idx =? Z.of_nat ENTRY_COUNT then Ret (2, buf request, s)
    else
      dir_entry ← arr_get table idx;
      if attribute dir_entry =? ATTR_SUBDIRECTORY then Ret (1, buf request, s)
      else if buffer_size request <? filesize dir_entry then Ret (-1, buf request, s)
      else
        '(buffer, s) ← read_chain (S (S (length (buf request)))) s (entry_cluster dir_entry) (buf request) 0;
        Ret (0, buffer, s).

(** The scan of the parent for a duplicate and for a free slot: final [idx],
    first free slot, number of free slots seen. *)
Fixpoint write_scan (k : nat) (table : list FAT32DirectoryEntry) (nm ex : list Z) (attr idx : Z)
    (found : bool) (empty_entry_idx number_of_empty_entry : Z) : res (Z * Z * Z) :=
  match k with
  | O => Ret (idx, empty_entry_idx, number_of_empty_entry)
  | S k' =>
      e ← arr_get table idx;
      b ← same_name_ext e nm ex;
      if b && (attribute e =? attr) then Ret (idx, empty_entry_idx, number_of_empty_entry)
      else if negb (user_attribute e =? UATTR_NOT_EMPTY) then
        write_scan k' table nm ex attr (idx + 1) true
          (if found then empty_entry_idx else idx) (number_of_empty_entry + 1)
      else write_scan k' table nm ex attr (idx + 1) found empty_entry_idx number_of_empty_entry
  end.

(** [while (cluster_map[c] != FAT32_FAT_EMPTY_ENTRY) c++]; past word 1536 the
    read leaves the driver state, so 1537 rounds are enough. *)
Fixpoint next_empty (k : nat) (m : driver) (c : Z) : res Z :=
  match k with
  | O => Hang
  | S k' =>
      v ← cluster_map_get m c;
      if v =? FAT32_FAT_EMPTY_ENTRY then Ret c else next_empty k' m (c + 1)
  end.

(** The partitions loop; [n] rounds are left, [p] is [partitions_count]. *)
Fixpoint write_partitions (n : nat) (s : fs) (data : list Z) (empty_cluster_idx p : Z) : res (Z * Z * fs) :=
  match n with
  | O => Ret (empty_cluster_idx, p, s)
  | S n' =>
      let idx := empty_cluster_idx in
      next ← next_empty 1537 (drv s) (empty_cluster_idx + 1);
      m ← cluster_map_set (drv s) idx next;
      let s := set_drv s m in
      s ← write_clusters s (drop (Z.to_nat (CLUSTER_SIZE * p)) data) idx 1;
      write_partitions n' s data next (p + 1)
  end.

Definition number_of_partition (size : Z) : Z :=
  size / CLUSTER_SIZE + (if 0 <? size mod CLUSTER_SIZE then 1 else 0).

Definition write_folder (s : fs) (request : FAT32DriverRequest)
    (table : list FAT32DirectoryEntry) (empty_entry_idx : Z) : res (Z * fs) :=
  empty_cluster_idx ← find_empty_cluster (fat_table (drv s));
  if empty_cluster_idx =? NO_CLUSTER then Ret (-1, s)
  else
    '(t, s) ← init_directory_table s (req_name request) (parent_cluster_number request);
    let s := set_drv s (set_dir_table_buf (drv s) t) in
    e ← arr_get table empty_entry_idx;
    e ← init_directory_entry e (req_name request) (req_ext request) ATTR_SUBDIRECTORY
          empty_cluster_idx (buffer_size request);
    table ← arr_set table empty_entry_idx e;
    m ← cluster_map_set (drv s) empty_cluster_idx FAT32_FAT_END_OF_FILE;
    let s := set_drv s m in
    s ← write_clusters s (enc_array (fat_table (drv s))) FAT_CLUSTER_NUMBER 1;
    s ← write_clusters s (enc_array (dir_table_buf (drv s))) empty_cluster_idx 1;
    s ← write_clusters s (enc_array table) (parent_cluster_number request) 1;
    Ret (0, s).

Definition write_file (s : fs) (request : FAT32DriverRequest)
    (table : list FAT32DirectoryEntry) (empty_entry_idx : Z) : res (Z * fs) :=
  let parts := number_of_partition (buffer_size request) in
  enough ← enough_empty_cluster (drv s) parts;
  if negb enough then Ret (-1, s)
  else
    empty_cluster_idx ← find_empty_cluster (fat_table (drv s));
    if empty_cluster_idx =? NO_CLUSTER then Ret (-1, s)
    else
      e ← arr_get table empty_entry_idx;
      e ← init_directory_entry e (req_name request) (req_ext request) 0 empty_cluster_idx (buffer_size request);
      table ← arr_set table empty_entry_idx e;
      s ← write_clusters s (enc_array table) (parent_cluster_number request) 1;
      '(last, p, s) ← write_partitions (Z.to_nat (parts - 1)) s (buf request) empty_cluster_idx 0;
      m ← cluster_map_set (drv s) last FAT32_FAT_END_OF_FILE;
      let s := set_drv s m in
      s ← write_clusters s (drop (Z.to_nat (CLUSTER_SIZE * p)) (buf request)) last 1;
      s ← write_clusters s (enc_array (fat_table (drv s))) FAT_CLUSTER_NUMBER 1;
      Ret (0, s).

Definition write (s : fs) (request : FAT32DriverRequest) : res (Z * fs) :=
  '(table, s) ← read_table s (parent_cluster_number request);
  e0 ← arr_get table 0;
  if negb (attribute e0 =? ATTR_SUBDIRECTORY) then Ret (2, s)
  else
    let request_attribute := if buffer_size request =? 0 then ATTR_SUBDIRECTORY else 0 in
    '(idx, empty_entry_idx, number_of_empty_entry) ←
      write_scan 62 table (req_name request) (req_ext request) request_attribute 2 false NO_CLUSTER 0;
    if idx <? Z.of_nat ENTRY_COUNT then Ret (1, s)
    else if number_of_empty_entry =? 0 then Ret (-1, s)
    else if buffer_size request =? 0 then write_folder s request table empty_entry_idx
    else write_file s request table empty_entry_idx.

(** The chain loop of [Delete]: the last cluster of the chain and the state.
    Each round either clears a non-empty entry or is at an empty one. *)
Fixpoint delete_chain (fuel : nat) (s : fs) (deleted_cluster : Z) : res (Z * fs) :=
  match fuel with
  | O => Hang
  | S fuel' =>
      v ← cluster_map_get (drv s) deleted_cluster;
      if v =? FAT32_FAT_END_OF_FILE then Ret (deleted_cluster, s)
      else
        m ← cluster_map_set (drv s) deleted_cluster FAT32_FAT_EMPTY_ENTRY;
        let s := set_drv s m in
        s ← write_clusters s (replicate 2048 0) deleted_cluster 1;
        delete_chain fuel' s v
  end.

Definition delete_fuel : nat := 2048.

(** The end of [Delete]: the entry, its last cluster and the two tables. *)
Definition remove_entry (s : fs) (request : FAT32DriverRequest)
    (table : list FAT32DirectoryEntry) (idx deleted_cluster : Z) : res (Z * fs) :=
  table ← arr_set table idx empty_entry;
  s ← write_clusters s (replicate 2048 0) deleted_cluster 1;
  m ← cluster_map_set (drv s) deleted_cluster FAT32_FAT_EMPTY_ENTRY;
  let s := set_drv s m in
  s ← write_clusters s (enc_array table) (parent_cluster_number request) 1;
  s ← write_clusters s (enc_array (fat_table (drv s))) FAT_CLUSTER_NUMBER 1;
  Ret (0, s).

Definition Delete (s : fs) (request : FAT32DriverRequest) : res (Z * fs) :=
  '(table, s) ← read_table s (parent_cluster_number request);
  e0 ← arr_get table 0;
  if negb (attribute e0 =? ATTR_SUBDIRECTORY) then Ret (-1, s)
  else
    idx ← find_entry table (req_name request) (req_ext request);
    if idx =? Z.of_nat ENTRY_COUNT then Ret (1, s)
    else
      dir_entry ← arr_get table idx;
      let deleted_cluster := entry_cluster dir_entry in
      if attribute dir_entry =? ATTR_SUBDIRECTORY then
        '(folder, s) ← read_table s (cluster_low dir_entry);
        idx2 ← scan_while 62 (fun i => e ← arr_get folder i; Ret (negb (user_attribute e =? UATTR_NOT_EMPTY))) 2;
        if idx2 <? Z.of_nat ENTRY_COUNT then Ret (2, s)
        else remove_entry s request table idx deleted_cluster
      else
        '(last, s) ← delete_chain delete_fuel s deleted_cluster;
        remove_entry s request table idx last.
End driver.

Arguments fs D : clear implicits.
