(* ===== verification/FatFacts.v ===== *)
(** * The driver seen at cluster granularity

    Whatever the block device is, the driver sees 512 clusters of 2048 bytes:
    [vol s].  This file reduces the loops and disk accesses of fat32.c to
    functions on the volume, the directory tables and the allocation table. *)
From S2P Require Import Prelude CString BlockDevice FatLayout Fat32.

Definition block_ok (b : list Z) : Prop := length b = 2048%nat /\ bytes_ok b.
Definition vol_get (v : list (list Z)) (c : Z) : list Z := default [] (v !! Z.to_nat c).
Definition table_at (v : list (list Z)) (c : Z) : list FAT32DirectoryEntry :=
  dec_array ENTRY_COUNT (vol_get v c).
Definition table_ok (t : list FAT32DirectoryEntry) : Prop :=
  length t = ENTRY_COUNT /\ Forall entry_ok t.
Definition fat_ok (fat : list Z) : Prop := length fat = 512%nat /\ Forall (is_word 32) fat.

(** A cluster number the table has an entry for. *)
Definition in_map (c : Z) : Prop := 0 ≤ c < 512.

Record driver_ok (m : driver) : Prop := MkDriverOk {
  drv_fat : fat_ok (fat_table m);
  drv_dir : table_ok (dir_table_buf m);
  drv_buf : block_ok (cluster_buf m);
  drv_sig : (1536 ≤ length (after_signature m))%nat /\ bytes_ok (after_signature m)
}.

Record request_ok (r : FAT32DriverRequest) : Prop := MkRequestOk {
  rq_name : length (req_name r) = 8%nat /\ bytes_ok (req_name r);
  rq_ext : length (req_ext r) = 3%nat /\ bytes_ok (req_ext r);
  rq_size : is_word 32 (buffer_size r)
}.

Lemma seqZ_4 m : seqZ m 4 = [m; m + 1; m + 2; m + 3].
Proof. rewrite !seqZ_cons by lia. rewrite seqZ_nil by lia. repeat f_equal; lia. Qed.

Section volume.
Context {D : Type} `{!BlockDevice D, !BlockDeviceSpec D}.
Implicit Types (s : fs D) (d : D).

Definition cluster d (c : Z) : list Z := concat (sector d <$> seqZ (4 * c) 4).
Definition vol s : list (list Z) := cluster (dev s) <$> seqZ 0 512.
Definition ready s : Prop := dev_ok (dev s) /\ 2048 ≤ sectors (dev s).

Lemma length_vol s : length (vol s) = 512%nat.
Proof. unfold vol. by rewrite length_fmap, length_seqZ. Qed.

Lemma lookup_vol s c : in_map c -> vol s !! Z.to_nat c = Some (cluster (dev s) c).
Proof.
  unfold in_map. intros Hc. unfold vol. rewrite list_lookup_fmap, lookup_seqZ_lt by lia.
  simpl. do 2 f_equal. lia.
Qed.

Lemma vol_get_vol s c : in_map c -> vol_get (vol s) c = cluster (dev s) c.
Proof. intros. unfold vol_get. by rewrite lookup_vol. Qed.

Lemma cluster_ok s c : ready s -> in_map c -> block_ok (cluster (dev s) c).
Proof.
  unfold in_map. intros [Hd Hn] Hc. unfold cluster. rewrite seqZ_4. simpl.
  destruct (sector_ok (dev s) (4 * c)) as [H1 B1]; [done|lia|].
  destruct (sector_ok (dev s) (4 * c + 1)) as [H2 B2]; [done|lia|].
  destruct (sector_ok (dev s) (4 * c + 2)) as [H3 B3]; [done|lia|].
  destruct (sector_ok (dev s) (4 * c + 3)) as [H4 B4]; [done|lia|].
  split; [rewrite !length_app, H1, H2, H3, H4; simpl; lia|].
  rewrite !Forall_app. auto.
Qed.

Lemma vol_blocks s : ready s -> Forall block_ok (vol s).
Proof.
  intros Hr. apply Forall_fmap, Forall_forall. intros c Hc%elem_of_seqZ.
  apply cluster_ok; [done|]. unfold in_map. lia.
Qed.

Lemma vol_ext s s' :
  (forall c, in_map c -> cluster (dev s') c = cluster (dev s) c) -> vol s' = vol s.
Proof.
  intros H. unfold vol. apply list_fmap_ext. intros i c [-> Hi]%lookup_seqZ.
  apply H. unfold in_map. lia.
Qed.

Lemma cluster_to_lba_small c : in_map c -> cluster_to_lba c = 4 * c.
Proof. unfold in_map, cluster_to_lba, CLUSTER_BLOCK_COUNT. intros. apply wrap_small. unfold is_word. lia. Qed.

Lemma read_clusters_spec s c :
  ready s -> in_map c ->
  exists s', read_clusters s c 1 = Ret (vol_get (vol s) c, s') /\
    ready s' /\ vol s' = vol s /\ drv s' = drv s.
Proof.
  intros [Hd Hn] Hc. unfold read_clusters. rewrite cluster_to_lba_small by done.
  change (u8 (1 * CLUSTER_BLOCK_COUNT)) with 4. unfold in_map in Hc.
  destruct (read_blocks_spec (dev s) (4 * c) 4) as (d' & -> & Hd' & Hn' & Hs); [done|lia..|].
  simpl. exists (set_dev s d'). rewrite vol_get_vol by done.
  split_and!; [done|split; simpl; [done|lia]| |done].
  apply vol_ext. intros k Hk. unfold in_map in Hk. unfold cluster. rewrite !seqZ_4. simpl.
  by rewrite !Hs by lia.
Qed.

Lemma write_clusters_spec s bs c :
  ready s -> in_map c -> (2048 ≤ length bs)%nat -> bytes_ok bs ->
  exists s', write_clusters s bs c 1 = Ret s' /\
    ready s' /\ vol s' = <[Z.to_nat c := take 2048 bs]> (vol s) /\ drv s' = drv s.
Proof.
  intros [Hd Hn] Hc Hlen Hb. unfold write_clusters. rewrite cluster_to_lba_small by done.
  change (u8 (1 * CLUSTER_BLOCK_COUNT)) with 4. unfold in_map in Hc.
  destruct (write_blocks_spec (dev s) bs (4 * c) 4) as (d' & -> & Hd' & Hn' & Hs);
    [done|lia|lia|lia|unfold Zlen; lia|done|].
  simpl. exists (set_dev s d'). split_and!; [done|split; simpl; [done|lia]| |done].
  apply list_eq. intros i. destruct (decide (i < 512)%nat) as [Hi|Hi].
  2: { rewrite !lookup_ge_None_2; rewrite ?length_insert, ?length_vol; (done || lia). }
  assert (Hck : in_map (Z.of_nat i)) by (unfold in_map; lia).
  replace i with (Z.to_nat (Z.of_nat i)) at 1 by lia. rewrite lookup_vol by done. simpl.
  unfold cluster. rewrite seqZ_4. simpl. rewrite !Hs by lia.
  destruct (decide (i = Z.to_nat c)) as [->|Hne].
  - rewrite list_lookup_insert_eq by (rewrite length_vol; lia).
    rewrite !decide_True by lia. f_equal.
    replace (Z.to_nat (512 * (4 * Z.of_nat (Z.to_nat c) - 4 * c))) with 0%nat by lia.
    replace (Z.to_nat (512 * (4 * Z.of_nat (Z.to_nat c) + 1 - 4 * c))) with (0 + 512)%nat by lia.
    replace (Z.to_nat (512 * (4 * Z.of_nat (Z.to_nat c) + 2 - 4 * c))) with (0 + 512 + 512)%nat by lia.
    replace (Z.to_nat (512 * (4 * Z.of_nat (Z.to_nat c) + 3 - 4 * c))) with (0 + 512 + 512 + 512)%nat by lia.
    rewrite app_nil_r, <- !slice_split. unfold slice. by rewrite drop_0.
  - rewrite list_lookup_insert_ne by done. rewrite !decide_False by lia.
    replace i with (Z.to_nat (Z.of_nat i)) at 5 by lia. rewrite lookup_vol by done.
    unfold cluster. by rewrite seqZ_4.
Qed.

(** The state seen through the driver: volume [v], memory [m]. *)
Definition repr s (v : list (list Z)) (m : driver) : Prop := ready s /\ vol s = v /\ drv s = m.

Lemma repr_ready s v m : repr s v m -> ready s.
Proof. by intros [? _]. Qed.

Lemma repr_refl s : ready s -> repr s (vol s) (drv s).
Proof. done. Qed.

Lemma repr_set_drv s v m m' : repr s v m -> repr (set_drv s m') v m'.
Proof. intros ([? ?] & <- & <-). by split_and!. Qed.

Lemma read_clusters_repr s v m c :
  repr s v m -> in_map c -> exists s', read_clusters s c 1 = Ret (vol_get v c, s') /\ repr s' v m.
Proof.
  intros (Hr & <- & <-) Hc. destruct (read_clusters_spec s c Hr Hc) as (s' & ? & ?). by exists s'.
Qed.

Lemma write_clusters_repr s v m bs c :
  repr s v m -> in_map c -> (2048 ≤ length bs)%nat -> bytes_ok bs ->
  exists s', write_clusters s bs c 1 = Ret s' /\ repr s' (<[Z.to_nat c := take 2048 bs]> v) m.
Proof.
  intros (Hr & <- & <-) Hc Hl Hb. destruct (write_clusters_spec s bs c Hr Hc Hl Hb) as (s' & ? & ?). by exists s'.
Qed.

Lemma write_block_repr s v m bs c :
  repr s v m -> in_map c -> block_ok bs ->
  exists s', write_clusters s bs c 1 = Ret s' /\ repr s' (<[Z.to_nat c := bs]> v) m.
Proof.
  intros Hs Hc [Hl Hb]. destruct (write_clusters_repr s v m bs c) as (s' & ? & ?); [done..|lia|done|].
  exists s'. split; [done|]. by rewrite take_ge in * by lia.
Qed.

Lemma vol_get_block s c : ready s -> in_map c -> block_ok (vol_get (vol s) c).
Proof. intros. rewrite vol_get_vol by done. by apply cluster_ok. Qed.

Lemma table_at_ok s c : ready s -> in_map c -> table_ok (table_at (vol s) c).
Proof.
  intros Hr Hc. destruct (vol_get_block s c) as [Hl Hb]; [done..|].
  split; [apply length_dec_array|].
  exact (dec_array_wf (A := FAT32DirectoryEntry) ENTRY_COUNT _ Hl Hb).
Qed.

Lemma read_table_spec s c :
  ready s -> in_map c ->
  exists s', read_table s c = Ret (table_at (vol s) c, s') /\
    ready s' /\ vol s' = vol s /\ drv s' = drv s.
Proof.
  intros Hr Hc. unfold read_table.
  destruct (read_clusters_spec s c Hr Hc) as (s' & -> & ?). simpl. by exists s'.
Qed.

Lemma read_table_repr s v m c :
  repr s v m -> in_map c ->
  exists s', read_table s c = Ret (table_at v c, s') /\ repr s' v m /\ table_ok (table_at v c).
Proof.
  intros (Hr & <- & <-) Hc. destruct (read_table_spec s c Hr Hc) as (s' & ? & ?).
  exists s'. split_and!; try done. by apply table_at_ok.
Qed.

Lemma repr_length s v m : repr s v m -> length v = 512%nat.
Proof. intros (_ & <- & _). apply length_vol. Qed.

Lemma repr_block s v m c : repr s v m -> in_map c -> block_ok (vol_get v c).
Proof. intros (Hr & <- & _) Hc. by apply vol_get_block. Qed.
End volume.

Lemma table_block t : table_ok t -> block_ok (enc_array t).
Proof.
  intros [Hl Ht]. split; [|by apply enc_array_bytes].
  rewrite length_enc_array by done. by rewrite Hl.
Qed.

Lemma fat_block fat : fat_ok fat -> block_ok (enc_array fat).
Proof.
  intros [Hl Hf]. split; [|by apply enc_array_bytes].
  rewrite length_enc_array by done. by rewrite Hl.
Qed.

Lemma zero_block : block_ok (replicate 2048 0).
Proof. split; [apply length_replicate|]. by apply Forall_replicate. Qed.

Lemma vol_get_insert v c c' b :
  length v = 512%nat -> in_map c -> in_map c' ->
  vol_get (<[Z.to_nat c := b]> v) c' = if decide (c' = c) then b else vol_get v c'.
Proof.
  unfold in_map, vol_get. intros Hv Hc Hc'. case_decide; subst.
  - by rewrite list_lookup_insert_eq by lia.
  - by rewrite list_lookup_insert_ne by lia.
Qed.

(** Reads of a volume after writes at known clusters. *)
Ltac vol_simpl :=
  rewrite ?vol_get_insert by (rewrite ?length_insert; done);
  repeat first [rewrite decide_True by done | rewrite decide_False by done].

(** ** Directory entries and searches *)

Definition is_free (v : Z) : bool := v =? FAT32_FAT_EMPTY_ENTRY.
Definition free_slot (e : FAT32DirectoryEntry) : bool := negb (user_attribute e =? UATTR_NOT_EMPTY).
Definition has_name (nm : list Z) (e : FAT32DirectoryEntry) : bool := bool_decide (name e = nm).
Definition matches (nm ex : list Z) (e : FAT32DirectoryEntry) : bool :=
  has_name nm e && bool_decide (ext e = ex).

(** The entry [init_directory_entry] leaves in the slot that held [e]. *)
Definition new_entry (e : FAT32DirectoryEntry) (nm ex : list Z) (attr c size : Z) : FAT32DirectoryEntry :=
  MkEntry nm ex attr UATTR_NOT_EMPTY (undelete e) (create_time e) (create_date e) (access_date e)
    (Z.land (Z.shiftr c 16) 0xFFFF) (modified_time e) (modified_date e) (Z.land c 0xFFFF) size.

Lemma init_directory_entry_eq e nm ex attr c size :
  entry_ok e -> (8 ≤ length nm)%nat -> (3 ≤ length ex)%nat ->
  init_directory_entry e nm ex attr c size = Ret (new_entry e (take 8 nm) (take 3 ex) attr c size).
Proof.
  intros [[Hn _] [He _] _ _ _ _] H8 H3. unfold init_directory_entry.
  rewrite CString.memcpy_eq by lia. simpl. rewrite CString.memcpy_eq by lia. simpl.
  rewrite !splice_all by (rewrite length_take; lia). done.
Qed.

Lemma empty_entry_ok : entry_ok empty_entry.
Proof. by split; vm_compute; repeat split; repeat constructor. Qed.

Lemma new_entry_ok e nm ex attr c size :
  entry_ok e -> length nm = 8%nat -> bytes_ok nm -> length ex = 3%nat -> bytes_ok ex ->
  is_byte attr -> is_word 32 size -> entry_ok (new_entry e nm ex attr c size).
Proof.
  intros [_ _ (_ & _ & Hu) (H1 & H2 & H3 & H4 & H5) _ _] Hn Hnb He Heb Ha Hs.
  split; cbn [new_entry name ext attribute user_attribute undelete create_time create_date access_date
    cluster_high modified_time modified_date cluster_low filesize]; split_and?; auto.
  - by vm_compute.
  - rewrite (land_ones_mod _ 16) by done. by apply wrap_word.
  - rewrite (land_ones_mod _ 16) by done. by apply wrap_word.
Qed.

Lemma entry_cluster_new e nm ex attr c size :
  is_word 32 c -> entry_cluster (new_entry e nm ex attr c size) = c.
Proof. intros Hc. unfold entry_cluster. simpl. rewrite halves_join by done. by apply wrap_small. Qed.

Lemma same_name_eq e nm :
  entry_ok e -> length nm = 8%nat -> same_name e nm = Ret (has_name nm e).
Proof.
  intros [[Hn _] _ _ _ _ _] H8. unfold same_name, has_name.
  rewrite CString.memcmp_eqb by lia. by rewrite !take_ge by lia.
Qed.

Lemma same_name_ext_eq e nm ex :
  entry_ok e -> length nm = 8%nat -> length ex = 3%nat -> same_name_ext e nm ex = Ret (matches nm ex e).
Proof.
  intros He H8 H3. unfold same_name_ext, matches. rewrite same_name_eq by done. simpl.
  destruct (has_name nm e); [|done]. destruct He as [_ [Hx _] _ _ _ _].
  rewrite CString.memcmp_eqb by lia. by rewrite !take_ge by lia.
Qed.

Lemma table_lookup_ok t i e : table_ok t -> t !! i = Some e -> entry_ok e.
Proof. intros [_ Ht] Hi. by eapply Forall_lookup_1 in Ht. Qed.

Lemma table_ok_insert t (i : nat) e : table_ok t -> entry_ok e -> table_ok (<[i := e]> t).
Proof. intros [Hl Ht] He. split; [by rewrite length_insert|by apply Forall_insert]. Qed.

Lemma table_get t i : table_ok t -> 0 ≤ i < 64 -> exists e, arr_get t i = Ret e /\ t !! Z.to_nat i = Some e /\ entry_ok e.
Proof.
  intros Ht Hi. destruct (arr_get_is t i) as (e & ? & ?).
  - unfold Zlen. destruct Ht as [-> _]. done.
  - exists e. split_and!; [done..|]. by eapply table_lookup_ok.
Qed.

Lemma find_entry_eq t nm ex :
  table_ok t -> length nm = 8%nat -> length ex = 3%nat ->
  find_entry t nm ex = Ret (Z.of_nat (first_idx (matches nm ex) t)).
Proof.
  intros Ht H8 H3. unfold find_entry. pose proof (proj1 Ht) as Hlen.
  rewrite (scan_while_arr (matches nm ex) t).
  - rewrite drop_0, <- Hlen, firstn_all. done.
  - done.
  - unfold Zlen. lia.
  - intros i e Hi He. rewrite (arr_get_lookup _ _ e) by (lia || done). simpl.
    rewrite same_name_ext_eq by (done || by eapply table_lookup_ok). done.
Qed.

Lemma scan_slots_eq (p : FAT32DirectoryEntry -> bool) go t :
  table_ok t -> (forall i e, 2 ≤ i < 64 -> arr_get t i = Ret e -> entry_ok e -> go i = Ret (negb (p e))) ->
  scan_while 62 go 2 = Ret (2 + Z.of_nat (first_idx p (drop 2 t))).
Proof.
  intros Ht Hgo. pose proof (proj1 Ht) as Hlen. change ENTRY_COUNT with 64%nat in Hlen.
  rewrite (scan_while_arr p t); [|done|unfold Zlen; lia|].
  - change (Z.to_nat 2) with 2%nat. rewrite (take_ge (drop 2 t)); [done|]. rewrite length_drop. lia.
  - intros i e Hi He. apply Hgo; [lia|by apply arr_get_Ret; split; [lia|]|by eapply table_lookup_ok].
Qed.

Lemma find_empty_cluster_eq fat :
  length fat = 512%nat ->
  find_empty_cluster fat =
    Ret (if decide (first_idx is_free fat < 512)%nat then Z.of_nat (first_idx is_free fat) else NO_CLUSTER).
Proof.
  intros Hlen. unfold find_empty_cluster. rewrite (scan_while_arr is_free fat).
  - rewrite drop_0, take_ge by lia. rewrite bind_ret. f_equal. unfold CLUSTER_MAP_SIZE.
    pose proof (first_idx_le is_free fat). case_decide; destruct (Z.ltb_spec (0 + Z.of_nat (first_idx is_free fat)) 512); (lia || done).
  - done.
  - unfold Zlen. lia.
  - intros i v Hi Hv. by rewrite (arr_get_lookup _ _ v) by (lia || done).
Qed.

(** ** The allocation table behind [cluster_map] *)

Lemma cluster_map_get_in m c v :
  in_map c -> fat_table m !! Z.to_nat c = Some v -> cluster_map_get m c = Ret v.
Proof.
  unfold in_map, cluster_map_get, CLUSTER_MAP_SIZE. intros Hc Hv.
  destruct (Z.ltb_spec c 512); [|lia]. apply arr_get_lookup; [lia|done].
Qed.

Lemma cluster_map_set_in m c v :
  in_map c -> length (fat_table m) = 512%nat ->
  cluster_map_set m c v = Ret (set_fat m (<[Z.to_nat c := v]> (fat_table m))).
Proof.
  unfold in_map, cluster_map_set, CLUSTER_MAP_SIZE. intros Hc Hlen.
  destruct (Z.ltb_spec c 512); [|lia]. by rewrite arr_set_in by (unfold Zlen; lia).
Qed.

Lemma set_fat_fat m fat : fat_table (set_fat m fat) = fat.
Proof. done. Qed.

Lemma set_fat_set_fat m f f' : set_fat (set_fat m f) f' = set_fat m f'.
Proof. done. Qed.

Lemma set_fat_id m : set_fat m (fat_table m) = m.
Proof. by destruct m. Qed.

(** The word after the map: the first four bytes of the directory buffer. *)
Definition word_after_map (m : driver) : Z := le_val (take 4 (enc_array (dir_table_buf m))).

Lemma cluster_map_get_512 m : length (fat_table m) = 512%nat -> cluster_map_get m 512 = Ret (word_after_map m).
Proof.
  intros Hlen. unfold cluster_map_get, CLUSTER_MAP_SIZE, state_words.
  change (512 <? 512) with false. cbv iota. apply arr_get_lookup; [done|]. change (Z.to_nat 512) with 512%nat.
  rewrite lookup_app_r by lia. rewrite Hlen, Nat.sub_diag.
  rewrite lookup_app_l by (rewrite length_dec_array; lia). by rewrite lookup_dec_array by lia.
Qed.

Lemma next_empty_eq m c k :
  length (fat_table m) = 512%nat -> 0 ≤ c ->
  (Z.to_nat c + first_idx is_free (drop (Z.to_nat c) (fat_table m)) < 512)%nat ->
  (first_idx is_free (drop (Z.to_nat c) (fat_table m)) < k)%nat ->
  next_empty k m c = Ret (c + Z.of_nat (first_idx is_free (drop (Z.to_nat c) (fat_table m)))).
Proof.
  intros Hlen. revert c. induction k as [|k IH]; intros c Hc Hlt Hk; [lia|]. cbn [next_empty].
  destruct (lookup_lt_is_Some_2 (fat_table m) (Z.to_nat c)) as [v Hv]; [lia|].
  rewrite (cluster_map_get_in m c v) by (done || unfold in_map; lia). rewrite bind_ret.
  rewrite (drop_S _ v) in * by done. cbn [first_idx] in *. fold (is_free v).
  destruct (is_free v); [f_equal; lia|].
  replace (S (Z.to_nat c)) with (Z.to_nat (c + 1)) in * by lia.
  rewrite IH by lia. f_equal. lia.
Qed.
