(* ===== verification/FatChain.v ===== *)
(** * Cluster chains in the allocation table

    The table as a linked structure: a file is a chain of entries that ends in
    the end-of-file mark.  [alloc_after] is the first-fit choice of clusters,
    [link] the table with a chain threaded through them, [clear] the table
    with a chain released; [put_data] and [get_data] are the contents. *)
From S2P Require Import Prelude BlockDevice FatLayout Fat32 FatFacts.

Inductive chain (fat : list Z) : Z -> list Z -> Prop :=
| chain_end c : in_map c -> fat.[c] = Some FAT32_FAT_END_OF_FILE -> chain fat c [c]
| chain_next c n l :
    in_map c -> fat.[c] = Some n -> n ≠ FAT32_FAT_END_OF_FILE -> chain fat n l -> chain fat c (c :: l).

Fixpoint alloc_after (fat : list Z) (n : nat) (c : Z) : list Z :=
  match n with
  | O => []
  | S n' =>
      let d := c + 1 + Z.of_nat (first_idx is_free (drop (Z.to_nat (c + 1)) fat)) in
      d :: alloc_after fat n' d
  end.

(** The table after the partitions loop: every cluster points to the next one. *)
Fixpoint link_path (fat : list Z) (c : Z) (l : list Z) : list Z :=
  match l with
  | [] => fat
  | d :: l' => link_path (<[Z.to_nat c := d]> fat) d l'
  end.

(** Last cluster of the chain that starts at [c] and goes on with [l]. *)
Fixpoint last_from (c : Z) (l : list Z) : Z :=
  match l with
  | [] => c
  | d :: l' => last_from d l'
  end.

Definition link (fat : list Z) (c : Z) (l : list Z) : list Z :=
  <[Z.to_nat (last_from c l) := FAT32_FAT_END_OF_FILE]> (link_path fat c l).

Fixpoint clear (fat : list Z) (l : list Z) : list Z :=
  match l with
  | [] => fat
  | c :: l' => clear (<[Z.to_nat c := FAT32_FAT_EMPTY_ENTRY]> fat) l'
  end.

Fixpoint put_data (v : list (list Z)) (cs : list Z) (data : list Z) : list (list Z) :=
  match cs with
  | [] => v
  | c :: cs' => put_data (<[Z.to_nat c := take 2048 data]> v) cs' (drop 2048 data)
  end.

Definition get_data (v : list (list Z)) (cs : list Z) : list Z := concat (vol_get v <$> cs).

(** Clusters overwritten with zeros. *)
Fixpoint wipe (v : list (list Z)) (cs : list Z) : list (list Z) :=
  match cs with
  | [] => v
  | c :: cs' => wipe (<[Z.to_nat c := replicate 2048 0]> v) cs'
  end.

Lemma in_map_not_eof c : in_map c -> c ≠ FAT32_FAT_END_OF_FILE.
Proof. unfold in_map, FAT32_FAT_END_OF_FILE. lia. Qed.

Lemma in_map_inj c d : in_map c -> in_map d -> Z.to_nat c = Z.to_nat d -> c = d.
Proof. unfold in_map. lia. Qed.

Section chains.
Implicit Types (fat l : list Z) (c : Z).

Lemma chain_head fat c l : chain fat c l -> exists l', l = c :: l'.
Proof. destruct 1; eauto. Qed.

Lemma chain_in_map fat c l : chain fat c l -> Forall in_map l.
Proof. induction 1; auto. Qed.

Lemma chain_det fat c l l' : chain fat c l -> chain fat c l' -> l = l'.
Proof.
  intros H. revert l'. induction H as [c Hc Hv|c n l Hc Hv Hn Hl IH]; intros l' H'; inversion H'; simplify_eq; [done|].
  f_equal. by apply IH.
Qed.

Lemma chain_suffix fat c l d :
  chain fat c l -> d ∈ l -> exists l1 l2, l = l1 ++ l2 /\ chain fat d l2.
Proof.
  induction 1 as [c Hc Hv|c n l Hc Hv Hn Hl IH]; intros Hd.
  - apply list_elem_of_singleton in Hd as ->. exists [], [c]. split; [done|]. by constructor.
  - apply elem_of_cons in Hd as [->|Hd].
    + exists [], (c :: l). split; [done|]. by econstructor.
    + destruct (IH Hd) as (l1 & l2 & -> & H2). by exists (c :: l1), l2.
Qed.

(** A chain that reaches the end-of-file mark visits no cluster twice. *)
Lemma chain_NoDup fat c l : chain fat c l -> NoDup l.
Proof.
  induction 1 as [c Hc Hv|c n l Hc Hv Hn Hl IH]; [apply NoDup_singleton|].
  constructor; [|done]. intros Hin.
  destruct (chain_suffix _ _ _ _ Hl Hin) as (l1 & l2 & -> & H2).
  assert (chain fat c (c :: l1 ++ l2)) as H1 by by econstructor.
  pose proof (chain_det _ _ _ _ H1 H2) as Heq. apply (f_equal length) in Heq.
  simpl in Heq. rewrite length_app in Heq. lia.
Qed.

Lemma chain_ext fat fat' c l :
  chain fat c l -> (forall d, d ∈ l -> fat'.[d] = fat.[d]) -> chain fat' c l.
Proof.
  induction 1 as [c Hc Hv|c n l Hc Hv Hn Hl IH]; intros Hext.
  - constructor; [done|]. by rewrite Hext by set_solver.
  - econstructor; [done| |done|apply IH; set_solver]. by rewrite Hext by set_solver.
Qed.

Lemma chain_lookup_last fat c l : chain fat c (c :: l) -> fat.[last_from c l] = Some FAT32_FAT_END_OF_FILE.
Proof.
  revert c. induction l as [|d l IH]; intros c H; inversion H as [|? n ? ? ? ? Hl]; simplify_eq; [done| |].
  - by inversion Hl.
  - destruct (chain_head _ _ _ Hl) as [l' [= -> ->]]. by apply IH.
Qed.
End chains.

Section alloc.
Implicit Types (fat l : list Z) (c d : Z).

Lemma drop_insert_low fat (i n : nat) x : (i < n)%nat -> drop n (<[i := x]> fat) = drop n fat.
Proof. intros. by rewrite drop_insert_lt. Qed.

Lemma alloc_after_insert fat n c (i : nat) x :
  0 ≤ c -> (i ≤ Z.to_nat c)%nat -> alloc_after (<[i := x]> fat) n c = alloc_after fat n c.
Proof.
  revert c. induction n as [|n IH]; intros c Hc Hi; [done|]. cbn [alloc_after].
  rewrite drop_insert_low by lia. f_equal. apply IH; lia.
Qed.

Lemma alloc_next_spec fat c :
  length fat = 512%nat -> 0 ≤ c -> (0 < count is_free (drop (Z.to_nat (c + 1)) fat))%nat ->
  let d := c + 1 + Z.of_nat (first_idx is_free (drop (Z.to_nat (c + 1)) fat)) in
  c < d < 512 /\ fat.[d] = Some 0 /\
  count is_free (drop (Z.to_nat (d + 1)) fat) = pred (count is_free (drop (Z.to_nat (c + 1)) fat)).
Proof.
  intros Hlen Hc Hcount d. apply count_pos in Hcount as Hlt. pose proof Hlt as Hlt'.
  rewrite length_drop in Hlt'. apply first_idx_lookup in Hlt as (x & Hx & Hfree).
  rewrite lookup_drop in Hx. split; [lia|]. split.
  - unfold is_free, FAT32_FAT_EMPTY_ENTRY in Hfree. apply Z.eqb_eq in Hfree as ->. rewrite <- Hx. f_equal. lia.
  - rewrite <- count_drop_first, drop_drop. do 2 f_equal. lia.
Qed.

Lemma alloc_after_spec fat n : length fat = 512%nat -> forall c,
  0 ≤ c -> (n ≤ count is_free (drop (Z.to_nat (c + 1)) fat))%nat ->
  Forall (fun d => c < d < 512 /\ fat.[d] = Some 0) (alloc_after fat n c) /\
  NoDup (alloc_after fat n c).
Proof.
  intros Hlen. induction n as [|n IH]; intros c Hc Hn; cbn [alloc_after]; [split; constructor|].
  destruct (alloc_next_spec fat c) as (Hd & Hfree & Hcount); [done..|lia|].
  set (d := c + 1 + _) in *. destruct (IH d) as [HF HN]; [lia|lia|]. split.
  - constructor; [done|]. eapply Forall_impl; [done|]. simpl. intros x ?. split; [lia|naive_solver].
  - constructor; [|done]. intros Hin. eapply Forall_forall in HF; [|done]. simpl in HF. lia.
Qed.

Lemma length_alloc_after fat n c : length (alloc_after fat n c) = n.
Proof. revert c. induction n; intros; simpl; auto. Qed.
End alloc.

Section link.
Implicit Types (fat l : list Z) (c d : Z).

Lemma length_link_path fat c l : length (link_path fat c l) = length fat.
Proof. revert fat c. induction l as [|d l IH]; intros; simpl; [done|]. by rewrite IH, length_insert. Qed.

Lemma length_link fat c l : length (link fat c l) = length fat.
Proof. unfold link. by rewrite length_insert, length_link_path. Qed.

Lemma link_cons fat c d l : link fat c (d :: l) = link (<[Z.to_nat c := d]> fat) d l.
Proof. reflexivity. Qed.

Lemma lookup_link_ne fat c l x :
  Forall in_map (c :: l) -> in_map x -> x ∉ c :: l -> (link fat c l).[x] = fat.[x].
Proof.
  revert fat c. induction l as [|d l IH]; intros fat c Hin Hx Hnot.
  - unfold link. simpl. apply list_lookup_insert_ne. apply Forall_cons in Hin as [Hc _].
    intros ?%in_map_inj; [set_solver|done..].
  - rewrite link_cons. apply Forall_cons in Hin as [Hc Hl]. rewrite IH; [|done..|set_solver].
    apply list_lookup_insert_ne. intros ?%in_map_inj; [set_solver|done..].
Qed.

Lemma link_chain fat c l :
  length fat = 512%nat -> Forall in_map (c :: l) -> NoDup (c :: l) -> chain (link fat c l) c (c :: l).
Proof.
  revert fat c. induction l as [|d l IH]; intros fat c Hlen Hin Hnd; apply Forall_cons in Hin as [Hc Hl].
  - constructor; [done|]. unfold link. simpl. apply list_lookup_insert_eq. unfold in_map in Hc. lia.
  - apply NoDup_cons in Hnd as [Hnot Hnd]. pose proof Hl as [Hd _]%Forall_cons.
    rewrite link_cons. apply (chain_next _ _ d); [done| |by apply in_map_not_eof|].
    + rewrite lookup_link_ne by done. apply list_lookup_insert_eq. unfold in_map in Hc. lia.
    + apply IH; [by rewrite length_insert|done..].
Qed.

Lemma length_clear fat l : length (clear fat l) = length fat.
Proof. revert fat. induction l; intros; simpl; [done|]. by rewrite IHl, length_insert. Qed.

Lemma clear_app fat l l' : clear fat (l ++ l') = clear (clear fat l) l'.
Proof. revert fat. induction l; intros; simpl; auto. Qed.

Lemma lookup_clear fat l x :
  length fat = 512%nat -> Forall in_map l -> in_map x ->
  (clear fat l).[x] = if decide (x ∈ l) then Some 0 else fat.[x].
Proof.
  revert fat. induction l as [|c l IH]; intros fat Hlen Hl Hx; cbn [clear].
  - by rewrite decide_False by set_solver.
  - apply Forall_cons in Hl as [Hc Hl]. rewrite IH by (rewrite ?length_insert; done).
    unfold in_map in Hc, Hx. repeat case_decide; try set_solver.
    + assert (x = c) as -> by set_solver. rewrite list_lookup_insert_eq by lia. done.
    + rewrite list_lookup_insert_ne; [done|]. intros ?%in_map_inj; [set_solver|done..].
Qed.

(** Releasing a chain that was threaded through free clusters restores the table. *)
Lemma clear_link fat c l :
  length fat = 512%nat -> Forall (fun d => in_map d /\ fat.[d] = Some 0) (c :: l) ->
  clear (link fat c l) (c :: l) = fat.
Proof.
  intros Hlen Hl. assert (Forall in_map (c :: l)) as Hin by (eapply Forall_impl; [done|]; naive_solver).
  apply list_eq. intros i. destruct (decide (i < 512)%nat).
  - replace i with (Z.to_nat (Z.of_nat i)) by lia. assert (in_map (Z.of_nat i)) by (unfold in_map; lia).
    rewrite lookup_clear by (rewrite ?length_link; done). case_decide as Hd.
    + eapply Forall_forall in Hl; [|done]. naive_solver.
    + by apply lookup_link_ne.
  - rewrite !lookup_ge_None_2; rewrite ?length_clear, ?length_link; (done || lia).
Qed.
End link.

(** Every operation on the table leaves a table. *)
Lemma fat_ok_insert fat (i : nat) x : fat_ok fat -> is_word 32 x -> fat_ok (<[i := x]> fat).
Proof. intros [Hl Hf] Hx. split; [by rewrite length_insert|by apply Forall_insert]. Qed.

Lemma in_map_word c : in_map c -> is_word 32 c.
Proof. unfold in_map, is_word. lia. Qed.

Lemma clear_ok fat l : fat_ok fat -> fat_ok (clear fat l).
Proof. revert fat. induction l; intros; simpl; [done|]. apply IHl. by apply fat_ok_insert. Qed.

Lemma link_ok fat c l : fat_ok fat -> Forall in_map l -> fat_ok (link fat c l).
Proof.
  intros Hf Hl. revert fat c Hf. induction Hl as [|d l Hd Hl IH]; intros fat c Hf.
  - unfold link. simpl. by apply fat_ok_insert.
  - rewrite link_cons. apply IH, fat_ok_insert; [done|by apply in_map_word].
Qed.

(** ** Contents of a chain *)
Section contents.
Implicit Types (v : list (list Z)) (cs data : list Z).

Lemma length_put_data v cs data : length (put_data v cs data) = length v.
Proof. revert v data. induction cs; intros; simpl; [done|]. by rewrite IHcs, length_insert. Qed.

Lemma put_data_snoc v cs c data :
  put_data v (cs ++ [c]) data =
    <[Z.to_nat c := take 2048 (drop (2048 * length cs) data)]> (put_data v cs data).
Proof.
  revert v data. induction cs as [|d cs IH]; intros v data; cbn [app put_data length].
  - by rewrite Nat.mul_0_r, drop_0.
  - rewrite IH, drop_drop. do 4 f_equal. lia.
Qed.

Lemma lookup_put_data_ne v cs data x :
  Forall in_map cs -> in_map x -> x ∉ cs -> (put_data v cs data).[x] = v.[x].
Proof.
  intros Hcs Hx. revert v data. induction Hcs as [|c cs Hc Hcs IH]; intros v data Hnot; simpl; [done|].
  rewrite IH by set_solver. apply list_lookup_insert_ne. intros ?%in_map_inj; [set_solver|done..].
Qed.

Lemma get_data_ext v v' cs : (forall c, c ∈ cs -> v'.[c] = v.[c]) -> get_data v' cs = get_data v cs.
Proof.
  intros H. unfold get_data. f_equal. apply list_fmap_ext. intros i c Hc. unfold vol_get.
  rewrite H; [done|]. by eapply list_elem_of_lookup_2.
Qed.

Lemma get_put_data v cs data :
  length v = 512%nat -> Forall in_map cs -> NoDup cs ->
  get_data (put_data v cs data) cs = take (2048 * length cs) data.
Proof.
  intros Hv Hcs. revert v data Hv. induction Hcs as [|c cs Hc Hcs IH]; intros v data Hv Hnd.
  - unfold get_data. simpl. by rewrite firstn_O.
  - apply NoDup_cons in Hnd as [Hnot Hnd]. unfold get_data in *. cbn [fmap list_fmap concat put_data length].
    rewrite IH by (rewrite ?length_insert; done). unfold vol_get at 1.
    rewrite lookup_put_data_ne, list_lookup_insert_eq by (done || unfold in_map in Hc; lia).
    cbn [from_option id]. rewrite take_take_drop. f_equal. lia.
Qed.

Lemma length_get_data v cs :
  Forall (fun c => block_ok (vol_get v c)) cs -> length (get_data v cs) = (2048 * length cs)%nat.
Proof.
  induction 1 as [|c cs [Hc _] Hcs IH]; unfold get_data in *; [done|].
  cbn [fmap list_fmap concat length]. rewrite length_app, Hc, IH. lia.
Qed.

Lemma wipe_snoc v cs c : wipe v (cs ++ [c]) = <[Z.to_nat c := replicate 2048 0]> (wipe v cs).
Proof. revert v. induction cs; intros; simpl; auto. Qed.

Lemma length_wipe v cs : length (wipe v cs) = length v.
Proof. revert v. induction cs; intros; simpl; [done|]. by rewrite IHcs, length_insert. Qed.

Lemma lookup_wipe_ne v cs x :
  Forall in_map cs -> in_map x -> x ∉ cs -> (wipe v cs).[x] = v.[x].
Proof.
  intros Hcs Hx. revert v. induction Hcs as [|c cs Hc Hcs IH]; intros v Hnot; simpl; [done|].
  rewrite IH by set_solver. apply list_lookup_insert_ne. intros ?%in_map_inj; [set_solver|done..].
Qed.
End contents.

Lemma chain_split_last c l : c :: l = take (length l) (c :: l) ++ [last_from c l].
Proof.
  revert c. induction l as [|d l IH]; intros c; [done|].
  cbn [length last_from]. rewrite firstn_cons. simpl. f_equal. apply IH.
Qed.

(** There are only 512 clusters, so no chain is longer. *)
Lemma in_map_length l : Forall in_map l -> NoDup l -> (length l ≤ 512)%nat.
Proof.
  intros Hl Hnd. change 512%nat with (Z.to_nat 512). rewrite <- (length_seqZ 0 512).
  apply submseteq_length, NoDup_submseteq; [done|]. intros x Hx.
  eapply Forall_forall in Hl; [|done]. apply elem_of_seqZ. unfold in_map in Hl. lia.
Qed.

Lemma chain_length fat c l : chain fat c l -> (length l ≤ 512)%nat.
Proof. intros H. apply in_map_length; [by eapply chain_in_map|by eapply chain_NoDup]. Qed.
