(* ===== verification/FatLoops.v ===== *)
(** * The loops of fat32.c

    What the scan of the parent directory, the count of the free clusters and
    the loops over the clusters of a file compute. *)
From S2P Require Import Prelude CString BlockDevice FatLayout Fat32 FatFacts FatChain.

(** ** The scan of the parent directory *)

Definition duplicate (nm ex : list Z) (attr : Z) (e : FAT32DirectoryEntry) : bool :=
  matches nm ex e && (attribute e =? attr).

Lemma write_scan_spec t nm ex attr :
  table_ok t -> length nm = 8%nat -> length ex = 3%nat ->
  forall k idx found e0 n0, 0 ≤ idx -> idx + Z.of_nat k = 64 ->
  let l := drop (Z.to_nat idx) t in
  exists e' n',
    write_scan k t nm ex attr idx found e0 n0 =
      Ret (idx + Z.of_nat (first_idx (duplicate nm ex attr) l), e', n') /\
    (first_idx (duplicate nm ex attr) l = k ->
       n0 ≤ n' /\ (n' = n0 <-> first_idx free_slot l = k) /\
       e' = if found then e0 else if decide (first_idx free_slot l < k)%nat
                                  then idx + Z.of_nat (first_idx free_slot l) else e0).
Proof.
  intros Ht H8 H3. induction k as [|k IH]; intros idx found e0 n0 Hi Hk l; cbn [write_scan].
  - assert (l = []) as Hl. { apply drop_ge. destruct Ht as [-> _]. unfold ENTRY_COUNT. lia. }
    rewrite Hl. exists e0, n0. simpl. split; [by rewrite Z.add_0_r|]. intros _.
    split_and!; [lia|done|]. by destruct found.
  - destruct (table_get t idx Ht) as (e & -> & He & Heok); [lia|]. rewrite bind_ret.
    rewrite same_name_ext_eq by done. rewrite bind_ret.
    assert (l = e :: drop (Z.to_nat (idx + 1)) t) as Hl.
    { unfold l. erewrite drop_S by done. do 2 f_equal. lia. }
    rewrite Hl. clear l Hl. cbn [first_idx]. fold (duplicate nm ex attr e). fold (free_slot e).
    destruct (duplicate nm ex attr e).
    { exists e0, n0. split; [by rewrite Z.add_0_r|]. done. }
    destruct (free_slot e).
    + destruct (IH (idx + 1) true (if found then e0 else idx) (n0 + 1)) as (e' & n' & -> & H); [lia..|].
      exists e', n'. split; [do 3 f_equal; lia|]. intros [=Hd]. destruct (H Hd) as (? & ? & ->).
      split_and!; [lia|split; lia|]. destruct found; [done|]. rewrite decide_True by lia. lia.
    + destruct (IH (idx + 1) found e0 n0) as (e' & n' & -> & H); [lia..|].
      exists e', n'. split; [do 3 f_equal; lia|]. intros [=Hd]. destruct (H Hd) as (? & Hn & ->).
      split_and!; [lia|rewrite Hn; split; lia|]. destruct found; [done|].
      repeat case_decide; lia.
Qed.

(** Slot of the new entry: the first free one after the two fixed entries. *)
Definition new_slot (t : list FAT32DirectoryEntry) : nat := (2 + first_idx free_slot (drop 2 t))%nat.

Lemma new_slot_lookup t :
  table_ok t -> (new_slot t < 64)%nat -> exists e, t !! new_slot t = Some e /\ entry_ok e.
Proof.
  intros Ht Hs. destruct (lookup_lt_is_Some_2 t (new_slot t)) as [e He].
  - destruct Ht as [-> _]. done.
  - exists e. split; [done|]. by eapply table_lookup_ok.
Qed.

(** ** Free clusters *)

Lemma enough_loop_spec m required k : forall idx n,
  length (fat_table m) = 512%nat -> 0 ≤ n ≤ required -> 2 ≤ idx -> idx + Z.of_nat k = 512 ->
  enough_loop k m required idx n =
    Ret (Z.min required (n + Z.of_nat (count is_free (drop (Z.to_nat (idx + 1)) (fat_table m)))
      + (if decide (k = 0%nat) then 0 else if is_free (word_after_map m) then 1 else 0))).
Proof.
  induction k as [|k IH]; intros idx n Hlen Hn Hi Hk; cbn [enough_loop].
  - rewrite drop_ge by lia. simpl. f_equal. lia.
  - rewrite (decide_False (P := S k = 0%nat)) by done. destruct (Z.ltb_spec n required) as [Hlt|Hge].
    2: { f_equal. destruct (is_free (word_after_map m)); lia. }
    destruct (decide (k = 0%nat)) as [->|Hk0].
    + replace (idx + 1) with 512 by lia. rewrite cluster_map_get_512 by done. rewrite bind_ret. simpl.
      change (Z.to_nat 512) with 512%nat. rewrite drop_ge by lia. simpl.
      unfold is_free, FAT32_FAT_EMPTY_ENTRY. destruct (word_after_map m =? 0); f_equal; lia.
    + destruct (lookup_lt_is_Some_2 (fat_table m) (Z.to_nat (idx + 1))) as [v Hv]; [lia|].
      rewrite (cluster_map_get_in m (idx + 1) v) by (done || unfold in_map; lia). rewrite bind_ret.
      rewrite (drop_S _ v) by done. cbn [count]. fold (is_free v).
      replace (S (Z.to_nat (idx + 1))) with (Z.to_nat (idx + 1 + 1)) by lia.
      destruct (is_free v); rewrite IH by lia; f_equal; lia.
Qed.

(** [enough_empty_cluster] in full.  It counts the free entries 3..511 and,
    because it advances before it reads, the word after the map as well: the
    answer is exact when that word is non-zero, and one cluster too optimistic
    when it is zero. *)
Theorem enough_empty_cluster_exact (m : driver) (required : Z) :
  length (fat_table m) = 512%nat -> 0 ≤ required ->
  enough_empty_cluster m required =
    Ret (bool_decide (required ≤ Z.of_nat (count is_free (drop 3 (fat_table m)))
                                 + (if is_free (word_after_map m) then 1 else 0))).
Proof.
  intros Hlen Hr. unfold enough_empty_cluster. rewrite enough_loop_spec by (done || lia).
  rewrite bind_ret. change (Z.to_nat (2 + 1)) with 3%nat.
  rewrite (decide_False (P := 510%nat = 0%nat)) by done.
  f_equal. destruct (Z.eqb_spec (Z.min required (0 + Z.of_nat (count is_free (drop 3 (fat_table m)))
    + (if is_free (word_after_map m) then 1 else 0))) required) as [H|H]; symmetry;
    [apply bool_decide_eq_true|apply bool_decide_eq_false]; lia.
Qed.

Lemma enough_empty_cluster_exact_witness :
  enough_empty_cluster (MkDriver (replicate 511 1 ++ [0]) (replicate 64 empty_entry) [] []) 2 = Ret true.
Proof.
  rewrite (enough_empty_cluster_exact (MkDriver (replicate 511 1 ++ [0]) (replicate 64 empty_entry) [] []) 2);
    [vm_compute; reflexivity|reflexivity|lia].
Defined.

(** ** The three loops over the clusters of a file *)
Section loops.
Context {D : Type} `{!BlockDevice D, !BlockDeviceSpec D}.
Implicit Types (s : fs D) (v : list (list Z)) (m : driver) (data buffer l : list Z).

Lemma read_chain_spec fat c l :
  chain fat c l -> forall s v m buffer off fuel,
  repr s v m -> fat_table m = fat -> (length l < fuel)%nat -> (off + 2048 * length l ≤ length buffer)%nat ->
  exists s', read_chain fuel s c buffer off = Ret (splice off (get_data v l) buffer, s') /\ repr s' v m.
Proof.
  induction 1 as [c Hc Hv|c n l Hc Hv Hn Hl IH]; intros s v m buffer off fuel Hs Hf Hfuel Hlen;
    (destruct fuel as [|fuel]; [lia|]); cbn [read_chain length] in *;
    (rewrite (proj2 (Z.eqb_neq c _)) by by apply in_map_not_eof);
    destruct (read_clusters_repr s v m c Hs Hc) as (s1 & -> & Hs1);
    destruct (repr_block s v m c Hs Hc) as [Hb _]; rewrite bind_ret;
    unfold store_at; (rewrite decide_True by lia); rewrite bind_ret;
    assert (Hd : drv s1 = m) by apply Hs1; rewrite Hd;
    (rewrite (cluster_map_get_in m c _ Hc) by (by rewrite Hf)); rewrite bind_ret.
  - destruct fuel as [|fuel]; [lia|]. cbn [read_chain]. rewrite Z.eqb_refl.
    exists s1. split; [|done]. unfold get_data. cbn [fmap list_fmap concat]. by rewrite app_nil_r.
  - change (Z.to_nat CLUSTER_SIZE) with 2048%nat.
    destruct (IH s1 v m (splice off (vol_get v c) buffer) (off + 2048)%nat fuel) as (s2 & -> & Hs2);
      [done|done|lia|rewrite length_splice; lia|].
    exists s2. split; [|done]. do 2 f_equal. rewrite <- Hb, splice_splice_end.
    + by unfold get_data.
    + rewrite Hb. pose proof (length_get_data v l) as Hg. rewrite Hg; [lia|].
      apply Forall_forall. intros x Hx. eapply repr_block; [done|].
      eapply Forall_forall; [by eapply chain_in_map|done].
Qed.

Lemma write_partitions_spec n : forall s v m data c p,
  repr s v m -> length (fat_table m) = 512%nat -> in_map c ->
  (n ≤ count is_free (drop (Z.to_nat (c + 1)) (fat_table m)))%nat ->
  0 ≤ p -> (2048 * (Z.to_nat p + n) ≤ length data)%nat -> bytes_ok data ->
  let l := alloc_after (fat_table m) n c in
  exists s', write_partitions n s data c p = Ret (last_from c l, p + Z.of_nat n, s') /\
    repr s' (put_data v (take n (c :: l)) (drop (2048 * Z.to_nat p) data))
            (set_fat m (link_path (fat_table m) c l)).
Proof.
  induction n as [|n IH]; intros s v m data c p Hs Hlen Hc Hn Hp Hd Hb l; cbn [write_partitions].
  - exists s. rewrite Z.add_0_r. split; [done|]. unfold l. cbn. by rewrite set_fat_id.
  - destruct (alloc_next_spec (fat_table m) c) as (Hd1 & Hfree & Hcount); [done|by destruct Hc|lia|].
    assert (Hdrv : drv s = m) by apply Hs. rewrite Hdrv.
    set (d := c + 1 + Z.of_nat (first_idx is_free (drop (Z.to_nat (c + 1)) (fat_table m)))) in *.
    pose proof Hc as Hc'. unfold in_map in Hc'.
    rewrite next_empty_eq by (try done; unfold d in *; lia). fold d. rewrite bind_ret.
    rewrite (cluster_map_set_in m) by done. rewrite bind_ret.
    set (m1 := set_fat m (<[Z.to_nat c := d]> (fat_table m))).
    destruct (write_clusters_repr (set_drv s m1) v m1 (drop (Z.to_nat (CLUSTER_SIZE * p)) data) c) as (s1 & -> & Hs1).
    { by eapply repr_set_drv. } { done. } { unfold CLUSTER_SIZE, BLOCK_SIZE, CLUSTER_BLOCK_COUNT. rewrite length_drop. lia. }
    { by apply Forall_drop. }
    rewrite bind_ret. assert (Hdrop : drop (Z.to_nat (d + 1)) (fat_table m1) = drop (Z.to_nat (d + 1)) (fat_table m)).
    { unfold m1. cbn [fat_table set_fat]. apply drop_insert_low. lia. }
    destruct (IH s1 (<[Z.to_nat c := take 2048 (drop (Z.to_nat (CLUSTER_SIZE * p)) data)]> v) m1 data d (p + 1))
      as (s2 & -> & Hs2); [done|unfold m1; simpl; by rewrite length_insert|unfold in_map; lia|
                           rewrite Hdrop; lia|lia|lia|done|].
    assert (Hl : l = d :: alloc_after (fat_table m1) n d).
    { unfold l, m1. cbn [alloc_after fat_table set_fat]. fold d. f_equal.
      symmetry. apply alloc_after_insert; lia. }
    rewrite Hl. exists s2. cbn [last_from link_path]. split; [do 3 f_equal; lia|].
    rewrite firstn_cons. cbn [put_data].
    replace (Z.to_nat (CLUSTER_SIZE * p)) with (2048 * Z.to_nat p)%nat in Hs2
      by (unfold CLUSTER_SIZE, BLOCK_SIZE, CLUSTER_BLOCK_COUNT; lia).
    rewrite drop_drop. replace (2048 * Z.to_nat p + 2048)%nat with (2048 * Z.to_nat (p + 1))%nat by lia.
    exact Hs2.
Qed.

Lemma delete_chain_spec fat c l :
  chain fat c l -> forall s v m fuel,
  repr s v m -> length (fat_table m) = 512%nat -> (forall d, d ∈ l -> (fat_table m).[d] = fat.[d]) ->
  (length l ≤ fuel)%nat ->
  exists s' l', l = l' ++ [last_from c (tail l)] /\
    delete_chain fuel s c = Ret (last_from c (tail l), s') /\
    repr s' (wipe v l') (set_fat m (clear (fat_table m) l')).
Proof.
  intros Hch. pose proof (chain_NoDup _ _ _ Hch) as Hnd. revert Hnd.
  induction Hch as [c Hc Hv|c n l Hc Hv Hn Hl IH]; intros Hnd s v m fuel Hs Hlen Hext Hfuel;
    (destruct fuel as [|fuel]; [simpl in *; lia|]); cbn [delete_chain length] in *;
    assert (Hd : drv s = m) by apply Hs; rewrite Hd;
    (rewrite (cluster_map_get_in m c _ Hc) by (rewrite Hext by set_solver; done)); rewrite bind_ret.
  - rewrite Z.eqb_refl. exists s, []. split_and!; [done|done|]. cbn. by rewrite set_fat_id.
  - rewrite (proj2 (Z.eqb_neq n _)) by done. rewrite cluster_map_set_in by done. rewrite bind_ret.
    set (m1 := set_fat m (<[Z.to_nat c := FAT32_FAT_EMPTY_ENTRY]> (fat_table m))).
    destruct (write_block_repr (set_drv s m1) v m1 (replicate 2048 0) c) as (s1 & -> & Hs1);
      [by eapply repr_set_drv|done|apply zero_block|]. rewrite bind_ret.
    apply NoDup_cons in Hnd as [Hnot Hnd].
    destruct (IH Hnd s1 (<[Z.to_nat c := replicate 2048 0]> v) m1 fuel) as (s2 & l' & Hl' & -> & Hs2).
    { done. } { unfold m1. simpl. by rewrite length_insert. }
    { intros d Hdl. unfold m1. cbn [fat_table set_fat]. rewrite list_lookup_insert_ne; [apply Hext; set_solver|].
      intros ->%in_map_inj; [done|done|]. eapply Forall_forall; [by eapply chain_in_map|done]. }
    { lia. }
    destruct (chain_head _ _ _ Hl) as [l1 ->]. cbn [tail last_from] in *.
    exists s2, (c :: l'). split_and!; [simpl; by f_equal|done|done].
Qed.
End loops.
