(* ===== verification/FatSpec.v ===== *)
(** * Abstract specification of the file system calls

    The contract of [read_directory], [read], [write] and [Delete] on the pair
    of a volume (the list of 2048-byte clusters) and the memory of the driver:
    which return code each state of the parent directory gives and how the
    volume and the allocation table change.  No loop, no disk access and no
    buffer management is left. *)
From S2P Require Import Prelude CString BlockDevice FatLayout Fat32 FatFacts FatChain FatLoops.

Abbreviation volume := (list (list Z)).

(** The clusters of the file that starts at [c], in order. *)
Fixpoint walk (k : nat) (fat : list Z) (c : Z) : list Z :=
  match k with
  | O => []
  | S k' =>
      c :: match fat.[c] with
           | Some n => if n =? FAT32_FAT_END_OF_FILE then [] else walk k' fat n
           | None => []
           end
  end.
Definition chain_of (fat : list Z) (c : Z) : list Z := walk 512 fat c.

Definition is_dir (t : list FAT32DirectoryEntry) : bool :=
  match t !! 0%nat with Some e => attribute e =? ATTR_SUBDIRECTORY | None => false end.

(** First entry that satisfies [p]. *)
Definition lookup_first (p : FAT32DirectoryEntry -> bool) (t : list FAT32DirectoryEntry) :
    option FAT32DirectoryEntry := t !! first_idx p t.

Definition spec_read_directory (v : volume) (rq : FAT32DriverRequest) : Z * list Z :=
  let t := table_at v (parent_cluster_number rq) in
  if buffer_size rq <? CLUSTER_SIZE then (-1, buf rq)
  else if negb (is_dir t) then (-1, buf rq)
  else match lookup_first (has_name (req_name rq)) (drop 2 t) with
       | None => (2, buf rq)
       | Some e =>
           if attribute e =? ATTR_SUBDIRECTORY
           then (0, splice 0 (vol_get v (entry_cluster e)) (buf rq)) else (1, buf rq)
       end.

Definition spec_read (v : volume) (fat : list Z) (rq : FAT32DriverRequest) : Z * list Z :=
  let t := table_at v (parent_cluster_number rq) in
  if negb (is_dir t) then (-1, buf rq)
  else match lookup_first (matches (req_name rq) (req_ext rq)) t with
       | None => (2, buf rq)
       | Some e =>
           if attribute e =? ATTR_SUBDIRECTORY then (1, buf rq)
           else if buffer_size rq <? filesize e then (-1, buf rq)
           else (0, splice 0 (get_data v (chain_of fat (entry_cluster e))) (buf rq))
       end.

(** The directory table that [write] puts in a new folder of the root. *)
Definition new_directory (nm : list Z) (c p : Z) : list FAT32DirectoryEntry :=
  new_entry empty_entry nm (take 3 no_ext) ATTR_SUBDIRECTORY c 0 ::
  new_entry empty_entry (take 8 root_literal) (take 3 no_ext) ATTR_SUBDIRECTORY p 0 ::
  replicate 62 empty_entry.

(** The parent's table with its first free slot filled in. *)
Definition add_entry (t : list FAT32DirectoryEntry) (rq : FAT32DriverRequest) (attr c : Z) :
    list FAT32DirectoryEntry :=
  alter (fun e => new_entry e (req_name rq) (req_ext rq) attr c (buffer_size rq)) (new_slot t) t.

Definition first_free (fat : list Z) : Z := Z.of_nat (first_idx is_free fat).

(** The clusters [write] gives to a file of [parts] clusters. *)
Definition file_clusters (fat : list Z) (parts : Z) : list Z :=
  first_free fat :: alloc_after fat (Z.to_nat (parts - 1)) (first_free fat).

Definition spec_write_folder (v : volume) (m : driver) (rq : FAT32DriverRequest) : volume * driver :=
  let p := parent_cluster_number rq in
  let c := first_free (fat_table m) in
  let fat := link (fat_table m) c [] in
  let d := new_directory (req_name rq) c p in
  (<[Z.to_nat p := enc_array (add_entry (table_at v p) rq ATTR_SUBDIRECTORY c)]>
     (<[Z.to_nat c := enc_array d]> (<[Z.to_nat FAT_CLUSTER_NUMBER := enc_array fat]> v)),
   MkDriver fat d (cluster_buf m) (after_signature m)).

Definition spec_write_file (v : volume) (m : driver) (rq : FAT32DriverRequest) : volume * driver :=
  let p := parent_cluster_number rq in
  let c := first_free (fat_table m) in
  let l := alloc_after (fat_table m) (Z.to_nat (number_of_partition (buffer_size rq) - 1)) c in
  let fat := link (fat_table m) c l in
  (<[Z.to_nat FAT_CLUSTER_NUMBER := enc_array fat]>
     (put_data (<[Z.to_nat p := enc_array (add_entry (table_at v p) rq 0 c)]> v) (c :: l) (buf rq)),
   set_fat m fat).

(** Free clusters that [write] can hand out: not 0, 1 and the root. *)
Definition free_clusters (fat : list Z) : Z := Z.of_nat (count is_free (drop 3 fat)).

Definition spec_write (v : volume) (m : driver) (rq : FAT32DriverRequest) : Z * (volume * driver) :=
  let t := table_at v (parent_cluster_number rq) in
  let attr := if buffer_size rq =? 0 then ATTR_SUBDIRECTORY else 0 in
  if negb (is_dir t) then (2, (v, m))
  else if lookup_first (duplicate (req_name rq) (req_ext rq) attr) (drop 2 t) then (1, (v, m))
  else if decide (count free_slot (drop 2 t) = 0%nat) then (-1, (v, m))
  else if buffer_size rq =? 0 then
    if free_clusters (fat_table m) =? 0 then (-1, (v, m)) else (0, spec_write_folder v m rq)
  else
    if free_clusters (fat_table m) <? number_of_partition (buffer_size rq) then (-1, (v, m))
    else (0, spec_write_file v m rq).

(** The request gets as far as making a folder whose parent is not the root:
    [init_directory_table] then writes 8 bytes over a literal of one byte. *)
Definition overruns_literal (v : volume) (m : driver) (rq : FAT32DriverRequest) : bool :=
  (buffer_size rq =? 0) && negb (parent_cluster_number rq =? ROOT_CLUSTER_NUMBER) &&
  ((spec_write v m rq).1 =? 0).

(** The clusters [Delete] releases for the entry [e]. *)
Definition entry_clusters (fat : list Z) (e : FAT32DirectoryEntry) : list Z :=
  if attribute e =? ATTR_SUBDIRECTORY then [entry_cluster e] else chain_of fat (entry_cluster e).

Definition folder_empty (v : volume) (e : FAT32DirectoryEntry) : bool :=
  negb (attribute e =? ATTR_SUBDIRECTORY) ||
  bool_decide (count (fun e => negb (free_slot e)) (drop 2 (table_at v (entry_cluster e))) = 0%nat).

Definition spec_remove (v : volume) (m : driver) (rq : FAT32DriverRequest) (e : FAT32DirectoryEntry) :
    volume * driver :=
  let p := parent_cluster_number rq in
  let t := table_at v p in
  let l := entry_clusters (fat_table m) e in
  let fat := clear (fat_table m) l in
  (<[Z.to_nat FAT_CLUSTER_NUMBER := enc_array fat]>
     (<[Z.to_nat p := enc_array (<[first_idx (matches (req_name rq) (req_ext rq)) t := empty_entry]> t)]>
        (wipe v l)),
   set_fat m fat).

Definition spec_delete (v : volume) (m : driver) (rq : FAT32DriverRequest) : Z * (volume * driver) :=
  let t := table_at v (parent_cluster_number rq) in
  if negb (is_dir t) then (-1, (v, m))
  else match lookup_first (matches (req_name rq) (req_ext rq)) t with
       | None => (1, (v, m))
       | Some e => if folder_empty v e then (0, spec_remove v m rq e) else (2, (v, m))
       end.

(** ** When the contract applies *)

(** The memory of the driver after [initialize_filesystem_fat32]: the entries
    of the boot sector, of the table itself and of the root are taken. *)
Record mounted (m : driver) : Prop := MkMounted {
  mnt_ok : driver_ok m;
  mnt_reserved : forall c, 0 ≤ c < 3 -> exists x, (fat_table m).[c] = Some x /\ x ≠ FAT32_FAT_EMPTY_ENTRY
}.

(** The entry's first cluster is one the calls can follow. *)
Definition entry_backed (fat : list Z) (e : FAT32DirectoryEntry) : Prop :=
  if attribute e =? ATTR_SUBDIRECTORY then in_map (entry_cluster e)
  else exists l, chain fat (entry_cluster e) l.

(** [write] copies whole clusters, so the last one is read in full. *)
Record write_args_ok (m : driver) (rq : FAT32DriverRequest) : Prop := MkWriteArgs {
  wa_request : request_ok rq;
  wa_parent : in_map (parent_cluster_number rq);
  wa_buf : CLUSTER_SIZE * number_of_partition (buffer_size rq) ≤ Zlen (buf rq);
  wa_bytes : bytes_ok (buf rq);
  wa_count : is_free (word_after_map m) = true ->
    number_of_partition (buffer_size rq) ≠ free_clusters (fat_table m) + 1
}.

Lemma chain_walk fat c l k : chain fat c l -> (length l ≤ k)%nat -> walk k fat c = l.
Proof.
  intros H. revert k. induction H as [c Hc Hv|c n l Hc Hv Hn Hl IH]; intros k Hk;
    (destruct k as [|k]; [simpl in Hk; lia|]); cbn [walk]; rewrite Hv.
  - by rewrite Z.eqb_refl.
  - rewrite (proj2 (Z.eqb_neq n _)) by done. f_equal. apply IH. simpl in Hk. lia.
Qed.

Lemma chain_chain_of fat c l : chain fat c l -> chain_of fat c = l.
Proof. intros H. apply chain_walk; [done|]. by eapply chain_length. Qed.

Lemma lookup_first_None p t : lookup_first p t = None <-> first_idx p t = length t.
Proof.
  unfold lookup_first. rewrite lookup_ge_None. pose proof (first_idx_le p t). lia.
Qed.

Lemma lookup_first_Some p t e :
  lookup_first p t = Some e -> (first_idx p t < length t)%nat /\ t !! first_idx p t = Some e /\ p e = true.
Proof.
  unfold lookup_first. intros He. pose proof (lookup_lt_Some _ _ _ He) as Hlt. split; [done|].
  destruct (first_idx_lookup p t Hlt) as (x & Hx & Hp). split; congruence.
Qed.
