(* ===== verification/FatRefine.v ===== *)
(** * fat32.c implements its specification

    Each call of fat32.c, run on any block device that satisfies
    [BlockDeviceSpec], returns the code and leaves the volume and the driver
    memory that [FatSpec] says. *)
From S2P Require Import Prelude CString BlockDevice FatLayout Fat32 FatFacts FatChain FatLoops FatSpec.

Lemma table_head t : table_ok t -> exists e, arr_get t 0 = Ret e /\ is_dir t = (attribute e =? ATTR_SUBDIRECTORY).
Proof.
  intros Ht. destruct (table_get t 0 Ht) as (e & ? & He & _); [lia|].
  exists e. split; [done|]. unfold is_dir. change (Z.to_nat 0) with 0%nat in He. by rewrite He.
Qed.

Lemma found_entry p t k :
  table_ok t -> k = Z.of_nat (first_idx p t) ->
  match lookup_first p t with
  | None => k = 64
  | Some e => k ≠ 64 /\ arr_get t k = Ret e /\ entry_ok e
  end.
Proof.
  intros Ht ->. pose proof (proj1 Ht) as Hlen. change ENTRY_COUNT with 64%nat in Hlen.
  destruct (lookup_first p t) as [e|] eqn:E.
  - apply lookup_first_Some in E as (Hlt & He & _). split_and!; [lia| |by eapply table_lookup_ok].
    apply arr_get_lookup; [lia|]. by rewrite Nat2Z.id.
  - apply lookup_first_None in E. lia.
Qed.

Lemma chain_fuel fat c l : chain fat c l -> (length l ≤ delete_fuel)%nat.
Proof.
  intros H. etrans; [by eapply chain_length|]. apply Nat.leb_le. by vm_compute.
Qed.

Section refine.
Context {D : Type} `{!BlockDevice D, !BlockDeviceSpec D}.
Implicit Types (s : fs D) (v : volume) (m : driver) (rq : FAT32DriverRequest).

Lemma read_directory_correct s v m rq :
  repr s v m -> request_ok rq -> in_map (parent_cluster_number rq) ->
  buffer_size rq ≤ Zlen (buf rq) ->
  (forall e, lookup_first (has_name (req_name rq)) (drop 2 (table_at v (parent_cluster_number rq))) = Some e ->
     attribute e = ATTR_SUBDIRECTORY -> in_map (entry_cluster e)) ->
  exists s', repr s' v m /\
    read_directory s rq = Ret (spec_read_directory v rq, s').
Proof.
  intros Hs [[Hn _] _ Hsz] Hp Hbuf Hback. unfold read_directory, spec_read_directory.
  destruct (Z.ltb_spec (buffer_size rq) CLUSTER_SIZE) as [|Hge]; [by exists s|].
  destruct (read_table_repr s v m _ Hs Hp) as (s1 & -> & Hs1 & Ht). rewrite bind_ret.
  destruct (table_head _ Ht) as (e0 & -> & ->). rewrite bind_ret.
  destruct (attribute e0 =? ATTR_SUBDIRECTORY); cbn [negb]; [|by exists s1].
  set (t := table_at v (parent_cluster_number rq)) in *.
  rewrite (scan_slots_eq (has_name (req_name rq)) _ t Ht).
  2: { intros i e Hi He Hok. rewrite He, bind_ret, same_name_eq by done. done. }
  rewrite bind_ret. pose proof (proj1 Ht) as Hlen. change ENTRY_COUNT with 64%nat in Hlen.
  destruct (lookup_first _ (drop 2 t)) as [e|] eqn:E.
  - pose proof E as E'. apply lookup_first_Some in E' as (Hlt & He & _).
    rewrite length_drop in Hlt. rewrite lookup_drop in He.
    rewrite (proj2 (Z.eqb_neq _ (Z.of_nat ENTRY_COUNT))) by (change ENTRY_COUNT with 64%nat; lia).
    rewrite (arr_get_lookup t _ e); [|lia|rewrite <- He; f_equal; lia]. rewrite bind_ret.
    destruct (Z.eqb_spec (attribute e) ATTR_SUBDIRECTORY) as [Ha|]; cbn [negb]; [|by exists s1].
    specialize (Hback e eq_refl Ha).
    destruct (read_clusters_repr s1 v m (entry_cluster e)) as (s2 & -> & Hs2); [done..|].
    rewrite bind_ret. unfold store_at.
    destruct (repr_block s v m (entry_cluster e) Hs) as [Hb _]; [done|].
    rewrite decide_True; [by exists s2|]. unfold CLUSTER_SIZE, BLOCK_SIZE, CLUSTER_BLOCK_COUNT, Zlen in *. lia.
  - apply lookup_first_None in E. rewrite length_drop in E. rewrite E.
    rewrite Hlen. by exists s1.
Qed.

Lemma read_correct s v m rq :
  repr s v m -> request_ok rq -> in_map (parent_cluster_number rq) ->
  (forall e, lookup_first (matches (req_name rq) (req_ext rq)) (table_at v (parent_cluster_number rq)) = Some e ->
     entry_backed (fat_table m) e /\
     (attribute e ≠ ATTR_SUBDIRECTORY -> filesize e ≤ buffer_size rq ->
      2048 * Zlen (chain_of (fat_table m) (entry_cluster e)) ≤ Zlen (buf rq))) ->
  exists s', repr s' v m /\
    read s rq = Ret (spec_read v (fat_table m) rq, s').
Proof.
  intros Hs [[Hn _] [Hx _] Hsz] Hp Hback. unfold read, spec_read.
  destruct (read_table_repr s v m _ Hs Hp) as (s1 & -> & Hs1 & Ht). rewrite bind_ret.
  destruct (table_head _ Ht) as (e0 & -> & ->). rewrite bind_ret.
  destruct (attribute e0 =? ATTR_SUBDIRECTORY); cbn [negb]; [|by exists s1].
  set (t := table_at v (parent_cluster_number rq)) in *.
  rewrite find_entry_eq by done. rewrite bind_ret.
  pose proof (found_entry (matches (req_name rq) (req_ext rq)) t _ Ht eq_refl) as Hfound.
  destruct (lookup_first _ t) as [e|] eqn:E.
  - destruct Hfound as (Hne & -> & Hok). rewrite (proj2 (Z.eqb_neq _ _)) by exact Hne.
    rewrite bind_ret. destruct (Hback e eq_refl) as [Hb Hlen].
    unfold entry_backed in Hb. destruct (Z.eqb_spec (attribute e) ATTR_SUBDIRECTORY) as [|Ha]; [by exists s1|].
    destruct (Z.ltb_spec (buffer_size rq) (filesize e)) as [|Hsize]; [by exists s1|].
    specialize (Hlen Ha Hsize).
    destruct Hb as [l Hl]. rewrite (chain_chain_of _ _ _ Hl) in *.
    destruct (read_chain_spec _ _ _ Hl s1 v m (buf rq) 0 (S (S (length (buf rq))))) as (s2 & -> & Hs2);
      [done|done|unfold Zlen in *; lia|unfold Zlen in *; lia|]. by exists s2.
  - rewrite Hfound. by exists s1.
Qed.

(** Sectors behind a folder entry: the two halves of a cluster number below
    512 are zero and the number itself. *)
Lemma cluster_low_in_map (e : FAT32DirectoryEntry) :
  entry_ok e -> in_map (entry_cluster e) -> cluster_low e = entry_cluster e.
Proof.
  intros [_ _ _ _ [Hh Hl] _] Hin. unfold entry_cluster, in_map, is_word in *.
  rewrite lor_shiftl_add in * by lia. revert Hin. unfold wrap.
  rewrite Z.mod_small by lia. nia.
Qed.

Lemma remove_entry_spec s v m rq (e : FAT32DirectoryEntry) (l : list Z) (c : Z) :
  let t := table_at v (parent_cluster_number rq) in
  let i := first_idx (matches (req_name rq) (req_ext rq)) t in
  fat_ok (fat_table m) -> table_ok t -> (i < 64)%nat -> in_map (parent_cluster_number rq) -> in_map c ->
  entry_clusters (fat_table m) e = l ++ [c] ->
  repr s (wipe v l) (set_fat m (clear (fat_table m) l)) ->
  exists s', remove_entry s rq t (Z.of_nat i) c = Ret (0, s') /\
    repr s' (spec_remove v m rq e).1 (spec_remove v m rq e).2.
Proof.
  intros t i Hfat Ht Hi Hp Hc Hl Hs. unfold remove_entry, spec_remove. rewrite Hl. fold t. fold i.
  assert (Hi' : 0 ≤ Z.of_nat i < Zlen t) by (unfold Zlen; destruct Ht as [-> _]; unfold ENTRY_COUNT; lia).
  rewrite arr_set_in, Nat2Z.id, bind_ret by exact Hi'.
  destruct (write_block_repr _ _ _ (replicate 2048 0) c Hs Hc zero_block) as (s1 & -> & Hs1). rewrite bind_ret.
  assert (Hd : drv s1 = set_fat m (clear (fat_table m) l)) by apply Hs1. rewrite Hd.
  rewrite cluster_map_set_in by (done || (cbn; rewrite length_clear; apply Hfat)). rewrite bind_ret.
  cbn [fat_table set_fat]. rewrite set_fat_set_fat, clear_app. cbn [clear]. rewrite wipe_snoc.
  set (fat := <[Z.to_nat c := _]> _). cbn zeta.
  assert (Hfat' : fat_ok fat).
  { unfold fat. change (fat_ok (clear (clear (fat_table m) l) [c])). by apply clear_ok, clear_ok. }
  destruct (write_block_repr (set_drv s1 (set_fat m fat)) _ (set_fat m fat)
    (enc_array (<[i := empty_entry]> t)) _ (repr_set_drv _ _ _ _ Hs1) Hp) as (s2 & -> & Hs2).
  { apply table_block, table_ok_insert; [done|apply empty_entry_ok]. }
  rewrite bind_ret. assert (Hd2 : drv s2 = set_fat m fat) by apply Hs2. rewrite Hd2, set_fat_fat.
  destruct (write_block_repr s2 _ _ (enc_array fat) FAT_CLUSTER_NUMBER Hs2) as (s3 & -> & Hs3);
    [done|by apply fat_block|]. by exists s3.
Qed.

Lemma Delete_correct s v m rq :
  repr s v m -> mounted m -> request_ok rq -> in_map (parent_cluster_number rq) ->
  (forall e, lookup_first (matches (req_name rq) (req_ext rq)) (table_at v (parent_cluster_number rq)) = Some e ->
     entry_backed (fat_table m) e) ->
  exists s', Delete s rq = Ret ((spec_delete v m rq).1, s') /\
    repr s' (spec_delete v m rq).2.1 (spec_delete v m rq).2.2.
Proof.
  intros Hs [[Hfat _ _ _] _] [[Hn _] [Hx _] Hsz] Hp Hback. unfold Delete, spec_delete.
  destruct (read_table_repr s v m _ Hs Hp) as (s1 & -> & Hs1 & Ht). rewrite bind_ret.
  destruct (table_head _ Ht) as (e0 & -> & ->). rewrite bind_ret.
  destruct (attribute e0 =? ATTR_SUBDIRECTORY); cbn [negb]; [|by exists s1].
  set (t := table_at v (parent_cluster_number rq)) in *.
  rewrite find_entry_eq by done. rewrite bind_ret.
  pose proof (found_entry (matches (req_name rq) (req_ext rq)) t _ Ht eq_refl) as Hfound.
  destruct (lookup_first _ t) as [e|] eqn:E; [|rewrite Hfound; by exists s1].
  destruct Hfound as (Hne & -> & Hok). rewrite (proj2 (Z.eqb_neq _ _)) by exact Hne.
  rewrite bind_ret. specialize (Hback e eq_refl).
  pose proof (proj1 Ht) as Hlen. change ENTRY_COUNT with 64%nat in Hlen.
  assert (Hi : (first_idx (matches (req_name rq) (req_ext rq)) t < 64)%nat)
    by (apply lookup_first_Some in E as [? _]; lia).
  unfold folder_empty. destruct (attribute e =? ATTR_SUBDIRECTORY) eqn:Ha.
  - unfold entry_backed in Hback. rewrite Ha in Hback. cbn [negb orb].
    rewrite cluster_low_in_map by done.
    destruct (read_table_repr s1 v m (entry_cluster e) Hs1 Hback) as (s2 & -> & Hs2 & Ht2). rewrite bind_ret.
    rewrite (scan_slots_eq (fun e => negb (free_slot e)) _ _ Ht2).
    2: { intros i e2 _ He2 _. rewrite He2, bind_ret. unfold free_slot. by rewrite negb_involutive. }
    rewrite bind_ret. pose proof (proj1 Ht2) as Hlen2. change ENTRY_COUNT with 64%nat in *.
    set (t2 := table_at v (entry_cluster e)) in *.
    pose proof (count_zero (fun e => negb (free_slot e)) (drop 2 t2)) as Hcz. rewrite length_drop, Hlen2 in Hcz.
    pose proof (first_idx_le (fun e => negb (free_slot e)) (drop 2 t2)) as Hle. rewrite length_drop, Hlen2 in Hle.
    destruct (Z.ltb_spec (2 + Z.of_nat (first_idx (fun e => negb (free_slot e)) (drop 2 t2))) (Z.of_nat 64)) as [Hlt|Hge].
    + rewrite bool_decide_false by lia. by exists s2.
    + rewrite bool_decide_true by lia.
      apply (remove_entry_spec s2 v m rq e []); [done..| |].
      * unfold entry_clusters. by rewrite Ha.
      * by rewrite set_fat_id.
  - unfold entry_backed in Hback. rewrite Ha in Hback. destruct Hback as [l Hl]. cbn [negb orb].
    destruct (delete_chain_spec _ _ _ Hl s1 v m delete_fuel) as (s2 & l' & Hl' & -> & Hs2);
      [done|apply Hfat|done|by eapply chain_fuel|].
    rewrite bind_ret. assert (Hc : in_map (last_from (entry_cluster e) (tail l))).
    { eapply Forall_forall; [exact (chain_in_map _ _ _ Hl)|]. rewrite Hl' at 2.
      apply elem_of_app. right. by apply list_elem_of_singleton. }
    assert (Hcs : entry_clusters (fat_table m) e = l' ++ [last_from (entry_cluster e) (tail l)]).
    { unfold entry_clusters. rewrite Ha, (chain_chain_of _ _ _ Hl). exact Hl'. }
    exact (remove_entry_spec s2 v m rq e l' _ Hfat Ht Hi Hp Hc Hcs Hs2).
Qed.
End refine.
