(* ===== verification/FatWrite.v ===== *)
(** * [write] implements its specification *)
From S2P Require Import Prelude CString BlockDevice FatLayout Fat32 FatFacts FatChain FatLoops FatSpec FatRefine.

Lemma first_free_mounted m :
  mounted m -> free_clusters (fat_table m) ≠ 0 ->
  3 ≤ first_free (fat_table m) < 512 /\ (fat_table m).[first_free (fat_table m)] = Some 0 /\
  free_clusters (fat_table m) = 1 + Z.of_nat (count is_free (drop (Z.to_nat (first_free (fat_table m) + 1)) (fat_table m))).
Proof.
  intros [[[Hlen _] _ _ _] Hres] Hne. unfold free_clusters, first_free in *.
  set (fat := fat_table m) in *.
  destruct (Hres 0) as (x0 & H0 & N0); [lia|]. destruct (Hres 1) as (x1 & H1 & N1); [lia|].
  destruct (Hres 2) as (x2 & H2 & N2); [lia|].
  destruct fat as [|y0 [|y1 [|y2 fat']]]; try done. simpl in H0, H1, H2. simplify_eq.
  assert (Hf : forall x, x ≠ FAT32_FAT_EMPTY_ENTRY -> is_free x = false) by (intros x ?; by apply Z.eqb_neq).
  change (drop 3 (x0 :: x1 :: x2 :: fat')) with fat' in *.
  assert (Hi : first_idx is_free (x0 :: x1 :: x2 :: fat') = (3 + first_idx is_free fat')%nat).
  { cbn [first_idx]. rewrite !Hf by done. done. }
  rewrite Hi. assert (Hpos : (0 < count is_free fat')%nat) by lia.
  pose proof Hpos as Hlt. apply count_pos in Hlt. pose proof Hlt as Hlt'.
  apply first_idx_lookup in Hlt as (x & Hx & Hfree). cbn [length] in Hlen.
  split; [lia|]. split.
  - rewrite Nat2Z.id. change (fat' !! first_idx is_free fat' = Some 0). rewrite Hx. f_equal.
    by apply Z.eqb_eq in Hfree.
  - replace (Z.to_nat (Z.of_nat (3 + first_idx is_free fat') + 1)) with (3 + S (first_idx is_free fat'))%nat by lia.
    rewrite <- drop_drop. change (drop 3 (x0 :: x1 :: x2 :: fat')) with fat'.
    rewrite count_drop_first. lia.
Qed.

Lemma find_empty_cluster_free m :
  mounted m -> free_clusters (fat_table m) ≠ 0 ->
  find_empty_cluster (fat_table m) = Ret (first_free (fat_table m)) /\ first_free (fat_table m) ≠ NO_CLUSTER.
Proof.
  intros Hm Hne. destruct (first_free_mounted m Hm Hne) as [H _].
  rewrite find_empty_cluster_eq by apply Hm. unfold first_free, NO_CLUSTER in *.
  rewrite decide_True by lia. split; [done|lia].
Qed.

Lemma find_empty_cluster_full m :
  mounted m -> free_clusters (fat_table m) = 0 -> find_empty_cluster (fat_table m) = Ret NO_CLUSTER.
Proof.
  intros [[[Hlen _] _ _ _] Hres] H0. rewrite find_empty_cluster_eq by done.
  rewrite decide_False; [done|]. intros Hlt. rewrite <- Hlen in Hlt.
  apply count_pos in Hlt. unfold free_clusters in H0.
  rewrite <- (take_drop 3 (fat_table m)), count_app in Hlt.
  assert (count is_free (take 3 (fat_table m)) = 0%nat) as H3; [|lia].
  apply count_zero, first_idx_forall, Forall_forall. intros x Hx.
  apply list_elem_of_lookup in Hx as [i Hi]. apply lookup_take_Some in Hi as [Hi Hi3].
  destruct (Hres (Z.of_nat i)) as (y & Hy & Hne); [lia|]. rewrite Nat2Z.id in Hy. simplify_eq.
  by apply Z.eqb_neq.
Qed.

Lemma add_entry_eq t rq attr c (e : FAT32DirectoryEntry) :
  t !! new_slot t = Some e ->
  add_entry t rq attr c = <[new_slot t := new_entry e (req_name rq) (req_ext rq) attr c (buffer_size rq)]> t.
Proof. intros He. unfold add_entry. apply list_eq. intros i. destruct (decide (i = new_slot t)) as [->|Hne].
  - rewrite list_lookup_alter_eq, He. simpl. symmetry. apply list_lookup_insert_eq. by eapply lookup_lt_Some.
  - by rewrite list_lookup_alter_ne, list_lookup_insert_ne by done.
Qed.

Lemma add_entry_ok t rq attr c :
  table_ok t -> (new_slot t < 64)%nat -> request_ok rq -> is_byte attr -> table_ok (add_entry t rq attr c).
Proof.
  intros Ht Hs [[? ?] [? ?] ?] Ha. destruct (new_slot_lookup t Ht Hs) as (e & He & Hok).
  erewrite add_entry_eq by done. apply table_ok_insert; [done|]. by apply new_entry_ok.
Qed.

Lemma no_ext_ok : length (take 3 no_ext) = 3%nat /\ bytes_ok (take 3 no_ext).
Proof. split; [done|]. apply (bool_decide_unpack _). by vm_compute. Qed.

Lemma root_name_ok : length (take 8 root_literal) = 8%nat /\ bytes_ok (take 8 root_literal).
Proof. split; [done|]. apply (bool_decide_unpack _). by vm_compute. Qed.

Section write.
Context {D : Type} `{!BlockDevice D, !BlockDeviceSpec D}.
Implicit Types (s : fs D) (v : volume) (m : driver) (rq : FAT32DriverRequest).

Lemma new_directory_ok nm c p :
  length nm = 8%nat -> bytes_ok nm -> table_ok (new_directory nm c p).
Proof.
  intros Hn Hb. destruct root_name_ok, no_ext_ok.
  unfold new_directory. split; [done|].
  apply Forall_cons; split; [|apply Forall_cons; split; [|apply Forall_replicate, empty_entry_ok]].
  - by apply new_entry_ok; [apply empty_entry_ok|..].
  - by apply new_entry_ok; [apply empty_entry_ok|..].
Qed.

Lemma folder_driver_ok v m rq : mounted m -> request_ok rq -> driver_ok (spec_write_folder v m rq).2.
Proof.
  intros Hm [[? ?] _ _]. destruct (mnt_ok _ Hm) as [Hfat Hdir Hbuf Hsig].
  unfold spec_write_folder. cbn [snd]. split; cbn [fat_table dir_table_buf cluster_buf after_signature]; try done.
  - apply link_ok; [done|constructor].
  - by apply new_directory_ok.
Qed.

Lemma init_directory_table_spec s v m nm :
  repr s v m -> mounted m -> free_clusters (fat_table m) ≠ 0 -> (8 ≤ length nm)%nat ->
  init_directory_table s nm ROOT_CLUSTER_NUMBER =
    Ret (new_directory (take 8 nm) (first_free (fat_table m)) ROOT_CLUSTER_NUMBER, s).
Proof.
  intros Hs Hm Hfree Hn. unfold init_directory_table.
  assert (Hd : drv s = m) by apply Hs. rewrite Hd.
  destruct (find_empty_cluster_free m Hm Hfree) as [-> Hne]. rewrite bind_ret.
  rewrite (proj2 (Z.eqb_neq _ _) Hne).
  rewrite init_directory_entry_eq by (done || apply empty_entry_ok || (vm_compute; lia)). rewrite bind_ret.
  rewrite Z.eqb_refl, bind_ret.
  rewrite init_directory_entry_eq by (apply empty_entry_ok || (vm_compute; lia)). by rewrite bind_ret.
Qed.

(** The literal has room for one byte. *)
Lemma literal_overrun c : (8 ≤ length c)%nat -> CString.memcpy empty_literal c 8 = Ub.
Proof. by destruct c as [|x [|y c]]; simpl; [lia|lia|]. Qed.

Lemma init_directory_table_overrun s v m nm p :
  repr s v m -> mounted m -> free_clusters (fat_table m) ≠ 0 -> (8 ≤ length nm)%nat -> in_map p ->
  p ≠ ROOT_CLUSTER_NUMBER -> init_directory_table s nm p = Ub.
Proof.
  intros Hs Hm Hfree Hn Hp Hroot. unfold init_directory_table.
  assert (Hd : drv s = m) by apply Hs. rewrite Hd.
  destruct (find_empty_cluster_free m Hm Hfree) as [-> Hne]. rewrite bind_ret.
  rewrite (proj2 (Z.eqb_neq _ _) Hne).
  rewrite init_directory_entry_eq by (done || apply empty_entry_ok || (vm_compute; lia)). rewrite bind_ret.
  rewrite (proj2 (Z.eqb_neq _ _) Hroot).
  destruct (read_clusters_repr s v m p Hs Hp) as (s1 & -> & Hs1). rewrite bind_ret.
  destruct (repr_block s v m p Hs Hp) as [Hl _]. by rewrite literal_overrun by lia.
Qed.

Lemma slot_entry_spec t rq attr c :
  table_ok t -> request_ok rq -> (new_slot t < 64)%nat ->
  exists e, arr_get t (Z.of_nat (new_slot t)) = Ret e /\
    init_directory_entry e (req_name rq) (req_ext rq) attr c (buffer_size rq) =
      Ret (new_entry e (req_name rq) (req_ext rq) attr c (buffer_size rq)) /\
    arr_set t (Z.of_nat (new_slot t)) (new_entry e (req_name rq) (req_ext rq) attr c (buffer_size rq)) =
      Ret (add_entry t rq attr c).
Proof.
  intros Ht [[Hn _] [Hx _] _] Hs. destruct (new_slot_lookup t Ht Hs) as (e & He & Hok).
  exists e. split_and!.
  - apply arr_get_lookup; [lia|]. by rewrite Nat2Z.id.
  - rewrite init_directory_entry_eq by (done || lia). by rewrite !take_ge by lia.
  - rewrite arr_set_in; [|unfold Zlen; destruct Ht as [-> _]; unfold ENTRY_COUNT; lia].
    rewrite Nat2Z.id. by erewrite add_entry_eq.
Qed.

Lemma write_folder_spec s v m rq :
  let t := table_at v (parent_cluster_number rq) in
  repr s v m -> mounted m -> request_ok rq -> parent_cluster_number rq = ROOT_CLUSTER_NUMBER -> table_ok t ->
  (new_slot t < 64)%nat -> free_clusters (fat_table m) ≠ 0 ->
  exists s', write_folder s rq t (Z.of_nat (new_slot t)) = Ret (0, s') /\
    repr s' (spec_write_folder v m rq).1 (spec_write_folder v m rq).2.
Proof.
  intros t Hs Hm Hrq Hroot Ht Hslot Hfree. unfold write_folder, spec_write_folder. fold t.
  assert (Hd : drv s = m) by apply Hs. rewrite Hd.
  destruct (find_empty_cluster_free m Hm Hfree) as [-> Hne]. rewrite bind_ret.
  rewrite (proj2 (Z.eqb_neq _ _) Hne). destruct (first_free_mounted m Hm Hfree) as [Hc _].
  set (c := first_free (fat_table m)) in *.
  assert (Hcm : in_map c) by (unfold in_map; lia).
  assert (Hp : in_map (parent_cluster_number rq)) by (rewrite Hroot; done).
  set (p := parent_cluster_number rq) in *.
  assert (Hi : init_directory_table s (req_name rq) p = Ret (new_directory (take 8 (req_name rq)) c p, s)).
  { rewrite Hroot. apply init_directory_table_spec with (v := v) (m := m); try done. destruct Hrq as [[-> _] _ _]. lia. }
  rewrite Hi, bind_ret.
  assert (Hname : take 8 (req_name rq) = req_name rq) by (apply take_ge; destruct Hrq as [[-> _] _ _]; lia).
  rewrite Hname. set (d := new_directory (req_name rq) c p).
  assert (Hdok : table_ok d) by (apply new_directory_ok; apply Hrq).
  destruct (slot_entry_spec t rq ATTR_SUBDIRECTORY c Ht Hrq Hslot) as (e & -> & He & Hset).
  rewrite bind_ret. cbn zeta. rewrite He, bind_ret, Hset, bind_ret.
  rewrite Hd. cbn [drv set_drv].
  rewrite cluster_map_set_in by (done || apply Hm). rewrite bind_ret.
  cbn [fat_table set_fat set_dir_table_buf dir_table_buf cluster_buf after_signature].
  change (<[Z.to_nat c := FAT32_FAT_END_OF_FILE]> (fat_table m)) with (link (fat_table m) c []).
  set (fat := link (fat_table m) c []). set (m' := MkDriver fat d _ _).
  assert (Hfat : fat_ok fat) by (apply link_ok; [apply Hm|constructor]).
  destruct (write_block_repr (set_drv s m') v m' (enc_array fat) FAT_CLUSTER_NUMBER) as (s2 & Hw2 & Hs2);
    [by eapply repr_set_drv|done|by apply fat_block|].
  change (set_drv (set_drv s (set_dir_table_buf m d)) (set_fat (set_dir_table_buf m d) fat)) with (set_drv s m').
  rewrite Hw2, bind_ret.
  assert (Hd2 : drv s2 = m') by apply Hs2. rewrite Hd2. cbn [dir_table_buf m'].
  destruct (write_block_repr s2 _ m' (enc_array d) c Hs2 Hcm (table_block _ Hdok)) as (s3 & -> & Hs3). rewrite bind_ret.
  destruct (write_block_repr s3 _ m' (enc_array (add_entry t rq ATTR_SUBDIRECTORY c)) p Hs3 Hp) as (s4 & -> & Hs4).
  { apply table_block, add_entry_ok; done. }
  rewrite bind_ret. by exists s4.
Qed.

Lemma write_folder_overrun s v m rq t k :
  repr s v m -> mounted m -> request_ok rq -> in_map (parent_cluster_number rq) ->
  parent_cluster_number rq ≠ ROOT_CLUSTER_NUMBER -> free_clusters (fat_table m) ≠ 0 ->
  write_folder s rq t k = Ub.
Proof.
  intros Hs Hm [[Hn _] _ _] Hp Hroot Hfree. unfold write_folder.
  assert (Hd : drv s = m) by apply Hs. rewrite Hd.
  destruct (find_empty_cluster_free m Hm Hfree) as [-> Hne]. rewrite bind_ret, (proj2 (Z.eqb_neq _ _) Hne).
  by rewrite (init_directory_table_overrun s v m) by (done || lia).
Qed.

Lemma number_of_partition_pos size : 0 < size -> 1 ≤ number_of_partition size.
Proof.
  intros Hs. unfold number_of_partition. change CLUSTER_SIZE with 2048.
  pose proof (Z.div_mod size 2048). pose proof (Z.mod_pos_bound size 2048).
  destruct (Z.ltb_spec 0 (size mod 2048)); lia.
Qed.

(** The clusters of the data, linked from [c] on, the last one with the
    end-of-file mark, and then the table itself. *)
Lemma write_data_spec s v m data c n :
  repr s v m -> length (fat_table m) = 512%nat -> fat_ok (fat_table m) -> in_map c ->
  (n ≤ count is_free (drop (Z.to_nat (c + 1)) (fat_table m)))%nat ->
  (2048 * S n ≤ length data)%nat -> bytes_ok data ->
  let l := alloc_after (fat_table m) n c in let fat := link (fat_table m) c l in
  exists s', ('(last, p, s) ← write_partitions n s data c 0;
      m ← cluster_map_set (drv s) last FAT32_FAT_END_OF_FILE;
      s ← write_clusters (set_drv s m) (drop (Z.to_nat (CLUSTER_SIZE * p)) data) last 1;
      s ← write_clusters s (enc_array (fat_table (drv s))) FAT_CLUSTER_NUMBER 1;
      Ret (0, s)) = Ret (0, s') /\
    repr s' (<[Z.to_nat FAT_CLUSTER_NUMBER := enc_array fat]> (put_data v (c :: l) data)) (set_fat m fat).
Proof.
  intros Hs1 Hlen Hfat Hcm Hn Hbuf Hbytes l fat.
  destruct (write_partitions_spec n s v m data c 0 Hs1) as (s2 & -> & Hs2); [done|done|lia|done|lia|done|].
  rewrite bind_ret. fold l in Hs2 |- *.
  assert (Hl : Forall in_map (c :: l)).
  { apply Forall_cons. split; [done|]. destruct Hcm. destruct (alloc_after_spec (fat_table m) n Hlen c) as [HF _]; [lia..|].
    eapply Forall_impl; [exact HF|]. intros x [? _]. unfold in_map. lia. }
  assert (Hlast : in_map (last_from c l)).
  { eapply Forall_forall; [exact Hl|]. rewrite (chain_split_last c l). apply elem_of_app. right. by apply list_elem_of_singleton. }
  assert (Hd2 : drv s2 = set_fat m (link_path (fat_table m) c l)) by apply Hs2. rewrite Hd2.
  rewrite cluster_map_set_in by (done || (cbn; by rewrite length_link_path)). rewrite bind_ret.
  cbn [fat_table set_fat]. rewrite set_fat_set_fat. fold (link (fat_table m) c l). fold fat.
  assert (Hll : length l = n) by apply length_alloc_after.
  destruct (write_clusters_repr (set_drv s2 (set_fat m fat)) _ (set_fat m fat)
    (drop (Z.to_nat (CLUSTER_SIZE * (0 + Z.of_nat n))) data) (last_from c l)
    (repr_set_drv _ _ _ _ Hs2) Hlast) as (s3 & -> & Hs3).
  { rewrite length_drop. unfold CLUSTER_SIZE, BLOCK_SIZE, CLUSTER_BLOCK_COUNT in *. lia. }
  { by apply Forall_drop. }
  rewrite bind_ret. assert (Hd3 : drv s3 = set_fat m fat) by apply Hs3. rewrite Hd3, set_fat_fat.
  rewrite Nat.mul_0_r, drop_0 in Hs3. rewrite <- Hll in Hs3 at 2.
  replace (Z.to_nat (CLUSTER_SIZE * (0 + Z.of_nat n))) with (2048 * length (take (length l) (c :: l)))%nat in Hs3
    by (rewrite length_take; cbn [length]; rewrite Hll; unfold CLUSTER_SIZE, BLOCK_SIZE, CLUSTER_BLOCK_COUNT; lia).
  rewrite <- put_data_snoc, <- chain_split_last in Hs3.
  destruct (write_block_repr s3 _ _ (enc_array fat) FAT_CLUSTER_NUMBER Hs3) as (s4 & -> & Hs4);
    [done|apply fat_block, link_ok; [done|by apply Forall_cons in Hl as [_ ?]]|].
  rewrite bind_ret. by exists s4.
Qed.

Lemma write_file_spec s v m rq :
  let t := table_at v (parent_cluster_number rq) in
  repr s v m -> mounted m -> write_args_ok m rq -> table_ok t -> (new_slot t < 64)%nat -> buffer_size rq ≠ 0 ->
  number_of_partition (buffer_size rq) ≤ free_clusters (fat_table m) ->
  exists s', write_file s rq t (Z.of_nat (new_slot t)) = Ret (0, s') /\
    repr s' (spec_write_file v m rq).1 (spec_write_file v m rq).2.
Proof.
  intros t Hs Hm [Hrq Hp Hbuf Hbytes _] Ht Hslot Hsz Hfits. unfold write_file, spec_write_file. fold t.
  assert (Hpos : 1 ≤ number_of_partition (buffer_size rq)).
  { apply number_of_partition_pos. destruct Hrq as [_ _ Hw]. unfold is_word in Hw. lia. }
  set (parts := number_of_partition (buffer_size rq)) in *. set (p := parent_cluster_number rq) in *.
  assert (Hd : drv s = m) by apply Hs. rewrite Hd.
  unfold enough_empty_cluster. rewrite enough_loop_spec by (apply Hm || lia). rewrite !bind_ret.
  change (Z.to_nat (2 + 1)) with 3%nat. fold (free_clusters (fat_table m)).
  rewrite (proj2 (Z.eqb_eq _ parts)) by (case_decide; [|destruct (is_free _)]; lia). cbn [negb].
  assert (Hfree : free_clusters (fat_table m) ≠ 0) by lia.
  destruct (find_empty_cluster_free m Hm Hfree) as [-> Hne]. rewrite bind_ret.
  rewrite (proj2 (Z.eqb_neq _ _) Hne). destruct (first_free_mounted m Hm Hfree) as (Hc & _ & Hcount).
  set (c := first_free (fat_table m)) in *. assert (Hcm : in_map c) by (unfold in_map; lia).
  destruct (slot_entry_spec t rq 0 c Ht Hrq Hslot) as (e & -> & He & Hset).
  rewrite bind_ret, He, bind_ret, Hset, bind_ret.
  destruct (write_block_repr s v m (enc_array (add_entry t rq 0 c)) p Hs Hp) as (s1 & -> & Hs1).
  { apply table_block, add_entry_ok; done. }
  rewrite bind_ret. pose proof (mnt_ok m Hm) as [Hfat _ _ _].
  destruct (write_data_spec s1 _ m (buf rq) c (Z.to_nat (parts - 1)) Hs1) as (s4 & -> & Hs4); try done; [apply Hfat|lia| |by exists s4].
  unfold Zlen, CLUSTER_SIZE, BLOCK_SIZE, CLUSTER_BLOCK_COUNT in *. lia.
Qed.

(** Too few free clusters: the count is exact unless the word after the map
    is zero and just one cluster is missing. *)
Lemma write_file_full s v m rq t k :
  repr s v m -> mounted m -> write_args_ok m rq -> buffer_size rq ≠ 0 ->
  free_clusters (fat_table m) < number_of_partition (buffer_size rq) ->
  write_file s rq t k = Ret (-1, s).
Proof.
  intros Hs Hm [Hrq _ _ _ Hcount] Hsz Hlt. unfold write_file.
  assert (Hd : drv s = m) by apply Hs. rewrite Hd.
  unfold enough_empty_cluster. rewrite enough_loop_spec.
  2: { apply Hm. } 2: { unfold free_clusters in Hlt. lia. } 2: { done. } 2: { done. }
  rewrite !bind_ret. change (Z.to_nat (2 + 1)) with 3%nat. fold (free_clusters (fat_table m)).
  rewrite (proj2 (Z.eqb_neq _ _)); [done|]. rewrite decide_False by done.
  destruct (is_free (word_after_map m)) eqn:Hw; [specialize (Hcount eq_refl)|]; lia.
Qed.

Lemma write_folder_full s v m rq t k :
  repr s v m -> mounted m -> free_clusters (fat_table m) = 0 -> write_folder s rq t k = Ret (-1, s).
Proof.
  intros Hs Hm H0. unfold write_folder. assert (Hd : drv s = m) by apply Hs. rewrite Hd.
  by rewrite find_empty_cluster_full.
Qed.

Lemma refused_code (b : bool) (code : Z) (P Q : Prop) : code ≠ 0 -> Q -> if b && (code =? 0) then P else Q.
Proof. intros H HQ. by rewrite (proj2 (Z.eqb_neq _ _) H), andb_false_r. Qed.

Lemma write_outcome s v m rq :
  repr s v m -> mounted m -> write_args_ok m rq ->
  if overruns_literal v m rq then write s rq = Ub
  else exists s', write s rq = Ret ((spec_write v m rq).1, s') /\
    repr s' (spec_write v m rq).2.1 (spec_write v m rq).2.2.
Proof.
  intros Hs Hm Hargs. unfold overruns_literal. pose proof (wa_request _ _ Hargs) as Hrq. pose proof (wa_parent _ _ Hargs) as Hp.
  unfold write, spec_write.
  destruct (read_table_repr s v m _ Hs Hp) as (s1 & -> & Hs1 & Ht). rewrite bind_ret.
  destruct (table_head _ Ht) as (e0 & -> & ->). rewrite bind_ret.
  destruct (attribute e0 =? ATTR_SUBDIRECTORY); cbn [negb]; [|by apply refused_code; [|exists s1]].
  set (attr := if buffer_size rq =? 0 then ATTR_SUBDIRECTORY else 0).
  set (t := table_at v (parent_cluster_number rq)) in *.
  pose proof (proj1 Ht) as Hlen. change ENTRY_COUNT with 64%nat in Hlen.
  destruct (write_scan_spec t (req_name rq) (req_ext rq) attr Ht (proj1 (rq_name _ Hrq)) (proj1 (rq_ext _ Hrq))
    62 2 false NO_CLUSTER 0) as (e' & n' & -> & Hscan); [lia|lia|]. rewrite bind_ret.
  change (Z.to_nat 2) with 2%nat in *. set (d := duplicate (req_name rq) (req_ext rq) attr) in *.
  assert (Hld : length (drop 2 t) = 62%nat) by (rewrite length_drop; lia).
  destruct (lookup_first d (drop 2 t)) as [e|] eqn:E.
  { apply lookup_first_Some in E as (Hlt & _). rewrite Hld in Hlt.
    rewrite (proj2 (Z.ltb_lt _ _)) by (change ENTRY_COUNT with 64%nat; lia). by apply refused_code; [|exists s1]. }
  apply lookup_first_None in E. rewrite Hld in E. destruct (Hscan E) as (Hn' & Hz & ->). rewrite E.
  change (2 + Z.of_nat 62 <? Z.of_nat ENTRY_COUNT) with false. cbv iota.
  assert (Hcz : count free_slot (drop 2 t) = 0%nat <-> n' = 0).
  { rewrite count_zero, Hld. symmetry. apply Hz. }
  destruct (decide (count free_slot (drop 2 t) = 0%nat)) as [Hc|Hc].
  { rewrite (proj2 (Z.eqb_eq n' 0)) by tauto. by apply refused_code; [|exists s1]. }
  rewrite (proj2 (Z.eqb_neq n' 0)) by tauto.
  assert (Hslot : (first_idx free_slot (drop 2 t) < 62)%nat) by (rewrite <- Hld; apply count_pos; lia).
  rewrite decide_True by exact Hslot.
  replace (2 + Z.of_nat (first_idx free_slot (drop 2 t))) with (Z.of_nat (new_slot t)) by (unfold new_slot; lia).
  assert (Hns : (new_slot t < 64)%nat) by (unfold new_slot; lia).
  destruct (Z.eqb_spec (buffer_size rq) 0) as [Hsz|Hsz].
  - destruct (Z.eqb_spec (free_clusters (fat_table m)) 0) as [Hf|Hf].
    + rewrite (write_folder_full s1 v m) by done. by apply refused_code; [|exists s1].
    + cbn [fst]. rewrite Z.eqb_refl, andb_true_r.
      destruct (Z.eqb_spec (parent_cluster_number rq) ROOT_CLUSTER_NUMBER) as [Hr|Hr]; cbn [negb andb].
      * by apply write_folder_spec.
      * by apply (write_folder_overrun s1 v m).
  - destruct (Z.ltb_spec (free_clusters (fat_table m)) (number_of_partition (buffer_size rq))) as [Hf|Hf].
    + rewrite (write_file_full s1 v m) by done. by apply refused_code; [|exists s1].
    + by apply write_file_spec.
Qed.

Lemma write_correct s v m rq :
  repr s v m -> mounted m -> write_args_ok m rq -> overruns_literal v m rq = false ->
  exists s', write s rq = Ret ((spec_write v m rq).1, s') /\
    repr s' (spec_write v m rq).2.1 (spec_write v m rq).2.2.
Proof. intros Hs Hm Hargs Hl. pose proof (write_outcome s v m rq Hs Hm Hargs) as H. by rewrite Hl in H. Qed.
End write.

Lemma file_no_overrun v m rq : buffer_size rq ≠ 0 -> overruns_literal v m rq = false.
Proof. intros H. unfold overruns_literal. by rewrite (proj2 (Z.eqb_neq _ _) H). Qed.

Lemma root_no_overrun v m rq : parent_cluster_number rq = ROOT_CLUSTER_NUMBER -> overruns_literal v m rq = false.
Proof. intros H. unfold overruns_literal. by rewrite H, Z.eqb_refl, andb_false_r. Qed.

