(* ===== verification/FatMount.v ===== *)
(** * Formatting and mounting

    [initialize_filesystem_fat32]: a disk without the signature is formatted,
    a disk with it has its allocation table loaded. *)
From S2P Require Import Prelude CString BlockDevice FatLayout Fat32 FatFacts FatChain FatLoops FatSpec FatRefine FatWrite.

(** The signature as it is compared: the first sector of the boot cluster. *)
Definition formatted (v : volume) : Prop := take 512 (vol_get v BOOT_SECTOR) = fs_signature.

(** The table on the disk is the table in memory. *)
Definition synced (v : volume) (m : driver) : Prop :=
  vol_get v FAT_CLUSTER_NUMBER = enc_array (fat_table m).

Definition formatted_fat : list Z := <[2%nat := FAT32_FAT_END_OF_FILE]> fresh_fat.
Definition root_directory : list FAT32DirectoryEntry :=
  new_directory (take 8 root_literal) 2 ROOT_CLUSTER_NUMBER.

(** Specification of [create_fat32]. *)
Definition spec_create (v : volume) (m : driver) : volume * driver :=
  (<[Z.to_nat ROOT_CLUSTER_NUMBER := enc_array root_directory]>
     (<[Z.to_nat FAT_CLUSTER_NUMBER := enc_array formatted_fat]>
        (<[Z.to_nat BOOT_SECTOR := take 2048 (fs_signature ++ after_signature m)]> v)),
   set_dir_table_buf (set_fat m formatted_fat) root_directory).

Lemma length_signature : length fs_signature = 512%nat.
Proof. by vm_compute. Qed.

Lemma signature_bytes : bytes_ok fs_signature.
Proof. apply (bool_decide_unpack _). by vm_compute. Qed.

Lemma formatted_fat_ok : fat_ok formatted_fat.
Proof. split; [by vm_compute|]. apply (bool_decide_unpack _). by vm_compute. Qed.

Lemma find_empty_fresh : find_empty_cluster fresh_fat = Ret 2.
Proof. by vm_compute. Qed.

Lemma root_directory_ok : table_ok root_directory.
Proof.
  split; [done|]. destruct root_name_ok, no_ext_ok. unfold root_directory, new_directory.
  apply Forall_cons; split; [|apply Forall_cons; split; [|apply Forall_replicate, empty_entry_ok]].
  - by apply new_entry_ok; [apply empty_entry_ok|..].
  - by apply new_entry_ok; [apply empty_entry_ok|..].
Qed.

Section mount.
Context {D : Type} `{!BlockDevice D, !BlockDeviceSpec D}.
Implicit Types (s : fs D) (v : volume) (m : driver).

Lemma create_fat32_spec s v m :
  repr s v m -> driver_ok m ->
  exists s', create_fat32 s = Ret s' /\ repr s' (spec_create v m).1 (spec_create v m).2.
Proof.
  intros Hs [Hfat Hdir Hbuf [Hsl Hsb]]. unfold create_fat32, spec_create.
  unfold init_directory_table. assert (Hd : drv s = m) by apply Hs.
  cbn [drv set_drv fat_table set_fat]. rewrite find_empty_fresh, bind_ret.
  change (2 =? NO_CLUSTER) with false. cbv iota.
  rewrite init_directory_entry_eq by (apply empty_entry_ok || (vm_compute; lia)). rewrite bind_ret.
  change (ROOT_CLUSTER_NUMBER =? ROOT_CLUSTER_NUMBER) with true. cbv iota. rewrite bind_ret.
  rewrite init_directory_entry_eq by (apply empty_entry_ok || (vm_compute; lia)). rewrite !bind_ret.
  cbn zeta. rewrite Hd. cbn [drv set_drv]. rewrite set_fat_set_fat. fold formatted_fat.
  set (root := <[0%nat := _]> _).
  assert (Hroot : root = root_directory) by (by vm_compute). rewrite Hroot. clear root Hroot.
  set (m' := set_dir_table_buf (set_fat m formatted_fat) root_directory).
  change (after_signature m') with (after_signature m).
  change (set_drv (set_drv s _) m') with (set_drv s m').
  destruct (write_clusters_repr (set_drv s m') v m' (fs_signature ++ after_signature m) BOOT_SECTOR) as (s1 & -> & Hs1);
    [by eapply repr_set_drv|done|rewrite length_app, length_signature; lia
    |apply Forall_app; split; [apply signature_bytes|done]|]. rewrite bind_ret.
  destruct (write_block_repr s1 _ m' (enc_array formatted_fat) FAT_CLUSTER_NUMBER Hs1) as (s2 & -> & Hs2);
    [done|apply fat_block, formatted_fat_ok|]. rewrite bind_ret.
  destruct (write_block_repr s2 _ m' (enc_array root_directory) ROOT_CLUSTER_NUMBER Hs2) as (s3 & -> & Hs3);
    [done|apply table_block, root_directory_ok|]. by exists s3.
Qed.

Lemma is_empty_storage_spec s v m :
  repr s v m -> exists s', repr s' v m /\
    is_empty_storage s = Ret (negb (bool_decide (formatted v)), s').
Proof.
  intros ([Hok Hn] & <- & <-). unfold is_empty_storage.
  destruct (read_blocks_spec (dev s) BOOT_SECTOR 1) as (d & -> & Hok' & Hn' & Hsec); [done|unfold BOOT_SECTOR; lia..|].
  rewrite bind_ret. change (seqZ BOOT_SECTOR 1) with [0]. cbn [fmap list_fmap concat]. rewrite app_nil_r.
  destruct (sector_ok (dev s) 0 Hok) as [Hl _]; [lia|].
  assert (Hvol : take 512 (vol_get (vol s) BOOT_SECTOR) = sector (dev s) 0).
  { rewrite vol_get_vol by done. unfold cluster. rewrite seqZ_4. cbn [fmap list_fmap concat].
    change (4 * BOOT_SECTOR) with 0. rewrite take_app_le by lia. by rewrite take_ge by lia. }
  exists (set_dev s d). split.
  - split_and!; [split; simpl; [done|lia]| |done]. apply vol_ext. intros c Hc. unfold in_map in Hc.
    unfold cluster. rewrite !seqZ_4. cbn [fmap list_fmap]. simpl dev. by rewrite !Hsec by lia.
  - unfold formatted. rewrite Hvol.
    pose proof (CString.memcmp_eqb (sector (dev s) 0) fs_signature 512) as Hcmp.
    rewrite length_signature in Hcmp. rewrite Hl in Hcmp. specialize (Hcmp ltac:(lia) ltac:(lia)).
    rewrite (take_ge (sector _ _)) in Hcmp by lia.
    rewrite (take_ge fs_signature) in Hcmp by (rewrite length_signature; lia).
    apply bind_Ret_inv in Hcmp as (r & -> & Hr). rewrite bind_ret. by injection Hr as ->.
Qed.
End mount.

(** ** The state after mounting *)

Lemma enc_fat_dec b : block_ok b -> enc_array (dec_array 512 b : list Z) = b.
Proof. intros [Hl Hb]. by apply (enc_dec_array (A := Z)). Qed.

Lemma dec_fat_ok b : block_ok b -> fat_ok (dec_array 512 b).
Proof.
  intros [Hl Hb]. split; [apply length_dec_array|]. exact (dec_array_wf (A := Z) 512 b Hl Hb).
Qed.

Lemma dec_enc_fat fat : fat_ok fat -> dec_array 512 (enc_array fat) = fat.
Proof. intros [Hl Hf]. by apply (dec_enc_array (A := Z)). Qed.

Lemma dec_enc_table t : table_ok t -> dec_array ENTRY_COUNT (enc_array t) = t.
Proof. intros [Hl Ht]. by apply (dec_enc_array (A := FAT32DirectoryEntry)). Qed.

Lemma driver_ok_set_fat m fat : driver_ok m -> fat_ok fat -> driver_ok (set_fat m fat).
Proof. by intros [] ?. Qed.

Lemma mounted_formatted_fat m : driver_ok m -> mounted (set_dir_table_buf (set_fat m formatted_fat) root_directory).
Proof.
  intros [? ? ? ?]. split.
  - split; cbn [set_dir_table_buf set_fat fat_table dir_table_buf cluster_buf after_signature]; try done.
    + apply formatted_fat_ok.
    + apply root_directory_ok.
  - intros c Hc. cbn [set_dir_table_buf set_fat fat_table].
    assert (c = 0 \/ c = 1 \/ c = 2) as [->|[->| ->]] by lia; eexists; split; vm_compute; done.
Qed.

Section mount_theorems.
Context {D : Type} `{!BlockDevice D, !BlockDeviceSpec D}.
Implicit Types (s : fs D) (v : volume) (m : driver).

Lemma initialize_creates s v m :
  repr s v m -> driver_ok m -> ~ formatted v ->
  exists s', initialize_filesystem_fat32 s = Ret s' /\ repr s' (spec_create v m).1 (spec_create v m).2.
Proof.
  intros Hs Hm Hnot. unfold initialize_filesystem_fat32.
  destruct (is_empty_storage_spec s v m Hs) as (s1 & Hs1 & ->). rewrite bind_ret.
  rewrite bool_decide_false by done. cbn [negb]. by apply create_fat32_spec.
Qed.

(** What formatting leaves on the disk and in memory. *)
Lemma created_disk v m : length v = 512%nat -> driver_ok m ->
  formatted (spec_create v m).1 /\ synced (spec_create v m).1 (spec_create v m).2 /\ mounted (spec_create v m).2 /\
  free_clusters (fat_table (spec_create v m).2) = 509 /\ table_at (spec_create v m).1 ROOT_CLUSTER_NUMBER = root_directory.
Proof.
  intros Hl Hm. refine (conj _ (conj _ (conj _ (conj _ _)))).
  - unfold formatted, spec_create. cbn [fst]. vol_simpl.
    rewrite take_take. change (512 `min` 2048)%nat with 512%nat.
    rewrite take_app_le by (rewrite length_signature; lia). apply take_ge. rewrite length_signature. lia.
  - unfold synced, spec_create. cbn [fst snd]. by vol_simpl.
  - by apply mounted_formatted_fat.
  - unfold free_clusters, spec_create. cbn [snd fat_table set_dir_table_buf set_fat]. by vm_compute.
  - unfold table_at, spec_create. cbn [fst]. vol_simpl. apply dec_enc_table, root_directory_ok.
Qed.

(** Mounting a disk without the signature formats it: the call succeeds,
    the disk carries the signature, the table on the disk is the one in
    memory and marks exactly the clusters 0, 1 and 2 as used, and the root is
    a directory with 62 free slots. *)
Theorem initialize_formats s v m :
  repr s v m -> driver_ok m -> ~ formatted v ->
  exists s' v' m', initialize_filesystem_fat32 s = Ret s' /\ repr s' v' m' /\
    formatted v' /\ synced v' m' /\ mounted m' /\
    free_clusters (fat_table m') = 509 /\ is_dir (table_at v' ROOT_CLUSTER_NUMBER) = true /\
    count free_slot (drop 2 (table_at v' ROOT_CLUSTER_NUMBER)) = 62%nat.
Proof.
  intros Hs Hm Hnot. destruct (initialize_creates s v m Hs Hm Hnot) as (s' & Hi & Hs').
  destruct (created_disk v m (repr_length _ _ _ Hs) Hm) as (Hf & Hsy & Hmo & Hfree & Hroot).
  exists s', (spec_create v m).1, (spec_create v m).2. rewrite Hroot.
  refine (conj Hi (conj Hs' (conj Hf (conj Hsy (conj Hmo (conj Hfree (conj _ _))))))); by vm_compute.
Qed.

Lemma initialize_loads s v m :
  repr s v m -> formatted v ->
  exists s', initialize_filesystem_fat32 s = Ret s' /\
    repr s' v (set_fat m (dec_array 512 (vol_get v FAT_CLUSTER_NUMBER))).
Proof.
  intros Hs Hf. unfold initialize_filesystem_fat32.
  destruct (is_empty_storage_spec s v m Hs) as (s1 & Hs1 & ->). rewrite bind_ret.
  rewrite bool_decide_true by done. cbn [negb].
  destruct (read_clusters_repr s1 v m FAT_CLUSTER_NUMBER Hs1) as (s2 & -> & Hs2); [done|]. rewrite bind_ret.
  assert (Hd : drv s2 = m) by apply Hs2. rewrite Hd. eexists. split; [done|]. by eapply repr_set_drv.
Qed.

(** C34: A reboot recovers the file system: whatever the memory of the
    driver holds, mounting a formatted disk whose table is in step with the
    table [fat_table m] of an earlier run restores exactly that table and
    leaves the disk as it is. *)
Theorem reboot_recovers s v m m0 :
  repr s v m0 -> formatted v -> fat_ok (fat_table m) -> synced v m ->
  exists s', initialize_filesystem_fat32 s = Ret s' /\ repr s' v (set_fat m0 (fat_table m)).
Proof.
  intros Hs Hf Hfat Hsync. destruct (initialize_loads s v m0 Hs Hf) as (s' & ? & Hs').
  exists s'. split; [done|]. rewrite Hsync in Hs'. by rewrite dec_enc_fat in Hs'.
Qed.
End mount_theorems.

(** ** A freshly formatted image, for the witnesses *)
Definition demo_memory : driver :=
  MkDriver (replicate 512 0) (replicate 64 empty_entry) (replicate 2048 0) (replicate 1536 0).
Definition demo_blank : volume := replicate 512 (replicate 2048 0).
Definition demo_boot : fs Inserter.image := MkFs (Inserter.blank 2048) demo_memory.
Definition demo_vol : volume := (spec_create demo_blank demo_memory).1.
Definition demo_drv : driver := (spec_create demo_blank demo_memory).2.

Lemma empty_table_ok : table_ok (replicate 64 empty_entry).
Proof. split; [done|]. apply Forall_replicate, empty_entry_ok. Qed.

Lemma demo_memory_ok : driver_ok demo_memory.
Proof.
  split; cbn [demo_memory fat_table dir_table_buf cluster_buf after_signature].
  - split; [by rewrite length_replicate|by apply Forall_replicate].
  - apply empty_table_ok.
  - apply zero_block.
  - split; [rewrite length_replicate; lia|by apply Forall_replicate].
Qed.

Lemma demo_boot_repr : repr demo_boot demo_blank demo_memory.
Proof.
  split_and!; [|..|done].
  - split; [apply Inserter.blank_ok; vm_compute; done|]. simpl. unfold Zlen. rewrite length_replicate. lia.
  - apply list_eq. intros i. destruct (decide (i < 512)%nat).
    + replace i with (Z.to_nat (Z.of_nat i)) at 1 by lia. rewrite lookup_vol by (unfold in_map; lia).
      unfold demo_blank. rewrite lookup_replicate_2 by done. f_equal.
      unfold cluster. rewrite seqZ_4. cbn [fmap list_fmap concat sector Inserter.image_spec].
      unfold Inserter.image_sector. simpl. rewrite !lookup_replicate_2 by lia. simpl.
      by vm_compute.
    + rewrite !lookup_ge_None_2; [done|..]; rewrite ?length_vol; unfold demo_blank; rewrite ?length_replicate; lia.
Qed.

Lemma demo_unformatted : ~ formatted demo_blank.
Proof. unfold formatted. vm_compute. discriminate. Qed.

Lemma demo_repr : exists s, create_fat32 demo_boot = Ret s /\ repr s demo_vol demo_drv.
Proof. apply create_fat32_spec; [apply demo_boot_repr|apply demo_memory_ok]. Qed.

Lemma demo_mounted : mounted demo_drv.
Proof. apply mounted_formatted_fat, demo_memory_ok. Qed.

Lemma initialize_formats_witness :
  exists s' v' m', initialize_filesystem_fat32 demo_boot = Ret s' /\ repr s' v' m' /\
    formatted v' /\ synced v' m' /\ mounted m' /\
    free_clusters (fat_table m') = 509 /\ is_dir (table_at v' ROOT_CLUSTER_NUMBER) = true /\
    count free_slot (drop 2 (table_at v' ROOT_CLUSTER_NUMBER)) = 62%nat.
Proof.
  exact (initialize_formats demo_boot demo_blank demo_memory demo_boot_repr demo_memory_ok demo_unformatted).
Defined.

Lemma demo_formatted : formatted demo_vol.
Proof. unfold formatted. by vm_compute. Qed.

Lemma reboot_recovers_witness :
  exists s s', repr s demo_vol demo_drv /\ initialize_filesystem_fat32 s = Ret s' /\
    repr s' demo_vol (set_fat demo_drv (fat_table demo_drv)).
Proof.
  destruct demo_repr as (s & _ & Hs).
  destruct (reboot_recovers s demo_vol demo_drv demo_drv Hs demo_formatted (drv_fat _ (mnt_ok _ demo_mounted))) as (s' & ? & ?).
  - unfold synced. by vm_compute.
  - by exists s, s'.
Defined.
