(* ===== verification/FatContract.v ===== *)
(** * The contract of fat32.c

    The four calls against their specification, on any block device. *)
From S2P Require Import Prelude CString BlockDevice FatLayout Fat32 FatFacts FatChain FatLoops FatSpec FatRefine FatWrite FatMount.

Section contract.
Context {D : Type} `{!BlockDevice D, !BlockDeviceSpec D}.
Implicit Types (s : fs D) (v : volume) (m : driver) (rq : FAT32DriverRequest).

(** C24: [read_directory] implements [spec_read_directory]: for every parent
    cluster of the map, name and buffer size it returns the code and the buffer
    of the specification and changes neither the volume nor the driver memory.
    The buffer has the size the request gives, and a folder of that name, if it
    is there, has its cluster in the map. *)
Theorem read_directory_refines s v m rq :
  repr s v m -> request_ok rq -> in_map (parent_cluster_number rq) ->
  buffer_size rq ≤ Zlen (buf rq) ->
  (forall e, lookup_first (has_name (req_name rq)) (drop 2 (table_at v (parent_cluster_number rq))) = Some e ->
     attribute e = ATTR_SUBDIRECTORY -> in_map (entry_cluster e)) ->
  exists s', repr s' v m /\
    read_directory s rq = Ret (spec_read_directory v rq, s').
Proof. apply read_directory_correct. Qed.

(** C22: [read] implements [spec_read]: the code and the caller's buffer are
    the specification's on every branch, the chain loop terminates, and
    neither the volume nor the driver memory changes.  The parent is a cluster
    of the map, the entry that is found has a chain in the table
    ([entry_backed]), and a buffer that is not refused as too small has all the
    clusters of the file (C35 is about one that has not). *)
Theorem read_refines s v m rq :
  repr s v m -> request_ok rq -> in_map (parent_cluster_number rq) ->
  (forall e, lookup_first (matches (req_name rq) (req_ext rq)) (table_at v (parent_cluster_number rq)) = Some e ->
     entry_backed (fat_table m) e /\
     (attribute e ≠ ATTR_SUBDIRECTORY -> filesize e ≤ buffer_size rq ->
      2048 * Zlen (chain_of (fat_table m) (entry_cluster e)) ≤ Zlen (buf rq))) ->
  exists s', repr s' v m /\
    read s rq = Ret (spec_read v (fat_table m) rq, s').
Proof. apply read_correct. Qed.

(** C23: [Delete] implements [spec_delete]: it refuses a missing entry and a
    folder that is not empty without touching anything; otherwise it
    releases every cluster of the chain, wipes them, removes the entry and
    stores the table and the parent.  The disk is mounted, the parent is a
    cluster of the map, and the entry that is found has a chain in the table
    ([entry_backed]). *)
Theorem Delete_refines s v m rq :
  repr s v m -> mounted m -> request_ok rq -> in_map (parent_cluster_number rq) ->
  (forall e, lookup_first (matches (req_name rq) (req_ext rq)) (table_at v (parent_cluster_number rq)) = Some e ->
     entry_backed (fat_table m) e) ->
  exists s', Delete s rq = Ret ((spec_delete v m rq).1, s') /\
    repr s' (spec_delete v m rq).2.1 (spec_delete v m rq).2.2.
Proof. apply Delete_correct. Qed.

(** C21: [write] implements [spec_write]: on a mounted disk, for a parent
    cluster of the map and data that fills its last cluster, the code is the
    specification's (parent not a folder, duplicate, parent full, disk full),
    and a successful call allocates by first fit, links the chain, stores the
    data cluster by cluster, fills the first free slot of the parent and
    keeps the table on the disk in step with the one in memory.  Two cases
    are apart.  A call that gets as far as making a folder outside the root
    is undefined, and the theorem says so: it writes over a literal of one
    byte.  A file of just one cluster more than are free, while the word
    behind the map reads as free, is left out ([wa_count]): the count of
    [enough_empty_cluster] is then one too high. *)
Theorem write_refines s v m rq :
  repr s v m -> mounted m -> write_args_ok m rq ->
  if overruns_literal v m rq then write s rq = Ub
  else exists s', write s rq = Ret ((spec_write v m rq).1, s') /\
    repr s' (spec_write v m rq).2.1 (spec_write v m rq).2.2.
Proof. apply write_outcome. Qed.
End contract.

(** ** Witnesses: the root of a fresh image *)
Definition demo_data : list Z := replicate 2048 65.
Definition demo_file : FAT32DriverRequest :=
  MkRequest demo_data (bytes_of_string "notes" ++ [0; 0; 0]) (bytes_of_string "txt") ROOT_CLUSTER_NUMBER 2000.
Definition demo_root : FAT32DriverRequest :=
  MkRequest demo_data (bytes_of_string "root" ++ replicate 4 0) (replicate 3 0) ROOT_CLUSTER_NUMBER 2048.

Lemma bytes_dec (l : list Z) : forallb (fun b => (0 <=? b) && (b <? 256)) l = true -> bytes_ok l.
Proof.
  intros H. apply Forall_forall. intros x Hx. rewrite forallb_forall in H.
  specialize (H x). rewrite list_elem_of_In in Hx. specialize (H Hx). unfold is_word.
  change (2 ^ 8) with 256. lia.
Qed.

Lemma demo_file_ok : request_ok demo_file.
Proof. split; (split; [reflexivity|apply bytes_dec; reflexivity]) || (unfold is_word; simpl; lia). Qed.

Lemma demo_root_ok : request_ok demo_root.
Proof. split; (split; [reflexivity|apply bytes_dec; reflexivity]) || (unfold is_word; simpl; lia). Qed.

Lemma demo_root_table : table_at demo_vol ROOT_CLUSTER_NUMBER = root_directory.
Proof.
  unfold demo_vol, spec_create, table_at. cbn [fst].
  rewrite vol_get_insert by (rewrite ?length_insert; done || reflexivity).
  rewrite decide_True by done. apply dec_enc_table, root_directory_ok.
Qed.

(** The file of the request is new; the name of the root is taken. *)
Lemma demo_dir : is_dir root_directory = true.
Proof. by vm_compute. Qed.

Lemma demo_new : lookup_first (matches (req_name demo_file) (req_ext demo_file)) root_directory = None.
Proof. by vm_compute. Qed.

Lemma demo_found : lookup_first (matches (req_name demo_root) (req_ext demo_root)) root_directory = root_directory !! 0%nat.
Proof. by vm_compute. Qed.

Lemma demo_no_folder : lookup_first (has_name (req_name demo_root)) (drop 2 root_directory) = None.
Proof. by vm_compute. Qed.

Lemma demo_spec_delete : spec_delete demo_vol demo_drv demo_file = (1, (demo_vol, demo_drv)).
Proof.
  unfold spec_delete. change (parent_cluster_number demo_file) with ROOT_CLUSTER_NUMBER.
  by rewrite demo_root_table, demo_dir, demo_new.
Qed.

Lemma demo_spec_write : spec_write demo_vol demo_drv demo_file = (0, spec_write_file demo_vol demo_drv demo_file).
Proof.
  unfold spec_write. change (parent_cluster_number demo_file) with ROOT_CLUSTER_NUMBER.
  change (buffer_size demo_file) with 2000. change (2000 =? 0) with false. cbv iota.
  rewrite demo_root_table, demo_dir. cbn [negb].
  replace (lookup_first _ (drop 2 root_directory)) with (@None FAT32DirectoryEntry) by (by vm_compute).
  rewrite decide_False by (by vm_compute).
  by replace (_ <? number_of_partition 2000) with false by (by vm_compute).
Qed.

Lemma demo_write_args : write_args_ok demo_drv demo_file.
Proof.
  split; [exact demo_file_ok|done|vm_compute; discriminate|by apply Forall_replicate|].
  intros _. vm_compute. discriminate.
Qed.

Lemma write_refines_witness :
  exists s s', repr s demo_vol demo_drv /\ write s demo_file = Ret (0, s') /\
    repr s' (spec_write_file demo_vol demo_drv demo_file).1 (spec_write_file demo_vol demo_drv demo_file).2.
Proof.
  destruct demo_repr as (s & _ & Hs).
  pose proof (write_refines s demo_vol demo_drv demo_file Hs demo_mounted demo_write_args) as Hw.
  rewrite file_no_overrun in Hw by discriminate. destruct Hw as (s' & H & Hs').
  rewrite demo_spec_write in H, Hs'. by exists s, s'.
Defined.
