(* ===== verification/FatProps.v ===== *)
(** * Properties of the file system

    Consequences of the specification: what is written can be read back and
    deleted again, other files are not disturbed, and the allocation table
    stays a disjoint union of chains. *)
From S2P Require Import Prelude CString BlockDevice FatLayout Fat32 FatFacts FatChain FatLoops FatSpec FatRefine FatWrite FatMount.

(** A cluster in use, other than the boot sector's and the table's own. *)
Definition allocated (fat : list Z) (c : Z) : Prop := 2 ≤ c < 512 /\ fat.[c] ≠ Some FAT32_FAT_EMPTY_ENTRY.

(** The request creates a new file: the parent is a folder with a free slot,
    the name is not taken and the data fits. *)
Record creates_file (v : volume) (m : driver) (rq : FAT32DriverRequest) : Prop := MkCreates {
  cf_parent : allocated (fat_table m) (parent_cluster_number rq);
  cf_dir : is_dir (table_at v (parent_cluster_number rq)) = true;
  cf_new : Forall (fun e => matches (req_name rq) (req_ext rq) e = false) (table_at v (parent_cluster_number rq));
  cf_slot : count free_slot (drop 2 (table_at v (parent_cluster_number rq))) ≠ 0%nat;
  cf_size : buffer_size rq ≠ 0;
  cf_fits : number_of_partition (buffer_size rq) ≤ free_clusters (fat_table m)
}.

(** The clusters the new file gets. *)
Definition new_clusters (m : driver) (rq : FAT32DriverRequest) : list Z :=
  file_clusters (fat_table m) (number_of_partition (buffer_size rq)).

Lemma allocated_in_map fat c : allocated fat c -> in_map c.
Proof. unfold allocated, in_map. lia. Qed.

Section new_clusters.
Context (m : driver) (rq : FAT32DriverRequest).
Context (Hm : mounted m) (Hrq : request_ok rq) (Hsz : buffer_size rq ≠ 0).
Context (Hfits : number_of_partition (buffer_size rq) ≤ free_clusters (fat_table m)).

Lemma parts_pos : 1 ≤ number_of_partition (buffer_size rq).
Proof using Hrq Hsz.
  apply number_of_partition_pos. destruct Hrq as [_ _ Hw]. unfold is_word in Hw. lia.
Qed.

Lemma new_clusters_free :
  Forall (fun d => 3 ≤ d < 512 /\ (fat_table m).[d] = Some 0) (new_clusters m rq) /\ NoDup (new_clusters m rq).
Proof using Hm Hrq Hsz Hfits.
  pose proof parts_pos as Hpos. unfold new_clusters, file_clusters.
  destruct (first_free_mounted m Hm) as (Hc & Hc0 & Hcount); [lia|].
  set (c := first_free (fat_table m)) in *.
  destruct (alloc_after_spec (fat_table m) (Z.to_nat (number_of_partition (buffer_size rq) - 1))
    (proj1 (drv_fat _ (mnt_ok _ Hm))) c) as [HF HN]; [lia..|]. split.
  - apply Forall_cons. split; [split; [lia|done]|]. eapply Forall_impl; [exact HF|]. simpl. intros x [? ?]. split; [lia|done].
  - apply NoDup_cons. split; [|done]. intros Hin. eapply Forall_forall in HF; [|exact Hin]. simpl in HF. lia.
Qed.

Lemma new_clusters_in_map : Forall in_map (new_clusters m rq).
Proof using Hm Hrq Hsz Hfits.
  eapply Forall_impl; [apply new_clusters_free|]. intros x [? _]. unfold in_map. lia.
Qed.

Lemma new_clusters_not_allocated c : allocated (fat_table m) c -> c ∉ new_clusters m rq.
Proof using Hm Hrq Hsz Hfits.
  intros [_ Hne] Hin. destruct new_clusters_free as [HF _]. eapply Forall_forall in HF; [|exact Hin]. naive_solver.
Qed.

Lemma new_clusters_reserved c : c < 3 -> c ∉ new_clusters m rq.
Proof using Hm Hrq Hsz Hfits.
  intros Hc Hin. destruct new_clusters_free as [HF _]. eapply Forall_forall in HF; [|exact Hin]. simpl in HF. lia.
Qed.

Lemma length_new_clusters : Zlen (new_clusters m rq) = number_of_partition (buffer_size rq).
Proof using Hrq Hsz.
  pose proof parts_pos. unfold Zlen, new_clusters, file_clusters. cbn [length]. rewrite length_alloc_after. lia.
Qed.

End new_clusters.

(** The table after a file was written, and the chain in it. *)
Definition fat_after (m : driver) (rq : FAT32DriverRequest) : list Z :=
  link (fat_table m) (first_free (fat_table m)) (tail (new_clusters m rq)).

Section spec_write.
Implicit Types (v : volume) (m : driver) (rq : FAT32DriverRequest).

Lemma spec_write_creates v m rq : creates_file v m rq -> spec_write v m rq = (0, spec_write_file v m rq).
Proof.
  intros [Hpar Hdir Hnew Hslot Hsz Hfits]. unfold spec_write. rewrite Hdir. cbn [negb].
  destruct (lookup_first _ _) as [e|] eqn:E.
  - apply lookup_first_Some in E as (_ & He & Hd). unfold duplicate in Hd.
    rewrite lookup_drop in He. eapply Forall_lookup_1 in Hnew; [|exact He]. by rewrite Hnew in Hd.
  - rewrite decide_False by done. rewrite (proj2 (Z.eqb_neq _ _)) by done. by rewrite (proj2 (Z.ltb_ge _ _)).
Qed.

Lemma fat_after_chain m rq :
  mounted m -> request_ok rq -> buffer_size rq ≠ 0 ->
  number_of_partition (buffer_size rq) ≤ free_clusters (fat_table m) ->
  chain (fat_after m rq) (first_free (fat_table m)) (new_clusters m rq).
Proof.
  intros. unfold fat_after. apply link_chain; [by apply drv_fat, mnt_ok|by apply new_clusters_in_map|by apply new_clusters_free].
Qed.

(** The volume after a file was written, cluster by cluster. *)
Lemma vol_write_file v m rq x :
  length v = 512%nat -> mounted m -> request_ok rq -> buffer_size rq ≠ 0 ->
  number_of_partition (buffer_size rq) ≤ free_clusters (fat_table m) ->
  in_map (parent_cluster_number rq) -> in_map x -> x ∉ new_clusters m rq ->
  vol_get (spec_write_file v m rq).1 x =
    if decide (x = 1) then enc_array (fat_after m rq)
    else if decide (x = parent_cluster_number rq)
    then enc_array (add_entry (table_at v x) rq 0 (first_free (fat_table m))) else vol_get v x.
Proof.
  intros Hv Hm Hrq Hsz Hfits Hp Hx Hnot. unfold spec_write_file. cbn [fst].
  fold (file_clusters (fat_table m) (number_of_partition (buffer_size rq))). fold (new_clusters m rq).
  rewrite vol_get_insert by (rewrite ?length_put_data, ?length_insert; done). unfold FAT_CLUSTER_NUMBER.
  case_decide; [done|]. unfold vol_get at 1. rewrite lookup_put_data_ne by (done || by apply new_clusters_in_map).
  fold (vol_get (<[Z.to_nat (parent_cluster_number rq) := enc_array (add_entry (table_at v (parent_cluster_number rq)) rq 0 (first_free (fat_table m)))]> v) x).
  rewrite vol_get_insert by done. case_decide; by subst.
Qed.

Lemma data_write_file v m rq :
  length v = 512%nat -> mounted m -> request_ok rq -> buffer_size rq ≠ 0 ->
  number_of_partition (buffer_size rq) ≤ free_clusters (fat_table m) ->
  get_data (spec_write_file v m rq).1 (new_clusters m rq) = take (2048 * length (new_clusters m rq)) (buf rq).
Proof.
  intros Hv Hm Hrq Hsz Hfits. unfold spec_write_file. cbn [fst].
  fold (file_clusters (fat_table m) (number_of_partition (buffer_size rq))). fold (new_clusters m rq).
  erewrite get_data_ext; [apply get_put_data; [by rewrite length_insert|by apply new_clusters_in_map|by apply new_clusters_free]|].
  intros c Hc. apply list_lookup_insert_ne. intros Heq.
  eapply (new_clusters_reserved m rq Hm Hrq Hsz Hfits 1); [lia|].
  apply in_map_inj in Heq as <-; [done|by unfold in_map, FAT_CLUSTER_NUMBER|].
  eapply Forall_forall; [by apply new_clusters_in_map|done].
Qed.
End spec_write.

(** The volume after an entry was removed. *)
Lemma vol_remove v m rq e x :
  length v = 512%nat -> in_map (parent_cluster_number rq) -> in_map x ->
  Forall in_map (entry_clusters (fat_table m) e) -> x ∉ entry_clusters (fat_table m) e ->
  vol_get (spec_remove v m rq e).1 x =
    if decide (x = 1) then enc_array (fat_table (spec_remove v m rq e).2)
    else if decide (x = parent_cluster_number rq)
    then enc_array (<[first_idx (matches (req_name rq) (req_ext rq)) (table_at v x) := empty_entry]> (table_at v x))
    else vol_get v x.
Proof.
  intros Hv Hp Hx Hl Hnot. unfold spec_remove. cbn [fst snd fat_table set_fat].
  rewrite !vol_get_insert by (rewrite ?length_insert, ?length_wipe; done). unfold FAT_CLUSTER_NUMBER.
  case_decide; [done|]. case_decide; [by subst|]. unfold vol_get. by rewrite lookup_wipe_ne.
Qed.

Lemma mounted_link m c l :
  mounted m -> Forall in_map (c :: l) -> (forall x, x < 3 -> x ∉ c :: l) -> mounted (set_fat m (link (fat_table m) c l)).
Proof.
  intros [Hok Hres] Hl Hnot. split.
  - apply driver_ok_set_fat; [done|]. apply Forall_cons in Hl as [_ Hl]. apply link_ok; [apply Hok|done].
  - intros x Hx. cbn [fat_table set_fat]. rewrite lookup_link_ne; [by apply Hres|done|unfold in_map; lia|apply Hnot; lia].
Qed.

Lemma mounted_clear m l :
  mounted m -> Forall in_map l -> (forall x, x < 3 -> x ∉ l) -> mounted (set_fat m (clear (fat_table m) l)).
Proof.
  intros [Hok Hres] Hl Hnot. split.
  - apply driver_ok_set_fat; [done|]. apply clear_ok, Hok.
  - intros x Hx. cbn [fat_table set_fat].
    rewrite lookup_clear by (done || (unfold in_map; lia) || apply Hok). rewrite decide_False by (apply Hnot; lia).
    by apply Hres.
Qed.

(** ** The parent's table after a file was created *)
Section parent_table.
Context {D : Type} `{!BlockDevice D, !BlockDeviceSpec D}.
Context (s : fs D) (v : volume) (m : driver) (rq : FAT32DriverRequest).
Context (Hs : repr s v m) (Hm : mounted m) (Hrq : request_ok rq) (Hcf : creates_file v m rq).

Local Notation p := (parent_cluster_number rq).
Local Notation t := (table_at v p).
Local Notation c := (first_free (fat_table m)).

Lemma parent_table_ok : table_ok t.
Proof using Hs Hcf.
  destruct Hs as (Hr & <- & _). apply table_at_ok; [done|].
  eapply allocated_in_map, cf_parent. exact Hcf.
Qed.

Lemma slot_in_table : (new_slot t < 64)%nat.
Proof using Hs Hcf.
  pose proof (cf_slot _ _ _ Hcf) as Hc. destruct parent_table_ok as [Hl _]. change ENTRY_COUNT with 64%nat in Hl.
  unfold new_slot. assert (0 < count free_slot (drop 2 t))%nat as Hpos by lia.
  apply count_pos in Hpos. rewrite length_drop in Hpos. lia.
Qed.

Lemma table_after_write : table_at (spec_write_file v m rq).1 p = add_entry t rq 0 c.
Proof using Hs Hm Hrq Hcf.
  pose proof Hcf as [Hpar _ _ _ Hsz Hfits]. unfold table_at.
  rewrite vol_write_file; try done.
  - rewrite decide_False by (unfold allocated in *; lia). rewrite decide_True by done.
    apply dec_enc_table, add_entry_ok; [apply parent_table_ok|apply slot_in_table|done|done].
  - by eapply repr_length.
  - by eapply allocated_in_map.
  - by eapply allocated_in_map.
  - by apply new_clusters_not_allocated.
Qed.

Lemma found_after_write :
  exists e, t !! new_slot t = Some e /\ entry_ok e /\ free_slot e = true /\
    first_idx (matches (req_name rq) (req_ext rq)) (add_entry t rq 0 c) = new_slot t /\
    lookup_first (matches (req_name rq) (req_ext rq)) (add_entry t rq 0 c) =
      Some (new_entry e (req_name rq) (req_ext rq) 0 c (buffer_size rq)).
Proof using Hs Hcf.
  destruct (new_slot_lookup t parent_table_ok slot_in_table) as (e & He & Hok). exists e.
  assert (Hfree : free_slot e = true).
  { pose proof (first_idx_lookup free_slot (drop 2 t)) as Hl. destruct Hl as (x & Hx & Hfx).
    - apply count_pos. pose proof (cf_slot _ _ _ Hcf). lia.
    - rewrite lookup_drop in Hx. unfold new_slot in He. congruence. }
  erewrite add_entry_eq by done. set (e' := new_entry _ _ _ _ _ _).
  assert (Hi : first_idx (matches (req_name rq) (req_ext rq)) (<[new_slot t := e']> t) = new_slot t).
  { apply (first_idx_eq _ _ _ e').
    - apply list_lookup_insert_eq. by eapply lookup_lt_Some.
    - unfold matches, has_name, e'. cbn. by rewrite !bool_decide_true.
    - intros j y Hj Hy. rewrite list_lookup_insert_ne in Hy by lia.
      pose proof (cf_new _ _ _ Hcf) as Hnew. by eapply Forall_lookup_1 in Hnew. }
  split_and!; try done. unfold lookup_first. rewrite Hi. apply list_lookup_insert_eq. by eapply lookup_lt_Some.
Qed.

Lemma head_after_write : is_dir (add_entry t rq 0 c) = is_dir t.
Proof using Type.
  unfold is_dir, add_entry. by rewrite list_lookup_alter_ne by (unfold new_slot; lia).
Qed.
(** What the deletion of the file that was just written finds and releases. *)
Lemma removal_after_write e : let v1 := (spec_write_file v m rq).1 in let m1 := set_fat m (fat_after m rq) in
  lookup_first (matches (req_name rq) (req_ext rq)) (add_entry t rq 0 c) = Some (new_entry e (req_name rq) (req_ext rq) 0 c (buffer_size rq)) ->
  let e' := new_entry e (req_name rq) (req_ext rq) 0 c (buffer_size rq) in
  entry_clusters (fat_table m1) e' = new_clusters m rq /\
  entry_backed (fat_table m1) e' /\
  clear (fat_after m rq) (new_clusters m rq) = fat_table m /\
  spec_delete v1 m1 rq = (0, spec_remove v1 m1 rq e').
Proof using Hs Hm Hrq Hcf.
  intros v1 m1 Hfound e'. pose proof Hcf as [Hpar Hdir _ _ Hne Hfits].
  pose proof (fat_after_chain m rq Hm Hrq Hne Hfits) as Hch. pose proof (new_clusters_in_map m rq Hm Hrq Hne Hfits) as Hin.
  assert (Hcl : entry_cluster e' = c) by (apply entry_cluster_new, in_map_word; by apply Forall_cons in Hin as [? _]).
  split; [|split; [|split]].
  - unfold entry_clusters. change (attribute e' =? ATTR_SUBDIRECTORY) with false. cbv iota. rewrite Hcl. by apply chain_chain_of.
  - unfold entry_backed. change (attribute e' =? ATTR_SUBDIRECTORY) with false. cbv iota. rewrite Hcl. by eexists.
  - apply clear_link; [apply Hm|]. eapply Forall_impl; [by apply (new_clusters_free m rq)|]. simpl. intros x [? ?]. unfold in_map. split; [lia|done].
  - unfold spec_delete, v1. rewrite table_after_write, head_after_write, Hdir. cbn [negb]. rewrite Hfound. reflexivity.
Qed.
End parent_table.

Section round_trips.
Context {D : Type} `{!BlockDevice D, !BlockDeviceSpec D}.
Implicit Types (s : fs D) (v : volume) (m : driver) (rq : FAT32DriverRequest).

(** C25: What is written can be read back: after a successful [write] of a
    new file, [read] with the same name and parent and a buffer that holds
    the file's clusters returns 0 and the bytes that were written. *)
Theorem write_read_roundtrip s v m rq rq2 :
  repr s v m -> mounted m -> write_args_ok m rq -> creates_file v m rq ->
  req_name rq2 = req_name rq -> req_ext rq2 = req_ext rq ->
  parent_cluster_number rq2 = parent_cluster_number rq ->
  is_word 32 (buffer_size rq2) -> buffer_size rq ≤ buffer_size rq2 ->
  CLUSTER_SIZE * number_of_partition (buffer_size rq) ≤ Zlen (buf rq2) ->
  exists s1 s2 b, write s rq = Ret (0, s1) /\ read s1 rq2 = Ret (0, b, s2) /\
    take (Z.to_nat (buffer_size rq)) b = take (Z.to_nat (buffer_size rq)) (buf rq).
Proof.
  intros Hs Hm Hargs Hcf Hn Hx Hp Hw Hsz Hlen. pose proof (wa_request _ _ Hargs) as Hrq.
  destruct (write_correct s v m rq Hs Hm Hargs (file_no_overrun v m rq (cf_size _ _ _ Hcf))) as (s1 & Hwr & Hs1).
  rewrite (spec_write_creates v m rq Hcf) in Hwr, Hs1. cbn [fst snd] in Hwr, Hs1.
  pose proof Hcf as [Hpar Hdir _ _ Hne Hfits].
  pose proof (table_after_write s v m rq Hs Hm Hrq Hcf) as Ht.
  destruct (found_after_write s v m rq Hs Hcf) as (e & _ & _ & _ & _ & Hfound).
  pose proof (fat_after_chain m rq Hm Hrq Hne Hfits) as Hch.
  pose proof (length_new_clusters m rq Hrq Hne) as Hl. pose proof (parts_pos rq Hrq Hne) as Hpos.
  assert (Hcw : is_word 32 (first_free (fat_table m))).
  { apply in_map_word. eapply Forall_forall; [by apply (new_clusters_in_map m rq)|]. apply elem_of_cons. by left. }
  destruct (read_correct s1 _ _ rq2 Hs1) as (s2 & Hs2 & Hr).
  { split; [rewrite Hn; apply Hrq|rewrite Hx; apply Hrq|done]. }
  { rewrite Hp. by eapply allocated_in_map. }
  { rewrite Hp, Hn, Hx. rewrite Ht, Hfound. intros e2 [= <-].
    unfold entry_backed. rewrite entry_cluster_new by done. cbn [attribute new_entry].
    change (0 =? ATTR_SUBDIRECTORY) with false. cbv iota. split; [by eexists|]. intros _ _.
    change (fat_table (spec_write_file v m rq).2) with (fat_after m rq).
    rewrite (chain_chain_of _ _ _ Hch), Hl. exact Hlen. }
  eexists s1, s2, _. split; [done|]. split; [rewrite Hr; unfold spec_read|].
  - rewrite Hp, Hn, Hx. rewrite Ht, Hfound, head_after_write.
    rewrite Hdir. cbn [negb attribute new_entry filesize].
    change (0 =? ATTR_SUBDIRECTORY) with false. cbv iota.
    rewrite (proj2 (Z.ltb_ge _ _)) by done. reflexivity.
  - rewrite entry_cluster_new by done. change (fat_table (spec_write_file v m rq).2) with (fat_after m rq).
    rewrite (chain_chain_of _ _ _ Hch), data_write_file by (done || by eapply repr_length).
    unfold splice. rewrite firstn_O. cbn [app].
    assert (Hbl : (Z.to_nat (buffer_size rq) ≤ 2048 * length (new_clusters m rq))%nat).
    { unfold Zlen in Hl. revert Hl. unfold number_of_partition. change CLUSTER_SIZE with 2048.
      pose proof (Z.div_mod (buffer_size rq) 2048). pose proof (Z.mod_pos_bound (buffer_size rq) 2048).
      destruct (Z.ltb_spec 0 (buffer_size rq mod 2048)); lia. }
    pose proof (wa_buf _ _ Hargs) as Hbuf. change CLUSTER_SIZE with 2048 in *. unfold Zlen in *.
    rewrite take_app_le by (rewrite length_take; lia). rewrite take_take. f_equal. lia.
Qed.

(** Writing a new file and deleting it again restores the allocation
    table, in memory and on the disk, and the whole driver memory; on the
    disk only the parent's slot and the released clusters differ. *)
Theorem write_delete_roundtrip s v m rq :
  repr s v m -> mounted m -> write_args_ok m rq -> creates_file v m rq ->
  exists s1 s2, write s rq = Ret (0, s1) /\ Delete s1 rq = Ret (0, s2) /\ drv s2 = m /\
    synced (vol s2) m /\
    table_at (vol s2) (parent_cluster_number rq) =
      <[new_slot (table_at v (parent_cluster_number rq)) := empty_entry]> (table_at v (parent_cluster_number rq)) /\
    (forall x, in_map x -> x ∉ new_clusters m rq -> x ≠ FAT_CLUSTER_NUMBER -> x ≠ parent_cluster_number rq ->
       vol_get (vol s2) x = vol_get v x).
Proof.
  intros Hs Hm Hargs Hcf. pose proof (wa_request _ _ Hargs) as Hrq.
  destruct (write_correct s v m rq Hs Hm Hargs (file_no_overrun v m rq (cf_size _ _ _ Hcf))) as (s1 & Hwr & Hs1).
  rewrite (spec_write_creates v m rq Hcf) in Hwr, Hs1. cbn [fst snd] in Hwr, Hs1.
  pose proof Hcf as [Hpar Hdir _ _ Hne Hfits]. pose proof (allocated_in_map _ _ Hpar) as Hpm.
  pose proof (table_after_write s v m rq Hs Hm Hrq Hcf) as Ht.
  destruct (found_after_write s v m rq Hs Hcf) as (e & He & _ & _ & Hidx & Hfound).
  pose proof (fat_after_chain m rq Hm Hrq Hne Hfits) as Hch.
  pose proof (new_clusters_in_map m rq Hm Hrq Hne Hfits) as Hin.
  pose proof (new_clusters_not_allocated m rq Hm Hrq Hne Hfits _ Hpar) as Hpnot.
  pose proof (new_clusters_reserved m rq Hm Hrq Hne Hfits 1 eq_refl) as H1not.
  set (v1 := (spec_write_file v m rq).1) in *. set (m1 := set_fat m (fat_after m rq)).
  assert (Hm1 : mounted m1) by (apply mounted_link; [done|done|intros; by apply new_clusters_reserved]).
  change (spec_write_file v m rq).2 with m1 in Hs1.
  set (e' := new_entry e (req_name rq) (req_ext rq) 0 (first_free (fat_table m)) (buffer_size rq)) in *.
  destruct (removal_after_write s v m rq Hs Hm Hrq Hcf e Hfound) as (Hcs & Hback & Hfat & Hspec).
  fold v1 m1 e' in Hcs, Hback, Hspec.
  destruct (Delete_correct s1 v1 m1 rq Hs1 Hm1 Hrq Hpm) as (s2 & Hdel & Hs2).
  { rewrite Ht, Hfound. by intros e2 [= <-]. }
  rewrite Hspec in Hdel, Hs2. cbn [fst snd] in Hdel, Hs2. destruct Hs2 as (_ & Hv2 & Hm2).
  assert (Hv1 : length v1 = 512%nat) by by eapply repr_length.
  assert (Hget := fun x Hx => vol_remove v1 m1 rq e' x Hv1 Hpm Hx). rewrite Hcs in Hget.
  exists s1, s2. split; [done|]. split; [done|]. rewrite Hv2, Hm2. split_and!.
  - unfold spec_remove. cbn [snd]. rewrite Hcs. unfold m1. rewrite set_fat_set_fat. cbn [fat_table set_fat]. rewrite Hfat. by destruct m.
  - unfold synced. rewrite Hget by done. rewrite decide_True by done. unfold spec_remove. cbn [snd]. rewrite Hcs. cbn [fat_table set_fat]. by rewrite <- Hfat.
  - unfold table_at at 1. rewrite Hget by done. rewrite decide_False by (unfold allocated in Hpar; lia).
    rewrite decide_True by done. rewrite Ht, Hidx. rewrite dec_enc_table.
    + erewrite add_entry_eq by done. apply list_insert_insert_eq.
    + apply table_ok_insert; [|apply empty_entry_ok].
      apply add_entry_ok; [by eapply parent_table_ok|by eapply slot_in_table|done|done].
  - intros x Hx Hnot Hx1 Hxp. rewrite Hget by done. rewrite !decide_False by done.
    unfold v1. rewrite vol_write_file by (done || by eapply repr_length). by rewrite !decide_False by done.
Qed.
End round_trips.
