(* ===== verification/FatInvariant.v ===== *)
(** * The allocation invariant and the frame of [write]

    The clusters in use are the disjoint union of the chains of the files and
    folders; [write] and [Delete] add and remove one chain and leave every
    other file as it is. *)
From S2P Require Import Prelude CString BlockDevice FatLayout Fat32 FatFacts FatChain FatLoops FatSpec FatRefine FatWrite FatMount FatContract FatProps.

(** [cs] lists the chains: pairwise disjoint, and exactly the clusters in use. *)
Record partitioned (fat : list Z) (cs : list (list Z)) : Prop := MkPartitioned {
  part_chains : Forall (fun l => exists c, chain fat c l) cs;
  part_nodup : NoDup (concat cs);
  part_used : forall x, allocated fat x <-> x ∈ concat cs
}.

(** The chain [write] adds: the file's clusters, or the folder's one. *)
Definition added_chain (m : driver) (rq : FAT32DriverRequest) : list Z :=
  if buffer_size rq =? 0 then [first_free (fat_table m)] else new_clusters m rq.

Lemma elem_concat (x : Z) (ls : list (list Z)) : x ∈ concat ls <-> exists l, x ∈ l /\ l ∈ ls.
Proof.
  rewrite list_elem_of_In, in_concat. split; intros (l & H1 & H2); exists l; rewrite !list_elem_of_In in *; tauto.
Qed.

Lemma chain_allocated fat c l : chain fat c l -> Forall (fun d => 2 ≤ d) l -> Forall (allocated fat) l.
Proof.
  induction 1 as [c Hc Hv|c n l Hc Hv Hn Hl IH]; intros H2; apply Forall_cons in H2 as [Hc2 H2].
  - apply Forall_cons. split; [|done]. unfold in_map in Hc. split; [lia|]. by rewrite Hv.
  - apply Forall_cons. split; [|by apply IH]. unfold in_map in Hc. split; [lia|]. rewrite Hv. intros [= ->].
    destruct (chain_head _ _ _ Hl) as [l' ->]. apply Forall_cons in H2 as [? _]. unfold FAT32_FAT_EMPTY_ENTRY in *. lia.
Qed.

Section partition.
Context (fat : list Z) (Hlen : length fat = 512%nat).

Lemma chain_link_other c l d l2 :
  chain fat d l2 -> Forall in_map (c :: l) -> (forall x, x ∈ l2 -> x ∉ c :: l) -> chain (link fat c l) d l2.
Proof using Type.
  intros Hd Hin Hdis. eapply chain_ext; [done|]. intros x Hx. apply lookup_link_ne; [done| |by apply Hdis].
  eapply Forall_forall; [by eapply chain_in_map|done].
Qed.

Lemma chain_clear_other l d l2 :
  chain fat d l2 -> Forall in_map l -> (forall x, x ∈ l2 -> x ∉ l) -> chain (clear fat l) d l2.
Proof using Hlen.
  intros Hd Hin Hdis. eapply chain_ext; [done|]. intros x Hx.
  rewrite lookup_clear; [by rewrite decide_False by by apply Hdis|done|done|].
  eapply Forall_forall; [by eapply chain_in_map|done].
Qed.

Lemma lookup_link_in c l x : Forall (allocated (link fat c l)) (c :: l) -> x ∈ c :: l -> allocated (link fat c l) x.
Proof using Type. intros H Hx. by eapply Forall_forall in H. Qed.

Lemma partition_link c l cs :
  partitioned fat cs -> Forall (fun d => 3 ≤ d < 512 /\ fat.[d] = Some 0) (c :: l) -> NoDup (c :: l) ->
  partitioned (link fat c l) ((c :: l) :: cs).
Proof using Hlen.
  intros [Hch Hnd Hused] Hfree Hndl.
  assert (Hin : Forall in_map (c :: l)).
  { eapply Forall_impl; [done|]. intros x [? _]. unfold in_map. lia. }
  assert (Hnew : chain (link fat c l) c (c :: l)) by by apply link_chain.
  assert (Hdis : forall x, x ∈ concat cs -> x ∉ c :: l).
  { intros x Hx Hxl. apply Hused in Hx as [_ Hne]. eapply Forall_forall in Hfree; [|done]. naive_solver. }
  split.
  - apply Forall_cons. split; [by exists c|]. apply Forall_forall. intros l2 Hl2.
    eapply Forall_forall in Hch as [d Hd]; [|done]. exists d. apply chain_link_other; [done..|].
    intros x Hx. apply Hdis, elem_concat. by exists l2.
  - cbn [concat]. apply NoDup_app. split; [done|]. split; [|done]. intros x Hx Hx2. by eapply Hdis.
  - intros x. cbn [concat]. rewrite elem_of_app. split.
    + intros [Hx Hne]. destruct (decide (x ∈ c :: l)) as [|Hnot]; [by left|]. right. apply Hused.
      rewrite lookup_link_ne in Hne by (done || unfold in_map; lia). by split.
    + intros [Hx|Hx].
      * eapply lookup_link_in; [|done]. eapply chain_allocated; [done|].
        eapply Forall_impl; [exact Hfree|]. simpl. intros; lia.
      * pose proof (Hdis x Hx) as Hnot. apply Hused in Hx as [Hx Hne]. split; [done|].
        by rewrite lookup_link_ne by (done || unfold in_map; lia).
Qed.

Lemma partition_clear l cs :
  partitioned fat (l :: cs) -> partitioned (clear fat l) cs.
Proof using Hlen.
  intros [Hch Hnd Hused]. apply Forall_cons in Hch as [[c Hc] Hch].
  cbn [concat] in *. apply NoDup_app in Hnd as (_ & Hdis & Hnd).
  pose proof (chain_in_map _ _ _ Hc) as Hin.
  assert (Hdis' : forall x, x ∈ concat cs -> x ∉ l) by (intros x Hx Hxl; by eapply Hdis).
  split; [|done|].
  - apply Forall_forall. intros l2 Hl2. eapply Forall_forall in Hch as [d Hd]; [|done].
    exists d. apply chain_clear_other; [done..|]. intros x Hx. apply Hdis', elem_concat. by exists l2.
  - intros x. split.
    + intros [Hx Hne]. rewrite lookup_clear in Hne by (done || unfold in_map; lia). case_decide; [done|].
      assert (x ∈ l ++ concat cs) as Hx2 by by apply Hused. apply elem_of_app in Hx2 as [|]; done.
    + intros Hx. pose proof (Hdis' x Hx) as Hnot.
      assert (allocated fat x) as [Hx2 Hne] by (apply Hused, elem_of_app; by right).
      split; [done|]. by rewrite lookup_clear, decide_False by (done || unfold in_map; lia).
Qed.
End partition.

Lemma partition_perm fat cs cs' : cs ≡ₚ cs' -> partitioned fat cs -> partitioned fat cs'.
Proof.
  intros Hp [Hch Hnd Hused]. assert (Hc : concat cs ≡ₚ concat cs').
  { clear -Hp. induction Hp; simpl; [done|by rewrite IHHp|by rewrite !(assoc (++)), (comm (++) y x)|by etrans]. }
  split; [by rewrite <- Hp|by rewrite <- Hc|]. intros x. by rewrite <- Hc.
Qed.

(** The request adds a chain exactly when it returns 0. *)
Lemma spec_write_cases v m rq :
  mounted m -> request_ok rq ->
  ((spec_write v m rq).1 ≠ 0 /\ (spec_write v m rq).2 = (v, m)) \/
  ((spec_write v m rq).1 = 0 /\ buffer_size rq = 0 /\ free_clusters (fat_table m) ≠ 0 /\
     (spec_write v m rq).2 = spec_write_folder v m rq) \/
  ((spec_write v m rq).1 = 0 /\ buffer_size rq ≠ 0 /\
     number_of_partition (buffer_size rq) ≤ free_clusters (fat_table m) /\
     (spec_write v m rq).2 = spec_write_file v m rq).
Proof.
  intros Hm Hrq. unfold spec_write. destruct (negb _); [by left|]. destruct (lookup_first _ _); [by left|].
  case_decide; [by left|]. destruct (Z.eqb_spec (buffer_size rq) 0).
  - destruct (Z.eqb_spec (free_clusters (fat_table m)) 0); [by left|]. right. by left.
  - destruct (Z.ltb_spec (free_clusters (fat_table m)) (number_of_partition (buffer_size rq))); [by left|].
    right. by right.
Qed.

Lemma added_chain_spec v m rq :
  mounted m -> request_ok rq -> (spec_write v m rq).1 = 0 ->
  Forall (fun d => 3 ≤ d < 512 /\ (fat_table m).[d] = Some 0) (added_chain m rq) /\ NoDup (added_chain m rq) /\
  fat_table (spec_write v m rq).2.2 = link (fat_table m) (first_free (fat_table m)) (tail (added_chain m rq)).
Proof.
  intros Hm Hrq H0. unfold added_chain.
  destruct (spec_write_cases v m rq Hm Hrq) as [[Hne _]|[(_ & -> & Hf & ->)|(_ & Hsz & Hf & ->)]]; [done|..].
  - destruct (first_free_mounted m Hm Hf) as (Hc & Hc0 & _). split_and!; [by apply Forall_singleton|apply NoDup_singleton|done].
  - rewrite (proj2 (Z.eqb_neq _ _)) by done. split_and!; [by apply new_clusters_free..|done].
Qed.

Lemma added_chain_cons m rq : added_chain m rq = first_free (fat_table m) :: tail (added_chain m rq).
Proof. unfold added_chain, new_clusters, file_clusters. by destruct (buffer_size rq =? 0). Qed.

(** [write] leaves the memory of the driver in order. *)
Lemma mounted_write v m rq :
  mounted m -> request_ok rq -> mounted (spec_write v m rq).2.2.
Proof.
  intros Hm Hrq. destruct (spec_write_cases v m rq Hm Hrq) as [[_ ->]|[(H0 & Hsz & Hf & Heq)|(H0 & Hsz & Hf & Heq)]]; [done|..];
    destruct (added_chain_spec v m rq Hm Hrq H0) as (Hfree & Hnd & Hfat); rewrite Heq in *; cbn [snd] in *.
  all: assert (Hm' : mounted (set_fat m (link (fat_table m) (first_free (fat_table m)) (tail (added_chain m rq)))));
    [rewrite added_chain_cons in Hfree; apply mounted_link; [done|
       eapply Forall_impl; [exact Hfree|]; intros x [? _]; unfold in_map; lia|
       intros x Hx Hin; eapply Forall_forall in Hfree; [|exact Hin]; simpl in Hfree; lia]|].
  - split; [by apply folder_driver_ok|]. intros c Hc. rewrite Hfat. by apply (mnt_reserved _ Hm' c).
  - assert (Hset : (spec_write_file v m rq).2 = set_fat m (fat_table (spec_write_file v m rq).2)) by done. by rewrite Hset, Hfat.
Qed.

(** What the folder case leaves alone. *)
Lemma vol_write_folder v m rq x :
  length v = 512%nat -> mounted m -> free_clusters (fat_table m) ≠ 0 -> in_map (parent_cluster_number rq) ->
  in_map x -> x ≠ 1 -> x ≠ parent_cluster_number rq -> x ≠ first_free (fat_table m) ->
  vol_get (spec_write_folder v m rq).1 x = vol_get v x.
Proof.
  intros Hv Hm Hf Hp Hx H1 Hxp Hxc. destruct (first_free_mounted m Hm Hf) as (Hc & _ & _).
  unfold spec_write_folder. cbn [fst].
  rewrite !vol_get_insert by (rewrite ?length_insert; done || unfold in_map; lia).
  unfold FAT_CLUSTER_NUMBER. by rewrite !decide_False by done.
Qed.

Lemma entry_backed_in fat e cs :
  partitioned fat cs -> entry_clusters fat e ∈ cs -> entry_backed fat e.
Proof.
  intros [Hch _ _] Hin. eapply Forall_forall in Hch as [c Hc]; [|exact Hin].
  unfold entry_clusters, entry_backed in *. destruct (attribute e =? ATTR_SUBDIRECTORY).
  - apply chain_in_map in Hc. by apply Forall_cons in Hc as [? _].
  - destruct (chain_head _ _ _ Hc) as [l' Hl]. unfold chain_of in *. cbn [walk] in Hc, Hl.
    injection Hl as -> _. by eexists.
Qed.

Section invariants.
Context {D : Type} `{!BlockDevice D, !BlockDeviceSpec D}.
Implicit Types (s : fs D) (v : volume) (m : driver) (rq : FAT32DriverRequest).

(** C40: [write] keeps the allocation table, in memory, a disjoint union of
    chains that covers exactly the used clusters: no cluster leaks and no two
    files share one.  On a mounted disk whose table is such a union, a call
    that returns 0 adds one chain, of one cluster for a folder and of as many
    as the size needs for a file, and a call that returns another code leaves
    the driver's memory alone; the driver stays mounted.  The parent is a
    cluster of the map, the buffer has the clusters the size needs, and the
    calls that C21 sets apart are excluded (a folder made outside the root, a
    file of just one cluster more than are free while the word behind the map
    reads as free). *)
Theorem write_keeps_partition s v m rq cs :
  repr s v m -> mounted m -> write_args_ok m rq -> overruns_literal v m rq = false -> partitioned (fat_table m) cs ->
  exists code s', write s rq = Ret (code, s') /\ mounted (drv s') /\
    (code = 0 -> partitioned (fat_table (drv s')) (added_chain m rq :: cs) /\
                 Zlen (added_chain m rq) = Z.max 1 (number_of_partition (buffer_size rq))) /\
    (code ≠ 0 -> drv s' = m).
Proof.
  intros Hs Hm Hargs Hlit Hcs. pose proof (wa_request _ _ Hargs) as Hrq.
  destruct (write_correct s v m rq Hs Hm Hargs Hlit) as (s' & Hw & (_ & _ & Hd)).
  eexists _, s'. split; [exact Hw|]. rewrite Hd.
  destruct (decide ((spec_write v m rq).1 = 0)) as [H0|Hne].
  - destruct (added_chain_spec v m rq Hm Hrq H0) as (Hfree & Hnd & Hfat).
    split; [|split; [intros _; split|done]].
    + by apply mounted_write.
    + rewrite Hfat. rewrite added_chain_cons at 2. apply partition_link; [apply Hm|done|by rewrite <- added_chain_cons..].
    + unfold added_chain. destruct (Z.eqb_spec (buffer_size rq) 0) as [->|Hsz]; [done|].
      rewrite length_new_clusters by done. pose proof (parts_pos rq Hrq Hsz). lia.
  - destruct (spec_write_cases v m rq Hm Hrq) as [[_ Heq]|[(? & _)|(? & _)]]; [|done..].
    rewrite Heq. cbn [snd]. split; [done|]. by split.
Qed.

(** [Delete] removes exactly one chain from the partition, the entry's,
    and only when it returns 0. *)
Theorem Delete_keeps_partition s v m rq cs :
  repr s v m -> mounted m -> request_ok rq -> in_map (parent_cluster_number rq) -> partitioned (fat_table m) cs ->
  (forall e, lookup_first (matches (req_name rq) (req_ext rq)) (table_at v (parent_cluster_number rq)) = Some e ->
     entry_clusters (fat_table m) e ∈ cs) ->
  exists code s', Delete s rq = Ret (code, s') /\
    (code = 0 -> exists e cs', cs ≡ₚ entry_clusters (fat_table m) e :: cs' /\
       lookup_first (matches (req_name rq) (req_ext rq)) (table_at v (parent_cluster_number rq)) = Some e /\
       partitioned (fat_table (drv s')) cs') /\
    (code ≠ 0 -> drv s' = m /\ vol s' = v).
Proof.
  intros Hs Hm Hrq Hp Hcs Hin.
  destruct (Delete_correct s v m rq Hs Hm Hrq Hp) as (s' & Hdel & (_ & Hv & Hd)).
  { intros e He. specialize (Hin e He). exact (entry_backed_in _ _ _ Hcs Hin). }
  eexists _, s'. split; [exact Hdel|]. rewrite Hd, Hv. unfold spec_delete.
  destruct (negb _); [by split|]. destruct (lookup_first _ _) as [e|]; [|by split].
  destruct (folder_empty v e); [|by split]. cbn [fst snd]. split; [intros _|done].
  destruct (proj1 (elem_of_Permutation cs _) (Hin e eq_refl)) as [cs' Hperm]. exists e, cs'. split; [done|]. split; [done|].
  unfold spec_remove. cbn [snd fat_table set_fat]. apply partition_clear; [apply Hm|]. by eapply partition_perm.
Qed.

(** [write] does not disturb other files: whatever it returns, every
    chain of clusters 2 and up that does not contain the parent keeps its
    clusters and their contents. *)
Theorem write_preserves_files s v m rq c l :
  repr s v m -> mounted m -> write_args_ok m rq -> overruns_literal v m rq = false ->
  chain (fat_table m) c l -> Forall (fun d => 2 ≤ d) l -> parent_cluster_number rq ∉ l ->
  exists code s', write s rq = Ret (code, s') /\ chain (fat_table (drv s')) c l /\
    get_data (vol s') l = get_data v l.
Proof.
  intros Hs Hm Hargs Hlit Hc Hl Hpar. pose proof (wa_request _ _ Hargs) as Hrq. pose proof (wa_parent _ _ Hargs) as Hp.
  destruct (write_correct s v m rq Hs Hm Hargs Hlit) as (s' & Hw & (_ & Hv & Hd)).
  eexists _, s'. split; [exact Hw|]. rewrite Hd, Hv.
  destruct (decide ((spec_write v m rq).1 = 0)) as [H0|Hne].
  - destruct (added_chain_spec v m rq Hm Hrq H0) as (Hfree & Hnd & Hfat).
    assert (Hdis : forall x, x ∈ l -> x ∉ added_chain m rq).
    { intros x Hx Hin. eapply Forall_forall in Hfree as [_ H]; [|exact Hin].
      eapply chain_allocated in Hc; [|done]. eapply Forall_forall in Hc as [_ Hne]; [|exact Hx]. done. }
    assert (Hin : Forall in_map (added_chain m rq)).
    { eapply Forall_impl; [exact Hfree|]. intros x [? _]. unfold in_map. lia. }
    split.
    + rewrite Hfat. apply chain_link_other; [done|by rewrite <- added_chain_cons|]. rewrite <- added_chain_cons. exact Hdis.
    + unfold get_data. f_equal. apply list_fmap_ext. intros i x Hx%list_elem_of_lookup_2.
      pose proof (chain_in_map _ _ _ Hc) as Hlm. eapply Forall_forall in Hlm; [|exact Hx].
      eapply Forall_forall in Hl; [|exact Hx]. simpl in Hl.
      assert (x ≠ parent_cluster_number rq) by (intros ->; done). specialize (Hdis x Hx).
      destruct (spec_write_cases v m rq Hm Hrq) as [[Hne _]|[(_ & Hsz & Hf & Heq)|(_ & Hsz & Hf & Heq)]]; [done|..];
        rewrite Heq; unfold added_chain in Hdis.
      * rewrite Hsz in Hdis. eapply vol_write_folder; try done; [by eapply repr_length|lia|].
        intros ->. apply Hdis. simpl. by apply list_elem_of_singleton.
      * rewrite (proj2 (Z.eqb_neq _ _)) in Hdis by done.
        rewrite vol_write_file by (done || by eapply repr_length). rewrite !decide_False by (done || lia). done.
  - destruct (spec_write_cases v m rq Hm Hrq) as [[_ Heq]|[(? & _)|(? & _)]]; [|done..].
    rewrite Heq. by split.
Qed.
End invariants.
