(* ===== verification/FatLimits.v ===== *)
(** * Folders, and where the contract ends

    Folder creation; then the inputs on which the code does something its
    callers do not expect: a buffer shorter than the file's clusters and the
    removal of the root. *)
From S2P Require Import Prelude CString BlockDevice FatLayout Fat32 FatFacts FatChain FatLoops FatSpec FatRefine FatWrite FatMount FatContract FatProps FatInvariant.

(** The request creates a folder whose name no entry of the parent has. *)
Record creates_folder (v : volume) (m : driver) (rq : FAT32DriverRequest) : Prop := MkCreatesFolder {
  cd_root : parent_cluster_number rq = ROOT_CLUSTER_NUMBER;
  cd_parent : allocated (fat_table m) (parent_cluster_number rq);
  cd_dir : is_dir (table_at v (parent_cluster_number rq)) = true;
  cd_new : Forall (fun e => has_name (req_name rq) e = false) (drop 2 (table_at v (parent_cluster_number rq)));
  cd_slot : count free_slot (drop 2 (table_at v (parent_cluster_number rq))) ≠ 0%nat;
  cd_size : buffer_size rq = 0;
  cd_fits : free_clusters (fat_table m) ≠ 0
}.

Lemma spec_write_creates_folder v m rq : creates_folder v m rq -> spec_write v m rq = (0, spec_write_folder v m rq).
Proof.
  intros [_ Hpar Hdir Hnew Hslot Hsz Hfits]. unfold spec_write. rewrite Hdir, Hsz. cbn [negb Z.eqb].
  destruct (lookup_first _ _) as [e|] eqn:E.
  - apply lookup_first_Some in E as (_ & He & Hd). unfold duplicate, matches in Hd.
    eapply Forall_lookup_1 in Hnew; [|exact He]. by rewrite Hnew in Hd.
  - rewrite decide_False by done. by rewrite (proj2 (Z.eqb_neq _ _)) by done.
Qed.

Lemma lookup_first_insert p t (i : nat) e :
  (i < length t)%nat -> p e = true -> Forall (fun x => p x = false) t ->
  lookup_first p (<[i := e]> t) = Some e.
Proof.
  intros Hi Hp Hall. unfold lookup_first. rewrite (first_idx_eq p _ i e); [by apply list_lookup_insert_eq|..|done|].
  - by apply list_lookup_insert_eq.
  - intros j y Hj Hy. rewrite list_lookup_insert_ne in Hy by lia. by eapply Forall_lookup_1 in Hall.
Qed.

Section folders.
Context {D : Type} `{!BlockDevice D, !BlockDeviceSpec D}.
Implicit Types (s : fs D) (v : volume) (m : driver) (rq : FAT32DriverRequest).

(** A new folder is a folder: after [write] with size 0,
    [read_directory] of the same name finds it and returns the table with
    the folder's own name and cluster in entry 0, the parent's in entry 1
    and every other entry empty. *)
Theorem mkdir_read_directory s v m rq rq2 :
  repr s v m -> mounted m -> write_args_ok m rq -> creates_folder v m rq ->
  req_name rq2 = req_name rq -> length (req_ext rq2) = 3%nat -> bytes_ok (req_ext rq2) ->
  parent_cluster_number rq2 = parent_cluster_number rq ->
  is_word 32 (buffer_size rq2) -> CLUSTER_SIZE ≤ buffer_size rq2 ≤ Zlen (buf rq2) ->
  exists s1 s2 b, write s rq = Ret (0, s1) /\ read_directory s1 rq2 = Ret (0, b, s2) /\
    dec_array ENTRY_COUNT (take 2048 b) =
      new_directory (req_name rq) (first_free (fat_table m)) (parent_cluster_number rq).
Proof.
  intros Hs Hm Hargs Hcd Hn Hxl Hxb Hpeq Hw Hsz. pose proof (wa_request _ _ Hargs) as Hrq.
  destruct (write_correct s v m rq Hs Hm Hargs (root_no_overrun v m rq (cd_root _ _ _ Hcd))) as (s1 & Hwr & Hs1).
  rewrite (spec_write_creates_folder v m rq Hcd) in Hwr, Hs1. cbn [fst snd] in Hwr, Hs1.
  pose proof Hcd as [_ Hpar Hdir Hnew Hslot Hsz0 Hfits]. pose proof (allocated_in_map _ _ Hpar) as Hpm.
  destruct (first_free_mounted m Hm Hfits) as (Hc & Hc0 & _).
  set (c := first_free (fat_table m)) in *. set (p := parent_cluster_number rq) in *.
  assert (Hpc : p ≠ c) by (intros ->; by destruct Hpar).
  assert (Ht : table_ok (table_at v p)) by (destruct Hs as (Hr & <- & _); by apply table_at_ok).
  pose proof (proj1 Ht) as Hlen. change ENTRY_COUNT with 64%nat in Hlen.
  assert (Hns : (new_slot (table_at v p) < 64)%nat).
  { unfold new_slot. assert (0 < count free_slot (drop 2 (table_at v p)))%nat as Hpos by (unfold p in *; lia).
    apply count_pos in Hpos. rewrite length_drop in Hpos. lia. }
  set (v1 := (spec_write_folder v m rq).1) in *.
  assert (Hv : length v = 512%nat) by by eapply repr_length.
  assert (Hcm : in_map c) by (unfold in_map; lia).
  set (d := new_directory (req_name rq) c p).
  assert (Hd : table_ok d) by (apply new_directory_ok; apply Hrq).
  assert (Htab : table_at v1 p = add_entry (table_at v p) rq ATTR_SUBDIRECTORY c).
  { unfold v1, spec_write_folder, table_at at 1. cbn [fst]. fold p. fold c.
    rewrite vol_get_insert, decide_True by (rewrite ?length_insert; done).
    apply dec_enc_table. by apply add_entry_ok. }
  assert (Hblk : vol_get v1 c = enc_array d).
  { unfold v1, spec_write_folder. cbn [fst]. fold p. fold c.
    rewrite !vol_get_insert by (rewrite ?length_insert; done).
    by rewrite decide_False, decide_True by done. }
  destruct (new_slot_lookup _ Ht Hns) as (e & He & Hok).
  assert (Hfound : lookup_first (has_name (req_name rq)) (drop 2 (table_at v1 p)) =
    Some (new_entry e (req_name rq) (req_ext rq) ATTR_SUBDIRECTORY c (buffer_size rq))).
  { rewrite Htab. erewrite add_entry_eq by done. unfold new_slot. rewrite drop_insert_ge by lia.
    apply lookup_first_insert; [|unfold has_name; cbn; by rewrite bool_decide_true|done].
    rewrite length_drop. unfold new_slot in Hns. lia. }
  assert (Hent : entry_cluster (new_entry e (req_name rq) (req_ext rq) ATTR_SUBDIRECTORY c (buffer_size rq)) = c)
    by by apply entry_cluster_new, in_map_word.
  destruct (read_directory_correct s1 v1 _ rq2 Hs1) as (s2 & Hs2 & Hr);
    [split; [rewrite Hn; apply Hrq|done|done]|by rewrite Hpeq|lia| |].
  { rewrite Hpeq, Hn, Hfound. intros e2 [= <-]. by rewrite Hent. }
  exists s1, s2, (splice 0 (enc_array d) (buf rq2)). split; [done|]. split.
  - rewrite Hr. unfold spec_read_directory. rewrite (proj2 (Z.ltb_ge _ _)) by lia.
    rewrite Hpeq, Hn, Hfound. cbn [attribute new_entry]. rewrite Z.eqb_refl, Hent, Hblk.
    rewrite Htab. unfold is_dir, add_entry. rewrite list_lookup_alter_ne by (unfold new_slot; lia).
    unfold is_dir in Hdir. by rewrite Hdir.
  - destruct (table_block d Hd) as [Hbl _]. unfold splice. rewrite firstn_O. cbn [app].
    rewrite take_app_le by (rewrite Hbl; done). rewrite take_ge by (rewrite Hbl; done). by apply dec_enc_table.
Qed.

(** A chain read into a buffer without room for its clusters. *)
Lemma read_chain_short fat c l :
  chain fat c l -> forall s v m buffer off fuel,
  repr s v m -> fat_table m = fat -> (0 < fuel)%nat -> (length buffer < off + 2048 * fuel)%nat ->
  (length buffer < off + 2048 * length l)%nat ->
  read_chain fuel s c buffer off = Ub.
Proof.
  induction 1 as [c Hc Hv|c n l Hc Hv Hn Hl IH]; intros s v m buffer off fuel Hs Hf Hfuel Hlen Hshort;
    (destruct fuel as [|fuel]; [lia|]); cbn [read_chain length] in *;
    (rewrite (proj2 (Z.eqb_neq c _)) by by apply in_map_not_eof);
    destruct (read_clusters_repr s v m c Hs Hc) as (s1 & -> & Hs1);
    destruct (repr_block s v m c Hs Hc) as [Hb _]; rewrite bind_ret; unfold store_at.
  - by rewrite decide_False by lia.
  - case_decide; [|done]. rewrite bind_ret. assert (Hd : drv s1 = m) by apply Hs1. rewrite Hd.
    rewrite (cluster_map_get_in m c _ Hc) by (by rewrite Hf). rewrite bind_ret.
    change (Z.to_nat CLUSTER_SIZE) with 2048%nat.
    eapply IH; [done|done|lia|rewrite length_splice; lia|rewrite length_splice; lia].
Qed.

(** C35: The size check of [read] is against the file's size, but whole
    clusters are stored: a buffer that holds [filesize] bytes and not all
    the clusters of the file is accepted and written past its end. *)
Theorem read_overruns_buffer s v m rq e l :
  repr s v m -> request_ok rq -> in_map (parent_cluster_number rq) ->
  is_dir (table_at v (parent_cluster_number rq)) = true ->
  lookup_first (matches (req_name rq) (req_ext rq)) (table_at v (parent_cluster_number rq)) = Some e ->
  attribute e ≠ ATTR_SUBDIRECTORY -> filesize e ≤ buffer_size rq ->
  chain (fat_table m) (entry_cluster e) l -> Zlen (buf rq) < 2048 * Zlen l ->
  read s rq = Ub.
Proof.
  intros Hs [[Hn _] [Hx _] _] Hp Hdir Hfound Ha Hsz Hl Hshort. unfold read.
  destruct (read_table_repr s v m _ Hs Hp) as (s1 & -> & Hs1 & Ht). rewrite bind_ret.
  destruct (table_head _ Ht) as (e0 & -> & Heq). rewrite bind_ret, <- Heq, Hdir. cbn [negb].
  rewrite find_entry_eq by done. rewrite bind_ret.
  pose proof (found_entry (matches (req_name rq) (req_ext rq)) _ _ Ht eq_refl) as He.
  rewrite Hfound in He. destruct He as (Hne & -> & Hok). rewrite (proj2 (Z.eqb_neq _ _)) by exact Hne.
  rewrite bind_ret, (proj2 (Z.eqb_neq (attribute e) _)) by done. rewrite (proj2 (Z.ltb_ge _ _)) by done.
  unfold Zlen in Hshort. by erewrite read_chain_short by (done || lia).
Qed.

(** The search of [Delete] starts at entry 0, which names the folder
    itself: deleting "root" in an empty root directory returns 0, releases
    the root's own cluster and leaves a root that is no longer a folder. *)
Theorem Delete_root s v m rq :
  repr s v m -> mounted m -> table_at v ROOT_CLUSTER_NUMBER = root_directory ->
  request_ok rq -> parent_cluster_number rq = ROOT_CLUSTER_NUMBER ->
  req_name rq = take 8 root_literal -> req_ext rq = take 3 no_ext ->
  exists s', Delete s rq = Ret (0, s') /\
    (fat_table (drv s')).[ROOT_CLUSTER_NUMBER] = Some FAT32_FAT_EMPTY_ENTRY /\
    is_dir (table_at (vol s') ROOT_CLUSTER_NUMBER) = false.
Proof.
  intros Hs Hm Ht Hrq Hp Hn Hx. pose proof (repr_length _ _ _ Hs) as Hv.
  set (e := new_entry empty_entry (take 8 root_literal) (take 3 no_ext) ATTR_SUBDIRECTORY 2 0).
  assert (Hfirst : first_idx (matches (req_name rq) (req_ext rq)) root_directory = 0%nat)
    by (rewrite Hn, Hx; by vm_compute).
  assert (Hfound : lookup_first (matches (req_name rq) (req_ext rq)) root_directory = Some e)
    by (unfold lookup_first; by rewrite Hfirst).
  assert (Hempty : folder_empty v e = true).
  { unfold folder_empty. replace (entry_cluster e) with ROOT_CLUSTER_NUMBER by (by vm_compute).
    rewrite Ht. by vm_compute. }
  assert (Hcs : entry_clusters (fat_table m) e = [2]) by (by vm_compute).
  assert (Hspec : spec_delete v m rq = (0, spec_remove v m rq e)).
  { unfold spec_delete. rewrite Hp, Ht, demo_dir, Hfound, Hempty. done. }
  destruct (Delete_correct s v m rq Hs Hm Hrq) as (s' & Hdel & (_ & Hv' & Hd')); [by rewrite Hp| |].
  { rewrite Hp, Ht, Hfound. intros e2 [= <-]. by vm_compute. }
  rewrite Hspec in Hdel, Hv', Hd'. exists s'. split; [done|]. rewrite Hv', Hd'.
  unfold spec_remove. cbn [fst snd fat_table set_fat]. rewrite Hcs, Hp, Ht, Hfirst. cbn [clear wipe]. split.
  - apply list_lookup_insert_eq. rewrite (proj1 (drv_fat _ (mnt_ok _ Hm))). by apply Nat.ltb_lt.
  - unfold table_at. vol_simpl. rewrite dec_enc_table; [by vm_compute|].
    apply table_ok_insert; [apply root_directory_ok|apply empty_entry_ok].
Qed.
End folders.
