(* ===== verification/FatWitness.v ===== *)
(** * Concrete runs of the file system

    The theorems of FatProps, FatInvariant and FatLimits at a freshly formatted
    image and at that image with one file on it. *)
From S2P Require Import Prelude CString BlockDevice FatLayout Fat32 FatFacts FatChain FatLoops FatSpec FatRefine FatWrite FatMount FatContract FatProps FatInvariant FatLimits.

Definition demo_folder : FAT32DriverRequest :=
  MkRequest (replicate 2048 0) (bytes_of_string "docs" ++ replicate 4 0) (replicate 3 0) ROOT_CLUSTER_NUMBER 0.
Definition demo_ls : FAT32DriverRequest :=
  MkRequest (replicate 2048 0) (bytes_of_string "docs" ++ replicate 4 0) (replicate 3 0) ROOT_CLUSTER_NUMBER 2048.

Lemma demo_folder_args : write_args_ok demo_drv demo_folder.
Proof.
  split; [split; (split; [reflexivity|apply bytes_dec; reflexivity]) || (unfold is_word; simpl; lia)|done
         |by vm_compute|by apply Forall_replicate|].
  intros _. by vm_compute.
Qed.

Lemma demo_root_allocated : allocated (fat_table demo_drv) ROOT_CLUSTER_NUMBER.
Proof. split; [done|]. by vm_compute. Qed.

Lemma demo_creates_folder : creates_folder demo_vol demo_drv demo_folder.
Proof.
  split; change (parent_cluster_number demo_folder) with ROOT_CLUSTER_NUMBER; rewrite ?demo_root_table.
  - done.
  - exact demo_root_allocated.
  - exact demo_dir.
  - by apply Forall_replicate.
  - by vm_compute.
  - done.
  - by vm_compute.
Qed.

Lemma mkdir_read_directory_witness :
  exists s s1 s2 b, write s demo_folder = Ret (0, s1) /\ read_directory s1 demo_ls = Ret (0, b, s2) /\
    dec_array ENTRY_COUNT (take 2048 b) =
      new_directory (req_name demo_folder) (first_free (fat_table demo_drv)) ROOT_CLUSTER_NUMBER.
Proof.
  destruct demo_repr as (s & _ & Hs).
  destruct (mkdir_read_directory s demo_vol demo_drv demo_folder demo_ls Hs demo_mounted demo_folder_args
    demo_creates_folder) as (s1 & s2 & b & ? & ? & ?); try done.
  - by apply Forall_replicate.
  - by exists s, s1, s2, b.
Defined.

Lemma Delete_root_witness :
  exists s s', repr s demo_vol demo_drv /\ Delete s demo_root = Ret (0, s') /\
    is_dir (table_at (vol s') ROOT_CLUSTER_NUMBER) = false.
Proof.
  destruct demo_repr as (s & _ & Hs).
  destruct (Delete_root s demo_vol demo_drv demo_root Hs demo_mounted demo_root_table demo_root_ok)
    as (s' & ? & _ & ?); [reflexivity..|].
  by exists s, s'.
Defined.

Lemma demo_first_free : first_free (fat_table demo_drv) = 3.
Proof. by vm_compute. Qed.

(** The disk with [demo_file] on it. *)
Definition demo_vol2 : volume := (spec_write_file demo_vol demo_drv demo_file).1.
Definition demo_drv2 : driver := (spec_write_file demo_vol demo_drv demo_file).2.
Definition demo_exact : FAT32DriverRequest :=
  MkRequest (replicate 2000 0) (req_name demo_file) (req_ext demo_file) ROOT_CLUSTER_NUMBER 2000.
Definition demo_entry : FAT32DirectoryEntry := new_entry empty_entry (req_name demo_file) (req_ext demo_file) 0 3 2000.

Lemma demo_repr2 : exists s, repr s demo_vol2 demo_drv2.
Proof.
  destruct demo_repr as (s & _ & Hs).
  destruct (write_correct s demo_vol demo_drv demo_file Hs demo_mounted demo_write_args ltac:(done)) as (s' & _ & Hs').
  rewrite demo_spec_write in Hs'. by exists s'.
Qed.

Lemma demo_creates : creates_file demo_vol demo_drv demo_file.
Proof.
  split; change (parent_cluster_number demo_file) with ROOT_CLUSTER_NUMBER; rewrite ?demo_root_table.
  - exact demo_root_allocated.
  - exact demo_dir.
  - apply Forall_cons; split; [by vm_compute|]. apply Forall_cons; split; [by vm_compute|]. by apply Forall_replicate.
  - by vm_compute.
  - done.
  - by vm_compute.
Qed.

Lemma demo_table2 : table_at demo_vol2 ROOT_CLUSTER_NUMBER = add_entry root_directory demo_file 0 3.
Proof.
  destruct demo_repr as (s & _ & Hs).
  pose proof (table_after_write s demo_vol demo_drv demo_file Hs demo_mounted demo_file_ok demo_creates) as H.
  change (parent_cluster_number demo_file) with ROOT_CLUSTER_NUMBER in H.
  rewrite demo_root_table in H. rewrite <- demo_first_free. exact H.
Qed.

Lemma read_overruns_buffer_witness : exists s, repr s demo_vol2 demo_drv2 /\ read s demo_exact = Ub.
Proof.
  destruct demo_repr2 as (s & Hs). exists s. split; [exact Hs|].
  apply (read_overruns_buffer s demo_vol2 demo_drv2 demo_exact demo_entry [3] Hs).
  - split; (split; [reflexivity|apply bytes_dec; reflexivity]) || (unfold is_word; simpl; lia).
  - done.
  - change (parent_cluster_number demo_exact) with ROOT_CLUSTER_NUMBER. rewrite demo_table2. by vm_compute.
  - change (parent_cluster_number demo_exact) with ROOT_CLUSTER_NUMBER. rewrite demo_table2. by vm_compute.
  - done.
  - done.
  - constructor; by vm_compute.
  - by vm_compute.
Defined.

Lemma found_in_map (v : volume) (nm : list Z) p :
  match lookup_first (has_name nm) (drop 2 (table_at v p)) with Some e => (0 <=? entry_cluster e) && (entry_cluster e <? 512) | None => true end = true ->
  forall e, lookup_first (has_name nm) (drop 2 (table_at v p)) = Some e -> in_map (entry_cluster e).
Proof. intros H e He. rewrite He in H. unfold in_map. lia. Qed.

(** A folder made in the root is read. *)
Lemma demo_folder_written : spec_write demo_vol demo_drv demo_folder = (0, spec_write_folder demo_vol demo_drv demo_folder).
Proof.
  unfold spec_write. change (parent_cluster_number demo_folder) with ROOT_CLUSTER_NUMBER. rewrite demo_root_table, demo_dir.
  cbn [negb]. replace (lookup_first _ (drop 2 root_directory)) with (@None FAT32DirectoryEntry) by (by vm_compute).
  rewrite decide_False by (by vm_compute). change (buffer_size demo_folder =? 0) with true. cbv iota.
  by replace (free_clusters (fat_table demo_drv) =? 0) with false by (by vm_compute).
Qed.

Lemma read_directory_refines_witness :
  exists s s' b, read_directory s demo_ls = Ret (0, b, s') /\
    dec_array ENTRY_COUNT b = new_directory (req_name demo_folder) 3 ROOT_CLUSTER_NUMBER.
Proof.
  destruct demo_repr as (s0 & _ & Hs0).
  destruct (write_correct s0 demo_vol demo_drv demo_folder Hs0 demo_mounted demo_folder_args (root_no_overrun _ _ demo_folder eq_refl)) as (s & _ & Hs).
  rewrite demo_folder_written in Hs. cbn [fst snd] in Hs. set (v := (spec_write_folder demo_vol demo_drv demo_folder).1) in Hs.
  destruct (read_directory_refines s v _ demo_ls Hs) as (s' & _ & H).
  - split; (split; [reflexivity|apply bytes_dec; reflexivity]) || (unfold is_word; simpl; lia).
  - done.
  - by vm_compute.
  - intros e He _. revert e He. apply (found_in_map v). by vm_compute.
  - exists s, s', (spec_read_directory v demo_ls).2. split; [|by vm_compute]. rewrite H. do 2 f_equal.
Defined.

Definition demo_read : FAT32DriverRequest :=
  MkRequest (replicate 4096 7) (req_name demo_file) (req_ext demo_file) ROOT_CLUSTER_NUMBER 4096.

Lemma write_read_roundtrip_witness :
  exists s s1 s2 b, write s demo_file = Ret (0, s1) /\ read s1 demo_read = Ret (0, b, s2) /\
    take 2000 b = replicate 2000 65.
Proof.
  destruct demo_repr as (s & _ & Hs).
  destruct (write_read_roundtrip s demo_vol demo_drv demo_file demo_read Hs demo_mounted demo_write_args demo_creates)
    as (s1 & s2 & b & Hw & Hr & Hb).
  - done.
  - done.
  - done.
  - by vm_compute.
  - by vm_compute.
  - by vm_compute.
  - exists s, s1, s2, b. split; [exact Hw|]. split; [exact Hr|]. etrans; [exact Hb|]. by vm_compute.
Defined.

Lemma write_delete_roundtrip_witness :
  exists s s1 s2, write s demo_file = Ret (0, s1) /\ Delete s1 demo_file = Ret (0, s2) /\ drv s2 = demo_drv.
Proof.
  destruct demo_repr as (s & _ & Hs).
  destruct (write_delete_roundtrip s demo_vol demo_drv demo_file Hs demo_mounted demo_write_args demo_creates)
    as (s1 & s2 & Hw & Hd & Hm & _).
  by exists s, s1, s2.
Defined.

Lemma lookup_formatted x : 3 ≤ x < 512 -> formatted_fat.[x] = Some 0.
Proof.
  intros Hx. unfold formatted_fat, fresh_fat. rewrite list_lookup_insert_ne by lia.
  replace (Z.to_nat x) with (S (S (Z.to_nat (x - 2)))) by lia. simpl. apply lookup_replicate_2. lia.
Qed.

(** On a fresh disk the root is the only chain. *)
Lemma demo_partitioned : partitioned (fat_table demo_drv) [[2]].
Proof.
  change (fat_table demo_drv) with formatted_fat. split.
  - apply Forall_singleton. exists 2. constructor; by vm_compute.
  - simpl. apply NoDup_singleton.
  - intros x. simpl. rewrite list_elem_of_singleton. split.
    + intros [Hx Hne]. destruct (decide (x = 2)); [done|]. by rewrite lookup_formatted in Hne by lia.
    + intros ->. split; [done|]. by vm_compute.
Qed.

Lemma write_keeps_partition_witness :
  exists s s', write s demo_file = Ret (0, s') /\ mounted (drv s') /\
    partitioned (fat_table (drv s')) (added_chain demo_drv demo_file :: [[2]]) /\ Zlen (added_chain demo_drv demo_file) = 1.
Proof.
  destruct demo_repr as (s & _ & Hs).
  destruct (write_correct s demo_vol demo_drv demo_file Hs demo_mounted demo_write_args ltac:(done)) as (s2 & Hw2 & _). rewrite demo_spec_write in Hw2.
  destruct (write_keeps_partition s demo_vol demo_drv demo_file [[2]] Hs demo_mounted demo_write_args ltac:(done) demo_partitioned)
    as (code & s' & Hw & Hm & Hadd & _).
  rewrite Hw in Hw2. injection Hw2 as -> _. destruct (Hadd eq_refl) as [Hp Hl]. exists s, s'. exact (conj Hw (conj Hm (conj Hp Hl))).
Defined.

Lemma demo_mounted2 : mounted demo_drv2.
Proof.
  change demo_drv2 with (set_fat demo_drv (link (fat_table demo_drv) 3 [])). apply mounted_link.
  - exact demo_mounted.
  - by apply Forall_singleton.
  - intros x Hx ->%list_elem_of_singleton. lia.
Qed.

Lemma demo_partitioned2 : partitioned (fat_table demo_drv2) [[3]; [2]].
Proof.
  change (fat_table demo_drv2) with (link (fat_table demo_drv) 3 []).
  apply partition_link; [by vm_compute|exact demo_partitioned| |apply NoDup_singleton].
  apply Forall_singleton. split; [done|]. by apply lookup_formatted.
Qed.

Lemma demo_found2 :
  lookup_first (matches (req_name demo_file) (req_ext demo_file)) (add_entry root_directory demo_file 0 3) = Some demo_entry.
Proof. by vm_compute. Qed.

Lemma Delete_keeps_partition_witness :
  exists s code s', Delete s demo_file = Ret (code, s') /\ (code ≠ 0 -> drv s' = demo_drv2 /\ vol s' = demo_vol2).
Proof.
  destruct demo_repr2 as (s & Hs).
  destruct (Delete_keeps_partition s demo_vol2 demo_drv2 demo_file [[3]; [2]] Hs demo_mounted2 demo_file_ok)
    as (code & s' & ? & _ & ?).
  - done.
  - exact demo_partitioned2.
  - change (parent_cluster_number demo_file) with ROOT_CLUSTER_NUMBER. rewrite demo_table2.
    rewrite demo_found2. intros e [= <-]. replace (entry_clusters (fat_table demo_drv2) demo_entry) with [3] by (by vm_compute). left.
  - by exists s, code, s'.
Defined.

Lemma demo_chain2 : chain (fat_table demo_drv2) 3 [3].
Proof. constructor; by vm_compute. Qed.

Lemma demo_backed2 e : lookup_first (matches (req_name demo_file) (req_ext demo_file)) (table_at demo_vol2 ROOT_CLUSTER_NUMBER) = Some e ->
  e = demo_entry /\ entry_backed (fat_table demo_drv2) e.
Proof.
  rewrite demo_table2, demo_found2. intros [= <-]. split; [reflexivity|]. exact (entry_backed_in _ _ _ demo_partitioned2 ltac:(
    replace (entry_clusters (fat_table demo_drv2) demo_entry) with [3] by (by vm_compute); left)).
Qed.

Lemma read_refines_witness :
  exists s s' b, repr s' demo_vol2 demo_drv2 /\ read s demo_read = Ret (0, b, s') /\ b = demo_data ++ replicate 2048 7.
Proof.
  destruct demo_repr2 as (s & Hs).
  destruct (read_refines s demo_vol2 demo_drv2 demo_read Hs) as (s' & Hs' & H).
  - split; (split; [reflexivity|apply bytes_dec; reflexivity]) || (unfold is_word; simpl; lia).
  - done.
  - intros e He. apply demo_backed2 in He as [-> Hb]. split; [exact Hb|]. intros _ _. by vm_compute.
  - exists s, s', (spec_read demo_vol2 (fat_table demo_drv2) demo_read).2. split; [exact Hs'|]. split; [|by vm_compute].
    rewrite H. do 2 f_equal.
Defined.

Lemma Delete_refines_witness :
  exists s s' v', repr s demo_vol2 demo_drv2 /\ Delete s demo_file = Ret (0, s') /\ repr s' v' demo_drv /\
    table_at v' ROOT_CLUSTER_NUMBER = root_directory /\ vol_get v' 3 = replicate 2048 0.
Proof.
  destruct demo_repr2 as (s & Hs).
  destruct (Delete_refines s demo_vol2 demo_drv2 demo_file Hs demo_mounted2 demo_file_ok) as (s' & H & Hs').
  - done.
  - intros e He. apply demo_backed2 in He as [_ Hb]. exact Hb.
  - replace (spec_delete demo_vol2 demo_drv2 demo_file).1 with 0 in H by (by vm_compute).
    replace (spec_delete demo_vol2 demo_drv2 demo_file).2.2 with demo_drv in Hs' by (by vm_compute).
    exists s, s', (spec_delete demo_vol2 demo_drv2 demo_file).2.1. split; [exact Hs|]. split; [exact H|]. split; [exact Hs'|]. split; by vm_compute.
Defined.

Lemma write_preserves_files_witness :
  exists s code s', write s demo_folder = Ret (code, s') /\ chain (fat_table (drv s')) 3 [3] /\
    get_data (vol s') [3] = get_data demo_vol2 [3].
Proof.
  destruct demo_repr2 as (s & Hs).
  destruct (write_preserves_files s demo_vol2 demo_drv2 demo_folder 3 [3] Hs demo_mounted2) as (code & s' & ? & ? & ?).
  - destruct demo_folder_args as [Hr Hp Hb Hby _]. split; [exact Hr|exact Hp|exact Hb|exact Hby|]. intros _. by vm_compute.
  - by apply root_no_overrun.
  - exact demo_chain2.
  - by apply Forall_singleton.
  - intros H%list_elem_of_singleton. done.
  - by exists s, code, s'.
Defined.
