(* ===== verification/Paging.v ===== *)
(** * paging.c: page frames and page directories

    [page_manager_state], the page directories and the CR3 register.  The
    addresses that the linker gives to [page_directory_list] and to the
    kernel's own directory are parameters; [directory_layout] says that they
    are 4 KiB apart in the kernel's half of the address space. *)
From S2P Require Import Prelude.

Definition PAGE_ENTRY_COUNT : nat := 1024.
Definition PAGE_FRAME_SIZE : Z := 2 ^ 22.
Definition PAGE_FRAME_MAX_COUNT : Z := 32.
Definition PAGING_DIRECTORY_TABLE_MAX_COUNT : Z := 32.
Definition KERNEL_VIRTUAL_ADDRESS_BASE : Z := 0xC0000000.

Record PageDirectoryEntryFlag := MkFlag {
  present_bit : Z;
  write_bit : Z;
  user_supervisor_bit : Z;
  pwt_bit : Z;
  pcd_bit : Z;
  accesed_bit : Z;
  dirty_bit : Z;
  use_pagesize_4_mb : Z
}.

Record PageDirectoryEntry := MkPde {
  flag : PageDirectoryEntryFlag;
  global_page : Z;
  ignored : Z;
  pat : Z;
  higher_address : Z;
  reserved : Z;
  lower_address : Z
}.

Definition zero_flag : PageDirectoryEntryFlag := MkFlag 0 0 0 0 0 0 0 0.
Definition zero_pde : PageDirectoryEntry := MkPde zero_flag 0 0 0 0 0 0.

Abbreviation PageDirectory := (list PageDirectoryEntry).
Definition zero_directory : PageDirectory := replicate PAGE_ENTRY_COUNT zero_pde.

(** The flags given to user frames and to the kernel's mappings. *)
Definition user_flag : PageDirectoryEntryFlag := MkFlag 1 1 1 0 0 0 0 1.
Definition kernel_flag : PageDirectoryEntryFlag := MkFlag 1 1 0 0 0 0 0 1.
Definition kernel_higher_half : PageDirectoryEntry := MkPde kernel_flag 0 0 0 0 0 0.

(** [_paging_kernel_page_directory]: frame 0 at 0 and at the higher half. *)
Definition kernel_directory : PageDirectory :=
  <[0%nat := kernel_higher_half]> (<[0x300%nat := kernel_higher_half]> zero_directory).

(** The word the MMU reads: the bit fields from bit 0 up. *)
Definition encode_flag (f : PageDirectoryEntryFlag) : Z :=
  present_bit f + 2 * (write_bit f + 2 * (user_supervisor_bit f + 2 * (pwt_bit f + 2 * (pcd_bit f +
  2 * (accesed_bit f + 2 * (dirty_bit f + 2 * use_pagesize_4_mb f)))))).

Definition encode_pde (e : PageDirectoryEntry) : Z :=
  encode_flag (flag e) + 2 ^ 8 * (global_page e + 2 * (ignored e + 2 ^ 3 * (pat e + 2 * (higher_address e +
  2 ^ 8 * (reserved e + 2 * lower_address e))))).

Record PageManagerState := MkPageManager {
  page_frame_map : list bool;
  free_page_frame_count : Z
}.

(** [flushed] is the sequence of operands of [invlpg]. *)
Record paging := MkPaging {
  kernel_dir : PageDirectory;
  page_directory_list : list PageDirectory;
  page_directory_used : list bool;
  page_manager_state : PageManagerState;
  cr3 : Z;
  flushed : list Z
}.

Definition paging_init (cr3 : Z) : paging :=
  MkPaging kernel_directory (replicate 32 zero_directory) (replicate 32 false)
    (MkPageManager (true :: replicate 31 false) (PAGE_FRAME_MAX_COUNT - 1)) cr3 [].

Definition set_dirs (s : paging) (l : list PageDirectory) : paging :=
  MkPaging (kernel_dir s) l (page_directory_used s) (page_manager_state s) (cr3 s) (flushed s).
Definition set_used (s : paging) (u : list bool) : paging :=
  MkPaging (kernel_dir s) (page_directory_list s) u (page_manager_state s) (cr3 s) (flushed s).
Definition set_manager (s : paging) (m : PageManagerState) : paging :=
  MkPaging (kernel_dir s) (page_directory_list s) (page_directory_used s) m (cr3 s) (flushed s).
Definition set_cr3 (s : paging) (c : Z) : paging :=
  MkPaging (kernel_dir s) (page_directory_list s) (page_directory_used s) (page_manager_state s) c (flushed s).
Definition set_kernel_dir (s : paging) (d : PageDirectory) : paging :=
  MkPaging d (page_directory_list s) (page_directory_used s) (page_manager_state s) (cr3 s) (flushed s).

(** [invlpg]. *)
Definition flush_single_tlb (s : paging) (virtual_addr : Z) : paging :=
  MkPaging (kernel_dir s) (page_directory_list s) (page_directory_used s) (page_manager_state s) (cr3 s)
    (flushed s ++ [virtual_addr]).

Definition page_index (virtual_addr : Z) : Z := Z.land (Z.shiftr virtual_addr 22) 0x3FF.

Section paging.
Context (list_addr kernel_addr : Z).

(** The address of [page_directory_list[i]]. *)
Definition directory_addr (i : Z) : Z := list_addr + 4096 * i.

(** [Some i] is the directory [page_directory_list[i]], [None] the kernel's. *)
Definition directory_at (p : Z) : res (option nat) :=
  if p =? kernel_addr then Ret None
  else if decide (list_addr ≤ p < directory_addr PAGING_DIRECTORY_TABLE_MAX_COUNT /\ (p - list_addr) mod 4096 = 0)
  then Ret (Some (Z.to_nat ((p - list_addr) / 4096))) else Ub.

Definition get_directory (s : paging) (p : Z) : res PageDirectory :=
  r ← directory_at p;
  match r with
  | None => Ret (kernel_dir s)
  | Some i => of_option (page_directory_list s !! i)
  end.

Definition set_directory (s : paging) (p : Z) (d : PageDirectory) : res paging :=
  r ← directory_at p;
  match r with
  | None => Ret (set_kernel_dir s d)
  | Some i => Ret (set_dirs s (<[i := d]> (page_directory_list s)))
  end.

Definition update_page_directory_entry (s : paging) (page_dir physical_addr virtual_addr : Z)
    (f : PageDirectoryEntryFlag) : res paging :=
  d ← get_directory s page_dir;
  e ← arr_get d (page_index virtual_addr);
  d ← arr_set d (page_index virtual_addr)
        (MkPde f (global_page e) (ignored e) (pat e) (higher_address e) (reserved e)
          (Z.land (Z.shiftr physical_addr 22) 0x3FF));
  s ← set_directory s page_dir d;
  Ret (flush_single_tlb s virtual_addr).

Definition paging_allocate_check (s : paging) (amount : Z) : bool :=
  let required_number_of_pages :=
    amount / PAGE_FRAME_SIZE + (if 0 <? amount mod PAGE_FRAME_SIZE then 1 else 0) in
  required_number_of_pages <=? free_page_frame_count (page_manager_state s).

Definition paging_allocate_user_page_frame (s : paging) (page_dir virtual_addr : Z) : res (bool * paging) :=
  if negb (paging_allocate_check s PAGE_FRAME_SIZE) then Ret (false, s)
  else
    i ← scan_while 32 (fun i => arr_get (page_frame_map (page_manager_state s)) i) 0;
    s ← update_page_directory_entry s page_dir (u32 (i * PAGE_FRAME_SIZE)) virtual_addr user_flag;
    m ← arr_set (page_frame_map (page_manager_state s)) i true;
    Ret (true, set_manager s (MkPageManager m (u32 (free_page_frame_count (page_manager_state s) - 1)))).

Definition paging_free_user_page_frame (s : paging) (page_dir virtual_addr : Z) : res (bool * paging) :=
  d ← get_directory s page_dir;
  page_entry ← arr_get d (page_index virtual_addr);
  if present_bit (flag page_entry) =? 0 then Ret (false, s)
  else
    m ← arr_set (page_frame_map (page_manager_state s)) (lower_address page_entry) false;
    d ← arr_set d (page_index virtual_addr) zero_pde;
    s ← set_directory s page_dir d;
    Ret (true, set_manager s (MkPageManager m (u32 (free_page_frame_count (page_manager_state s) + 1)))).

(** The pointer is 0 when no directory is left. *)
Definition paging_create_new_page_directory (s : paging) : res (Z * paging) :=
  i ← scan_while 32 (fun i => arr_get (page_directory_used s) i) 0;
  if i =? PAGING_DIRECTORY_TABLE_MAX_COUNT then Ret (0, s)
  else
    used ← arr_set (page_directory_used s) i true;
    d ← arr_get (page_directory_list s) i;
    d ← arr_set d 0x300 kernel_higher_half;
    dirs ← arr_set (page_directory_list s) i d;
    Ret (directory_addr i, set_dirs (set_used s used) dirs).

Definition paging_free_page_directory (s : paging) (page_dir : Z) : res (bool * paging) :=
  i ← scan_while 32 (fun i => Ret (negb (directory_addr i =? page_dir))) 0;
  if i =? PAGING_DIRECTORY_TABLE_MAX_COUNT then Ret (false, s)
  else
    used ← arr_set (page_directory_used s) i false;
    s ← set_directory (set_used s used) page_dir zero_directory;
    Ret (true, s).

Definition paging_get_current_page_directory_addr (s : paging) : Z :=
  u32 (cr3 s + KERNEL_VIRTUAL_ADDRESS_BASE).

Definition paging_use_page_directory (s : paging) (page_dir_virtual_addr : Z) : paging :=
  set_cr3 s (if KERNEL_VIRTUAL_ADDRESS_BASE <? page_dir_virtual_addr
             then page_dir_virtual_addr - KERNEL_VIRTUAL_ADDRESS_BASE else page_dir_virtual_addr).
End paging.
