(* ===== verification/PagingFacts.v ===== *)
(** * Properties of the page manager

    The invariant of the frame map and the directories, and what each
    operation of paging.c does to it. *)
From S2P Require Import Prelude Paging.

(** The directories lie in the kernel's half, apart from the kernel's own. *)
Record directory_layout (list_addr kernel_addr : Z) : Prop := MkLayout {
  lay_high : KERNEL_VIRTUAL_ADDRESS_BASE < list_addr;
  lay_end : directory_addr list_addr PAGING_DIRECTORY_TABLE_MAX_COUNT ≤ 2 ^ 32;
  lay_apart : kernel_addr < list_addr \/ directory_addr list_addr PAGING_DIRECTORY_TABLE_MAX_COUNT ≤ kernel_addr
}.

Definition entry (s : paging) (i j : nat) : option PageDirectoryEntry :=
  d ← page_directory_list s !! i; d !! j.

(** A mapping that ring 3 can use. *)
Definition user_mapped (e : PageDirectoryEntry) : bool :=
  (present_bit (flag e) =? 1) && (user_supervisor_bit (flag e) =? 1).

(** Virtual page [j] of directory [i] is a user page on frame [f]. *)
Definition maps (s : paging) (i j : nat) (f : Z) : Prop :=
  exists e, entry s i j = Some e /\ user_mapped e = true /\ lower_address e = f.

Abbreviation frame_map s := (page_frame_map (page_manager_state s)).
Abbreviation free_count s := (free_page_frame_count (page_manager_state s)).

Record frames_ok (s : paging) : Prop := MkFramesOk {
  fr_map_len : length (frame_map s) = 32%nat;
  fr_used_len : length (page_directory_used s) = 32%nat;
  fr_dirs : length (page_directory_list s) = 32%nat /\
            Forall (fun d => length d = 1024%nat) (page_directory_list s);
  fr_count : free_count s = Z.of_nat (count negb (frame_map s));
  fr_kernel : frame_map s !! 0%nat = Some true;
  fr_range i j f : maps s i j f -> 0 < f < 32 /\ frame_map s !! Z.to_nat f = Some true;
  fr_inj i j i' j' f : maps s i j f -> maps s i' j' f -> i = i' /\ j = j';
  fr_shape i j e : entry s i j = Some e -> present_bit (flag e) ≠ 0 -> j ≠ 768%nat -> user_mapped e = true;
  fr_half i : page_directory_used s !! i = Some true -> entry s i 768 = Some kernel_higher_half;
  fr_unused i : page_directory_used s !! i = Some false -> page_directory_list s !! i = Some zero_directory
}.

Lemma entry_Some s i j e :
  entry s i j = Some e <-> exists d, page_directory_list s !! i = Some d /\ d !! j = Some e.
Proof.
  unfold entry. destruct (page_directory_list s !! i) as [d|] eqn:E; simpl; naive_solver.
Qed.

Lemma entry_zero s i j e : page_directory_list s !! i = Some zero_directory -> entry s i j = Some e -> e = zero_pde.
Proof.
  intros Hd (d & Hd' & He)%entry_Some. rewrite Hd in Hd'. injection Hd' as <-.
  by apply lookup_replicate in He as [-> _].
Qed.

Lemma page_index_range va : 0 ≤ page_index va < 1024.
Proof.
  unfold page_index. rewrite (land_ones_mod _ 10) by done. by apply Z.mod_pos_bound.
Qed.

Lemma frame_address f : 0 ≤ f < 1024 -> Z.land (Z.shiftr (u32 (f * PAGE_FRAME_SIZE)) 22) 0x3FF = f.
Proof.
  intros Hf. unfold PAGE_FRAME_SIZE. rewrite wrap_small by (unfold is_word; lia).
  rewrite (land_ones_mod _ 10) by done. rewrite Z.shiftr_div_pow2, Z.div_mul by done. by apply Z.mod_small.
Qed.

(** The words the MMU sees: PS, US, RW, P for user pages, PS, RW, P for the kernel's. *)
Definition user_pde (f : Z) : PageDirectoryEntry := MkPde user_flag 0 0 0 0 0 f.

Section pages.
Context (list_addr kernel_addr : Z) (Hlay : directory_layout list_addr kernel_addr).

Lemma directory_at_list i : 0 ≤ i < 32 -> directory_at list_addr kernel_addr (directory_addr list_addr i) = Ret (Some (Z.to_nat i)).
Proof using Hlay.
  intros Hi. destruct Hlay as [_ _ Hap]. unfold directory_at, directory_addr, PAGING_DIRECTORY_TABLE_MAX_COUNT in *.
  rewrite (proj2 (Z.eqb_neq _ _)) by lia. rewrite decide_True.
  - do 3 f_equal. replace (list_addr + 4096 * i - list_addr) with (i * 4096) by lia. by apply Z.div_mul.
  - split; [lia|]. replace (list_addr + 4096 * i - list_addr) with (i * 4096) by lia. by apply Z.mod_mul.
Qed.

Lemma get_directory_list s i d :
  0 ≤ i < 32 -> page_directory_list s !! Z.to_nat i = Some d ->
  get_directory list_addr kernel_addr s (directory_addr list_addr i) = Ret d.
Proof using Hlay. intros Hi Hd. unfold get_directory. rewrite directory_at_list by done. simpl. by rewrite Hd. Qed.

Lemma set_directory_list s i d :
  0 ≤ i < 32 ->
  set_directory list_addr kernel_addr s (directory_addr list_addr i) d =
    Ret (set_dirs s (<[Z.to_nat i := d]> (page_directory_list s))).
Proof using Hlay. intros Hi. unfold set_directory. by rewrite directory_at_list. Qed.

Lemma allocate_check_frame s : paging_allocate_check s PAGE_FRAME_SIZE = (1 <=? free_count s).
Proof using Type. reflexivity. Qed.

Lemma scan_frames s :
  length (frame_map s) = 32%nat ->
  scan_while 32 (fun i => arr_get (frame_map s) i) 0 = Ret (Z.of_nat (first_idx negb (frame_map s))).
Proof using Type.
  intros Hl. rewrite (scan_while_arr negb (frame_map s)); [|done|unfold Zlen; lia|].
  - rewrite drop_0, take_ge by lia. done.
  - intros i y Hi Hy. rewrite (arr_get_lookup _ _ y) by (done || lia). by rewrite negb_involutive.
Qed.

Lemma entry_insert s s' i j d e i' j' :
  page_directory_list s' = <[i := <[j := e]> d]> (page_directory_list s) ->
  page_directory_list s !! i = Some d -> (j < length d)%nat ->
  entry s' i' j' = if decide (i' = i /\ j' = j) then Some e else entry s i' j'.
Proof using Type.
  intros Hs' Hd Hj. unfold entry. rewrite Hs'. destruct (decide (i' = i)) as [->|Hne].
  - rewrite list_lookup_insert_eq by by eapply lookup_lt_Some. rewrite Hd. simpl.
    destruct (decide (j' = j)) as [->|Hjn].
    + rewrite decide_True by done. by apply list_lookup_insert_eq.
    + rewrite decide_False by naive_solver. by apply list_lookup_insert_ne.
  - rewrite decide_False by naive_solver. by rewrite list_lookup_insert_ne.
Qed.

(** What a successful allocation does. *)
Record mapped_new (s s' : paging) (i j : nat) (f : Z) : Prop := MkMappedNew {
  mn_free : frame_map s !! Z.to_nat f = Some false;
  mn_least : forall g, 0 ≤ g < f -> frame_map s !! Z.to_nat g = Some true;
  mn_entry : exists e, entry s' i j = Some e /\ flag e = user_flag /\ lower_address e = f;
  mn_frame : forall i' j', ~ (i' = i /\ j' = j) -> entry s' i' j' = entry s i' j';
  mn_map : frame_map s' = <[Z.to_nat f := true]> (frame_map s);
  mn_lens : length (page_directory_list s') = length (page_directory_list s) /\
            (Forall (fun d => length d = 1024%nat) (page_directory_list s) ->
             Forall (fun d => length d = 1024%nat) (page_directory_list s'));
  mn_other : forall i', i' ≠ i -> page_directory_list s' !! i' = page_directory_list s !! i';
  mn_count : free_count s' = free_count s - 1;
  mn_rest : page_directory_used s' = page_directory_used s /\ cr3 s' = cr3 s /\ kernel_dir s' = kernel_dir s
}.

Lemma allocate_spec s i va e :
  frames_ok s -> 0 ≤ i < 32 -> 0 < free_count s ->
  entry s (Z.to_nat i) (Z.to_nat (page_index va)) = Some e ->
  exists f s', paging_allocate_user_page_frame list_addr kernel_addr s (directory_addr list_addr i) va = Ret (true, s') /\
    0 < f < 32 /\ flushed s' = flushed s ++ [va] /\
    mapped_new s s' (Z.to_nat i) (Z.to_nat (page_index va)) f.
Proof using Hlay.
  intros Hok Hi Hfree (d & Hd & He)%entry_Some. pose proof (page_index_range va) as Hj.
  destruct Hok as [Hml _ [Hdl Hdf] Hcount Hk _ _ _ _ _].
  unfold paging_allocate_user_page_frame. rewrite allocate_check_frame, (proj2 (Z.leb_le _ _)) by lia. cbn [negb].
  rewrite scan_frames by done. rewrite bind_ret.
  assert (Hlt : (first_idx negb (frame_map s) < 32)%nat) by (rewrite <- Hml; apply count_pos; lia).
  destruct (first_idx_lookup negb (frame_map s)) as (b & Hb & Hbf); [lia|]. destruct b; [done|].
  set (f := first_idx negb (frame_map s)) in *.
  assert (Hf0 : (0 < f)%nat) by (destruct f; [congruence|lia]).
  unfold update_page_directory_entry. rewrite (get_directory_list _ _ d) by done. rewrite bind_ret.
  rewrite (arr_get_lookup _ _ e) by (lia || done). rewrite bind_ret.
  assert (Hdlen : length d = 1024%nat) by by eapply Forall_lookup_1 in Hdf.
  rewrite arr_set_in by (unfold Zlen; lia). rewrite bind_ret, frame_address by lia.
  rewrite set_directory_list by done. rewrite !bind_ret. cbn [page_manager_state flush_single_tlb set_dirs].
  rewrite arr_set_in by (unfold Zlen; lia). rewrite bind_ret. rewrite wrap_small.
  2: { unfold is_word. pose proof (count_le negb (frame_map s)). lia. }
  match goal with |- context [Ret (true, ?x)] => set (s1 := x) end.
  assert (Hent := fun i' j' => entry_insert s s1 (Z.to_nat i) (Z.to_nat (page_index va)) d _ i' j' eq_refl Hd ltac:(lia)).
  exists (Z.of_nat f), s1. split; [done|]. split; [lia|]. split; [done|].
  split; try done.
  - by rewrite Nat2Z.id.
  - intros g Hg. destruct (lookup_lt_is_Some_2 (frame_map s) (Z.to_nat g)) as [b' Hb']; [lia|].
    pose proof (first_idx_before negb (frame_map s) (Z.to_nat g) b') as H. rewrite Hb'. f_equal.
    destruct b'; [done|]. exfalso. discriminate H; [unfold f in Hg; lia|done].
  - eexists.
    rewrite Hent, decide_True by done. done.
  - intros i' j' Hne. by rewrite Hent, decide_False by done.
  - split; [apply length_insert|]. intros HF. apply Forall_insert; [done|]. by rewrite length_insert.
  - intros i' Hne. by apply list_lookup_insert_ne.
Qed.

Lemma maps_new s s' i j f i' j' g :
  mapped_new s s' i j f -> maps s' i' j' g -> (i' = i /\ j' = j /\ g = f) \/ (~ (i' = i /\ j' = j) /\ maps s i' j' g).
Proof using Type.
  intros [_ _ (e & He & _ & Hl) Hframe _ _ _ _ _] (e' & He' & Hu & Hg).
  destruct (decide (i' = i /\ j' = j)) as [[-> ->]|Hne].
  - left. rewrite He in He'. by simplify_eq.
  - right. split; [done|]. exists e'. by rewrite <- Hframe.
Qed.

Lemma allocate_ok s s' i j f :
  frames_ok s -> j ≠ 768%nat -> 0 < f < 32 -> page_directory_used s !! i = Some true ->
  mapped_new s s' i j f -> frames_ok s'.
Proof using Type.
  intros Hok Hj Hf Hused Hmn.
  pose proof Hmn as [Hfree Hleast (e & He & Hfl & Hlow) Hframe Hmap [Hdl Hdf] Hother Hcount (Hu & _)].
  assert (Hfree' : forall i' j' g, maps s i' j' g -> g ≠ f).
  { intros i' j' g Hm ->. apply (fr_range _ Hok) in Hm as [_ Hm]. congruence. }
  split.
  - by rewrite Hmap, length_insert, (fr_map_len _ Hok).
  - by rewrite Hu, (fr_used_len _ Hok).
  - rewrite Hdl. split; [apply Hok|]. apply Hdf, Hok.
  - rewrite Hcount, Hmap, (fr_count _ Hok). pose proof (count_insert negb (frame_map s) (Z.to_nat f) true false Hfree). simpl in *. lia.
  - rewrite Hmap, list_lookup_insert_ne by lia. apply Hok.
  - intros i' j' g Hm. destruct (maps_new _ _ _ _ _ _ _ _ Hmn Hm) as [(-> & -> & ->)|[_ Hold]].
    + split; [done|]. rewrite Hmap. apply list_lookup_insert_eq. rewrite (fr_map_len _ Hok). lia.
    + pose proof (Hfree' _ _ _ Hold) as Hgf. apply (fr_range _ Hok) in Hold as [? Hg]. split; [done|].
      rewrite Hmap, list_lookup_insert_ne by lia. done.
  - intros i1 j1 i2 j2 g H1 H2.
    destruct (maps_new _ _ _ _ _ _ _ _ Hmn H1) as [(-> & -> & ->)|[_ O1]];
      destruct (maps_new _ _ _ _ _ _ _ _ Hmn H2) as [(-> & -> & Heq)|[_ O2]]; try done.
    + by apply Hfree' in O2.
    + subst. by apply Hfree' in O1.
    + by eapply (fr_inj _ Hok).
  - intros i' j' e' He' Hp Hj'. destruct (decide (i' = i /\ j' = j)) as [[-> ->]|Hne].
    + rewrite He in He'. injection He' as <-. unfold user_mapped. by rewrite Hfl.
    + rewrite Hframe in He' by done. by eapply (fr_shape _ Hok).
  - intros i' Hi'. rewrite Hu in Hi'. rewrite Hframe by naive_solver. by apply Hok.
  - intros i' Hi'. rewrite Hu in Hi'. rewrite Hother; [by apply Hok|]. intros ->. congruence.
Qed.

(** Freeing: the directories, the frame map and the count afterwards. *)
Lemma free_user_spec s i va e :
  frames_ok s -> 0 ≤ i < 32 -> page_index va ≠ 768 ->
  entry s (Z.to_nat i) (Z.to_nat (page_index va)) = Some e ->
  if present_bit (flag e) =? 0
  then paging_free_user_page_frame list_addr kernel_addr s (directory_addr list_addr i) va = Ret (false, s)
  else exists s', paging_free_user_page_frame list_addr kernel_addr s (directory_addr list_addr i) va = Ret (true, s') /\
    frame_map s' = <[Z.to_nat (lower_address e) := false]> (frame_map s) /\ free_count s' = free_count s + 1 /\
    page_directory_used s' = page_directory_used s /\
    length (page_directory_list s') = 32%nat /\ Forall (fun d => length d = 1024%nat) (page_directory_list s') /\
    (forall i', i' ≠ Z.to_nat i -> page_directory_list s' !! i' = page_directory_list s !! i') /\
    (forall i' j', entry s' i' j' = if decide (i' = Z.to_nat i /\ j' = Z.to_nat (page_index va)) then Some zero_pde else entry s i' j').
Proof using Hlay.
  intros Hok Hi Hj Hent. pose proof Hent as (d & Hd & He)%entry_Some. pose proof (page_index_range va) as Hr.
  unfold paging_free_user_page_frame. rewrite (get_directory_list _ _ d) by done. rewrite bind_ret.
  rewrite (arr_get_lookup _ _ e) by (lia || done). rewrite bind_ret.
  destruct (Z.eqb_spec (present_bit (flag e)) 0) as [|Hp]; [done|].
  assert (Hm : maps s (Z.to_nat i) (Z.to_nat (page_index va)) (lower_address e)).
  { exists e. split; [done|]. split; [|done]. eapply (fr_shape _ Hok); [done|done|lia]. }
  apply (fr_range _ Hok) in Hm as [Hf Hmf]. pose proof (fr_map_len _ Hok) as Hml.
  destruct (fr_dirs _ Hok) as [Hdl Hdf]. assert (Hdlen : length d = 1024%nat) by by eapply Forall_lookup_1 in Hdf.
  rewrite (arr_set_in (frame_map s)) by (unfold Zlen; lia). rewrite bind_ret. rewrite arr_set_in by (unfold Zlen; lia). rewrite bind_ret.
  rewrite set_directory_list by done. rewrite bind_ret. cbn [page_manager_state set_dirs]. rewrite wrap_small.
  2: { unfold is_word. rewrite (fr_count _ Hok). pose proof (count_le negb (frame_map s)). lia. }
  match goal with |- context [Ret (true, ?x)] => set (s1 := x) end.
  exists s1. split; [done|]. split; [done|]. split; [done|]. split; [done|].
  split; [cbn; by rewrite length_insert|]. split; [|split].
  - apply Forall_insert; [done|]. by rewrite length_insert.
  - intros i' Hne. by apply list_lookup_insert_ne.
  - intros i' j'. apply (entry_insert s s1 _ _ d); [done|done|lia].
Qed.

Lemma free_ok s s' i j e :
  frames_ok s -> page_directory_used s !! i = Some true -> j ≠ 768%nat -> entry s i j = Some e -> present_bit (flag e) ≠ 0 ->
  frame_map s' = <[Z.to_nat (lower_address e) := false]> (frame_map s) -> free_count s' = free_count s + 1 ->
  page_directory_used s' = page_directory_used s ->
  length (page_directory_list s') = 32%nat -> Forall (fun d => length d = 1024%nat) (page_directory_list s') ->
  (forall i', i' ≠ i -> page_directory_list s' !! i' = page_directory_list s !! i') ->
  (forall i' j', entry s' i' j' = if decide (i' = i /\ j' = j) then Some zero_pde else entry s i' j') ->
  frames_ok s'.
Proof using Type.
  intros Hok Hused Hj He Hp Hmap Hcount Hu Hdl Hdf Hother Hent.
  assert (Hm : maps s i j (lower_address e)) by (exists e; split; [done|]; split; [by eapply (fr_shape _ Hok)|done]).
  pose proof Hm as [Hf Hmf]%(fr_range _ Hok).
  assert (Hold : forall i' j' g, maps s' i' j' g -> ~ (i' = i /\ j' = j) /\ maps s i' j' g).
  { intros i' j' g (e' & He' & Hue & Hg). rewrite Hent in He'. case_decide as Hd.
    - injection He' as <-. done.
    - split; [done|]. by exists e'. }
  split.
  - by rewrite Hmap, length_insert, (fr_map_len _ Hok).
  - by rewrite Hu, (fr_used_len _ Hok).
  - done.
  - rewrite Hcount, Hmap, (fr_count _ Hok). pose proof (count_insert negb (frame_map s) _ false true Hmf). simpl in *. lia.
  - rewrite Hmap, list_lookup_insert_ne by lia. apply Hok.
  - intros i' j' g [Hne Hm']%Hold. pose proof Hm' as [? Hg]%(fr_range _ Hok). split; [done|].
    rewrite Hmap, list_lookup_insert_ne; [done|]. intros Heq. apply Hne.
    assert (g = lower_address e) as -> by lia. by eapply (fr_inj _ Hok).
  - intros i1 j1 i2 j2 g [_ H1]%Hold [_ H2]%Hold. by eapply (fr_inj _ Hok).
  - intros i' j' e' He' Hp' Hj'. rewrite Hent in He'. case_decide; [by injection He' as <-|by eapply (fr_shape _ Hok)].
  - intros i' Hi'. rewrite Hu in Hi'. rewrite Hent. rewrite decide_False by naive_solver. by apply Hok.
  - intros i' Hi'. rewrite Hu in Hi'. rewrite Hother; [by apply Hok|]. intros ->. congruence.
Qed.
End pages.
