(* ===== verification/PagingProps.v ===== *)
(** * Theorems about the page manager *)
From stdpp Require Import relations.
From S2P Require Import Prelude Paging PagingFacts.

Section directories.
Context (list_addr kernel_addr : Z) (Hlay : directory_layout list_addr kernel_addr).

Lemma scan_used s :
  length (page_directory_used s) = 32%nat ->
  scan_while 32 (fun i => arr_get (page_directory_used s) i) 0 = Ret (Z.of_nat (first_idx negb (page_directory_used s))).
Proof using Type.
  intros Hl. rewrite (scan_while_arr negb (page_directory_used s)); [|done|unfold Zlen; lia|].
  - rewrite drop_0, take_ge by lia. done.
  - intros i y Hi Hy. rewrite (arr_get_lookup _ _ y) by (done || lia). by rewrite negb_involutive.
Qed.

(** A directory with the kernel's half and nothing else. *)
Definition fresh_directory : PageDirectory := <[768%nat := kernel_higher_half]> zero_directory.

Definition after_create (s : paging) (i : nat) : paging :=
  set_dirs (set_used s (<[i := true]> (page_directory_used s))) (<[i := fresh_directory]> (page_directory_list s)).

Lemma create_spec s :
  frames_ok s ->
  paging_create_new_page_directory list_addr s =
    if decide (first_idx negb (page_directory_used s) < 32)%nat
    then Ret (directory_addr list_addr (Z.of_nat (first_idx negb (page_directory_used s))),
              after_create s (first_idx negb (page_directory_used s)))
    else Ret (0, s).
Proof using Type.
  intros Hok. unfold paging_create_new_page_directory. pose proof (fr_used_len _ Hok) as Hul.
  rewrite scan_used by done. rewrite bind_ret. pose proof (first_idx_le negb (page_directory_used s)) as Hle.
  unfold PAGING_DIRECTORY_TABLE_MAX_COUNT. case_decide as Hlt.
  - rewrite (proj2 (Z.eqb_neq _ _)) by lia. rewrite arr_set_in by (unfold Zlen; lia). rewrite bind_ret.
    destruct (first_idx_lookup negb (page_directory_used s)) as (b & Hb & Hbf); [lia|]. destruct b; [done|].
    rewrite (arr_get_lookup _ _ zero_directory) by (lia || (rewrite Nat2Z.id; by apply Hok)). rewrite bind_ret.
    rewrite arr_set_in by done. rewrite bind_ret. destruct (fr_dirs _ Hok) as [Hdl _].
    rewrite arr_set_in by (unfold Zlen; lia). rewrite bind_ret, !Nat2Z.id. done.
  - by rewrite (proj2 (Z.eqb_eq _ _)) by lia.
Qed.

Lemma entry_dir s s' i d i' j' :
  page_directory_list s' = <[i := d]> (page_directory_list s) -> (i < length (page_directory_list s))%nat ->
  entry s' i' j' = if decide (i' = i) then d !! j' else entry s i' j'.
Proof using Type.
  intros Hs' Hi. unfold entry. rewrite Hs'. case_decide; subst.
  - by rewrite list_lookup_insert_eq.
  - by rewrite list_lookup_insert_ne.
Qed.

Lemma zero_entry j e : zero_directory !! j = Some e -> e = zero_pde.
Proof using Type. by intros [-> _]%lookup_replicate. Qed.

Lemma fresh_entry j e : fresh_directory !! j = Some e -> user_mapped e = false.
Proof using Type.
  intros He. unfold fresh_directory in He. destruct (decide (j = 768%nat)) as [->|Hne].
  - rewrite list_lookup_insert_eq in He by (unfold zero_directory; rewrite length_replicate; unfold PAGE_ENTRY_COUNT; lia).
    by injection He as <-.
  - rewrite list_lookup_insert_ne in He by done. by apply zero_entry in He as ->.
Qed.

(** Replacing a directory by one without user mappings keeps the invariant. *)
Lemma replace_directory_ok s s' i d b :
  frames_ok s -> (i < 32)%nat -> length d = 1024%nat -> (forall j e, d !! j = Some e -> user_mapped e = false) ->
  (forall j e, d !! j = Some e -> j ≠ 768%nat -> present_bit (flag e) = 0) ->
  (b = true -> d !! 768%nat = Some kernel_higher_half) -> (b = false -> d = zero_directory) ->
  s' = set_dirs (set_used s (<[i := b]> (page_directory_used s))) (<[i := d]> (page_directory_list s)) ->
  frames_ok s'.
Proof using Type.
  intros Hok Hi Hd Huser Hpres Htrue Hfalse ->. pose proof (fr_dirs _ Hok) as [Hdl Hdf].
  set (s' := set_dirs _ _). assert (Hent := fun i' j' => entry_dir s s' i d i' j' eq_refl ltac:(lia)).
  assert (Hold : forall i' j' f, maps s' i' j' f -> maps s i' j' f).
  { intros i' j' f (e & He & Hu & Hf). rewrite Hent in He. case_decide.
    - apply Huser in He. congruence.
    - by exists e. }
  split.
  - apply Hok.
  - cbn. rewrite length_insert. apply Hok.
  - cbn. rewrite length_insert. split; [done|]. by apply Forall_insert.
  - apply Hok.
  - apply Hok.
  - intros i' j' f Hm%Hold. by apply (fr_range _ Hok) in Hm.
  - intros i1 j1 i2 j2 f H1%Hold H2%Hold. by eapply (fr_inj _ Hok).
  - intros i' j' e He Hp Hj. rewrite Hent in He. case_decide; [by rewrite (Hpres _ _ He Hj) in Hp|by eapply (fr_shape _ Hok)].
  - intros i' Hi'. rewrite Hent. cbn in Hi'. case_decide as Hd'.
    + subst. rewrite list_lookup_insert_eq in Hi' by (rewrite (fr_used_len _ Hok); lia). injection Hi' as ->. by apply Htrue.
    + rewrite list_lookup_insert_ne in Hi' by done. by apply Hok.
  - intros i' Hi'. cbn in *. destruct (decide (i' = i)) as [->|Hne].
    + rewrite list_lookup_insert_eq in Hi' by (rewrite (fr_used_len _ Hok); lia). injection Hi' as ->.
      rewrite list_lookup_insert_eq by lia. by rewrite Hfalse.
    + rewrite list_lookup_insert_ne in Hi' by done. rewrite list_lookup_insert_ne by done. by apply Hok.
Qed.

Lemma create_ok s : frames_ok s -> (first_idx negb (page_directory_used s) < 32)%nat ->
  frames_ok (after_create s (first_idx negb (page_directory_used s))).
Proof using Type.
  intros Hok Hi. eapply (replace_directory_ok s _ _ fresh_directory true); [done|done|done|apply fresh_entry| | |done|done].
  - intros j e He Hj. unfold fresh_directory in He. rewrite list_lookup_insert_ne in He by done.
    by apply zero_entry in He as ->.
  - intros _. apply list_lookup_insert_eq. by apply Nat.ltb_lt.
Qed.

Lemma free_directory_spec s i :
  frames_ok s -> 0 ≤ i < 32 ->
  paging_free_page_directory list_addr kernel_addr s (directory_addr list_addr i) =
    Ret (true, set_dirs (set_used s (<[Z.to_nat i := false]> (page_directory_used s)))
                        (<[Z.to_nat i := zero_directory]> (page_directory_list s))).
Proof using Hlay.
  intros Hok Hi. unfold paging_free_page_directory.
  assert (Hscan : forall k j, 0 ≤ j -> j ≤ i < j + Z.of_nat k ->
    scan_while k (fun i0 => Ret (negb (directory_addr list_addr i0 =? directory_addr list_addr i))) j = Ret i).
  { induction k as [|k IH]; intros j Hj Hk; [lia|]. cbn [scan_while]. rewrite bind_ret. unfold directory_addr.
    destruct (Z.eqb_spec (list_addr + 4096 * j) (list_addr + 4096 * i)); cbn [negb]; [f_equal; lia|].
    apply IH; lia. }
  rewrite Hscan by lia. rewrite bind_ret. rewrite (proj2 (Z.eqb_neq _ _)) by (unfold PAGING_DIRECTORY_TABLE_MAX_COUNT; lia).
  rewrite arr_set_in by (unfold Zlen; rewrite (fr_used_len _ Hok); lia). rewrite bind_ret.
  by rewrite set_directory_list by done.
Qed.

Lemma free_directory_ok s i : frames_ok s -> 0 ≤ i < 32 ->
  frames_ok (set_dirs (set_used s (<[Z.to_nat i := false]> (page_directory_used s)))
                      (<[Z.to_nat i := zero_directory]> (page_directory_list s))).
Proof using Type.
  intros Hok Hi. eapply (replace_directory_ok s _ (Z.to_nat i) zero_directory false);
    [done|lia|done| | |done|done|done]; intros j e He; by apply zero_entry in He as ->.
Qed.

(** ** Reachable states *)

(** One call of the page manager, with the directories and pages the kernel
    uses: directories handed out before, virtual pages below the kernel's
    half, and only unmapped pages are allocated. *)
Inductive page_step (s : paging) : paging -> Prop :=
| step_create p s' : paging_create_new_page_directory list_addr s = Ret (p, s') -> page_step s s'
| step_allocate i va e r s' :
    0 ≤ i < 32 -> page_directory_used s !! Z.to_nat i = Some true -> page_index va ≠ 768 ->
    entry s (Z.to_nat i) (Z.to_nat (page_index va)) = Some e -> present_bit (flag e) = 0 ->
    paging_allocate_user_page_frame list_addr kernel_addr s (directory_addr list_addr i) va = Ret (r, s') -> page_step s s'
| step_free i va r s' :
    0 ≤ i < 32 -> page_directory_used s !! Z.to_nat i = Some true -> page_index va ≠ 768 ->
    paging_free_user_page_frame list_addr kernel_addr s (directory_addr list_addr i) va = Ret (r, s') -> page_step s s'
| step_free_directory i r s' :
    0 ≤ i < 32 ->
    paging_free_page_directory list_addr kernel_addr s (directory_addr list_addr i) = Ret (r, s') -> page_step s s'
| step_use p : page_step s (paging_use_page_directory s p).

Lemma zero_bit_count s : free_count s ≤ 0 -> paging_allocate_check s PAGE_FRAME_SIZE = false.
Proof using Type. intros H. rewrite allocate_check_frame. by apply Z.leb_gt; lia. Qed.

Lemma entry_exists s i j : frames_ok s -> (i < 32)%nat -> (j < 1024)%nat -> exists e, entry s i j = Some e.
Proof using Type.
  intros Hok Hi Hj. destruct (fr_dirs _ Hok) as [Hl Hf].
  destruct (lookup_lt_is_Some_2 (page_directory_list s) i) as [d Hd]; [lia|].
  pose proof Hd as Hdl. eapply Forall_lookup_1 in Hdl; [|exact Hf]. simpl in Hdl.
  destruct (lookup_lt_is_Some_2 d j) as [e He]; [lia|]. exists e. apply entry_Some. by exists d.
Qed.

Lemma page_step_ok s s' : frames_ok s -> page_step s s' -> frames_ok s'.
Proof using Hlay.
  intros Hok Hstep. destruct Hstep as [p s' H|i va e r s' Hi Hu Hj He Hp H|i va r s' Hi Hu Hj H|i r s' Hi H|p].
  - rewrite create_spec in H by done. case_decide; simplify_eq; [by apply create_ok|done].
  - destruct (decide (0 < free_count s)) as [Hfree|Hfull].
    + destruct (allocate_spec list_addr kernel_addr Hlay s i va e Hok Hi Hfree He) as (f & s1 & Hrun & Hf & _ & Hmn).
      rewrite Hrun in H. simplify_eq. eapply allocate_ok; [done| |done|done|done]. pose proof (page_index_range va). lia.
    + unfold paging_allocate_user_page_frame in H. rewrite zero_bit_count in H by lia. cbn [negb] in H. by simplify_eq.
  - pose proof (page_index_range va) as Hr.
    destruct (entry_exists s (Z.to_nat i) (Z.to_nat (page_index va))) as [e He]; [done|lia|lia|].
    pose proof (free_user_spec list_addr kernel_addr Hlay s i va e Hok Hi Hj He) as Hf.
    destruct (Z.eqb_spec (present_bit (flag e)) 0) as [|Hp]; [rewrite Hf in H; by simplify_eq|].
    destruct Hf as (s1 & Hrun & H1 & H2 & H3 & H4 & H5 & H6 & H7). rewrite Hrun in H. simplify_eq.
    eapply (free_ok s s' (Z.to_nat i) (Z.to_nat (page_index va)) e); try done. lia.
  - rewrite free_directory_spec in H by done. simplify_eq. by apply free_directory_ok.
  - by destruct Hok.
Qed.

Lemma init_ok c : frames_ok (paging_init c).
Proof using Type.
  assert (Hz : forall i d, page_directory_list (paging_init c) !! i = Some d -> d = zero_directory).
  { intros i d Hd. by apply lookup_replicate in Hd as [-> _]. }
  assert (He : forall i j e, entry (paging_init c) i j = Some e -> e = zero_pde).
  { intros i j e (d & Hd & He)%entry_Some. apply Hz in Hd as ->. by apply zero_entry in He. }
  split; try done.
  - split; [done|]. apply Forall_replicate. done.
  - intros i j f (e & H & Hu & _). by apply He in H as ->.
  - intros i j i' j' f (e & H & Hu & _). by apply He in H as ->.
  - intros i j e H Hp. by apply He in H as ->.
  - intros i H. cbn in H. apply lookup_replicate in H as [? _]. done.
  - intros i H. apply lookup_replicate in H as [_ H]. apply lookup_replicate. done.
Qed.

(** C26: Address spaces stay apart: in every state that the page manager's
    calls can reach from the initial one, the count of free frames is exact,
    frame 0 (the kernel's) is never handed out, and no two user pages, of the
    same or of different directories, share a frame. *)
Theorem page_isolation c s :
  rtc page_step (paging_init c) s ->
  frames_ok s /\
  (forall i j f, maps s i j f -> 0 < f < 32) /\
  (forall i j i' j' f, maps s i j f -> maps s i' j' f -> i = i' /\ j = j').
Proof using Hlay.
  intros Hs. assert (frames_ok s) as Hok.
  { remember (paging_init c) as s0 eqn:E. assert (frames_ok s0) by (subst; apply init_ok). clear E.
    induction Hs as [|s1 s2 s3 Hstep _ IH]; [done|]. apply IH. by eapply page_step_ok. }
  split; [done|]. split; [intros i j f Hm; by destruct (fr_range _ Hok _ _ _ Hm)|]. apply Hok.
Qed.

(** ** The calls one by one *)

(** C36: [paging_allocate_user_page_frame]: with a free frame the call returns
    true, maps the page to the lowest free frame with user rights, takes that
    frame off the map and off the count, invalidates the TLB entry and touches
    no other page; with none it returns false and changes nothing. *)
Theorem allocate_first_fit s i va e :
  frames_ok s -> 0 ≤ i < 32 -> page_directory_used s !! Z.to_nat i = Some true -> page_index va ≠ 768 ->
  entry s (Z.to_nat i) (Z.to_nat (page_index va)) = Some e ->
  (0 < free_count s /\
   exists f s', paging_allocate_user_page_frame list_addr kernel_addr s (directory_addr list_addr i) va = Ret (true, s') /\
     0 < f < 32 /\ mapped_new s s' (Z.to_nat i) (Z.to_nat (page_index va)) f /\
     flushed s' = flushed s ++ [va] /\ frames_ok s') \/
  (free_count s = 0 /\
   paging_allocate_user_page_frame list_addr kernel_addr s (directory_addr list_addr i) va = Ret (false, s)).
Proof using Hlay.
  intros Hok Hi Hu Hj He. pose proof (fr_count _ Hok) as Hcount. destruct (decide (0 < free_count s)) as [Hfree|Hfull].
  - left. split; [done|].
    destruct (allocate_spec list_addr kernel_addr Hlay s i va e Hok Hi Hfree He) as (f & s' & Hrun & Hf & Hfl & Hmn).
    exists f, s'. split_and!; try done; try apply Hf. eapply allocate_ok; [done| |done|done|done].
    pose proof (page_index_range va). lia.
  - right. split; [lia|]. unfold paging_allocate_user_page_frame. by rewrite zero_bit_count by lia.
Qed.

(** Allocating a page that was not mapped and freeing it again gives back
    the frame map, the count and every directory. *)
Theorem allocate_free_roundtrip s i va :
  frames_ok s -> 0 ≤ i < 32 -> page_directory_used s !! Z.to_nat i = Some true -> page_index va ≠ 768 ->
  0 < free_count s -> entry s (Z.to_nat i) (Z.to_nat (page_index va)) = Some zero_pde ->
  exists s1 s2,
    paging_allocate_user_page_frame list_addr kernel_addr s (directory_addr list_addr i) va = Ret (true, s1) /\
    paging_free_user_page_frame list_addr kernel_addr s1 (directory_addr list_addr i) va = Ret (true, s2) /\
    page_manager_state s2 = page_manager_state s /\ (forall i' j', entry s2 i' j' = entry s i' j').
Proof using Hlay.
  intros Hok Hi Hu Hj Hfree He. pose proof (page_index_range va) as Hr.
  destruct (allocate_spec list_addr kernel_addr Hlay s i va _ Hok Hi Hfree He) as (f & s1 & Hrun & Hf & _ & Hmn).
  assert (Hok1 : frames_ok s1) by (eapply allocate_ok; [done| |done|done|done]; lia).
  pose proof Hmn as [Hff _ (e1 & He1 & Hfl & Hlow) Hframe Hmap _ _ Hcount _].
  pose proof (free_user_spec list_addr kernel_addr Hlay s1 i va e1 Hok1 Hi Hj He1) as Hfr.
  rewrite Hfl in Hfr. cbn in Hfr. destruct Hfr as (s2 & Hrun2 & Hm2 & Hc2 & _ & _ & _ & _ & Hent).
  exists s1, s2. split; [done|]. split; [done|]. split.
  - destruct (page_manager_state s2) as [m2 n2]. destruct (page_manager_state s) as [m n] eqn:E. cbn in *.
    rewrite Hm2, Hmap, Hlow, Hc2, Hcount. f_equal; [|lia].
    rewrite list_insert_insert_eq. by apply list_insert_id.
  - intros i' j'. rewrite Hent. case_decide as Hd; [by destruct Hd as [-> ->]|by apply Hframe].
Qed.

(** [paging_create_new_page_directory] returns the first unused directory,
    which then maps the kernel's half and no user page, and NULL with nothing
    changed when all 32 are taken. *)
Theorem create_directory_fresh s :
  frames_ok s ->
  (exists i s', 0 ≤ i < 32 /\ page_directory_used s !! Z.to_nat i = Some false /\
     paging_create_new_page_directory list_addr s = Ret (directory_addr list_addr i, s') /\
     page_directory_used s' = <[Z.to_nat i := true]> (page_directory_used s) /\
     page_manager_state s' = page_manager_state s /\
     entry s' (Z.to_nat i) 768 = Some kernel_higher_half /\ (forall j f, ~ maps s' (Z.to_nat i) j f) /\
     (forall i' j, i' ≠ Z.to_nat i -> entry s' i' j = entry s i' j)) \/
  (Forall (eq true) (page_directory_used s) /\ paging_create_new_page_directory list_addr s = Ret (0, s)).
Proof using Type.
  intros Hok. rewrite create_spec by done. pose proof (fr_used_len _ Hok) as Hul.
  case_decide as Hlt.
  - left. destruct (first_idx_lookup negb (page_directory_used s)) as (b & Hb & Hbf); [lia|]. destruct b; [done|].
    set (i := first_idx negb (page_directory_used s)) in *. destruct (fr_dirs _ Hok) as [Hdl _].
    assert (Hent := fun i' j' => entry_dir s (after_create s i) i fresh_directory i' j' eq_refl ltac:(lia)).
    exists (Z.of_nat i), (after_create s i). rewrite Nat2Z.id. split_and!; try done; try lia.
    + rewrite Hent, decide_True by done. apply list_lookup_insert_eq. by apply Nat.ltb_lt.
    + intros j f (e & He & Hu & _). rewrite Hent, decide_True in He by done. apply fresh_entry in He. congruence.
    + intros i' j Hne. by rewrite Hent, decide_False.
  - right. split; [|done]. pose proof (first_idx_le negb (page_directory_used s)) as Hle.
    assert (Hall : first_idx negb (page_directory_used s) = length (page_directory_used s)) by lia.
    apply first_idx_none in Hall. eapply Forall_impl; [exact Hall|]. by intros [].
Qed.

(** [paging_free_page_directory] releases the directory but not the frames
    it maps: a page of the directory disappears while its frame stays marked
    as used and the count of free frames does not move. *)
Theorem free_directory_leaks s i j f :
  frames_ok s -> 0 ≤ i < 32 -> maps s (Z.to_nat i) j f ->
  exists s', paging_free_page_directory list_addr kernel_addr s (directory_addr list_addr i) = Ret (true, s') /\
    (forall i' j', ~ maps s' i' j' f) /\ frame_map s' !! Z.to_nat f = Some true /\ free_count s' = free_count s.
Proof using Hlay.
  intros Hok Hi Hm. rewrite free_directory_spec by done. eexists. split; [reflexivity|].
  destruct (fr_dirs _ Hok) as [Hdl _]. set (s' := set_dirs _ _).
  assert (Hent := fun i' j' => entry_dir s s' (Z.to_nat i) zero_directory i' j' eq_refl ltac:(lia)).
  split; [|split; [by destruct (fr_range _ Hok _ _ _ Hm)|done]].
  intros i' j' (e & He & Hu & Hf). rewrite Hent in He. case_decide as Hd; [by apply zero_entry in He as ->|].
  apply Hd. by apply (fr_inj _ Hok i' j' (Z.to_nat i) j f); [exists e|].
Qed.

(** Switching to a directory and asking for the current one gives the
    directory back: the physical address in CR3 and the virtual address the
    kernel uses are inverse to each other. *)
Theorem current_directory_roundtrip s i :
  0 ≤ i < 32 ->
  paging_get_current_page_directory_addr (paging_use_page_directory s (directory_addr list_addr i)) =
    directory_addr list_addr i.
Proof using Hlay.
  intros Hi. destruct Hlay as [Hhigh Hend _]. unfold paging_get_current_page_directory_addr, paging_use_page_directory.
  unfold directory_addr, PAGING_DIRECTORY_TABLE_MAX_COUNT in *. cbn [cr3 set_cr3].
  rewrite (proj2 (Z.ltb_lt _ _)) by lia. rewrite wrap_small; [lia|]. unfold is_word, KERNEL_VIRTUAL_ADDRESS_BASE in *. lia.
Qed.
End directories.

(** ** Witnesses: directories at 0xC0200000 *)
Definition demo_list : Z := 0xC0200000.
Definition demo_kernel : Z := 0xC0100000.

Lemma demo_layout : directory_layout demo_list demo_kernel.
Proof. split; unfold directory_addr, demo_list, demo_kernel, PAGING_DIRECTORY_TABLE_MAX_COUNT, KERNEL_VIRTUAL_ADDRESS_BASE; lia. Qed.

(** One directory handed out. *)
Definition demo_pages : paging := after_create (paging_init 0) 0.

Lemma demo_create : paging_create_new_page_directory demo_list (paging_init 0) = Ret (demo_list, demo_pages).
Proof. rewrite create_spec by apply init_ok. reflexivity. Qed.

Lemma demo_pages_ok : frames_ok demo_pages.
Proof. apply (create_ok (paging_init 0)); [apply init_ok|]. simpl. lia. Qed.

Lemma page_isolation_witness :
  rtc (page_step demo_list demo_kernel) (paging_init 0) demo_pages /\
  (forall i j i' j' f, maps demo_pages i j f -> maps demo_pages i' j' f -> i = i' /\ j = j').
Proof.
  assert (rtc (page_step demo_list demo_kernel) (paging_init 0) demo_pages) as H.
  { eapply rtc_once, step_create. exact demo_create. }
  split; [exact H|]. exact (proj2 (proj2 (page_isolation demo_list demo_kernel demo_layout 0 demo_pages H))).
Defined.

Lemma demo_entry0 : entry demo_pages 0 0 = Some zero_pde.
Proof. by vm_compute. Qed.

Lemma allocate_first_fit_witness :
  exists f s', paging_allocate_user_page_frame demo_list demo_kernel demo_pages (directory_addr demo_list 0) 0 = Ret (true, s') /\ 0 < f < 32.
Proof.
  destruct (allocate_first_fit demo_list demo_kernel demo_layout demo_pages 0 0 zero_pde demo_pages_ok)
    as [(_ & f & s' & H & Hf & _)|[H _]].
  - lia.
  - reflexivity.
  - by vm_compute.
  - exact demo_entry0.
  - by exists f, s'.
  - by vm_compute in H.
Defined.

Lemma allocate_free_roundtrip_witness :
  exists s1 s2,
    paging_allocate_user_page_frame demo_list demo_kernel demo_pages (directory_addr demo_list 0) 0 = Ret (true, s1) /\
    paging_free_user_page_frame demo_list demo_kernel s1 (directory_addr demo_list 0) 0 = Ret (true, s2) /\
    page_manager_state s2 = page_manager_state demo_pages.
Proof.
  destruct (allocate_free_roundtrip demo_list demo_kernel demo_layout demo_pages 0 0 demo_pages_ok)
    as (s1 & s2 & H1 & H2 & H3 & _).
  - lia.
  - reflexivity.
  - by vm_compute.
  - by vm_compute.
  - exact demo_entry0.
  - by exists s1, s2.
Defined.

Lemma create_directory_fresh_witness :
  exists i s', 0 ≤ i < 32 /\ paging_create_new_page_directory demo_list (paging_init 0) = Ret (directory_addr demo_list i, s').
Proof.
  destruct (create_directory_fresh demo_list (paging_init 0) (init_ok 0)) as [(i & s' & Hi & _ & H & _)|[H _]].
  - by exists i, s'.
  - apply Forall_inv in H. discriminate.
Defined.

(** The first page of the directory mapped. *)
Definition demo_mapped : paging :=
  match paging_allocate_user_page_frame demo_list demo_kernel demo_pages demo_list 0 with
  | Ret (_, s) => s
  | _ => demo_pages
  end.

Lemma demo_alloc : paging_allocate_user_page_frame demo_list demo_kernel demo_pages demo_list 0 = Ret (true, demo_mapped).
Proof. by vm_compute. Qed.

Lemma demo_mapped_ok : frames_ok demo_mapped.
Proof.
  eapply (page_step_ok demo_list demo_kernel demo_layout demo_pages); [exact demo_pages_ok|].
  eapply (step_allocate _ _ _ 0 0 zero_pde); [lia|reflexivity|by vm_compute|exact demo_entry0|reflexivity|exact demo_alloc].
Qed.

Lemma free_directory_leaks_witness :
  exists s', paging_free_page_directory demo_list demo_kernel demo_mapped demo_list = Ret (true, s') /\
    frame_map s' !! 1%nat = Some true /\ free_count s' = 30.
Proof.
  destruct (free_directory_leaks demo_list demo_kernel demo_layout demo_mapped 0 0 1 demo_mapped_ok) as (s' & H & _ & Hm & Hc).
  - lia.
  - eexists. split; [by vm_compute|]. split; by vm_compute.
  - exists s'. split; [exact H|]. split; [exact Hm|]. rewrite Hc. by vm_compute.
Defined.

Lemma current_directory_roundtrip_witness :
  paging_get_current_page_directory_addr (paging_use_page_directory demo_pages (directory_addr demo_list 5)) =
    directory_addr demo_list 5.
Proof. apply (current_directory_roundtrip demo_list demo_kernel demo_layout demo_pages 5). lia. Defined.
