(* ===== verification/Mmu.v ===== *)
(** * Virtual memory

    What a C access to memory does in the address space of a page directory:
    the MMU takes the entry of the 4 MiB page of the address and goes to its
    frame; an address whose page is not present faults ([Ub]).  [ram] is the
    physical memory, byte by byte. *)
From S2P Require Import Prelude Paging PagingFacts.

Definition ram : Type := Z -> Z.

Definition page_offset (va : Z) : Z := va mod PAGE_FRAME_SIZE.

(** The physical address of [va]. *)
Definition translate (dir : PageDirectory) (va : Z) : option Z :=
  e ← dir !! Z.to_nat (page_index va);
  if present_bit (flag e) =? 0 then None else Some (lower_address e * PAGE_FRAME_SIZE + page_offset va).

Definition load (dir : PageDirectory) (m : ram) (va : Z) : res Z :=
  match translate dir (u32 va) with Some p => Ret (m p) | None => Ub end.

Definition put (m : ram) (p v : Z) : ram := fun x => if x =? p then v else m x.

Definition store (dir : PageDirectory) (m : ram) (va v : Z) : res ram :=
  match translate dir (u32 va) with Some p => Ret (put m p v) | None => Ub end.

(** Bytes stored one after the other from [va] on. *)
Definition store_bytes (dir : PageDirectory) (m : ram) (va : Z) (bs : list Z) : res ram :=
  for_up (length bs) 0 (fun i m => b ← arr_get bs i; store dir m (va + i) b) m.

(** [memcpy] and [memset] of string.c on addresses of the address space. *)
Definition copy_bytes (dir : PageDirectory) (m : ram) (dst src n : Z) : res ram :=
  for_up (Z.to_nat n) 0 (fun i m => b ← load dir m (src + i); store dir m (dst + i) b) m.

Definition fill_bytes (dir : PageDirectory) (m : ram) (va v n : Z) : res ram :=
  for_up (Z.to_nat n) 0 (fun i m => store dir m (va + i) (u8 v)) m.

(** The bytes from [va] on, at most [n] of them, up to the first page that is
    not present: the object a bare pointer points into. *)
Fixpoint window (n : nat) (dir : PageDirectory) (m : ram) (va : Z) : list Z :=
  match n with
  | O => []
  | S n' => match translate dir (u32 va) with
            | Some p => m p :: window n' dir m (va + 1)
            | None => []
            end
  end.

(** ** Address spaces *)

(** The pages [a .. b-1] of the directory are present and on frames of their
    own, and addresses below [2 ^ 32] only. *)
Definition mapped (dir : PageDirectory) (va : Z) : Prop :=
  is_word 32 va /\ translate dir va ≠ None.

(** No two present pages below [hi] share a frame. *)
Definition frames_apart (dir : PageDirectory) (hi : Z) : Prop :=
  forall x y p, 0 ≤ x < hi -> 0 ≤ y < hi -> translate dir x = Some p -> translate dir y = Some p -> x = y.

Lemma page_index_div va : is_word 32 va -> page_index va = va / PAGE_FRAME_SIZE.
Proof.
  unfold is_word, page_index, PAGE_FRAME_SIZE. intros H. rewrite (land_ones_mod _ 10), Z.shiftr_div_pow2 by done.
  apply Z.mod_small. change (2 ^ 32) with (2 ^ 22 * 2 ^ 10) in H. split; [apply Z.div_pos; lia|].
  apply Z.div_lt_upper_bound; lia.
Qed.

Lemma translate_Some dir va p : translate dir va = Some p ->
  exists e, dir !! Z.to_nat (page_index va) = Some e /\ present_bit (flag e) ≠ 0 /\
    p = lower_address e * PAGE_FRAME_SIZE + page_offset va.
Proof.
  unfold translate. destruct (dir !! _) as [e|] eqn:He; simpl; [|done].
  destruct (Z.eqb_spec (present_bit (flag e)) 0); [done|]. intros [= <-]. by exists e.
Qed.

Lemma store_mapped dir m va v : mapped dir va -> exists p, translate dir va = Some p /\ store dir m va v = Ret (put m p v).
Proof.
  intros [Hw Ht]. unfold store. rewrite wrap_small by done. destruct (translate dir va) as [p|]; [|done]. by exists p.
Qed.

Lemma load_mapped dir m va : mapped dir va -> exists p, translate dir va = Some p /\ load dir m va = Ret (m p).
Proof.
  intros [Hw Ht]. unfold load. rewrite wrap_small by done. destruct (translate dir va) as [p|]; [|done]. by exists p.
Qed.

(** [m'] is [m] with [val i] at [va + i] for [0 <= i < n]. *)
Record stored (dir : PageDirectory) (m m' : ram) (va n : Z) (val : Z -> Z) : Prop := MkStored {
  st_in i p : 0 ≤ i < n -> translate dir (va + i) = Some p -> m' p = val i;
  st_out p : (forall i, 0 ≤ i < n -> translate dir (va + i) ≠ Some p) -> m' p = m p
}.

Section space.
Context (dir : PageDirectory) (hi : Z) (Hhi : hi ≤ 2 ^ 32) (Hap : frames_apart dir hi).

Lemma stored_nil m va val : stored dir m m va 0 val.
Proof using Type. split; [lia|done]. Qed.

Lemma stored_snoc m m1 va i val p : 0 ≤ va -> 0 ≤ i -> va + i < hi ->
  stored dir m m1 va i val -> translate dir (va + i) = Some p -> stored dir m (put m1 p (val i)) va (i + 1) val.
Proof using Hap.
  intros Hva Hi Hlt [Hin Hout] Hp. split.
  - intros j q Hj Hq. unfold put. destruct (Z.eqb_spec q p) as [->|Hne].
    + assert (Heq : va + j = va + i) by (apply (Hap _ _ p); lia || done). f_equal. lia.
    + apply Hin; [|done]. destruct (decide (j = i)) as [->|]; [congruence|lia].
  - intros q Hq. unfold put. destruct (Z.eqb_spec q p) as [->|Hne]; [by destruct (Hq i); [lia|]|].
    apply Hout. intros j Hj. apply Hq. lia.
Qed.

Definition all_mapped (va n : Z) : Prop := forall i, 0 ≤ i < n -> mapped dir (va + i).

Lemma store_bytes_ok m va bs : 0 ≤ va -> va + Zlen bs ≤ hi -> all_mapped va (Zlen bs) ->
  exists m', store_bytes dir m va bs = Ret m' /\
    stored dir m m' va (Zlen bs) (fun i => default 0 (bs !! Z.to_nat i)).
Proof using Hap.
  intros Hva Hlt Hmap. unfold store_bytes. set (val := fun i => default 0 (bs !! Z.to_nat i)).
  destruct (for_up_inv (fun i m1 => stored dir m m1 va i val)
    (fun i m => b ← arr_get bs i; store dir m (va + i) b) (length bs) 0 m) as (m' & -> & H);
    [apply stored_nil| |by exists m'].
  intros j m1 Hj H. destruct (arr_get_is bs j) as (b & -> & Hb); [unfold Zlen; lia|]. rewrite bind_ret.
  destruct (store_mapped dir m1 (va + j) b) as (p & Hp & ->); [apply Hmap; unfold Zlen; lia|]. eexists. split; [done|].
  replace b with (val j) by (unfold val; by rewrite Hb). apply stored_snoc; (done || (unfold Zlen in *; lia)).
Qed.

(** A forward copy to a lower (or the same) address reads what was there. *)
Lemma copy_bytes_ok m dst src n : 0 ≤ dst ≤ src -> 0 ≤ n -> src + n ≤ hi -> all_mapped dst n -> all_mapped src n ->
  exists m', copy_bytes dir m dst src n = Ret m' /\
    stored dir m m' dst n (fun i => match translate dir (src + i) with Some p => m p | None => 0 end).
Proof using Hap.
  intros Hds Hn Hlt Hmd Hms. unfold copy_bytes. set (val := fun i => match translate dir (src + i) with Some p => m p | None => 0 end).
  destruct (for_up_inv (fun i m1 => stored dir m m1 dst i val)
    (fun i m => b ← load dir m (src + i); store dir m (dst + i) b) (Z.to_nat n) 0 m) as (m' & -> & H);
    [apply stored_nil| |exists m'; split; [done|]; by rewrite Z2Nat.id in H by lia].
  intros j m1 Hj H. destruct (load_mapped dir m1 (src + j)) as (q & Hq & ->); [apply Hms; lia|]. rewrite bind_ret.
  destruct (store_mapped dir m1 (dst + j) (m1 q)) as (p & Hp & ->); [apply Hmd; lia|]. eexists. split; [done|].
  replace (m1 q) with (val j); [apply stored_snoc; (done || lia)|]. unfold val. rewrite Hq. symmetry. apply (st_out _ _ _ _ _ _ H).
  intros i Hi Heq. assert (dst + i = src + j) by (apply (Hap _ _ q); lia || done). lia.
Qed.

Lemma fill_bytes_ok m va v n : 0 ≤ va -> 0 ≤ n -> va + n ≤ hi -> all_mapped va n ->
  exists m', fill_bytes dir m va v n = Ret m' /\ stored dir m m' va n (fun _ => u8 v).
Proof using Hap.
  intros Hva Hn Hlt Hmap. unfold fill_bytes.
  destruct (for_up_inv (fun i m1 => stored dir m m1 va i (fun _ => u8 v))
    (fun i m => store dir m (va + i) (u8 v)) (Z.to_nat n) 0 m) as (m' & -> & H);
    [apply stored_nil| |exists m'; split; [done|]; by rewrite Z2Nat.id in H by lia].
  intros j m1 Hj H. destruct (store_mapped dir m1 (va + j) (u8 v)) as (p & Hp & ->); [apply Hmap; lia|]. eexists. split; [done|].
  apply (stored_snoc m m1 va j (fun _ => u8 v)); (done || lia).
Qed.
End space.

(** ** The address spaces of the page manager *)

(** A user page of a directory translates to its frame. *)
Lemma maps_translate s i d x f : page_directory_list s !! i = Some d -> is_word 32 x ->
  maps s i (Z.to_nat (x / PAGE_FRAME_SIZE)) f -> translate d x = Some (f * PAGE_FRAME_SIZE + page_offset x).
Proof.
  intros Hd Hx (e & (d' & Hd' & He)%entry_Some & Hu & Hl). rewrite Hd in Hd'. injection Hd' as <-.
  unfold translate. rewrite page_index_div, He by done. simpl. unfold user_mapped in Hu.
  apply andb_prop in Hu as [Hp _]. apply Z.eqb_eq in Hp. rewrite Hp. simpl. by rewrite Hl.
Qed.

Lemma frame_split f f' x x' : f * PAGE_FRAME_SIZE + page_offset x = f' * PAGE_FRAME_SIZE + page_offset x' ->
  f = f' /\ page_offset x = page_offset x'.
Proof.
  unfold page_offset, PAGE_FRAME_SIZE. pose proof (Z.mod_pos_bound x (2 ^ 22)). pose proof (Z.mod_pos_bound x' (2 ^ 22)). nia.
Qed.

(** Below the kernel's half every present page is a user page. *)
Lemma translate_maps s i d x p : frames_ok s -> page_directory_list s !! i = Some d ->
  0 ≤ x < KERNEL_VIRTUAL_ADDRESS_BASE -> translate d x = Some p ->
  exists f, maps s i (Z.to_nat (x / PAGE_FRAME_SIZE)) f /\ p = f * PAGE_FRAME_SIZE + page_offset x.
Proof.
  unfold KERNEL_VIRTUAL_ADDRESS_BASE. intros Hok Hd Hx Hp. apply translate_Some in Hp as (e & He & Hpr & ->).
  rewrite page_index_div in He by (unfold is_word; lia). exists (lower_address e). split; [|done].
  assert (Hent : entry s i (Z.to_nat (x / PAGE_FRAME_SIZE)) = Some e) by (apply entry_Some; by exists d).
  exists e. split; [done|]. split; [|done]. eapply (fr_shape _ Hok); [done|done|].
  unfold PAGE_FRAME_SIZE. change (2 ^ 22) with 4194304. Z.div_mod_to_equations. lia.
Qed.

(** Two addresses of address spaces that meet in a physical byte are the same
    address of the same space. *)
Lemma translate_inj s i j di dj x y p : frames_ok s ->
  page_directory_list s !! i = Some di -> page_directory_list s !! j = Some dj ->
  0 ≤ x < KERNEL_VIRTUAL_ADDRESS_BASE -> 0 ≤ y < KERNEL_VIRTUAL_ADDRESS_BASE ->
  translate di x = Some p -> translate dj y = Some p -> i = j /\ x = y.
Proof.
  intros Hok Hdi Hdj Hx Hy Hpx Hpy.
  destruct (translate_maps s i di x p Hok Hdi Hx Hpx) as (f & Hf & ->).
  destruct (translate_maps s j dj y _ Hok Hdj Hy Hpy) as (f' & Hf' & Heq). apply frame_split in Heq as [<- Hoff].
  destruct (fr_inj _ Hok _ _ _ _ _ Hf Hf') as [-> Hq]. split; [done|].
  unfold page_offset, PAGE_FRAME_SIZE in *. change (2 ^ 22) with 4194304 in *. Z.div_mod_to_equations. lia.
Qed.

Lemma directory_apart s i d : frames_ok s -> page_directory_list s !! i = Some d ->
  frames_apart d KERNEL_VIRTUAL_ADDRESS_BASE.
Proof. intros Hok Hd x y p Hx Hy Hpx Hpy. by destruct (translate_inj s i i d d x y p). Qed.

(** A store through one directory, seen through another one or at another
    address. *)
Lemma store_isolated s i j di dj m m' x y v :
  frames_ok s -> page_directory_list s !! i = Some di -> page_directory_list s !! j = Some dj ->
  0 ≤ x < KERNEL_VIRTUAL_ADDRESS_BASE -> 0 ≤ y < KERNEL_VIRTUAL_ADDRESS_BASE -> ~ (i = j /\ x = y) ->
  store di m x v = Ret m' -> load dj m' y = load dj m y.
Proof.
  intros Hok Hdi Hdj Hx Hy Hne Hst.
  assert (Hw : forall z, 0 ≤ z < KERNEL_VIRTUAL_ADDRESS_BASE -> u32 z = z).
  { unfold KERNEL_VIRTUAL_ADDRESS_BASE. intros z Hz. apply wrap_small. unfold is_word. lia. }
  unfold store, load in *. rewrite Hw in Hst by done. rewrite Hw by done.
  destruct (translate di x) as [p|] eqn:Hp; [|done]. injection Hst as <-.
  destruct (translate dj y) as [q|] eqn:Hq; [|done]. unfold put. destruct (Z.eqb_spec q p) as [->|]; [|done].
  destruct Hne. by eapply translate_inj.
Qed.
