(* ===== verification/UserMemory.v ===== *)
(** * User memory as the running process sees it

    [peek dir mem va] is the byte at [va]; a store changes the bytes it is made
    to, a [window] of mapped memory is the list of its bytes. *)
From S2P Require Import Prelude CString Paging PagingFacts Mmu.

Definition peek (dir : PageDirectory) (mem : ram) (va : Z) : Z :=
  match translate dir va with Some p => mem p | None => 0 end.

(** Physical memory holds bytes. *)
Definition ram_ok (mem : ram) : Prop := forall p, is_byte (mem p).

(** [n] bytes of a memory, from [va] on. *)
Definition bytes_from (f : Z -> Z) (va : Z) (n : nat) : list Z := (fun i => f (va + i)) <$> seqZ 0 (Z.of_nat n).

Lemma length_bytes_from f va n : length (bytes_from f va n) = n.
Proof. unfold bytes_from. rewrite length_fmap, length_seqZ. lia. Qed.

Lemma lookup_bytes_from f va n i b : bytes_from f va n !! i = Some b <-> (i < n)%nat /\ b = f (va + Z.of_nat i).
Proof.
  unfold bytes_from. rewrite list_lookup_fmap, fmap_Some. split.
  - intros (x & Hx & ->). apply lookup_seqZ in Hx as [-> Hi]. rewrite Z.add_0_l. split; [lia|done].
  - intros [Hi ->]. exists (Z.of_nat i). split; [|done]. apply lookup_seqZ. lia.
Qed.

Lemma bytes_from_ext f g va n : (forall i, 0 ≤ i < Z.of_nat n -> f (va + i) = g (va + i)) -> bytes_from f va n = bytes_from g va n.
Proof. intros H. unfold bytes_from. apply list_fmap_ext. intros i x Hx. apply lookup_seqZ in Hx as [-> Hi]. apply H. lia. Qed.

Lemma bytes_from_app f va n k : bytes_from f va (n + k) = bytes_from f va n ++ bytes_from f (va + Z.of_nat n) k.
Proof.
  unfold bytes_from. rewrite Nat2Z.inj_add, seqZ_app, fmap_app by lia. f_equal. rewrite Z.add_0_l.
  replace (seqZ (Z.of_nat n) (Z.of_nat k)) with (Z.add (Z.of_nat n) <$> seqZ 0 (Z.of_nat k)) by (rewrite fmap_add_seqZ; f_equal; lia).
  rewrite <- list_fmap_compose. apply list_fmap_ext. intros i x _. cbn. f_equal. lia.
Qed.

Lemma bytes_from_one f va : bytes_from f va 1 = [f va].
Proof. unfold bytes_from. change (seqZ 0 (Z.of_nat 1)) with [0]. cbn [fmap list_fmap]. by rewrite Z.add_0_r. Qed.

Lemma bytes_from_list f va l : (forall i b, l !! i = Some b -> f (va + Z.of_nat i) = b) -> bytes_from f va (length l) = l.
Proof.
  intros H. apply list_eq. intros i. destruct (l !! i) as [b|] eqn:E.
  - apply lookup_bytes_from. split; [by eapply lookup_lt_Some|]. symmetry. by apply H.
  - apply lookup_ge_None in E. apply lookup_ge_None. by rewrite length_bytes_from.
Qed.

Lemma bytes_from_ok f va n : (forall x, is_byte (f x)) -> bytes_ok (bytes_from f va n).
Proof. intros H. unfold bytes_from. apply Forall_fmap, Forall_true. intros x. apply H. Qed.

Section memory.
Context (dir : PageDirectory) (hi : Z) (Hhi : hi ≤ 2 ^ 32) (Hap : frames_apart dir hi).
Implicit Types (mem : ram).

Lemma peek_ok mem va : ram_ok mem -> is_byte (peek dir mem va).
Proof using Type. intros H. unfold peek. destruct (translate dir va); [apply H|by split]. Qed.

Lemma window_peek n : forall mem va, 0 ≤ va -> va + Z.of_nat n ≤ 2 ^ 32 -> all_mapped dir va (Z.of_nat n) ->
  window n dir mem va = bytes_from (peek dir mem) va n.
Proof using Type.
  induction n as [|n IH]; intros mem va Hva Hlt Hm; [done|]. cbn [window].
  destruct (Hm 0) as [Hw Ht]; [lia|]. rewrite Z.add_0_r in *. rewrite wrap_small by done.
  rewrite (bytes_from_app _ va 1 n : bytes_from _ va (S n) = _), bytes_from_one. unfold peek at 1.
  destruct (translate dir va) as [p|]; [|done]. cbn [app]. f_equal. apply IH; [lia|lia|].
  intros i Hi. change (Z.of_nat 1) with 1. replace (va + 1 + i) with (va + (i + 1)) by lia. apply Hm. lia.
Qed.

(** The bytes the process sees after a store. *)
Definition updated (f g : Z -> Z) (va : Z) (bs : list Z) : Prop :=
  forall x, 0 ≤ x < hi -> g x = if decide (va ≤ x < va + Zlen bs) then default 0 (bs !! Z.to_nat (x - va)) else f x.

Lemma stored_peek mem mem' va bs : 0 ≤ va -> va + Zlen bs ≤ hi -> all_mapped dir va (Zlen bs) ->
  stored dir mem mem' va (Zlen bs) (fun i => default 0 (bs !! Z.to_nat i)) -> updated (peek dir mem) (peek dir mem') va bs.
Proof using Hap.
  intros Hva Hl Hm [Hin Hout] x Hx. unfold peek. case_decide as Hr.
  - destruct (Hm (x - va)) as [_ Ht]; [lia|]. replace (va + (x - va)) with x in Ht by lia.
    destruct (translate dir x) as [p|] eqn:Hp; [|done]. apply Hin; [lia|]. replace (va + (x - va)) with x by lia. exact Hp.
  - destruct (translate dir x) as [p|] eqn:Hp; [|done]. apply Hout. intros i Hi Hq.
    assert (x = va + i) by (apply (Hap _ _ p); [lia|lia|exact Hp|exact Hq]). lia.
Qed.

Lemma for_up_keeps (P : ram -> Prop) k body : forall i mem mem',
  (forall j m m', P m -> body j m = Ret m' -> P m') -> P mem -> for_up k i body mem = Ret mem' -> P mem'.
Proof using Type.
  induction k as [|k IH]; intros i mem mem' Hb Hp H; cbn [for_up] in H; [by injection H as <-|].
  apply bind_Ret_inv in H as (m1 & H1 & H). eapply IH; [exact Hb| |exact H]. by eapply Hb.
Qed.

Lemma put_ok mem p b : ram_ok mem -> is_byte b -> ram_ok (put mem p b).
Proof using Type. intros H Hb x. unfold put. destruct (x =? p); [exact Hb|apply H]. Qed.

Lemma store_ok mem va b mem' : ram_ok mem -> is_byte b -> store dir mem va b = Ret mem' -> ram_ok mem'.
Proof using Type. intros H Hb Hs. unfold store in Hs. destruct (translate dir _); [|done]. injection Hs as <-. by apply put_ok. Qed.

Lemma store_bytes_keeps mem va bs mem' : ram_ok mem -> bytes_ok bs -> store_bytes dir mem va bs = Ret mem' -> ram_ok mem'.
Proof using Type.
  intros H Hb. unfold store_bytes. apply for_up_keeps; [|exact H]. intros j m m' Hm Hs.
  apply bind_Ret_inv in Hs as (b & Hg & Hs). eapply store_ok; [exact Hm| |exact Hs].
  apply arr_get_Ret in Hg as [_ Hg]. by eapply (Forall_lookup_1 _ _ _ _ Hb).
Qed.

Lemma load_byte_ok mem va b : ram_ok mem -> load dir mem va = Ret b -> is_byte b.
Proof using Type. intros H Hl. unfold load in Hl. destruct (translate dir _); [|done]. injection Hl as <-. apply H. Qed.

Lemma copy_bytes_keeps mem dst src n mem' : ram_ok mem -> copy_bytes dir mem dst src n = Ret mem' -> ram_ok mem'.
Proof using Type.
  intros H. unfold copy_bytes. apply for_up_keeps; [|exact H]. intros j m m' Hm Hs.
  apply bind_Ret_inv in Hs as (b & Hg & Hs). eapply store_ok; [exact Hm| |exact Hs]. by eapply load_byte_ok.
Qed.

Lemma fill_bytes_keeps mem va b n mem' : ram_ok mem -> fill_bytes dir mem va b n = Ret mem' -> ram_ok mem'.
Proof using Type.
  intros H. unfold fill_bytes. apply for_up_keeps; [|exact H]. intros j m m' Hm Hs.
  eapply store_ok; [exact Hm| |exact Hs]. by apply wrap_word.
Qed.

Lemma window_bytes n : forall mem va, ram_ok mem -> bytes_ok (window n dir mem va).
Proof using Type.
  induction n as [|n IH]; intros mem va H; cbn [window]; [constructor|]. destruct (translate dir _); [|constructor]. constructor; [apply H|by apply IH].
Qed.

(** Bytes stored into mapped memory. *)
Lemma store_bytes_peek mem va bs : ram_ok mem -> bytes_ok bs -> 0 ≤ va -> va + Zlen bs ≤ hi -> all_mapped dir va (Zlen bs) ->
  exists mem', store_bytes dir mem va bs = Ret mem' /\ ram_ok mem' /\ updated (peek dir mem) (peek dir mem') va bs.
Proof using Hap.
  intros Hok Hbs Hva Hl Hm. destruct (store_bytes_ok dir hi Hap mem va bs Hva Hl Hm) as (mem' & Hs & Hst).
  exists mem'. split; [exact Hs|]. split; [by eapply store_bytes_keeps|]. by apply stored_peek.
Qed.

(** ** What is read back *)

Lemma updated_inside f g va bs : updated f g va bs -> 0 ≤ va -> va + Zlen bs ≤ hi -> bytes_from g va (length bs) = bs.
Proof using Type.
  intros H Hva Hl. apply bytes_from_list. intros i b Hb. pose proof (lookup_lt_Some _ _ _ Hb). rewrite H by (unfold Zlen in *; lia).
  rewrite decide_True by (unfold Zlen; lia). replace (Z.to_nat (va + Z.of_nat i - va)) with i by lia. by rewrite Hb.
Qed.

Lemma updated_outside f g va bs x n : updated f g va bs -> 0 ≤ x -> x + Z.of_nat n ≤ hi -> x + Z.of_nat n ≤ va \/ va + Zlen bs ≤ x ->
  bytes_from g x n = bytes_from f x n.
Proof using Type. intros H Hx Hl Hd. apply bytes_from_ext. intros i Hi. rewrite H by lia. by rewrite decide_False by lia. Qed.
End memory.
