(* ===== verification/Process.v ===== *)
(** * process.c and scheduler.c: the process table and the round-robin scheduler

    [ProcessManagerState] is the process table.  A switch to another process
    does not return: [SwitchTo ctx] is [process_context_switch(ctx)], and
    [Resume] a return to the caller.  User memory is reached through the page
    directory in use (Mmu.v). *)
From S2P Require Import Prelude CString BlockDevice FatLayout Fat32 Paging PagingFacts Mmu.

Definition PROCESS_PAGE_FRAME_COUNT_MAX : Z := 8.
Definition PROCESS_COUNT_MAX : Z := 16.
Definition CPU_EFLAGS_BASE_FLAG : Z := 0x2.
Definition CPU_EFLAGS_FLAG_INTERRUPT_ENABLE : Z := 0x200.
Definition PROCESS_CREATE_SUCCESS : Z := 0.
Definition PROCESS_CREATE_FAIL_MAX_PROCESS_EXCEEDED : Z := 1.
Definition PROCESS_CREATE_FAIL_INVALID_ENTRYPOINT : Z := 2.
Definition PROCESS_CREATE_FAIL_NOT_ENOUGH_MEMORY : Z := 3.
Definition PROCESS_CREATE_FAIL_FS_READ_FAILURE : Z := 4.

Record CPURegister := MkCpu {
  edi : Z; esi : Z; ebp : Z; esp : Z;
  ebx : Z; edx : Z; ecx : Z; eax : Z;
  gs : Z; fs_reg : Z; es : Z; ds : Z
}.

Record Context := MkContext {
  cpu : CPURegister;
  eip : Z;
  eflags : Z;
  page_directory_virtual_addr : Z
}.

Inductive PROCESS_STATE := NEW | WAITING | READY | RUNNING | TERMINATED.

#[export] Instance process_state_eq_dec : EqDecision PROCESS_STATE.
Proof. solve_decision. Defined.

Record ProcessControlBlock := MkPcb {
  pid : Z;
  process_name : list Z;
  state : PROCESS_STATE;
  context : Context;
  virtual_addr_used : list Z;
  page_frame_used_count : Z
}.

Definition zero_context : Context := MkContext (MkCpu 0 0 0 0 0 0 0 0 0 0 0 0) 0 0 0.
Definition zero_pcb : ProcessControlBlock := MkPcb 0 (replicate 8 0) NEW zero_context (replicate 8 0) 0.

Record ProcessManagerState := MkProcs {
  process_list : list ProcessControlBlock;
  running_process_idx : Z;
  active_process_count : Z
}.

Definition procs_init : ProcessManagerState := MkProcs (replicate 16 zero_pcb) (-1) 0.

Definition set_list (pm : ProcessManagerState) (l : list ProcessControlBlock) : ProcessManagerState :=
  MkProcs l (running_process_idx pm) (active_process_count pm).
Definition set_state (p : ProcessControlBlock) (st : PROCESS_STATE) : ProcessControlBlock :=
  MkPcb (pid p) (process_name p) st (context p) (virtual_addr_used p) (page_frame_used_count p).
Definition set_context (p : ProcessControlBlock) (c : Context) : ProcessControlBlock :=
  MkPcb (pid p) (process_name p) (state p) c (virtual_addr_used p) (page_frame_used_count p).
Definition set_memory (p : ProcessControlBlock) (vs : list Z) (n : Z) : ProcessControlBlock :=
  MkPcb (pid p) (process_name p) (state p) (context p) vs n.
Definition set_name (p : ProcessControlBlock) (nm : list Z) : ProcessControlBlock :=
  MkPcb (pid p) nm (state p) (context p) (virtual_addr_used p) (page_frame_used_count p).

(** [NULL] is [None]. *)
Definition process_get_current_running_pcb_pointer (pm : ProcessManagerState) : option Z :=
  if running_process_idx pm =? -1 then None else Some (running_process_idx pm).

Definition put_pcb (pm : ProcessManagerState) (i : Z) (p : ProcessControlBlock) : res ProcessManagerState :=
  l ← arr_set (process_list pm) i p; Ret (set_list pm l).

(** [process_list[i].metadata.pid]; the word after the list is
    [running_process_idx], which [process_destroy] can read. *)
Definition pid_at (pm : ProcessManagerState) (i : Z) : res Z :=
  if i =? PROCESS_COUNT_MAX then Ret (u32 (running_process_idx pm))
  else p ← arr_get (process_list pm) i; Ret (pid p).

(** [while (idx < PROCESS_COUNT_MAX && process_list[idx].metadata.pid != pid) idx++]. *)
Definition find_pid (pm : ProcessManagerState) (n : Z) : res Z :=
  scan_while 16 (fun i => p ← arr_get (process_list pm) i; Ret (negb (pid p =? n))) 0.

(** The search of [process_generate_new_pid]; 17 candidates are enough for a
    table of 16. *)
Fixpoint new_pid_loop (k : nat) (pm : ProcessManagerState) (n : Z) : res Z :=
  match k with
  | O => Hang
  | S k' =>
      idx ← find_pid pm n;
      if idx =? PROCESS_COUNT_MAX then Ret n else new_pid_loop k' pm (u32 (n + 1))
  end.

Definition process_generate_new_pid (pm : ProcessManagerState) : res Z := new_pid_loop 17 pm 1.

(** No bound in the loop: past the table the read is out of bounds. *)
Definition process_list_get_inactive_index (pm : ProcessManagerState) : res Z :=
  scan_while 17 (fun i => p ← arr_get (process_list pm) i; Ret (negb (bool_decide (state p = NEW)))) 0.

(** The loop of [process_destroy] reads the pid before it tests the bound. *)
Definition process_destroy (pm : ProcessManagerState) (n : Z) : res (bool * ProcessManagerState) :=
  i ← scan_while 17 (fun i => q ← pid_at pm i; Ret (negb (q =? n) && (i <? PROCESS_COUNT_MAX))) 0;
  if i =? PROCESS_COUNT_MAX then Ret (false, pm)
  else pm ← put_pcb pm i zero_pcb; Ret (true, pm).

Definition ceil_div (a b : Z) : Z := u32 (a / b + (if a mod b =? 0 then 0 else 1)).

Inductive switched := Resume | SwitchTo (ctx : Context).

(** The search for the next process, at most 16 rounds and the final test. *)
Fixpoint sched_loop (k : nat) (pm : ProcessManagerState) (next_index counter : Z) : res (Z * Z) :=
  match k with
  | O => Hang
  | S k' =>
      if (next_index =? running_process_idx pm) || (counter =? PROCESS_COUNT_MAX) then Ret (next_index, counter)
      else
        p ← arr_get (process_list pm) next_index;
        if bool_decide (state p = READY) then Ret (next_index, counter)
        else sched_loop k' pm (Z.rem (next_index + 1) PROCESS_COUNT_MAX) (counter + 1)
  end.

Definition scheduler_switch_to_next_process (pm : ProcessManagerState) (pg : paging) :
    res (switched * ProcessManagerState * paging) :=
  '(next_index, counter) ← sched_loop 17 pm (Z.rem (running_process_idx pm + 1) PROCESS_COUNT_MAX) 0;
  if next_index =? running_process_idx pm then
    p ← arr_get (process_list pm) (running_process_idx pm);
    pm ← put_pcb pm (running_process_idx pm) (set_state p RUNNING);
    Ret (Resume, pm, pg)
  else if counter =? PROCESS_COUNT_MAX then Ret (Resume, pm, pg)
  else
    p ← arr_get (process_list pm) next_index;
    let next_pcb := set_state p RUNNING in
    pm ← put_pcb pm next_index next_pcb;
    let pm := MkProcs (process_list pm) next_index (active_process_count pm) in
    let pg := paging_use_page_directory pg (page_directory_virtual_addr (context next_pcb)) in
    Ret (SwitchTo (context next_pcb), pm, pg).

Definition scheduler_save_context_to_current_running_pcb (pm : ProcessManagerState) (ctx : Context) :
    res ProcessManagerState :=
  match process_get_current_running_pcb_pointer pm with
  | None => Ret pm
  | Some i =>
      p ← arr_get (process_list pm) i;
      put_pcb pm i (set_state (set_context p ctx) READY)
  end.

Definition terminate_current_process (pm : ProcessManagerState) (pg : paging) :
    res (switched * ProcessManagerState * paging) :=
  match process_get_current_running_pcb_pointer pm with
  | None => Ub
  | Some i => pm ← put_pcb pm i zero_pcb; scheduler_switch_to_next_process pm pg
  end.

Definition kill_process (pm : ProcessManagerState) (pg : paging) (n : Z) :
    res (Z * switched * ProcessManagerState * paging) :=
  cur ← arr_get (process_list pm) (running_process_idx pm);
  if pid cur =? n then
    '(o, pm, pg) ← terminate_current_process pm pg; Ret (0, o, pm, pg)
  else
    i ← find_pid pm n;
    if i =? PROCESS_COUNT_MAX then Ret (-1, Resume, pm, pg)
    else pm ← put_pcb pm i zero_pcb; Ret (0, Resume, pm, pg).

(** The lines that [print_active_processes] prints: pid and name. *)
Definition active_processes (pm : ProcessManagerState) : list (Z * list Z) :=
  (fun p => (pid p, process_name p)) <$>
    filter (fun p => state p = RUNNING \/ state p = READY) (process_list pm).

(** ** Process creation *)

(** A driver request as the caller passes it: [buf] is the virtual address
    [req_addr]; the field [buf] of [request] itself is not used. *)
Record user_request := MkUserRequest {
  req_addr : Z;
  request : FAT32DriverRequest
}.

(** What the driver can reach behind a pointer: the most it transfers is one
    cluster for each entry of the cluster map. *)
Definition BUFFER_WINDOW : nat := Z.to_nat (512 * 2048).
#[global] Opaque BUFFER_WINDOW.

Definition with_buf (r : FAT32DriverRequest) (bs : list Z) : FAT32DriverRequest :=
  MkRequest bs (req_name r) (req_ext r) (parent_cluster_number r) (buffer_size r).

(** The request with the memory behind its address, in address space [dir]. *)
Definition resolve (dir : PageDirectory) (m : ram) (r : user_request) : FAT32DriverRequest :=
  with_buf (request r) (window BUFFER_WINDOW dir m (req_addr r)).

Section create.
Context {D : Type} `{!BlockDevice D}.
Context (list_addr kernel_addr : Z).

Record kernel := MkKernel {
  procs : ProcessManagerState;
  pages : paging;
  umem : ram;
  files : fs D
}.

(** The page loop: frame [i] of the process at virtual address [i * 4 MiB]. *)
Fixpoint allocate_frames (k : nat) (pg : paging) (new_page : Z) (vs : list Z) (i : Z) : res (paging * list Z) :=
  match k with
  | O => Ret (pg, vs)
  | S k' =>
      let virtual_addr := u32 (i * PAGE_FRAME_SIZE) in
      '(_, pg) ← paging_allocate_user_page_frame list_addr kernel_addr pg new_page virtual_addr;
      vs ← arr_set vs i virtual_addr;
      allocate_frames k' pg new_page vs (i + 1)
  end.

Definition initial_context (new_page : Z) : Context :=
  MkContext
    (MkCpu 0 0 (0x400000 - 4) (0x400000 - 4) 0 0 0 0
      (Z.lor 0x3 (Z.shiftl 0x4 3)) (Z.lor 0x3 (Z.shiftl 0x4 3)) (Z.lor 0x3 (Z.shiftl 0x4 3)) (Z.lor 0x3 (Z.shiftl 0x4 3)))
    0 (Z.lor CPU_EFLAGS_BASE_FLAG CPU_EFLAGS_FLAG_INTERRUPT_ENABLE) new_page.

(** From the saved page directory to the end: read the executable in the new
    address space, then fill in the process control block. *)
Definition load_process (k : kernel) (r : user_request) (p_index new_page : Z) (new_pcb : ProcessControlBlock)
    (pg : paging) : res (Z * kernel) :=
  let temp_page := paging_get_current_page_directory_addr pg in
  let pg := paging_use_page_directory pg new_page in
  dir ← get_directory list_addr kernel_addr pg new_page;
  '(ret_val, buffer, f) ← Fat32.read (files k) (resolve dir (umem k) r);
  mem ← store_bytes dir (umem k) (req_addr r) buffer;
  if negb (ret_val =? 0) then
    pm ← put_pcb (procs k) p_index new_pcb;
    Ret (PROCESS_CREATE_FAIL_FS_READ_FAILURE,
         MkKernel pm (paging_use_page_directory pg temp_page) mem f)
  else
    nm ← CString.memcpy (process_name new_pcb) (req_name (request r)) 8;
    a0 ← arr_get (virtual_addr_used new_pcb) 0;
    a1 ← arr_get (virtual_addr_used new_pcb) 1;
    mem ← copy_bytes dir mem a0 (req_addr r) PAGE_FRAME_SIZE;
    mem ← fill_bytes dir mem a1 0 PAGE_FRAME_SIZE;
    let pg := paging_use_page_directory pg temp_page in
    let new_pcb := set_context (set_name new_pcb nm) (initial_context new_page) in
    pm ← put_pcb (procs k) p_index new_pcb;
    new_pid ← process_generate_new_pid pm;
    pm ← put_pcb pm p_index
           (MkPcb new_pid nm READY (context new_pcb) (virtual_addr_used new_pcb) (page_frame_used_count new_pcb));
    let pm := MkProcs (process_list pm) (running_process_idx pm) (active_process_count pm + 1) in
    Ret (PROCESS_CREATE_SUCCESS, MkKernel pm pg mem f).

Definition process_create_user_process (k : kernel) (r : user_request) : res (Z * kernel) :=
  if PROCESS_COUNT_MAX <=? active_process_count (procs k) then Ret (PROCESS_CREATE_FAIL_MAX_PROCESS_EXCEEDED, k)
  else if KERNEL_VIRTUAL_ADDRESS_BASE <=? req_addr r then Ret (PROCESS_CREATE_FAIL_INVALID_ENTRYPOINT, k)
  else
    let page_frame_count_needed := ceil_div (u32 (buffer_size (request r) + PAGE_FRAME_SIZE)) PAGE_FRAME_SIZE in
    if negb (paging_allocate_check (pages k) page_frame_count_needed) ||
       (PROCESS_PAGE_FRAME_COUNT_MAX <? page_frame_count_needed)
    then Ret (PROCESS_CREATE_FAIL_NOT_ENOUGH_MEMORY, k)
    else
      p_index ← process_list_get_inactive_index (procs k);
      '(new_page, pg) ← paging_create_new_page_directory list_addr (pages k);
      if new_page =? 0 then Ret (PROCESS_CREATE_FAIL_NOT_ENOUGH_MEMORY, MkKernel (procs k) pg (umem k) (files k))
      else
        new_pcb ← arr_get (process_list (procs k)) p_index;
        '(pg, vs) ← allocate_frames (Z.to_nat page_frame_count_needed) pg new_page (virtual_addr_used new_pcb) 0;
        load_process k r p_index new_page (set_memory new_pcb vs page_frame_count_needed) pg.
End create.

Arguments kernel D : clear implicits.
