(* ===== verification/FatBuffer.v ===== *)
(** * The buffer of a request

    The kernel sees a buffer of a process as the memory from its address on.
    What the calls of fat32.c do with it does not depend on what lies behind the
    buffer the caller means, and leaves that alone. *)
From S2P Require Import Prelude CString BlockDevice FatLayout Fat32 FatFacts FatChain FatLoops FatSpec FatRefine FatWrite Paging Mmu Process.

(** The request with [rest] behind its buffer. *)
Definition extended (rq : FAT32DriverRequest) (rest : list Z) : FAT32DriverRequest := with_buf rq (buf rq ++ rest).

Lemma splice_app_l {A} (data b rest : list A) : (length data ≤ length b)%nat -> splice 0 data (b ++ rest) = splice 0 data b ++ rest.
Proof. intros H. unfold splice. rewrite !take_0, Nat.add_0_l, drop_app_le by exact H. exact (app_assoc data _ rest). Qed.

Lemma bytes_splice (data b : list Z) : bytes_ok data -> bytes_ok b -> bytes_ok (splice 0 data b).
Proof. intros Hd Hb. unfold splice. rewrite take_0. apply Forall_app. split; [constructor|]. apply Forall_app. split; [exact Hd|]. by apply Forall_drop. Qed.

Section buffer.
Context (v : volume) (fat : list Z) (rq : FAT32DriverRequest) (rest : list Z).
Context (Hblk : forall c, in_map c -> block_ok (vol_get v c)).

Lemma get_data_blocks cs : Forall in_map cs -> (length (get_data v cs) = 2048 * length cs)%nat /\ bytes_ok (get_data v cs).
Proof using Hblk.
  intros Hcs. split.
  - apply length_get_data. eapply Forall_impl; [exact Hcs|exact Hblk].
  - unfold get_data. apply Forall_concat, Forall_fmap. eapply Forall_impl; [exact Hcs|]. intros c Hc. apply Hblk, Hc.
Qed.

(** ** [read] *)

Definition read_backed : Prop :=
  forall e, lookup_first (matches (req_name rq) (req_ext rq)) (table_at v (parent_cluster_number rq)) = Some e ->
    entry_backed fat e /\
    (attribute e ≠ ATTR_SUBDIRECTORY -> filesize e ≤ buffer_size rq -> 2048 * Zlen (chain_of fat (entry_cluster e)) ≤ Zlen (buf rq)).

Lemma chain_data e : entry_backed fat e -> attribute e ≠ ATTR_SUBDIRECTORY ->
  (length (get_data v (chain_of fat (entry_cluster e))) = 2048 * length (chain_of fat (entry_cluster e)))%nat /\
  bytes_ok (get_data v (chain_of fat (entry_cluster e))).
Proof using Hblk.
  unfold entry_backed. intros He Ha. rewrite (proj2 (Z.eqb_neq _ _)) in He by exact Ha. destruct He as [l Hl].
  rewrite (chain_chain_of _ _ _ Hl). apply get_data_blocks. by eapply chain_in_map.
Qed.

Lemma spec_read_extended : read_backed -> bytes_ok (buf rq) ->
  spec_read v fat (extended rq rest) = ((spec_read v fat rq).1, (spec_read v fat rq).2 ++ rest) /\
  length (spec_read v fat rq).2 = length (buf rq) /\ bytes_ok (spec_read v fat rq).2 /\ -1 ≤ (spec_read v fat rq).1 ≤ 2.
Proof using Hblk.
  intros Hback Hb. unfold spec_read. cbn [extended with_buf parent_cluster_number req_name req_ext buffer_size buf].
  destruct (negb _); [by cbn|]. destruct (lookup_first _ _) as [e|] eqn:E; [|by cbn]. destruct (Hback e E) as [He Hfit].
  destruct (Z.eqb_spec (attribute e) ATTR_SUBDIRECTORY) as [|Ha]; [by cbn|]. destruct (Z.ltb_spec (buffer_size rq) (filesize e)) as [|Hsz]; [by cbn|].
  destruct (chain_data e He Ha) as [Hl Hd]. specialize (Hfit Ha Hsz). cbn [fst snd].
  assert (Hle : (length (get_data v (chain_of fat (entry_cluster e))) ≤ length (buf rq))%nat) by (rewrite Hl; unfold Zlen in Hfit; lia).
  rewrite splice_app_l by exact Hle. split; [done|]. split; [apply length_splice; lia|]. split; [by apply bytes_splice|lia].
Qed.

(** ** [read_directory] *)

Lemma spec_read_directory_extended : buffer_size rq ≤ Zlen (buf rq) -> bytes_ok (buf rq) ->
  (forall e, lookup_first (has_name (req_name rq)) (drop 2 (table_at v (parent_cluster_number rq))) = Some e ->
     attribute e = ATTR_SUBDIRECTORY -> in_map (entry_cluster e)) ->
  spec_read_directory v (extended rq rest) = ((spec_read_directory v rq).1, (spec_read_directory v rq).2 ++ rest) /\
  length (spec_read_directory v rq).2 = length (buf rq) /\ bytes_ok (spec_read_directory v rq).2 /\ -1 ≤ (spec_read_directory v rq).1 ≤ 2.
Proof using Hblk.
  intros Hsz Hb Hback. unfold spec_read_directory. cbn [extended with_buf parent_cluster_number req_name buffer_size buf].
  destruct (Z.ltb_spec (buffer_size rq) CLUSTER_SIZE) as [|Hcl]; [by cbn|]. destruct (negb _); [by cbn|].
  destruct (lookup_first _ _) as [e|] eqn:E; [|by cbn]. destruct (Z.eqb_spec (attribute e) ATTR_SUBDIRECTORY) as [Ha|]; [|by cbn].
  destruct (Hblk _ (Hback e eq_refl Ha)) as [Hl Hd]. cbn [fst snd]. change CLUSTER_SIZE with 2048 in Hcl.
  assert (Hle : (length (vol_get v (entry_cluster e)) ≤ length (buf rq))%nat) by (rewrite Hl; unfold Zlen in Hsz; lia).
  rewrite splice_app_l by exact Hle. split; [done|]. split; [apply length_splice; lia|]. split; [by apply bytes_splice|lia].
Qed.

(** ** [write] and [Delete] *)

Lemma put_data_app cs : forall w data, (2048 * length cs ≤ length data)%nat -> put_data w cs (data ++ rest) = put_data w cs data.
Proof using Type.
  induction cs as [|c cs IH]; intros w data Hl; cbn [put_data]; [reflexivity|]. cbn [length] in Hl.
  assert (Hle : (2048 ≤ length data)%nat) by lia. assert (Hl' : (2048 * length cs ≤ length (drop 2048 data))%nat) by (rewrite length_drop; lia).
  rewrite (take_app_le data rest 2048 Hle), (drop_app_le data rest 2048 Hle). exact (IH _ _ Hl').
Qed.
End buffer.


Section write.
Context (v : volume) (m : driver) (rq : FAT32DriverRequest) (rest : list Z).

Lemma spec_write_extended : write_args_ok m rq -> spec_write v m (extended rq rest) = spec_write v m rq.
Proof using Type.
  intros [Hrq _ Hbuf _ _]. unfold spec_write. cbn [extended with_buf parent_cluster_number req_name req_ext buffer_size buf].
  assert (Hfile : 1 ≤ number_of_partition (buffer_size rq) -> spec_write_file v m (extended rq rest) = spec_write_file v m rq).
  { intros Hp. unfold spec_write_file. cbn [extended with_buf parent_cluster_number req_name req_ext buffer_size buf]. rewrite put_data_app; [done|].
    cbn [length]. rewrite length_alloc_after. change CLUSTER_SIZE with 2048 in Hbuf. unfold Zlen in Hbuf. lia. }
  destruct (negb _); [reflexivity|]. destruct (lookup_first _ _); [reflexivity|]. destruct (decide _); [reflexivity|].
  destruct (Z.eqb_spec (buffer_size rq) 0) as [|Hz]; [reflexivity|]. destruct (_ <? _); [reflexivity|]. f_equal. apply Hfile, number_of_partition_pos.
  destruct Hrq as [_ _ [Hlo _]]. lia.
Qed.

Lemma write_args_extended : write_args_ok m rq -> bytes_ok rest -> write_args_ok m (extended rq rest).
Proof using Type.
  intros [Hrq Hp Hbuf Hb Hcount] Hrest. split; [destruct Hrq; by split|exact Hp| |by apply Forall_app|exact Hcount].
  cbn [extended with_buf buf buffer_size]. rewrite Zlen_app. unfold Zlen in *. lia.
Qed.
End write.
