(* ===== verification/ProcessFacts.v ===== *)
(** * The process table and the scheduler: lemmas *)
From S2P Require Import Prelude CString BlockDevice FatLayout Fat32 Paging Process.

Definition pcb_at (pm : ProcessManagerState) (i : Z) : option ProcessControlBlock := process_list pm !! Z.to_nat i.
Definition slot (i : Z) : Prop := 0 ≤ i < 16.

(** Not a slot that [process_create_user_process] may take. *)
Definition in_use (p : ProcessControlBlock) : bool := negb (bool_decide (state p = NEW)).

Record table_core (pm : ProcessManagerState) : Prop := MkTableCore {
  tw_len : length (process_list pm) = 16%nat;
  tw_run : -1 ≤ running_process_idx pm < 16;
  tw_unique i j p q : process_list pm !! i = Some p -> process_list pm !! j = Some q ->
    pid p = pid q -> pid p ≠ 0 -> i = j;
  tw_new i p : process_list pm !! i = Some p -> state p = NEW -> pid p = 0;
  tw_active : Z.of_nat (count in_use (process_list pm)) ≤ active_process_count pm ≤ 16;
  tw_shape : Forall (fun p => length (process_name p) = 8%nat /\ length (virtual_addr_used p) = 8%nat) (process_list pm)
}.

(** The process that is running, if any, has its slot in use. *)
Record table_wf (pm : ProcessManagerState) : Prop := MkTableWf {
  tw_core :> table_core pm;
  tw_running : slot (running_process_idx pm) ->
    exists p, process_list pm !! Z.to_nat (running_process_idx pm) = Some p /\ in_use p = true
}.

Lemma slot_lookup pm i : length (process_list pm) = 16%nat -> slot i -> exists p, pcb_at pm i = Some p.
Proof. intros Hl Hi. unfold pcb_at, slot in *. destruct (lookup_lt_is_Some_2 (process_list pm) (Z.to_nat i)) as [p Hp]; [lia|]. by exists p. Qed.

Lemma get_slot pm i p : slot i -> pcb_at pm i = Some p -> arr_get (process_list pm) i = Ret p.
Proof. intros Hi Hp. apply arr_get_lookup; [unfold slot in Hi; lia|done]. Qed.

Lemma put_slot pm i p :
  length (process_list pm) = 16%nat -> slot i ->
  put_pcb pm i p = Ret (set_list pm (<[Z.to_nat i := p]> (process_list pm))).
Proof. intros Hl Hi. unfold put_pcb, slot in *. by rewrite arr_set_in by (unfold Zlen; lia). Qed.

(** ** Fresh pids *)

Definition has_pid (n : Z) (p : ProcessControlBlock) : bool := pid p =? n.

Lemma find_pid_eq pm n :
  length (process_list pm) = 16%nat -> find_pid pm n = Ret (Z.of_nat (first_idx (has_pid n) (process_list pm))).
Proof.
  intros Hl. unfold find_pid. rewrite (scan_while_arr (has_pid n) (process_list pm)); [|done|unfold Zlen; lia|].
  - rewrite drop_0, take_ge by lia. done.
  - intros i p Hi Hp. by rewrite (arr_get_lookup _ _ p) by (done || lia).
Qed.

Definition pid_free (pm : ProcessManagerState) (n : Z) : Prop := Forall (fun p => pid p ≠ n) (process_list pm).

Lemma pid_free_scan pm n :
  length (process_list pm) = 16%nat -> (first_idx (has_pid n) (process_list pm) = 16%nat <-> pid_free pm n).
Proof.
  intros Hl. unfold pid_free. rewrite <- Hl. rewrite first_idx_none. apply Forall_iff. intros p. unfold has_pid. apply Z.eqb_neq.
Qed.

(** If none of the [k] candidates from [n] is free they are all in the table. *)
Lemma new_pid_loop_spec pm k n :
  length (process_list pm) = 16%nat -> 0 < n -> n + Z.of_nat k < 2 ^ 32 ->
  (exists m, n ≤ m < n + Z.of_nat k /\ new_pid_loop k pm n = Ret m /\ pid_free pm m /\
     forall x, n ≤ x < m -> ~ pid_free pm x) \/
  (forall x, n ≤ x < n + Z.of_nat k -> ~ pid_free pm x).
Proof.
  intros Hl. revert n. induction k as [|k IH]; intros n Hn Hk; [right; lia|]. cbn [new_pid_loop].
  rewrite find_pid_eq by done. rewrite bind_ret.
  pose proof (first_idx_le (has_pid n) (process_list pm)) as Hle.
  destruct (decide (first_idx (has_pid n) (process_list pm) = 16%nat)) as [Heq|Hne].
  - left. exists n. rewrite Heq. split; [lia|]. split; [done|]. split; [by apply pid_free_scan|]. lia.
  - assert (Hnf : ~ pid_free pm n) by by rewrite <- pid_free_scan.
    rewrite (proj2 (Z.eqb_neq _ _)) by (unfold PROCESS_COUNT_MAX; lia).
    rewrite wrap_small by (unfold is_word; lia).
    destruct (IH (n + 1)) as [(m & Hm & Hrun & Hf & Hall)|Hall]; [lia|lia|left|right].
    + exists m. split; [lia|]. split; [done|]. split; [done|]. intros x Hx. destruct (decide (x = n)) as [->|]; [done|apply Hall; lia].
    + intros x Hx. destruct (decide (x = n)) as [->|]; [done|apply Hall; lia].
Qed.

Lemma pigeonhole_pids (l : list ProcessControlBlock) (n : Z) :
  (forall x, 1 ≤ x < 1 + n -> ~ Forall (fun p => pid p ≠ x) l) -> n ≤ Zlen l.
Proof.
  intros H. destruct (decide (n ≤ 0)); [unfold Zlen; lia|].
  assert (Hsub : seqZ 1 n ⊆ (pid <$> l)).
  { intros x Hx%elem_of_seqZ. destruct (decide (Forall (fun p => pid p ≠ x) l)) as [Hf|Hf]; [exfalso; eapply H; [|done]; lia|].
    apply not_Forall_Exists in Hf; [|apply _]. apply Exists_exists in Hf as (p & Hp & Hx'). simpl in Hx'.
    apply list_elem_of_fmap. exists p. split; [|done]. destruct (decide (pid p = x)); [done|tauto]. }
  apply NoDup_submseteq in Hsub; [|apply NoDup_seqZ]. apply submseteq_length in Hsub.
  rewrite length_seqZ, length_fmap in Hsub. unfold Zlen. lia.
Qed.

Lemma generate_pid_spec pm :
  length (process_list pm) = 16%nat ->
  exists n, process_generate_new_pid pm = Ret n /\ 1 ≤ n ≤ 17 /\ pid_free pm n /\ forall x, 1 ≤ x < n -> ~ pid_free pm x.
Proof.
  intros Hl. unfold process_generate_new_pid.
  destruct (new_pid_loop_spec pm 17 1 Hl) as [(n & Hn & Hrun & Hf & Hall)|Hall]; [lia|lia| |].
  - exists n. split; [done|]. split; [lia|]. done.
  - apply pigeonhole_pids in Hall. unfold Zlen in Hall. lia.
Qed.

(** ** Free slots *)

Definition is_new (p : ProcessControlBlock) : bool := bool_decide (state p = NEW).

Lemma inactive_index_eq pm :
  length (process_list pm) = 16%nat -> (first_idx is_new (process_list pm) < 16)%nat ->
  process_list_get_inactive_index pm = Ret (Z.of_nat (first_idx is_new (process_list pm))).
Proof.
  intros Hl Hlt. unfold process_list_get_inactive_index.
  assert (Hscan : forall k i, (i + first_idx is_new (drop i (process_list pm)) < 16)%nat ->
    (first_idx is_new (drop i (process_list pm)) < k)%nat ->
    scan_while k (fun i => p ← arr_get (process_list pm) i; Ret (negb (bool_decide (state p = NEW)))) (Z.of_nat i) =
      Ret (Z.of_nat (i + first_idx is_new (drop i (process_list pm))))).
  { induction k as [|k IH]; intros i Hi Hk; [lia|]. cbn [scan_while].
    destruct (lookup_lt_is_Some_2 (process_list pm) i) as [p Hp]; [lia|].
    rewrite (arr_get_lookup _ _ p) by (lia || by rewrite Nat2Z.id). rewrite !bind_ret.
    rewrite (drop_S _ p) in * by done. cbn [first_idx] in *. fold (is_new p).
    destruct (is_new p); cbn [negb]; [f_equal; lia|].
    replace (Z.of_nat i + 1) with (Z.of_nat (S i)) by lia. rewrite IH by lia. f_equal. lia. }
  change 0 with (Z.of_nat 0). rewrite Hscan; rewrite ?drop_0; (lia || done).
Qed.

Lemma count_is_new (l : list ProcessControlBlock) : (count is_new l + count in_use l = length l)%nat.
Proof. induction l as [|p l IH]; [done|]. cbn [count length]. unfold is_new, in_use in *. destruct (bool_decide (state p = NEW)); simpl; lia. Qed.

Lemma free_slot_exists pm :
  table_wf pm -> active_process_count pm < 16 -> (first_idx is_new (process_list pm) < 16)%nat.
Proof.
  intros [[Hl _ _ _ Ha _] _] Hlt. rewrite <- Hl. apply count_pos. pose proof (count_is_new (process_list pm)). lia.
Qed.

(** ** Round robin *)

(** How many steps of the circular search lead from slot [r] to slot [j]. *)
Definition distance (r j : Z) : Z := (j - r - 1) mod 16.

Definition ready_at (pm : ProcessManagerState) (j : Z) : Prop :=
  slot j /\ exists p, pcb_at pm j = Some p /\ state p = READY.

Lemma rem_next i : -1 ≤ i < 16 -> Z.rem (i + 1) PROCESS_COUNT_MAX = (i + 1) mod 16.
Proof. intros. unfold PROCESS_COUNT_MAX. apply Z.rem_mod_nonneg; lia. Qed.

(** Linear arithmetic with a remainder by a constant. *)
Ltac mod_lia := Z.div_mod_to_equations; lia.

Lemma distance_slot r j : -1 ≤ r < 16 -> slot j -> 0 ≤ distance r j < 16 /\ j = (r + 1 + distance r j) mod 16.
Proof. unfold slot, distance. intros Hr Hj. split; mod_lia. Qed.

Lemma sched_loop_spec pm r : running_process_idx pm = r -> length (process_list pm) = 16%nat -> -1 ≤ r < 16 ->
  forall k next counter,
  slot next -> 0 ≤ counter ≤ 16 -> counter + Z.of_nat k = 17 -> next = (r + 1 + counter) mod 16 ->
  (forall j, ready_at pm j -> j ≠ r -> counter ≤ distance r j) ->
  exists next' counter', sched_loop k pm next counter = Ret (next', counter') /\ slot next' /\
    ((next' ≠ r /\ counter' < 16 /\ ready_at pm next' /\
      forall j, ready_at pm j -> j ≠ r -> distance r next' ≤ distance r j) \/
     ((forall j, ready_at pm j -> j = r) /\ (next' = r \/ counter' = 16))).
Proof.
  intros Hr Hl Hrange. induction k as [|k IH]; intros next counter Hnext Hc Hk Hmod Hmin; cbn [sched_loop]; [lia|].
  rewrite Hr. unfold PROCESS_COUNT_MAX. destruct ((next =? r) || (counter =? 16)) eqn:Hstop.
  - exists next, counter. split; [done|]. split; [done|]. right. split; [|lia].
    intros j Hj. destruct (decide (j = r)) as [|Hne]; [done|]. pose proof (Hmin j Hj Hne) as Hd.
    destruct Hj as [Hj _]. destruct (distance_slot r j) as [Hd1 Hd2]; [done..|]. unfold slot in *.
    revert Hd2. mod_lia.
  - destruct (slot_lookup pm next Hl Hnext) as [p Hp]. rewrite (get_slot pm next p) by done. rewrite bind_ret.
    assert (Hdist : distance r next = counter) by (unfold distance, slot in *; mod_lia).
    case_bool_decide as Hst.
    + exists next, counter. split; [done|]. split; [done|]. left. split; [lia|]. split; [lia|].
      split; [split; [done|by exists p]|]. intros j Hj Hne. rewrite Hdist. by apply Hmin.
    + replace (Z.rem (next + 1) 16) with ((next + 1) mod 16) by (symmetry; apply Z.rem_mod_nonneg; unfold slot in *; lia).
      apply IH; [unfold slot; mod_lia|lia|lia|mod_lia|]. intros j Hj Hne. pose proof (Hmin j Hj Hne) as Hd.
      destruct (decide (distance r j = counter)) as [Heq|]; [|lia]. exfalso. apply Hst.
      destruct Hj as [Hj (q & Hq & Hq')]. destruct (distance_slot r j) as [_ Hd2]; [done..|].
      assert (j = next) as -> by congruence. congruence.
Qed.

(** The process the switch picks: the READY one that comes first after [r]. *)
Definition next_ready (pm : ProcessManagerState) (j : Z) : Prop :=
  ready_at pm j /\ j ≠ running_process_idx pm /\
  forall i, ready_at pm i -> i ≠ running_process_idx pm ->
    distance (running_process_idx pm) j ≤ distance (running_process_idx pm) i.

Definition run_slot (pm : ProcessManagerState) (j : Z) (p : ProcessControlBlock) : ProcessManagerState :=
  MkProcs (<[Z.to_nat j := set_state p RUNNING]> (process_list pm)) j (active_process_count pm).

Lemma switch_spec pm pg :
  length (process_list pm) = 16%nat -> -1 ≤ running_process_idx pm < 16 ->
  (exists j p, next_ready pm j /\ pcb_at pm j = Some p /\
     scheduler_switch_to_next_process pm pg =
       Ret (SwitchTo (context p), run_slot pm j p, paging_use_page_directory pg (page_directory_virtual_addr (context p)))) \/
  ((forall j, ready_at pm j -> j = running_process_idx pm) /\
   ((exists p, slot (running_process_idx pm) /\ pcb_at pm (running_process_idx pm) = Some p /\
      scheduler_switch_to_next_process pm pg = Ret (Resume, run_slot pm (running_process_idx pm) p, pg)) \/
    scheduler_switch_to_next_process pm pg = Ret (Resume, pm, pg))).
Proof.
  intros Hl Hr. unfold scheduler_switch_to_next_process. rewrite rem_next by done.
  destruct (sched_loop_spec pm _ eq_refl Hl Hr 17 ((running_process_idx pm + 1) mod 16) 0) as (n & c & -> & Hn & Hcase).
  { unfold slot. mod_lia. } { lia. } { lia. } { mod_lia. }
  { intros j [Hj _] _. destruct (distance_slot (running_process_idx pm) j) as [? _]; [done..|lia]. }
  rewrite bind_ret. destruct (slot_lookup pm n Hl Hn) as [p Hp].
  destruct Hcase as [(Hne & Hc & Hready & Hmin)|(Hnone & Hend)].
  - left. exists n, p. rewrite (proj2 (Z.eqb_neq _ _)) by done.
    rewrite (proj2 (Z.eqb_neq c _)) by (unfold PROCESS_COUNT_MAX; lia).
    rewrite (get_slot pm n p), bind_ret, put_slot by done. rewrite bind_ret. split; [done|]. by split.
  - right. split; [done|]. destruct (Z.eqb_spec n (running_process_idx pm)) as [->|Hne].
    + left. exists p. split; [done|]. split; [done|]. rewrite (get_slot pm _ p), bind_ret, put_slot by done. done.
    + right. destruct Hend as [|Hc]; [done|]. by rewrite (proj2 (Z.eqb_eq _ _)).
Qed.

(** With a process running and no other one READY the search comes back to it. *)
Lemma sched_resume pm pg :
  length (process_list pm) = 16%nat -> slot (running_process_idx pm) ->
  (forall j, ready_at pm j -> j = running_process_idx pm) ->
  exists p, pcb_at pm (running_process_idx pm) = Some p /\
    scheduler_switch_to_next_process pm pg = Ret (Resume, run_slot pm (running_process_idx pm) p, pg).
Proof.
  intros Hl Hr Hnone. set (r := running_process_idx pm) in *. destruct (slot_lookup pm r Hl Hr) as [p Hp]. exists p. split; [done|].
  unfold scheduler_switch_to_next_process. rewrite rem_next by (unfold slot in Hr; fold r; lia). fold r.
  assert (Hloop : forall k next counter, slot next -> 0 ≤ counter ≤ 15 -> counter + Z.of_nat k = 17 ->
    next = (r + 1 + counter) mod 16 -> sched_loop k pm next counter = Ret (r, 15)).
  { induction k as [|k IH]; intros next counter Hn Hc Hk Hmod; [lia|]. cbn [sched_loop]. fold r.
    unfold PROCESS_COUNT_MAX. destruct (Z.eqb_spec next r) as [Heq|Hne]; cbn [orb].
    - subst next. rewrite Heq. assert (counter = 15) as -> by (unfold slot in *; revert Heq; mod_lia). done.
    - rewrite (proj2 (Z.eqb_neq counter 16)) by lia. destruct (slot_lookup pm next Hl Hn) as [q Hq].
      rewrite (get_slot pm next q) by done. rewrite bind_ret.
      rewrite bool_decide_false by (intros Hst; apply Hne, Hnone; split; [done|by exists q]).
      replace (Z.rem (next + 1) 16) with ((next + 1) mod 16) by (symmetry; apply Z.rem_mod_nonneg; unfold slot in *; lia).
      apply IH; unfold slot in *; [mod_lia| |lia|mod_lia].
      split; [lia|]. destruct (decide (counter = 15)) as [->|]; [|lia]. exfalso. apply Hne. mod_lia. }
  rewrite Hloop by (unfold slot in *; (lia || mod_lia)). rewrite bind_ret, Z.eqb_refl.
  rewrite (get_slot pm r p), bind_ret, put_slot by done. done.
Qed.

Lemma switch_cases pm pg :
  length (process_list pm) = 16%nat -> slot (running_process_idx pm) ->
  (exists j p, next_ready pm j /\ pcb_at pm j = Some p /\
     scheduler_switch_to_next_process pm pg =
       Ret (SwitchTo (context p), run_slot pm j p, paging_use_page_directory pg (page_directory_virtual_addr (context p)))) \/
  (exists p, pcb_at pm (running_process_idx pm) = Some p /\
     scheduler_switch_to_next_process pm pg = Ret (Resume, run_slot pm (running_process_idx pm) p, pg)).
Proof.
  intros Hl Hr. destruct (switch_spec pm pg Hl) as [?|[Hnone _]]; [unfold slot in Hr; lia|by left|right].
  by apply sched_resume.
Qed.
