(* ===== verification/ProcessProps.v ===== *)
(** * Theorems about processes and scheduling *)
From stdpp Require Import relations.
From S2P Require Import Prelude CString BlockDevice FatLayout Fat32 Paging PagingFacts PagingProps Process ProcessFacts.

(** [process_generate_new_pid] always ends and returns the smallest
    positive pid that no process has, at most 17. *)
Theorem new_pid_fresh pm :
  length (process_list pm) = 16%nat ->
  exists n, process_generate_new_pid pm = Ret n /\ 1 ≤ n ≤ 17 /\
    Forall (fun p => pid p ≠ n) (process_list pm) /\
    (forall x, 1 ≤ x < n -> exists p, p ∈ process_list pm /\ pid p = x).
Proof.
  intros Hl. destruct (generate_pid_spec pm Hl) as (n & Hrun & Hn & Hf & Hall). exists n. split_and!; try done; try apply Hn.
  intros x Hx. specialize (Hall x Hx). unfold pid_free in Hall. apply not_Forall_Exists in Hall; [|apply _].
  apply Exists_exists in Hall as (p & Hp & Hx'). exists p. split; [done|]. simpl in Hx'.
  destruct (decide (pid p = x)); [done|tauto].
Qed.

(** ** The timer interrupt *)

(** What the handler does to the process table between saving the context and
    leaving: save, acknowledge (the port write is not here), switch. *)
Definition tick (pm : ProcessManagerState) (pg : paging) (ctx : Context) : res (switched * ProcessManagerState * paging) :=
  pm ← scheduler_save_context_to_current_running_pcb pm ctx; scheduler_switch_to_next_process pm pg.

(** The table after the running process was saved. *)
Definition saved (pm : ProcessManagerState) (ctx : Context) : ProcessManagerState :=
  set_list pm (alter (fun p => set_state (set_context p ctx) READY) (Z.to_nat (running_process_idx pm)) (process_list pm)).

Lemma save_eq pm ctx :
  length (process_list pm) = 16%nat -> slot (running_process_idx pm) ->
  scheduler_save_context_to_current_running_pcb pm ctx = Ret (saved pm ctx).
Proof.
  intros Hl Hr. unfold scheduler_save_context_to_current_running_pcb, process_get_current_running_pcb_pointer.
  rewrite (proj2 (Z.eqb_neq _ (-1))) by (unfold slot in Hr; lia).
  destruct (slot_lookup pm _ Hl Hr) as [p Hp]. rewrite (get_slot pm _ p), bind_ret, put_slot by done.
  unfold saved. do 2 f_equal. apply list_eq. intros i. unfold pcb_at in Hp.
  destruct (decide (i = Z.to_nat (running_process_idx pm))) as [->|Hne].
  - rewrite list_lookup_insert_eq, list_lookup_alter_eq, Hp by by eapply lookup_lt_Some. done.
  - by rewrite list_lookup_insert_ne, list_lookup_alter_ne by done.
Qed.

Lemma pcb_saved pm ctx i :
  slot i -> slot (running_process_idx pm) ->
  pcb_at (saved pm ctx) i =
    if decide (i = running_process_idx pm) then (fun p => set_state (set_context p ctx) READY) <$> pcb_at pm i else pcb_at pm i.
Proof.
  intros Hi Hr. unfold pcb_at, saved, slot in *. cbn [process_list set_list]. case_decide as Hd; [subst; by rewrite list_lookup_alter_eq|].
  rewrite list_lookup_alter_ne by lia. done.
Qed.

Lemma pcb_run_slot pm j p i :
  length (process_list pm) = 16%nat -> slot i -> slot j ->
  pcb_at (run_slot pm j p) i = if decide (i = j) then Some (set_state p RUNNING) else pcb_at pm i.
Proof.
  intros Hl Hi Hj. unfold pcb_at, run_slot, slot in *. cbn [process_list]. case_decide as Hd.
  - subst. apply list_lookup_insert_eq. lia.
  - rewrite list_lookup_insert_ne by lia. done.
Qed.

Definition only_running (pm : ProcessManagerState) : Prop :=
  forall i p, slot i -> pcb_at pm i = Some p -> state p = RUNNING -> i = running_process_idx pm.

(** The tick in one step: who runs next, and what is resumed. *)
Lemma tick_spec pm pg ctx :
  length (process_list pm) = 16%nat -> slot (running_process_idx pm) ->
  (exists j p, ready_at pm j /\ j ≠ running_process_idx pm /\ pcb_at pm j = Some p /\
     (forall i, ready_at pm i -> i ≠ running_process_idx pm ->
        distance (running_process_idx pm) j ≤ distance (running_process_idx pm) i) /\
     tick pm pg ctx = Ret (SwitchTo (context p), run_slot (saved pm ctx) j p,
                           paging_use_page_directory pg (page_directory_virtual_addr (context p)))) \/
  ((forall j, ready_at pm j -> j = running_process_idx pm) /\
   exists p, pcb_at pm (running_process_idx pm) = Some p /\
     tick pm pg ctx = Ret (Resume, run_slot (saved pm ctx) (running_process_idx pm) (set_state (set_context p ctx) READY), pg)).
Proof.
  intros Hl Hr. unfold tick. rewrite save_eq by done. rewrite bind_ret.
  assert (Hl' : length (process_list (saved pm ctx)) = 16%nat) by (cbn; by rewrite length_alter).
  assert (Hready : forall i, i ≠ running_process_idx pm -> ready_at (saved pm ctx) i <-> ready_at pm i).
  { intros i Hne. unfold ready_at. split; intros (Hi & p & Hp & Hst); (split; [done|]); exists p;
      rewrite pcb_saved, decide_False in * by done; done. }
  destruct (switch_spec (saved pm ctx) pg Hl') as [(j & p & (Hj & Hne & Hmin) & Hp & Hrun)|(Hnone & Hrun)];
    [unfold slot in Hr; cbn; lia| |].
  - left. cbn [running_process_idx saved set_list] in Hne, Hmin. exists j, p. rewrite Hrun.
    pose proof Hj as [Hjs _]. rewrite pcb_saved, decide_False in Hp by done.
    split; [by apply Hready|]. split; [done|]. split; [done|]. split; [|done].
    intros i Hi Hi'. apply Hmin; [by apply Hready|done].
  - right. cbn [running_process_idx saved set_list] in Hnone, Hrun. split.
    + intros j Hj. destruct (decide (j = running_process_idx pm)) as [|Hne]; [done|]. apply Hnone. by apply Hready.
    + destruct (slot_lookup pm _ Hl Hr) as [p Hp]. exists p. split; [done|].
      destruct (sched_resume (saved pm ctx) pg Hl' Hr Hnone) as (q & Hq & Hrun').
      change (running_process_idx (saved pm ctx)) with (running_process_idx pm) in Hq.
      rewrite pcb_saved, decide_True, Hp in Hq by done. injection Hq as <-. exact Hrun'.
Qed.

(** The timer tick: it stores the interrupted context in the running
    process, makes it READY, and resumes the READY process that comes first
    after it in circular order, with the context that process was saved with
    and its page directory; with no other READY process the interrupted one
    goes on.  No other process changes. *)
Theorem tick_round_robin pm pg ctx r :
  table_wf pm -> running_process_idx pm = r -> slot r ->
  exists o j p pm' pg', tick pm pg ctx = Ret (o, pm', pg') /\ running_process_idx pm' = j /\ pcb_at pm' j = Some p /\
    state p = RUNNING /\
    (forall i, slot i -> i ≠ j -> i ≠ r -> pcb_at pm' i = pcb_at pm i) /\
    (j ≠ r -> exists q, pcb_at pm j = Some q /\ state q = READY /\ o = SwitchTo (context q) /\ context p = context q /\
       pg' = paging_use_page_directory pg (page_directory_virtual_addr (context q)) /\
       (forall i, ready_at pm i -> i ≠ r -> distance r j ≤ distance r i) /\
       exists q', pcb_at pm' r = Some q' /\ context q' = ctx /\ state q' = READY) /\
    (j = r -> o = Resume /\ context p = ctx /\ pg' = pg /\ forall i, ready_at pm i -> i = r).
Proof.
  intros Hwf <- Hr. pose proof (tw_len _ Hwf) as Hl. set (r := running_process_idx pm) in *.
  assert (Hl' : length (process_list (saved pm ctx)) = 16%nat) by (cbn; by rewrite length_alter).
  destruct (tick_spec pm pg ctx Hl Hr) as [(j & p & Hj & Hne & Hp & Hmin & Hrun)|(Hnone & p & Hp & Hrun)].
  - pose proof Hj as [Hjs (q & Hq & Hst)]. assert (p = q) as -> by congruence.
    exists (SwitchTo (context q)), j, (set_state q RUNNING), (run_slot (saved pm ctx) j q),
      (paging_use_page_directory pg (page_directory_virtual_addr (context q))).
    split; [done|]. split; [done|]. split; [by rewrite pcb_run_slot, decide_True by done|]. split; [done|]. split.
    { intros i Hi Hij Hir. rewrite pcb_run_slot, decide_False by done. by rewrite pcb_saved, decide_False by done. }
    split; [|done]. intros _. exists q. split_and!; try done.
    destruct (slot_lookup pm r Hl Hr) as [pr Hpr]. exists (set_state (set_context pr ctx) READY).
    rewrite pcb_run_slot, decide_False by done. by rewrite pcb_saved, decide_True, Hpr by done.
  - exists Resume, r, (set_state (set_state (set_context p ctx) READY) RUNNING),
      (run_slot (saved pm ctx) r (set_state (set_context p ctx) READY)), pg.
    split; [done|]. split; [done|]. split; [by rewrite pcb_run_slot, decide_True by done|]. split; [done|]. split.
    { intros i Hi Hij Hir. rewrite pcb_run_slot, decide_False by done. by rewrite pcb_saved, decide_False by done. }
    split; [done|]. intros _. split; [done|]. split; [done|]. split; [done|]. exact Hnone.
Qed.

(** A run of the timer: one tick for each interrupted context. *)
Fixpoint ticks (ctxs : list Context) (pm : ProcessManagerState) (pg : paging) : res (ProcessManagerState * paging) :=
  match ctxs with
  | [] => Ret (pm, pg)
  | c :: cs => '(_, pm, pg) ← tick pm pg c; ticks cs pm pg
  end.

Lemma tick_progress pm pg ctx j :
  length (process_list pm) = 16%nat -> slot (running_process_idx pm) -> ready_at pm j -> j ≠ running_process_idx pm ->
  exists o pm' pg', tick pm pg ctx = Ret (o, pm', pg') /\ length (process_list pm') = 16%nat /\
    slot (running_process_idx pm') /\
    ((running_process_idx pm' = j /\ exists p, pcb_at pm' j = Some p /\ state p = RUNNING) \/
     (ready_at pm' j /\ j ≠ running_process_idx pm' /\
      distance (running_process_idx pm') j < distance (running_process_idx pm) j)).
Proof.
  intros Hl Hr Hj Hne. set (r := running_process_idx pm) in *.
  assert (Hl' : length (process_list (saved pm ctx)) = 16%nat) by (cbn; by rewrite length_alter).
  destruct (tick_spec pm pg ctx Hl Hr) as [(n & p & Hn & Hnr & Hp & Hmin & Hrun)|(Hnone & _)].
  2: { exfalso. apply Hne. by apply Hnone. }
  fold r in Hmin, Hnr. eexists _, _, _. split; [exact Hrun|]. split; [cbn; by rewrite length_insert, length_alter|].
  pose proof Hn as [Hns _]. split; [done|]. cbn [running_process_idx run_slot]. destruct (decide (n = j)) as [->|Hnj].
  - left. split; [done|]. exists (set_state p RUNNING). by rewrite pcb_run_slot, decide_True by done.
  - right. pose proof Hj as [Hjs (q & Hq & Hst)]. split.
    + split; [done|]. exists q. rewrite pcb_run_slot, decide_False by done. by rewrite pcb_saved, decide_False by done.
    + split; [done|]. specialize (Hmin j Hj Hne). unfold distance, slot in *. revert Hmin. mod_lia.
Qed.

(** No process starves: however the interrupted contexts look, a READY
    process is running after at most 15 ticks. *)
Theorem round_robin_fair pm pg j ctxs :
  table_wf pm -> slot (running_process_idx pm) -> ready_at pm j -> j ≠ running_process_idx pm -> length ctxs = 15%nat ->
  exists k pm' pg', (k ≤ 15)%nat /\ ticks (take k ctxs) pm pg = Ret (pm', pg') /\
    running_process_idx pm' = j /\ exists p, pcb_at pm' j = Some p /\ state p = RUNNING.
Proof.
  intros Hwf Hr Hj Hne Hlen.
  assert (Hmain : forall n cs pm pg, length (process_list pm) = 16%nat -> slot (running_process_idx pm) ->
    ready_at pm j -> j ≠ running_process_idx pm -> distance (running_process_idx pm) j < Z.of_nat n -> (n ≤ length cs)%nat ->
    exists k pm' pg', (k ≤ n)%nat /\ ticks (take k cs) pm pg = Ret (pm', pg') /\
      running_process_idx pm' = j /\ exists p, pcb_at pm' j = Some p /\ state p = RUNNING).
  { clear. intros n. induction n as [|n IH]; intros cs pm pg Hl Hr Hj Hne Hd Hn.
    - pose proof Hj as [Hjs _]. unfold distance in Hd. pose proof (Z.mod_pos_bound (j - running_process_idx pm - 1) 16). lia.
    - destruct cs as [|c cs]; [simpl in Hn; lia|]. simpl in Hn.
      destruct (tick_progress pm pg c j Hl Hr Hj Hne) as (o & pm1 & pg1 & Hrun & Hl1 & Hr1 & [[Heq Hp]|(Hj1 & Hne1 & Hd1)]).
      + exists 1%nat, pm1, pg1. split; [lia|]. split; [|done]. cbn [take ticks]. rewrite Hrun. done.
      + destruct (IH cs pm1 pg1) as (k & pm' & pg' & Hk & Hrun' & Hend); [done..|lia|lia|].
        exists (S k), pm', pg'. split; [lia|]. split; [|done]. cbn [take ticks]. by rewrite Hrun. }
  apply Hmain; try done; [exact (tw_len _ Hwf)| |lia].
  pose proof Hj as [Hjs _]. destruct (distance_slot (running_process_idx pm) j) as [Hd1 Hd2]; [unfold slot in Hr; lia|done|].
  destruct (decide (distance (running_process_idx pm) j = 15)) as [Heq|]; [|lia]. exfalso. apply Hne.
  rewrite Heq in Hd2. unfold slot in *. revert Hd2. mod_lia.
Qed.
