(* ===== verification/ProcessImage.v ===== *)
(** * The memory of a new process

    What the three bulk transfers of [process_create_user_process] leave in
    physical memory: the executable at address 0 of the new address space, a
    zero second page, and nothing changed in any other address space. *)
From S2P Require Import Prelude Paging PagingFacts Mmu UserMemory Process.

Lemma window_length n : forall dir m va, 0 ≤ va -> va + Z.of_nat n ≤ 2 ^ 32 ->
  (forall i, 0 ≤ i < Z.of_nat n -> mapped dir (va + i)) -> length (window n dir m va) = n.
Proof.
  induction n as [|n IH]; intros dir m va Hva Hlt Hm; [done|]. cbn [window].
  destruct (Hm 0) as [Hw Ht]; [lia|]. rewrite Z.add_0_r in *. rewrite wrap_small by done.
  destruct (translate dir va) as [p|]; [|done]. simpl. f_equal. apply IH; [lia|lia|].
  intros i Hi. replace (va + 1 + i) with (va + (i + 1)) by lia. apply Hm. lia.
Qed.

Lemma window_size : Z.of_nat BUFFER_WINDOW = 2 ^ 20.
Proof. by vm_compute. Qed.

(** The first [n] pages of directory [d] are user pages. *)
Definition pages_mapped (pg : paging) (d : nat) (n : Z) : Prop :=
  forall q, 0 ≤ q < n -> exists f, maps pg d (Z.to_nat q) f.

Lemma pages_all_mapped pg d dir n va len : page_directory_list pg !! d = Some dir -> pages_mapped pg d n -> n ≤ 768 ->
  0 ≤ va -> va + len ≤ n * PAGE_FRAME_SIZE -> all_mapped dir va len.
Proof.
  intros Hd Hm Hn Hva Hlen i Hi. unfold PAGE_FRAME_SIZE in *.
  assert (Hw : is_word 32 (va + i)) by (unfold is_word; change (2 ^ 32) with (1024 * 2 ^ 22); lia).
  split; [done|]. destruct (Hm ((va + i) / PAGE_FRAME_SIZE)) as [f Hf].
  { unfold PAGE_FRAME_SIZE. split; [apply Z.div_pos; lia|apply Z.div_lt_upper_bound; lia]. }
  by rewrite (maps_translate pg d dir (va + i) f).
Qed.

(** [w] is at address 0 of directory [d] and its second page is zero; no byte
    of another address space has changed. *)
Record image_loaded (pg : paging) (m m' : ram) (d : nat) (w : list Z) : Prop := MkImageLoaded {
  il_dir : exists dir, page_directory_list pg !! d = Some dir /\
    (forall i b, 0 ≤ i -> w !! Z.to_nat i = Some b -> load dir m' i = Ret b) /\
    (forall i, PAGE_FRAME_SIZE ≤ i < 2 * PAGE_FRAME_SIZE -> load dir m' i = Ret 0);
  il_other j dj y : j ≠ d -> page_directory_list pg !! j = Some dj -> 0 ≤ y < KERNEL_VIRTUAL_ADDRESS_BASE ->
    load dj m' y = load dj m y
}.

Lemma image_loaded_pages pg pg' m m' d w : page_directory_list pg' = page_directory_list pg ->
  image_loaded pg m m' d w -> image_loaded pg' m m' d w.
Proof. intros Heq [H1 H2]. split; rewrite Heq; done. Qed.

(** A sequence of stores below the kernel's half in one space is not seen in
    another one. *)
Lemma stored_other pg d dir j dj m m' va n val y : frames_ok pg -> page_directory_list pg !! d = Some dir ->
  page_directory_list pg !! j = Some dj -> j ≠ d -> 0 ≤ va -> va + n ≤ KERNEL_VIRTUAL_ADDRESS_BASE ->
  0 ≤ y < KERNEL_VIRTUAL_ADDRESS_BASE -> stored dir m m' va n val -> load dj m' y = load dj m y.
Proof.
  unfold KERNEL_VIRTUAL_ADDRESS_BASE. intros Hok Hd Hj Hne Hva Hn Hy Hst. unfold load.
  rewrite wrap_small by (unfold is_word; lia). destruct (translate dj y) as [p|] eqn:Hp; [|done]. f_equal.
  apply (st_out _ _ _ _ _ _ Hst). intros i Hi Hq.
  destruct (translate_inj pg d j dir dj (va + i) y p) as [-> _]; try done; unfold KERNEL_VIRTUAL_ADDRESS_BASE; lia.
Qed.

Section image.
Context (pg : paging) (d : nat) (dir : PageDirectory) (n a : Z).
Context (Hok : frames_ok pg) (Hd : page_directory_list pg !! d = Some dir) (Hm : pages_mapped pg d n).
Context (Hn : 2 ≤ n ≤ 8) (Ha : 0 ≤ a) (Hend : a + PAGE_FRAME_SIZE ≤ n * PAGE_FRAME_SIZE).

Lemma image_window m : length (window BUFFER_WINDOW dir m a) = BUFFER_WINDOW.
Proof using All.
  pose proof window_size as Hw. pose proof Hend as He. unfold PAGE_FRAME_SIZE in He. apply window_length; [exact Ha|lia|].
  apply (pages_all_mapped pg d dir n a); [exact Hd|exact Hm|lia|exact Ha|]. unfold PAGE_FRAME_SIZE. lia.
Qed.

Lemma image_stores m w : length w = BUFFER_WINDOW ->
  exists m1 m2 m3, store_bytes dir m a w = Ret m1 /\ copy_bytes dir m1 0 a PAGE_FRAME_SIZE = Ret m2 /\
    fill_bytes dir m2 PAGE_FRAME_SIZE 0 PAGE_FRAME_SIZE = Ret m3 /\ image_loaded pg m m3 d w /\
    (ram_ok m -> bytes_ok w -> ram_ok m3).
Proof using All.
  intros Hlen. pose proof window_size as Hwin. assert (Hz : Zlen w = 2 ^ 20) by (unfold Zlen; by rewrite Hlen).
  pose proof (directory_apart pg d dir Hok Hd) as Hap.
  assert (HP : 0 < PAGE_FRAME_SIZE) by reflexivity.
  assert (HB : 8 * PAGE_FRAME_SIZE ≤ KERNEL_VIRTUAL_ADDRESS_BASE) by discriminate.
  assert (HW : 2 ^ 20 ≤ PAGE_FRAME_SIZE) by discriminate.
  assert (Hlin : 2 * PAGE_FRAME_SIZE ≤ n * PAGE_FRAME_SIZE /\ n * PAGE_FRAME_SIZE ≤ 8 * PAGE_FRAME_SIZE) by nia.
  assert (Hall : forall va len, 0 ≤ va -> va + len ≤ n * PAGE_FRAME_SIZE -> all_mapped dir va len)
    by (intros; eapply pages_all_mapped; [exact Hd|exact Hm|lia|lia|lia]).
  destruct (store_bytes_ok dir _ Hap m a w) as (m1 & H1 & S1); [exact Ha|lia|apply Hall; lia|].
  destruct (copy_bytes_ok dir _ Hap m1 0 a PAGE_FRAME_SIZE) as (m2 & H2 & S2); [lia|lia|lia|apply Hall; lia|apply Hall; lia|].
  destruct (fill_bytes_ok dir _ Hap m2 PAGE_FRAME_SIZE 0 PAGE_FRAME_SIZE) as (m3 & H3 & S3);
    [lia|lia|lia|apply Hall; lia|].
  exists m1, m2, m3. split; [done|]. split; [done|]. split; [done|]. split; [|].
  2: { intros Hm0 Hbw. apply (fill_bytes_keeps dir m2 PAGE_FRAME_SIZE 0 PAGE_FRAME_SIZE m3); [|exact H3].
       apply (copy_bytes_keeps dir m1 0 a PAGE_FRAME_SIZE m2); [|exact H2]. exact (store_bytes_keeps dir m a w m1 Hm0 Hbw H1). }
  split.
  - exists dir. split; [done|]. split.
    + intros i b Hi Hb. assert (Hi20 : i < 2 ^ 20) by (pose proof (lookup_lt_Some _ _ _ Hb); lia).
      assert (Hmi : mapped dir i) by (apply (Hall 0 PAGE_FRAME_SIZE); lia).
      destruct (load_mapped dir m3 i Hmi) as (p & Hp & ->). f_equal.
      rewrite (st_out _ _ _ _ _ _ S3).
      2:{ intros j Hj Hq. assert (PAGE_FRAME_SIZE + j = i) by (apply (Hap _ _ p); lia || done). lia. }
      rewrite (st_in _ _ _ _ _ _ S2 i p) by (lia || done).
      destruct (load_mapped dir m1 (a + i)) as (q & Hq & _); [apply (Hall a PAGE_FRAME_SIZE); lia|]. rewrite Hq.
      rewrite (st_in _ _ _ _ _ _ S1 i q) by (lia || done). by rewrite Hb.
    + intros i Hi. assert (Hmi : mapped dir i).
      { replace i with (PAGE_FRAME_SIZE + (i - PAGE_FRAME_SIZE)) by lia. apply (Hall PAGE_FRAME_SIZE PAGE_FRAME_SIZE); lia. }
      destruct (load_mapped dir m3 i Hmi) as (p & Hp & ->). f_equal.
      apply (st_in _ _ _ _ _ _ S3 (i - PAGE_FRAME_SIZE) p); [lia|]. by replace (PAGE_FRAME_SIZE + (i - PAGE_FRAME_SIZE)) with i by lia.
  - intros j dj y Hj Hdj Hy.
    rewrite (stored_other pg d dir j dj m2 m3 PAGE_FRAME_SIZE PAGE_FRAME_SIZE (fun _ => u8 0) y Hok Hd Hdj Hj) by (exact S3 || lia).
    rewrite (stored_other pg d dir j dj m1 m2 0 PAGE_FRAME_SIZE _ y Hok Hd Hdj Hj) by (exact S2 || lia).
    by rewrite (stored_other pg d dir j dj m m1 a (Zlen w) _ y Hok Hd Hdj Hj) by (exact S1 || lia).
Qed.
End image.
