(* ===== verification/ProcessCreate.v ===== *)
(** * Process creation, termination and the kernel invariant *)
From stdpp Require Import relations.
From S2P Require Import Prelude CString BlockDevice FatLayout Fat32 Paging PagingFacts PagingProps Process ProcessFacts ProcessProps Mmu UserMemory ProcessImage.

Definition pcb_shape (p : ProcessControlBlock) : Prop :=
  length (process_name p) = 8%nat /\ length (virtual_addr_used p) = 8%nat.

Lemma zero_pcb_shape : pcb_shape zero_pcb.
Proof. by split. Qed.

(** Replacing one slot keeps the table well formed if the pid is the old one,
    zero or fresh, and the count of used slots stays within bounds. *)
Lemma wf_replace pm i p q run act :
  table_core pm -> slot i -> pcb_at pm i = Some p ->
  (pid q = pid p \/ pid q = 0 \/ pid_free pm (pid q)) -> (state q = NEW -> pid q = 0) -> pcb_shape q ->
  -1 ≤ run < 16 ->
  Z.of_nat (count in_use (<[Z.to_nat i := q]> (process_list pm))) ≤ act ≤ 16 ->
  table_core (MkProcs (<[Z.to_nat i := q]> (process_list pm)) run act).
Proof.
  intros [Hl _ Huniq Hnew _ Hshape] Hi Hp Hpid Hq Hqs Hrun Hact. unfold pcb_at in Hp.
  assert (Hilt : (Z.to_nat i < length (process_list pm))%nat) by (unfold slot in Hi; lia).
  assert (Hfresh : forall j r, j ≠ Z.to_nat i -> process_list pm !! j = Some r -> pid r = pid q -> pid q ≠ 0 -> False).
  { intros j r Hj Hr Heq Hne. destruct Hpid as [Hpid|[|Hpid]]; [|done|].
    - apply Hj. eapply Huniq; [exact Hr|exact Hp|congruence|congruence].
    - unfold pid_free in Hpid. eapply Forall_lookup_1 in Hpid; [|exact Hr]. done. }
  split; cbn [process_list running_process_idx active_process_count].
  - by rewrite length_insert.
  - done.
  - intros j k a b Ha Hb Heq Hne.
    destruct (decide (j = Z.to_nat i)) as [->|Hj]; destruct (decide (k = Z.to_nat i)) as [->|Hk]; try done.
    + rewrite list_lookup_insert_eq in Ha by done. rewrite list_lookup_insert_ne in Hb by done. injection Ha as <-.
      exfalso. by eapply Hfresh.
    + rewrite list_lookup_insert_ne in Ha by done. rewrite list_lookup_insert_eq in Hb by done. injection Hb as <-.
      exfalso. eapply Hfresh; [exact Hj|exact Ha|done|congruence].
    + rewrite list_lookup_insert_ne in Ha, Hb by done. by eapply Huniq.
  - intros j a Ha Hst. destruct (decide (j = Z.to_nat i)) as [->|Hj].
    + rewrite list_lookup_insert_eq in Ha by done. injection Ha as <-. by apply Hq.
    + rewrite list_lookup_insert_ne in Ha by done. by eapply Hnew.
  - done.
  - by apply Forall_insert.
Qed.

Lemma count_replace pm i p q :
  pcb_at pm i = Some p ->
  (count in_use (<[Z.to_nat i := q]> (process_list pm)) + (if in_use p then 1 else 0) =
   count in_use (process_list pm) + (if in_use q then 1 else 0))%nat.
Proof. intros Hp. apply count_insert. exact Hp. Qed.

Lemma table_shape pm i p : table_core pm -> pcb_at pm i = Some p -> pcb_shape p.
Proof. intros Hwf Hp. pose proof (tw_shape _ Hwf) as Hs. by eapply Forall_lookup_1 in Hs. Qed.

Lemma run_slot_wf pm j p :
  table_core pm -> slot j -> pcb_at pm j = Some p ->
  Z.of_nat (count in_use (process_list pm)) + (if in_use p then 0 else 1) ≤ active_process_count pm ->
  table_wf (run_slot pm j p).
Proof.
  intros Hwf Hj Hp Hcount. split.
  - apply (wf_replace pm j p (set_state p RUNNING)); try done.
    + by left.
    + exact (table_shape pm j p Hwf Hp).
    + unfold slot in Hj. lia.
    + pose proof (count_replace pm j p (set_state p RUNNING) Hp). pose proof (tw_active _ Hwf). simpl in *.
      destruct (in_use p); lia.
  - intros _. exists (set_state p RUNNING). split; [|done]. cbn. apply list_lookup_insert_eq.
    rewrite (tw_len _ Hwf). unfold slot in Hj. lia.
Qed.

Lemma ready_in_use pm j p : ready_at pm j -> pcb_at pm j = Some p -> in_use p = true.
Proof. intros (_ & q & Hq & Hst) Hp. rewrite Hp in Hq. injection Hq as <-. unfold in_use. by rewrite Hst. Qed.

Lemma switch_wf pm pg o pm' pg' :
  table_core pm -> (forall p, slot (running_process_idx pm) -> pcb_at pm (running_process_idx pm) = Some p ->
     Z.of_nat (count in_use (process_list pm)) + (if in_use p then 0 else 1) ≤ active_process_count pm) ->
  scheduler_switch_to_next_process pm pg = Ret (o, pm', pg') ->
  table_wf pm' /\ (pg' = pg \/ exists a, pg' = paging_use_page_directory pg a) /\ active_process_count pm' = active_process_count pm.
Proof.
  intros Hwf Hcount Hrun. pose proof (tw_active _ Hwf) as Ha.
  destruct (decide (running_process_idx pm = -1)) as [Hm1|Hrs].
  - destruct (switch_spec pm pg (tw_len _ Hwf) (tw_run _ Hwf)) as [(j & p & (Hj & _ & _) & Hp & Heq)|(_ & [(p & Hr & Hp & Heq)|Heq])];
      rewrite Heq in Hrun; simplify_eq.
    + split; [|split; [right; by eexists|done]]. apply run_slot_wf; [done|apply Hj|done|].
      rewrite (ready_in_use pm j p) by done. lia.
    + unfold slot in Hr. lia.
    + split; [|split; [by left|done]]. split; [done|]. unfold slot. lia.
  - assert (Hr : slot (running_process_idx pm)) by (pose proof (tw_run _ Hwf); unfold slot; lia).
    destruct (switch_cases pm pg (tw_len _ Hwf) Hr) as [(j & p & (Hj & _ & _) & Hp & Heq)|(p & Hp & Heq)];
      rewrite Heq in Hrun; simplify_eq.
    + split; [|split; [right; by eexists|done]]. apply run_slot_wf; [done|apply Hj|done|].
      rewrite (ready_in_use pm j p) by done. lia.
    + split; [|split; [by left|done]]. apply run_slot_wf; [done..|]. by apply Hcount.
Qed.

Lemma tick_wf pm pg ctx o pm' pg' :
  table_wf pm -> tick pm pg ctx = Ret (o, pm', pg') ->
  table_wf pm' /\ (pg' = pg \/ exists a, pg' = paging_use_page_directory pg a) /\ active_process_count pm' = active_process_count pm.
Proof.
  intros Hwf Hrun. pose proof (tw_run _ Hwf) as Hr. pose proof (tw_len _ Hwf) as Hl.
  destruct (decide (running_process_idx pm = -1)) as [Hm1|Hne].
  - unfold tick, scheduler_save_context_to_current_running_pcb, process_get_current_running_pcb_pointer in Hrun.
    rewrite Hm1 in Hrun. cbn -[scheduler_switch_to_next_process] in Hrun. eapply switch_wf; [apply Hwf| |exact Hrun].
    unfold slot. lia.
  - assert (Hrs : slot (running_process_idx pm)) by (unfold slot; lia).
    unfold tick in Hrun. rewrite save_eq, bind_ret in Hrun by done.
    destruct (tw_running _ Hwf Hrs) as (p & Hp & Hu).
    set (q := set_state (set_context p ctx) READY).
    assert (Hsaved : saved pm ctx = MkProcs (<[Z.to_nat (running_process_idx pm) := q]> (process_list pm)) (running_process_idx pm) (active_process_count pm)).
    { unfold saved, set_list. f_equal. apply list_eq. intros i.
      destruct (decide (i = Z.to_nat (running_process_idx pm))) as [->|Hi].
      - rewrite list_lookup_insert_eq, list_lookup_alter_eq, Hp by by eapply lookup_lt_Some. done.
      - by rewrite list_lookup_insert_ne, list_lookup_alter_ne by done. }
    pose proof (count_replace pm (running_process_idx pm) p q Hp) as Hc. rewrite Hu in Hc. simpl in Hc.
    pose proof (tw_active _ Hwf) as Ha.
    eapply (switch_wf (saved pm ctx)) in Hrun; [done| |].
    + rewrite Hsaved. apply (wf_replace pm _ p q _ _ Hwf); try done; [by left|exact (table_shape pm _ p Hwf Hp)|lia].
    + intros q' _ Hq'. change (running_process_idx (saved pm ctx)) with (running_process_idx pm) in Hq'.
      rewrite pcb_saved, decide_True in Hq' by done. unfold pcb_at in Hq'. rewrite Hp in Hq'. injection Hq' as <-.
      rewrite Hsaved. cbn [process_list active_process_count].
      replace (in_use (set_state (set_context p ctx) READY)) with true by done. lia.
Qed.

(** The table with slot [i] cleared. *)
Definition cleared (pm : ProcessManagerState) (i : Z) : ProcessManagerState :=
  set_list pm (<[Z.to_nat i := zero_pcb]> (process_list pm)).

Lemma cleared_core pm i p : table_core pm -> slot i -> pcb_at pm i = Some p -> table_core (cleared pm i).
Proof.
  intros Hwf Hi Hp. apply (wf_replace pm i p zero_pcb); try done; [right; by left|apply (tw_run _ Hwf)|].
  pose proof (count_replace pm i p zero_pcb Hp). pose proof (tw_active _ Hwf). simpl in *. lia.
Qed.

Lemma terminate_wf pm pg o pm' pg' :
  table_wf pm -> terminate_current_process pm pg = Ret (o, pm', pg') ->
  table_wf pm' /\ (pg' = pg \/ exists a, pg' = paging_use_page_directory pg a) /\ active_process_count pm' = active_process_count pm.
Proof.
  intros Hwf Hrun. unfold terminate_current_process, process_get_current_running_pcb_pointer in Hrun.
  destruct (Z.eqb_spec (running_process_idx pm) (-1)) as [|Hne]; [done|].
  assert (Hr : slot (running_process_idx pm)) by (pose proof (tw_run _ Hwf); unfold slot; lia).
  pose proof (tw_len _ Hwf) as Hl. rewrite put_slot, bind_ret in Hrun by done.
  destruct (tw_running _ Hwf Hr) as (p & Hp & Hu).
  eapply (switch_wf (cleared pm (running_process_idx pm))) in Hrun; [done|exact (cleared_core pm _ p Hwf Hr Hp)|].
  intros q _ Hq. pose proof (count_replace pm _ p zero_pcb Hp) as Hc. rewrite Hu in Hc. simpl in Hc.
  pose proof (tw_active _ Hwf). unfold cleared. cbn [process_list set_list active_process_count]. destruct (in_use q); lia.
Qed.

Lemma kill_wf pm pg n c o pm' pg' :
  table_wf pm -> kill_process pm pg n = Ret (c, o, pm', pg') ->
  table_wf pm' /\ (pg' = pg \/ exists a, pg' = paging_use_page_directory pg a) /\ active_process_count pm' = active_process_count pm.
Proof.
  intros Hwf Hrun. unfold kill_process in Hrun. pose proof (tw_len _ Hwf) as Hl.
  apply bind_Ret_inv in Hrun as (cur & Hcur & Hrun). apply arr_get_Ret in Hcur as [Hr0 Hcur].
  assert (Hr : slot (running_process_idx pm)) by (pose proof (tw_run _ Hwf); unfold slot; lia).
  destruct (Z.eqb_spec (pid cur) n) as [Heq|Hne].
  - apply bind_Ret_inv in Hrun as ([[o1 pm1] pg1] & Ht & Hrun). simplify_eq. by eapply terminate_wf.
  - rewrite find_pid_eq, bind_ret in Hrun by done. set (i := first_idx (has_pid n) (process_list pm)) in *.
    destruct (Z.eqb_spec (Z.of_nat i) PROCESS_COUNT_MAX) as [|Hi]; [simplify_eq; split; [done|]; split; [by left|done]|].
    assert (Hilt : (i < length (process_list pm))%nat).
    { pose proof (first_idx_le (has_pid n) (process_list pm)). unfold PROCESS_COUNT_MAX in Hi. unfold i in *. lia. }
    destruct (first_idx_lookup (has_pid n) (process_list pm) Hilt) as (p & Hp & Hpn). fold i in Hp.
    rewrite put_slot, bind_ret in Hrun by (done || unfold slot; lia). simplify_eq. split; [|split; [by left|done]].
    change (table_wf (cleared pm (Z.of_nat i))).
    assert (Hpi : pcb_at pm (Z.of_nat i) = Some p) by (unfold pcb_at; by rewrite Nat2Z.id).
    split; [eapply cleared_core; [apply Hwf|unfold slot; lia|exact Hpi]|]. intros _.
    destruct (tw_running _ Hwf Hr) as (q & Hq & Hu). exists q. split; [|done].
    unfold cleared. cbn [process_list set_list running_process_idx]. rewrite list_lookup_insert_ne; [done|].
    intros Heq. rewrite Hcur in Hq. injection Hq as <-. rewrite Nat2Z.id in Heq. rewrite Heq, Hcur in Hp. injection Hp as <-.
    unfold has_pid in Hpn. lia.
Qed.

(** ** Creating a process *)
Section create_facts.
Context {D : Type} `{!BlockDevice D}.
Context (list_addr kernel_addr : Z) (Hlay : directory_layout list_addr kernel_addr).

Lemma page_of_frame j : 0 ≤ j < 8 -> page_index (u32 (j * PAGE_FRAME_SIZE)) = j.
Proof using Type. intros Hj. unfold page_index. apply frame_address. lia. Qed.

(** The page loop maps as many of the pages [j .. j+k-1] as there are free
    frames, and records the addresses of all of them. *)
Lemma allocate_frames_spec i k : forall pg vs j,
  frames_ok pg -> 0 ≤ i < 32 -> page_directory_used pg !! Z.to_nat i = Some true -> length vs = 8%nat ->
  0 ≤ j -> j + Z.of_nat k ≤ 8 -> (forall q, j ≤ q < j + Z.of_nat k -> entry pg (Z.to_nat i) (Z.to_nat q) = Some zero_pde) ->
  exists pg' vs', allocate_frames list_addr kernel_addr k pg (directory_addr list_addr i) vs j = Ret (pg', vs') /\
    frames_ok pg' /\ length vs' = 8%nat /\ page_directory_used pg' = page_directory_used pg /\ cr3 pg' = cr3 pg /\
    free_count pg' = Z.max 0 (free_count pg - Z.of_nat k) /\
    (forall q, j ≤ q < j + Z.of_nat k -> vs' !! Z.to_nat q = Some (q * PAGE_FRAME_SIZE)) /\
    (forall q, 0 ≤ q < 8 -> ~ (j ≤ q < j + Z.of_nat k) -> vs' !! Z.to_nat q = vs !! Z.to_nat q) /\
    (forall q, j ≤ q < j + Z.min (Z.of_nat k) (free_count pg) -> exists f, maps pg' (Z.to_nat i) (Z.to_nat q) f) /\
    (forall q, j + Z.min (Z.of_nat k) (free_count pg) ≤ q < j + Z.of_nat k ->
       entry pg' (Z.to_nat i) (Z.to_nat q) = Some zero_pde) /\
    (forall a b, ~ (a = Z.to_nat i /\ (Z.to_nat j ≤ b < Z.to_nat j + k)%nat) -> entry pg' a b = entry pg a b).
Proof using Hlay.
  induction k as [|k IH]; intros pg vs j Hok Hi Hu Hvs Hj Hk Hent; cbn [allocate_frames].
  - exists pg, vs. pose proof (fr_count _ Hok). split_and!; try done; try lia; intros; lia.
  - set (va := u32 (j * PAGE_FRAME_SIZE)). assert (Hva : page_index va = j) by (apply page_of_frame; lia).
    assert (Hvaz : va = j * PAGE_FRAME_SIZE) by (apply wrap_small; unfold is_word, PAGE_FRAME_SIZE; lia).
    pose proof (Hent j ltac:(lia)) as Hj0. rewrite <- Hva in Hj0 at 1.
      destruct (decide (0 < free_count pg)) as [Hfree|Hfull].
    + destruct (allocate_spec list_addr kernel_addr Hlay pg i va zero_pde Hok Hi Hfree Hj0) as (f & pg1 & Hrun & Hf & _ & Hmn).
      rewrite Hrun, bind_ret. rewrite arr_set_in by (unfold Zlen; lia). rewrite bind_ret.
      assert (Hok1 : frames_ok pg1) by (eapply allocate_ok; [exact Hok| |exact Hf|exact Hu|exact Hmn]; rewrite Hva; lia).
      pose proof Hmn as [_ _ (e1 & He1 & Hfl & Hlow) Hframe _ _ _ Hcount (Hu1 & Hc1 & _)]. rewrite Hva in *.
      destruct (IH pg1 (<[Z.to_nat j := va]> vs) (j + 1)) as
        (pg' & vs' & Hrun' & Hok' & Hl' & Hu' & Hc' & Hn' & Hv1 & Hv2 & Hm' & Hz' & He');
        [done|done|by rewrite Hu1|by rewrite length_insert|lia|lia| |].
      { intros q Hq. rewrite Hframe by lia. apply Hent. lia. }
      exists pg', vs'. split; [done|]. split; [done|]. split; [done|]. split; [by rewrite Hu', Hu1|]. split; [by rewrite Hc', Hc1|].
      split; [lia|]. split; [|split; [|split; [|split]]].
      * intros q Hq. destruct (decide (q = j)) as [->|Hne]; [|apply Hv1; lia].
        rewrite Hv2 by lia. rewrite Hvaz. apply list_lookup_insert_eq. lia.
      * intros q Hq Hout. rewrite Hv2 by lia. apply list_lookup_insert_ne. lia.
      * intros q Hq. destruct (decide (q = j)) as [->|Hne]; [|apply Hm'; lia].
        exists f. exists e1. split; [rewrite He' by lia; exact He1|]. split; [|done]. unfold user_mapped. by rewrite Hfl.
      * intros q Hq. apply Hz'. lia.
      * intros a b Hab. rewrite He' by lia. apply Hframe. lia.
    + assert (Hrun : paging_allocate_user_page_frame list_addr kernel_addr pg (directory_addr list_addr i) va = Ret (false, pg)).
      { unfold paging_allocate_user_page_frame. by rewrite zero_bit_count by lia. }
      rewrite Hrun, bind_ret. rewrite arr_set_in by (unfold Zlen; lia). rewrite bind_ret.
      destruct (IH pg (<[Z.to_nat j := va]> vs) (j + 1)) as
        (pg' & vs' & Hrun' & Hok' & Hl' & Hu' & Hc' & Hn' & Hv1 & Hv2 & Hm' & Hz' & He');
        [done|done|done|by rewrite length_insert|lia|lia|intros; apply Hent; lia|].
      pose proof (fr_count _ Hok) as Hcnt.
      exists pg', vs'. split; [done|]. split; [done|]. split; [done|]. split; [done|]. split; [done|].
      split; [lia|]. split; [|split; [|split; [|split]]].
      * intros q Hq. destruct (decide (q = j)) as [->|Hne]; [|apply Hv1; lia].
        rewrite Hv2 by lia. rewrite Hvaz. apply list_lookup_insert_eq. lia.
      * intros q Hq Hout. rewrite Hv2 by lia. apply list_lookup_insert_ne. lia.
      * intros q Hq. lia.
      * intros q Hq. destruct (decide (q = j)) as [->|Hne]; [|apply Hz'; lia].
        rewrite He' by lia. apply Hent. lia.
      * intros a b Hab. apply He'. lia.
Qed.

(** Frames for the executable and one more for the stack. *)
Definition frames_needed (r : user_request) : Z :=
  ceil_div (u32 (buffer_size (request r) + PAGE_FRAME_SIZE)) PAGE_FRAME_SIZE.

Lemma check_needed s n : 1 ≤ n ≤ 8 -> paging_allocate_check s n = (1 <=? free_count s).
Proof using Type.
  intros Hn. unfold paging_allocate_check. rewrite Z.div_small, Z.mod_small by (unfold PAGE_FRAME_SIZE; lia).
  by rewrite (proj2 (Z.ltb_lt 0 n)) by lia.
Qed.

(** The checks at the start have passed. *)
Record creatable (k : kernel D) (r : user_request) : Prop := MkCreatable {
  cr_table : table_wf (procs k);
  cr_frames : frames_ok (pages k);
  cr_active : active_process_count (procs k) < 16;
  cr_entry : req_addr r < KERNEL_VIRTUAL_ADDRESS_BASE;
  cr_needed : 1 ≤ frames_needed r ≤ 8;
  cr_free : 0 < free_count (pages k);
  cr_dir : (first_idx negb (page_directory_used (pages k)) < 32)%nat
}.

(** The checks of the source as they are: a size that wraps around to 0 asks
    for no frame at all. *)
Record admitted (k : kernel D) (r : user_request) : Prop := MkAdmitted {
  ad_table : table_wf (procs k);
  ad_frames : frames_ok (pages k);
  ad_active : active_process_count (procs k) < 16;
  ad_entry : req_addr r < KERNEL_VIRTUAL_ADDRESS_BASE;
  ad_check : paging_allocate_check (pages k) (frames_needed r) = true;
  ad_needed : 0 ≤ frames_needed r ≤ 8;
  ad_dir : (first_idx negb (page_directory_used (pages k)) < 32)%nat
}.

Lemma creatable_admitted k r : creatable k r -> admitted k r.
Proof using Type.
  intros [H1 H2 H3 H4 H5 H6 H7]. split; try done; [|lia]. rewrite check_needed by done. by apply Z.leb_le; lia.
Qed.

Definition new_slot_index (pm : ProcessManagerState) : Z := Z.of_nat (first_idx is_new (process_list pm)).
Definition new_dir_index (pg : paging) : nat := first_idx negb (page_directory_used pg).

(** The state of the page manager when the executable is read. *)
Record pages_ready (pg pg' : paging) (d : nat) (n : Z) (vs : list Z) : Prop := MkPagesReady {
  pr_ok : frames_ok pg';
  pr_vs : length vs = 8%nat;
  pr_addr : forall q, 0 ≤ q < n -> vs !! Z.to_nat q = Some (q * PAGE_FRAME_SIZE);
  pr_used : page_directory_used pg' = <[d := true]> (page_directory_used pg);
  pr_cr3 : cr3 pg' = cr3 pg;
  pr_count : free_count pg' = Z.max 0 (free_count pg - n);
  pr_maps : forall q, 0 ≤ q < Z.min n (free_count pg) -> exists f, maps pg' d (Z.to_nat q) f;
  pr_missing : forall q, Z.min n (free_count pg) ≤ q < n -> entry pg' d (Z.to_nat q) = Some zero_pde;
  pr_frame : forall a b, a ≠ d -> entry pg' a b = entry pg a b
}.

Lemma create_prefix k r :
  admitted k r ->
  let i := new_slot_index (procs k) in
  let d := new_dir_index (pages k) in
  slot i /\ exists p pg vs, pcb_at (procs k) i = Some p /\ state p = NEW /\
    pages_ready (pages k) pg d (frames_needed r) vs /\
    process_create_user_process list_addr kernel_addr k r =
      load_process list_addr kernel_addr k r i (directory_addr list_addr (Z.of_nat d))
        (set_memory p vs (frames_needed r)) pg.
Proof using Hlay.
  intros [Hwf Hok Hact Hentry Hcheck Hn Hdir] i d.
  pose proof (free_slot_exists _ Hwf Hact) as Hslot. pose proof (tw_len _ Hwf) as Hl.
  assert (Hi : slot i) by (unfold slot, i, new_slot_index; lia). split; [done|].
  destruct (first_idx_lookup is_new (process_list (procs k))) as (p & Hp & Hnew); [lia|].
  assert (Hpi : pcb_at (procs k) i = Some p) by (unfold pcb_at, i, new_slot_index; by rewrite Nat2Z.id).
  unfold process_create_user_process. rewrite (proj2 (Z.leb_gt _ _)) by (unfold PROCESS_COUNT_MAX; lia).
  rewrite (proj2 (Z.leb_gt KERNEL_VIRTUAL_ADDRESS_BASE _)) by done. fold (frames_needed r).
  rewrite Hcheck. cbn [negb orb].
  rewrite (proj2 (Z.ltb_ge _ _)) by (unfold PROCESS_PAGE_FRAME_COUNT_MAX; lia).
  rewrite inactive_index_eq by done. rewrite bind_ret. fold (new_slot_index (procs k)). fold i.
  rewrite create_spec by done. rewrite decide_True by done. rewrite bind_ret. fold (new_dir_index (pages k)). fold d.
  destruct Hlay as [Hhigh _ _]. rewrite (proj2 (Z.eqb_neq _ 0))
    by (unfold directory_addr, KERNEL_VIRTUAL_ADDRESS_BASE in *; lia).
  rewrite (get_slot _ i p), bind_ret by done. destruct (fr_dirs _ Hok) as [Hdl _].
  assert (Hent := fun i' j' => entry_dir (pages k) (after_create (pages k) d) d fresh_directory i' j' eq_refl ltac:(unfold d, new_dir_index; lia)).
  destruct (allocate_frames_spec (Z.of_nat d) (Z.to_nat (frames_needed r)) (after_create (pages k) d) (virtual_addr_used p) 0)
    as (pg & vs & -> & Hok' & Hvl & Hu & Hc & Hcount & Hv & _ & Hm & Hz & He).
  - by apply create_ok.
  - unfold d, new_dir_index. lia.
  - rewrite Nat2Z.id. cbn. apply list_lookup_insert_eq. by rewrite (fr_used_len _ Hok).
  - by apply (table_shape _ _ _ Hwf Hpi).
  - lia.
  - lia.
  - intros q Hq. rewrite Nat2Z.id, Hent, decide_True by done. unfold fresh_directory.
    rewrite list_lookup_insert_ne by lia. apply lookup_replicate_2. unfold PAGE_ENTRY_COUNT. lia.
  - rewrite bind_ret. exists p, pg, vs. split; [done|]. split; [by apply bool_decide_eq_true in Hnew|]. split; [|done].
    rewrite Nat2Z.id, Z2Nat.id in * by lia. split; try done.
    intros a b Ha. rewrite He by naive_solver. by rewrite Hent, decide_False.
Qed.

(** The caller's page directory is the current one again at the end. *)
Lemma cr3_restored pg a :
  0 < cr3 pg < 2 ^ 30 ->
  cr3 (paging_use_page_directory (paging_use_page_directory pg a) (paging_get_current_page_directory_addr pg)) = cr3 pg.
Proof using Type.
  intros Hc. unfold paging_use_page_directory, paging_get_current_page_directory_addr. cbn [cr3 set_cr3].
  unfold KERNEL_VIRTUAL_ADDRESS_BASE. rewrite wrap_small by (unfold is_word; lia).
  rewrite (proj2 (Z.ltb_lt _ _)) by lia. lia.
Qed.

Lemma use_directory_ok pg a : frames_ok pg -> frames_ok (paging_use_page_directory pg a).
Proof using Type. by intros []. Qed.

(** The control block of the new process. *)
Definition new_process (n : Z) (r : user_request) (d : nat) (vs : list Z) : ProcessControlBlock :=
  MkPcb n (take 8 (req_name (request r))) READY (initial_context (directory_addr list_addr (Z.of_nat d))) vs (frames_needed r).

(** The program is readable and fits: at least two pages are mapped, the buffer
    and the page behind it lie in them, and reading the file into any buffer
    [w] leaves [img w]. *)
Record loadable (k : kernel D) (r : user_request) (img : list Z -> list Z) : Prop := MkLoadable {
  ld_pages : 2 ≤ Z.min (frames_needed r) (free_count (pages k));
  ld_addr : 0 ≤ req_addr r;
  ld_end : req_addr r + PAGE_FRAME_SIZE ≤ Z.min (frames_needed r) (free_count (pages k)) * PAGE_FRAME_SIZE;
  ld_name : (8 ≤ length (req_name (request r)))%nat;
  ld_read w : length w = BUFFER_WINDOW -> length (img w) = BUFFER_WINDOW /\
    exists f, Fat32.read (files k) (with_buf (request r) w) = Ret (0, img w, f)
}.

(** The process manager when the new process is in slot [i]. *)
Definition with_process (pm : ProcessManagerState) (i : Z) (p : ProcessControlBlock) : ProcessManagerState :=
  MkProcs (<[Z.to_nat i := p]> (process_list pm)) (running_process_idx pm) (active_process_count pm + 1).

Definition back_to (pg : paging) (d : nat) : paging :=
  paging_use_page_directory (paging_use_page_directory pg (directory_addr list_addr (Z.of_nat d)))
    (paging_get_current_page_directory_addr pg).

Lemma load_directory pg d : frames_ok pg -> (d < 32)%nat ->
  exists dir, page_directory_list pg !! d = Some dir /\
    get_directory list_addr kernel_addr (paging_use_page_directory pg (directory_addr list_addr (Z.of_nat d)))
      (directory_addr list_addr (Z.of_nat d)) = Ret dir.
Proof using Hlay.
  intros Hok Hd. destruct (fr_dirs _ Hok) as [Hdl _].
  destruct (lookup_lt_is_Some_2 (page_directory_list pg) d) as [dir Hdir]; [lia|]. exists dir. split; [done|].
  apply (get_directory_list list_addr kernel_addr Hlay _ _ dir); [lia|]. cbn. by rewrite Nat2Z.id.
Qed.

(** The last part, from the control block on, cannot fail. *)
(** The smallest positive pid no process has. *)
Definition fresh_pid (pm : ProcessManagerState) (n : Z) : Prop :=
  1 ≤ n ≤ 17 /\ pid_free pm n /\ forall x, 1 ≤ x < n -> ~ pid_free pm x.

Lemma pid_free_insert pm i p q n : length (process_list pm) = 16%nat -> slot i -> pcb_at pm i = Some p -> pid q = pid p ->
  pid_free (set_list pm (<[Z.to_nat i := q]> (process_list pm))) n <-> pid_free pm n.
Proof using Type.
  intros Hl Hi Hp Hq. unfold pid_free, pcb_at, slot in *. cbn [process_list set_list].
  assert (Hlt : (Z.to_nat i < length (process_list pm))%nat) by lia. rewrite !Forall_lookup. split; intros H j x Hx.
  - destruct (decide (j = Z.to_nat i)) as [->|Hj].
    + rewrite Hp in Hx. injection Hx as <-. rewrite <- Hq. apply (H (Z.to_nat i)). by apply list_lookup_insert_eq.
    + apply (H j). by rewrite list_lookup_insert_ne.
  - destruct (decide (j = Z.to_nat i)) as [->|Hj].
    + rewrite list_lookup_insert_eq in Hx by done. injection Hx as <-. rewrite Hq. by apply (H (Z.to_nat i)).
    + apply (H j). by rewrite list_lookup_insert_ne in Hx.
Qed.

Lemma finish_process pm i p q :
  slot i -> length (process_list pm) = 16%nat -> pcb_at pm i = Some p -> pid q = pid p ->
  exists n, fresh_pid pm n /\ process_generate_new_pid (set_list pm (<[Z.to_nat i := q]> (process_list pm))) = Ret n.
Proof using Type.
  intros Hi Hl Hp Hq.
  destruct (generate_pid_spec (set_list pm (<[Z.to_nat i := q]> (process_list pm)))) as (n & Hrun & Hn & Hfree & Hmin);
    [cbn; by rewrite length_insert|].
  exists n. split; [|done]. split; [done|]. split; [by apply (pid_free_insert pm i p q)|].
  intros x Hx. rewrite <- (pid_free_insert pm i p q) by done. by apply Hmin.
Qed.

Lemma load_success k r i d p pg vs img :
  slot i -> pcb_at (procs k) i = Some p -> state p = NEW -> table_wf (procs k) ->
  pages_ready (pages k) pg d (frames_needed r) vs -> (d < 32)%nat -> frames_needed r ≤ 8 -> loadable k r img ->
  exists n k', fresh_pid (procs k) n /\
    load_process list_addr kernel_addr k r i (directory_addr list_addr (Z.of_nat d)) (set_memory p vs (frames_needed r)) pg = Ret (0, k') /\
    pages k' = back_to pg d /\ procs k' = with_process (procs k) i (new_process n r d vs) /\
    exists w, length w = BUFFER_WINDOW /\ Fat32.read (files k) (with_buf (request r) w) = Ret (0, img w, files k') /\
      image_loaded (pages k') (umem k) (umem k') d (img w) /\
      (ram_ok (umem k) -> (bytes_ok w -> bytes_ok (img w)) -> ram_ok (umem k')).
Proof using Hlay.
  intros Hi Hp Hst Hwf Hpr Hd Hn8 [Hn Ha He Hname Hread]. pose proof (tw_len _ Hwf) as Hl.
  destruct (table_shape _ _ _ Hwf Hp) as [Hnl _]. pose proof (pr_vs _ _ _ _ _ Hpr) as Hvl.
  pose proof (pr_ok _ _ _ _ _ Hpr) as Hok. destruct (load_directory pg d Hok Hd) as (dir & Hdir & Hget).
  set (n0 := Z.min _ _) in *. assert (Hn0 : 2 ≤ n0 ≤ 8) by lia.
  pose proof (image_window pg d dir n0 (req_addr r) Hok Hdir (pr_maps _ _ _ _ _ Hpr) Hn0 Ha He (umem k)) as Hw.
  destruct (Hread _ Hw) as (Himg & f & Hrd). set (w := window _ _ _ _) in *.
  destruct (image_stores pg d dir n0 (req_addr r) Hok Hdir (pr_maps _ _ _ _ _ Hpr) Hn0 Ha He (umem k) (img w) Himg)
    as (m1 & m2 & m3 & H1 & H2 & H3 & Hload & Hram).
  destruct (finish_process (procs k) i p (set_context (set_name (set_memory p vs (frames_needed r)) (take 8 (req_name (request r))))
    (initial_context (directory_addr list_addr (Z.of_nat d)))) Hi Hl Hp eq_refl) as (n & Hfresh & Hgen).
  exists n. eexists. split; [done|]. split.
  - unfold load_process. rewrite Hget, bind_ret. unfold resolve. fold w. rewrite Hrd, bind_ret, H1, bind_ret.
    change (negb (0 =? 0)) with false. cbv iota. cbn [process_name set_memory virtual_addr_used].
    rewrite CString.memcpy_eq, bind_ret by lia. rewrite splice_all by (rewrite length_take; lia).
    rewrite (arr_get_lookup vs 0 0), bind_ret by (lia || apply (pr_addr _ _ _ _ _ Hpr 0); lia).
    rewrite (arr_get_lookup vs 1 PAGE_FRAME_SIZE), bind_ret by (lia || apply (pr_addr _ _ _ _ _ Hpr 1); lia).
    rewrite H2, bind_ret, H3, bind_ret, put_slot, bind_ret by done.
    rewrite Hgen, bind_ret, put_slot, bind_ret by (done || (cbn; by rewrite length_insert)). reflexivity.
  - cbn. split; [done|]. split; [unfold with_process; by rewrite list_insert_insert_eq|].
    exists w. split; [exact Hw|]. split; [exact Hrd|]. split; [by apply (image_loaded_pages pg)|].
    intros Hm Himgb. apply Hram; [exact Hm|]. by apply Himgb, window_bytes.
Qed.

Lemma window_mapped n : forall dir m va, 0 ≤ va -> va + Z.of_nat n ≤ 2 ^ 32 ->
  all_mapped dir va (Zlen (window n dir m va)).
Proof using Type.
  induction n as [|n IH]; intros dir m va Hva Hlt; cbn [window]; [unfold all_mapped, Zlen; simpl; lia|].
  rewrite wrap_small by (unfold is_word; lia). destruct (translate dir va) as [p|] eqn:Hp; [|unfold all_mapped, Zlen; simpl; lia].
  intros i Hi. destruct (decide (i = 0)) as [->|].
  - rewrite Z.add_0_r. split; [unfold is_word; lia|congruence].
  - replace (va + i) with (va + 1 + (i - 1)) by lia. apply (IH dir m); [lia|lia|]. unfold Zlen in *. simpl in Hi. lia.
Qed.

Lemma store_bytes_total dir m va bs : all_mapped dir va (Zlen bs) -> exists m', store_bytes dir m va bs = Ret m'.
Proof using Type.
  intros Hm. unfold store_bytes.
  destruct (for_up_inv (fun _ _ => True) (fun i m => b ← arr_get bs i; store dir m (va + i) b) (length bs) 0 m) as (m' & Hrun & _);
    [done| |by exists m'].
  intros j m1 Hj _. destruct (arr_get_is bs j) as (b & -> & _); [unfold Zlen; lia|]. rewrite bind_ret.
  destruct (store_mapped dir m1 (va + j) b) as (p & _ & ->); [apply Hm; unfold Zlen; lia|]. by eexists.
Qed.

Lemma load_read_failure k r i d p pg vs c :
  slot i -> pcb_at (procs k) i = Some p -> table_wf (procs k) ->
  pages_ready (pages k) pg d (frames_needed r) vs -> (d < 32)%nat ->
  0 ≤ req_addr r < KERNEL_VIRTUAL_ADDRESS_BASE -> c ≠ 0 ->
  (forall w, exists b f, Fat32.read (files k) (with_buf (request r) w) = Ret (c, b, f) /\ length b = length w) ->
  exists mem f, load_process list_addr kernel_addr k r i (directory_addr list_addr (Z.of_nat d)) (set_memory p vs (frames_needed r)) pg =
    Ret (PROCESS_CREATE_FAIL_FS_READ_FAILURE,
         MkKernel (set_list (procs k) (<[Z.to_nat i := set_memory p vs (frames_needed r)]> (process_list (procs k)))) (back_to pg d) mem f).
Proof using Hlay.
  intros Hi Hp Hwf Hpr Hd Ha Hc Hread. pose proof (tw_len _ Hwf) as Hl. pose proof (pr_ok _ _ _ _ _ Hpr) as Hok.
  destruct (load_directory pg d Hok Hd) as (dir & Hdir & Hget). unfold load_process. rewrite Hget, bind_ret. unfold resolve.
  destruct (Hread (window BUFFER_WINDOW dir (umem k) (req_addr r))) as (b & f & -> & Hb). rewrite bind_ret.
  pose proof window_size as Hws. unfold KERNEL_VIRTUAL_ADDRESS_BASE in Ha.
  destruct (store_bytes_total dir (umem k) (req_addr r) b) as (m' & ->).
  { unfold Zlen. rewrite Hb. apply window_mapped; lia. }
  rewrite bind_ret, (proj2 (Z.eqb_neq c 0)) by done. cbn [negb]. rewrite put_slot, bind_ret by done. by exists m', f.
Qed.

(** Whatever the memory holds, a creation that returns ends in one of two
    ways. *)
Lemma load_inv k r i d p pg vs c k' :
  slot i -> pcb_at (procs k) i = Some p -> state p = NEW -> table_wf (procs k) -> pages_ready (pages k) pg d (frames_needed r) vs ->
  (d < 32)%nat -> (8 ≤ length (req_name (request r)))%nat ->
  load_process list_addr kernel_addr k r i (directory_addr list_addr (Z.of_nat d)) (set_memory p vs (frames_needed r)) pg = Ret (c, k') ->
  pages k' = back_to pg d /\
  (procs k' = set_list (procs k) (<[Z.to_nat i := set_memory p vs (frames_needed r)]> (process_list (procs k))) \/
   exists n, fresh_pid (procs k) n /\ procs k' = with_process (procs k) i (new_process n r d vs)).
Proof using Hlay.
  intros Hi Hp Hst Hwf Hpr Hd Hname Hrun. pose proof (tw_len _ Hwf) as Hl. pose proof (pr_ok _ _ _ _ _ Hpr) as Hok.
  destruct (table_shape _ _ _ Hwf Hp) as [Hnl _]. pose proof (pr_vs _ _ _ _ _ Hpr) as Hvl.
  destruct (load_directory pg d Hok Hd) as (dir & Hdir & Hget). unfold load_process in Hrun. rewrite Hget, bind_ret in Hrun.
  apply bind_Ret_inv in Hrun as ([[c0 b] f] & _ & Hrun). apply bind_Ret_inv in Hrun as (m1 & _ & Hrun).
  destruct (negb (c0 =? 0)).
  - rewrite put_slot, bind_ret in Hrun by done. injection Hrun as <- <-. split; [done|]. by left.
  - cbn [process_name set_memory virtual_addr_used] in Hrun. rewrite CString.memcpy_eq, bind_ret in Hrun by lia.
    rewrite splice_all in Hrun by (rewrite length_take; lia).
    destruct (arr_get_is vs 0) as (a0 & Ha0 & _); [unfold Zlen; lia|]. destruct (arr_get_is vs 1) as (a1 & Ha1 & _); [unfold Zlen; lia|].
    rewrite Ha0, bind_ret, Ha1, bind_ret in Hrun. apply bind_Ret_inv in Hrun as (m2 & _ & Hrun). apply bind_Ret_inv in Hrun as (m3 & _ & Hrun).
    rewrite put_slot, bind_ret in Hrun by done.
    destruct (finish_process (procs k) i p (set_context (set_name (set_memory p vs (frames_needed r)) (take 8 (req_name (request r))))
      (initial_context (directory_addr list_addr (Z.of_nat d)))) Hi Hl Hp eq_refl) as (n & Hfresh & Hgen).
    rewrite Hgen, bind_ret, put_slot, bind_ret in Hrun by (done || (cbn; by rewrite length_insert)). injection Hrun as <- <-.
    split; [done|]. right. exists n. split; [done|]. cbn. unfold with_process. by rewrite list_insert_insert_eq.
Qed.
End create_facts.
