(* ===== verification/KernelProps.v ===== *)
(** * Theorems about the kernel: creation, termination and reachable states *)
From stdpp Require Import relations.
From S2P Require Import Prelude CString BlockDevice FatLayout Fat32 Paging PagingFacts PagingProps Process ProcessFacts ProcessProps ProcessCreate Mmu ProcessImage.

Section kernel.
Context {D : Type} `{!BlockDevice D}.
Context (list_addr kernel_addr : Z) (Hlay : directory_layout list_addr kernel_addr).

Abbreviation create := (process_create_user_process list_addr kernel_addr (D := D)).

(** C28: A successful [process_create_user_process]: the first NEW slot becomes
    a READY process with a fresh pid, the requested name, the initial context
    (entry point 0, stack top at 4 MiB - 4, user segments, interrupts on) and
    a page directory of its own, in which the file is at address 0 and the
    second page is zero; every other slot, the running index, the caller's page
    directory and the memory of every other process are as before, and one more
    process is counted. *)
Theorem create_process_success (k : kernel D) r img :
  creatable k r -> loadable k r img -> 0 < cr3 (pages k) < 2 ^ 30 ->
  exists i n d vs w k', create k r = Ret (PROCESS_CREATE_SUCCESS, k') /\
    slot i /\ (exists p, pcb_at (procs k) i = Some p /\ state p = NEW) /\
    1 ≤ n /\ Forall (fun p => pid p ≠ n) (process_list (procs k)) /\
    page_directory_used (pages k) !! d = Some false /\ page_directory_used (pages k') !! d = Some true /\
    pcb_at (procs k') i = Some (new_process list_addr n r d vs) /\
    (forall j, slot j -> j ≠ i -> pcb_at (procs k') j = pcb_at (procs k) j) /\
    running_process_idx (procs k') = running_process_idx (procs k) /\
    active_process_count (procs k') = active_process_count (procs k) + 1 /\
    cr3 (pages k') = cr3 (pages k) /\ length w = BUFFER_WINDOW /\
    Fat32.read (files k) (with_buf (request r) w) = Ret (0, img w, files k') /\ image_loaded (pages k') (umem k) (umem k') d (img w).
Proof using Hlay.
  intros Hcr Hld Hcr3. destruct (create_prefix list_addr kernel_addr Hlay k r (creatable_admitted k r Hcr)) as (Hi & p & pg & vs & Hp & Hst & Hpr & Hrun).
  pose proof Hcr as [Hwf Hok Hact _ [_ Hn8] _ Hdir]. set (i := new_slot_index (procs k)) in *. set (d := new_dir_index (pages k)) in *.
  assert (Hd : (d < 32)%nat) by exact Hdir. pose proof (tw_len _ Hwf) as Hl. pose proof (fr_used_len _ Hok) as Hul.
  destruct (load_success list_addr kernel_addr Hlay k r i d p pg vs img Hi Hp Hst Hwf Hpr Hd Hn8 Hld)
    as (n & k' & [Hn [Hfree _]] & Hload & Hpg & Hprocs & w & Hw & Hrd & Himg & _).
  exists i, n, d, vs, w, k'. rewrite Hrun. split; [exact Hload|]. split; [done|]. split; [by exists p|]. split; [lia|]. split; [done|].
  split. { destruct (first_idx_lookup negb (page_directory_used (pages k))) as ([] & Hb & Hbf); [rewrite Hul; exact Hdir|done|exact Hb]. }
  split. { rewrite Hpg. cbn. rewrite (pr_used _ _ _ _ _ Hpr). apply list_lookup_insert_eq. lia. }
  rewrite Hprocs. unfold pcb_at, slot in *. cbn [process_list running_process_idx active_process_count with_process].
  split; [apply list_lookup_insert_eq; lia|]. split; [intros j Hj Hne; apply list_lookup_insert_ne; lia|].
  split; [done|]. split; [done|]. split; [|done]. unfold back_to in Hpg.
  rewrite Hpg, cr3_restored; [apply Hpr|]. by rewrite (pr_cr3 _ _ _ _ _ Hpr).
Qed.

Lemma create_refused (k : kernel D) r :
  1 ≤ frames_needed r ->
  (16 ≤ active_process_count (procs k) -> create k r = Ret (PROCESS_CREATE_FAIL_MAX_PROCESS_EXCEEDED, k)) /\
  (active_process_count (procs k) < 16 -> KERNEL_VIRTUAL_ADDRESS_BASE ≤ req_addr r ->
     create k r = Ret (PROCESS_CREATE_FAIL_INVALID_ENTRYPOINT, k)) /\
  (active_process_count (procs k) < 16 -> req_addr r < KERNEL_VIRTUAL_ADDRESS_BASE ->
     8 < frames_needed r \/ free_count (pages k) ≤ 0 ->
     create k r = Ret (PROCESS_CREATE_FAIL_NOT_ENOUGH_MEMORY, k)).
Proof using Type.
  intros Hn. unfold process_create_user_process. fold (frames_needed r). unfold PROCESS_COUNT_MAX. split; [|split].
  - intros Ha. by rewrite (proj2 (Z.leb_le _ _)).
  - intros Ha He. rewrite (proj2 (Z.leb_gt _ _)) by done. by rewrite (proj2 (Z.leb_le _ _)).
  - intros Ha He Hbad. rewrite (proj2 (Z.leb_gt 16 _)) by done. rewrite (proj2 (Z.leb_gt _ (req_addr r))) by done.
    destruct (Z.ltb_spec PROCESS_PAGE_FRAME_COUNT_MAX (frames_needed r)) as [|Hle]; [by rewrite orb_true_r|].
    unfold PROCESS_PAGE_FRAME_COUNT_MAX in Hle. rewrite check_needed by lia. destruct Hbad as [|Hf]; [lia|].
    by rewrite (proj2 (Z.leb_gt _ _)) by lia.
Qed.

(** The requests [process_create_user_process] refuses, in the order of
    its checks, leave the whole kernel state as it is: the table was filled
    once, the entry point is in the kernel's half, or more than 8 frames are
    needed or none is free. *)
Theorem create_process_refused (k : kernel D) r :
  1 ≤ frames_needed r ->
  (16 ≤ active_process_count (procs k) -> create k r = Ret (PROCESS_CREATE_FAIL_MAX_PROCESS_EXCEEDED, k)) /\
  (active_process_count (procs k) < 16 -> KERNEL_VIRTUAL_ADDRESS_BASE ≤ req_addr r ->
     create k r = Ret (PROCESS_CREATE_FAIL_INVALID_ENTRYPOINT, k)) /\
  (active_process_count (procs k) < 16 -> req_addr r < KERNEL_VIRTUAL_ADDRESS_BASE ->
     8 < frames_needed r \/ free_count (pages k) ≤ 0 ->
     create k r = Ret (PROCESS_CREATE_FAIL_NOT_ENOUGH_MEMORY, k)).
Proof using Type. apply create_refused. Qed.

(** [paging_allocate_check] is asked with a number of frames where it
    takes bytes, so one free frame is enough to pass: a process that needs
    more frames than there are is created all the same, READY and with
    [page_frame_used_count] frames on record, but its last page is not mapped. *)
Theorem create_process_missing_frames (k : kernel D) r img :
  creatable k r -> loadable k r img -> free_count (pages k) < frames_needed r ->
  exists i d p k', create k r = Ret (PROCESS_CREATE_SUCCESS, k') /\
    pcb_at (procs k') i = Some p /\ state p = READY /\ page_frame_used_count p = frames_needed r /\
    page_directory_virtual_addr (context p) = directory_addr list_addr (Z.of_nat d) /\
    entry (pages k') d (Z.to_nat (frames_needed r - 1)) = Some zero_pde.
Proof using Hlay.
  intros Hcr Hld Hfew. destruct (create_prefix list_addr kernel_addr Hlay k r (creatable_admitted k r Hcr)) as (Hi & p & pg & vs & Hp & Hst & Hpr & Hrun).
  pose proof Hcr as [Hwf Hok Hact _ Hn Hfree Hdir]. set (i := new_slot_index (procs k)) in *. set (d := new_dir_index (pages k)) in *.
  pose proof (tw_len _ Hwf) as Hl. destruct Hn as [Hn1 Hn8].
  destruct (load_success list_addr kernel_addr Hlay k r i d p pg vs img Hi Hp Hst Hwf Hpr Hdir Hn8 Hld)
    as (n & k' & _ & Hload & Hpg & Hprocs & _).
  exists i, d, (new_process list_addr n r d vs), k'. rewrite Hrun. split; [exact Hload|].
  split. { rewrite Hprocs. unfold pcb_at, slot in *. cbn. apply list_lookup_insert_eq. lia. }
  split; [done|]. split; [done|]. split; [done|]. rewrite Hpg. apply (pr_missing _ _ _ _ _ Hpr). lia.
Qed.

(** C37: When the executable cannot be read the call fails with its own code
    and no process is created, but the page directory and the frames it took
    stay taken: each such failure costs memory for good. *)
Theorem create_process_read_failure_leaks (k : kernel D) r c :
  creatable k r -> 0 ≤ req_addr r -> c ≠ 0 ->
  (forall w, exists b f, Fat32.read (files k) (with_buf (request r) w) = Ret (c, b, f) /\ length b = length w) ->
  exists d k', create k r = Ret (PROCESS_CREATE_FAIL_FS_READ_FAILURE, k') /\
    active_process_count (procs k') = active_process_count (procs k) /\
    (forall i p', slot i -> pcb_at (procs k') i = Some p' -> exists p, pcb_at (procs k) i = Some p /\ state p' = state p /\ pid p' = pid p) /\
    page_directory_used (pages k) !! d = Some false /\ page_directory_used (pages k') !! d = Some true /\
    free_count (pages k') = Z.max 0 (free_count (pages k) - frames_needed r).
Proof using Hlay.
  intros Hcr Haddr Hc Hread. destruct (create_prefix list_addr kernel_addr Hlay k r (creatable_admitted k r Hcr)) as (Hi & p & pg & vs & Hp & Hst & Hpr & Hrun).
  pose proof Hcr as [Hwf Hok Hact Hentry Hn Hfree Hdir]. set (i := new_slot_index (procs k)) in *. set (d := new_dir_index (pages k)) in *.
  pose proof (tw_len _ Hwf) as Hl. pose proof (fr_used_len _ Hok) as Hul.
  assert (Hd : (d < 32)%nat) by exact Hdir. rewrite Hrun.
  destruct (load_read_failure list_addr kernel_addr Hlay k r i d p pg vs c Hi Hp Hwf Hpr Hd (conj Haddr Hentry) Hc Hread) as (mem & f & ->).
  exists d. eexists. split; [reflexivity|]. cbn [procs pages set_list active_process_count]. split; [done|]. split.
  { intros j p' Hj Hp'. unfold pcb_at, slot in *. cbn [process_list set_list] in Hp'.
    destruct (decide (Z.to_nat j = Z.to_nat i)) as [Heq|Hne].
    - rewrite Heq, list_lookup_insert_eq in Hp' by lia. injection Hp' as <-. exists p. by rewrite Heq.
    - rewrite list_lookup_insert_ne in Hp' by done. by exists p'. }
  split. { destruct (first_idx_lookup negb (page_directory_used (pages k))) as ([] & Hb & Hbf); [rewrite Hul; exact Hdir|done|exact Hb]. }
  cbn. split; [|apply (pr_count _ _ _ _ _ Hpr)]. rewrite (pr_used _ _ _ _ _ Hpr). apply list_lookup_insert_eq. lia.
Qed.

(** ** Reachable states *)

(** The calls that change the process table: the timer tick, exit, kill and
    creation, whatever the size in the request. *)
Inductive kernel_step (k : kernel D) : kernel D -> Prop :=
| ks_tick ctx o pm pg : tick (procs k) (pages k) ctx = Ret (o, pm, pg) -> kernel_step k (MkKernel pm pg (umem k) (files k))
| ks_exit o pm pg : terminate_current_process (procs k) (pages k) = Ret (o, pm, pg) -> kernel_step k (MkKernel pm pg (umem k) (files k))
| ks_kill n c o pm pg : kill_process (procs k) (pages k) n = Ret (c, o, pm, pg) -> kernel_step k (MkKernel pm pg (umem k) (files k))
| ks_create r c k' : (8 ≤ length (req_name (request r)))%nat -> create k r = Ret (c, k') -> kernel_step k k'.

Definition kernel_ok (k : kernel D) : Prop := table_wf (procs k) /\ frames_ok (pages k).

Lemma pages_step_ok pg pg' : frames_ok pg -> (pg' = pg \/ exists a, pg' = paging_use_page_directory pg a) -> frames_ok pg'.
Proof using Type. intros Hok [->|[a ->]]; [done|by apply use_directory_ok]. Qed.

Lemma load_ok k r i d p pg vs c k' :
  slot i -> pcb_at (procs k) i = Some p -> state p = NEW -> table_wf (procs k) -> active_process_count (procs k) < 16 ->
  pages_ready (pages k) pg d (frames_needed r) vs -> (d < 32)%nat -> (8 ≤ length (req_name (request r)))%nat ->
  load_process list_addr kernel_addr k r i (directory_addr list_addr (Z.of_nat d)) (set_memory p vs (frames_needed r)) pg = Ret (c, k') ->
  kernel_ok k' /\ active_process_count (procs k) ≤ active_process_count (procs k').
Proof using Hlay.
  intros Hi Hp Hst Hwf Hact Hpr Hd Hname Hrun. pose proof (tw_len _ Hwf) as Hl.
  destruct (table_shape _ _ _ Hwf Hp) as [Hnl _]. pose proof (tw_active _ Hwf) as Ha. pose proof (tw_run _ Hwf) as Hr.
  assert (Hunused : in_use p = false) by (unfold in_use; by rewrite Hst).
  assert (Hrunning : forall q, slot (running_process_idx (procs k)) ->
    exists x, <[Z.to_nat i := q]> (process_list (procs k)) !! Z.to_nat (running_process_idx (procs k)) = Some x /\ in_use x = true).
  { intros q Hrs. destruct (tw_running _ Hwf Hrs) as (x & Hx & Hu). exists x. split; [|done].
    rewrite list_lookup_insert_ne; [done|]. intros Heq. unfold pcb_at in Hp. rewrite <- Heq, Hp in Hx. congruence. }
  destruct (load_inv list_addr kernel_addr Hlay k r i d p pg vs c k') as (Hpg & [Hprocs|(n & (Hn & Hfree & _) & Hprocs)]); [done..| |].
  - rewrite Hprocs. split; [|done]. split; [|rewrite Hpg; apply use_directory_ok, use_directory_ok, Hpr].
    rewrite Hprocs. split; [|apply Hrunning]. apply (wf_replace (procs k) i p _ _ _ Hwf Hi Hp); try done.
    + by left.
    + cbn. intros _. by eapply (tw_new _ Hwf).
    + split; [done|apply Hpr].
    + pose proof (count_replace (procs k) i p (set_memory p vs (frames_needed r)) Hp) as Hc. rewrite Hunused in Hc.
      replace (in_use (set_memory p vs (frames_needed r))) with (in_use p) in Hc by done. rewrite Hunused in Hc. lia.
  - rewrite Hprocs. split; [|cbn; lia]. split; [|rewrite Hpg; apply use_directory_ok, use_directory_ok, Hpr].
    rewrite Hprocs. split; [|apply Hrunning]. apply (wf_replace (procs k) i p _ _ _ Hwf Hi Hp); try done.
    + right. by right.
    + split; [cbn; rewrite length_take; lia|apply Hpr].
    + pose proof (count_replace (procs k) i p (new_process list_addr n r d vs) Hp) as Hc. rewrite Hunused in Hc.
      replace (in_use (new_process list_addr n r d vs)) with true in Hc by done. lia.
Qed.

(** A request is refused with the kernel as it is, or passes every check. *)
Lemma create_cases k r : kernel_ok k -> (exists c, create k r = Ret (c, k)) \/ admitted k r.
Proof using Type.
  intros [Hwf Hok]. unfold process_create_user_process. fold (frames_needed r).
  destruct (Z.leb_spec PROCESS_COUNT_MAX (active_process_count (procs k))) as [|Hact]; [left; by eexists|].
  unfold PROCESS_COUNT_MAX in Hact. destruct (Z.leb_spec KERNEL_VIRTUAL_ADDRESS_BASE (req_addr r)) as [|He]; [left; by eexists|].
  destruct (paging_allocate_check (pages k) (frames_needed r)) eqn:Hc; cbn [negb orb]; [|left; by eexists].
  destruct (Z.ltb_spec PROCESS_PAGE_FRAME_COUNT_MAX (frames_needed r)) as [|Hn]; [left; by eexists|].
  unfold PROCESS_PAGE_FRAME_COUNT_MAX in Hn.
  assert (Hn0 : 0 ≤ frames_needed r) by (unfold frames_needed, ceil_div; apply (wrap_word 32); lia).
  destruct (decide (first_idx negb (page_directory_used (pages k)) < 32)%nat) as [Hd|Hd]; [by right|]. left.
  rewrite inactive_index_eq by (apply Hwf || by apply free_slot_exists). rewrite bind_ret, create_spec, decide_False by done.
  rewrite bind_ret. exists PROCESS_CREATE_FAIL_NOT_ENOUGH_MEMORY. cbn. by destruct k.
Qed.

Lemma create_keeps_ok k r c k' :
  kernel_ok k -> (8 ≤ length (req_name (request r)))%nat -> create k r = Ret (c, k') ->
  kernel_ok k' /\ active_process_count (procs k) ≤ active_process_count (procs k').
Proof using Hlay.
  intros Hk Hname Hrun. destruct (create_cases k r Hk) as [[c' Heq]|Had]; [rewrite Heq in Hrun; by simplify_eq|].
  destruct (create_prefix list_addr kernel_addr Hlay k r Had) as (Hi & p & pg & vs & Hp & Hst & Hpr & Heq).
  rewrite Heq in Hrun. destruct Hk as [Hwf _]. eapply load_ok; try done; apply Had.
Qed.

Lemma kernel_step_ok k k' :
  kernel_ok k -> kernel_step k k' -> kernel_ok k' /\ active_process_count (procs k) ≤ active_process_count (procs k').
Proof using Hlay.
  intros [Hwf Hok] Hstep. destruct Hstep as [ctx o pm pg H|o pm pg H|n c o pm pg H|r c k' Hn Hname H].
  - destruct (tick_wf _ _ _ _ _ _ Hwf H) as (? & ? & Ha). cbn. split; [split; [done|by eapply pages_step_ok]|lia].
  - destruct (terminate_wf _ _ _ _ _ Hwf H) as (? & ? & Ha). cbn. split; [split; [done|by eapply pages_step_ok]|lia].
  - destruct (kill_wf _ _ _ _ _ _ _ Hwf H) as (? & ? & Ha). cbn. split; [split; [done|by eapply pages_step_ok]|lia].
  - by eapply create_keeps_ok.
Qed.

Lemma kernel_steps_ok k k' :
  rtc kernel_step k k' -> kernel_ok k -> kernel_ok k' /\ active_process_count (procs k) ≤ active_process_count (procs k').
Proof using Hlay.
  induction 1 as [k|k1 k2 k3 Hstep _ IH]; intros Hok; [done|].
  destruct (kernel_step_ok _ _ Hok Hstep) as [Hok2 Ha]. destruct (IH Hok2) as [? ?]. split; [done|lia].
Qed.

Lemma procs_init_wf : table_wf procs_init.
Proof using Type.
  assert (Hz : forall i p, process_list procs_init !! i = Some p -> p = zero_pcb) by (intros i p H; by apply lookup_replicate in H as [-> _]).
  split; [|unfold slot; cbn; lia]. split; try done.
  - intros i j p q Hp _ _ Hne. by apply Hz in Hp as ->.
  - intros i p Hp _. by apply Hz in Hp as ->.
  - by apply Forall_replicate.
Qed.

(** In every state the kernel reaches from boot by timer ticks, exits,
    kills and creations, with whatever the disk holds: no two processes have
    the same pid, the running process has its slot, the number of slots in use
    is within the count of processes, the frame count is exact and no two user
    pages of any processes share a frame. *)
Theorem kernel_invariant c mem f k :
  rtc kernel_step (MkKernel procs_init (paging_init c) mem f) k ->
  table_wf (procs k) /\ frames_ok (pages k).
Proof using Hlay.
  intros Hsteps. apply kernel_steps_ok in Hsteps as [Hok _]; [exact Hok|]. split; [apply procs_init_wf|apply init_ok].
Qed.

(** The count of processes never goes down, neither by exit nor by kill:
    once 16 processes have been created no later state lets another one start. *)
Theorem process_slots_exhausted k k' r :
  kernel_ok k -> 16 ≤ active_process_count (procs k) -> rtc kernel_step k k' -> 1 ≤ frames_needed r ->
  create k' r = Ret (PROCESS_CREATE_FAIL_MAX_PROCESS_EXCEEDED, k').
Proof using Hlay.
  intros Hok Ha Hsteps Hn. apply kernel_steps_ok in Hsteps as [_ Hle]; [|done]. apply create_refused; [done|lia].
Qed.
End kernel.

(** ** Exit and kill *)

(** [kill_process] of another process: with a process of that pid its slot
    is cleared, nothing else changes and the result is 0; with none the result
    is -1 and the table is as before. *)
Theorem kill_process_other pm pg n cur :
  table_wf pm -> slot (running_process_idx pm) -> pcb_at pm (running_process_idx pm) = Some cur -> pid cur ≠ n ->
  (exists j p, slot j /\ pcb_at pm j = Some p /\ pid p = n /\
     kill_process pm pg n = Ret (0, Resume, cleared pm j, pg)) \/
  (Forall (fun p => pid p ≠ n) (process_list pm) /\ kill_process pm pg n = Ret (-1, Resume, pm, pg)).
Proof.
  intros Hwf Hr Hcur Hne. pose proof (tw_len _ Hwf) as Hl. unfold kill_process.
  rewrite (get_slot pm _ cur), bind_ret by done. rewrite (proj2 (Z.eqb_neq _ _)) by done.
  rewrite find_pid_eq, bind_ret by done. set (i := first_idx (has_pid n) (process_list pm)).
  pose proof (first_idx_le (has_pid n) (process_list pm)) as Hle. fold i in Hle.
  destruct (decide (i = 16%nat)) as [Heq|Hlt].
  - right. split; [by apply pid_free_scan|]. by rewrite Heq.
  - left. destruct (first_idx_lookup (has_pid n) (process_list pm)) as (p & Hp & Hpn); [fold i; lia|]. fold i in Hp.
    exists (Z.of_nat i), p. split; [unfold slot; lia|]. split; [unfold pcb_at; by rewrite Nat2Z.id|].
    split; [by apply Z.eqb_eq|]. rewrite (proj2 (Z.eqb_neq _ _)) by (unfold PROCESS_COUNT_MAX; lia).
    rewrite put_slot, bind_ret by (done || unfold slot; lia). done.
Qed.

(** Exit: the slot of the running process is cleared and the next READY
    process in circular order is resumed with its saved context; if there is
    none the call returns into the process that has just ended, whose cleared
    slot (pid 0) is now marked RUNNING. *)
Theorem terminate_current pm pg :
  table_wf pm -> slot (running_process_idx pm) ->
  (exists j p, next_ready (cleared pm (running_process_idx pm)) j /\ pcb_at pm j = Some p /\
     terminate_current_process pm pg =
       Ret (SwitchTo (context p), run_slot (cleared pm (running_process_idx pm)) j p,
            paging_use_page_directory pg (page_directory_virtual_addr (context p)))) \/
  ((forall j, ready_at pm j -> j = running_process_idx pm) /\
   exists pm', terminate_current_process pm pg = Ret (Resume, pm', pg) /\
     pcb_at pm' (running_process_idx pm) = Some (set_state zero_pcb RUNNING)).
Proof.
  intros Hwf Hr. pose proof (tw_len _ Hwf) as Hl. set (r := running_process_idx pm) in *.
  unfold terminate_current_process, process_get_current_running_pcb_pointer. fold r.
  rewrite (proj2 (Z.eqb_neq r (-1))) by (unfold slot in Hr; lia). rewrite put_slot, bind_ret by done.
  change (set_list pm _) with (cleared pm r).
  assert (Hl' : length (process_list (cleared pm r)) = 16%nat) by (cbn; by rewrite length_insert).
  assert (Hget : forall j, slot j -> pcb_at (cleared pm r) j = if decide (j = r) then Some zero_pcb else pcb_at pm j).
  { intros j Hj. unfold pcb_at, cleared, slot in *. cbn. case_decide; [subst; apply list_lookup_insert_eq; lia|].
    apply list_lookup_insert_ne. lia. }
  destruct (switch_cases (cleared pm r) pg Hl' Hr) as [(j & p & Hnext & Hp & Heq)|(p & Hp & Heq)].
  - left. exists j, p. split; [done|]. split; [|done]. destruct Hnext as ([Hj _] & Hne & _). by rewrite Hget, decide_False in Hp.
  - right. change (running_process_idx (cleared pm r)) with r in *. rewrite Hget, decide_True in Hp by done. injection Hp as <-.
    split.
    + intros j [Hj (q & Hq & Hst)]. destruct (decide (j = r)) as [|Hne]; [done|]. exfalso.
      assert (Hready : ready_at (cleared pm r) j) by (split; [done|]; exists q; by rewrite Hget, decide_False).
      destruct (switch_spec (cleared pm r) pg Hl') as [(x & px & _ & _ & Heq2)|[Hnone _]];
        [cbn; unfold slot in Hr; lia|congruence|]. apply Hne. by apply Hnone in Hready.
    + eexists. split; [exact Heq|]. by rewrite pcb_run_slot, decide_True by done.
Qed.
