(* ===== verification/KernelWitness.v ===== *)
(** * Concrete runs of the process manager

    The theorems of ProcessProps and KernelProps at small states: the table at
    boot, a table with three processes, and a kernel whose disk holds one
    file. *)
From stdpp Require Import relations.
From S2P Require Import Prelude CString BlockDevice FatLayout Fat32 FatFacts FatChain FatLoops FatSpec FatRefine FatWrite FatMount FatContract FatProps FatLimits FatWitness.
From S2P Require Import Paging PagingFacts PagingProps Process ProcessFacts ProcessProps Mmu ProcessImage ProcessCreate KernelProps.

Lemma new_pid_fresh_witness : exists n, process_generate_new_pid procs_init = Ret n /\ 1 ≤ n ≤ 17.
Proof. destruct (new_pid_fresh procs_init) as (n & H & Hn & _); [reflexivity|]. by exists n. Defined.

(** Three processes: pid 1 running, pids 2 and 3 READY. *)
Definition demo_pcb (n : Z) (st : PROCESS_STATE) : ProcessControlBlock :=
  MkPcb n (replicate 8 0) st (MkContext (MkCpu 0 0 0 0 0 0 0 n 0 0 0 0) 0 0 (0xC0200000 + 4096 * n)) (replicate 8 0) 2.

Definition demo_table : ProcessManagerState :=
  MkProcs (demo_pcb 1 RUNNING :: demo_pcb 2 READY :: demo_pcb 3 READY :: replicate 13 zero_pcb) 0 3.

Lemma demo_table_lookup i p :
  process_list demo_table !! i = Some p ->
  (i = 0%nat /\ p = demo_pcb 1 RUNNING) \/ (i = 1%nat /\ p = demo_pcb 2 READY) \/ (i = 2%nat /\ p = demo_pcb 3 READY) \/ p = zero_pcb.
Proof.
  intros H. destruct i as [|[|[|i]]]; [naive_solver..|]. right. right. right. cbn in H. by apply lookup_replicate in H as [-> _].
Qed.

Lemma demo_table_wf : table_wf demo_table.
Proof.
  split.
  - split; try done.
    + intros i j p q Hp Hq Heq Hne. apply demo_table_lookup in Hp, Hq. naive_solver.
    + intros i p Hp Hst. apply demo_table_lookup in Hp. naive_solver.
    + do 3 (apply Forall_cons; split; [done|]). by apply Forall_replicate.
  - intros _. by exists (demo_pcb 1 RUNNING).
Qed.

Lemma demo_slot0 : slot 0.
Proof. by unfold slot. Qed.

Lemma demo_ready2 : ready_at demo_table 2.
Proof. split; [by unfold slot|]. by exists (demo_pcb 3 READY). Qed.

Lemma tick_round_robin_witness :
  exists o j p pm' pg', tick demo_table (paging_init 0) zero_context = Ret (o, pm', pg') /\
    running_process_idx pm' = j /\ pcb_at pm' j = Some p /\ state p = RUNNING.
Proof.
  destruct (tick_round_robin demo_table (paging_init 0) zero_context 0 demo_table_wf eq_refl demo_slot0)
    as (o & j & p & pm' & pg' & H1 & H2 & H3 & H4 & _).
  by exists o, j, p, pm', pg'.
Defined.

Lemma round_robin_fair_witness :
  exists k pm' pg', (k ≤ 15)%nat /\ ticks (take k (replicate 15 zero_context)) demo_table (paging_init 0) = Ret (pm', pg') /\
    running_process_idx pm' = 2.
Proof.
  destruct (round_robin_fair demo_table (paging_init 0) 2 (replicate 15 zero_context) demo_table_wf demo_slot0 demo_ready2)
    as (k & pm' & pg' & Hk & Hrun & Hr & _); [done|done|].
  by exists k, pm', pg'.
Defined.

Lemma kill_process_other_witness : kill_process demo_table (paging_init 0) 3 = Ret (0, Resume, cleared demo_table 2, paging_init 0).
Proof.
  destruct (kill_process_other demo_table (paging_init 0) 3 (demo_pcb 1 RUNNING) demo_table_wf demo_slot0 eq_refl)
    as [(j & p & Hj & Hp & Hpid & H)|[H _]]; [done| |].
  - assert (j = 2) as ->; [|exact H]. unfold pcb_at, slot in *. apply demo_table_lookup in Hp.
    destruct Hp as [[Hz ->]|[[Hz ->]|[[Hz ->]| ->]]]; try discriminate. lia.
  - do 2 apply Forall_inv_tail in H. apply Forall_inv in H. by destruct H.
Defined.

Lemma terminate_current_witness :
  exists j p, next_ready (cleared demo_table 0) j /\ pcb_at demo_table j = Some p /\
    terminate_current_process demo_table (paging_init 0) =
      Ret (SwitchTo (context p), run_slot (cleared demo_table 0) j p,
           paging_use_page_directory (paging_init 0) (page_directory_virtual_addr (context p))).
Proof.
  destruct (terminate_current demo_table (paging_init 0) demo_table_wf demo_slot0) as [(j & p & H1 & H2 & H3)|[H _]].
  - by exists j, p.
  - specialize (H 2 demo_ready2). discriminate.
Defined.

(** ** A kernel with a file on its disk *)
Abbreviation demo_kernel_type := (kernel Inserter.image).

Definition demo_request (size : Z) : user_request :=
  MkUserRequest 0 (MkRequest [] (req_name demo_file) (req_ext demo_file) ROOT_CLUSTER_NUMBER size).
Definition demo_program : user_request := demo_request 2048.

(** A program of more than one page. *)
Definition demo_large : user_request := demo_request (2 ^ 22 + 1).

Definition demo_missing : user_request :=
  MkUserRequest 0 (MkRequest [] (bytes_of_string "nothing" ++ [0]) (replicate 3 0) ROOT_CLUSTER_NUMBER 2048).

Lemma demo_request_ok size w : is_word 32 size -> request_ok (with_buf (request (demo_request size)) w).
Proof. intros Hs. split; [split; [reflexivity|apply bytes_dec; reflexivity]..|exact Hs]. Qed.

Lemma demo_missing_ok w : request_ok (with_buf (request demo_missing) w).
Proof. split; [split; [reflexivity|apply bytes_dec; reflexivity]..|]. unfold is_word. simpl. lia. Qed.

(** What reading the file leaves in the buffer. *)
Definition demo_image (w : list Z) : list Z :=
  splice 0 (get_data demo_vol2 (chain_of (fat_table demo_drv2) (entry_cluster demo_entry))) w.

Lemma demo_chain_length : Zlen (chain_of (fat_table demo_drv2) (entry_cluster demo_entry)) = 1.
Proof. by vm_compute. Qed.

Lemma demo_data_length : length (get_data demo_vol2 (chain_of (fat_table demo_drv2) (entry_cluster demo_entry))) = 2048%nat.
Proof. by vm_compute. Qed.

Lemma demo_image_length w : length w = BUFFER_WINDOW -> length (demo_image w) = BUFFER_WINDOW.
Proof.
  intros Hw. pose proof window_size as Hs. unfold demo_image. rewrite length_splice; [exact Hw|]. rewrite demo_data_length. lia.
Qed.

Lemma demo_read_program s size w : repr s demo_vol2 demo_drv2 -> 2000 ≤ size < 2 ^ 32 -> length w = BUFFER_WINDOW ->
  exists s', read s (with_buf (request (demo_request size)) w) = Ret (0, demo_image w, s').
Proof.
  intros Hs Hsz Hw. pose proof window_size as Hwin.
  destruct (read_correct s demo_vol2 demo_drv2 (with_buf (request (demo_request size)) w) Hs) as (s' & _ & H).
  - apply demo_request_ok. unfold is_word. lia.
  - split; [discriminate|reflexivity].
  - cbn [with_buf request demo_request parent_cluster_number req_name req_ext buf buffer_size]. rewrite demo_table2, demo_found2.
    intros e [= <-]. split; [exists [3]; exact demo_chain2|]. intros _ _. rewrite demo_chain_length. unfold Zlen. lia.
  - exists s'. rewrite H. unfold spec_read. cbn [with_buf request demo_request parent_cluster_number req_name req_ext buf buffer_size].
    rewrite demo_table2, demo_found2. replace (is_dir _) with true by (by vm_compute).
    replace (attribute demo_entry =? ATTR_SUBDIRECTORY) with false by (by vm_compute). cbv zeta.
    rewrite (proj2 (Z.ltb_ge _ _)) by (change (filesize demo_entry) with 2000; lia). reflexivity.
Qed.

Lemma demo_not_found2 :
  lookup_first (matches (req_name (request demo_missing)) (req_ext (request demo_missing))) (add_entry root_directory demo_file 0 3) = None.
Proof. by vm_compute. Qed.

Lemma demo_read_missing s w : repr s demo_vol2 demo_drv2 ->
  exists b s', read s (with_buf (request demo_missing) w) = Ret (2, b, s') /\ length b = length w.
Proof.
  intros Hs. destruct (read_correct s demo_vol2 demo_drv2 (with_buf (request demo_missing) w) Hs (demo_missing_ok w)) as (s' & _ & H).
  - split; [discriminate|reflexivity].
  - intros e He. change (parent_cluster_number _) with ROOT_CLUSTER_NUMBER in He. rewrite demo_table2 in He.
    change (req_name (with_buf _ w)) with (req_name (request demo_missing)) in He.
    change (req_ext (with_buf _ w)) with (req_ext (request demo_missing)) in He. rewrite demo_not_found2 in He. discriminate.
  - exists w, s'. split; [|reflexivity]. rewrite H. unfold spec_read. change (parent_cluster_number _) with ROOT_CLUSTER_NUMBER.
    rewrite demo_table2. change (req_name (with_buf _ w)) with (req_name (request demo_missing)).
    change (req_ext (with_buf _ w)) with (req_ext (request demo_missing)). cbv zeta. rewrite demo_not_found2.
    replace (is_dir _) with true by (by vm_compute). reflexivity.
Qed.

Definition demo_boot_kernel (s : fs Inserter.image) : demo_kernel_type := MkKernel procs_init (paging_init 0x100000) (fun _ => 0) s.

Lemma demo_creatable s r : req_addr r < KERNEL_VIRTUAL_ADDRESS_BASE -> 1 ≤ frames_needed r ≤ 8 -> creatable (demo_boot_kernel s) r.
Proof. intros Ha Hn. split; try done; [apply procs_init_wf|apply init_ok|apply Nat.ltb_lt; reflexivity]. Qed.

Lemma demo_frames : frames_needed demo_program = 2.
Proof. by vm_compute. Qed.

Lemma demo_large_frames : frames_needed demo_large = 3.
Proof. by vm_compute. Qed.

Lemma demo_loadable (k : demo_kernel_type) size : repr (files k) demo_vol2 demo_drv2 -> 2000 ≤ size < 2 ^ 32 ->
  2 ≤ Z.min (frames_needed (demo_request size)) (free_count (pages k)) -> loadable k (demo_request size) demo_image.
Proof.
  intros Hs Hsz Hn. split; [exact Hn|apply Z.le_refl| |cbn; lia|].
  - change (req_addr (demo_request size)) with 0. unfold PAGE_FRAME_SIZE. lia.
  - intros w Hw. split; [by apply demo_image_length|]. by apply demo_read_program.
Qed.

Lemma create_process_success_witness :
  exists s k', process_create_user_process demo_list demo_kernel (demo_boot_kernel s) demo_program = Ret (PROCESS_CREATE_SUCCESS, k') /\
    active_process_count (procs k') = 1.
Proof.
  destruct demo_repr2 as (s & Hs).
  destruct (create_process_success demo_list demo_kernel demo_layout (demo_boot_kernel s) demo_program demo_image)
    as (i & n & d & vs & w & k' & H & _ & _ & _ & _ & _ & _ & _ & _ & _ & Hact & _).
  - apply demo_creatable; [reflexivity|]. rewrite demo_frames. lia.
  - apply (demo_loadable _ 2048); [exact Hs|lia|]. change (demo_request 2048) with demo_program. rewrite demo_frames. by vm_compute.
  - cbn [pages demo_boot_kernel cr3 paging_init]. lia.
  - exists s, k'. split; [exact H|exact Hact].
Defined.

Lemma create_process_refused_witness :
  exists s, process_create_user_process demo_list demo_kernel (demo_boot_kernel s) (MkUserRequest 0xC0000000 (request demo_program)) =
    Ret (PROCESS_CREATE_FAIL_INVALID_ENTRYPOINT, demo_boot_kernel s).
Proof.
  destruct demo_repr2 as (s & Hs). exists s.
  apply (create_process_refused demo_list demo_kernel (demo_boot_kernel s) (MkUserRequest 0xC0000000 (request demo_program))).
  - by vm_compute.
  - cbn. lia.
  - by vm_compute.
Defined.

Lemma create_process_read_failure_leaks_witness :
  exists s k', process_create_user_process demo_list demo_kernel (demo_boot_kernel s) demo_missing =
      Ret (PROCESS_CREATE_FAIL_FS_READ_FAILURE, k') /\ free_count (pages k') = 29.
Proof.
  destruct demo_repr2 as (s & Hs).
  destruct (create_process_read_failure_leaks demo_list demo_kernel demo_layout (demo_boot_kernel s) demo_missing 2)
    as (d & k' & H & _ & _ & _ & _ & Hfree).
  - apply demo_creatable; [reflexivity|]. replace (frames_needed demo_missing) with 2 by (by vm_compute). lia.
  - apply Z.le_refl.
  - discriminate.
  - intros w. by apply demo_read_missing.
  - exists s, k'. split; [exact H|]. rewrite Hfree. by vm_compute.
Defined.

(** [n] of the 31 frames given to the pages [0 .. n-1] of the first directory. *)
Lemma demo_drain n : (n ≤ 30)%nat ->
  exists pg, frames_ok pg /\ page_directory_used pg = <[0%nat := true]> (replicate 32 false) /\
    free_count pg = 31 - Z.of_nat n /\ (forall q, (n ≤ q < 768)%nat -> entry pg 0 q = Some zero_pde).
Proof.
  induction n as [|n IH]; intros Hn.
  - exists demo_pages. split; [exact demo_pages_ok|]. split; [done|]. split; [done|]. intros q Hq.
    unfold entry, demo_pages, after_create. cbn [page_directory_list set_dirs set_used paging_init].
    rewrite list_lookup_insert_eq by (rewrite length_replicate; lia). simpl. unfold fresh_directory.
    rewrite list_lookup_insert_ne by lia. apply lookup_replicate_2. unfold PAGE_ENTRY_COUNT. lia.
  - destruct IH as (pg & Hok & Hu & Hf & Hz); [lia|].
    set (va := u32 (Z.of_nat n * PAGE_FRAME_SIZE)).
    assert (Hva : page_index va = Z.of_nat n) by (unfold va, page_index; rewrite frame_address by lia; reflexivity).
    destruct (allocate_spec demo_list demo_kernel demo_layout pg 0 va zero_pde Hok) as (f & pg' & _ & Hfr & _ & Hmn).
    + lia.
    + lia.
    + rewrite Hva, Nat2Z.id. apply Hz. lia.
    + rewrite Hva, Nat2Z.id in Hmn. exists pg'. pose proof Hmn as [_ _ _ Hframe _ _ _ Hcount (Hu' & _)]. split.
      * eapply allocate_ok; [exact Hok| |exact Hfr| |exact Hmn]; [lia|by rewrite Hu].
      * split; [by rewrite Hu'|]. split; [lia|]. intros q Hq. rewrite Hframe by lia. apply Hz. lia.
Qed.

Lemma create_process_missing_frames_witness :
  exists (k k' : demo_kernel_type) i p, free_count (pages k) = 2 /\
    process_create_user_process demo_list demo_kernel k demo_large = Ret (PROCESS_CREATE_SUCCESS, k') /\
    pcb_at (procs k') i = Some p /\ state p = READY /\ page_frame_used_count p = 3.
Proof.
  destruct demo_repr2 as (s & Hs). destruct (demo_drain 29) as (pg & Hok & Hu & Hf & _); [lia|].
  set (k := MkKernel procs_init pg (fun _ => 0) s : demo_kernel_type).
  destruct (create_process_missing_frames demo_list demo_kernel demo_layout k demo_large demo_image)
    as (i & d & p & k' & H & Hp & Hst & Hused & _).
  - split; [apply procs_init_wf|exact Hok|reflexivity|reflexivity|rewrite demo_large_frames; lia|cbn; lia|].
    cbn. rewrite Hu. apply Nat.ltb_lt. reflexivity.
  - apply (demo_loadable _ (2 ^ 22 + 1)); [exact Hs|lia|]. change (demo_request (2 ^ 22 + 1)) with demo_large. rewrite demo_large_frames. cbn. lia.
  - rewrite demo_large_frames. cbn. lia.
  - exists k, k', i, p. split; [cbn; lia|]. split; [exact H|]. split; [exact Hp|]. split; [exact Hst|]. rewrite Hused. exact demo_large_frames.
Defined.

Lemma kernel_invariant_witness :
  exists (s : fs Inserter.image), table_wf (procs (demo_boot_kernel s)) /\ frames_ok (pages (demo_boot_kernel s)).
Proof.
  destruct demo_repr2 as (s & Hs). exists s.
  apply (kernel_invariant demo_list demo_kernel demo_layout 0x100000 (fun _ => 0) s (demo_boot_kernel s)). apply rtc_refl.
Defined.

(** A kernel that has created 16 processes. *)
Definition demo_full (s : fs Inserter.image) : demo_kernel_type :=
  MkKernel (MkProcs (process_list demo_table) 0 16) (paging_init 0x100000) (fun _ => 0) s.

Lemma process_slots_exhausted_witness :
  exists s, process_create_user_process demo_list demo_kernel (demo_full s) demo_program =
    Ret (PROCESS_CREATE_FAIL_MAX_PROCESS_EXCEEDED, demo_full s).
Proof.
  destruct demo_repr2 as (s & Hs). exists s.
  apply (process_slots_exhausted demo_list demo_kernel demo_layout (demo_full s) (demo_full s) demo_program).
  - split; [|apply init_ok]. destruct demo_table_wf as [[H1 H2 H3 H4 H5 H6] H7]. split; [|exact H7].
    split; [exact H1|exact H2|exact H3|exact H4|cbn in *; lia|exact H6].
  - cbn. lia.
  - apply rtc_refl.
  - by vm_compute.
Defined.

(** ** Two address spaces with a page each *)
Definition demo_second : paging :=
  match paging_create_new_page_directory demo_list demo_mapped with Ret (_, s) => s | _ => demo_mapped end.
Definition demo_spaces : paging :=
  match paging_allocate_user_page_frame demo_list demo_kernel demo_second (directory_addr demo_list 1) 0 with
  | Ret (_, s) => s
  | _ => demo_second
  end.

Lemma demo_second_ok : frames_ok demo_second.
Proof.
  eapply (page_step_ok demo_list demo_kernel demo_layout demo_mapped); [exact demo_mapped_ok|].
  apply (step_create _ _ _ (directory_addr demo_list 1)). by vm_compute.
Qed.

Lemma demo_spaces_ok : frames_ok demo_spaces.
Proof.
  eapply (page_step_ok demo_list demo_kernel demo_layout demo_second); [exact demo_second_ok|].
  eapply (step_allocate _ _ _ 1 0 zero_pde true); [lia|reflexivity|by vm_compute|by vm_compute|reflexivity|by vm_compute].
Qed.

Definition demo_dir (i : nat) : PageDirectory := default [] (page_directory_list demo_spaces !! i).
