(* ===== verification/Interrupt.v ===== *)
(** * interrupt.c and kernel.c: system calls, interrupts and start-up

    [machine] is everything a call into the kernel can change: the kernel's
    tables and user memory ([kern]), the terminal, the static buffer of
    [itoa], the descriptor tables and the TSS.  Disk, screen controller,
    clock and interrupt controllers are behind one device state, which is in
    [kern]; the terminal is kept without it.

    A caller's pointer is followed through the page directory in CR3, and the
    code checks none of them.  Below [KERNEL_VIRTUAL_ADDRESS_BASE] it leads to
    a byte of [umem], or to a page that is not present: that faults in the
    kernel and stops the machine ([Ub]).  From there on it leads to the
    kernel's own objects.  Which of them is at an address is up to the compiler
    and the linker, so such an access is made through the parameters of
    [KernelHalf]. *)
From S2P Require Import Prelude CString PortIO BlockDevice FatLayout Fat32 Descriptors Pic Screen Cmos Paging Mmu Process.

Record InterruptStack := MkStack {
  error_code : Z;
  frame_eip : Z;
  frame_cs : Z;
  frame_eflags : Z
}.

Record InterruptFrame := MkFrame {
  frame_cpu : CPURegister;
  int_number : Z;
  int_stack : InterruptStack
}.

Record TSSEntry := MkTss {
  prev_tss : Z;
  esp0 : Z;
  ss0 : Z;
  unused_register : list Z
}.

(** [_interrupt_tss_entry]. *)
Definition tss_init : TSSEntry := MkTss 0 0 Gdt.GDT_KERNEL_DATA_SEGMENT_SELECTOR (replicate 23 0).

(** [ebp] is the frame base of the call. *)
Definition set_tss_kernel_current_stack (t : TSSEntry) (ebp : Z) : TSSEntry :=
  MkTss (prev_tss t) (u32 (ebp + 8)) (ss0 t) (unused_register t).

(** The object behind a user pointer as far as it is below the kernel's half,
    at most [n] bytes of it. *)
Definition user_window (n : nat) (dir : PageDirectory) (mem : ram) (va : Z) : list Z :=
  window (Z.to_nat (Z.min (Z.of_nat n) (KERNEL_VIRTUAL_ADDRESS_BASE - va))) dir mem va.

(** The fields of a packed driver request. *)
Definition sizeof_request : nat := 4 + 8 + 3 + 4 + 4.

Definition decode_request (bs : list Z) : user_request :=
  MkUserRequest (u32 (le_val (slice 0 4 bs)))
    (MkRequest [] (slice 4 8 bs) (slice 12 3 bs) (u32 (le_val (slice 15 4 bs))) (u32 (le_val (slice 19 4 bs)))).

Record machine (D : Type) := MkMachine {
  kern : kernel D;
  term : console unit;
  itoa_buf : list Z;
  gdt : list Gdt.SegmentDescriptor;
  idt : list Idt.IDTGate;
  tss : TSSEntry
}.
Arguments MkMachine {D}.
Arguments kern {D}.
Arguments term {D}.
Arguments itoa_buf {D}.
Arguments gdt {D}.
Arguments idt {D}.
Arguments tss {D}.

(** The kernel's half of the address space: the byte at an address, what a byte
    stored there changes, and what a driver call does ([interrupt] 0 to 3, to
    the end) when the caller's buffer reaches into it, where it may overlap the
    driver's own state. *)
Class KernelHalf (D : Type) := {
  kernel_load : machine D -> Z -> res Z;
  kernel_store : machine D -> Z -> Z -> res (machine D);
  kernel_buffer : machine D -> InterruptFrame -> res (machine D)
}.

Section interrupt.
Context {D : Type} `{!BlockDevice D} `{!PortIO D} `{!KernelHalf D}.
Context (list_addr kernel_addr : Z) (polls rounds : nat).
Implicit Types (m : machine D) (k : kernel D) (f : InterruptFrame).

Definition set_kern (m : machine D) (k : kernel D) : machine D :=
  MkMachine k (term m) (itoa_buf m) (gdt m) (idt m) (tss m).
Definition set_itoa (m : machine D) (buf : list Z) : machine D :=
  MkMachine (kern m) (term m) buf (gdt m) (idt m) (tss m).
Definition set_tables (m : machine D) (g : list Gdt.SegmentDescriptor) (i : list Idt.IDTGate) (t : TSSEntry) : machine D :=
  MkMachine (kern m) (term m) (itoa_buf m) g i t.
Definition set_umem (m : machine D) (mem : ram) : machine D :=
  set_kern m (MkKernel (procs (kern m)) (pages (kern m)) mem (files (kern m))).
Definition set_files (m : machine D) (s : fs D) : machine D :=
  set_kern m (MkKernel (procs (kern m)) (pages (kern m)) (umem (kern m)) s).
Definition set_tables_of (m : machine D) (pm : ProcessManagerState) (pg : paging) : machine D :=
  set_kern m (MkKernel pm pg (umem (kern m)) (files (kern m))).

(** The terminal with the devices attached, and detached again. *)
Definition screen (m : machine D) : console D :=
  let t := term m in
  MkConsole (keyboard_input_on t) (keyboard_input t) (row_now t) (col_now t) (l t) (vram t) (dev (files (kern m))).
Definition set_screen (m : machine D) (s : console D) : machine D :=
  let m := set_files m (set_dev (files (kern m)) (ports s)) in
  MkMachine (kern m) (MkConsole (keyboard_input_on s) (keyboard_input s) (row_now s) (col_now s) (l s) (vram s) tt)
    (itoa_buf m) (gdt m) (idt m) (tss m).

Definition current_directory (m : machine D) : res PageDirectory :=
  get_directory list_addr kernel_addr (pages (kern m)) (paging_get_current_page_directory_addr (pages (kern m))).

(** A byte loaded, and a byte stored, through a caller's pointer. *)
Definition get_user (m : machine D) (va : Z) : res Z :=
  if va <? KERNEL_VIRTUAL_ADDRESS_BASE then dir ← current_directory m; load dir (umem (kern m)) va
  else kernel_load m va.

Definition put_user (m : machine D) (va v : Z) : res (machine D) :=
  if va <? KERNEL_VIRTUAL_ADDRESS_BASE then
    dir ← current_directory m;
    mem ← store dir (umem (kern m)) va (u8 v);
    Ret (set_umem m mem)
  else kernel_store m va (u8 v).

(** The bytes the kernel sees from [va] on, in either half: [n] of them, or as
    many as there are before one that cannot be loaded. *)
Fixpoint seen (n : nat) (m : machine D) (va : Z) : list Z :=
  match n with
  | O => []
  | S n' => match get_user m (u32 va) with
            | Ret b => b :: seen n' m (va + 1)
            | _ => []
            end
  end.

(** Bytes stored one after another, in either half. *)
Definition put_bytes (m : machine D) (va : Z) (bs : list Z) : res (machine D) :=
  for_up (length bs) 0 (fun i m => b ← arr_get bs i; put_user m (u32 (va + i)) b) m.

(** [*(struct FAT32DriverRequest*\) va]. *)
Definition load_request (m : machine D) (va : Z) : res user_request :=
  let bs := seen sizeof_request m va in
  if decide (length bs = sizeof_request) then Ret (decode_request bs) else Ub.

(** The driver request at [va] with the user memory behind its buffer. *)
Definition fetch_request (m : machine D) (va : Z) : res user_request :=
  r ← load_request m va;
  dir ← current_directory m;
  Ret (MkUserRequest (req_addr r) (with_buf (request r) (user_window BUFFER_WINDOW dir (umem (kern m)) (req_addr r)))).

(** The memory of a fetched request's buffer goes on in the kernel's half. *)
Definition reaches_kernel (r : user_request) : bool :=
  (KERNEL_VIRTUAL_ADDRESS_BASE <? req_addr r + Z.of_nat BUFFER_WINDOW) &&
  (KERNEL_VIRTUAL_ADDRESS_BASE <=? req_addr r + Zlen (buf (request r))).

(** What the driver returned, on to [k]; a call that needs more of the buffer
    than is in the user half finds it in the kernel's, when it goes on there. *)
Definition driver_call {A} (m : machine D) (f : InterruptFrame) (r : user_request) (result : res A)
    (k : A -> res (machine D)) : res (machine D) :=
  match result with
  | Ret x => k x
  | Ub => if reaches_kernel r then kernel_buffer m f else Ub
  | Hang => Hang
  end.

(** [buffer] stored back at [va]. *)
Definition put_buffer (m : machine D) (va : Z) (buffer : list Z) : res (machine D) :=
  dir ← current_directory m;
  mem ← store_bytes dir (umem (kern m)) va buffer;
  Ret (set_umem m mem).

(** System calls 0 and 1: the driver fills the caller's buffer. *)
Definition fill_call (op : fs D -> FAT32DriverRequest -> res (Z * list Z * fs D)) (m : machine D) (f : InterruptFrame) :
    res (machine D) :=
  r ← fetch_request m (ebx (frame_cpu f));
  driver_call m f r (op (files (kern m)) (request r)) (fun '(c, buffer, s) =>
    m ← put_buffer (set_files m s) (req_addr r) buffer;
    put_user m (ecx (frame_cpu f)) c).

(** System calls 2 and 3. *)
Definition store_call (op : fs D -> FAT32DriverRequest -> res (Z * fs D)) (m : machine D) (f : InterruptFrame) :
    res (machine D) :=
  r ← fetch_request m (ebx (frame_cpu f));
  driver_call m f r (op (files (kern m)) (request r)) (fun '(c, s) =>
    put_user (set_files m s) (ecx (frame_cpu f)) c).

(** ** [print_active_processes] *)

(** [puts(s, strlen(s), color)]. *)
Definition puts_cstr (s : console D) (str : list Z) (color : Z) : res (console D) :=
  len ← CString.strlen str; puts s str len color.

Definition print_process (sb : console D * list Z) (p : ProcessControlBlock) : res (console D * list Z) :=
  let '(s, buf) := sb in
  if bool_decide (state p = RUNNING \/ state p = READY) then
    s ← puts_cstr s (bytes_of_string "PID: " ++ [0]) 0x7;
    '(buf, ptr) ← CString.itoa buf (s32 (pid p)) 10;
    s ← puts_cstr s (drop (Z.to_nat ptr) buf) 0xF;
    s ← puts_cstr s (bytes_of_string "     Name: " ++ [0]) 0x7;
    s ← puts_cstr s (process_name p) 0xF;
    s ← puts_cstr s [10; 0] 0xF;
    Ret (s, buf)
  else Ret (s, buf).

Definition print_active_processes (m : machine D) : res (machine D) :=
  s ← puts_cstr (screen m) (bytes_of_string "Currently running processes:" ++ [10; 0]) 0x7;
  '(s, buf) ← for_up 16 0
    (fun i sb => p ← arr_get (process_list (procs (kern m))) i; print_process sb p) (s, itoa_buf m);
  Ret (set_itoa (set_screen m s) buf).

(** ** [interrupt] *)
Definition interrupt (m : machine D) (f : InterruptFrame) : res (switched * machine D) :=
  let n := eax (frame_cpu f) in
  let b := ebx (frame_cpu f) in
  let c := ecx (frame_cpu f) in
  let d := edx (frame_cpu f) in
  let back (r : res (machine D)) : res (switched * machine D) := m ← r; Ret (Resume, m) in
  if n =? 0 then back (fill_call Fat32.read m f)
  else if n =? 1 then back (fill_call Fat32.read_directory m f)
  else if n =? 2 then back (store_call Fat32.write m f)
  else if n =? 3 then back (store_call Fat32.Delete m f)
  else if n =? 4 then
    let '(key, s) := get_keyboard_buffer (screen m) in back (put_user (set_screen m s) b key)
  else if n =? 5 then
    ch ← get_user m b;
    Ret (Resume, set_screen m (putchar (screen m) ch c))
  else if n =? 6 then
    s ← puts (screen m) (seen (Z.to_nat c) m b) c d;
    Ret (Resume, set_screen m s)
  else if n =? 7 then Ret (Resume, set_screen m (keyboard_state_activate (screen m)))
  else if n =? 8 then Ret (Resume, set_screen m (reset_write_position (framebuffer_clear (screen m))))
  else if n =? 9 then
    '(cluster, s) ← Fat32.read_clusters (files (kern m)) c 1;
    if b + Zlen cluster <=? KERNEL_VIRTUAL_ADDRESS_BASE then back (put_buffer (set_files m s) b cluster)
    else back (put_bytes (set_files m s) b cluster)
  else if n =? 10 then
    s ← Fat32.write_clusters (files (kern m)) (seen (Z.to_nat CLUSTER_SIZE) m b) c 1;
    Ret (Resume, set_files m s)
  else if n =? 11 then
    '(o, pm, pg) ← terminate_current_process (procs (kern m)) (pages (kern m));
    Ret (o, set_tables_of m pm pg)
  else if n =? 12 then
    r ← fetch_request m b;
    '(ret_val, k) ← process_create_user_process list_addr kernel_addr (kern m) r;
    back (put_user (set_kern m k) c ret_val)
  else if n =? 13 then back (print_active_processes m)
  else if n =? 14 then
    '(ret_val, o, pm, pg) ← kill_process (procs (kern m)) (pages (kern m)) b;
    let m := set_tables_of m pm pg in
    match o with SwitchTo _ => Ret (o, m) | Resume => back (put_user m c ret_val) end
  else if n =? 15 then
    '(s, buf, _) ← print_current_time polls rounds (screen m) (itoa_buf m);
    Ret (Resume, set_itoa (set_screen m s) buf)
  else if n =? 16 then Ret (Resume, set_screen m (keyboard_state_activate (screen m)))
  else if n =? 17 then Ret (Resume, set_screen m (framebuffer_write (screen m) c d b 0xF 0))
  else Ret (Resume, m).

(** ** [main_interrupt_handler]

    [Back o] is a return to user code, of the caller or of another process;
    [Halted] is [hlt] with interrupts off. *)
Inductive handled := Back (o : switched) | Halted.

Definition frame_context (m : machine D) (f : InterruptFrame) : Context :=
  MkContext (frame_cpu f) (frame_eip (int_stack f)) (frame_eflags (int_stack f))
    (paging_get_current_page_directory_addr (pages (kern m))).

Definition set_ports_of (m : machine D) (p : D) : machine D := set_files m (set_dev (files (kern m)) p).

Definition main_interrupt_handler (m : machine D) (f : InterruptFrame) : res (handled * machine D) :=
  let v := int_number f in
  if v =? PAGE_FAULT then Ret (Halted, m)
  else if v =? IRQ_KEYBOARD + PIC1_OFFSET then
    s ← keyboard_isr (screen m); Ret (Back Resume, set_screen m s)
  else if v =? IRQ_TIMER + PIC1_OFFSET then
    pm ← scheduler_save_context_to_current_running_pcb (procs (kern m)) (frame_context m f);
    let m := set_ports_of m (pic_ack (dev (files (kern m))) IRQ_TIMER) in
    '(o, pm, pg) ← scheduler_switch_to_next_process pm (pages (kern m));
    Ret (Back o, set_tables_of m pm pg)
  else if v =? 0x30 then '(o, m) ← interrupt m f; Ret (Back o, m)
  else Ret (Back Resume, m).

(** ** kernel.c *)

Definition scheduler_init (p : D) : D := activate_timer_interrupt p.

(** The request for the first program. *)
Definition shell_request : user_request :=
  MkUserRequest 0
    (MkRequest [] (bytes_of_string "shell" ++ replicate 3 0) (replicate 3 0) ROOT_CLUSTER_NUMBER 0x100000).

(** [stubs] is [isr_stub_table], [tss_addr] the address of the TSS and [ebp]
    the frame base in [set_tss_kernel_current_stack].  [load_gdt] and
    [set_tss_register] load CPU registers. *)
Definition kernel_setup (stubs : list Z) (tss_addr ebp : Z) (m : machine D) : res (switched * machine D) :=
  let m := set_ports_of m (pic_remap (dev (files (kern m)))) in
  table ← Idt.initialize_idt stubs (idt m);
  let m := set_tables m (gdt m) table (tss m) in
  let m := set_ports_of m (activate_keyboard_interrupt (dev (files (kern m)))) in
  let m := set_screen m (framebuffer_set_cursor (framebuffer_clear (screen m)) 0 0) in
  s ← initialize_filesystem_fat32 (files (kern m));
  let m := set_files m s in
  table ← Gdt.gdt_install_tss tss_addr (gdt m);
  let m := set_tables m table (idt m) (set_tss_kernel_current_stack (tss m) ebp) in
  '(_, k) ← process_create_user_process list_addr kernel_addr (kern m) shell_request;
  let m := set_kern m k in
  let m := set_ports_of m (scheduler_init (dev (files (kern m)))) in
  '(o, pm, pg) ← scheduler_switch_to_next_process (procs (kern m)) (pages (kern m));
  Ret (o, set_tables_of m pm pg).
End interrupt.
