(* ===== verification/InterruptFacts.v ===== *)
(** * Lemmas about system calls

    Which calls leave the process table and the page directories alone, and
    what a call can change in user memory. *)
From S2P Require Import Prelude CString PortIO BlockDevice FatLayout Fat32 Descriptors Pic Screen Cmos Paging PagingFacts Mmu Process Interrupt.

(** ** The driver keeps the length of the caller's buffer *)
Section buffers.
Context {D : Type} `{!BlockDevice D}.

Lemma store_at_length b off bs b' : store_at b off bs = Ret b' -> length b' = length b.
Proof. unfold store_at. case_decide; [|done]. intros [= <-]. by apply length_splice. Qed.

Lemma read_chain_length fuel : forall (s : fs D) c b off b' s',
  read_chain fuel s c b off = Ret (b', s') -> length b' = length b.
Proof.
  induction fuel as [|fuel IH]; intros s c b off b' s' H; cbn [read_chain] in H; [done|].
  destruct (c =? FAT32_FAT_END_OF_FILE); [by simplify_eq|]. invert_ret H.
  apply IH in H. by rewrite H; eapply store_at_length.
Qed.

Lemma read_length (s : fs D) rq c b s' : Fat32.read s rq = Ret (c, b, s') -> length b = length (buf rq).
Proof.
  unfold Fat32.read. intros H. invert_ret H. destruct (negb _); [by simplify_eq|]. invert_ret H.
  destruct (_ =? _); [by simplify_eq|]. invert_ret H. destruct (_ =? _); [by simplify_eq|].
  destruct (_ <? _); [by simplify_eq|]. invert_ret H. by eapply read_chain_length.
Qed.

Lemma read_directory_length (s : fs D) rq c b s' : Fat32.read_directory s rq = Ret (c, b, s') -> length b = length (buf rq).
Proof.
  unfold Fat32.read_directory. intros H. destruct (_ <? _); [by simplify_eq|]. invert_ret H.
  destruct (negb _); [by simplify_eq|]. invert_ret H. destruct (_ =? _); [by simplify_eq|]. invert_ret H.
  destruct (negb _); [by simplify_eq|]. invert_ret H. by eapply store_at_length.
Qed.
End buffers.

Lemma window_length_le n : forall dir mem va, (length (window n dir mem va) ≤ n)%nat.
Proof.
  induction n as [|n IH]; intros dir mem va; cbn [window]; [done|]. destruct (translate dir _); simpl; [|lia].
  specialize (IH dir mem (va + 1)). lia.
Qed.

Lemma user_window_below n dir mem va : va + Zlen (user_window n dir mem va) ≤ Z.max va KERNEL_VIRTUAL_ADDRESS_BASE.
Proof.
  unfold user_window, Zlen. pose proof (window_length_le (Z.to_nat (Z.min (Z.of_nat n) (KERNEL_VIRTUAL_ADDRESS_BASE - va))) dir mem va). lia.
Qed.

(** ** Stores of one address space *)

(** Memory [m'] is [m] as far as the other address spaces can see. *)
Definition same_elsewhere (pg : paging) (i : nat) (mem mem' : ram) : Prop :=
  forall j dj y, j ≠ i -> page_directory_list pg !! j = Some dj -> 0 ≤ y < KERNEL_VIRTUAL_ADDRESS_BASE ->
    load dj mem' y = load dj mem y.

#[export] Instance same_elsewhere_preorder pg i : PreOrder (same_elsewhere pg i).
Proof. split; [by intros mem j dj y|]. intros a b c H1 H2 j dj y Hj Hd Hy. by rewrite (H2 j), (H1 j). Qed.

Section stores.
Context (pg : paging) (i : nat) (di : PageDirectory).
Context (Hok : frames_ok pg) (Hdi : page_directory_list pg !! i = Some di).

Lemma store_elsewhere mem va v mem' : 0 ≤ va < KERNEL_VIRTUAL_ADDRESS_BASE -> store di mem va v = Ret mem' ->
  same_elsewhere pg i mem mem'.
Proof using All.
  unfold store, KERNEL_VIRTUAL_ADDRESS_BASE. intros Hva Hst j dj y Hj Hdj Hy. unfold load.
  rewrite (wrap_small 32 y) by (unfold is_word, KERNEL_VIRTUAL_ADDRESS_BASE in *; lia).
  rewrite (wrap_small 32 va) in Hst by (unfold is_word; lia).
  destruct (translate di va) as [p|] eqn:Hp; [|done]. injection Hst as <-.
  destruct (translate dj y) as [q|] eqn:Hq; [|done]. unfold put. destruct (Z.eqb_spec q p) as [->|]; [|done].
  destruct Hj. symmetry. eapply translate_inj; [exact Hok|exact Hdi|exact Hdj| |exact Hy|exact Hp|exact Hq]. exact Hva.
Qed.

Lemma for_up_elsewhere k body : forall n mem mem',
  (forall x m m', n ≤ x < n + Z.of_nat k -> body x m = Ret m' -> same_elsewhere pg i m m') ->
  for_up k n body mem = Ret mem' -> same_elsewhere pg i mem mem'.
Proof using Type.
  induction k as [|k IH]; intros n mem mem' Hb H; cbn [for_up] in H; [by simplify_eq|]. invert_ret H.
  etrans; [eapply Hb; [|exact Hret]; lia|]. eapply IH; [|exact H]. intros y m m' Hy. apply Hb. lia.
Qed.

Lemma store_bytes_elsewhere mem va bs mem' : 0 ≤ va -> va + Zlen bs ≤ Z.max va KERNEL_VIRTUAL_ADDRESS_BASE ->
  store_bytes di mem va bs = Ret mem' -> same_elsewhere pg i mem mem'.
Proof using All.
  intros Hva Hl. unfold store_bytes. apply for_up_elsewhere. intros x m m' Hx H. invert_ret H.
  eapply store_elsewhere; [|exact H]. unfold Zlen in *. lia.
Qed.
End stores.

(** ** The calls one by one *)
Section calls.
Context {D : Type} `{!BlockDevice D} `{!PortIO D} `{!KernelHalf D}.
Context (list_addr kernel_addr : Z) (polls rounds : nat).
Implicit Types (m : machine D).

(** The process table and the page manager are the same. *)
Definition same_tables (m m' : machine D) : Prop := procs (kern m') = procs (kern m) /\ pages (kern m') = pages (kern m).

#[export] Instance same_tables_preorder : PreOrder same_tables.
Proof. split; [by split|]. intros a b c [H1 H2] [H3 H4]. split; congruence. Qed.

(** A call that keeps the tables and changes the memory of no other process. *)
Definition contained (m m' : machine D) : Prop :=
  same_tables m m' /\
  forall i di, frames_ok (pages (kern m)) -> page_directory_list (pages (kern m)) !! i = Some di ->
    current_directory list_addr kernel_addr m = Ret di -> same_elsewhere (pages (kern m)) i (umem (kern m)) (umem (kern m')).

#[export] Instance contained_preorder : PreOrder contained.
Proof.
  split; [intros m; split; [by split|by intros]|]. intros a b c [[Hp Hg] H1] [[Hp' Hg'] H2]. split; [split; congruence|].
  intros i di Hok Hd Hc. etrans; [by eapply H1|]. rewrite Hg in H2. apply (H2 i di); [done|done|].
  unfold current_directory in *. by rewrite Hg.
Qed.

(** What is not in the process table, the page manager or user memory. *)
Lemma contained_same m m' : procs (kern m') = procs (kern m) -> pages (kern m') = pages (kern m) ->
  umem (kern m') = umem (kern m) -> contained m m'.
Proof using Type. intros H1 H2 H3. split; [done|]. rewrite H3. by intros. Qed.

Lemma put_user_contained m va v m' : 0 ≤ va < KERNEL_VIRTUAL_ADDRESS_BASE -> put_user list_addr kernel_addr m va v = Ret m' -> contained m m'.
Proof using Type.
  intros Hva H. unfold put_user in H. rewrite (proj2 (Z.ltb_lt _ _)) in H by lia. invert_ret H. split; [done|].
  intros i di Hok Hd Hc. rewrite Hret in Hc. injection Hc as ->.
  match goal with Hs : store _ _ _ _ = Ret _ |- _ => apply (store_elsewhere _ _ _ Hok Hd) in Hs; [exact Hs|lia] end.
Qed.

Lemma put_buffer_contained m va bs m' : 0 ≤ va -> va + Zlen bs ≤ Z.max va KERNEL_VIRTUAL_ADDRESS_BASE ->
  put_buffer list_addr kernel_addr m va bs = Ret m' -> contained m m'.
Proof using Type.
  intros Hva Hl H. unfold put_buffer in H. invert_ret H. split; [done|]. intros i di Hok Hd Hc. rewrite Hret in Hc. injection Hc as ->.
  match goal with Hs : store_bytes _ _ _ _ = Ret _ |- _ => apply (store_bytes_elsewhere _ _ _ Hok Hd) in Hs; [exact Hs|done..] end.
Qed.

Lemma set_files_contained m s : contained m (set_files m s).
Proof using Type. by apply contained_same. Qed.

Lemma set_screen_contained m s : contained m (set_screen m s).
Proof using Type. by apply contained_same. Qed.

(** Below the kernel's half the kernel sees what the page directory maps. *)
Lemma seen_window dir m n : forall va, current_directory list_addr kernel_addr m = Ret dir ->
  0 ≤ va -> va + Z.of_nat n ≤ KERNEL_VIRTUAL_ADDRESS_BASE -> seen list_addr kernel_addr n m va = window n dir (umem (kern m)) va.
Proof using Type.
  induction n as [|n IH]; intros va Hd Hva Hn; [done|]. cbn [seen window].
  rewrite (wrap_small 32 va) by (unfold is_word, KERNEL_VIRTUAL_ADDRESS_BASE in *; lia).
  unfold get_user. rewrite (proj2 (Z.ltb_lt _ _)) by lia. rewrite Hd, bind_ret. unfold load.
  rewrite (wrap_small 32 va) by (unfold is_word, KERNEL_VIRTUAL_ADDRESS_BASE in *; lia).
  destruct (translate dir va); [|done]. f_equal. apply IH; [exact Hd|lia|lia].
Qed.

Lemma fetch_request_shape m va r : fetch_request list_addr kernel_addr m va = Ret r ->
  is_word 32 (req_addr r) /\ length (req_name (request r)) = 8%nat /\
  req_addr r + Zlen (buf (request r)) ≤ Z.max (req_addr r) KERNEL_VIRTUAL_ADDRESS_BASE.
Proof using Type.
  unfold fetch_request, load_request. generalize (seen list_addr kernel_addr sizeof_request m va) as bs. intros bs H.
  invert_ret H. case_decide as Hl; [|done]. simplify_eq. cbn [req_addr request with_buf buf decode_request req_name].
  split; [by apply wrap_word|]. split; [apply length_slice; rewrite Hl; unfold sizeof_request; lia|apply user_window_below].
Qed.

(** The buffer of the request the call passes ends in the user half. *)
Definition buffer_below (m : machine D) (f : InterruptFrame) : Prop :=
  forall r, fetch_request list_addr kernel_addr m (ebx (frame_cpu f)) = Ret r -> reaches_kernel r = false.

Lemma driver_call_ret {A} m f r (result : res A) k m' : reaches_kernel r = false ->
  driver_call m f r result k = Ret m' -> exists x, result = Ret x /\ k x = Ret m'.
Proof using Type. intros Hr H. unfold driver_call in H. rewrite Hr in H. destruct result; [by eexists|done..]. Qed.

Lemma fill_call_contained op m f m' : 0 ≤ ecx (frame_cpu f) < KERNEL_VIRTUAL_ADDRESS_BASE -> buffer_below m f ->
  (forall s rq r buffer s', op s rq = Ret (r, buffer, s') -> length buffer = length (buf rq)) ->
  fill_call list_addr kernel_addr op m f = Ret m' -> contained m m'.
Proof using Type.
  intros Hc Hb Hop H. unfold fill_call in H. invert_ret H. apply (driver_call_ret _ _ _ _ _ _ (Hb _ Hret)) in H as ([[r b] s] & Hr & H).
  apply fetch_request_shape in Hret as (Hw & _ & Hl). invert_ret H.
  etrans; [apply set_files_contained|]. etrans; [|eapply put_user_contained; [exact Hc|exact H]].
  eapply put_buffer_contained; [| |eassumption]; [apply Hw|]. unfold Zlen in *. by erewrite Hop.
Qed.

Lemma store_call_contained op m f m' : 0 ≤ ecx (frame_cpu f) < KERNEL_VIRTUAL_ADDRESS_BASE -> buffer_below m f ->
  store_call list_addr kernel_addr op m f = Ret m' -> contained m m'.
Proof using Type.
  intros Hc Hb H. unfold store_call in H. invert_ret H. apply (driver_call_ret _ _ _ _ _ _ (Hb _ Hret)) in H as ([r s] & Hr & H).
  etrans; [apply set_files_contained|]. by eapply put_user_contained.
Qed.

Lemma print_active_contained m m' : print_active_processes m = Ret m' -> contained m m'.
Proof using Type. unfold print_active_processes. intros H. invert_ret H. by apply contained_same. Qed.
End calls.
