(* ===== verification/InterruptProps.v ===== *)
(** * Theorems about the kernel as a whole

    The invariant of the kernel's tables over every interrupt and system call,
    the isolation of the processes' memory from each other's system calls, and
    preemption. *)
From stdpp Require Import relations.
From S2P Require Import Prelude CString PortIO BlockDevice FatLayout Fat32 Descriptors Pic Screen Cmos Paging PagingFacts PagingProps Mmu Process ProcessFacts ProcessProps ProcessCreate KernelProps Interrupt InterruptFacts.

(** The registers of a frame are 32-bit words. *)
Definition frame_ok (f : InterruptFrame) : Prop :=
  is_word 32 (eax (frame_cpu f)) /\ is_word 32 (ebx (frame_cpu f)) /\
  is_word 32 (ecx (frame_cpu f)) /\ is_word 32 (edx (frame_cpu f)).

Section machine.
Context {D : Type} `{!BlockDevice D} `{!PortIO D} `{!KernelHalf D}.
Context (list_addr kernel_addr : Z) (Hlay : directory_layout list_addr kernel_addr) (polls rounds : nat).
Implicit Types (m : machine D).

Abbreviation call := (interrupt list_addr kernel_addr polls rounds (D := D)).
Abbreviation handle := (main_interrupt_handler list_addr kernel_addr polls rounds (D := D)).

(** What the call stores through its pointers is below the kernel's half: its
    result, a key, the bytes of a cluster and the buffer of the request. *)
Definition user_pointers m (f : InterruptFrame) : Prop :=
  let n := eax (frame_cpu f) in
  (n ∈ [0; 1; 2; 3; 12; 14] -> ecx (frame_cpu f) < KERNEL_VIRTUAL_ADDRESS_BASE) /\
  (n ∈ [0; 1; 2; 3] -> buffer_below list_addr kernel_addr m f) /\
  (n = 4 -> ebx (frame_cpu f) < KERNEL_VIRTUAL_ADDRESS_BASE) /\
  (n = 9 -> forall cluster s, Fat32.read_clusters (files (kern m)) (ecx (frame_cpu f)) 1 = Ret (cluster, s) ->
     ebx (frame_cpu f) + Zlen cluster ≤ KERNEL_VIRTUAL_ADDRESS_BASE).

Lemma switch_resume pm pg pm' pg' : scheduler_switch_to_next_process pm pg = Ret (Resume, pm', pg') -> pg' = pg.
Proof using Type.
  unfold scheduler_switch_to_next_process. intros H. invert_ret H. destruct (_ =? _); invert_ret H; [done|].
  destruct (_ =? _); invert_ret H. done.
Qed.

Lemma terminate_resume pm pg pm' pg' : terminate_current_process pm pg = Ret (Resume, pm', pg') -> pg' = pg.
Proof using Type.
  unfold terminate_current_process. intros H. destruct (process_get_current_running_pcb_pointer pm); [|done].
  invert_ret H. by eapply switch_resume.
Qed.

Lemma kill_resume pm pg n c pm' pg' : kill_process pm pg n = Ret (c, Resume, pm', pg') -> pg' = pg.
Proof using Type.
  unfold kill_process. intros H. invert_ret H. destruct (_ =? _); invert_ret H; [by eapply terminate_resume|].
  destruct (_ =? _); invert_ret H; done.
Qed.

(** Every call but exit, creation and kill stays within the caller. *)
Lemma call_contained m f o m' : 0 ≤ ebx (frame_cpu f) -> 0 ≤ ecx (frame_cpu f) -> user_pointers m f -> call m f = Ret (o, m') ->
  eax (frame_cpu f) ∉ [11; 12; 14] -> contained list_addr kernel_addr m m' /\ o = Resume.
Proof using Type.
  intros Hb Hc (Hu1 & Hu2 & Hu3 & Hu4) H Hn. unfold interrupt in H. rewrite !not_elem_of_cons in Hn. destruct Hn as (H11 & H12 & H14 & _).
  rewrite (proj2 (Z.eqb_neq _ 11)), (proj2 (Z.eqb_neq _ 12)), (proj2 (Z.eqb_neq _ 14)) in H by done.
  revert H. repeat (match goal with |- context [if ?a =? ?b then _ else _] => destruct (Z.eqb_spec a b) as [Heq|_] end;
    [intros H; invert_ret H|]); try intros H.
  all: try (split; [|done]).
  all: try (eapply fill_call_contained; [split; [exact Hc|apply Hu1; rewrite Heq; by repeat constructor]|apply Hu2; rewrite Heq; by repeat constructor| |eassumption];
    intros; first [by eapply read_length|by eapply read_directory_length]).
  all: try (eapply store_call_contained; [split; [exact Hc|apply Hu1; rewrite Heq; by repeat constructor]|apply Hu2; rewrite Heq; by repeat constructor|eassumption]).
  all: try (by apply contained_same).
  all: try (by apply print_active_contained).
  - etrans; [apply set_screen_contained|]. eapply put_user_contained; [|eassumption]. split; [exact Hb|by apply Hu3].
  - rewrite (proj2 (Z.leb_le _ _)) in H by by eapply Hu4. invert_ret H.
    split; [|done]. etrans; [apply set_files_contained|]. eapply put_buffer_contained; [exact Hb| |eassumption].
    etrans; [by eapply Hu4|lia].
  - invert_ret H. by split; [apply contained_same|].
Qed.

Lemma call_exit m f o m' : eax (frame_cpu f) = 11 -> call m f = Ret (o, m') ->
  exists pm pg, terminate_current_process (procs (kern m)) (pages (kern m)) = Ret (o, pm, pg) /\ m' = set_tables_of m pm pg.
Proof using Type.
  intros Hn H. unfold interrupt in H. rewrite Hn in H.
  repeat (rewrite (proj2 (Z.eqb_neq 11 _)) in H by done). rewrite Z.eqb_refl in H. invert_ret H. by eexists _, _.
Qed.

Lemma call_create m f o m' : eax (frame_cpu f) = 12 -> call m f = Ret (o, m') ->
  exists r c k, fetch_request list_addr kernel_addr m (ebx (frame_cpu f)) = Ret r /\
    process_create_user_process list_addr kernel_addr (kern m) r = Ret (c, k) /\
    put_user list_addr kernel_addr (set_kern m k) (ecx (frame_cpu f)) c = Ret m' /\ o = Resume.
Proof using Type.
  intros Hn H. unfold interrupt in H. rewrite Hn in H.
  repeat (rewrite (proj2 (Z.eqb_neq 12 _)) in H by done). rewrite Z.eqb_refl in H. invert_ret H. by eexists _, _, _.
Qed.

Lemma call_kill m f o m' : eax (frame_cpu f) = 14 -> call m f = Ret (o, m') ->
  exists c pm pg, kill_process (procs (kern m)) (pages (kern m)) (ebx (frame_cpu f)) = Ret (c, o, pm, pg) /\
    match o with
    | SwitchTo _ => m' = set_tables_of m pm pg
    | Resume => put_user list_addr kernel_addr (set_tables_of m pm pg) (ecx (frame_cpu f)) c = Ret m'
    end.
Proof using Type.
  intros Hn H. unfold interrupt in H. rewrite Hn in H.
  repeat (rewrite (proj2 (Z.eqb_neq 14 _)) in H by done). rewrite Z.eqb_refl in H. invert_ret H.
  match type of H with match ?z with _ => _ end = _ => destruct z end; invert_ret H; by eexists _, _, _.
Qed.

Lemma ok_same_tables m m' : same_tables m m' -> kernel_ok (kern m) -> kernel_ok (kern m').
Proof using Type. intros [H1 H2] [Hp Hg]. split; [by rewrite H1|by rewrite H2]. Qed.

Lemma call_ok m f o m' : frame_ok f -> user_pointers m f -> kernel_ok (kern m) -> call m f = Ret (o, m') -> kernel_ok (kern m').
Proof using Hlay.
  intros Hf Hu Hok H. pose proof Hf as (_ & [Hb _] & [Hc _] & _). destruct (decide (eax (frame_cpu f) ∈ [11; 12; 14])) as [Hin|Hout].
  2: { destruct (call_contained m f o m') as [[Hs _] _]; [done..|]. by eapply ok_same_tables. }
  rewrite !elem_of_cons, elem_of_nil in Hin. destruct Hin as [Hn|[Hn|[Hn|[]]]].
  - destruct (call_exit _ _ _ _ Hn H) as (pm & pg & Ht & ->).
    eapply (kernel_step_ok list_addr kernel_addr Hlay (kern m)); [exact Hok|by eapply ks_exit].
  - destruct (call_create _ _ _ _ Hn H) as (r & c & k & Hr & Hcr & Hput & _).
    apply fetch_request_shape in Hr as (_ & Hname & _).
    apply (put_user_contained _ _ _ _ _ _ (conj Hc (proj1 Hu ltac:(rewrite Hn; by repeat constructor)))) in Hput as [Hs _]. eapply ok_same_tables; [exact Hs|].
    eapply (kernel_step_ok list_addr kernel_addr Hlay (kern m)); [exact Hok|]. eapply ks_create; [|exact Hcr]. lia.
  - destruct (call_kill _ _ _ _ Hn H) as (c & pm & pg & Hk & Hm).
    assert (Hok' : kernel_ok (kern (set_tables_of m pm pg))).
    { eapply (kernel_step_ok list_addr kernel_addr Hlay (kern m)); [exact Hok|by eapply ks_kill]. }
    destruct o; [|by rewrite Hm]. apply (put_user_contained _ _ _ _ _ _ (conj Hc (proj1 Hu ltac:(rewrite Hn; by repeat constructor)))) in Hm as [Hs _]. by eapply ok_same_tables.
Qed.

Lemma step_tables m m' pm pg : kernel_ok (kern m) ->
  kernel_step list_addr kernel_addr (kern m) (MkKernel pm pg (umem (kern m)) (files (kern m))) ->
  kernel_ok (kern (set_tables_of m' pm pg)).
Proof using Hlay. intros Hok Hs. by apply (kernel_step_ok list_addr kernel_addr Hlay) in Hs as [[? ?] _]. Qed.

(** The timer interrupt is [tick] and the acknowledgement to the controller. *)
Lemma timer_handler m f : int_number f = IRQ_TIMER + PIC1_OFFSET ->
  handle m f =
    ('(o, pm, pg) ← tick (procs (kern m)) (pages (kern m)) (frame_context m f);
     Ret (Back o, set_tables_of (set_ports_of m (pic_ack (dev (files (kern m))) IRQ_TIMER)) pm pg)).
Proof using Type.
  intros Hv. unfold main_interrupt_handler, tick. rewrite Hv.
  change (IRQ_TIMER + PIC1_OFFSET =? PAGE_FAULT) with false. change (IRQ_TIMER + PIC1_OFFSET =? IRQ_KEYBOARD + PIC1_OFFSET) with false.
  rewrite Z.eqb_refl. cbv iota. by destruct (scheduler_save_context_to_current_running_pcb _ _).
Qed.

Lemma handle_ok m f o m' : frame_ok f -> (int_number f = 0x30 -> user_pointers m f) -> kernel_ok (kern m) -> handle m f = Ret (o, m') -> kernel_ok (kern m').
Proof using Hlay.
  intros Hf Hu Hok H. destruct (decide (int_number f = IRQ_TIMER + PIC1_OFFSET)) as [Hv|Hv].
  - rewrite timer_handler in H by done. invert_ret H.
    eapply (step_tables m); [exact Hok|eapply ks_tick; exact Hret].
  - unfold main_interrupt_handler in H. destruct (_ =? _); invert_ret H; [done|]. destruct (_ =? _); invert_ret H; [done|].
    rewrite (proj2 (Z.eqb_neq _ _)) in H by done. destruct (Z.eqb_spec (int_number f) 0x30) as [Hi|]; invert_ret H; [|done]. eapply call_ok; eauto.
Qed.

(** A step of the machine after start-up: an interrupt that comes back, a system
    call with pointers below the kernel's half that comes back, or a store of
    the running process to its memory. *)
Inductive machine_step m : machine D -> Prop :=
| ms_interrupt f o m' : frame_ok f -> (int_number f = 0x30 -> user_pointers m f) -> handle m f = Ret (Back o, m') -> machine_step m m'
| ms_store dir va v mem : 0 ≤ va < KERNEL_VIRTUAL_ADDRESS_BASE -> current_directory list_addr kernel_addr m = Ret dir ->
    store dir (umem (kern m)) va v = Ret mem -> machine_step m (set_umem m mem).

Lemma machine_step_ok m m' : kernel_ok (kern m) -> machine_step m m' -> kernel_ok (kern m').
Proof using Hlay. intros Hok [f o m1 Hf Hu H|dir va v mem _ _ _]; [by eapply handle_ok|exact Hok]. Qed.

Lemma switch_keeps_wf pm pg o pm' pg' : table_wf pm -> frames_ok pg ->
  scheduler_switch_to_next_process pm pg = Ret (o, pm', pg') -> table_wf pm' /\ frames_ok pg'.
Proof using Type.
  intros Hwf Hok H. apply switch_wf in H as (? & ? & _); [split; [done|by eapply pages_step_ok]|apply Hwf|].
  intros p Hr Hp. destruct (tw_running _ Hwf Hr) as (q & Hq & Hu). unfold pcb_at in Hp. rewrite Hp in Hq. injection Hq as <-.
  rewrite Hu. pose proof (tw_active _ Hwf). lia.
Qed.

Lemma setup_ok stubs tss_addr ebp m o m' : kernel_ok (kern m) ->
  kernel_setup list_addr kernel_addr stubs tss_addr ebp m = Ret (o, m') -> kernel_ok (kern m').
Proof using Hlay.
  intros Hok H. unfold kernel_setup in H. invert_ret H.
  match goal with Hc : process_create_user_process _ _ _ _ = Ret _, Hs : scheduler_switch_to_next_process _ _ = Ret _ |- _ =>
    apply (create_keeps_ok list_addr kernel_addr Hlay) in Hc as [[Hwf Hpg] _]; [|exact Hok|apply Nat.leb_le; vm_compute; reflexivity];
    apply switch_keeps_wf in Hs as [? ?]; [by split|exact Hwf|exact Hpg] end.
Qed.

Lemma machine_ok stubs tss_addr ebp c m0 o m m' :
  procs (kern m0) = procs_init -> pages (kern m0) = paging_init c ->
  kernel_setup list_addr kernel_addr stubs tss_addr ebp m0 = Ret (o, m) -> rtc machine_step m m' -> kernel_ok (kern m').
Proof using Hlay.
  intros Hp Hg Hs Hsteps. apply setup_ok in Hs as Hok; [|split; [rewrite Hp; apply procs_init_wf|rewrite Hg; apply init_ok]].
  clear Hs. induction Hsteps as [m|m1 m2 m3 Hstep _ IH]; [exact Hok|]. apply IH. by eapply machine_step_ok.
Qed.

(** C3: In every state the machine reaches after start-up, by whatever
    sequence of timer and keyboard interrupts, stores of the running processes
    and system calls whose pointers are below the kernel's half, no two
    processes have the same pid, the running process has its slot, the count of
    processes bounds the slots in use, the count of free frames is exact and no
    two user pages share a frame.  The condition on the pointers is the
    caller's: the code does not check them, and a call that is given an address
    of the kernel's half stores there, whatever it then overwrites. *)
Theorem machine_invariant stubs tss_addr ebp c m0 o m m' :
  procs (kern m0) = procs_init -> pages (kern m0) = paging_init c ->
  kernel_setup list_addr kernel_addr stubs tss_addr ebp m0 = Ret (o, m) -> rtc machine_step m m' ->
  table_wf (procs (kern m')) /\ frames_ok (pages (kern m')).
Proof using Hlay. intros Hp Hg Hs Hsteps. by destruct (machine_ok _ _ _ _ _ _ _ _ Hp Hg Hs Hsteps). Qed.

(** C27: Processes cannot touch each other's memory: in every state the machine
    reaches after start-up, by interrupts, system calls with pointers below the
    kernel's half and stores of the processes, a byte stored through one page
    directory at an address below the kernel's half leaves every byte that is
    read through another directory below the kernel's half as it was, and in
    the same directory every byte at another address.  Nothing is assumed of
    the directories: that no frame is handed out twice is what paging.c and
    process.c keep. *)
Theorem memory_isolation stubs tss_addr ebp c m0 o m m' i j di dj mem x y v :
  procs (kern m0) = procs_init -> pages (kern m0) = paging_init c ->
  kernel_setup list_addr kernel_addr stubs tss_addr ebp m0 = Ret (o, m) -> rtc machine_step m m' ->
  page_directory_list (pages (kern m')) !! i = Some di -> page_directory_list (pages (kern m')) !! j = Some dj ->
  0 ≤ x < KERNEL_VIRTUAL_ADDRESS_BASE -> 0 ≤ y < KERNEL_VIRTUAL_ADDRESS_BASE -> ~ (i = j /\ x = y) ->
  store di (umem (kern m')) x v = Ret mem -> load dj mem y = load dj (umem (kern m')) y.
Proof using Hlay.
  intros Hp Hg Hs Hsteps Hdi Hdj Hx Hy Hne Hst. destruct (machine_ok _ _ _ _ _ _ _ _ Hp Hg Hs Hsteps) as [_ Hok].
  exact (store_isolated (pages (kern m')) i j di dj (umem (kern m')) mem x y v Hok Hdi Hdj Hx Hy Hne Hst).
Qed.

(** The system call for a key does not look at its pointer: the byte is stored
    in the kernel's half when the caller says so. *)
Lemma kernel_pointer_stored m f : eax (frame_cpu f) = 4 -> KERNEL_VIRTUAL_ADDRESS_BASE ≤ ebx (frame_cpu f) ->
  let '(key, s) := get_keyboard_buffer (screen m) in
  call m f = (m' ← kernel_store (set_screen m s) (ebx (frame_cpu f)) (u8 key); Ret (Resume, m')).
Proof using Type.
  intros Hn Hb. unfold interrupt, put_user. rewrite Hn. change (4 =? 4) with true.
  repeat (rewrite (proj2 (Z.eqb_neq 4 _)) by done). cbv iota. by rewrite (proj2 (Z.ltb_ge _ _)) by lia.
Qed.

(** C5: No system call except the creation of a process changes the memory of
    another process, as long as the caller's pointers are below the kernel's
    half: when the call returns, every byte another page directory sees below
    the kernel's half is as before.  The code does not check the pointers; a
    call given an address of the kernel's half is not covered. *)
Theorem system_calls_isolated m f o m' i j di dj y :
  frame_ok f -> frames_ok (pages (kern m)) -> page_directory_list (pages (kern m)) !! i = Some di ->
  current_directory list_addr kernel_addr m = Ret di -> user_pointers m f -> eax (frame_cpu f) ≠ 12 -> call m f = Ret (o, m') ->
  j ≠ i -> page_directory_list (pages (kern m)) !! j = Some dj -> 0 ≤ y < KERNEL_VIRTUAL_ADDRESS_BASE ->
  load dj (umem (kern m')) y = load dj (umem (kern m)) y.
Proof using Type.
  intros Hf Hok Hdi Hcur Hu Hn H Hj Hdj Hy. pose proof Hf as (_ & [Hb _] & [Hc _] & _).
  destruct (decide (eax (frame_cpu f) ∈ [11; 14])) as [Hin|Hout].
  2: { destruct (call_contained m f o m') as [[_ Hs] _]; [exact Hb|exact Hc|exact Hu|exact H| |by apply (Hs i di Hok Hdi Hcur j dj)]. clear Hlay; set_solver. }
  rewrite !elem_of_cons, elem_of_nil in Hin. destruct Hin as [Ha|[Ha|[]]].
  - by destruct (call_exit _ _ _ _ Ha H) as (pm & pg & _ & ->).
  - destruct (call_kill _ _ _ _ Ha H) as (c & pm & pg & Hk & Hm). destruct o; [|by rewrite Hm].
    apply kill_resume in Hk as ->. apply (put_user_contained _ _ _ _ _ _ (conj Hc (proj1 Hu ltac:(rewrite Ha; by repeat constructor)))) in Hm as [_ Hs].
    by apply (Hs i di Hok Hdi Hcur j dj).
Qed.
End machine.
