(* ===== verification/Preemption.v ===== *)
(** * Preemption

    A process that the timer interrupts comes back with the context it was
    interrupted with. *)
From S2P Require Import Prelude CString PortIO BlockDevice FatLayout Fat32 Descriptors Pic Screen Cmos Paging PagingFacts PagingProps Mmu Process ProcessFacts ProcessProps ProcessCreate KernelProps Interrupt InterruptFacts InterruptProps.

(** A READY process waits with its context untouched, and is nearer to its turn
    after every tick. *)
Lemma tick_waits pm pg ctx j q :
  length (process_list pm) = 16%nat -> slot (running_process_idx pm) -> slot j -> j ≠ running_process_idx pm ->
  pcb_at pm j = Some q -> state q = READY ->
  exists o pm' pg', tick pm pg ctx = Ret (o, pm', pg') /\ page_directory_list pg' = page_directory_list pg /\
    length (process_list pm') = 16%nat /\ slot (running_process_idx pm') /\
    ((running_process_idx pm' = j /\ o = SwitchTo (context q) /\ pg' = paging_use_page_directory pg (page_directory_virtual_addr (context q))) \/
     (j ≠ running_process_idx pm' /\ pcb_at pm' j = Some q /\
      distance (running_process_idx pm') j < distance (running_process_idx pm) j)).
Proof.
  intros Hl Hr Hj Hne Hq Hst. assert (Hready : ready_at pm j) by (split; [done|by exists q]).
  assert (Hl' : length (process_list (saved pm ctx)) = 16%nat) by (cbn; by rewrite length_alter).
  destruct (tick_spec pm pg ctx Hl Hr) as [(n & p & [Hn _] & Hnr & Hp & Hmin & Hrun)|(Hnone & _)].
  2: { exfalso. apply Hne. by apply Hnone. }
  eexists _, _, _. split; [exact Hrun|]. split; [done|]. split; [cbn; by rewrite length_insert, length_alter|]. split; [done|].
  cbn [running_process_idx run_slot]. destruct (decide (n = j)) as [->|Hnj]; [left; naive_solver|right]. split; [done|]. split.
  - rewrite pcb_run_slot, decide_False by done. by rewrite pcb_saved, decide_False by done.
  - specialize (Hmin j Hready Hne). unfold distance, slot in *. revert Hmin. mod_lia.
Qed.

Section preemption.
Context {D : Type} `{!BlockDevice D} `{!PortIO D} `{!KernelHalf D}.
Context (list_addr kernel_addr : Z) (polls rounds : nat).
Implicit Types (m : machine D).

Abbreviation handle := (main_interrupt_handler list_addr kernel_addr polls rounds (D := D)).

(** The frames handled one after the other. *)
Fixpoint handle_all (fs : list InterruptFrame) (m : machine D) : res (machine D) :=
  match fs with
  | [] => Ret m
  | f :: fs => '(_, m) ← handle m f; handle_all fs m
  end.

Definition timer_frame (f : InterruptFrame) : Prop := int_number f = IRQ_TIMER + PIC1_OFFSET.

(** The handler on the timer, step by step. *)
Lemma timer_step m f o pm pg : timer_frame f -> tick (procs (kern m)) (pages (kern m)) (frame_context m f) = Ret (o, pm, pg) ->
  exists m', handle m f = Ret (Back o, m') /\ procs (kern m') = pm /\ pages (kern m') = pg /\ umem (kern m') = umem (kern m).
Proof using Type. intros Hf H. rewrite timer_handler, H by done. by eexists. Qed.

(** Waiting for the turn: at most as many ticks as the distance. *)
Lemma wait_turn j q n : forall fs m,
  length (process_list (procs (kern m))) = 16%nat -> slot (running_process_idx (procs (kern m))) -> slot j ->
  j ≠ running_process_idx (procs (kern m)) -> pcb_at (procs (kern m)) j = Some q -> state q = READY ->
  Forall timer_frame fs -> distance (running_process_idx (procs (kern m))) j < Z.of_nat n -> (n ≤ length fs)%nat ->
  exists k f m1 m2, (k < n)%nat /\ handle_all (take k fs) m = Ret m1 /\ fs !! k = Some f /\
    handle m1 f = Ret (Back (SwitchTo (context q)), m2) /\ running_process_idx (procs (kern m2)) = j /\
    cr3 (pages (kern m2)) = cr3 (paging_use_page_directory (pages (kern m1)) (page_directory_virtual_addr (context q))) /\
    umem (kern m2) = umem (kern m) /\ page_directory_list (pages (kern m2)) = page_directory_list (pages (kern m)).
Proof using Type.
  induction n as [|n IH]; intros fs m Hl Hr Hj Hne Hq Hst Hfs Hd Hn.
  - unfold distance in Hd. pose proof (Z.mod_pos_bound (j - running_process_idx (procs (kern m)) - 1) 16). lia.
  - destruct fs as [|f fs]; [simpl in Hn; lia|]. apply Forall_cons in Hfs as [Hf Hfs]. simpl in Hn.
    destruct (tick_waits (procs (kern m)) (pages (kern m)) (frame_context m f) j q Hl Hr Hj Hne Hq Hst)
      as (o & pm & pg & Ht & Hgl & Hl1 & Hr1 & [(Heq & -> & Hpg)|(Hne1 & Hq1 & Hd1)]);
      destruct (timer_step m f _ _ _ Hf Ht) as (m' & Hh & Hpm & Hpg' & Hum); rewrite <- Hpm in *.
    + exists 0%nat, f, m, m'. split; [lia|]. split; [done|]. split; [done|]. split; [done|]. split; [done|].
      split; [by rewrite Hpg', Hpg|]. split; [done|by rewrite Hpg'].
    + destruct (IH fs m') as (k & g & m1 & m2 & Hk & Hrun & Hg & H2 & H3 & H4 & H5 & H6); [done..|lia|lia|].
      exists (S k), g, m1, m2. split; [lia|]. split; [cbn [take handle_all]; by rewrite Hh|].
      split; [done|]. split; [done|]. split; [done|]. split; [done|]. split; [by rewrite H5|]. by rewrite H6, Hpg'.
Qed.

(** C4: The timer takes the processor from a process when another one is READY, and
    at the latest 16 timer interrupts later gives it back: with the registers,
    the instruction pointer, the flags and the page directory of the moment it
    was interrupted, whatever the other processes' contexts were, and with
    user memory as it was left. *)
Theorem preempted_process_returns m r p f fs :
  table_wf (procs (kern m)) -> running_process_idx (procs (kern m)) = r -> slot r -> pcb_at (procs (kern m)) r = Some p ->
  (exists j, ready_at (procs (kern m)) j /\ j ≠ r) ->
  timer_frame f -> Forall timer_frame fs -> (16 ≤ length fs)%nat ->
  exists o m0, handle m f = Ret (Back o, m0) /\ running_process_idx (procs (kern m0)) ≠ r /\
    exists k g m1 m2, (k < 16)%nat /\ handle_all (take k fs) m0 = Ret m1 /\ fs !! k = Some g /\
      handle m1 g = Ret (Back (SwitchTo (frame_context m f)), m2) /\ running_process_idx (procs (kern m2)) = r /\
      cr3 (pages (kern m2)) =
        cr3 (paging_use_page_directory (pages (kern m1)) (paging_get_current_page_directory_addr (pages (kern m)))) /\
      umem (kern m2) = umem (kern m).
Proof using Type.
  intros Hwf Hrun Hr Hp (j & Hj & Hne) Hf Hfs Hlen. pose proof (tw_len _ Hwf) as Hl. set (ctx := frame_context m f).
  destruct (tick_spec (procs (kern m)) (pages (kern m)) ctx Hl) as [(n & pn & [Hn _] & Hnr & Hpn & _ & Ht)|(Hnone & _)];
    [by rewrite Hrun|rewrite Hrun in Hnr|exfalso; apply Hne; rewrite <- Hrun; by apply Hnone].
  destruct (timer_step m f _ _ _ Hf Ht) as (m0 & Hh & Hpm & Hpg & Hum).
  exists (SwitchTo (context pn)), m0. split; [exact Hh|]. split; [by rewrite Hpm|].
  assert (Hl' : length (process_list (saved (procs (kern m)) ctx)) = 16%nat) by (cbn; by rewrite length_alter).
  destruct (wait_turn r (set_state (set_context p ctx) READY) 16 fs m0) as (k & g & m1 & m2 & Hk & H1 & H2 & H3 & H4 & H5 & H6 & _).
  - rewrite Hpm. cbn. by rewrite length_insert, length_alter.
  - by rewrite Hpm.
  - done.
  - by rewrite Hpm.
  - rewrite Hpm, pcb_run_slot, decide_False by done. rewrite pcb_saved, decide_True by (done || by rewrite Hrun). by rewrite Hp.
  - done.
  - done.
  - unfold distance. pose proof (Z.mod_pos_bound (r - running_process_idx (procs (kern m0)) - 1) 16). lia.
  - done.
  - exists k, g, m1, m2. split_and!; try done. by rewrite H6.
Qed.
End preemption.
