(* ===== verification/KernelBoot.v ===== *)
(** * kernel.c: start-up

    [kernel_setup] on a disk that holds a program called [shell]: the machine
    ends in the shell, with everything around it set up. *)
From S2P Require Import Prelude CString PortIO BlockDevice FatLayout Fat32 FatFacts FatChain FatLoops FatSpec FatRefine FatMount Descriptors DescriptorProps Pic Screen Cmos Paging PagingFacts PagingProps Mmu UserMemory Process ProcessFacts ProcessProps ProcessImage ProcessCreate KernelProps FatBuffer Interrupt.

(** ** Disk and ports on one bus *)

(** The ports of the ATA controller. *)
Definition disk_port (port : Z) : bool := (0x1F0 <=? port) && (port <=? 0x1F7).

(** The same sectors. *)
Definition same_disk {D} `{!BlockDevice D, !BlockDeviceSpec D} (p p' : D) : Prop :=
  dev_ok p -> dev_ok p' /\ sectors p' = sectors p /\ forall k, 0 ≤ k < sectors p -> sector p' k = sector p k.

#[export] Instance same_disk_preorder {D} `{!BlockDevice D, !BlockDeviceSpec D} : PreOrder (same_disk (D := D)).
Proof.
  split; [by intros p|]. intros a b c H1 H2 Ha. destruct (H1 Ha) as (Hb & Hn & Hs). destruct (H2 Hb) as (Hc & Hn' & Hs').
  split; [done|]. split; [congruence|]. intros k Hk. rewrite Hs' by congruence. by apply Hs.
Qed.

(** The other ports do not reach the disk. *)
Class SharedBus (D : Type) `{!BlockDevice D, !BlockDeviceSpec D, !PortIO D} := {
  bus_write (p : D) port v : disk_port port = false -> same_disk p (outb p port v);
  bus_read (p : D) port : disk_port port = false -> same_disk p (inb p port).2
}.

Section bus.
Context {D : Type} `{!BlockDevice D, !BlockDeviceSpec D, !PortIO D, !KernelHalf D, !SharedBus D}.
Implicit Types (p : D).

Lemma out_bus p port v : disk_port (u16 port) = false -> same_disk p (out p port v).
Proof using All. apply bus_write. Qed.

Lemma in_bus p port : disk_port (u16 port) = false -> same_disk p (in_ p port).2.
Proof using All. intros H. unfold in_. pose proof (bus_read p (u16 port) H) as Hs. by destruct (inb p (u16 port)). Qed.

Lemma outs_bus ws : forall p, Forall (fun w => disk_port (u16 w.1) = false) ws -> same_disk p (outs p ws).
Proof using All.
  induction ws as [|[port v] ws IH]; intros p Hw; cbn [outs]; [done|]. apply Forall_cons in Hw as [H Hw].
  etrans; [by apply out_bus|by apply IH].
Qed.

Lemma io_wait_bus p : same_disk p (io_wait p).
Proof using All. by apply out_bus. Qed.

Lemma unmask_bus p irq : same_disk p (unmask p irq).
Proof using All.
  unfold unmask. pose proof (in_bus p PIC1_DATA eq_refl) as H. destruct (in_ p PIC1_DATA) as [mask q]. cbn in H.
  etrans; [exact H|]. by apply out_bus.
Qed.

Lemma pic_remap_bus p : same_disk p (pic_remap p).
Proof using All. unfold pic_remap. repeat (etrans; [|by apply out_bus || apply io_wait_bus]). done. Qed.

Lemma timer_bus p : same_disk p (activate_timer_interrupt p).
Proof using All. unfold activate_timer_interrupt. etrans; [|apply unmask_bus]. repeat (etrans; [|by apply out_bus]). done. Qed.

Lemma cursor_bus (s : console D) r c : same_disk (ports s) (ports (framebuffer_set_cursor s r c)).
Proof using All. unfold framebuffer_set_cursor. cbn [ports set_ports]. apply outs_bus. unfold cursor_writes. by repeat constructor. Qed.

Lemma clear_ports (s : console D) : ports (framebuffer_clear s) = ports s.
Proof using Type.
  unfold framebuffer_clear. generalize (seqZ 0 SCREEN_HEIGHT). intros rows. revert s.
  induction rows as [|i rows IH]; intros s; cbn [foldl]; [done|]. rewrite IH. generalize (seqZ 0 SCREEN_WIDTH). intros cols. revert s.
  induction cols as [|j cols IHc]; intros s; cbn [foldl]; [done|]. by rewrite IHc.
Qed.

Lemma repr_bus (s : fs D) v m p : repr s v m -> same_disk (dev s) p -> repr (set_dev s p) v m.
Proof using Type.
  intros ([Hd Hn] & Hv & Hm) Hs. destruct (Hs Hd) as (Hd' & Hn' & Hk). split; [split; [done|cbn; lia]|]. split; [|done].
  rewrite <- Hv. apply vol_ext. intros c Hc. unfold cluster, in_map in *. f_equal. apply list_fmap_ext. intros i x [-> Hx]%lookup_seqZ.
  cbn [dev set_dev]. apply Hk. lia.
Qed.
End bus.

(** ** The first program *)

Lemma install_tss_ok base : exists table, Gdt.gdt_install_tss base Gdt.global_descriptor_table = Ret table.
Proof.
  unfold Gdt.gdt_install_tss. rewrite (arr_get_lookup _ _ (nth 5 Gdt.global_descriptor_table Gdt.zero_segment)), bind_ret by done.
  rewrite arr_set_in by done. by eexists.
Qed.

(** The allocation table the disk carries. *)
Definition disk_fat (v : volume) : list Z := dec_array 512 (vol_get v FAT_CLUSTER_NUMBER).

(** The root directory of the disk has a file [shell] of at most 1 MiB, with
    entry [e] and clusters [ch]. *)
Record has_shell (v : volume) (e : FAT32DirectoryEntry) (ch : list Z) : Prop := MkHasShell {
  hs_root : is_dir (table_at v ROOT_CLUSTER_NUMBER) = true;
  hs_entry : lookup_first (matches (req_name (request shell_request)) (req_ext (request shell_request)))
               (table_at v ROOT_CLUSTER_NUMBER) = Some e;
  hs_file : attribute e ≠ ATTR_SUBDIRECTORY;
  hs_size : filesize e ≤ 0x100000;
  hs_chain : chain (disk_fat v) (entry_cluster e) ch
}.

Lemma shell_frames : frames_needed shell_request = 2.
Proof. by vm_compute. Qed.

Lemma shell_request_ok w : request_ok (with_buf (request shell_request) w).
Proof.
  split; [split; [reflexivity|]..|unfold is_word; simpl; lia].
  - repeat constructor; unfold is_word; simpl; lia.
  - repeat constructor; unfold is_word; simpl; lia.
Qed.

Section boot.
Context {D : Type} `{!BlockDevice D, !BlockDeviceSpec D, !PortIO D, !KernelHalf D, !SharedBus D}.
Context (list_addr kernel_addr : Z) (Hlay : directory_layout list_addr kernel_addr).
Context (v : volume) (e : FAT32DirectoryEntry) (ch : list Z) (Hshell : has_shell v e ch).

Definition shell_image (w : list Z) : list Z := splice 0 (get_data v ch) w.

Lemma shell_data (s : fs D) m : repr s v m -> (length (get_data v ch) = 2048 * length ch)%nat /\ (length ch ≤ 512)%nat.
Proof using Hshell.
  intros Hs. pose proof (hs_chain _ _ _ Hshell) as Hc. split; [|by eapply chain_length]. apply length_get_data.
  eapply Forall_impl; [by eapply chain_in_map|]. intros c Hin. by eapply repr_block.
Qed.

Lemma shell_read (s : fs D) m w : repr s v (set_fat m (disk_fat v)) -> length w = BUFFER_WINDOW ->
  exists s', repr s' v (set_fat m (disk_fat v)) /\ read s (with_buf (request shell_request) w) = Ret (0, shell_image w, s').
Proof using Hshell.
  intros Hs Hw. destruct (shell_data s _ Hs) as [Hl Hn]. destruct Hshell as [Hroot He Hfile Hsize Hc].
  pose proof window_size as Hwin. pose proof (chain_chain_of _ _ _ Hc) as Hch.
  destruct (read_correct s v (set_fat m (disk_fat v)) (with_buf (request shell_request) w) Hs (shell_request_ok w)) as (s' & Hs' & H).
  - split; [discriminate|reflexivity].
  - intros e' He'. change (lookup_first (matches (req_name (request shell_request)) (req_ext (request shell_request)))
      (table_at v ROOT_CLUSTER_NUMBER) = Some e') in He'. rewrite He in He'. injection He' as <-.
    split; [unfold entry_backed; rewrite (proj2 (Z.eqb_neq _ _)) by done; by exists ch|].
    intros _ _. cbn [set_fat fat_table]. rewrite Hch. cbn [with_buf buf]. unfold Zlen. lia.
  - exists s'. split; [exact Hs'|]. rewrite H. unfold spec_read. cbn [set_fat fat_table].
    change (parent_cluster_number _) with ROOT_CLUSTER_NUMBER. rewrite Hroot.
    change (req_name (with_buf _ w)) with (req_name (request shell_request)).
    change (req_ext (with_buf _ w)) with (req_ext (request shell_request)). cbv zeta. rewrite He. cbn [negb].
    rewrite (proj2 (Z.eqb_neq (attribute e) _)) by done. change (buffer_size _) with 0x100000.
    rewrite (proj2 (Z.ltb_ge _ _)) by done. by rewrite Hch.
Qed.

Lemma length_shell_image (s : fs D) m w : repr s v m -> length w = BUFFER_WINDOW -> length (shell_image w) = BUFFER_WINDOW.
Proof using Hshell.
  intros Hs Hw. destruct (shell_data s m Hs) as [Hl Hn]. pose proof window_size as Hwin.
  unfold shell_image. rewrite length_splice; [exact Hw|]. lia.
Qed.

Lemma shell_image_lookup (s : fs D) m w i b : repr s v m -> length w = BUFFER_WINDOW ->
  get_data v ch !! i = Some b -> shell_image w !! i = Some b.
Proof using Hshell.
  intros Hs Hw Hb. destruct (shell_data s m Hs) as [Hl Hn]. pose proof window_size as Hwin.
  pose proof (lookup_lt_Some _ _ _ Hb) as Hi. unfold shell_image. rewrite lookup_splice by lia. rewrite decide_True by lia.
  rewrite <- Hb. f_equal. lia.
Qed.

(** The first process has two pages of its own, and the driver the mounted
    disk. *)
Record user_space (k : kernel D) (m : driver) : Prop := MkUserSpace {
  us_frames : frames_ok (pages k);
  us_mapped : pages_mapped (pages k) 0 2;
  us_free : free_count (pages k) = 29;
  us_used : page_directory_used (pages k) = <[0%nat := true]> (replicate 32 false);
  us_disk : repr (files k) v (set_fat m (disk_fat v))
}.

(** The kernel at start-up can create the first process. *)
Lemma create_shell (k : kernel D) c m :
  procs k = procs_init -> pages k = paging_init c -> 0 < c < 2 ^ 30 -> repr (files k) v (set_fat m (disk_fat v)) ->
  exists vs k', process_create_user_process list_addr kernel_addr k shell_request = Ret (PROCESS_CREATE_SUCCESS, k') /\
    procs k' = with_process procs_init 0 (new_process list_addr 1 shell_request 0 vs) /\
    cr3 (pages k') = c /\ user_space k' m /\ (ram_ok (umem k) -> ram_ok (umem k')) /\
    exists dir, page_directory_list (pages k') !! 0%nat = Some dir /\
      forall i b, 0 ≤ i -> get_data v ch !! Z.to_nat i = Some b -> load dir (umem k') i = Ret b.
Proof using Hlay Hshell.
  intros Hp Hg Hc Hs.
  assert (Hcr : creatable k shell_request).
  { split; rewrite ?Hp, ?Hg; [apply procs_init_wf|apply init_ok|done|done|rewrite shell_frames; lia|done|]. apply Nat.ltb_lt. reflexivity. }
  assert (Hld : loadable k shell_request shell_image).
  { split; [rewrite Hg, shell_frames; by vm_compute|apply Z.le_refl| |apply Nat.leb_le; reflexivity|].
    - rewrite Hg, shell_frames. by vm_compute.
    - intros w Hw. split; [by eapply length_shell_image|]. destruct (shell_read (files k) m w Hs Hw) as (f & _ & Hf). by exists f. }
  destruct (create_prefix list_addr kernel_addr Hlay k shell_request (creatable_admitted k _ Hcr)) as (Hi & p & pg & vs & Hpi & Hst & Hpr & Hrun).
  replace (new_slot_index (procs k)) with 0 in * by (rewrite Hp; reflexivity).
  replace (new_dir_index (pages k)) with 0%nat in * by (rewrite Hg; reflexivity).
  destruct (load_success list_addr kernel_addr Hlay k shell_request 0 0 p pg vs shell_image Hi Hpi Hst (cr_table _ _ Hcr) Hpr)
    as (n & k' & (Hn & Hfree & Hmin) & Hload & Hpg & Hprocs & w & Hw & Hrd & Hil & Hram); [lia|rewrite shell_frames; lia|exact Hld|].
  assert (n = 1) as ->.
  { destruct (decide (n = 1)); [done|]. destruct (Hmin 1); [lia|]. rewrite Hp. by apply Forall_replicate. }
  exists vs, k'. split; [by rewrite Hrun|]. split; [by rewrite Hprocs, Hp|]. split.
  { rewrite Hpg. unfold back_to. rewrite cr3_restored; rewrite (pr_cr3 _ _ _ _ _ Hpr), Hg; done. }
  split.
  { split.
    - rewrite Hpg. unfold back_to. apply use_directory_ok, use_directory_ok, (pr_ok _ _ _ _ _ Hpr).
    - rewrite Hpg. intros q Hq. apply (pr_maps _ _ _ _ _ Hpr). rewrite shell_frames, Hg. by vm_compute in Hq |- *.
    - rewrite Hpg. change (free_count (back_to list_addr pg 0)) with (free_count pg). rewrite (pr_count _ _ _ _ _ Hpr), shell_frames, Hg. reflexivity.
    - rewrite Hpg. change (page_directory_used (back_to list_addr pg 0)) with (page_directory_used pg). rewrite (pr_used _ _ _ _ _ Hpr), Hg. reflexivity.
    - destruct (shell_read (files k) m w Hs Hw) as (f & Hf & Hrd'). rewrite Hrd in Hrd'. by injection Hrd' as ->. }
  split.
  { intros Hm. apply Hram; [exact Hm|]. intros Hbw. destruct (shell_data (files k) _ Hs) as [_ _].
    unfold shell_image. apply bytes_splice; [|exact Hbw]. apply (get_data_blocks v); [intros x Hx; by eapply repr_block|].
    eapply chain_in_map, (hs_chain _ _ _ Hshell). }
  destruct Hil as [(dir & Hdir & Hb & _) _]. exists dir. split; [done|]. intros i b Hi0 Hib. apply Hb; [done|].
  by eapply shell_image_lookup.
Qed.

Lemma setup_spec (m : machine D) m0 c stubs tss_addr ebp :
  procs (kern m) = procs_init -> pages (kern m) = paging_init c -> 0 < c < 2 ^ 30 ->
  gdt m = Gdt.global_descriptor_table -> idt m = Idt.interrupt_descriptor_table -> length stubs = 64%nat ->
  repr (files (kern m)) v m0 -> formatted v ->
  exists p m', kernel_setup list_addr kernel_addr stubs tss_addr ebp m =
      Ret (SwitchTo (initial_context (directory_addr list_addr 0)), m') /\
    running_process_idx (procs (kern m')) = 0 /\ active_process_count (procs (kern m')) = 1 /\
    pcb_at (procs (kern m')) 0 = Some p /\ pid p = 1 /\ state p = RUNNING /\
    (forall j, 1 ≤ j < 16 -> pcb_at (procs (kern m')) j = Some zero_pcb) /\
    cr3 (pages (kern m')) = directory_addr list_addr 0 - KERNEL_VIRTUAL_ADDRESS_BASE /\
    (exists dir, page_directory_list (pages (kern m')) !! 0%nat = Some dir /\
       forall i b, 0 ≤ i -> get_data v ch !! Z.to_nat i = Some b -> load dir (umem (kern m')) i = Ret b) /\
    Idt.initialize_idt stubs Idt.interrupt_descriptor_table = Ret (idt m') /\
    Gdt.gdt_install_tss tss_addr Gdt.global_descriptor_table = Ret (gdt m') /\
    esp0 (tss m') = u32 (ebp + 8) /\ user_space (kern m') m0 /\ (ram_ok (umem (kern m)) -> ram_ok (umem (kern m'))).
Proof using All.
  intros Hp Hg Hc Hgdt Hidt Hstubs Hs Hfm. unfold kernel_setup.
  set (m1 := set_ports_of m _). destruct (initialize_idt_lookup stubs Hstubs) as (it & Hit & _).
  assert (Hs1 : repr (files (kern m1)) v m0) by (apply repr_bus; [exact Hs|apply pic_remap_bus]).
  replace (idt m1) with Idt.interrupt_descriptor_table by (by rewrite <- Hidt). rewrite Hit, bind_ret.
  set (m2 := set_tables m1 _ _ _). set (m3 := set_ports_of m2 _).
  assert (Hs3 : repr (files (kern m3)) v m0) by (apply repr_bus; [exact Hs1|apply unmask_bus]).
  set (m4 := set_screen m3 _).
  assert (Hs4 : repr (files (kern m4)) v m0).
  { apply repr_bus; [exact Hs3|]. etrans; [|apply cursor_bus]. rewrite clear_ports. done. }
  destruct (initialize_loads (files (kern m4)) v m0 Hs4 Hfm) as (s5 & -> & Hs5). rewrite bind_ret.
  replace (gdt (set_files m4 s5)) with Gdt.global_descriptor_table by (by rewrite <- Hgdt).
  destruct (install_tss_ok tss_addr) as (gt & Hgt). rewrite Hgt, bind_ret. set (m6 := set_tables _ gt _ _).
  destruct (create_shell (kern m6) c m0 Hp Hg Hc Hs5) as (vs & k & -> & Hprocs & Hcr3 & Hus & Hram & Hdir). rewrite bind_ret.
  set (m7 := set_ports_of (set_kern m6 k) _).
  assert (Hl : length (process_list (procs k)) = 16%nat) by (rewrite Hprocs; reflexivity).
  destruct (switch_spec (procs k) (pages k) Hl) as [(j & p & [Hj _] & Hpj & Hsw)|(Hnone & _)]; [rewrite Hprocs; cbn; lia| |].
  2: { exfalso. assert (Hr : ready_at (procs k) 0) by (split; [by unfold slot|]; eexists; rewrite Hprocs; by split).
       apply Hnone in Hr. rewrite Hprocs in Hr. discriminate. }
  assert (j = 0) as ->.
  { destruct Hj as [Hjs (q & Hq & Hst)]. rewrite Hprocs in Hq. unfold pcb_at, slot in *. cbn in Hq.
    destruct (decide (j = 0)) as [|Hne]; [done|]. replace (Z.to_nat j) with (S (Z.to_nat (j - 1))) in Hq by lia.
    cbn in Hq. apply (lookup_replicate_1 15) in Hq as [-> _]. discriminate. }
  assert (Hp0 : p = new_process list_addr 1 shell_request 0 vs) by (rewrite Hprocs in Hpj; by injection Hpj as <-).
  change (procs (kern m7)) with (procs k). change (pages (kern m7)) with (pages k). rewrite Hsw, bind_ret.
  exists (set_state p RUNNING). eexists. rewrite Hp0. split; [reflexivity|].
  split; [done|]. split; [cbn; by rewrite Hprocs|]. split; [unfold pcb_at; cbn; rewrite Hprocs; reflexivity|].
  split; [done|]. split; [done|]. split.
  { intros i Hi. unfold pcb_at. cbn. rewrite Hprocs. replace (Z.to_nat i) with (S (Z.to_nat (i - 1))) by lia. cbn.
    apply (lookup_replicate_2 15). lia. }
  split.
  { change (cr3 (paging_use_page_directory (pages k) (directory_addr list_addr 0)) = directory_addr list_addr 0 - KERNEL_VIRTUAL_ADDRESS_BASE).
    destruct Hlay as [Hhigh _ _]. unfold paging_use_page_directory. rewrite (proj2 (Z.ltb_lt _ (directory_addr list_addr 0))); [done|].
    unfold directory_addr. lia. }
  split; [exact Hdir|]. split; [done|]. split; [done|]. split; [done|]. destruct Hus as [Hu1 Hu2 Hu3 Hu4 Hu5].
  split; [|exact Hram]. split; [by apply use_directory_ok|exact Hu2|exact Hu3|exact Hu4|]. apply repr_bus; [exact Hu5|apply timer_bus].
Qed.

(** C2: Start-up on a formatted disk that holds a program [shell]: whatever is in
    memory, [kernel_setup] ends by entering user mode at address 0 of the
    first page directory, with the stack below 4 MiB; process 1 is the only
    process and is running, its address space holds the file from address 0
    on, the interrupt gates and the TSS descriptor are installed, and system
    calls will enter the kernel on the stack of the call. *)
Theorem kernel_boots (m : machine D) m0 c stubs tss_addr ebp :
  procs (kern m) = procs_init -> pages (kern m) = paging_init c -> 0 < c < 2 ^ 30 ->
  gdt m = Gdt.global_descriptor_table -> idt m = Idt.interrupt_descriptor_table -> length stubs = 64%nat ->
  repr (files (kern m)) v m0 -> formatted v ->
  exists p m', kernel_setup list_addr kernel_addr stubs tss_addr ebp m =
      Ret (SwitchTo (initial_context (directory_addr list_addr 0)), m') /\
    running_process_idx (procs (kern m')) = 0 /\ active_process_count (procs (kern m')) = 1 /\
    pcb_at (procs (kern m')) 0 = Some p /\ pid p = 1 /\ state p = RUNNING /\
    (forall j, 1 ≤ j < 16 -> pcb_at (procs (kern m')) j = Some zero_pcb) /\
    cr3 (pages (kern m')) = directory_addr list_addr 0 - KERNEL_VIRTUAL_ADDRESS_BASE /\
    (exists dir, page_directory_list (pages (kern m')) !! 0%nat = Some dir /\
       forall i b, 0 ≤ i -> get_data v ch !! Z.to_nat i = Some b -> load dir (umem (kern m')) i = Ret b) /\
    Idt.initialize_idt stubs Idt.interrupt_descriptor_table = Ret (idt m') /\
    Gdt.gdt_install_tss tss_addr Gdt.global_descriptor_table = Ret (gdt m') /\
    esp0 (tss m') = u32 (ebp + 8).
Proof using All.
  intros Hp Hg Hc Hgdt Hidt Hstubs Hs Hf. destruct (setup_spec m m0 c stubs tss_addr ebp Hp Hg Hc Hgdt Hidt Hstubs Hs Hf)
    as (p & m' & H1 & H2 & H3 & H4 & H5 & H6 & H7 & H8 & H9 & H10 & H11 & H12 & _). by exists p, m'.
Qed.
End boot.
