(* ===== verification/KeyProps.v ===== *)
(** * From the keyboard to a process

    The keyboard interrupt and the system call that fetches the key, together:
    what is typed arrives in the caller's memory, once. *)
From S2P Require Import Prelude CString PortIO BlockDevice FatLayout Fat32 Descriptors Pic Screen Cmos Paging PagingFacts Mmu Process Interrupt InterruptFacts.

Section key.
Context {D : Type} `{!BlockDevice D} `{!PortIO D} `{!KernelHalf D}.
Context (list_addr kernel_addr : Z) (polls rounds : nat).
Implicit Types (m : machine D).

Abbreviation handle := (main_interrupt_handler list_addr kernel_addr polls rounds (D := D)).

(** What the terminal does on the screen leaves the input alone. *)
Lemma putchar_input (s : console D) c color : keyboard_input (putchar s c color) = keyboard_input s /\
  keyboard_input_on (putchar s c color) = keyboard_input_on s.
Proof using Type. unfold putchar. destruct (c =? 10); [done|]. by destruct (negb (c =? 0)). Qed.

Lemma keyboard_key_input (s : console D) a : keyboard_input (keyboard_key s a) = a.
Proof using Type.
  unfold keyboard_key. rewrite (proj1 (putchar_input _ _ _)). destruct (a =? 10).
  { cbn [keyboard_state_deactivate set_input keyboard_input]. by rewrite (proj1 (putchar_input _ _ _)). }
  destruct (a =? 8); [unfold backspace; by destruct (0 <? l _)|]. destruct (a =? 9); [done|].
  destruct (negb (a =? 0) && _); [|done]. cbn [keyboard_input set_position]. by rewrite (proj1 (putchar_input _ _ _)).
Qed.

Definition keyboard_frame (f : InterruptFrame) : Prop := int_number f = IRQ_KEYBOARD + PIC1_OFFSET.

(** System call 4 with the destination [va]. *)
Definition fetch_key_frame (f : InterruptFrame) (va : Z) : Prop :=
  int_number f = 0x30 /\ eax (frame_cpu f) = 4 /\ ebx (frame_cpu f) = va.

Lemma fetch_key m f va dir : fetch_key_frame f va -> current_directory list_addr kernel_addr m = Ret dir ->
  va < KERNEL_VIRTUAL_ADDRESS_BASE -> mapped dir va ->
  exists p m', translate dir va = Some p /\ handle m f = Ret (Back Resume, m') /\
    umem (kern m') = put (umem (kern m)) p (u8 (keyboard_input (term m))) /\ keyboard_input (term m') = 0 /\
    current_directory list_addr kernel_addr m' = Ret dir.
Proof using Type.
  intros (Hv & Ha & Hb) Hcur Hva Hm. unfold main_interrupt_handler. rewrite Hv.
  change (0x30 =? PAGE_FAULT) with false. change (0x30 =? IRQ_KEYBOARD + PIC1_OFFSET) with false.
  change (0x30 =? IRQ_TIMER + PIC1_OFFSET) with false. change (0x30 =? 0x30) with true. cbv iota.
  unfold interrupt. rewrite Ha, Hb. cbn [Z.eqb Pos.eqb]. cbv iota. unfold get_keyboard_buffer.
  destruct (store_mapped dir (umem (kern m)) va (u8 (keyboard_input (term m))) Hm) as (p & Hp & Hst).
  exists p. eexists. split; [exact Hp|]. unfold put_user. rewrite (proj2 (Z.ltb_lt _ _)) by done.
  change (current_directory _ _ (set_screen m _)) with (current_directory list_addr kernel_addr m). rewrite Hcur, bind_ret.
  change (umem (kern (set_screen m _))) with (umem (kern m)).
  change (keyboard_input (screen m)) with (keyboard_input (term m)). rewrite Hst. split; [reflexivity|]. by repeat split.
Qed.

(** C30: A key pressed while a process reads the keyboard: after the interrupt the
    next fetch stores the character of the key's scan code at the address the
    process passes, and a second fetch stores 0, so no key is delivered
    twice; nothing else in memory changes. *)
Theorem key_reaches_process m f g va dir scancode p ch :
  keyboard_frame f -> fetch_key_frame g va -> keyboard_input_on (term m) = true ->
  in_ (dev (files (kern m))) KEYBOARD_DATA_PORT = (scancode, p) -> Z.land scancode 0x80 = 0 -> is_byte scancode ->
  keyboard_scancode_1_to_ascii_map !! Z.to_nat scancode = Some ch ->
  current_directory list_addr kernel_addr m = Ret dir -> va < KERNEL_VIRTUAL_ADDRESS_BASE -> mapped dir va ->
  exists m1 m2 m3 q, handle m f = Ret (Back Resume, m1) /\ handle m1 g = Ret (Back Resume, m2) /\
    handle m2 g = Ret (Back Resume, m3) /\ translate dir va = Some q /\
    umem (kern m2) = put (umem (kern m)) q (u8 ch) /\ umem (kern m3) = put (umem (kern m2)) q 0.
Proof using Type.
  intros Hf Hg Hon Hin Hmake Hbyte Hch Hcur Hva Hm.
  assert (Hkey : exists m1, handle m f = Ret (Back Resume, m1) /\ keyboard_input (term m1) = ch /\ umem (kern m1) = umem (kern m) /\
    current_directory list_addr kernel_addr m1 = current_directory list_addr kernel_addr m).
  { unfold main_interrupt_handler. rewrite Hf. change (IRQ_KEYBOARD + PIC1_OFFSET =? PAGE_FAULT) with false. rewrite Z.eqb_refl. cbv iota.
    unfold keyboard_isr. change (ports (screen m)) with (dev (files (kern m))). rewrite Hin, Hmake. change (negb (0 =? 0)) with false. cbv iota.
    change (keyboard_input_on (set_ports (screen m) p)) with (keyboard_input_on (term m)). rewrite Hon.
    rewrite (arr_get_lookup _ _ ch), bind_ret, bind_ret, bind_ret by (apply Hbyte || done). eexists. split; [reflexivity|].
    split; [apply keyboard_key_input|done]. }
  destruct Hkey as (m1 & H1 & Hi1 & Hu1 & Hc1). rewrite <- Hc1 in Hcur.
  destruct (fetch_key m1 g va dir Hg Hcur Hva Hm) as (q & m2 & Hq & H2 & Hu2 & Hi2 & Hc2).
  destruct (fetch_key m2 g va dir Hg Hc2 Hva Hm) as (q' & m3 & Hq' & H3 & Hu3 & _).
  rewrite Hq in Hq'. injection Hq' as <-. exists m1, m2, m3, q. split; [done|]. split; [done|]. split; [done|]. split; [done|].
  split; [by rewrite Hu2, Hi1, Hu1|]. rewrite Hu3, Hi2. done.
Qed.
End key.
