(* ===== verification/MachineWitness.v ===== *)
(** * Concrete machines

    A board with the disk image of the inserter, a keyboard and a log of what
    is written to the ports, and runs of the kernel on it. *)
From stdpp Require Import relations.
From S2P Require Import Prelude CString PortIO BlockDevice FatLayout Fat32 FatFacts FatChain FatLoops FatSpec FatRefine FatWrite FatMount FatContract FatProps FatWitness.
From S2P Require Import Descriptors Pic Screen Cmos Paging PagingFacts PagingProps Mmu Process ProcessFacts ProcessProps ProcessCreate KernelProps KernelWitness.
From S2P Require Import Interrupt InterruptFacts InterruptProps Preemption KernelBoot KeyProps.

Record board := MkBoard {
  disk : Inserter.image;
  log : PortLog.log;
  keys : list Z
}.

#[export] Instance board_ports : PortIO board := {
  inb b port := if port =? KEYBOARD_DATA_PORT then (default 0 (head (keys b)), MkBoard (disk b) (log b) (tail (keys b)))
                else (PortLog.last_written (log b) port 0, b);
  outb b port v := MkBoard (disk b) (log b ++ [(port, v)]) (keys b);
  inw b port := (PortLog.last_written (log b) port 0, b);
  outw b port v := MkBoard (disk b) (log b ++ [(port, v)]) (keys b)
}.

(** No call of the runs below leaves the user half. *)
#[export] Instance board_kernel_half : KernelHalf board := {
  kernel_load _ _ := Ub;
  kernel_store _ _ _ := Ub;
  kernel_buffer _ _ := Ub
}.

#[export] Instance board_device : BlockDevice board := {
  read_blocks b lba n := '(bs, img) ← read_blocks (disk b) lba n; Ret (bs, MkBoard img (log b) (keys b));
  write_blocks b bs lba n := img ← write_blocks (disk b) bs lba n; Ret (MkBoard img (log b) (keys b))
}.

#[export, program] Instance board_spec : BlockDeviceSpec board := {
  sector b := sector (disk b);
  sectors b := sectors (disk b);
  dev_ok b := dev_ok (disk b)
}.
Next Obligation. intros b k H1 H2. by apply sector_ok. Qed.
Next Obligation.
  intros b lba n H1 H2 H3 H4. destruct (read_blocks_spec (disk b) lba n H1 H2 H3 H4) as (img & H & Hrest).
  exists (MkBoard img (log b) (keys b)). split; [|exact Hrest]. unfold read_blocks at 1, board_device. by rewrite H.
Qed.
Next Obligation.
  intros b bs lba n H1 H2 H3 H4 H5 H6. destruct (write_blocks_spec (disk b) bs lba n H1 H2 H3 H4 H5 H6) as (img & H & Hrest).
  exists (MkBoard img (log b) (keys b)). split; [|exact Hrest]. unfold write_blocks at 1, board_device. by rewrite H.
Qed.

#[export] Instance board_bus : SharedBus board.
Proof.
  split.
  - intros b port v _ Hok. by split_and!.
  - intros b port _ Hok. unfold inb, board_ports. destruct (port =? KEYBOARD_DATA_PORT); by split_and!.
Qed.

Lemma board_repr (s : fs Inserter.image) v m lg ks : repr s v m -> repr (MkFs (MkBoard (dev s) lg ks) (drv s)) v m.
Proof. intros ([Hd Hn] & Hv & Hm). split; [by split|]. split; [exact Hv|exact Hm]. Qed.

Definition demo_term : console unit := MkConsole true 0 0 0 0 ∅ tt.

Definition demo_machine (k : kernel board) : machine board :=
  MkMachine k demo_term CString.itoa_buf0 Gdt.global_descriptor_table Idt.interrupt_descriptor_table tss_init.

Definition demo_fs (ks : list Z) : fs board := MkFs (MkBoard (Inserter.blank 4) [] ks) demo_memory.

(** ** A process reading the keyboard *)
Definition demo_frame (number a b : Z) : InterruptFrame :=
  MkFrame (MkCpu 0 0 0 0 b 0 0 a 0 0 0 0) number (MkStack 0 0 0 0).

Definition demo_reader : machine board :=
  demo_machine (MkKernel demo_table (set_cr3 demo_spaces (directory_addr demo_list 0 - KERNEL_VIRTUAL_ADDRESS_BASE))
    (fun _ => 0) (demo_fs [0x1E])).

Lemma demo_reader_directory : current_directory demo_list demo_kernel demo_reader = Ret (demo_dir 0).
Proof. by vm_compute. Qed.

Lemma demo_mapped5 : mapped (demo_dir 0) 5.
Proof. split; [unfold is_word; lia|]. by vm_compute. Qed.

Lemma key_reaches_process_witness :
  exists m1 m2, main_interrupt_handler demo_list demo_kernel 1 1 demo_reader (demo_frame 0x21 0 0) = Ret (Back Resume, m1) /\
    main_interrupt_handler demo_list demo_kernel 1 1 m1 (demo_frame 0x30 4 5) = Ret (Back Resume, m2) /\
    load (demo_dir 0) (umem (kern m2)) 5 = Ret 97.
Proof.
  destruct (key_reaches_process demo_list demo_kernel 1 1 demo_reader (demo_frame 0x21 0 0) (demo_frame 0x30 4 5) 5 (demo_dir 0) 0x1E
    (MkBoard (Inserter.blank 4) [] []) 97) as (m1 & m2 & m3 & q & H1 & H2 & _ & Hq & Hu & _).
  - reflexivity.
  - by repeat split.
  - reflexivity.
  - reflexivity.
  - reflexivity.
  - split; [discriminate|reflexivity].
  - reflexivity.
  - exact demo_reader_directory.
  - reflexivity.
  - exact demo_mapped5.
  - exists m1, m2. split; [exact H1|]. split; [exact H2|]. unfold load. rewrite wrap_small by (unfold is_word; lia).
    rewrite Hq, Hu. unfold put. by rewrite Z.eqb_refl.
Defined.

Lemma demo_frame_ok n : frame_ok (demo_frame n 4 5).
Proof. repeat split; unfold is_word; simpl; lia. Qed.

Lemma demo_pointers : user_pointers demo_list demo_kernel demo_reader (demo_frame 0x30 4 5).
Proof.
  unfold user_pointers. cbn [eax ebx ecx frame_cpu demo_frame]. rewrite !elem_of_cons, elem_of_nil.
  unfold KERNEL_VIRTUAL_ADDRESS_BASE. split; [lia|]. split; [lia|]. split; lia.
Qed.

Lemma system_calls_isolated_witness :
  exists m', interrupt demo_list demo_kernel 1 1 demo_reader (demo_frame 0x30 4 5) = Ret (Resume, m') /\
    load (demo_dir 1) (umem (kern m')) 5 = Ret 0.
Proof.
  destruct (fetch_key demo_list demo_kernel 1 1 demo_reader (demo_frame 0x30 4 5) 5 (demo_dir 0)) as (p & m' & _ & H & _);
    [by repeat split|exact demo_reader_directory|reflexivity|exact demo_mapped5|].
  unfold main_interrupt_handler in H. cbn [int_number demo_frame] in H.
  change (0x30 =? PAGE_FAULT) with false in H. change (0x30 =? IRQ_KEYBOARD + PIC1_OFFSET) with false in H.
  change (0x30 =? IRQ_TIMER + PIC1_OFFSET) with false in H. change (0x30 =? 0x30) with true in H. cbv iota in H.
  apply bind_Ret_inv in H as ([o m1] & H & Heq). injection Heq as <- <-. exists m1. split; [exact H|].
  rewrite (system_calls_isolated demo_list demo_kernel 1 1 demo_reader (demo_frame 0x30 4 5) o m1 0 1 (demo_dir 0) (demo_dir 1) 5).
  - by vm_compute.
  - apply demo_frame_ok.
  - destruct demo_spaces_ok as []. split; assumption.
  - by vm_compute.
  - exact demo_reader_directory.
  - exact demo_pointers.
  - discriminate.
  - exact H.
  - discriminate.
  - by vm_compute.
  - unfold KERNEL_VIRTUAL_ADDRESS_BASE. lia.
Defined.

(** ** Three processes and the timer *)
Definition demo_timer : InterruptFrame := demo_frame 0x20 0 0.

Definition demo_running : machine board :=
  demo_machine (MkKernel demo_table (paging_init 0x100000) (fun _ => 0) (demo_fs [])).

Lemma preempted_process_returns_witness :
  exists o m0 k g m1 m2, main_interrupt_handler demo_list demo_kernel 1 1 demo_running demo_timer = Ret (Back o, m0) /\
    running_process_idx (procs (kern m0)) ≠ 0 /\
    main_interrupt_handler demo_list demo_kernel 1 1 m1 g = Ret (Back (SwitchTo (frame_context demo_running demo_timer)), m2) /\
    handle_all demo_list demo_kernel 1 1 (take k (replicate 16 demo_timer)) m0 = Ret m1.
Proof.
  destruct (preempted_process_returns demo_list demo_kernel 1 1 demo_running 0 (demo_pcb 1 RUNNING) demo_timer (replicate 16 demo_timer))
    as (o & m0 & H0 & Hne & k & g & m1 & m2 & _ & H1 & _ & H2 & _).
  - exact demo_table_wf.
  - reflexivity.
  - exact demo_slot0.
  - reflexivity.
  - exists 2. split; [exact demo_ready2|discriminate].
  - reflexivity.
  - by apply Forall_replicate.
  - rewrite length_replicate. lia.
  - exists o, m0, k, g, m1, m2. split; [exact H0|]. split; [exact Hne|]. split; [exact H2|exact H1].
Defined.

(** ** Start-up from a disk with a shell on it *)
Definition demo_shell_file : FAT32DriverRequest :=
  MkRequest demo_data (bytes_of_string "shell" ++ [0; 0; 0]) (replicate 3 0) ROOT_CLUSTER_NUMBER 2000.

Lemma demo_shell_write : spec_write demo_vol demo_drv demo_shell_file = (0, spec_write_file demo_vol demo_drv demo_shell_file).
Proof. unfold spec_write. change (parent_cluster_number demo_shell_file) with ROOT_CLUSTER_NUMBER. rewrite demo_root_table. by vm_compute. Qed.

Definition shell_vol : volume := (spec_write_file demo_vol demo_drv demo_shell_file).1.
Definition shell_drv : driver := (spec_write_file demo_vol demo_drv demo_shell_file).2.

Lemma demo_shell_args : write_args_ok demo_drv demo_shell_file.
Proof.
  split; [split; (split; [reflexivity|apply bytes_dec; reflexivity]) || (unfold is_word; simpl; lia)|done
         |by vm_compute|by apply Forall_replicate|].
  intros _. by vm_compute.
Qed.

Lemma shell_repr : exists s : fs Inserter.image, repr s shell_vol shell_drv.
Proof.
  destruct demo_repr as (s & _ & Hs).
  destruct (write_correct s demo_vol demo_drv demo_shell_file Hs demo_mounted demo_shell_args ltac:(done)) as (s' & _ & Hs').
  rewrite demo_shell_write in Hs'. by exists s'.
Qed.

Definition shell_entry : FAT32DirectoryEntry := new_entry empty_entry (req_name demo_shell_file) (req_ext demo_shell_file) 0 3 2000.

Lemma shell_formatted : formatted shell_vol.
Proof. unfold formatted. by vm_compute. Qed.

Lemma shell_on_disk : has_shell shell_vol shell_entry [3].
Proof.
  split.
  - by vm_compute.
  - by vm_compute.
  - discriminate.
  - discriminate.
  - constructor; by vm_compute.
Qed.

Definition demo_stub_table : list Z := replicate 64 0xC0101000.

Lemma kernel_boots_witness :
  exists m m', kernel_setup demo_list demo_kernel demo_stub_table 0xC0104000 0xC0300000 m =
      Ret (SwitchTo (initial_context (directory_addr demo_list 0)), m') /\
    exists dir, page_directory_list (pages (kern m')) !! 0%nat = Some dir /\ load dir (umem (kern m')) 1999 = Ret 65.
Proof.
  destruct shell_repr as (s & Hs). apply (board_repr _ _ _ [] []) in Hs.
  set (m := demo_machine (MkKernel procs_init (paging_init 0x100000) (fun _ => 0) (MkFs (MkBoard (dev s) [] []) (drv s)))).
  destruct (kernel_boots demo_list demo_kernel demo_layout shell_vol shell_entry [3] shell_on_disk m shell_drv 0x100000
    demo_stub_table 0xC0104000 0xC0300000) as (p & m' & H & _ & _ & _ & _ & _ & _ & _ & (dir & Hdir & Hmem) & _).
  - reflexivity.
  - reflexivity.
  - lia.
  - reflexivity.
  - reflexivity.
  - reflexivity.
  - exact Hs.
  - exact shell_formatted.
  - exists m, m'. split; [exact H|]. exists dir. split; [exact Hdir|]. apply Hmem; [lia|]. by vm_compute.
Defined.

(** After start-up the shell stores a byte at address 5 of its memory. *)
Lemma machine_invariant_witness :
  exists m o m' m'', kernel_setup demo_list demo_kernel demo_stub_table 0xC0104000 0xC0300000 m = Ret (o, m') /\
    rtc (machine_step demo_list demo_kernel 1 1) m' m'' /\ table_wf (procs (kern m'')) /\ frames_ok (pages (kern m'')).
Proof.
  destruct shell_repr as (s & Hs). apply (board_repr _ _ _ [] []) in Hs.
  set (m := demo_machine (MkKernel procs_init (paging_init 0x100000) (fun _ => 0) (MkFs (MkBoard (dev s) [] []) (drv s)))).
  destruct (setup_spec demo_list demo_kernel demo_layout shell_vol shell_entry [3] shell_on_disk m shell_drv 0x100000
    demo_stub_table 0xC0104000 0xC0300000) as (p & m' & H & _ & _ & _ & _ & _ & _ & Hcr3 & (dir & Hdir & Hmem) & _);
    [reflexivity|reflexivity|lia|reflexivity|reflexivity|reflexivity|exact Hs|exact shell_formatted|].
  assert (H5 : load dir (umem (kern m')) 5 = Ret 65) by (apply Hmem; [lia|by vm_compute]).
  assert (Hcur : current_directory demo_list demo_kernel m' = Ret dir).
  { unfold current_directory, paging_get_current_page_directory_addr. rewrite Hcr3.
    unfold get_directory. change (directory_at _ _ _) with (Ret (Some 0%nat) : res (option nat)). rewrite bind_ret, Hdir. reflexivity. }
  assert (Hst : exists mem, store dir (umem (kern m')) 5 9 = Ret mem).
  { unfold load, store in *. destruct (translate dir (u32 5)); [by eexists|discriminate H5]. }
  destruct Hst as (mem & Hst).
  assert (Hstep : rtc (machine_step demo_list demo_kernel 1 1) m' (set_umem m' mem)).
  { apply rtc_once. eapply ms_store; [|exact Hcur|exact Hst]. unfold KERNEL_VIRTUAL_ADDRESS_BASE. lia. }
  exists m, (SwitchTo (initial_context (directory_addr demo_list 0))), m', (set_umem m' mem). split; [exact H|]. split; [exact Hstep|].
  exact (machine_invariant demo_list demo_kernel demo_layout 1 1 demo_stub_table 0xC0104000 0xC0300000 0x100000 m _ m' _ eq_refl eq_refl H Hstep).
Defined.

(** A store of the shell to its byte 5 leaves its byte 6 alone. *)
Lemma memory_isolation_witness :
  exists m o m' dir mem, kernel_setup demo_list demo_kernel demo_stub_table 0xC0104000 0xC0300000 m = Ret (o, m') /\
    page_directory_list (pages (kern m')) !! 0%nat = Some dir /\ store dir (umem (kern m')) 5 9 = Ret mem /\
    load dir mem 6 = Ret 65.
Proof.
  destruct shell_repr as (s & Hs). apply (board_repr _ _ _ [] []) in Hs.
  set (m := demo_machine (MkKernel procs_init (paging_init 0x100000) (fun _ => 0) (MkFs (MkBoard (dev s) [] []) (drv s)))).
  destruct (setup_spec demo_list demo_kernel demo_layout shell_vol shell_entry [3] shell_on_disk m shell_drv 0x100000
    demo_stub_table 0xC0104000 0xC0300000) as (p & m' & H & _ & _ & _ & _ & _ & _ & _ & (dir & Hdir & Hmem) & _);
    [reflexivity|reflexivity|lia|reflexivity|reflexivity|reflexivity|exact Hs|exact shell_formatted|].
  assert (H5 : load dir (umem (kern m')) 5 = Ret 65) by (apply Hmem; [lia|by vm_compute]).
  assert (H6 : load dir (umem (kern m')) 6 = Ret 65) by (apply Hmem; [lia|by vm_compute]).
  assert (Hst : exists mem, store dir (umem (kern m')) 5 9 = Ret mem).
  { unfold load, store in *. destruct (translate dir (u32 5)); [by eexists|discriminate H5]. }
  destruct Hst as (mem & Hst).
  exists m, (SwitchTo (initial_context (directory_addr demo_list 0))), m', dir, mem. split; [exact H|]. split; [exact Hdir|]. split; [exact Hst|].
  rewrite <- H6. apply (memory_isolation demo_list demo_kernel demo_layout 1 1 demo_stub_table 0xC0104000 0xC0300000 0x100000 m
    (SwitchTo (initial_context (directory_addr demo_list 0))) m' m' 0 0 dir dir mem 5 6 9).
  - reflexivity.
  - reflexivity.
  - exact H.
  - apply rtc_refl.
  - exact Hdir.
  - exact Hdir.
  - unfold KERNEL_VIRTUAL_ADDRESS_BASE. lia.
  - unfold KERNEL_VIRTUAL_ADDRESS_BASE. lia.
  - intros [_ H56]. discriminate H56.
  - exact Hst.
Defined.
