(* ===== verification/ShellBase.v ===== *)
(** * The shell: its state and the system calls it makes

    [SysCalls] is the kernel as the user programs see it, one operation for
    each system call they make; the buffers they pass are objects of their own
    memory, so an operation takes and returns their contents.  [shell] holds
    the global variables of user-shell.c and cd.c. *)
From S2P Require Import Prelude CString BlockDevice FatLayout Fat32.

Definition LIGHT_GREY : Z := 7.
Definition DARK_GREY : Z := 8.
Definition LIGHT_BLUE : Z := 9.
Definition LIGHT_GREEN : Z := 10.
Definition LIGHT_RED : Z := 12.
Definition WHITE : Z := 15.

(** The numbers are those of [interrupt] in interrupt.c; [sys_puts] takes the
    [len] characters it prints, [sys_key] returns the byte stored. *)
Class SysCalls (K : Type) := {
  sys_read : K -> FAT32DriverRequest -> res (Z * list Z * K);            (* 0 *)
  sys_read_directory : K -> FAT32DriverRequest -> res (Z * list Z * K);  (* 1 *)
  sys_write : K -> FAT32DriverRequest -> res (Z * K);                    (* 2 *)
  sys_delete : K -> FAT32DriverRequest -> res (Z * K);                   (* 3 *)
  sys_key : K -> res (Z * K);                                            (* 4 *)
  sys_puts : K -> list Z -> Z -> res K;                                  (* 6 *)
  sys_keyboard_on : K -> res K;                                          (* 7 *)
  sys_clear : K -> res K;                                                (* 8 *)
  sys_read_cluster : K -> Z -> res (list Z * K);                         (* 9 *)
  sys_write_cluster : K -> list Z -> Z -> res K;                         (* 10 *)
  sys_exec : K -> FAT32DriverRequest -> res (Z * K);                     (* 12 *)
  sys_ps : K -> res K;                                                   (* 13 *)
  sys_kill : K -> Z -> res (Z * K);                                      (* 14 *)
  sys_clock : K -> res K                                                 (* 15 *)
}.

(** [after_path] is the memory behind [current_path], which [change_path]
    copies along with it. *)
Record shell (K : Type) := MkShell {
  sys : K;
  current_directory : Z;
  current_path : list Z;
  after_path : list Z;
  current_dir_table : list FAT32DirectoryEntry;
  temp_dir_table : list FAT32DirectoryEntry
}.
Arguments MkShell {K}.
Arguments sys {K}.
Arguments current_directory {K}.
Arguments current_path {K}.
Arguments after_path {K}.
Arguments current_dir_table {K}.
Arguments temp_dir_table {K}.

(** String literals, without and with a newline at the end. *)
Definition lit (str : string) : list Z := bytes_of_string str ++ [0].
Definition line (str : string) : list Z := bytes_of_string str ++ [10; 0].

Section shell.
Context {K : Type} `{!SysCalls K}.
Implicit Types (s : shell K).

Definition set_sys s (k : K) : shell K :=
  MkShell k (current_directory s) (current_path s) (after_path s) (current_dir_table s) (temp_dir_table s).
Definition set_directory s (c : Z) : shell K :=
  MkShell (sys s) c (current_path s) (after_path s) (current_dir_table s) (temp_dir_table s).
Definition set_path s (p : list Z) : shell K :=
  MkShell (sys s) (current_directory s) p (after_path s) (current_dir_table s) (temp_dir_table s).
Definition set_after s (a : list Z) : shell K :=
  MkShell (sys s) (current_directory s) (current_path s) a (current_dir_table s) (temp_dir_table s).
Definition set_table s (t : list FAT32DirectoryEntry) : shell K :=
  MkShell (sys s) (current_directory s) (current_path s) (after_path s) t (temp_dir_table s).
Definition set_temp_table s (t : list FAT32DirectoryEntry) : shell K :=
  MkShell (sys s) (current_directory s) (current_path s) (after_path s) (current_dir_table s) t.

Definition put s (str : list Z) (color : Z) : res (shell K) :=
  len ← CString.strlen str;
  k ← sys_puts (sys s) (take (Z.to_nat len) str) (u8 color);
  Ret (set_sys s k).

(** Several strings one after the other. *)
Fixpoint puts_all s (l : list (list Z * Z)) : res (shell K) :=
  match l with
  | [] => Ret s
  | (str, color) :: l' => s ← put s str color; puts_all s l'
  end.

(** [path[i]], as the bytes from the start of the row on. *)
Definition row (path : list (list Z)) (i : Z) : res (list Z) := arr_get path i.

Definition print_path s (path : list (list Z)) (idx color : Z) : res (shell K) :=
  first ← row path 0;
  c ← arr_get first 0;
  s ← (if negb (c =? 0) then put s first color else Ret s);
  for_up (Z.to_nat idx) 1 (fun i s => s ← put s (lit "/") color; r ← row path i; put s r color) s.

(** [update_directory_table]: the table read. *)
Definition update_directory_table (k : K) (directory_cluster_number : Z) : res (list FAT32DirectoryEntry * K) :=
  '(bs, k) ← sys_read_cluster k directory_cluster_number;
  Ret (dec_array ENTRY_COUNT bs, k).

(** [table.table[i].name], as the bytes from there on. *)
Definition name_at (table : list FAT32DirectoryEntry) (i : Z) : list Z := drop (32 * Z.to_nat i) (enc_array table).
End shell.
