(* ===== verification/Shell.v ===== *)
(** * user-shell.c: the command line

    Reading a line, splitting it into words and a path into names, and the
    printed path of the current directory.  A loop that ends at the string's
    terminator has one more round of fuel than the string has bytes; reading
    past the end of a buffer is [Ub]. *)
From S2P Require Import Prelude CString BlockDevice FatLayout Fat32 ShellBase.

Definition is_separator (c : Z) : bool := (c =? 47) || (c =? 92).

(** ** Words *)

Definition ignore_blanks (str : list Z) (idx : Z) : res Z :=
  n ← scan_while (S (length str)) (fun i => c ← arr_get str (idx + i); Ret (c =? 32)) 0; Ret (idx + n).

Fixpoint copy_word_loop (fuel : nat) (str dest : list Z) (idx i : Z) : res (list Z * Z) :=
  match fuel with
  | O => Hang
  | S fuel' =>
      c ← arr_get str idx;
      if (c =? 32) || (c =? 0) then Ret (dest, idx)
      else dest ← arr_set dest i c; copy_word_loop fuel' str dest (idx + 1) (i + 1)
  end.

(** [dest] and the index after the word. *)
Definition copy_word (str dest : list Z) (idx : Z) : res (list Z * Z) := copy_word_loop (S (length str)) str dest idx 0.

(** The rest of the line is blank. *)
Fixpoint only_blanks (fuel : nat) (str : list Z) (idx : Z) : res bool :=
  match fuel with
  | O => Hang
  | S fuel' =>
      c ← arr_get str idx;
      if c =? 0 then Ret true else if negb (c =? 32) then Ret false else only_blanks fuel' str (idx + 1)
  end.

(** The result code, [cmd], the two rows of [args] and [args_count]. *)
Definition parse_input (buf_input cmd arg0 arg1 : list Z) (args_count : Z) : res (Z * list Z * list Z * list Z * Z) :=
  idx ← ignore_blanks buf_input 0;
  '(cmd, idx) ← copy_word buf_input cmd idx;
  idx ← ignore_blanks buf_input idx;
  '(arg0, idx) ← copy_word buf_input arg0 idx;
  idx ← ignore_blanks buf_input idx;
  '(arg1, idx) ← copy_word buf_input arg1 idx;
  c0 ← arr_get arg0 0;
  let args_count := if negb (c0 =? 0) then u8 (args_count + 1) else args_count in
  c1 ← arr_get arg1 0;
  let args_count := if negb (c1 =? 0) then u8 (args_count + 1) else args_count in
  ok ← only_blanks (S (length buf_input)) buf_input idx;
  Ret (if (ok : bool) then 0 else -1, cmd, arg0, arg1, args_count).

(** ** Paths *)

(** The test of both loops: a separator that is not the last character. *)
Definition splits (str : list Z) (idx : Z) : res bool :=
  c ← arr_get str idx;
  if is_separator c then
    len ← CString.strlen str;
    if idx + 1 <? len then
      c1 ← arr_get str (idx + 1); Ret (negb (c1 =? 0) || negb (c1 =? 32))
    else Ret false
  else Ret false.

Fixpoint count_folders (fuel : nat) (str : list Z) (idx num_of_folder : Z) : res Z :=
  match fuel with
  | O => Hang
  | S fuel' =>
      c ← arr_get str idx;
      if c =? 0 then Ret num_of_folder
      else
        b ← splits str idx;
        count_folders fuel' str (idx + 1) (if (b : bool) then u8 (num_of_folder + 1) else num_of_folder)
  end.

Fixpoint split_loop (fuel : nat) (str : list Z) (paths : list (list Z)) (idx path_idx path_cnt : Z) : res (list (list Z)) :=
  match fuel with
  | O => Hang
  | S fuel' =>
      c ← arr_get str idx;
      if c =? 0 then Ret paths
      else if is_separator c then
        b ← splits str idx;
        if (b : bool) then split_loop fuel' str paths (idx + 1) 0 (path_cnt + 1)
        else split_loop fuel' str paths (idx + 1) path_idx path_cnt
      else
        r ← arr_get paths path_cnt;
        r ← arr_set r path_idx c;
        paths ← arr_set paths path_cnt r;
        split_loop fuel' str paths (idx + 1) (path_idx + 1) path_cnt
  end.

(** [char path[512][512] = {0}]. *)
Definition empty_path : list (list Z) := replicate 512 (replicate 512 0).

Section shell.
Context {K : Type} `{!SysCalls K}.
Implicit Types (s : shell K).

(** An absolute path starts at the root. *)
Definition to_root s : res (shell K) :=
  '(t, k) ← update_directory_table (sys s) ROOT_CLUSTER_NUMBER;
  let s := set_directory (set_table (set_sys s k) t) ROOT_CLUSTER_NUMBER in
  p ← CString.memset (current_path s) 0 512;
  p ← arr_set p 0 47;
  Ret (set_path s p).

Definition parse_path s (str : list Z) (paths : list (list Z)) : res (list (list Z) * Z * shell K) :=
  c ← arr_get str 0;
  s ← (if is_separator c then to_root s else Ret s);
  let idx := if is_separator c then 1 else 0 in
  num_of_directory ← count_folders (S (length str)) str idx 1;
  paths ← split_loop (S (length str)) str paths idx 0 0;
  Ret (paths, num_of_directory, s).

(** ** The path of the current directory *)

(** [strlen(path)] is the same in every round. *)
Definition append_current_path s (path : list Z) : res (shell K) :=
  len ← CString.strlen (current_path s);
  p ← (if negb (len =? 1) then arr_set (current_path s) len 47 else Ret (current_path s));
  current_path_len ← CString.strlen p;
  n ← CString.strlen path;
  p ← for_up (Z.to_nat n) 0 (fun i p => c ← arr_get path i; arr_set p (i + current_path_len) c) p;
  Ret (set_path s p).

(** [while (current_path[i] != '/') current_path[i--] = 0]. *)
Fixpoint retract_loop (fuel : nat) (p : list Z) (i : Z) : res (list Z * Z) :=
  match fuel with
  | O => Hang
  | S fuel' =>
      c ← arr_get p i;
      if c =? 47 then Ret (p, i) else p ← arr_set p i 0; retract_loop fuel' p (i - 1)
  end.

Definition retract_current_path s : res (shell K) :=
  len ← CString.strlen (current_path s);
  '(p, i) ← retract_loop (S (length (current_path s))) (current_path s) (len - 1);
  p ← (if 0 <? i then arr_set p i 0 else Ret p);
  Ret (set_path s p).

(** ** Reading a line

    [fuel] bounds the number of system calls. *)
Fixpoint get_input_loop (fuel : nat) (k : K) (buf : list Z) (idx : Z) : res (list Z * K) :=
  match fuel with
  | O => Hang
  | S fuel' =>
      '(c, k) ← sys_key k;
      buf ← arr_set buf idx c;
      if c =? 8 then
        buf ← arr_set buf idx 0;
        if 0 <? idx then buf ← arr_set buf (idx - 1) 0; get_input_loop fuel' k buf (idx - 1)
        else get_input_loop fuel' k buf idx
      else if c =? 10 then buf ← arr_set buf idx 0; Ret (buf, k)
      else if c =? 9 then
        buf ← arr_set buf idx 32;
        buf ← arr_set buf (idx + 1) 32;
        get_input_loop fuel' k buf (idx + 2)
      else if negb (c =? 0) then get_input_loop fuel' k buf (idx + 1)
      else get_input_loop fuel' k buf idx
  end.

Definition get_input (fuel : nat) (k : K) (buf : list Z) : res (list Z * K) := get_input_loop fuel k buf 0.

(** ** The commands of this file *)
Definition ps s (args_count : Z) : res (shell K) :=
  if args_count =? 0 then k ← sys_ps (sys s); Ret (set_sys s k)
  else puts_all s [(line "error: too many arguments, expected 0 argument", LIGHT_RED); (line "Usage: ps", LIGHT_GREY)].

Definition is_digit (c : Z) : bool := (48 <? c) && (c <=? 57).

Definition kill s (arg0 : list Z) (args_count : Z) : res (shell K) :=
  if args_count =? 0 then
    puts_all s [(line "error: missing argument", LIGHT_RED); (line "Usage: kill <active_process_pid>", LIGHT_GREY)]
  else if args_count =? 1 then
    len ← CString.strlen arg0;
    c0 ← arr_get arg0 0;
    bad ← (if (2 <? len) || negb (is_digit c0) then Ret true
           else if len =? 2 then c1 ← arr_get arg0 1; Ret (negb (is_digit c1)) else Ret false);
    if (bad : bool) then
      puts_all s [(line "error: invalid argument", LIGHT_RED); (line "Usage: kill <active_process_pid>", LIGHT_GREY)]
    else
      let pid := s8 (c0 - 48) in
      pid ← (if 2 <? len then c1 ← arr_get arg0 1; Ret (s8 (s8 (pid * 10) + (c1 - 48))) else Ret pid);
      '(ret_val, k) ← sys_kill (sys s) (u32 pid);
      let s := set_sys s k in
      if negb (ret_val =? 0) then put s (line "error: no such active process with that pid") LIGHT_RED else Ret s
  else
    puts_all s [(line "error: too many arguments, expected 1 argument", LIGHT_RED); (line "Usage: kill <active_process_pid>", LIGHT_GREY)].
End shell.
