(* ===== verification/ShellPath.v ===== *)
(** * cd.c: walking along a path

    [change_path] follows the names of a path from the current directory.  Its
    loop does not advance when it meets [..] in the root, so it has fuel for
    one round per name and ends in [Hang] there. *)
From S2P Require Import Prelude CString BlockDevice FatLayout Fat32 ShellBase Shell.

(** [strlen(name) == n && memcmp(name, word, n) == 0]. *)
Definition is_word_at (name : list Z) (word : string) : res bool :=
  len ← CString.strlen name;
  if len =? Z.of_nat (String.length word) then
    r ← CString.memcmp name (lit word) (String.length word); Ret (r =? 0)
  else Ret false.

(** [cluster_low | cluster_high << 16] of an entry. *)
Definition cluster_of (table : list FAT32DirectoryEntry) (i : Z) : res Z :=
  e ← arr_get table i; Ret (entry_cluster e).

Section shell.
Context {K : Type} `{!SysCalls K}.
Implicit Types (s : shell K).

Definition folder_request (s : shell K) (name : list Z) (parent : Z) : FAT32DriverRequest :=
  MkRequest (enc_array (temp_dir_table s)) name (replicate 3 0) parent CLUSTER_SIZE.

(** The result code, the cluster of the directory and the state. *)
Definition change_directory s (directory_name : list Z) (parent_cluster_number : Z) : res (Z * Z * shell K) :=
  name ← CString.memcpy (replicate 8 0) directory_name 8;
  '(ret_val, buffer, k) ← sys_read_directory (sys s) (folder_request s name parent_cluster_number);
  let s := set_temp_table (set_sys s k) (dec_array ENTRY_COUNT buffer) in
  if negb (ret_val =? 0) then Ret (s8 ret_val, parent_cluster_number, s)
  else
    cluster_number ← cluster_of (temp_dir_table s) 0;
    s ← append_current_path s (name_at (temp_dir_table s) 0);
    Ret (0, cluster_number, s).

(** The messages of [change_path]. *)
Definition report_change s (path : list (list Z)) (idx err_val : Z) : res (shell K) :=
  if err_val =? 1 then
    s ← put s (lit "error: '") LIGHT_RED;
    s ← print_path s path idx LIGHT_RED;
    put s (line "' is a file, not a directory") LIGHT_RED
  else if err_val =? 2 then
    s ← put s (lit "error: no such directory with the name '") LIGHT_RED;
    r ← row path idx;
    s ← put s r LIGHT_RED;
    s ← put s (lit "' in ") LIGHT_RED;
    s ← (if 0 <? idx then
           s ← put s (lit "'") LIGHT_RED; s ← print_path s path (idx - 1) LIGHT_RED; put s (lit "'") LIGHT_RED
         else put s (lit "current directory") LIGHT_RED);
    put s (line "") LIGHT_RED
  else Ret s.

(** To the parent of the directory in [temp_dir_table]. *)
Definition to_parent s : res (Z * shell K) :=
  parent ← cluster_of (temp_dir_table s) 1;
  '(t, k) ← update_directory_table (sys s) parent;
  s ← retract_current_path (set_temp_table (set_sys s k) t);
  Ret (parent, s).

(** The loop: the error code, the cluster reached and the state. *)
Fixpoint change_loop (fuel : nat) (report : bool) s (path : list (list Z)) (num_of_directory idx cluster : Z) :
    res (Z * Z * shell K) :=
  match fuel with
  | O => Hang
  | S fuel' =>
      if negb (idx <? num_of_directory) then Ret (0, cluster, s)
      else
        name ← row path idx;
        up ← is_word_at name "..";
        if (up : bool) then
          root ← is_word_at (current_path s) "/";
          if (root : bool) then change_loop fuel' report s path num_of_directory idx cluster
          else
            '(parent, s) ← to_parent s;
            change_loop fuel' report s path num_of_directory (idx + 1) parent
        else
          here ← is_word_at name ".";
          if (here : bool) then change_loop fuel' report s path num_of_directory (idx + 1) cluster
          else
            '(err_val, cluster, s) ← change_directory s name cluster;
            s ← (if report then report_change s path idx err_val else Ret s);
            if err_val =? 0 then change_loop fuel' report s path num_of_directory (idx + 1) cluster
            else Ret (err_val, cluster, s)
  end.

Definition change_path s (path : list (list Z)) (num_of_directory : Z) : res (Z * shell K) :=
  if num_of_directory =? 0 then Ret (0, s)
  else
    let path_temp := take (512 * 512) (current_path s ++ after_path s) in
    if decide (length path_temp = (512 * 512)%nat) then
      '(err_val, cluster, s) ← change_loop (S (Z.to_nat num_of_directory)) true
         (set_temp_table s (current_dir_table s)) path num_of_directory 0 (current_directory s);
      if err_val =? 0 then Ret (0, set_directory (set_table s (temp_dir_table s)) cluster)
      else Ret (err_val, set_after (set_path s (take 512 path_temp)) (drop 512 path_temp ++ drop (512 * 511) (after_path s)))
    else Ub.

Definition cancel_change_path s (current_directory_temp : Z) (path_temp : list Z) : res (shell K) :=
  '(t, k) ← update_directory_table (sys s) current_directory_temp;
  p ← CString.memcpy (current_path s) path_temp 512;
  Ret (set_path (set_directory (set_table (set_sys s k) t) current_directory_temp) p).

Definition cd s (arg0 : list Z) (args_count : Z) : res (shell K) :=
  if args_count =? 0 then
    puts_all s [(line "error: missing argument", LIGHT_RED); (line "Usage: cd <directory_path>", LIGHT_GREY)]
  else if args_count =? 1 then
    '(path, num_of_directory, s) ← parse_path s arg0 empty_path;
    '(_, s) ← change_path s path num_of_directory;
    Ret s
  else
    puts_all s [(line "error: too many arguments, expected 1 argument", LIGHT_RED); (line "Usage: cd <directory_path>", LIGHT_GREY)].
End shell.
