(* ===== verification/ShellFiles.v ===== *)
(** * cp.c, mkdir.c and cat.c

    The commands that name a file by a path.  The local arrays of clusters are
    not initialised in the source: their contents are arguments ([garbage]). *)
From S2P Require Import Prelude CString BlockDevice FatLayout Fat32 ShellBase Shell ShellPath.

(** ** File names *)

(** The loops that copy up to a dot or the limit: the buffer and both indices. *)
Fixpoint copy_name (fuel : nat) (file_name dest : list Z) (stop_at_dot : bool) (limit idx1 idx2 : Z) : res (list Z * Z * Z) :=
  match fuel with
  | O => Hang
  | S fuel' =>
      len ← CString.strlen file_name;
      if negb (idx1 <? len) then Ret (dest, idx1, idx2)
      else
        c ← arr_get file_name idx1;
        if stop_at_dot && (c =? 46) then Ret (dest, idx1, idx2)
        else if negb (idx2 <? limit) then Ret (dest, idx1, idx2)
        else
          dest ← arr_set dest idx2 c;
          copy_name fuel' file_name dest stop_at_dot limit (idx1 + 1) (idx2 + 1)
  end.

(** The result code and the message, [name] and [ext]. *)
Definition parse_file_name (file_name name ext : list Z) : res (Z * option string * list Z * list Z) :=
  let fuel := S (length file_name) in
  '(name, idx1, idx2) ← copy_name fuel file_name name true 8 0 0;
  len ← CString.strlen file_name;
  long ← (if (idx2 =? 8) && (idx1 <? len) then c ← arr_get file_name idx1; Ret (negb (c =? 46)) else Ret false);
  if (long : bool) then Ret (1, Some "error: filename length must not exceed 8!", name, ext)
  else
    '(ext, idx1, _) ← copy_name fuel file_name ext false 3 (idx1 + 1) 0;
    if idx1 <? len then Ret (-1, Some "error: file ext length must not exceed 3!", name, ext)
    else Ret (0, None, name, ext).

(** ** Buffers of clusters: [buf[idx].buf[i]] of the memory from [buf] on *)

(** The cluster has a byte other than 0. *)
Definition cluster_used (buf : list Z) (idx : Z) : res bool :=
  i ← scan_while 2048 (fun i => c ← arr_get buf (2048 * idx + i); Ret (c =? 0)) 0; Ret (i <? 2048).

Fixpoint find_empty_loop (fuel : nat) (buf : list Z) (idx : Z) : res Z :=
  match fuel with
  | O => Hang
  | S fuel' =>
      if negb (idx <? 64) then Ret idx
      else
        c ← arr_get buf (2048 * idx);
        used ← (if c =? 0 then cluster_used buf idx else Ret true);
        if (used : bool) then find_empty_loop fuel' buf (idx + 1) else Ret idx
  end.

Definition find_buffer_size (buf : list Z) : res Z :=
  idx ← find_empty_loop 65 buf 0; Ret (u32 (idx * CLUSTER_SIZE)).

Definition BUFFER_CLUSTERS : Z := 32.

Section shell.
Context {K : Type} `{!SysCalls K}.
Implicit Types (s : shell K).

(** [parse_file_name] prints its message without a newline. *)
Definition parse_name s (file_name : list Z) : res (Z * list Z * list Z * shell K) :=
  '(r, msg, name, ext) ← parse_file_name file_name (replicate 9 0) (replicate 4 0);
  s ← (match msg with Some m => put s (lit m) LIGHT_RED | None => Ret s end);
  Ret (s8 r, name, ext, s).

(** [parse_name] followed by the two [memcpy]s into a request. *)
Definition make_request (buffer name ext : list Z) (parent size : Z) : res FAT32DriverRequest :=
  n ← CString.memcpy (replicate 8 0) name 8;
  x ← CString.memcpy (replicate 3 0) ext 3;
  Ret (MkRequest buffer n x parent size).

(** ["'path'"] up to the parent, or the current directory's name. *)
Definition put_parent s (path : list (list Z)) (num_of_directory : Z) : res (shell K) :=
  if 2 <=? num_of_directory then
    s ← put s (lit "'") LIGHT_RED; print_path s path (num_of_directory - 2) LIGHT_RED
  else
    s ← put s (lit "current directory '") LIGHT_RED; put s (name_at (current_dir_table s) 0) LIGHT_RED.

(** ** cp.c *)
Definition report_read s (path : list (list Z)) (num_of_directory ret_val : Z) (file_name : list Z) : res (shell K) :=
  s ← puts_all s [(lit "error: '", LIGHT_RED); (file_name, LIGHT_RED)];
  if ret_val =? 1 then put s (line "' is a folder, not a file") LIGHT_RED
  else if ret_val =? 2 then
    s ← put s (lit "' not found in ") LIGHT_RED;
    s ← put_parent s path num_of_directory;
    put s (line "'") LIGHT_RED
  else Ret s.

(** The result code, the buffer and the state. *)
Definition read_file s (path : list (list Z)) (num_of_directory : Z) (buffer : list Z) : res (Z * list Z * shell K) :=
  let current_directory_temp := current_directory s in
  path_temp ← CString.memcpy (replicate 512 0) (current_path s) 512;
  '(ret_val, s) ← change_path s path (num_of_directory - 1);
  if negb (ret_val =? 0) then
    s ← cancel_change_path s current_directory_temp path_temp; Ret (ret_val, buffer, s)
  else
    name ← row path (num_of_directory - 1);
    '(ret_val, file_name, ext, s) ← parse_name s name;
    if negb (ret_val =? 0) then
      s ← cancel_change_path s current_directory_temp path_temp; Ret (ret_val, buffer, s)
    else
      request ← make_request buffer file_name ext (current_directory s) (CLUSTER_SIZE * 32);
      '(ret_val, buffer, k) ← sys_read (sys s) request;
      let ret_val := s8 ret_val in
      let s := set_sys s k in
      s ← (if negb (ret_val =? 0) then report_read s path num_of_directory ret_val file_name else Ret s);
      s ← cancel_change_path s current_directory_temp path_temp;
      Ret (ret_val, buffer, s).

(** ** mkdir.c *)
Definition report_write s (path : list (list Z)) (num_of_directory ret_val : Z) (name : list Z) (is_directory : bool) :
    res (shell K) :=
  if ret_val =? -1 then
    s ← put s (lit "error: cannot add new entry, ") LIGHT_RED;
    s ← put_parent s path num_of_directory;
    put s (line "' is full") LIGHT_RED
  else if ret_val =? 1 then
    s ← puts_all s [(lit "error: there's already a ", LIGHT_RED); (if is_directory then lit "folder" else lit "file", LIGHT_RED);
                    (lit " with the name '", LIGHT_RED); (name, LIGHT_RED); (lit "' in ", LIGHT_RED)];
    s ← put_parent s path num_of_directory;
    put s (line "'") LIGHT_RED
  else Ret s.

Definition write_to s (name : list Z) (path : list (list Z)) (num_of_directory : Z) (buf : list Z) (buffer_size : Z)
    (is_directory : bool) : res (Z * shell K) :=
  let current_directory_temp := current_directory s in
  path_temp ← CString.memcpy (replicate 512 0) (current_path s) 512;
  '(ret_val, s) ← change_path s path (if is_directory then num_of_directory - 1 else num_of_directory);
  if negb (ret_val =? 0) then
    s ← cancel_change_path s current_directory_temp path_temp; Ret (ret_val, s)
  else
    '(request, s) ←
      (if is_directory then
         request ← make_request buf name (replicate 3 0) (current_directory s) buffer_size; Ret (request, s)
       else
         '(_, file_name, ext, s) ← parse_name s name;
         request ← make_request buf file_name ext (current_directory s) buffer_size; Ret (request, s));
    '(ret_val, k) ← sys_write (sys s) request;
    let ret_val := s8 ret_val in
    s ← report_write (set_sys s k) path num_of_directory ret_val name is_directory;
    s ← cancel_change_path s current_directory_temp path_temp;
    Ret (ret_val, s).

Definition contains_invalid_character s (dir_name : list Z) : res (bool * shell K) :=
  len ← CString.strlen dir_name;
  i ← scan_while (Z.to_nat len) (fun i => c ← arr_get dir_name i; Ret (negb (c =? 46))) 0;
  if i <? len then
    s ← puts_all s [(lit "error: name of the new directory '", LIGHT_RED); (dir_name, LIGHT_RED);
                    (line "' cannot contain invalid character '.'", LIGHT_RED)];
    Ret (true, s)
  else Ret (false, s).

(** A folder is written with a null buffer and size 0. *)
Definition create_directory s (path : list (list Z)) (num_of_directory : Z) : res (shell K) :=
  name ← row path (num_of_directory - 1);
  '(invalid, s) ← contains_invalid_character s name;
  if (invalid : bool) then Ret s
  else '(_, s) ← write_to s name path num_of_directory [] 0 true; Ret s.

Definition mkdir s (arg0 : list Z) (args_count : Z) : res (shell K) :=
  if args_count =? 0 then
    puts_all s [(line "error: missing argument", LIGHT_RED); (line "Usage: mkdir <directory_path>", WHITE)]
  else if args_count =? 1 then
    '(path, num_of_directory, s) ← parse_path s arg0 empty_path; create_directory s path num_of_directory
  else
    puts_all s [(line "error: too many arguments, expected 1 argument", LIGHT_RED); (line "Usage: mkdir <directory_path>", WHITE)].

Definition copy_file s (file_path : list (list Z)) (file_num_of_directory : Z) (dest_path : list (list Z))
    (dest_num_of_directory : Z) (garbage : list Z) : res (shell K) :=
  '(ret_val, buffer, s) ← read_file s file_path file_num_of_directory garbage;
  if negb (ret_val =? 0) then Ret s
  else
    name ← row file_path (file_num_of_directory - 1);
    size ← find_buffer_size buffer;
    '(_, s) ← write_to s name dest_path dest_num_of_directory buffer size false;
    Ret s.

Definition cp s (arg0 arg1 : list Z) (args_count : Z) (garbage : list Z) : res (shell K) :=
  if args_count =? 0 then
    puts_all s [(line "error: missing argument", LIGHT_RED);
                (line "Usage: cp <source_file_directory_path> <dest_directory_path>", LIGHT_GREY)]
  else if args_count =? 1 then
    puts_all s [(line "error: too few arguments, expected 2 arguments", LIGHT_RED);
                (line "Usage: cp <source_file_directory_path> <dest_directory_path>", LIGHT_GREY)]
  else if args_count =? 2 then
    '(file_path, file_num_of_directory, s) ← parse_path s arg0 empty_path;
    '(dest_path, dest_num_of_directory, s) ← parse_path s arg1 empty_path;
    copy_file s file_path file_num_of_directory dest_path dest_num_of_directory garbage
  else
    puts_all s [(line "error: too many arguments, expected 2 arguments", LIGHT_RED);
                (line "Usage: cp <source_file_directory_path> <dest_directory_path>", LIGHT_GREY)].

(** ** cat.c *)
Definition cat s (arg0 : list Z) (args_count : Z) (garbage : list Z) : res (shell K) :=
  if args_count =? 0 then
    puts_all s [(line "error: missing argument", LIGHT_RED); (line "Usage: cat <directory_path_to_file><ext>", LIGHT_GREY)]
  else if args_count =? 1 then
    '(path, num_of_directory, s) ← parse_path s arg0 empty_path;
    '(ret_val, buffer, s) ← read_file s path num_of_directory garbage;
    if negb (ret_val =? 0) then Ret s
    else puts_all s [(buffer, WHITE); (line "", WHITE)]
  else
    puts_all s [(line "error: too many arguments, expected 1 argument", LIGHT_RED);
                (line "Usage: cat <directory_path_to_file><ext>", LIGHT_GREY)].
End shell.
