(* ===== verification/ShellCommands.v ===== *)
(** * rm.c, ls.c, exec.c and find.c

    Locals that the source leaves uninitialised ([Queue] of find, the cluster
    buffers) are arguments. *)
From S2P Require Import Prelude CString BlockDevice FatLayout Fat32 ShellBase Shell ShellPath ShellFiles.

Section shell.
Context {K : Type} `{!SysCalls K}.
Implicit Types (s : shell K).

(** ** rm.c *)
Definition report_delete s (path : list (list Z)) (num_of_directory ret_val : Z) (file_name : list Z) : res (shell K) :=
  if ret_val =? 1 then
    s ← puts_all s [(lit "error: '", LIGHT_RED); (file_name, LIGHT_RED); (lit "' not found in ", LIGHT_RED)];
    s ← put_parent s path num_of_directory;
    put s (line "'") LIGHT_RED
  else if ret_val =? 2 then
    s ← put s (lit "error: Folder '") LIGHT_RED;
    s ← print_path s path (num_of_directory - 1) LIGHT_RED;
    put s (line "' is not empty") LIGHT_RED
  else Ret s.

(** The working directory is saved before the path is parsed. *)
Definition rm s (arg0 : list Z) (args_count : Z) : res (shell K) :=
  if args_count =? 0 then
    puts_all s [(line "error: missing argument", LIGHT_RED); (line "Usage: rm <directory_path_to_file><ext>", LIGHT_GREY)]
  else if args_count =? 1 then
    let current_directory_temp := current_directory s in
    path_temp ← CString.memcpy (replicate 512 0) (current_path s) 512;
    '(path, num_of_directory, s) ← parse_path s arg0 empty_path;
    '(ret_val, s) ← change_path s path (num_of_directory - 1);
    if negb (ret_val =? 0) then cancel_change_path s current_directory_temp path_temp
    else
      name ← row path (num_of_directory - 1);
      '(_, file_name, ext, s) ← parse_name s name;
      request ← make_request [] file_name ext (current_directory s) 0;
      '(ret_val, k) ← sys_delete (sys s) request;
      s ← report_delete (set_sys s k) path num_of_directory (s8 ret_val) file_name;
      cancel_change_path s current_directory_temp path_temp
  else
    puts_all s [(line "error: too many arguments, expected 1 argument", LIGHT_RED);
                (line "Usage: rm <directory_path_to_file><ext>", LIGHT_GREY)].

(** ** ls.c *)
Definition print_directory_entry s (idx : Z) (spaces : bool) : res (shell K) :=
  s ← (if spaces then put s (lit "    ") WHITE else Ret s);
  e ← arr_get (current_dir_table s) idx;
  if attribute e =? ATTR_SUBDIRECTORY then put s (name_at (current_dir_table s) idx) LIGHT_BLUE
  else
    filename ← CString.memcpy (replicate 9 0) (name e) 8;
    s ← put s filename WHITE;
    r ← CString.memcmp (ext e) (replicate 3 0) 3;
    if negb (r =? 0) then
      ext ← CString.memcpy (replicate 4 0) (ext e) 3;
      puts_all s [(lit ".", WHITE); (ext, WHITE)]
    else Ret s.

(** Both loops over the entries: the first one printed has no spaces before
    it. *)
Definition print_directory_entries s : res (shell K) :=
  '(found, s) ← for_up 62 2
    (fun idx '(found, s) =>
       e ← arr_get (current_dir_table s) idx;
       if user_attribute e =? UATTR_NOT_EMPTY then s ← print_directory_entry s idx found; Ret (true, s)
       else Ret (found, s)) (false, s);
  s ← (if negb (found : bool) then
         puts_all s [(lit "Current directory '", LIGHT_GREY); (name_at (current_dir_table s) 0, LIGHT_GREY);
                     (lit "' is empty", LIGHT_GREY)]
       else Ret s);
  put s (line "") WHITE.

Definition ls s (args_count : Z) : res (shell K) :=
  if args_count =? 0 then print_directory_entries s
  else puts_all s [(line "error: too many arguments, expected 0 argument", LIGHT_RED); (line "Usage: ls", LIGHT_GREY)].

(** ** exec.c *)
Definition report_exec s (path : list (list Z)) (num_of_directory ret_val : Z) (file_name ext : list Z) : res (shell K) :=
  s ← put s (lit "error: ") LIGHT_RED;
  if ret_val =? 1 then
    put s (line "maximum active processes exceeded, need to terminate another active process first") LIGHT_RED
  else if ret_val =? 2 then put s (line "invalid entrypoint, access to kernel section is forbidden") LIGHT_RED
  else if ret_val =? 3 then put s (line "not enough available memory, file is too big") LIGHT_RED
  else if ret_val =? 4 then
    s ← puts_all s [(line "read executable file failed, make sure there's a file named '", LIGHT_RED); (file_name, LIGHT_RED)];
    len ← CString.strlen ext;
    s ← (if negb (len =? 0) then puts_all s [(lit ".", LIGHT_RED); (ext, LIGHT_RED)] else Ret s);
    s ← put s (lit "' in ") LIGHT_RED;
    s ← (if 2 <? num_of_directory then
           s ← put s (lit "'") LIGHT_RED; s ← print_path s path (num_of_directory - 2) LIGHT_RED; put s (lit "'") LIGHT_RED
         else put s (lit "current directory") LIGHT_RED);
    put s (line "") LIGHT_RED
  else Ret s.

(** The current directory is not restored. *)
Definition execute_program s (file_path : list (list Z)) (num_of_directory : Z) (garbage : list Z) : res (shell K) :=
  '(ret_val, s) ← change_path s file_path (num_of_directory - 1);
  if negb (ret_val =? 0) then Ret s
  else
    name ← row file_path (num_of_directory - 1);
    '(ret_val, file_name, ext, s) ← parse_name s name;
    if negb (ret_val =? 0) then Ret s
    else
      request ← make_request garbage file_name ext (current_directory s) 0x100000;
      '(ret_val, k) ← sys_exec (sys s) request;
      let s := set_sys s k in
      if negb (s8 ret_val =? 0) then report_exec s file_path num_of_directory (s8 ret_val) file_name ext else Ret s.

Definition exec s (arg0 : list Z) (args_count : Z) (garbage : list Z) : res (shell K) :=
  if args_count =? 0 then
    puts_all s [(line "error: missing argument", LIGHT_RED); (line "Usage: exec <file_directory_path>", LIGHT_GREY)]
  else if args_count =? 1 then
    '(file_path, file_num_of_directory, s) ← parse_path s arg0 empty_path;
    execute_program s file_path file_num_of_directory garbage
  else
    puts_all s [(line "error: too many arguments, expected 1 argument", LIGHT_RED);
                (line "Usage: exec <file_directory_path>", LIGHT_GREY)].
End shell.

Section commands.
Context {K : Type} `{!SysCalls K}.
Implicit Types (s : shell K).

(** ** find.c *)

(** From a directory up to the root, which is its own cluster 2: the rows
    of [listPath] and how many were filled. *)
Fixpoint track_loop (fuel : nat) (k : K) (currDirectory : list FAT32DirectoryEntry) (currCluster : Z) (listPath : list (list Z))
    (idxListPath : Z) : res (list (list Z) * Z * K) :=
  match fuel with
  | O => Hang
  | S fuel' =>
      e0 ← arr_get currDirectory 0;
      if cluster_low e0 =? 2 then Ret (listPath, idxListPath, k)
      else
        '(t, k) ← update_directory_table k currCluster;
        e0 ← arr_get t 0;
        r ← arr_get listPath idxListPath;
        r ← CString.memcpy r (name e0) 8;
        listPath ← arr_set listPath idxListPath r;
        e1 ← arr_get t 1;
        track_loop fuel' k t (cluster_low e1) listPath (idxListPath + 1)
  end.

(** [for (int i = idxListPath; i >= 0; i--)]. *)
Fixpoint print_up (n : nat) s (listPath : list (list Z)) : res (shell K) :=
  r ← row listPath (Z.of_nat n);
  s ← puts_all s [(r, WHITE); (lit "/", WHITE)];
  match n with O => Ret s | S n' => print_up n' s listPath end.

(** A directory that does not lead to the root keeps the loop going until the
    rows run out. *)
Definition trackToParent s (currCluster : Z) (goal : list Z) : res (shell K) :=
  '(listPath, n, k) ← track_loop 514 (sys s) (replicate ENTRY_COUNT empty_entry) currCluster empty_path 0;
  s ← print_up (Z.to_nat n) (set_sys s k) listPath;
  puts_all s [(goal, WHITE); (line "", WHITE)].

(** The entries 2 .. 63 of one directory: matches are printed, folders queued. *)
Definition find_entries s (table : list FAT32DirectoryEntry) (currCluster : Z) (goal queue : list Z) (tempIdx count : Z) :
    res (shell K * list Z * Z * Z) :=
  for_up 62 2
    (fun index '(s, queue, tempIdx, count) =>
       e ← arr_get table index;
       currName ← CString.memcpy (replicate 8 0) (name e) 8;
       len ← CString.strlen currName;
       glen ← CString.strlen goal;
       eq ← (if len =? glen then r ← CString.memcmp currName goal (Z.to_nat glen); Ret (r =? 0) else Ret false);
       s ← (if (eq : bool) then trackToParent s currCluster goal else Ret s);
       let count := if (eq : bool) then count + 1 else count in
       if (user_attribute e =? UATTR_NOT_EMPTY) && (attribute e =? ATTR_SUBDIRECTORY) then
         queue ← arr_set queue tempIdx (cluster_low e); Ret (s, queue, tempIdx + 1, count)
       else Ret (s, queue, tempIdx, count)) (s, queue, tempIdx, count).

(** Every directory overwrites the queue behind the one being searched. *)
Fixpoint find_loop (fuel : nat) s (goal queue : list Z) (idxQueue count : Z) : res (shell K * Z) :=
  match fuel with
  | O => Hang
  | S fuel' =>
      currCluster ← arr_get queue idxQueue;
      if currCluster =? 0 then Ret (s, count)
      else
        '(table, k) ← update_directory_table (sys s) (u32 currCluster);
        '(s, queue, _, count) ← find_entries (set_sys s k) table currCluster goal queue (idxQueue + 1) count;
        find_loop fuel' s goal queue (idxQueue + 1) count
  end.

(** [queue0]: the 2048 uninitialised words of [Queue]. *)
Definition find s (arg0 : list Z) (args_count : Z) (queue0 : list Z) : res (shell K) :=
  if args_count =? 0 then
    puts_all s [(line "error: missing argument", LIGHT_RED); (line "Usage: mkdir <directory_path>", WHITE)]
  else if args_count =? 1 then
    queue ← arr_set queue0 0 2;
    '(s, count) ← find_loop (S (length queue0)) s arg0 queue 0 0;
    if count =? 0 then
      puts_all s [(lit "error: there are no folder or file with the name '", LIGHT_RED); (arg0, LIGHT_RED); (line "'", LIGHT_RED)]
    else Ret s
  else
    puts_all s [(line "error: too many arguments, expected 1 argument", LIGHT_RED); (line "Usage: find <file/directory_name>", WHITE)].
End commands.
