(* ===== verification/ShellMove.v ===== *)
(** * mv.c, clock.c and the main loop of the shell

    [isfile] of [move] is not initialised in the source and is an argument;
    [leftovers] collects these arguments for a round of the main loop. *)
From S2P Require Import Prelude CString BlockDevice FatLayout Fat32 ShellBase Shell ShellPath ShellFiles ShellCommands.

Definition set_name_of (e : FAT32DirectoryEntry) (nm : list Z) : FAT32DirectoryEntry :=
  MkEntry nm (ext e) (attribute e) (user_attribute e) (undelete e) (create_time e) (create_date e) (access_date e)
    (cluster_high e) (modified_time e) (modified_date e) (cluster_low e) (filesize e).

(** [memcpy(table.table[i].name, newName, 8)]. *)
Definition rename_entry (table : list FAT32DirectoryEntry) (i : Z) (newName : list Z) : res (list FAT32DirectoryEntry) :=
  e ← arr_get table i;
  nm ← CString.memcpy (name e) newName 8;
  arr_set table i (set_name_of e nm).

Definition contains_invalid_char (dir_name : list Z) (invalid_char : Z) : res bool :=
  len ← CString.strlen dir_name;
  i ← scan_while (Z.to_nat len) (fun i => c ← arr_get dir_name i; Ret (negb (c =? invalid_char))) 0;
  Ret (i <? len).

(** The first entry from [from] on whose name is [nm] (8 bytes), 64 if none. *)
Definition find_name (table : list FAT32DirectoryEntry) (nm : list Z) (from : Z) : res Z :=
  scan_while (Z.to_nat (64 - from)) (fun i => e ← arr_get table i; r ← CString.memcmp (name e) nm 8; Ret (negb (r =? 0))) from.

(** The first slot from [from] on that [move] takes to be free: the test is on
    [attribute]. *)
Definition find_slot (table : list FAT32DirectoryEntry) (from : Z) : res Z :=
  scan_while (Z.to_nat (64 - from)) (fun i => e ← arr_get table i; Ret (attribute e =? UATTR_NOT_EMPTY)) from.

Section shell.
Context {K : Type} `{!SysCalls K}.
Implicit Types (s : shell K).

(** [change_path_mv] keeps a table [t] of its own, which [change_directory]
    does not fill. *)
Fixpoint change_mv_loop (fuel : nat) s (t : list FAT32DirectoryEntry) (path : list (list Z)) (num_of_directory idx cluster : Z) :
    res (Z * Z * list FAT32DirectoryEntry * shell K) :=
  match fuel with
  | O => Hang
  | S fuel' =>
      if negb (idx <? num_of_directory) then Ret (0, cluster, t, s)
      else
        name ← row path idx;
        up ← is_word_at name "..";
        if (up : bool) then
          root ← is_word_at (current_path s) "/";
          if (root : bool) then change_mv_loop fuel' s t path num_of_directory idx cluster
          else
            parent ← cluster_of t 1;
            '(t, k) ← update_directory_table (sys s) parent;
            s ← retract_current_path (set_sys s k);
            change_mv_loop fuel' s t path num_of_directory (idx + 1) parent
        else
          here ← is_word_at name ".";
          if (here : bool) then change_mv_loop fuel' s t path num_of_directory (idx + 1) cluster
          else
            '(err_val, cluster, s) ← change_directory s name cluster;
            if err_val =? 0 then change_mv_loop fuel' s t path num_of_directory (idx + 1) cluster
            else Ret (err_val, cluster, t, s)
  end.

Definition change_path_mv s (path : list (list Z)) (num_of_directory : Z) : res (Z * shell K) :=
  if num_of_directory =? 0 then Ret (0, s)
  else
    '(err_val, cluster, t, s) ← change_mv_loop (S (Z.to_nat num_of_directory)) s (current_dir_table s) path num_of_directory 0
       (current_directory s);
    if err_val =? 0 then Ret (0, set_directory (set_table s t) cluster) else Ret (err_val, s).

Definition rename s (path newName : list Z) : res (shell K) :=
  invalid ← contains_invalid_char newName 46;
  if (invalid : bool) then put s (line "error: new filename must not contain '.'") LIGHT_RED
  else
    '(listPath, num_of_directory, s) ← parse_path s path empty_path;
    let clusterInitial := current_directory s in
    temPath ← CString.memcpy (replicate 512 0) (current_path s) 512;
    '(_, s) ← change_path s listPath (num_of_directory - 1);
    indexTable ← find_name (current_dir_table s) path 0;
    s ← (if indexTable =? 64 then
           r ← row listPath (num_of_directory - 1);
           puts_all s [(lit "Error: no file/directory ", LIGHT_RED); (r, WHITE); (line "", LIGHT_RED)]
         else
           t ← rename_entry (current_dir_table s) indexTable newName;
           k ← sys_write_cluster (sys s) (enc_array t) (current_directory s);
           let s := set_table (set_sys s k) t in
           e ← arr_get t indexTable;
           if attribute e =? ATTR_SUBDIRECTORY then
             '(t, k) ← update_directory_table (sys s) (cluster_low e);
             t ← rename_entry t 0 newName;
             k ← sys_write_cluster k (enc_array t) (cluster_low e);
             Ret (set_table (set_sys s k) t)
           else Ret s);
    cancel_change_path s clusterInitial temPath.

(** The directory that holds the source: its table and cluster. *)
Definition source_parent s (srcPath : list (list Z)) (num_src_directory initialCluster : Z) (temPath : list Z) :
    res (list FAT32DirectoryEntry * Z * shell K) :=
  if num_src_directory =? 1 then Ret (current_dir_table s, current_directory s, s)
  else
    '(_, s) ← change_path s srcPath (num_src_directory - 1);
    let parentSrc := current_dir_table s in
    s ← puts_all s [(name_at parentSrc 0, WHITE); (line "", WHITE)];
    let parentSrcCluster := current_directory s in
    s ← cancel_change_path s initialCluster temPath;
    Ret (parentSrc, parentSrcCluster, s).

(** The three tables written at the end. *)
Definition move_entry (k : K) (isfile : bool) (idx : Z) (parentSrc srcDirectory destDirectory : list FAT32DirectoryEntry)
    (parentSrcCluster srcCluster destCluster : Z) : res K :=
  '(srcDirectory, k) ←
    (if negb isfile then
       e ← arr_get destDirectory 0;
       t ← arr_set srcDirectory 1 e;
       k ← sys_write_cluster k (enc_array t) srcCluster; Ret (t, k)
     else Ret (srcDirectory, k));
  indexTable ← find_slot destDirectory 2;
  e ← (if negb isfile then arr_get srcDirectory 0 else arr_get parentSrc idx);
  destDirectory ← arr_set destDirectory indexTable e;
  parentSrc ← arr_set parentSrc idx empty_entry;
  k ← sys_write_cluster k (enc_array parentSrc) parentSrcCluster;
  sys_write_cluster k (enc_array destDirectory) destCluster.

(** [garbage] is the initial value of [isfile]. *)
Definition move s (args0 args1 : list Z) (garbage : bool) : res (shell K) :=
  '(destPath, num_dest_directory, s) ← parse_path s args1 empty_path;
  '(srcPath, num_src_directory, s) ← parse_path s args0 empty_path;
  temPath ← CString.memcpy (replicate 512 0) (current_path s) 512;
  let initialCluster := current_directory s in
  '(parentSrc, parentSrcCluster, s) ← source_parent s srcPath num_src_directory initialCluster temPath;
  src ← row srcPath (num_src_directory - 1);
  idx ← find_name parentSrc src 2;
  isfile ← (if idx =? 64 then Ret garbage else e ← arr_get parentSrc idx; Ret (negb (attribute e =? ATTR_SUBDIRECTORY)));
  '(srcDirectory, srcCluster, s) ←
    (if negb isfile then
       '(_, s) ← change_path s srcPath num_src_directory;
       let t := current_dir_table s in
       let c := current_directory s in
       s ← cancel_change_path s initialCluster temPath; Ret (t, c, s)
     else Ret (replicate ENTRY_COUNT empty_entry, 0, s));
  '(ret, s) ← change_path s destPath num_dest_directory;
  let destDirectory := current_dir_table s in
  let destCluster := current_directory s in
  s ← cancel_change_path s initialCluster temPath;
  p ← CString.memcpy (current_path s) temPath 512;
  let s := set_path s p in
  if negb (ret =? 0) then Ret s
  else
    indexTable ← find_slot destDirectory 1;
    s ← (if indexTable =? 64 then puts_all s [(args1, WHITE); (line " is full, mv failed", LIGHT_RED)]
         else
           k ← move_entry (sys s) isfile idx parentSrc srcDirectory destDirectory parentSrcCluster srcCluster destCluster;
           Ret (set_sys s k));
    '(t, k) ← update_directory_table (sys s) (current_directory s);
    Ret (set_table (set_sys s k) t).

Definition mv s (arg0 arg1 : list Z) (args_count : Z) (garbage : bool) : res (shell K) :=
  if args_count =? 0 then
    puts_all s [(line "error: missing argument, expected 2 arguments", LIGHT_RED);
                (line "Usage: mv <src_directory_path> <dest_directory_path>", WHITE)]
  else if args_count =? 1 then
    puts_all s [(line "error: too few arguments, expected 2 arguments", LIGHT_RED);
                (line "Usage: mv <src_directory_path> <dest_directory_path>", WHITE)]
  else if args_count =? 2 then
    temPath ← CString.memcpy (replicate 512 0) (current_path s) 512;
    let initialCluster := current_directory s in
    '(destPath, num_dest_directory, s) ← parse_path s arg1 empty_path;
    '(ret, s) ← change_path_mv s destPath num_dest_directory;
    s ← cancel_change_path s initialCluster temPath;
    if ret =? 2 then
      e0 ← arr_get (current_dir_table s) 0;
      if cluster_low e0 =? initialCluster then
        newName ← row destPath (num_dest_directory - 1); rename s arg0 newName
      else put s (line "error: no such directory with the name ") LIGHT_RED
    else move s arg0 arg1 garbage
  else
    puts_all s [(line "error: too many arguments, expected 2 arguments", LIGHT_RED);
                (line "Usage: mv <src_directory_path> <dest_directory_path>", WHITE)].

(** ** The main loop *)

(** [strlen(cmd) == len && memcmp(cmd, word, n) == 0]; exec and kill compare
    two characters only. *)
Definition is_command (cmd : list Z) (len : Z) (word : string) (n : nat) : res bool :=
  l ← CString.strlen cmd;
  if l =? len then r ← CString.memcmp cmd (lit word) n; Ret (r =? 0) else Ret false.

(** What the commands leave uninitialised. *)
Record leftovers := MkLeftovers { clusters : list Z; queue_words : list Z; flag_byte : bool }.

Definition run_command s (g : leftovers) (cmd arg0 arg1 : list Z) (args_count : Z) : res (shell K) :=
  b ← is_command cmd 2 "cd" 2;
  if (b : bool) then cd s arg0 args_count else
  b ← is_command cmd 5 "clear" 5;
  if (b : bool) then
    c ← arr_get arg0 0;
    if negb (c =? 0) then
      puts_all s [(line "error: too many arguments, expected 0 argument", LIGHT_RED); (line "Usage: clear", LIGHT_GREY)]
    else k ← sys_clear (sys s); Ret (set_sys s k)
  else
  b ← is_command cmd 2 "ls" 2;
  if (b : bool) then ls s args_count else
  b ← is_command cmd 5 "mkdir" 5;
  if (b : bool) then mkdir s arg0 args_count else
  b ← is_command cmd 3 "cat" 3;
  if (b : bool) then cat s arg0 args_count (clusters g) else
  b ← is_command cmd 2 "cp" 2;
  if (b : bool) then cp s arg0 arg1 args_count (clusters g) else
  b ← is_command cmd 2 "rm" 2;
  if (b : bool) then rm s arg0 args_count else
  b ← is_command cmd 4 "find" 4;
  if (b : bool) then find s arg0 args_count (queue_words g) else
  b ← is_command cmd 2 "mv" 2;
  if (b : bool) then mv s arg0 arg1 args_count (flag_byte g) else
  b ← is_command cmd 4 "exec" 2;
  if (b : bool) then exec s arg0 args_count (clusters g) else
  b ← is_command cmd 2 "ps" 2;
  if (b : bool) then ps s args_count else
  b ← is_command cmd 4 "kill" 2;
  if (b : bool) then kill s arg0 args_count else
  b ← is_command cmd 5 "clock" 5;
  if (b : bool) then k ← sys_clock (sys s); Ret (set_sys s k) else
  c ← arr_get cmd 0;
  if negb (c =? 0) then
    puts_all s [(lit "error: no such command with the name '", LIGHT_RED); (cmd, LIGHT_RED); (line "'", LIGHT_RED)]
  else Ret s.

(** One round of the loop of [main]; [fuel] bounds the keys read. *)
Definition shell_round (fuel : nat) s (g : leftovers) : res (shell K) :=
  s ← puts_all s [(lit "os2024-semogakelar", LIGHT_GREEN); (lit ":", DARK_GREY); (current_path s, LIGHT_BLUE); (lit "$ ", DARK_GREY)];
  k ← sys_keyboard_on (sys s);
  '(buf_input, k) ← get_input fuel k (replicate 2048 0);
  let s := set_sys s k in
  '(ret_val, cmd, arg0, arg1, args_count) ← parse_input buf_input (replicate 512 0) (replicate 512 0) (replicate 512 0) 0;
  if negb (ret_val =? 0) then put s (line "error: too many arguments") LIGHT_RED
  else run_command s g cmd arg0 arg1 args_count.

(** The start of [main]. *)
Definition shell_start s : res (shell K) :=
  '(t, k) ← update_directory_table (sys s) ROOT_CLUSTER_NUMBER;
  let s := set_table (set_sys s k) t in
  p ← arr_set (current_path s) 0 47;
  p ← for_up 511 1 (fun i p => arr_set p i 0) p;
  Ret (set_path s p).
End shell.

(** clock.c: [n] rounds of its loop. *)
Definition clock_rounds {K} `{!SysCalls K} (n : nat) (k : K) : res K :=
  k ← sys_puts k (bytes_of_string "Clock is running..." ++ [10]) WHITE;
  for_up n 0 (fun _ k => sys_clock k) k.

(** An entry in use does not have the attribute 170, so [move] takes slot 2 of
    the destination, whatever is in it. *)
Lemma move_takes_slot_2 table e : table !! 2%nat = Some e -> attribute e ≠ UATTR_NOT_EMPTY -> find_slot table 2 = Ret 2.
Proof.
  intros He Ha. unfold find_slot. change (Z.to_nat (64 - 2)) with 62%nat. cbn [scan_while].
  rewrite (arr_get_lookup _ 2 e) by done. rewrite !bind_ret. by rewrite (proj2 (Z.eqb_neq _ _)).
Qed.
