(* ===== verification/ShellFacts.v ===== *)
(** * Lemmas about the shell's strings

    A [char] array that holds a string and zeros behind it is [padded n w].
    [render ns] is the printed form of the path through the folders [ns]. *)
From S2P Require Import Prelude CString BlockDevice FatLayout Fat32 FatFacts ShellBase Shell ShellPath.

Definition padded (n : nat) (w : list Z) : list Z := w ++ replicate (n - length w) 0.
Definition no_nul (w : list Z) : Prop := Forall (.≠ 0) w.

Lemma padded_nil n : padded n [] = replicate n 0.
Proof. unfold padded. cbn. by rewrite Nat.sub_0_r. Qed.

Lemma length_padded n w : (length w ≤ n)%nat -> length (padded n w) = n.
Proof. intros. unfold padded. rewrite length_app, length_replicate. lia. Qed.

Lemma padded_cons n w : (length w < n)%nat -> padded n w = w ++ 0 :: replicate (n - length w - 1) 0.
Proof. intros. unfold padded. replace (n - length w)%nat with (S (n - length w - 1)) at 1 by lia. done. Qed.

Lemma cstr_padded n w : no_nul w -> (length w < n)%nat -> CString.cstr (padded n w) = w.
Proof. intros Hw Hl. rewrite padded_cons by done. by apply CString.cstr_app_nul. Qed.

Lemma nul_in_padded n w : (length w < n)%nat -> 0 ∈ padded n w.
Proof. intros. rewrite padded_cons by done. set_solver. Qed.

Lemma strlen_padded n w : no_nul w -> (length w < n)%nat -> CString.strlen (padded n w) = Ret (Zlen w).
Proof. intros. rewrite CString.strlen_correct, decide_True by by apply nul_in_padded. by rewrite cstr_padded. Qed.

Lemma lookup_padded n w i c : w !! i = Some c -> padded n w !! i = Some c.
Proof. intros H. unfold padded. rewrite lookup_app_l; [done|]. by eapply lookup_lt_Some. Qed.

Lemma lookup_padded_end n w : (length w < n)%nat -> padded n w !! length w = Some 0.
Proof. intros. rewrite padded_cons by done. by rewrite lookup_app_r, Nat.sub_diag by lia. Qed.

(** Writing behind the string. *)
Lemma padded_snoc n w c : (length w < n)%nat -> arr_set (padded n w) (Zlen w) c = Ret (padded n (w ++ [c])).
Proof.
  intros H. rewrite arr_set_in by (unfold Zlen; rewrite length_padded by lia; lia). f_equal. unfold Zlen. rewrite Nat2Z.id.
  rewrite padded_cons by done. rewrite insert_app_r_alt, Nat.sub_diag by lia. cbn. unfold padded.
  rewrite <- app_assoc, length_app. cbn [length app]. do 3 f_equal. lia.
Qed.

(** Clearing the last character. *)
Lemma padded_unsnoc n w c : (length w < n)%nat -> arr_set (padded n (w ++ [c])) (Zlen w) 0 = Ret (padded n w).
Proof.
  intros H. rewrite arr_set_in by (unfold Zlen; rewrite length_padded by len; lia). f_equal.
  unfold Zlen, padded. rewrite Nat2Z.id, <- app_assoc, insert_app_r_alt, Nat.sub_diag by lia. rewrite length_app. cbn [length app list_insert insert].
  replace (n - length w)%nat with (S (n - (length w + 1))) by lia. done.
Qed.

Lemma cstr_take l : take (length (CString.cstr l)) l = CString.cstr l.
Proof. induction l as [|c l IH]; [done|]. cbn. destruct (c =? 0); [done|]. simpl. by rewrite IH. Qed.

Lemma cstr_le l : (length (CString.cstr l) ≤ length l)%nat.
Proof. rewrite <- cstr_take, length_take. lia. Qed.

Lemma length_bytes_of_string str : length (bytes_of_string str) = String.length str.
Proof. unfold bytes_of_string. rewrite length_fmap. induction str as [|a str IH]; [done|]. simpl. by rewrite IH. Qed.

Lemma is_word_at_eq name word : 0 ∈ name -> no_nul (bytes_of_string word) ->
  is_word_at name word = Ret (bool_decide (CString.cstr name = bytes_of_string word)).
Proof.
  intros H0 Hw. unfold is_word_at. rewrite CString.strlen_correct, decide_True, bind_ret by done.
  destruct (Z.eqb_spec (Zlen (CString.cstr name)) (Z.of_nat (String.length word))) as [Heq|Hne].
  - unfold Zlen in Heq. assert (Hlen : length (CString.cstr name) = String.length word) by lia.
    assert (Hle : (String.length word ≤ length name)%nat).
    { rewrite <- Hlen, <- (cstr_take name). rewrite length_take. lia. }
    rewrite CString.memcmp_eqb; [|done|unfold lit; rewrite length_app, length_bytes_of_string; lia].
    f_equal. unfold lit. rewrite take_app_le by (rewrite length_bytes_of_string; lia).
    rewrite (take_ge (bytes_of_string word)) by (rewrite length_bytes_of_string; lia). by rewrite <- Hlen, cstr_take.
  - f_equal. symmetry. apply bool_decide_false. intros H. apply Hne. by rewrite H, <- length_bytes_of_string.
Qed.

Lemma is_word_at_padded n w word : no_nul w -> (length w < n)%nat -> no_nul (bytes_of_string word) ->
  is_word_at (padded n w) word = Ret (bool_decide (w = bytes_of_string word)).
Proof. intros Hw Hl Hn. rewrite is_word_at_eq by (done || by apply nul_in_padded). by rewrite cstr_padded. Qed.

(** ** Paths *)

(** The name of a folder as it is printed: not empty, no separator in it. *)
Definition folder_name (w : list Z) : Prop := w ≠ [] /\ no_nul w /\ 47 ∉ w.

Definition joined (ns : list (list Z)) : list Z := concat ((47 ::.) <$> ns).
Definition render (ns : list (list Z)) : list Z := match ns with [] => [47] | _ => joined ns end.

Lemma joined_snoc ns w : joined (ns ++ [w]) = joined ns ++ 47 :: w.
Proof. unfold joined. rewrite fmap_app, concat_app. simpl. by rewrite app_nil_r. Qed.

Lemma render_snoc ns w : render (ns ++ [w]) = joined ns ++ 47 :: w.
Proof. rewrite <- joined_snoc. by destruct ns. Qed.

Lemma no_nul_joined ns : Forall folder_name ns -> no_nul (joined ns).
Proof.
  induction 1 as [|w ns (_ & Hw & _) _ IH]; [constructor|]. unfold joined in *. cbn. constructor; [done|]. by apply Forall_app.
Qed.

Lemma no_nul_render ns : Forall folder_name ns -> no_nul (render ns).
Proof. intros H. destruct ns; [by constructor|]. by apply no_nul_joined. Qed.

Lemma length_render ns : Forall folder_name ns -> ns ≠ [] -> (2 ≤ length (render ns))%nat.
Proof.
  intros Hns Hne. destruct ns as [|w ns]; [done|]. apply Forall_cons in Hns as [(Hw & _) _]. unfold render, joined. cbn.
  rewrite length_app. destruct w; [done|]. simpl. lia.
Qed.

Lemma render_root ns : Forall folder_name ns -> render ns = bytes_of_string "/" <-> ns = [].
Proof.
  intros Hns. split; [|by intros ->]. intros H. destruct (decide (ns = [])) as [->|Hne]; [done|].
  pose proof (length_render ns Hns Hne) as Hl. rewrite H in Hl. cbn in Hl. lia.
Qed.

Section shell.
Context {K : Type} `{!SysCalls K}.
Implicit Types (s : shell K).

(** The characters of a word written one after the other. *)
Lemma append_loop n q : forall p path, no_nul q -> (length p + length q < n)%nat -> (forall i, (i < length q)%nat -> path !! i = q !! i) ->
  for_up (length q) 0 (fun i d => c ← arr_get path i; arr_set d (i + Zlen p) c) (padded n p) = Ret (padded n (p ++ q)).
Proof using Type.
  intros p path Hq Hl Hpath.
  destruct (for_up_inv (fun i d => d = padded n (p ++ take (Z.to_nat i) q)) (fun i d => c ← arr_get path i; arr_set d (i + Zlen p) c)
    (length q) 0 (padded n p)) as (d & -> & ->).
  - by rewrite firstn_O, app_nil_r.
  - intros j d Hj ->. destruct (lookup_lt_is_Some_2 q (Z.to_nat j)) as [c Hc]; [lia|].
    rewrite (arr_get_lookup path j c) by (lia || rewrite Hpath by lia; done). rewrite bind_ret. eexists. split; [|done].
    replace (j + Zlen p) with (Zlen (p ++ take (Z.to_nat j) q)) by (unfold Zlen; rewrite length_app, length_take; lia).
    rewrite padded_snoc by (rewrite length_app, length_take; lia). rewrite <- app_assoc.
    replace (Z.to_nat (j + 1)) with (S (Z.to_nat j)) by lia. by erewrite take_S_r.
  - rewrite Z.add_0_l, Nat2Z.id. by rewrite take_ge.
Qed.

Lemma append_path s ns path w : Forall folder_name ns -> folder_name w -> current_path s = padded 512 (render ns) ->
  0 ∈ path -> CString.cstr path = w -> (length (render (ns ++ [w])) < 512)%nat ->
  append_current_path s path = Ret (set_path s (padded 512 (render (ns ++ [w])))).
Proof using Type.
  intros Hns (Hne & Hnul & Hsep) Hcur H0 Hw Hl. rewrite render_snoc in *. unfold append_current_path. rewrite Hcur.
  assert (Hlr : (length (render ns) ≤ length (joined ns) + 1)%nat) by (destruct ns; simpl; lia).
  rewrite length_app in Hl. cbn [length] in Hl. assert (Hwl : (0 < length w)%nat) by (destruct w; simpl; [done|lia]).
  rewrite strlen_padded by (lia || by apply no_nul_render). rewrite bind_ret.
  assert (Hp : (p ← (if negb (Zlen (render ns) =? 1) then arr_set (padded 512 (render ns)) (Zlen (render ns)) 47
      else Ret (padded 512 (render ns))); Ret p) = Ret (padded 512 (joined ns ++ [47]))).
  { destruct (decide (ns = [])) as [->|Hne']; [done|]. pose proof (length_render ns Hns Hne').
    rewrite (proj2 (Z.eqb_neq _ _)) by (unfold Zlen; lia). cbn [negb].
    replace (render ns) with (joined ns) in * by by destruct ns. by rewrite padded_snoc by lia. }
  apply bind_Ret_inv in Hp as (p & -> & [= ->]). rewrite bind_ret.
  rewrite strlen_padded; [|apply Forall_app; split; [by apply no_nul_joined|by constructor]|len].
  rewrite bind_ret, CString.strlen_correct, decide_True, Hw, bind_ret by done. unfold Zlen at 1. rewrite Nat2Z.id.
  rewrite append_loop.
  - rewrite bind_ret, <- app_assoc. done.
  - done.
  - rewrite length_app. simpl. lia.
  - intros i Hi. rewrite <- Hw, <- cstr_take, lookup_take_lt; [done|by rewrite Hw].
Qed.

(** Back to the last separator. *)
Lemma retract_back n p q : forall fuel, 47 ∉ q -> (length p + length q + 1 < n)%nat -> (length q < fuel)%nat ->
  retract_loop fuel (padded n (p ++ 47 :: q)) (Zlen p + Zlen q) = Ret (padded n (p ++ [47]), Zlen p).
Proof using Type.
  induction q as [|c q IH] using rev_ind; intros fuel Hq Hl Hf; (destruct fuel as [|fuel]; [lia|]); cbn [retract_loop].
  - rewrite (arr_get_lookup _ _ 47); [|unfold Zlen; lia|apply lookup_padded].
    2: { unfold Zlen. rewrite lookup_app_r by (simpl; lia). replace (_ - _)%nat with 0%nat by (simpl; lia). done. }
    rewrite bind_ret, Z.eqb_refl. do 2 f_equal. unfold Zlen. simpl. lia.
  - rewrite length_app in *. cbn [length] in *.
    assert (Hcq : 47 ∉ q /\ c ≠ 47) by set_solver. destruct Hcq as [Hq' Hc].
    assert (Hz : Zlen p + Zlen (q ++ [c]) = Zlen (p ++ 47 :: q)) by (unfold Zlen; rewrite !length_app; simpl; lia).
    rewrite Hz. replace (p ++ 47 :: q ++ [c]) with ((p ++ 47 :: q) ++ [c]) by (by rewrite <- app_assoc).
    rewrite (arr_get_lookup _ _ c); [|unfold Zlen; lia|apply lookup_padded; unfold Zlen; rewrite Nat2Z.id; by rewrite lookup_app_r, Nat.sub_diag by lia].
    rewrite bind_ret, (proj2 (Z.eqb_neq c 47)) by done. rewrite padded_unsnoc, bind_ret by len.
    replace (Zlen (p ++ 47 :: q) - 1) with (Zlen p + Zlen q) by (unfold Zlen; len).
    apply IH; [done|lia|lia].
Qed.

Lemma retract_path s ns w : Forall folder_name ns -> folder_name w -> current_path s = padded 512 (render (ns ++ [w])) ->
  (length (render (ns ++ [w])) < 512)%nat -> retract_current_path s = Ret (set_path s (padded 512 (render ns))).
Proof using Type.
  intros Hns Hw Hcur Hl. unfold retract_current_path. rewrite Hcur.
  rewrite strlen_padded by (done || apply no_nul_render, Forall_app_2, Forall_singleton; done). rewrite bind_ret.
  rewrite render_snoc in *. rewrite length_app in Hl. cbn [length] in Hl.
  replace (Zlen (joined ns ++ 47 :: w) - 1) with (Zlen (joined ns) + Zlen w) by (unfold Zlen; len).
  rewrite retract_back; [|apply Hw|lia|rewrite length_padded by len; lia]. rewrite bind_ret.
  destruct (decide (ns = [])) as [->|Hne]; [done|].
  replace (render ns) with (joined ns) by by destruct ns. pose proof (length_render ns Hns Hne) as H2.
  replace (render ns) with (joined ns) in H2 by by destruct ns.
  rewrite (proj2 (Z.ltb_lt 0 _)) by (unfold Zlen; lia). rewrite padded_unsnoc by lia. done.
Qed.
End shell.
