(* ===== verification/ShellLine.v ===== *)
(** * The line editor and the word splitter of the shell

    [get_input] is a fold over the keys and [parse_input] is the split of the
    line at its blanks. *)
From S2P Require Import Prelude CString ShellBase Shell ShellFacts.

(** ** The line editor *)

(** What one key does to the line. *)
Definition type_key (line : list Z) (c : Z) : list Z :=
  if c =? 8 then removelast line
  else if c =? 9 then line ++ [32; 32]
  else if c =? 0 then line
  else line ++ [c].

Definition typed (keys : list Z) : list Z := foldl type_key [] keys.

(** The keys that the next system calls deliver; 0 when none was pressed. *)
Class Keyboard (K : Type) `{!SysCalls K} := {
  pending : K -> list Z;
  key_pending k c cs : pending k = c :: cs -> exists k', sys_key k = Ret (c, k') /\ pending k' = cs
}.

Lemma padded_zero n w : (length w < n)%nat -> padded n (w ++ [0]) = padded n w.
Proof. intros. rewrite (padded_cons n w) by done. unfold padded. rewrite <- app_assoc, length_app. cbn [length app]. do 3 f_equal. lia. Qed.

(** The buffer after one round of the loop. *)
Lemma padded_set_end n w : (length w < n)%nat -> arr_set (padded n w) (Zlen w) 0 = Ret (padded n w).
Proof. intros. by rewrite padded_snoc, padded_zero by done. Qed.

Lemma padded_overwrite n w c d : (length w < n)%nat -> arr_set (padded n (w ++ [c])) (Zlen w) d = Ret (padded n (w ++ [d])).
Proof.
  intros H. rewrite arr_set_in by (unfold Zlen; rewrite length_padded by len; lia). f_equal.
  unfold Zlen, padded. rewrite Nat2Z.id, <- !app_assoc, insert_app_r_alt, Nat.sub_diag, !length_app by lia. done.
Qed.

Section editor.
Context {K : Type} `{!SysCalls K, !Keyboard K}.

Lemma get_input_spec n ks rest : 10 ∉ ks -> forall fuel k acc, pending k = ks ++ 10 :: rest -> (length ks < fuel)%nat ->
  (forall i, (length (foldl type_key acc (take i ks)) < n)%nat) ->
  exists k', get_input_loop fuel k (padded n acc) (Zlen acc) = Ret (padded n (foldl type_key acc ks), k') /\ pending k' = rest.
Proof using Type.
  induction ks as [|c ks IH]; intros H10 fuel k acc Hk Hf Hn; (destruct fuel as [|fuel]; [simpl in Hf; lia|]); cbn [get_input_loop].
  - destruct (key_pending k 10 rest Hk) as (k' & -> & Hk'). rewrite bind_ret. pose proof (Hn 0%nat) as H0. rewrite firstn_O in H0. cbn in H0.
    rewrite padded_snoc, bind_ret by done. change (10 =? 8) with false. change (10 =? 10) with true. cbv iota.
    rewrite padded_overwrite, padded_zero, bind_ret by done. by exists k'.
  - destruct (key_pending k c (ks ++ 10 :: rest) Hk) as (k' & -> & Hk'). rewrite bind_ret.
    apply not_elem_of_cons in H10 as [Hc H10]. cbn [length] in Hf.
    assert (Hn' : forall i, (length (foldl type_key (type_key acc c) (take i ks)) < n)%nat) by (intros i; apply (Hn (S i))).
    pose proof (Hn 0%nat) as H0. rewrite firstn_O in H0. cbn in H0. pose proof (Hn' 0%nat) as H1. rewrite firstn_O in H1. cbn [foldl] in H1.
    specialize (IH H10 fuel k' (type_key acc c) Hk' ltac:(lia) Hn'). cbn [foldl].
    remember (type_key acc c) as acc' eqn:E. unfold type_key in E. rewrite padded_snoc, bind_ret by done.
    destruct (Z.eqb_spec c 8) as [->|H8].
    { subst acc'. rewrite padded_overwrite, padded_zero, bind_ret by done. destruct acc as [|a acc _] using rev_ind; [exact IH|].
      rewrite removelast_last in *. rewrite (proj2 (Z.ltb_lt _ _)) by (rewrite Zlen_app; unfold Zlen; simpl; lia).
      replace (Zlen (acc ++ [a]) - 1) with (Zlen acc) by (rewrite Zlen_app; unfold Zlen; simpl; lia).
      rewrite padded_unsnoc, bind_ret by (rewrite length_app in H0; simpl in H0; lia). exact IH. }
    rewrite (proj2 (Z.eqb_neq c 10)) by congruence. destruct (Z.eqb_spec c 9) as [->|H9].
    { subst acc'. rewrite length_app in H1. cbn [length] in H1. rewrite padded_overwrite, bind_ret by done.
      replace (Zlen acc + 1) with (Zlen (acc ++ [32])) by (by rewrite Zlen_app).
      rewrite padded_snoc, bind_ret by len. rewrite <- app_assoc.
      by replace (Zlen acc + 2) with (Zlen (acc ++ [32; 32])) by (by rewrite Zlen_app). }
    destruct (Z.eqb_spec c 0) as [->|Hz]; subst acc'; cbn [negb].
    + by rewrite padded_zero by done.
    + by replace (Zlen acc + 1) with (Zlen (acc ++ [c])) by (by rewrite Zlen_app).
Qed.

(** C33: The line is read to its newline and the editing keys are
    applied: backspace removes the last character, tab stands for two blanks. *)
Theorem get_input_edits (k : K) (ks rest : list Z) (fuel : nat) :
  pending k = ks ++ 10 :: rest -> 10 ∉ ks -> (forall i, (length (typed (take i ks)) < 2048)%nat) -> (length ks < fuel)%nat ->
  exists k', get_input fuel k (replicate 2048 0) = Ret (padded 2048 (typed ks), k') /\ pending k' = rest.
Proof using Type. intros Hk H10 Hn Hf. exact (get_input_spec 2048 ks rest H10 fuel k [] Hk Hf Hn). Qed.
End editor.

(** ** Words *)

(** The maximal pieces without a blank. *)
Fixpoint words (w : list Z) : list (list Z) :=
  match w with
  | [] => []
  | c :: w' =>
      if c =? 32 then words w'
      else match w' with
           | [] => [[c]]
           | d :: _ =>
               if d =? 32 then [c] :: words w'
               else match words w' with x :: xs => (c :: x) :: xs | [] => [[c]] end
           end
  end.

(** A line is blanks, a word and the rest. *)
Lemma words_split w : exists k q r, w = replicate k 32 ++ q ++ r /\ Forall (.≠ 32) q /\
  (r = [] \/ exists r', r = 32 :: r') /\ words w = (if decide (q = []) then [] else q :: words r) /\ (q = [] -> r = []).
Proof.
  induction w as [|c w (k & q & r & Hw & Hq & Hr & Hws & Hqr)]; [exists 0%nat, [], []; by auto 6|]. cbn [words].
  destruct (Z.eqb_spec c 32) as [->|Hc]; [exists (S k), q, r; rewrite Hw at 1; done|].
  destruct w as [|d w]; [exists 0%nat, [c], []; split_and!; [done|by repeat constructor|by left|done|done]|].
  destruct (Z.eqb_spec d 32) as [->|Hd].
  { exists 0%nat, [c], (32 :: w). split_and!; [done|by repeat constructor|by eauto|done|done]. }
  destruct k as [|k]; [|by simplify_eq/=]. cbn in Hw. change (replicate 0 32) with (@nil Z) in Hw. cbn [app] in Hw.
  destruct q as [|d' q]; [rewrite (Hqr eq_refl) in Hw; done|]. exists 0%nat, (c :: d' :: q), r.
  rewrite Hws, decide_False by done. split_and!; [by rewrite Hw|by constructor|done| |done]. by rewrite decide_False.
Qed.

Definition rest_at (buf : list Z) (idx : Z) (w z : list Z) : Prop := 0 ≤ idx /\ drop (Z.to_nat idx) buf = w ++ 0 :: z.

Lemma rest_at_get buf idx w z c : rest_at buf idx (c :: w) z -> arr_get buf idx = Ret c /\ rest_at buf (idx + 1) w z.
Proof.
  intros [H0 Hd]. cbn in Hd. split.
  - apply arr_get_lookup; [done|]. pose proof (lookup_drop buf (Z.to_nat idx) 0) as H. rewrite Nat.add_0_r in H. by rewrite <- H, Hd.
  - split; [lia|]. replace (Z.to_nat (idx + 1)) with (Z.to_nat idx + 1)%nat by lia. by rewrite <- drop_drop, Hd.
Qed.

Lemma rest_at_end buf idx z : rest_at buf idx [] z -> arr_get buf idx = Ret 0.
Proof. intros [H0 Hd]. apply arr_get_lookup; [done|]. pose proof (lookup_drop buf (Z.to_nat idx) 0) as H. rewrite Nat.add_0_r in H. by rewrite <- H, Hd. Qed.

Lemma rest_at_app buf w : forall idx u z, rest_at buf idx (w ++ u) z -> rest_at buf (idx + Zlen w) u z.
Proof.
  induction w as [|c w IH]; intros idx u z H; [by rewrite Z.add_0_r|]. apply rest_at_get in H as [_ H]. apply IH in H.
  replace (idx + Zlen (c :: w)) with (idx + 1 + Zlen w); [done|]. unfold Zlen. simpl length. lia.
Qed.

Lemma rest_at_length buf idx w z : rest_at buf idx w z -> (length w < length buf)%nat.
Proof. intros [_ H]. apply (f_equal length) in H. rewrite length_drop, length_app in H. simpl in H. lia. Qed.

Lemma rest_at_strlen buf w z : rest_at buf 0 w z -> no_nul w -> CString.strlen buf = Ret (Zlen w).
Proof.
  intros [_ H] Hw. change (Z.to_nat 0) with 0%nat in H. rewrite drop_0 in H. subst buf.
  rewrite CString.strlen_correct, decide_True by set_solver. by rewrite CString.cstr_app_nul.
Qed.

Lemma blanks_spec buf k : forall fuel idx i u z, rest_at buf (idx + i) (replicate k 32 ++ u) z -> (u = [] \/ exists c u', u = c :: u' /\ c ≠ 32) ->
  (k < fuel)%nat -> scan_while fuel (fun i => c ← arr_get buf (idx + i); Ret (c =? 32)) i = Ret (i + Z.of_nat k).
Proof.
  induction k as [|k IH]; intros fuel idx i u z H Hu Hf; (destruct fuel as [|fuel]; [lia|]); cbn [scan_while].
  - change (replicate 0 32) with (@nil Z) in H. cbn [app] in H. destruct Hu as [->|(c & u' & -> & Hc)].
    + rewrite (rest_at_end _ _ _ H), bind_ret. cbn. by rewrite Z.add_0_r.
    + destruct (rest_at_get _ _ _ _ _ H) as [-> _]. rewrite bind_ret, (proj2 (Z.eqb_neq c 32)) by done. cbn. by rewrite Z.add_0_r.
  - rewrite replicate_S in H. cbn [app] in H. destruct (rest_at_get _ _ _ _ _ H) as [-> H']. rewrite bind_ret. cbn [Z.eqb Pos.eqb].
    rewrite <- Z.add_assoc in H'. rewrite bind_ret. erewrite IH by (done || lia). f_equal. lia.
Qed.

Lemma word_spec buf n q : forall fuel idx acc r z, rest_at buf idx (q ++ r) z -> Forall (.≠ 32) q -> no_nul q -> (r = [] \/ exists r', r = 32 :: r') ->
  (length q < fuel)%nat -> (length acc + length q < n)%nat ->
  copy_word_loop fuel buf (padded n acc) idx (Zlen acc) = Ret (padded n (acc ++ q), idx + Zlen q).
Proof.
  induction q as [|c q IH]; intros fuel idx acc r z H Hq H0 Hr Hf Hn; (destruct fuel as [|fuel]; [simpl in Hf; lia|]); cbn [copy_word_loop].
  - cbn [app] in H. rewrite app_nil_r. change (Zlen []) with 0. rewrite Z.add_0_r. destruct Hr as [->|(r' & ->)].
    + by rewrite (rest_at_end _ _ _ H), bind_ret.
    + destruct (rest_at_get _ _ _ _ _ H) as [-> _]. by rewrite bind_ret.
  - destruct (rest_at_get _ _ _ _ _ H) as [-> H']. rewrite bind_ret. apply Forall_cons in Hq as [Hc Hq]. apply Forall_cons in H0 as [Hc0 H0].
    rewrite (proj2 (Z.eqb_neq c 32)), (proj2 (Z.eqb_neq c 0)) by done. cbn [orb]. cbn [length] in *.
    rewrite padded_snoc, bind_ret by lia. replace (Zlen acc + 1) with (Zlen (acc ++ [c])) by (by rewrite Zlen_app).
    erewrite IH by (done || rewrite ?length_app; simpl; lia). rewrite <- app_assoc. do 2 f_equal. unfold Zlen. simpl length. lia.
Qed.

(** One blank-separated word is taken off the line. *)
Lemma take_word buf n idx w z : rest_at buf idx w z -> no_nul w -> (length (default [] (words w !! 0%nat)) < n)%nat ->
  exists i r j, ignore_blanks buf idx = Ret i /\ copy_word buf (replicate n 0) i = Ret (padded n (default [] (words w !! 0%nat)), j) /\
    rest_at buf j r z /\ no_nul r /\ words r = drop 1 (words w).
Proof.
  intros H H0 Hl. destruct (words_split w) as (k & q & r & -> & Hq & Hr & Hws & Hqr). pose proof (rest_at_length _ _ _ _ H) as Hlen.
  rewrite !length_app, length_replicate in Hlen. unfold no_nul in H0. rewrite !Forall_app in H0. destruct H0 as (_ & H0 & H0r).
  exists (idx + Z.of_nat k), r, (idx + Z.of_nat k + Zlen q). rewrite Hws in *. unfold ignore_blanks.
  erewrite blanks_spec with (k := k) (u := q ++ r) (z := z); [|by rewrite Z.add_0_r| |lia].
  2: { destruct q as [|c q]; [left; by rewrite (Hqr eq_refl)|right; exists c, (q ++ r)]. by apply Forall_cons in Hq as [? _]. }
  rewrite bind_ret, Z.add_0_l. split; [done|]. apply rest_at_app in H. unfold Zlen at 1 in H. rewrite length_replicate in H.
  split_and!; [|by apply rest_at_app in H|done|].
  - unfold copy_word. pose proof (word_spec buf n q (S (length buf)) (idx + Z.of_nat k) [] r z) as Hw.
    unfold padded at 1 in Hw. cbn [length app] in Hw. rewrite Nat.sub_0_r in Hw. change (Zlen []) with 0 in Hw.
    destruct (decide (q = [])) as [->|Hq0]; cbn in Hl.
    + cbn [copy_word_loop]. rewrite (Hqr eq_refl) in H. rewrite (rest_at_end _ _ _ H), bind_ret. cbn [orb Z.eqb].
      unfold padded. cbn. by rewrite Nat.sub_0_r, Z.add_0_r.
    + by rewrite Hw by (done || lia).
  - case_decide as Hd; [|done]. by rewrite (Hqr Hd).
Qed.

Lemma head_padded n q : no_nul q -> (length q < n)%nat -> exists c, arr_get (padded n q) 0 = Ret c /\ (c =? 0) = bool_decide (q = []).
Proof.
  intros Hq Hn. rewrite padded_cons by done. destruct q as [|c q]; [by exists 0|]. exists c. split; [done|].
  apply Forall_cons in Hq as [Hc _]. rewrite bool_decide_false by done. by apply Z.eqb_neq.
Qed.

Lemma words_nil_blanks w : words w = [] -> exists k, w = replicate k 32.
Proof. destruct (words_split w) as (k & q & r & -> & _ & _ & Hws & Hqr). rewrite Hws. case_decide as Hq; [|done]. intros _. exists k. by rewrite (Hqr Hq), Hq, !app_nil_r. Qed.

Lemma only_blanks_spec buf w : forall fuel idx z, rest_at buf idx w z -> no_nul w -> (length w < fuel)%nat ->
  only_blanks fuel buf idx = Ret (bool_decide (words w = [])).
Proof.
  induction w as [|c w IH]; intros fuel idx z H H0 Hf; (destruct fuel as [|fuel]; [simpl in Hf; lia|]); cbn [only_blanks].
  - by rewrite (rest_at_end _ _ _ H), bind_ret.
  - destruct (rest_at_get _ _ _ _ _ H) as [-> H']. rewrite bind_ret. apply Forall_cons in H0 as [Hc H0].
    rewrite (proj2 (Z.eqb_neq c 0)) by done. cbn [words]. destruct (Z.eqb_spec c 32) as [->|H32]; cbn [negb].
    + eapply IH; [done..|simpl in Hf; lia].
    + rewrite bool_decide_false; [done|]. destruct w as [|d w]; [done|]. destruct (d =? 32); [done|]. by destruct (words (d :: w)).
Qed.

Lemma words_no_nul w : no_nul w -> Forall no_nul (words w).
Proof.
  remember (length w) as n eqn:Hn. revert w Hn. induction n as [n IH] using lt_wf_ind. intros w Hn Hw.
  destruct (words_split w) as (k & q & r & -> & _ & _ & -> & _). case_decide as Hq; [constructor|].
  unfold no_nul in Hw. rewrite !Forall_app in Hw. destruct Hw as (_ & Hw & Hr). constructor; [done|].
  apply (IH (length r)); [|done|done]. rewrite Hn, !length_app. destruct q; [done|]. simpl. lia.
Qed.

Lemma words_nonempty w : Forall (.≠ []) (words w).
Proof.
  induction w as [|c w IH]; cbn [words]; [constructor|]. destruct (c =? 32); [done|].
  destruct w as [|d w]; [by repeat constructor|]. destruct (d =? 32); [by constructor|].
  destruct (words (d :: w)); [by repeat constructor|]. apply Forall_cons in IH as [_ IH]. by constructor.
Qed.

(** C32: The words of the command line, the count of its arguments and
    the code -1 for more than two of them: what [parse_input] computes is the
    split of the line at its blanks. *)
Theorem parse_input_splits (w : list Z) :
  no_nul w -> (length w < 2048)%nat -> (forall i, (i < 3)%nat -> (length (default [] (words w !! i)) < 512)%nat) ->
  parse_input (padded 2048 w) (replicate 512 0) (replicate 512 0) (replicate 512 0) 0 =
  Ret (if decide (length (words w) ≤ 3)%nat then 0 else -1,
       padded 512 (default [] (words w !! 0%nat)), padded 512 (default [] (words w !! 1%nat)), padded 512 (default [] (words w !! 2%nat)),
       Z.of_nat (min 2 (length (words w) - 1))).
Proof.
  intros Hw Hlen Hl. assert (H : rest_at (padded 2048 w) 0 w (replicate (2048 - length w - 1) 0)).
  { split; [done|]. change (Z.to_nat 0) with 0%nat. by rewrite drop_0, padded_cons. }
  pose proof (words_no_nul w Hw) as Hnn. unfold parse_input.
  destruct (take_word _ 512 _ _ _ H Hw) as (i1 & w1 & j1 & -> & Hc1 & H1 & Hw1 & E1); [by apply (Hl 0%nat); lia|].
  rewrite bind_ret, Hc1, bind_ret.
  destruct (take_word _ 512 _ _ _ H1 Hw1) as (i2 & w2 & j2 & -> & Hc2 & H2 & Hw2 & E2).
  { rewrite E1, lookup_drop. apply (Hl 1%nat). lia. }
  rewrite bind_ret, Hc2, bind_ret. rewrite E1, drop_drop in E2.
  destruct (take_word _ 512 _ _ _ H2 Hw2) as (i3 & w3 & j3 & -> & Hc3 & H3 & Hw3 & E3).
  { rewrite E2, lookup_drop. apply (Hl 2%nat). lia. }
  rewrite bind_ret, Hc3, bind_ret. rewrite E2, drop_drop in E3. rewrite E1, E2, !lookup_drop. cbn [Nat.add].
  assert (Hhead : forall i, (i < 3)%nat -> exists c, arr_get (padded 512 (default [] (words w !! i))) 0 = Ret c /\
    (c =? 0) = bool_decide (length (words w) ≤ i)%nat).
  { intros i Hi. destruct (head_padded 512 (default [] (words w !! i))) as (c & Hc & Hz); [|by apply Hl|].
    - destruct (words w !! i) eqn:E; [by eapply Forall_lookup_1|constructor].
    - exists c. split; [done|]. rewrite Hz. apply bool_decide_ext. destruct (words w !! i) as [q|] eqn:E; cbn.
      + pose proof (words_nonempty w) as Hne. rewrite Forall_lookup in Hne. specialize (Hne i q E). apply lookup_lt_Some in E. split; [done|lia].
      + apply lookup_ge_None in E. done. }
  destruct (Hhead 1%nat) as (c1 & -> & Hz1); [lia|]. destruct (Hhead 2%nat) as (c2 & -> & Hz2); [lia|]. rewrite !bind_ret.
  rewrite (only_blanks_spec _ _ _ _ _ H3 Hw3), bind_ret by (pose proof (rest_at_length _ _ _ _ H3); lia). rewrite E3, Hz1, Hz2.
  destruct (words w) as [|a [|b [|c [|d ws]]]]; done.
Qed.

Lemma parse_input_splits_witness :
  parse_input (padded 2048 (bytes_of_string "cp  a b")) (replicate 512 0) (replicate 512 0) (replicate 512 0) 0 =
  Ret (0, padded 512 (bytes_of_string "cp"), padded 512 (bytes_of_string "a"), padded 512 (bytes_of_string "b"), 2).
Proof.
  rewrite (parse_input_splits (bytes_of_string "cp  a b")); [done|by repeat constructor|apply Nat.ltb_lt; reflexivity|].
  intros i Hi. do 3 (destruct i as [|i]; [apply Nat.ltb_lt; reflexivity|]). lia.
Defined.
