(* ===== verification/DirTree.v ===== *)
(** * The directory tree of a volume

    [located] says which folder has which path, [tree_ok] that every folder is
    in its own cluster and knows its name and its parent, as fat32.c writes
    them.  [follow] is the walk along a list of names: where it leads, or why
    it does not. *)
From S2P Require Import Prelude CString BlockDevice FatLayout Fat32 FatFacts FatChain FatLoops FatSpec FatRefine FatWrite FatMount FatProps FatInvariant FatLimits ShellFacts.

(** The folder of the entry [e] of the directory [p]: it has a cluster of its
    own, and its table starts with its name and with its parent. *)
Record folder_ok (v : volume) (fat : list Z) (p : Z) (e : FAT32DirectoryEntry) : Prop := MkFolderOk {
  fo_taken : allocated fat (entry_cluster e);
  fo_used : user_attribute e = UATTR_NOT_EMPTY;
  fo_name : folder_name (CString.cstr (name e)) /\ (length (CString.cstr (name e)) ≤ 8)%nat;
  fo_self : exists e0, table_at v (entry_cluster e) !! 0%nat = Some e0 /\ attribute e0 = ATTR_SUBDIRECTORY /\
              name e0 = name e /\ ext e0 = replicate 3 0 /\ entry_cluster e0 = entry_cluster e;
  fo_parent : exists e1, table_at v (entry_cluster e) !! 1%nat = Some e1 /\ entry_cluster e1 = p
}.

(** The folder with cluster [c] has the path [ns]. *)
Inductive located (v : volume) : list (list Z) -> Z -> Prop :=
  | located_root : located v [] ROOT_CLUSTER_NUMBER
  | located_child ns p e : located v ns p -> e ∈ drop 2 (table_at v p) -> attribute e = ATTR_SUBDIRECTORY ->
      located v (ns ++ [CString.cstr (name e)]) (entry_cluster e).

Record tree_ok (v : volume) (fat : list Z) : Prop := MkTreeOk {
  tree_root : exists e0, table_at v ROOT_CLUSTER_NUMBER !! 0%nat = Some e0 /\ attribute e0 = ATTR_SUBDIRECTORY /\ ext e0 = replicate 3 0 /\
    entry_cluster e0 = ROOT_CLUSTER_NUMBER;
  tree_folder ns p e : located v ns p -> e ∈ drop 2 (table_at v p) -> attribute e = ATTR_SUBDIRECTORY -> folder_ok v fat p e
}.

(** The clusters of the map fit the low half of the number. *)
Lemma small_cluster e : entry_ok e -> in_map (entry_cluster e) -> cluster_low e = entry_cluster e.
Proof.
  intros He [H0 H1]. destruct (ok_clus e He) as [Hh Hl]. unfold entry_cluster, u32, wrap in *. unfold is_word in *.
  rewrite lor_shiftl_add in * by lia. rewrite Z.mod_small in * by lia. lia.
Qed.

Section tree.
Context (v : volume) (fat : list Z) (Htree : tree_ok v fat).

Lemma located_map ns c : located v ns c -> in_map c.
Proof using Htree. intros [|ns' p e Hl He Ha]; [done|]. eapply allocated_in_map, (fo_taken v fat p e). by eapply tree_folder. Qed.

Lemma located_allocated ns c : allocated fat ROOT_CLUSTER_NUMBER -> located v ns c -> allocated fat c.
Proof using Htree. intros Hr [|ns' p e Hl He Ha]; [done|]. apply (fo_taken v fat p e). by eapply tree_folder. Qed.

Lemma located_dir ns c : located v ns c -> is_dir (table_at v c) = true.
Proof using Htree.
  intros [|ns' p e Hl He Ha]; [destruct (tree_root v fat Htree) as (e0 & H0 & Ha & _); unfold is_dir; by rewrite H0, Ha|]. destruct (fo_self v fat p e) as (e0 & H0 & Ha0 & _); [by eapply tree_folder|].
  unfold is_dir. by rewrite H0, Ha0.
Qed.

(** A folder's table starts with its own cluster. *)
Lemma located_self ns c : located v ns c -> exists e0, table_at v c !! 0%nat = Some e0 /\ entry_cluster e0 = c /\
  forall ns' w, ns = ns' ++ [w] -> CString.cstr (name e0) = w.
Proof using Htree.
  intros [|ns' p e Hl He Ha].
  - destruct (tree_root v fat Htree) as (e0 & H0 & _ & _ & Hc). exists e0. split; [exact H0|]. split; [exact Hc|]. by intros [|].
  - destruct (fo_self v fat p e) as (e0 & H0 & _ & Hn & _ & Hc); [by eapply tree_folder|]. exists e0. split; [exact H0|]. split; [exact Hc|].
    intros ns2 w [_ Heq]%app_inj_tail. by rewrite Hn.
Qed.

Lemma located_names ns c : located v ns c -> Forall folder_name ns.
Proof using Htree.
  induction 1 as [|ns p e Hl IH He Ha]; [done|]. apply Forall_app. split; [done|]. constructor; [|done].
  apply (fo_name v fat p e). by eapply tree_folder.
Qed.

Lemma located_up ns w c : located v (ns ++ [w]) c -> exists e1, table_at v c !! 1%nat = Some e1 /\ located v ns (entry_cluster e1).
Proof using Htree.
  intros H. inversion H as [Heq Hc|ns' p e Hl He Ha Heq Hc]; [by destruct ns|]. apply app_inj_tail in Heq as [-> <-].
  destruct (fo_parent v fat p e) as (e1 & H1 & <-); [by eapply tree_folder|]. by exists e1.
Qed.
End tree.

(** ** The walk *)

(** A name as a request carries it. *)
Definition name8 (w : list Z) : list Z := take 8 (w ++ replicate 8 0).

Definition parent_of (v : volume) (c : Z) : Z := match table_at v c !! 1%nat with Some e => entry_cluster e | None => 0 end.

Inductive walked :=
  | Arrived (c : Z) (ns : list (list Z))
  | Refused (err : Z)
  | Stuck.

Fixpoint follow (v : volume) (path : list (list Z)) (c : Z) (ns : list (list Z)) : walked :=
  match path with
  | [] => Arrived c ns
  | w :: path' =>
      if decide (w = bytes_of_string "..") then
        if decide (ns = []) then Stuck else follow v path' (parent_of v c) (removelast ns)
      else if decide (w = bytes_of_string ".") then follow v path' c ns
      else match lookup_first (has_name (name8 w)) (drop 2 (table_at v c)) with
           | None => Refused 2
           | Some e =>
               if attribute e =? ATTR_SUBDIRECTORY then follow v path' (entry_cluster e) (ns ++ [CString.cstr (name e)])
               else Refused 1
           end
  end.


(** Every name adds at most nine characters to the printed path. *)
Lemma follow_room v fat : tree_ok v fat -> forall path c ns, located v ns c ->
  match follow v path c ns with
  | Arrived c' ns' => located v ns' c' /\ (length (joined ns') ≤ length (joined ns) + 9 * length path)%nat
  | _ => True
  end.
Proof.
  intros Htree path. induction path as [|w path IH]; intros c ns Hl; cbn [follow length]; [split; [done|lia]|].
  destruct (decide (w = bytes_of_string "..")).
  - destruct (decide (ns = [])) as [|Hne]; [done|]. destruct ns as [|w0 ns _] using rev_ind; [done|]. rewrite removelast_last.
    destruct (located_up v fat Htree ns w0 c Hl) as (e1 & H1 & Hup). unfold parent_of. rewrite H1. specialize (IH _ _ Hup).
    destruct (follow _ _ _ _); [|done..]. rewrite joined_snoc, length_app. split; [apply IH|destruct IH; lia].
  - destruct (decide (w = bytes_of_string ".")); [specialize (IH c ns Hl); destruct (follow _ _ _ _); [|done..]; destruct IH; split; [done|lia]|].
    destruct (lookup_first _ _) as [e|] eqn:E; [|done]. destruct (Z.eqb_spec (attribute e) ATTR_SUBDIRECTORY) as [Ha|]; [|done].
    apply lookup_first_Some in E as (_ & E & _). apply list_elem_of_lookup_2 in E. specialize (IH _ _ (located_child v ns c e Hl E Ha)).
    destruct (fo_name v fat c e) as [_ H8]; [by eapply tree_folder|]. destruct (follow _ _ _ _); [|done..].
    rewrite joined_snoc, length_app in IH. cbn [length] in IH. destruct IH. split; [done|lia].
Qed.

(** ** A new folder in the tree *)

Lemma root_allocated m : mounted m -> allocated (fat_table m) ROOT_CLUSTER_NUMBER.
Proof.
  intros Hm. destruct (mnt_reserved m Hm 2) as (x & Hx & Hne); [lia|]. split; [unfold ROOT_CLUSTER_NUMBER; lia|]. unfold ROOT_CLUSTER_NUMBER. rewrite Hx. congruence.
Qed.

Lemma elem_drop {A} (t : list A) e k : e ∈ drop k t <-> exists i, (k ≤ i)%nat /\ t !! i = Some e.
Proof.
  rewrite list_elem_of_lookup. setoid_rewrite lookup_drop. split.
  - intros (i & Hi). exists (k + i)%nat. split; [lia|done].
  - intros (i & Hi & He). exists (i - k)%nat. rewrite <- He. f_equal. lia.
Qed.

Section new_folder.
Context (v : volume) (m : driver) (rq : FAT32DriverRequest).
Context (Hlen : length v = 512%nat) (Hblocks : forall c, in_map c -> block_ok (vol_get v c)).
Context (Hm : mounted m) (Hrq : request_ok rq) (Htree : tree_ok v (fat_table m)).
Notation p := (parent_cluster_number rq).
Notation c := (first_free (fat_table m)).
Context (pns : list (list Z)) (Hp : located v pns p).
Context (Hslot : count free_slot (drop 2 (table_at v p)) ≠ 0%nat) (Hfits : free_clusters (fat_table m) ≠ 0).
Context (Hname : folder_name (CString.cstr (req_name rq))).
Notation v' := (spec_write_folder v m rq).1.
Notation entry e0 := (new_entry e0 (req_name rq) (req_ext rq) ATTR_SUBDIRECTORY c (buffer_size rq)).

Lemma located_ne ns x : located v ns x -> in_map x /\ x ≠ c /\ x ≠ 1.
Proof using All.
  intros Hl. pose proof (located_allocated v _ Htree ns x (root_allocated m Hm) Hl) as Ha. split; [by eapply allocated_in_map|].
  destruct (first_free_mounted m Hm Hfits) as (_ & H0 & _). split; [|destruct Ha; lia]. intros ->. by destruct Ha as [_ []].
Qed.

Lemma old_table x : located v pns x \/ in_map x -> x ≠ p -> x ≠ c -> x ≠ 1 -> table_at v' x = table_at v x.
Proof using All.
  intros Hx Hxp Hxc Hx1. unfold table_at. f_equal. apply vol_write_folder; try done; [by apply (located_ne pns)|]. destruct Hx as [Hx|Hx]; [by apply (located_ne pns)|done].
Qed.

Lemma parent_room : table_ok (table_at v p) /\ (new_slot (table_at v p) < 64)%nat.
Proof using All.
  destruct (Hblocks p) as [Hl Hb]; [by apply (located_ne pns)|].
  assert (Ht : table_ok (table_at v p)).
  { split; [apply length_dec_array|]. exact (dec_array_wf (A := FAT32DirectoryEntry) ENTRY_COUNT _ Hl Hb). }
  split; [done|]. unfold new_slot. assert (0 < count free_slot (drop 2 (table_at v p)))%nat as Hpos by lia.
  apply count_pos in Hpos. rewrite length_drop, (proj1 Ht) in Hpos. change ENTRY_COUNT with 64%nat in Hpos. lia.
Qed.

(** The slot that is filled in was not a folder. *)
Lemma parent_table : exists e0, table_at v p !! new_slot (table_at v p) = Some e0 /\ free_slot e0 = true /\
  table_at v' p = <[new_slot (table_at v p) := entry e0]> (table_at v p).
Proof using All.
  destruct parent_room as [Ht Hs]. destruct (new_slot_lookup _ Ht Hs) as (e0 & He & _). exists e0. split; [done|]. split.
  - unfold new_slot in He, Hs. rewrite <- lookup_drop in He. destruct (first_idx_lookup free_slot (drop 2 (table_at v p))) as (x & Hx & Hf).
    { rewrite length_drop, (proj1 Ht). change ENTRY_COUNT with 64%nat. lia. }
    congruence.
  - destruct (located_ne _ _ Hp) as (Hpm & Hpc & Hp1). destruct (first_free_mounted m Hm Hfits) as (Hc & _ & _).
    unfold spec_write_folder, table_at at 1. cbn [fst]. rewrite vol_get_insert, decide_True by (rewrite ?length_insert; done || unfold in_map; lia).
    rewrite <- (add_entry_eq _ rq ATTR_SUBDIRECTORY c e0) by done. apply dec_enc_table. by apply add_entry_ok.
Qed.

Lemma child_table : table_at v' c = new_directory (req_name rq) c p.
Proof using All.
  destruct (located_ne _ _ Hp) as (Hpm & Hpc & Hp1). destruct (first_free_mounted m Hm Hfits) as (Hc & _ & _).
  unfold spec_write_folder, table_at. cbn [fst]. rewrite !vol_get_insert by (rewrite ?length_insert; done || unfold in_map; lia).
  rewrite decide_False, decide_True by done. apply dec_enc_table, new_directory_ok; apply Hrq.
Qed.

(** The folders of a directory before and after. *)
Lemma folder_entry x ns e : located v ns x -> attribute e = ATTR_SUBDIRECTORY ->
  e ∈ drop 2 (table_at v x) -> e ∈ drop 2 (table_at v' x).
Proof using All.
  intros Hl Ha He. destruct (located_ne _ _ Hl) as (Hx & Hxc & Hx1). destruct (decide (x = p)) as [->|Hxp].
  - destruct parent_table as (e0 & H0 & Hf & ->). rewrite elem_drop in *. destruct He as (i & Hi & He). exists i. split; [done|].
    rewrite list_lookup_insert_ne; [done|]. intros <-. rewrite H0 in He. injection He as <-.
    assert (Hu : user_attribute e0 = UATTR_NOT_EMPTY).
    { apply (fo_used v (fat_table m) p). eapply tree_folder; [done..| |done]. apply elem_drop. eauto. }
    unfold free_slot in Hf. by rewrite Hu in Hf.
  - by rewrite old_table by auto.
Qed.

Lemma folder_entry_inv x ns e : located v ns x -> e ∈ drop 2 (table_at v' x) ->
  e ∈ drop 2 (table_at v x) \/ x = p /\ exists e0, e = entry e0.
Proof using All.
  intros Hl He. destruct (located_ne _ _ Hl) as (Hx & Hxc & Hx1). destruct (decide (x = p)) as [->|Hxp].
  - destruct parent_table as (e0 & H0 & Hf & Ht). rewrite Ht in He. rewrite elem_drop in *. destruct He as (i & Hi & He).
    destruct (decide (i = new_slot (table_at v p))) as [->|Hne].
    + rewrite list_lookup_insert_eq in He by by eapply lookup_lt_Some. injection He as <-. right. by eauto.
    + rewrite list_lookup_insert_ne in He by done. left. eauto.
  - left. by rewrite old_table in He by auto.
Qed.

Lemma new_cluster e0 : entry_cluster (entry e0) = c.
Proof using All. destruct (first_free_mounted m Hm Hfits) as (Hc & _ & _). apply entry_cluster_new, in_map_word. unfold in_map. lia. Qed.

Lemma located_kept ns x : located v ns x -> located v' ns x.
Proof using All. induction 1 as [|ns x e Hl IH He Ha]; [constructor|]. eapply located_child; [done| |done]. by eapply folder_entry. Qed.

Lemma located_inv ns x : located v' ns x -> located v ns x \/ x = c.
Proof using All.
  induction 1 as [|ns x e Hl IH He Ha]; [left; constructor|]. destruct IH as [IH| ->].
  - destruct (folder_entry_inv _ _ _ IH He) as [He'|(-> & e0 & ->)]; [left; by eapply located_child|right; apply new_cluster].
  - rewrite child_table in He. unfold new_directory in He. cbn [drop] in He. rewrite drop_0 in He.
    apply elem_of_replicate in He as [-> _]. done.
Qed.

Lemma first_two x ns i : located v ns x -> (i < 2)%nat -> table_at v' x !! i = table_at v x !! i.
Proof using All.
  intros Hl Hi. destruct (located_ne _ _ Hl) as (Hx & Hxc & Hx1). destruct (decide (x = p)) as [->|Hxp]; [|by rewrite old_table by auto].
  destruct parent_table as (e0 & _ & _ & ->). rewrite list_lookup_insert_ne; [done|]. unfold new_slot. lia.
Qed.

Lemma fat_kept x : allocated (fat_table m) x -> allocated (fat_table (spec_write_folder v m rq).2) x.
Proof using All.
  destruct (first_free_mounted m Hm Hfits) as (Hc & H0 & _). intros [Hx Hne]. split; [done|].
  unfold spec_write_folder, link. cbn [snd fat_table link_path last_from]. destruct (decide (x = c)) as [->|Hxc]; [by destruct Hne|].
  rewrite list_lookup_insert_ne by (intros ?; apply Hxc; lia). done.
Qed.

(** The tree stays a tree. *)
Lemma folder_keeps_tree : tree_ok v' (fat_table (spec_write_folder v m rq).2).
Proof using All.
  split.
  - rewrite (first_two ROOT_CLUSTER_NUMBER [] 0 (located_root v)) by lia. exact (tree_root v _ Htree).
  - intros ns x e Hl He Ha. apply located_inv in Hl as [Hl| ->].
    + destruct (folder_entry_inv _ _ _ Hl He) as [He'|(-> & e0 & ->)].
      * pose proof (tree_folder v _ Htree ns x e Hl He' Ha) as [Htk Hus Hnm (es & Hs0 & Hs) (ep & Hp1 & Hpe)].
        pose proof (located_child v ns x e Hl He' Ha) as Hch. split; [by apply fat_kept|done|done| |].
        -- exists es. by rewrite (first_two _ _ 0 Hch) by lia.
        -- exists ep. by rewrite (first_two _ _ 1 Hch) by lia.
      * destruct (first_free_mounted m Hm Hfits) as (Hc & H0 & _). split; rewrite ?new_cluster.
        -- split; [lia|]. unfold spec_write_folder, link. cbn [snd fat_table link_path last_from].
           rewrite list_lookup_insert_eq; [done|]. by eapply lookup_lt_Some.
        -- done.
        -- split; [done|]. etrans; [apply cstr_le|]. cbn. by destruct Hrq as [[-> _] _ _].
        -- eexists. rewrite child_table. split; [done|]. cbn. split_and!; try done. apply entry_cluster_new, in_map_word. unfold in_map. lia.
        -- eexists. rewrite child_table. split; [done|]. apply entry_cluster_new, in_map_word. by apply (located_ne pns).
    + rewrite child_table in He. unfold new_directory in He. cbn [drop] in He. rewrite drop_0 in He.
      apply elem_of_replicate in He as [-> _]. done.
Qed.

(** The new folder is in it. *)
Lemma folder_located : located v' (pns ++ [CString.cstr (req_name rq)]) c.
Proof using All.
  destruct parent_table as (e0 & H0 & _ & Ht). pose proof (located_child v' pns p (entry e0)) as Hl. rewrite new_cluster in Hl.
  apply Hl; [by apply located_kept| |done].
  rewrite Ht. apply elem_drop. eexists. split; [|apply list_lookup_insert_eq; by eapply lookup_lt_Some]. unfold new_slot. lia.
Qed.
End new_folder.
