(* ===== verification/DiskTree.v ===== *)
(** * Files in the directory tree

    [disk_ok] ties the directory tree to the allocation table: every slot in
    use owns one chain of the table, folders one cluster and files as many as
    their size needs, and no two slots share a cluster.  Writing a file or a
    folder keeps it and leaves every other file as it was. *)
From S2P Require Import Prelude CString BlockDevice FatLayout Fat32 FatFacts FatChain FatLoops FatSpec FatRefine FatWrite FatMount FatProps FatInvariant FatLimits ShellFacts DirTree.

(** Slot [i] of the directory [p] holds [e]. *)
Definition in_use (v : volume) (p : Z) (i : nat) (e : FAT32DirectoryEntry) : Prop :=
  (2 ≤ i)%nat /\ table_at v p !! i = Some e /\ user_attribute e = UATTR_NOT_EMPTY.

Record disk_ok (v : volume) (fat : list Z) (cs : list (list Z)) : Prop := MkDiskOk {
  dk_tree : tree_ok v fat;
  dk_part : partitioned fat cs;
  dk_root : [ROOT_CLUSTER_NUMBER] ∈ cs;
  dk_chain ns p i e : located v ns p -> in_use v p i e -> entry_clusters fat e ∈ cs /\ entry_cluster e ≠ ROOT_CLUSTER_NUMBER;
  dk_size ns p i e : located v ns p -> in_use v p i e -> attribute e ≠ ATTR_SUBDIRECTORY ->
    Zlen (entry_clusters fat e) = number_of_partition (filesize e);
  dk_own ns p i e ns' p' i' e' : located v ns p -> in_use v p i e -> located v ns' p' -> in_use v p' i' e' ->
    entry_cluster e = entry_cluster e' -> p = p' /\ i = i';
  dk_unique ns p i e i' e' : located v ns p -> in_use v p i e -> in_use v p i' e' ->
    name e = name e' -> ext e = ext e' -> attribute e = attribute e' -> i = i';
  dk_kind ns p i e : located v ns p -> in_use v p i e -> attribute e = ATTR_SUBDIRECTORY \/ attribute e = 0;
  dk_blank ns p i e : located v ns p -> (2 ≤ i)%nat -> table_at v p !! i = Some e -> free_slot e = true -> e = empty_entry
}.

(** The bytes of the file of the entry [e]. *)
Definition file_data (v : volume) (fat : list Z) (e : FAT32DirectoryEntry) : list Z :=
  take (Z.to_nat (filesize e)) (get_data v (entry_clusters fat e)).

(** The folder of the cluster [p] holds a file of that name, with the contents [data]. *)
Definition file_at (v : volume) (fat : list Z) (p : Z) (nm ex data : list Z) : Prop :=
  exists ns i e, located v ns p /\ in_use v p i e /\ attribute e ≠ ATTR_SUBDIRECTORY /\ name e = nm /\ ext e = ex /\ file_data v fat e = data.

Lemma file_at_slot v fat ns p i e : located v ns p -> in_use v p i e -> attribute e ≠ ATTR_SUBDIRECTORY ->
  file_at v fat p (name e) (ext e) (file_data v fat e).
Proof. intros Hl Hu Ha. exists ns, i, e. exact (conj Hl (conj Hu (conj Ha (conj eq_refl (conj eq_refl eq_refl))))). Qed.

(** ** Chains *)

Lemma same_chain (cs : list (list Z)) l1 l2 x : NoDup (concat cs) -> l1 ∈ cs -> l2 ∈ cs -> x ∈ l1 -> x ∈ l2 -> l1 = l2.
Proof.
  induction cs as [|l cs IH]; intros Hnd H1 H2 Hx1 Hx2; [by apply elem_of_nil in H1|]. cbn [concat] in Hnd.
  apply NoDup_app in Hnd as (_ & Hdis & Hnd). apply elem_of_cons in H1, H2.
  destruct H1 as [->|H1], H2 as [->|H2]; [done| | |by apply IH]; exfalso; eapply Hdis; [done|apply elem_concat; eauto|done|apply elem_concat; eauto].
Qed.

Lemma entry_clusters_head fat e : exists l, entry_clusters fat e = entry_cluster e :: l.
Proof. unfold entry_clusters, chain_of. destruct (_ =? _); [by eexists|]. cbn [walk]. by eexists. Qed.

Lemma entry_in_clusters fat e : entry_cluster e ∈ entry_clusters fat e.
Proof. destruct (entry_clusters_head fat e) as [l ->]. apply elem_of_cons. by left. Qed.

Lemma listed_chain fat cs e : partitioned fat cs -> entry_clusters fat e ∈ cs -> chain fat (entry_cluster e) (entry_clusters fat e).
Proof.
  intros [Hch _ _] Hin. eapply Forall_forall in Hch as [c Hc]; [|exact Hin].
  destruct (chain_head _ _ _ Hc) as [l Hl], (entry_clusters_head fat e) as [l' Hl']. rewrite Hl' in *. injection Hl as <- <-. exact Hc.
Qed.

Lemma entry_clusters_ext fat fat' e : chain fat (entry_cluster e) (entry_clusters fat e) ->
  (forall x, x ∈ entry_clusters fat e -> fat'.[x] = fat.[x]) -> entry_clusters fat' e = entry_clusters fat e.
Proof.
  intros Hc Hext. pose proof (chain_ext _ fat' _ _ Hc Hext) as Hc'. unfold entry_clusters in *. destruct (_ =? _); [done|]. by apply chain_chain_of.
Qed.

Lemma listed_allocated fat cs l x : partitioned fat cs -> l ∈ cs -> x ∈ l -> allocated fat x.
Proof. intros Hp Hl Hx. apply (part_used _ _ Hp), elem_concat. eauto. Qed.

Section disk.
Context (v : volume) (fat : list Z) (cs : list (list Z)) (Hd : disk_ok v fat cs).

Lemma folder_in_use ns p i e : located v ns p -> (2 ≤ i)%nat -> table_at v p !! i = Some e -> attribute e = ATTR_SUBDIRECTORY -> in_use v p i e.
Proof using Hd.
  intros Hl Hi He Ha. split_and!; [done|done|]. apply (fo_used v fat p). eapply (tree_folder v); [apply Hd|done| |done]. apply elem_drop. eauto.
Qed.

(** A folder is the root or the folder of a slot, and has one cluster. *)
Lemma located_slot ns x : located v ns x -> [x] ∈ cs /\
  (x = ROOT_CLUSTER_NUMBER \/ exists ns' p i e, located v ns' p /\ in_use v p i e /\ attribute e = ATTR_SUBDIRECTORY /\ x = entry_cluster e).
Proof using Hd.
  intros [|ns' p e Hl He Ha]; [split; [apply Hd|by left]|]. apply elem_drop in He as He'. destruct He' as (i & Hi & Hp).
  pose proof (folder_in_use _ _ _ _ Hl Hi Hp Ha) as Hu. split.
  - destruct (dk_chain _ _ _ Hd _ _ _ _ Hl Hu) as [Hin _]. unfold entry_clusters in Hin. by rewrite (proj2 (Z.eqb_eq _ _) Ha) in Hin.
  - right. by exists ns', p, i, e.
Qed.

(** The folder of an entry is reached over that entry only. *)
Lemma located_of_slot ns x ns' p i e : located v ns x -> located v ns' p -> in_use v p i e -> x ∈ entry_clusters fat e ->
  attribute e = ATTR_SUBDIRECTORY /\ x = entry_cluster e.
Proof using Hd.
  intros Hx Hp Hu Hin. destruct (located_slot _ _ Hx) as [Hcs Hcase]. destruct (dk_chain _ _ _ Hd _ _ _ _ Hp Hu) as [Hec Hroot].
  assert (Heq : [x] = entry_clusters fat e) by (eapply same_chain; [apply (part_nodup _ _ (dk_part _ _ _ Hd))|done..|by apply list_elem_of_singleton|done]).
  destruct (entry_clusters_head fat e) as [l Hl]. rewrite Hl in Heq. injection Heq as -> _. split; [|done].
  destruct Hcase as [|(ns2 & p2 & i2 & e2 & Hl2 & Hu2 & Ha2 & Heq)]; [done|].
  destruct (dk_own _ _ _ Hd _ _ _ _ _ _ _ _ Hp Hu Hl2 Hu2 Heq) as [<- <-].
  destruct Hu as (_ & H1 & _), Hu2 as (_ & H2 & _). congruence.
Qed.

(** A folder has one path. *)
Lemma located_path ns x : located v ns x -> forall ns', located v ns' x -> ns = ns'.
Proof using Hd.
  assert (Hslot : forall ns p e, located v ns p -> e ∈ drop 2 (table_at v p) -> attribute e = ATTR_SUBDIRECTORY ->
    exists i, in_use v p i e).
  { intros ns0 p e Hl He Ha. apply elem_drop in He as (i & Hi & He). exists i. by eapply folder_in_use. }
  induction 1 as [|ns p e Hl IH He Ha]; intros ns' Hl'.
  - inversion Hl' as [|ns2 p2 e2 Hl2 He2 Ha2 Hns Hr]; [done|]. destruct (Hslot _ _ _ Hl2 He2 Ha2) as [i2 Hu2].
    by destruct (dk_chain _ _ _ Hd _ _ _ _ Hl2 Hu2).
  - destruct (Hslot _ _ _ Hl He Ha) as [i Hu]. inversion Hl' as [Hns Hr|ns2 p2 e2 Hl2 He2 Ha2 Hns Hx].
    + by destruct (dk_chain _ _ _ Hd _ _ _ _ Hl Hu).
    + destruct (Hslot _ _ _ Hl2 He2 Ha2) as [i2 Hu2]. destruct (dk_own _ _ _ Hd _ _ _ _ _ _ _ _ Hl Hu Hl2 Hu2) as [<- <-]; [done|].
      rewrite (IH _ Hl2). destruct Hu as (_ & H1 & _), Hu2 as (_ & H2 & _). congruence.
Qed.

Lemma slot_allocated ns p i e x : located v ns p -> in_use v p i e -> x ∈ entry_clusters fat e -> allocated fat x.
Proof using Hd. intros Hl Hu. eapply listed_allocated; [apply Hd|]. by eapply dk_chain. Qed.
End disk.

(** ** One entry more *)
Section added.
Context (v v' : volume) (fat : list Z) (cs : list (list Z)) (c : Z) (l : list Z) (p : Z) (slot : nat) (e' : FAT32DirectoryEntry).
Context (Hd : disk_ok v fat cs) (Hlen : length fat = 512%nat) (pns : list (list Z)) (Hp : located v pns p).
Context (Hfree : Forall (fun d => 3 ≤ d < 512 /\ fat.[d] = Some 0) (c :: l)) (Hndl : NoDup (c :: l)).
Context (Htree : tree_ok v' (link fat c l)).
Context (Hold : forall ns x j e, located v' ns x -> in_use v' x j e ->
  (exists ns', located v ns' x) /\ in_use v x j e \/ x = p /\ j = slot /\ e = e').
Context (Hnew : entry_clusters (link fat c l) e' = c :: l).
Context (Hsize : attribute e' ≠ ATTR_SUBDIRECTORY -> Zlen (c :: l) = number_of_partition (filesize e')).
Context (Hunique : forall j e, in_use v p j e -> name e = name e' -> ext e = ext e' -> attribute e ≠ attribute e').
Context (Hkind : attribute e' = ATTR_SUBDIRECTORY \/ attribute e' = 0).
Context (Hblank : forall ns x j e, located v' ns x -> (2 ≤ j)%nat -> table_at v' x !! j = Some e -> free_slot e = true -> e = empty_entry).

Lemma added_disjoint x : allocated fat x -> x ∉ c :: l.
Proof using Hfree Hlen. intros [_ Hne] Hin. eapply Forall_forall in Hfree; [|exact Hin]. naive_solver. Qed.

Lemma added_cluster : entry_cluster e' = c.
Proof using Hnew. destruct (entry_clusters_head (link fat c l) e') as [l' Hl]. rewrite Hnew in Hl. by injection Hl. Qed.

Lemma added_in_map : Forall in_map (c :: l).
Proof using Hfree Hlen. eapply Forall_impl; [exact Hfree|]. intros x [? _]. unfold in_map. lia. Qed.

Lemma kept_clusters ns x j e : located v ns x -> in_use v x j e -> entry_clusters (link fat c l) e = entry_clusters fat e.
Proof using Hd Hfree Hlen.
  intros Hl Hu. destruct (dk_chain _ _ _ Hd _ _ _ _ Hl Hu) as [Hin _]. pose proof (listed_chain _ _ _ (dk_part _ _ _ Hd) Hin) as Hc.
  apply entry_clusters_ext; [done|]. intros y Hy. apply lookup_link_ne; [apply added_in_map| |].
  - eapply Forall_forall; [by eapply chain_in_map|done].
  - by eapply added_disjoint, slot_allocated.
Qed.

Lemma kept_not_new ns x j e : located v ns x -> in_use v x j e -> entry_cluster e ≠ c.
Proof using Hd Hfree Hlen.
  intros Hl Hu Heq. pose proof (slot_allocated _ _ _ Hd _ _ _ _ _ Hl Hu (entry_in_clusters fat e)) as Ha. apply added_disjoint in Ha.
  apply Ha. rewrite Heq. apply elem_of_cons. by left.
Qed.

Lemma disk_added : disk_ok v' (link fat c l) ((c :: l) :: cs).
Proof using All.
  split; [done| |apply elem_of_cons; right; apply Hd| | | | | |done].
  - by apply partition_link; [|apply Hd|..].
  - intros ns x j e Hl Hu. destruct (Hold _ _ _ _ Hl Hu) as [([ns' Hl'] & Hu')|(-> & -> & ->)].
    + erewrite kept_clusters by done. destruct (dk_chain _ _ _ Hd _ _ _ _ Hl' Hu') as [Hin Hr]. split; [|done]. apply elem_of_cons. by right.
    + rewrite Hnew, added_cluster. split; [apply elem_of_cons; by left|]. apply Forall_cons in Hfree as [[? _] _]. unfold ROOT_CLUSTER_NUMBER. lia.
  - intros ns x j e Hl Hu Ha. destruct (Hold _ _ _ _ Hl Hu) as [([ns' Hl'] & Hu')|(-> & -> & ->)].
    + erewrite kept_clusters by done. by eapply dk_size.
    + rewrite Hnew. by apply Hsize.
  - intros ns x j e ns2 x2 j2 e2 Hl Hu Hl2 Hu2 Heq.
    destruct (Hold _ _ _ _ Hl Hu) as [([ns' Hl'] & Hu')|(-> & -> & ->)], (Hold _ _ _ _ Hl2 Hu2) as [([ns2' Hl2'] & Hu2')|(-> & -> & ->)]; [|..|done].
    + by eapply dk_own.
    + rewrite added_cluster in Heq. by destruct (kept_not_new _ _ _ _ Hl' Hu').
    + rewrite added_cluster in Heq. by destruct (kept_not_new _ _ _ _ Hl2' Hu2').
  - intros ns x j e j2 e2 Hl Hu Hu2 Hn Hx Ha.
    destruct (Hold _ _ _ _ Hl Hu) as [([ns' Hl'] & Hu')|(-> & -> & ->)], (Hold _ _ _ _ Hl Hu2) as [([ns2' Hl2'] & Hu2')|(Hxp & -> & ->)]; [|..|done].
    + by eapply dk_unique.
    + subst. by destruct (Hunique _ _ Hu').
    + by destruct (Hunique _ _ Hu2').
  - intros ns x j e Hl Hu. destruct (Hold _ _ _ _ Hl Hu) as [([ns' Hl'] & Hu')|(-> & -> & ->)]; [by eapply dk_kind|exact Hkind].
Qed.
End added.

(** ** Writing a file *)
Section new_file.
Context (v : volume) (m : driver) (rq : FAT32DriverRequest) (cs : list (list Z)).
Context (Hlen : length v = 512%nat) (Hblocks : forall c, in_map c -> block_ok (vol_get v c)).
Context (Hm : mounted m) (Hrq : request_ok rq) (Hd : disk_ok v (fat_table m) cs).
Notation p := (parent_cluster_number rq).
Notation c := (first_free (fat_table m)).
Context (pns : list (list Z)) (Hp : located v pns p).
Context (Hslot : count free_slot (drop 2 (table_at v p)) ≠ 0%nat) (Hsz : buffer_size rq ≠ 0).
Context (Hfits : number_of_partition (buffer_size rq) ≤ free_clusters (fat_table m)).
Notation v' := (spec_write_file v m rq).1.
Notation fat' := (fat_table (spec_write_file v m rq).2).
Notation slot := (new_slot (table_at v p)).

Definition file_entry : FAT32DirectoryEntry := new_entry empty_entry (req_name rq) (req_ext rq) 0 c (buffer_size rq).

Lemma located_kept_apart ns x : located v ns x -> in_map x /\ x ≠ 1 /\ x ∉ new_clusters m rq.
Proof using All.
  intros Hl. destruct (located_slot _ _ _ Hd _ _ Hl) as [Hcs _].
  pose proof (listed_allocated _ _ _ x (dk_part _ _ _ Hd) Hcs ltac:(by apply list_elem_of_singleton)) as Ha.
  split; [by eapply allocated_in_map|]. split; [destruct Ha; lia|]. by apply new_clusters_not_allocated.
Qed.

Lemma table_in_order ns x : located v ns x -> table_ok (table_at v x).
Proof using All.
  intros Hl. destruct (Hblocks x) as [Hb1 Hb2]; [by eapply located_kept_apart|].
  split; [apply length_dec_array|]. exact (dec_array_wf (A := FAT32DirectoryEntry) ENTRY_COUNT _ Hb1 Hb2).
Qed.

(** The slot that is filled in was blank. *)
Lemma slot_was_blank : (2 ≤ slot < 64)%nat /\ table_at v p !! slot = Some empty_entry.
Proof using All.
  pose proof (table_in_order _ _ Hp) as Ht. pose proof (proj1 Ht) as Hl. change ENTRY_COUNT with 64%nat in Hl.
  assert (Hlt : (first_idx free_slot (drop 2 (table_at v p)) < 62)%nat).
  { assert (0 < count free_slot (drop 2 (table_at v p)))%nat as Hpos by lia. apply count_pos in Hpos. rewrite length_drop in Hpos. lia. }
  assert (Hs : (2 ≤ slot < 64)%nat) by (unfold new_slot; lia). split; [done|].
  destruct (first_idx_lookup free_slot (drop 2 (table_at v p))) as (e & He & Hf); [rewrite length_drop; lia|].
  rewrite lookup_drop in He. change (2 + first_idx free_slot (drop 2 (table_at v p)))%nat with slot in He.
  assert (e = empty_entry) as -> by (eapply (dk_blank _ _ _ Hd); [done| |done|done]; lia). done.
Qed.

Lemma file_table ns x : located v ns x -> table_at v' x = if decide (x = p) then <[slot := file_entry]> (table_at v p) else table_at v x.
Proof using All.
  intros Hl. destruct (located_kept_apart _ _ Hl) as (Hx & Hx1 & Hxn), (located_kept_apart _ _ Hp) as (Hpm & _ & _).
  destruct slot_was_blank as [Hs He]. unfold table_at at 1. rewrite vol_write_file by done. rewrite decide_False by done.
  case_decide; [|done]. subst. rewrite dec_enc_table; [by apply add_entry_eq|]. apply add_entry_ok; [by eapply table_in_order|lia|done|done].
Qed.

Lemma file_slot ns x j e : located v ns x -> table_at v' x !! j = Some e ->
  table_at v x !! j = Some e /\ (x, j) ≠ (p, slot) \/ x = p /\ j = slot /\ e = file_entry.
Proof using All.
  intros Hl He. erewrite file_table in He by done. case_decide as Hxp; [|left; split; [done|congruence]]. subst.
  destruct (decide (j = slot)) as [->|Hj].
  - right. rewrite list_lookup_insert_eq in He; [by simplify_eq|]. destruct slot_was_blank as [_ Hb]. by eapply lookup_lt_Some.
  - rewrite list_lookup_insert_ne in He by done. left. split; [done|congruence].
Qed.

Lemma file_slot_kept ns x j e : located v ns x -> table_at v x !! j = Some e -> (x, j) ≠ (p, slot) -> table_at v' x !! j = Some e.
Proof using All.
  intros Hl He Hne. erewrite file_table by done. case_decide as Hxp; [|done]. subst. rewrite list_lookup_insert_ne; [done|congruence].
Qed.

Lemma used_not_new ns x j e : located v ns x -> in_use v x j e -> (x, j) ≠ (p, slot).
Proof using All.
  intros Hl (_ & He & Hu) [= -> ->]. destruct slot_was_blank as [_ Hb]. rewrite Hb in He. by injection He as <-.
Qed.

Lemma file_located ns x : located v' ns x <-> located v ns x.
Proof using All.
  split.
  - induction 1 as [|ns x e Hl IH He Ha]; [constructor|]. eapply located_child; [done| |done]. apply elem_drop in He as (j & Hj & He).
    destruct (file_slot _ _ _ _ IH He) as [[He' _]|(_ & _ & ->)]; [apply elem_drop; eauto|done].
  - induction 1 as [|ns x e Hl IH He Ha]; [constructor|]. eapply located_child; [done| |done]. apply elem_drop in He as He'. destruct He' as (j & Hj & Hej).
    apply elem_drop. exists j. split; [done|]. eapply file_slot_kept; [done..|]. eapply used_not_new; [done|]. by eapply folder_in_use.
Qed.

Lemma file_in_use ns x j e : located v ns x -> in_use v' x j e <-> in_use v x j e \/ x = p /\ j = slot /\ e = file_entry.
Proof using All.
  intros Hl. split.
  - intros (Hj & He & Hu). destruct (file_slot _ _ _ _ Hl He) as [[He' _]|H]; [left; by split_and!|by right].
  - intros [Hu|(-> & -> & ->)].
    + pose proof (used_not_new _ _ _ _ Hl Hu) as Hne. destruct Hu as (Hj & He & Hu). split_and!; [done|by eapply file_slot_kept|done].
    + destruct slot_was_blank as [Hs Hb]. split_and!; [lia| |done]. erewrite file_table by done. rewrite decide_True by done.
      apply list_lookup_insert_eq. by eapply lookup_lt_Some.
Qed.

Lemma file_fat x : allocated (fat_table m) x -> fat'.[x] = (fat_table m).[x].
Proof using All.
  intros Ha. change fat' with (fat_after m rq). unfold fat_after. apply lookup_link_ne.
  - exact (new_clusters_in_map m rq Hm Hrq Hsz Hfits).
  - by eapply allocated_in_map.
  - by apply (new_clusters_not_allocated m rq Hm Hrq Hsz Hfits).
Qed.

Lemma file_tree : tree_ok v' fat'.
Proof using All.
  assert (Hlow : forall ns x i, located v ns x -> (i < 2)%nat -> table_at v' x !! i = table_at v x !! i).
  { intros ns x i Hl Hi. erewrite file_table by done. case_decide; [|done]. subst. apply list_lookup_insert_ne.
    destruct slot_was_blank as [? _]. lia. }
  pose proof (dk_tree _ _ _ Hd) as Ht. split.
  - rewrite (Hlow [] _ 0%nat (located_root v)) by lia. by apply (tree_root v (fat_table m)).
  - intros ns x e Hl%file_located He Ha. apply elem_drop in He as (j & Hj & He).
    destruct (file_slot _ _ _ _ Hl He) as [[He' _]|(_ & _ & ->)]; [|done]. assert (Hin : e ∈ drop 2 (table_at v x)) by (apply elem_drop; eauto).
    destruct (tree_folder _ _ Ht ns x e Hl Hin Ha) as [Htk Hus Hnm Hs Hpr]. pose proof (located_child v ns x e Hl Hin Ha) as Hch.
    split; [|done|done|by rewrite (Hlow _ _ 0%nat Hch) by lia|by rewrite (Hlow _ _ 1%nat Hch) by lia].
    split; [apply Htk|]. rewrite file_fat by done. apply Htk.
Qed.

Lemma file_chain : chain fat' c (new_clusters m rq) /\ entry_cluster file_entry = c /\ entry_clusters fat' file_entry = new_clusters m rq.
Proof using All.
  assert (Hch : chain fat' c (new_clusters m rq)) by by apply fat_after_chain.
  assert (Hc : entry_cluster file_entry = c).
  { apply entry_cluster_new, in_map_word. destruct (first_free_mounted m Hm) as (? & _ & _); [|unfold in_map; lia].
    pose proof (parts_pos rq Hrq Hsz). lia. }
  split; [done|]. split; [done|]. unfold entry_clusters. change (attribute file_entry =? ATTR_SUBDIRECTORY) with false. cbv iota.
  rewrite Hc. by apply chain_chain_of.
Qed.

Lemma disk_new_file : Forall (fun e => duplicate (req_name rq) (req_ext rq) 0 e = false) (drop 2 (table_at v p)) ->
  disk_ok v' fat' (new_clusters m rq :: cs).
Proof using All.
  intros Hdup. destruct file_chain as (_ & _ & Hec). destruct (new_clusters_free m rq Hm Hrq Hsz Hfits) as [Hfree Hnd].
  change (new_clusters m rq) with (c :: tail (new_clusters m rq)) in Hec, Hfree, Hnd |- *.
  change fat' with (link (fat_table m) c (tail (new_clusters m rq))) in Hec |- *.
  refine (disk_added v v' (fat_table m) cs c _ p slot file_entry Hd _ pns Hp Hfree Hnd file_tree _ Hec _ _ (or_intror eq_refl) _).
  - apply Hm.
  - intros ns x j e Hl%file_located Hu. apply (file_in_use _ _ _ _ Hl) in Hu as [Hu|Hu]; [left; eauto|by right].
  - intros _. exact (length_new_clusters m rq Hrq Hsz).
  - intros j e (Hj & He & _) Hn Hx Ha. rewrite Forall_forall in Hdup. specialize (Hdup e ltac:(apply elem_drop; eauto)).
    unfold duplicate, matches, has_name in Hdup. cbn in Hn, Hx, Ha. rewrite !bool_decide_true, Ha in Hdup by done. done.
  - intros ns x j e Hl%file_located Hj He Hf. destruct (file_slot _ _ _ _ Hl He) as [[He' _]|(_ & _ & ->)]; [by eapply dk_blank|done].
Qed.

(** The new file, and every other one. *)
Lemma file_data_kept ns x j e : located v ns x -> in_use v x j e -> attribute e ≠ ATTR_SUBDIRECTORY -> file_data v' fat' e = file_data v (fat_table m) e.
Proof using All.
  intros Hl Hu Ha. assert (Hal : forall y, y ∈ entry_clusters (fat_table m) e -> allocated (fat_table m) y) by (intros y; by eapply slot_allocated).
  assert (Hec : entry_clusters fat' e = entry_clusters (fat_table m) e).
  { apply entry_clusters_ext; [eapply listed_chain; [apply Hd|by eapply dk_chain]|]. intros y Hy. by apply file_fat, Hal. }
  unfold file_data. rewrite Hec. f_equal. unfold get_data. f_equal. apply list_fmap_ext. intros i y Hy%list_elem_of_lookup_2.
  pose proof (Hal y Hy) as Hya. rewrite vol_write_file; [|exact Hlen|exact Hm|exact Hrq|exact Hsz|exact Hfits|..].
  - assert (y ≠ 1) by (destruct Hya; lia). rewrite decide_False by done. rewrite decide_False; [done|]. intros ->.
    destruct (located_of_slot _ _ _ Hd _ _ _ _ _ _ Hp Hl Hu Hy) as [Hsub _]. exact (Ha Hsub).
  - by eapply located_kept_apart.
  - by eapply allocated_in_map.
  - by apply new_clusters_not_allocated.
Qed.

Lemma file_data_new : CLUSTER_SIZE * number_of_partition (buffer_size rq) ≤ Zlen (buf rq) ->
  file_data v' fat' file_entry = take (Z.to_nat (buffer_size rq)) (buf rq).
Proof using All.
  intros Hb. destruct file_chain as (_ & _ & Hec). unfold file_data. rewrite Hec, data_write_file by done. cbn [filesize file_entry new_entry].
  rewrite take_take. f_equal. pose proof (length_new_clusters m rq Hrq Hsz) as Hl. unfold Zlen in Hl.
  assert (buffer_size rq ≤ 2048 * number_of_partition (buffer_size rq)); [|lia].
  unfold number_of_partition, CLUSTER_SIZE, BLOCK_SIZE, CLUSTER_BLOCK_COUNT. change (512 * 4) with 2048.
  pose proof (Z.mod_pos_bound (buffer_size rq) 2048). destruct (Z.ltb_spec 0 (buffer_size rq mod 2048)); Z.div_mod_to_equations; lia.
Qed.

Lemma file_at_new x nm ex data : CLUSTER_SIZE * number_of_partition (buffer_size rq) ≤ Zlen (buf rq) ->
  file_at v' fat' x nm ex data <->
  file_at v (fat_table m) x nm ex data \/
  x = p /\ nm = req_name rq /\ ex = req_ext rq /\ data = take (Z.to_nat (buffer_size rq)) (buf rq).
Proof using All.
  intros Hb. split.
  - intros (ns & i & e & Hl%file_located & Hu & Ha & <- & <- & <-). apply (file_in_use _ _ _ _ Hl) in Hu as [Hu|(-> & -> & ->)].
    + left. erewrite file_data_kept; [by apply file_at_slot with ns i|exact Hl|exact Hu|exact Ha].
    + right. rewrite file_data_new by exact Hb. exact (conj eq_refl (conj eq_refl (conj eq_refl eq_refl))).
  - intros [(ns & i & e & Hl & Hu & Ha & <- & <- & <-)|(-> & -> & -> & ->)].
    + erewrite <- file_data_kept; [|exact Hl|exact Hu|exact Ha].
      eapply file_at_slot; [by apply file_located|eapply file_in_use; [exact Hl|by left]|exact Ha].
    + rewrite <- file_data_new by exact Hb. change (req_name rq) with (name file_entry). change (req_ext rq) with (ext file_entry).
      eapply file_at_slot; [by apply file_located|eapply file_in_use; [exact Hp|by right]|discriminate].
Qed.
End new_file.

(** ** Writing a folder *)
Section new_folder.
Context (v : volume) (m : driver) (rq : FAT32DriverRequest) (cs : list (list Z)).
Context (Hlen : length v = 512%nat) (Hblocks : forall c, in_map c -> block_ok (vol_get v c)).
Context (Hm : mounted m) (Hrq : request_ok rq) (Hd : disk_ok v (fat_table m) cs).
Notation p := (parent_cluster_number rq).
Notation c := (first_free (fat_table m)).
Context (pns : list (list Z)) (Hp : located v pns p).
Context (Hslot : count free_slot (drop 2 (table_at v p)) ≠ 0%nat) (Hfits : free_clusters (fat_table m) ≠ 0).
Context (Hname : folder_name (CString.cstr (req_name rq))).
Notation v' := (spec_write_folder v m rq).1.
Notation fat' := (fat_table (spec_write_folder v m rq).2).
Notation slot := (new_slot (table_at v p)).

Definition folder_entry : FAT32DirectoryEntry := new_entry empty_entry (req_name rq) (req_ext rq) ATTR_SUBDIRECTORY c (buffer_size rq).

Lemma folder_place ns x : located v ns x -> in_map x /\ x ≠ c /\ x ≠ 1.
Proof using All. exact (located_ne v m rq Hlen Hblocks Hm Hrq (dk_tree _ _ _ Hd) pns Hp Hslot Hfits Hname ns x). Qed.

Lemma folder_parent : (2 ≤ slot < 64)%nat /\ table_at v p !! slot = Some empty_entry /\ table_at v' p = <[slot := folder_entry]> (table_at v p).
Proof using All.
  destruct (parent_room v m rq Hlen Hblocks Hm Hrq (dk_tree _ _ _ Hd) pns Hp Hslot Hfits Hname) as [_ Hs].
  destruct (parent_table v m rq Hlen Hblocks Hm Hrq (dk_tree _ _ _ Hd) pns Hp Hslot Hfits Hname) as (e0 & He & Hf & Ht).
  assert (Hs2 : (2 ≤ slot < 64)%nat) by (unfold new_slot in *; lia). split; [exact Hs2|].
  assert (e0 = empty_entry) as -> by (eapply (dk_blank _ _ _ Hd); [exact Hp| |exact He|exact Hf]; lia). exact (conj He Ht).
Qed.

Lemma folder_slot ns x j e : located v ns x -> table_at v' x !! j = Some e ->
  table_at v x !! j = Some e /\ (x, j) ≠ (p, slot) \/ x = p /\ j = slot /\ e = folder_entry.
Proof using All.
  intros Hl He. destruct (folder_place _ _ Hl) as (Hx & Hxc & Hx1). destruct folder_parent as (Hs & Hb & Ht). destruct (decide (x = p)) as [->|Hxp].
  - rewrite Ht in He. destruct (decide (j = slot)) as [->|Hj].
    + right. rewrite list_lookup_insert_eq in He; [by simplify_eq|]. by eapply lookup_lt_Some.
    + rewrite list_lookup_insert_ne in He by done. left. split; [done|congruence].
  - left. rewrite (old_table v m rq Hlen Hblocks Hm Hrq (dk_tree _ _ _ Hd) pns Hp Hslot Hfits Hname) in He; [|by right|exact Hxp|exact Hxc|exact Hx1]. split; [done|congruence].
Qed.

Lemma folder_entry_cluster : entry_cluster folder_entry = c.
Proof using All. exact (new_cluster v m rq Hlen Hblocks Hm Hrq (dk_tree _ _ _ Hd) pns Hp Hslot Hfits Hname empty_entry). Qed.

(** The folder itself is empty. *)
Lemma folder_blank j e : table_at v' c !! j = Some e -> (2 ≤ j)%nat -> e = empty_entry.
Proof using All.
  rewrite (child_table v m rq Hlen Hblocks Hm Hrq (dk_tree _ _ _ Hd) pns Hp Hslot Hfits Hname). intros He Hj.
  destruct j as [|[|j]]; [lia..|]. unfold new_directory in He. cbn [lookup list_lookup] in He. by apply lookup_replicate in He as [-> _].
Qed.

Lemma folder_located_iff ns x : located v' ns x <-> located v ns x \/ ns = pns ++ [CString.cstr (req_name rq)] /\ x = c.
Proof using All.
  split.
  - intros Hl0. induction Hl0 as [|ns x e Hl IH He Ha]; [left; constructor|]. apply elem_drop in He as (j & Hj & He). destruct IH as [IH|[_ ->]].
    + destruct (folder_slot _ _ _ _ IH He) as [[He' _]|(Hxp & _ & ->)].
      * left. eapply located_child; [exact IH|apply elem_drop; eauto|exact Ha].
      * subst x. right. destruct (folder_place _ _ Hp) as (_ & Hpc & _).
        split; [|exact folder_entry_cluster].
        f_equal. exact (located_path _ _ _ Hd _ _ IH _ Hp).
    + apply folder_blank in He as ->; done.
  - intros [Hl|[-> ->]].
    + exact (located_kept v m rq Hlen Hblocks Hm Hrq (dk_tree _ _ _ Hd) pns Hp Hslot Hfits Hname ns x Hl).
    + exact (folder_located v m rq Hlen Hblocks Hm Hrq (dk_tree _ _ _ Hd) pns Hp Hslot Hfits Hname).
Qed.

Lemma folder_in_use_inv ns x j e : located v' ns x -> in_use v' x j e ->
  located v ns x /\ (in_use v x j e \/ x = p /\ j = slot /\ e = folder_entry).
Proof using All.
  intros Hl (Hj & He & Hu). apply folder_located_iff in Hl as [Hl|[_ ->]].
  - split; [exact Hl|]. destruct (folder_slot _ _ _ _ Hl He) as [[He' _]|H]; [left; exact (conj Hj (conj He' Hu))|right; exact H].
  - apply folder_blank in He as ->; done.
Qed.

Lemma folder_slot_kept ns x j e : located v ns x -> in_use v x j e -> in_use v' x j e.
Proof using All.
  intros Hl (Hj & He & Hu). destruct (folder_place _ _ Hl) as (Hx & Hxc & Hx1). destruct folder_parent as (Hs & Hb & Ht).
  refine (conj Hj (conj _ Hu)). destruct (decide (x = p)) as [->|Hxp].
  - rewrite Ht, list_lookup_insert_ne; [exact He|]. intros <-. rewrite Hb in He. by injection He as <-.
  - rewrite (old_table v m rq Hlen Hblocks Hm Hrq (dk_tree _ _ _ Hd) pns Hp Hslot Hfits Hname); [exact He|by right|exact Hxp|exact Hxc|exact Hx1].
Qed.

Lemma new_folder_free : Forall (fun d => 3 ≤ d < 512 /\ (fat_table m).[d] = Some 0) [c].
Proof using All. destruct (first_free_mounted m Hm Hfits) as (Hc & H0 & _). by apply Forall_singleton. Qed.

Lemma disk_new_folder :
  Forall (fun e => duplicate (req_name rq) (req_ext rq) ATTR_SUBDIRECTORY e = false) (drop 2 (table_at v p)) ->
  disk_ok v' fat' ([c] :: cs).
Proof using All.
  intros Hdup. assert (Hec : entry_clusters (link (fat_table m) c []) folder_entry = [c]).
  { unfold entry_clusters. change (attribute folder_entry =? ATTR_SUBDIRECTORY) with true. cbv iota. f_equal. exact folder_entry_cluster. }
  refine (disk_added v v' (fat_table m) cs c [] p slot folder_entry Hd _ pns Hp new_folder_free (NoDup_singleton c) _ _ Hec _ _ (or_introl eq_refl) _).
  - apply Hm.
  - exact (folder_keeps_tree v m rq Hlen Hblocks Hm Hrq (dk_tree _ _ _ Hd) pns Hp Hslot Hfits Hname).
  - intros ns x j e Hl Hu. destruct (folder_in_use_inv _ _ _ _ Hl Hu) as [Hl' [Hu'|Hnew]]; [left; eauto|right; exact Hnew].
  - intros []. done.
  - intros j e (Hj & He & _) Hn Hx Ha. rewrite Forall_forall in Hdup. specialize (Hdup e ltac:(apply elem_drop; eauto)).
    unfold duplicate, matches, has_name in Hdup. cbn in Hn, Hx, Ha. rewrite !bool_decide_true, Ha in Hdup by done. done.
  - intros ns x j e Hl Hj He Hf. apply folder_located_iff in Hl as [Hl|[_ ->]]; [|by eapply folder_blank].
    destruct (folder_slot _ _ _ _ Hl He) as [[He' _]|(_ & _ & ->)]; [by eapply dk_blank|done].
Qed.

(** The files are the ones there were. *)
Lemma folder_data_kept ns x j e : located v ns x -> in_use v x j e -> attribute e ≠ ATTR_SUBDIRECTORY -> file_data v' fat' e = file_data v (fat_table m) e.
Proof using All.
  intros Hl Hu Ha. pose proof new_folder_free as Hfree. assert (Hlf : length (fat_table m) = 512%nat) by apply Hm.
  assert (Hec : entry_clusters fat' e = entry_clusters (fat_table m) e).
  { exact (kept_clusters v (fat_table m) cs c [] Hd Hlf Hfree ns x j e Hl Hu). }
  unfold file_data. rewrite Hec. f_equal. unfold get_data. f_equal. apply list_fmap_ext. intros i y Hy%list_elem_of_lookup_2.
  pose proof (slot_allocated _ _ _ Hd _ _ _ _ _ Hl Hu Hy) as Hya.
  pose proof (added_disjoint (fat_table m) c [] Hlf Hfree y Hya) as Hyc.
  apply vol_write_folder; [exact Hlen|exact Hm|exact Hfits|by apply (folder_place pns)|by eapply allocated_in_map|destruct Hya; lia| |].
  - intros ->. destruct (located_of_slot _ _ _ Hd _ _ _ _ _ _ Hp Hl Hu Hy) as [Hsub _]. exact (Ha Hsub).
  - intros ->. apply Hyc, elem_of_cons. by left.
Qed.

Lemma folder_file_at x nm ex data : file_at v' fat' x nm ex data <-> file_at v (fat_table m) x nm ex data.
Proof using All.
  split.
  - intros (ns & i & e & Hl & Hu & Ha & <- & <- & <-). destruct (folder_in_use_inv _ _ _ _ Hl Hu) as [Hl' [Hu'|(-> & -> & ->)]]; [|done].
    rewrite (folder_data_kept _ _ _ _ Hl' Hu' Ha). by apply file_at_slot with ns i.
  - intros (ns & i & e & Hl & Hu & Ha & <- & <- & <-). rewrite <- (folder_data_kept _ _ _ _ Hl Hu Ha).
    eapply file_at_slot; [apply folder_located_iff; left; exact Hl|by eapply folder_slot_kept|exact Ha].
Qed.
End new_folder.
