(* ===== verification/DiskRemove.v ===== *)
(** * Removing from the directory tree

    [Delete] of an entry in use keeps the disk in order ([disk_ok]) and leaves
    every other file and folder as it was.  [disk_write] and [disk_delete] sum
    up what the two calls do to the folders and files of a disk. *)
From S2P Require Import Prelude CString BlockDevice FatLayout Fat32 FatFacts FatChain FatLoops FatSpec FatRefine FatWrite FatMount FatProps FatInvariant FatLimits ShellFacts DirTree DiskTree.

(** ** Removing an entry *)

Lemma count_zero_drop {A} (q : A -> bool) (t : list A) k j x : count q (drop k t) = 0%nat -> (k ≤ j)%nat -> t !! j = Some x -> q x = false.
Proof.
  intros H0 Hj Hx. apply count_zero, first_idx_none in H0. rewrite Forall_forall in H0. apply H0, elem_drop. eauto.
Qed.

Lemma folder_empty_slot v e : folder_empty v e = true -> attribute e = ATTR_SUBDIRECTORY ->
  forall j e1, (2 ≤ j)%nat -> table_at v (entry_cluster e) !! j = Some e1 -> free_slot e1 = true.
Proof.
  unfold folder_empty. generalize (table_at v (entry_cluster e)) as t. intros t He Ha j e1 Hj H1. rewrite Ha in He. cbn [negb Z.eqb] in He.
  destruct (Z.eqb_spec ATTR_SUBDIRECTORY ATTR_SUBDIRECTORY); [|done]. apply bool_decide_eq_true in He.
  pose proof (count_zero_drop _ t 2 j e1 He Hj H1) as Hf. simpl in Hf. by destruct (free_slot e1).
Qed.
Section removed.
Context (v : volume) (m : driver) (rq : FAT32DriverRequest) (cs : list (list Z)) (e : FAT32DirectoryEntry).
Context (Hlen : length v = 512%nat) (Hblocks : forall c, in_map c -> block_ok (vol_get v c)).
Context (Hm : mounted m) (Hd : disk_ok v (fat_table m) cs).
Notation p := (parent_cluster_number rq).
Context (pns : list (list Z)) (Hp : located v pns p).
Context (i : nat) (Hi : first_idx (matches (req_name rq) (req_ext rq)) (table_at v p) = i).
Context (Hu : in_use v p i e) (Hempty : folder_empty v e = true).
Notation v' := (spec_remove v m rq e).1.
Notation fat' := (fat_table (spec_remove v m rq e).2).
Notation l := (entry_clusters (fat_table m) e).

Lemma released : l ∈ cs /\ Forall in_map l /\ (forall x, x < 3 -> x ∉ l).
Proof using All.
  destruct (dk_chain _ _ _ Hd _ _ _ _ Hp Hu) as [Hin Hroot]. split; [exact Hin|].
  pose proof (listed_chain _ _ _ (dk_part _ _ _ Hd) Hin) as Hc. split; [by eapply chain_in_map|]. intros x Hx Hxl.
  pose proof (slot_allocated _ _ _ Hd _ _ _ _ _ Hp Hu Hxl) as [Hx2 _]. assert (x = ROOT_CLUSTER_NUMBER) as -> by (unfold ROOT_CLUSTER_NUMBER; lia).
  destruct (located_of_slot _ _ _ Hd _ _ _ _ _ _ (located_root v) Hp Hu Hxl) as [_ Heq]. congruence.
Qed.

(** The folder of the entry is not one of the clusters released. *)
Lemma parent_stays : p ∉ l.
Proof using All.
  intros Hin. destruct (located_of_slot _ _ _ Hd _ _ _ _ _ _ Hp Hp Hu Hin) as [Ha Heq].
  assert (Hl : located v (pns ++ [CString.cstr (name e)]) p).
  { rewrite Heq at 1. eapply located_child; [exact Hp| |exact Ha]. apply elem_drop. destruct Hu as (? & ? & _). eauto. }
  pose proof (located_path _ _ _ Hd _ _ Hp _ Hl) as Hns. apply (f_equal length) in Hns. rewrite length_app in Hns. simpl in Hns. lia.
Qed.

Lemma removed_table ns x : located v ns x -> x ∉ l -> table_at v' x = if decide (x = p) then <[i := empty_entry]> (table_at v p) else table_at v x.
Proof using All.
  intros Hl Hx. destruct released as (_ & Hin & _). pose proof (located_map v _ (dk_tree _ _ _ Hd) _ _ Hl) as Hxm.
  pose proof (located_map v _ (dk_tree _ _ _ Hd) _ _ Hp) as Hpm. destruct (located_slot _ _ _ Hd _ _ Hl) as [Hcs _].
  pose proof (listed_allocated _ _ _ x (dk_part _ _ _ Hd) Hcs ltac:(by apply list_elem_of_singleton)) as [Hx2 _].
  unfold table_at at 1. rewrite vol_remove by done. rewrite decide_False by lia. case_decide; [|done]. subst x. rewrite Hi. destruct (Hblocks p) as [Hb1 Hb2]; [done|].
  apply dec_enc_table. split; [rewrite length_insert; apply length_dec_array|]. apply Forall_insert; [|apply empty_entry_ok].
  exact (dec_array_wf (A := FAT32DirectoryEntry) ENTRY_COUNT _ Hb1 Hb2).
Qed.

Lemma removed_slot ns x j e1 : located v ns x -> x ∉ l -> table_at v' x !! j = Some e1 ->
  table_at v x !! j = Some e1 /\ (x, j) ≠ (p, i) \/ x = p /\ j = i /\ e1 = empty_entry.
Proof using All.
  intros Hl Hx He. erewrite removed_table in He by done. case_decide as Hxp; [|left; split; [done|congruence]]. subst x.
  destruct (decide (j = i)) as [->|Hj].
  - right. rewrite list_lookup_insert_eq in He; [by simplify_eq|]. destruct Hu as (_ & H & _). by eapply lookup_lt_Some.
  - rewrite list_lookup_insert_ne in He by done. left. split; [done|congruence].
Qed.

Lemma removed_slot_kept ns x j e1 : located v ns x -> x ∉ l -> table_at v x !! j = Some e1 -> (x, j) ≠ (p, i) -> table_at v' x !! j = Some e1.
Proof using All.
  intros Hl Hx He Hne. erewrite removed_table by done. case_decide as Hxp; [|done]. subst x. rewrite list_lookup_insert_ne; [done|congruence].
Qed.

(** Another slot has other clusters. *)
Lemma other_clusters ns x j e1 y : located v ns x -> in_use v x j e1 -> (x, j) ≠ (p, i) -> y ∈ entry_clusters (fat_table m) e1 -> y ∉ l.
Proof using All.
  intros Hl Hu1 Hne Hy Hyl. destruct released as (Hin & _ & _). destruct (dk_chain _ _ _ Hd _ _ _ _ Hl Hu1) as [Hin1 _].
  pose proof (same_chain _ _ _ _ (part_nodup _ _ (dk_part _ _ _ Hd)) Hin1 Hin Hy Hyl) as Heq.
  destruct (entry_clusters_head (fat_table m) e1) as [l1 H1], (entry_clusters_head (fat_table m) e) as [l2 H2]. rewrite H1, H2 in Heq. injection Heq as Heq _.
  destruct (dk_own _ _ _ Hd _ _ _ _ _ _ _ _ Hl Hu1 Hp Hu Heq) as [-> ->]. by apply Hne.
Qed.

Lemma same_slot ns x j e1 : located v ns x -> in_use v x j e1 -> entry_cluster e1 ∈ l -> (x, j) = (p, i).
Proof using All.
  intros Hl Hu1 Hin. destruct (decide ((x, j) = (p, i))) as [|Hne]; [done|].
  by destruct (other_clusters _ _ _ _ _ Hl Hu1 Hne (entry_in_clusters (fat_table m) e1)).
Qed.

(** A folder that goes had nothing in it. *)
Lemma nothing_below x j e1 : x ∈ l -> (exists ns, located v ns x) -> in_use v x j e1 -> False.
Proof using All.
  intros Hx [ns Hl] (Hj & He & Hus). destruct (located_of_slot _ _ _ Hd _ _ _ _ _ _ Hl Hp Hu Hx) as [Ha ->].
  pose proof (folder_empty_slot v e Hempty Ha j e1 Hj He) as Hf. unfold free_slot in Hf. by rewrite Hus in Hf.
Qed.

Lemma removed_located ns x : located v' ns x <-> located v ns x /\ x ∉ l.
Proof using All.
  split.
  - intros Hl0. induction Hl0 as [|ns x e1 Hl IH He Ha].
    + split; [constructor|]. apply released. unfold ROOT_CLUSTER_NUMBER. lia.
    + destruct IH as [IH Hx]. apply elem_drop in He as (j & Hj & He).
      destruct (removed_slot _ _ _ _ IH Hx He) as [[He' Hne]|(_ & _ & ->)]; [|done].
      pose proof (folder_in_use _ _ _ Hd _ _ _ _ IH Hj He' Ha) as Hu1. split.
      * eapply located_child; [exact IH|apply elem_drop; eauto|exact Ha].
      * intros Hin. by apply Hne, (same_slot ns x j e1).
  - intros [Hl0 Hnot]. induction Hl0 as [|ns x e1 Hl IH He Ha]; [constructor|]. apply elem_drop in He as (j & Hj & He).
    pose proof (folder_in_use _ _ _ Hd _ _ _ _ Hl Hj He Ha) as Hu1.
    assert (Hx : x ∉ l) by (intros Hin; eapply nothing_below; [exact Hin|by exists ns|exact Hu1]).
    eapply located_child; [by apply IH| |exact Ha]. apply elem_drop. exists j. split; [exact Hj|].
    eapply removed_slot_kept; [exact Hl|exact Hx|exact He|]. intros [= -> ->]. destruct Hu as (_ & H & _). rewrite He in H. injection H as ->.
    apply Hnot, entry_in_clusters.
Qed.

Lemma removed_in_use ns x j e1 : located v' ns x -> in_use v' x j e1 <-> in_use v x j e1 /\ (x, j) ≠ (p, i).
Proof using All.
  intros [Hl Hx]%removed_located. split.
  - intros (Hj & He & Hus). destruct (removed_slot _ _ _ _ Hl Hx He) as [[He' Hne]|(_ & _ & ->)]; [|done]. exact (conj (conj Hj (conj He' Hus)) Hne).
  - intros [(Hj & He & Hus) Hne]. exact (conj Hj (conj (removed_slot_kept _ _ _ _ Hl Hx He Hne) Hus)).
Qed.

Lemma released_others cs' l' : cs ≡ₚ l :: cs' -> l' ∈ cs -> l' ≠ l -> l' ∈ cs'.
Proof using All.
  intros Hperm Hin Hne. rewrite Hperm in Hin. apply elem_of_cons in Hin as [|]; [contradiction|assumption].
Qed.

Lemma removed_clusters ns x j e1 : located v ns x -> in_use v x j e1 -> (x, j) ≠ (p, i) ->
  entry_clusters fat' e1 = entry_clusters (fat_table m) e1 /\ entry_clusters (fat_table m) e1 ≠ l.
Proof using All.
  intros Hl Hu1 Hne. destruct released as (_ & Hin & _). destruct (dk_chain _ _ _ Hd _ _ _ _ Hl Hu1) as [Hin1 _].
  pose proof (listed_chain _ _ _ (dk_part _ _ _ Hd) Hin1) as Hc. split.
  - apply entry_clusters_ext; [exact Hc|]. intros y Hy. change fat' with (clear (fat_table m) l).
    rewrite lookup_clear; [|apply Hm|exact Hin|eapply Forall_forall; [by eapply chain_in_map|exact Hy]].
    rewrite decide_False; [done|]. by eapply other_clusters.
  - intros Heq. apply (other_clusters _ _ _ _ _ Hl Hu1 Hne (entry_in_clusters (fat_table m) e1)). rewrite <- Heq. apply entry_in_clusters.
Qed.

Lemma removed_first ns x j : located v ns x -> x ∉ l -> (j < 2)%nat -> table_at v' x !! j = table_at v x !! j.
Proof using All.
  intros Hl Hx Hj. erewrite removed_table by done. case_decide; [|done]. subst x. apply list_lookup_insert_ne. destruct Hu as [? _]. lia.
Qed.

Lemma removed_tree : tree_ok v' fat'.
Proof using All.
  pose proof (dk_tree _ _ _ Hd) as Ht. destruct released as (_ & Hin & Hlow). split.
  - rewrite (removed_first [] _ 0 (located_root v)); [by apply (tree_root v (fat_table m))|apply Hlow; unfold ROOT_CLUSTER_NUMBER; lia|lia].
  - intros ns x e1 Hl He Ha. assert (Hch : located v' (ns ++ [CString.cstr (name e1)]) (entry_cluster e1)) by (by eapply located_child).
    apply removed_located in Hl as [Hl Hx]. apply removed_located in Hch as [Hch Hcx]. apply elem_drop in He as (j & Hj & He).
    destruct (removed_slot _ _ _ _ Hl Hx He) as [[He' _]|(_ & _ & ->)]; [|done].
    destruct (tree_folder _ _ Ht ns x e1 Hl ltac:(apply elem_drop; eauto) Ha) as [Htk Hus Hnm Hs Hpr].
    split; [|exact Hus|exact Hnm|rewrite (removed_first _ _ 0%nat Hch Hcx) by lia; exact Hs|rewrite (removed_first _ _ 1%nat Hch Hcx) by lia; exact Hpr].
    split; [apply Htk|]. change fat' with (clear (fat_table m) l). pose proof (allocated_in_map _ _ Htk) as Hmap.
    rewrite lookup_clear; [|apply Hm|exact Hin|exact Hmap]. rewrite decide_False by exact Hcx. apply Htk.
Qed.

Lemma disk_removed cs' : cs ≡ₚ l :: cs' -> disk_ok v' fat' cs'.
Proof using All.
  intros Hperm. pose proof released as (_ & Hin & Hlow). split; [exact removed_tree| | | | | | | |].
  - change fat' with (clear (fat_table m) l). apply partition_clear; [apply Hm|]. eapply partition_perm; [exact Hperm|apply Hd].
  - apply released_others; [exact Hperm|apply Hd|]. intros Heq. apply (Hlow ROOT_CLUSTER_NUMBER); [unfold ROOT_CLUSTER_NUMBER; lia|].
    rewrite <- Heq. by apply list_elem_of_singleton.
  - intros ns x j e1 Hl Hu1. apply (removed_in_use _ _ _ _ Hl) in Hu1 as [Hu1 Hne]. apply removed_located in Hl as [Hl _].
    destruct (removed_clusters _ _ _ _ Hl Hu1 Hne) as [-> Hother]. destruct (dk_chain _ _ _ Hd _ _ _ _ Hl Hu1) as [H1 H2].
    split; [by apply released_others|exact H2].
  - intros ns x j e1 Hl Hu1 Ha. apply (removed_in_use _ _ _ _ Hl) in Hu1 as [Hu1 Hne]. apply removed_located in Hl as [Hl _].
    destruct (removed_clusters _ _ _ _ Hl Hu1 Hne) as [-> _]. by eapply dk_size.
  - intros ns x j e1 ns2 x2 j2 e2 Hl Hu1 Hl2 Hu2. apply (removed_in_use _ _ _ _ Hl) in Hu1 as [Hu1 _]. apply removed_located in Hl as [Hl _].
    apply (removed_in_use _ _ _ _ Hl2) in Hu2 as [Hu2 _]. apply removed_located in Hl2 as [Hl2 _]. by eapply dk_own.
  - intros ns x j e1 j2 e2 Hl Hu1 Hu2. apply (removed_in_use _ _ _ _ Hl) in Hu1 as [Hu1 _].
    apply (removed_in_use _ _ _ _ Hl) in Hu2 as [Hu2 _]. apply removed_located in Hl as [Hl _]. by eapply dk_unique.
  - intros ns x j e1 Hl Hu1. apply (removed_in_use _ _ _ _ Hl) in Hu1 as [Hu1 _]. apply removed_located in Hl as [Hl _]. by eapply dk_kind.
  - intros ns x j e1 Hl Hj He Hf. apply removed_located in Hl as [Hl Hx]. destruct (removed_slot _ _ _ _ Hl Hx He) as [[He' _]|(_ & _ & ->)]; [|done].
    by eapply dk_blank.
Qed.

(** The other files. *)
Lemma removed_data ns x j e1 : located v ns x -> in_use v x j e1 -> (x, j) ≠ (p, i) -> attribute e1 ≠ ATTR_SUBDIRECTORY ->
  file_data v' fat' e1 = file_data v (fat_table m) e1.
Proof using All.
  intros Hl Hu1 Hne Ha. destruct released as (_ & Hin & _). destruct (removed_clusters _ _ _ _ Hl Hu1 Hne) as [Hec _]. unfold file_data.
  rewrite Hec. f_equal. unfold get_data. f_equal. apply list_fmap_ext. intros n y Hy%list_elem_of_lookup_2.
  pose proof (slot_allocated _ _ _ Hd _ _ _ _ _ Hl Hu1 Hy) as Hya. pose proof (other_clusters _ _ _ _ _ Hl Hu1 Hne Hy) as Hyl.
  rewrite vol_remove; [|exact Hlen|by eapply (located_map v _ (dk_tree _ _ _ Hd))|by eapply allocated_in_map|exact Hin|exact Hyl].
  rewrite decide_False by (destruct Hya; lia). rewrite decide_False; [done|]. intros ->.
  destruct (located_of_slot _ _ _ Hd _ _ _ _ _ _ Hp Hl Hu1 Hy) as [Hsub _]. exact (Ha Hsub).
Qed.

(** A folder that goes had no files. *)
Lemma file_stays ns x j e1 : located v ns x -> in_use v x j e1 -> x ∉ l.
Proof using All. intros Hl Hu1 Hin. eapply nothing_below; [exact Hin|by exists ns|exact Hu1]. Qed.

Lemma removed_file_at x nm ex data : file_at v' fat' x nm ex data <->
  file_at v (fat_table m) x nm ex data /\ ~ (attribute e ≠ ATTR_SUBDIRECTORY /\ x = p /\ nm = name e /\ ex = ext e).
Proof using All.
  split.
  - intros (ns & j & e1 & Hl & Hu1 & Ha & <- & <- & <-). apply (removed_in_use _ _ _ _ Hl) in Hu1 as [Hu1 Hne]. apply removed_located in Hl as [Hl Hx].
    rewrite (removed_data _ _ _ _ Hl Hu1 Hne Ha). split; [by apply file_at_slot with ns j|]. intros (Hae & -> & Hn & Hxt). apply Hne.
    destruct (dk_kind _ _ _ Hd _ _ _ _ Hl Hu1) as [|H1]; [contradiction|]. destruct (dk_kind _ _ _ Hd _ _ _ _ Hp Hu) as [|H2]; [contradiction|].
    f_equal.
    eapply (dk_unique _ _ _ Hd); [exact Hp|exact Hu1|exact Hu|exact Hn|exact Hxt|congruence].
  - intros [(ns & j & e1 & Hl & Hu1 & Ha & <- & <- & <-) Hnot].
    assert (Hne : (x, j) ≠ (p, i)).
    { intros [= -> ->]. apply Hnot. assert (e1 = e) as -> by (destruct Hu as (_ & H1 & _), Hu1 as (_ & H2 & _); congruence).
      exact (conj Ha (conj eq_refl (conj eq_refl eq_refl))). }
    assert (Hl' : located v' ns x) by (apply removed_located; split; [exact Hl|by eapply file_stays]).
    rewrite <- (removed_data _ _ _ _ Hl Hu1 Hne Ha). eapply file_at_slot; [exact Hl'| |exact Ha].
    apply (removed_in_use _ _ _ _ Hl'). exact (conj Hu1 Hne).
Qed.
End removed.

(** ** The two calls *)

Section calls.
Context (v : volume) (m : driver) (rq : FAT32DriverRequest) (cs : list (list Z)).
Context (Hlen : length v = 512%nat) (Hblocks : forall c, in_map c -> block_ok (vol_get v c)).
Context (Hm : mounted m) (Hrq : request_ok rq) (Hd : disk_ok v (fat_table m) cs).
Notation p := (parent_cluster_number rq).
Context (pns : list (list Z)) (Hp : located v pns p).

Lemma spec_write_0 : (spec_write v m rq).1 = 0 ->
  Forall (fun e => duplicate (req_name rq) (req_ext rq) (if buffer_size rq =? 0 then ATTR_SUBDIRECTORY else 0) e = false) (drop 2 (table_at v p)) /\
  count free_slot (drop 2 (table_at v p)) ≠ 0%nat.
Proof using Type.
  unfold spec_write. destruct (negb _); [discriminate|]. destruct (lookup_first _ _) as [x|] eqn:E; [discriminate|]. case_decide as H0; [discriminate|].
  intros _. split; [|exact H0]. apply lookup_first_None in E. by apply first_idx_none.
Qed.

(** What a call of [write] does to the disk. *)
Lemma disk_write w : spec_write v m rq = w ->
  CLUSTER_SIZE * number_of_partition (buffer_size rq) ≤ Zlen (buf rq) ->
  (buffer_size rq = 0 -> folder_name (CString.cstr (req_name rq))) ->
  (exists cs', disk_ok w.2.1 (fat_table w.2.2) cs') /\
  (forall ns x, located w.2.1 ns x <-> located v ns x \/
     w.1 = 0 /\ buffer_size rq = 0 /\ ns = pns ++ [CString.cstr (req_name rq)] /\ x = first_free (fat_table m)) /\
  (forall x nm ex data, file_at w.2.1 (fat_table w.2.2) x nm ex data <-> file_at v (fat_table m) x nm ex data \/
     w.1 = 0 /\ buffer_size rq ≠ 0 /\ x = p /\ nm = req_name rq /\ ex = req_ext rq /\ data = take (Z.to_nat (buffer_size rq)) (buf rq)).
Proof using All.
  intros Hw Hbuf Hname. pose proof (spec_write_0) as H0. rewrite Hw in H0.
  destruct (spec_write_cases v m rq Hm Hrq) as [[Hc Heq]|[(Hc & Hsz & Hfits & Heq)|(Hc & Hsz & Hfits & Heq)]]; rewrite Hw in Hc, Heq.
  - rewrite Heq. cbn [fst snd]. split; [by exists cs|]. split.
    + intros ns x. split; [intros Hl; left; exact Hl|intros [Hl|[H _]]; [exact Hl|contradiction]].
    + intros x nm ex data. split; [intros Hl; left; exact Hl|intros [Hl|[H _]]; [exact Hl|contradiction]].
  - destruct (H0 Hc) as [Hdup Hslot]. specialize (Hname Hsz). rewrite (proj2 (Z.eqb_eq _ _) Hsz) in Hdup. rewrite Heq. split; [eexists; by eapply disk_new_folder|]. split.
    + intros ns x. pose proof (folder_located_iff v m rq cs Hlen Hblocks Hm Hrq Hd pns Hp Hslot Hfits Hname ns x) as Hiff. split.
      * intros H. destruct (proj1 Hiff H) as [H'|[H1 H2]]; [left; exact H'|right; exact (conj Hc (conj Hsz (conj H1 H2)))].
      * intros [H|(_ & _ & H1 & H2)]; [exact (proj2 Hiff (or_introl H))|exact (proj2 Hiff (or_intror (conj H1 H2)))].
    + intros x nm ex data. pose proof (folder_file_at v m rq cs Hlen Hblocks Hm Hrq Hd pns Hp Hslot Hfits Hname x nm ex data) as Hiff. split.
      * intros H. exact (or_introl (proj1 Hiff H)).
      * intros [H|(_ & H & _)]; [exact (proj2 Hiff H)|contradiction].
  - destruct (H0 Hc) as [Hdup Hslot]. rewrite (proj2 (Z.eqb_neq _ _) Hsz) in Hdup. rewrite Heq. split; [eexists; by eapply disk_new_file|]. split.
    + intros ns x. pose proof (file_located v m rq cs Hlen Hblocks Hm Hrq Hd pns Hp Hslot Hsz Hfits ns x) as Hiff. split.
      * intros H. exact (or_introl (proj1 Hiff H)).
      * intros [H|(_ & H & _)]; [exact (proj2 Hiff H)|contradiction].
    + intros x nm ex data. pose proof (file_at_new v m rq cs Hlen Hblocks Hm Hrq Hd pns Hp Hslot Hsz Hfits x nm ex data Hbuf) as Hiff. split.
      * intros H. destruct (proj1 Hiff H) as [H'|H']; [left; exact H'|right; exact (conj Hc (conj Hsz H'))].
      * intros [H|(_ & _ & H)]; [exact (proj2 Hiff (or_introl H))|exact (proj2 Hiff (or_intror H))].
Qed.

(** What a call of [Delete] does, when the first entry of that name is a slot in use. *)
Lemma disk_delete w : spec_delete v m rq = w ->
  (forall e, lookup_first (matches (req_name rq) (req_ext rq)) (table_at v p) = Some e ->
     in_use v p (first_idx (matches (req_name rq) (req_ext rq)) (table_at v p)) e) ->
  mounted w.2.2 /\ (exists cs', disk_ok w.2.1 (fat_table w.2.2) cs') /\
  (forall ns x, located w.2.1 ns x <-> located v ns x /\
     ~ (w.1 = 0 /\ exists e, lookup_first (matches (req_name rq) (req_ext rq)) (table_at v p) = Some e /\ attribute e = ATTR_SUBDIRECTORY /\ x = entry_cluster e)) /\
  (forall x nm ex data, file_at w.2.1 (fat_table w.2.2) x nm ex data <-> file_at v (fat_table m) x nm ex data /\
     ~ (w.1 = 0 /\ exists e, lookup_first (matches (req_name rq) (req_ext rq)) (table_at v p) = Some e /\ attribute e ≠ ATTR_SUBDIRECTORY /\
          x = p /\ nm = req_name rq /\ ex = req_ext rq)).
Proof using All.
  intros <- Hin. pose proof (located_dir v _ (dk_tree _ _ _ Hd) _ _ Hp) as Hdir. unfold spec_delete. rewrite Hdir. cbn [negb].
  destruct (lookup_first _ (table_at v p)) as [e|] eqn:E; [destruct (folder_empty v e) eqn:He|].
  2,3: cbn [fst snd]; split; [exact Hm|]; split; [by exists cs|]; split;
    [intros ns x|intros x nm ex data]; (split; [intros H; split; [exact H|intros [? _]; discriminate]|intros [H _]; exact H]).
  specialize (Hin e eq_refl). cbn [fst snd].
  destruct (released v m rq cs e Hlen Hblocks Hm Hd pns Hp _ eq_refl Hin He) as (Hlst & Hmap & Hlow).
  split; [change (spec_remove v m rq e).2 with (set_fat m (clear (fat_table m) (entry_clusters (fat_table m) e))); by apply mounted_clear|].
  destruct (proj1 (elem_of_Permutation cs _) Hlst) as [cs' Hperm].
  split; [exists cs'; exact (disk_removed v m rq cs e Hlen Hblocks Hm Hd pns Hp _ eq_refl Hin He cs' Hperm)|].
  apply lookup_first_Some in E as (_ & _ & Hmatch). unfold matches, has_name in Hmatch. apply andb_prop in Hmatch as [Hn%bool_decide_eq_true Hx%bool_decide_eq_true].
  split.
  - intros ns x. pose proof (removed_located v m rq cs e Hlen Hblocks Hm Hd pns Hp _ eq_refl Hin He ns x) as Hiff. split.
    + intros H. destruct (proj1 Hiff H) as [Hl Hnot]. split; [exact Hl|]. intros (_ & e2 & [= <-] & _ & ->). apply Hnot, entry_in_clusters.
    + intros [Hl Hnot]. apply (proj2 Hiff). split; [exact Hl|]. intros Hxl. apply Hnot. split; [reflexivity|]. exists e. split; [reflexivity|].
      exact (located_of_slot _ _ _ Hd _ _ _ _ _ _ Hl Hp Hin Hxl).
  - intros x nm ex data. pose proof (removed_file_at v m rq cs e Hlen Hblocks Hm Hd pns Hp _ eq_refl Hin He x nm ex data) as Hiff. rewrite Hn, Hx in Hiff. split.
    + intros H. destruct (proj1 Hiff H) as [Hf Hnot]. split; [exact Hf|]. intros (_ & e2 & [= <-] & H2). exact (Hnot H2).
    + intros [Hf Hnot]. apply (proj2 Hiff). split; [exact Hf|]. intros H. apply Hnot. split; [reflexivity|]. exists e. split; [reflexivity|exact H].
Qed.
End calls.
