(* ===== verification/DiskMap.v ===== *)
(** * The file system as a map

    What fat32.c promises without its tables and chains: a map from a folder,
    a name and an extension to the bytes of a file, and the paths of the
    folders.  [disk_step] is the specification of the calls on that map;
    every call of the driver is one of its steps, and so is every sequence of
    calls from the moment the disk is formatted. *)
From stdpp Require Import gmap.
From S2P Require Import Prelude CString BlockDevice FatLayout Fat32 FatFacts FatChain FatLoops FatSpec FatRefine FatWrite FatMount FatProps FatInvariant FatLimits ShellFacts DirTree DiskTree DiskRemove.

(** The cluster of the folder, the name and the extension. *)
Notation file_key := (Z * list Z * list Z)%type.

Record disk_map := MkDiskMap {
  files : gmap file_key (list Z);
  paths : gmap Z (list (list Z))
}.

Definition with_files (d : disk_map) (f : gmap file_key (list Z)) : disk_map := MkDiskMap f (paths d).
Definition with_paths (d : disk_map) (p : gmap Z (list (list Z))) : disk_map := MkDiskMap (files d) p.

Inductive disk_call := Write (rq : FAT32DriverRequest) | Remove (rq : FAT32DriverRequest) | Read (rq : FAT32DriverRequest).

Definition request_of (c : disk_call) : FAT32DriverRequest := match c with Write rq | Remove rq | Read rq => rq end.

Definition key_of (rq : FAT32DriverRequest) : file_key := (parent_cluster_number rq, req_name rq, req_ext rq).

(** [c] is a folder of that name in the folder of the request. *)
Definition sub_folder (d : disk_map) (rq : FAT32DriverRequest) (c : Z) : Prop :=
  exists ns, paths d !! parent_cluster_number rq = Some ns /\ paths d !! c = Some (ns ++ [CString.cstr (req_name rq)]).

(** A file or a folder is in the folder [c]. *)
Definition inhabited_folder (d : disk_map) (c : Z) : Prop :=
  (exists nm ex data, files d !! (c, nm, ex) = Some data) \/
  (exists x ns nm, paths d !! c = Some ns /\ paths d !! x = Some (ns ++ [nm])).

(** The code and the buffer a call returns, and the map after it.  A file is
    read in whole clusters: what is behind the last one stays. *)
Inductive disk_step (d : disk_map) : disk_call -> Z -> list Z -> disk_map -> Prop :=
  | file_written rq : buffer_size rq ≠ 0 -> files d !! key_of rq = None ->
      disk_step d (Write rq) 0 (buf rq) (with_files d (<[key_of rq := take (Z.to_nat (buffer_size rq)) (buf rq)]> (files d)))
  | folder_made rq ns c : buffer_size rq = 0 -> paths d !! parent_cluster_number rq = Some ns -> paths d !! c = None ->
      disk_step d (Write rq) 0 (buf rq) (with_paths d (<[c := ns ++ [CString.cstr (req_name rq)]]> (paths d)))
  | file_exists rq data : buffer_size rq ≠ 0 -> files d !! key_of rq = Some data -> disk_step d (Write rq) 1 (buf rq) d
  | folder_exists rq c : buffer_size rq = 0 -> sub_folder d rq c -> disk_step d (Write rq) 1 (buf rq) d
  | no_room rq : (buffer_size rq ≠ 0 -> files d !! key_of rq = None) -> disk_step d (Write rq) (-1) (buf rq) d
  | file_removed rq data : files d !! key_of rq = Some data ->
      disk_step d (Remove rq) 0 (buf rq) (with_files d (delete (key_of rq) (files d)))
  | folder_removed rq c : sub_folder d rq c -> (forall k data, files d !! k = Some data -> k.1.1 ≠ c) ->
      disk_step d (Remove rq) 0 (buf rq) (with_paths d (delete c (paths d)))
  | nothing_to_remove rq : files d !! key_of rq = None -> disk_step d (Remove rq) 1 (buf rq) d
  | folder_not_empty rq c : sub_folder d rq c -> inhabited_folder d c -> disk_step d (Remove rq) 2 (buf rq) d
  | file_read rq data out : files d !! key_of rq = Some data -> Zlen data ≤ buffer_size rq ->
      take (length data) out = data -> length out = length (buf rq) -> bytes_ok (take (Z.to_nat (CLUSTER_SIZE * number_of_partition (Zlen data))) out) ->
      drop (Z.to_nat (CLUSTER_SIZE * number_of_partition (Zlen data))) out = drop (Z.to_nat (CLUSTER_SIZE * number_of_partition (Zlen data))) (buf rq) ->
      disk_step d (Read rq) 0 out d
  | file_too_big rq data : files d !! key_of rq = Some data -> buffer_size rq < Zlen data -> disk_step d (Read rq) (-1) (buf rq) d
  | read_a_folder rq c : sub_folder d rq c -> disk_step d (Read rq) 1 (buf rq) d
  | nothing_to_read rq : files d !! key_of rq = None -> disk_step d (Read rq) 2 (buf rq) d.

(** The disk [v] with the table [fat] holds the map [d]. *)
Record holds (v : volume) (fat : list Z) (d : disk_map) : Prop := MkHolds {
  ho_files x nm ex data : files d !! (x, nm, ex) = Some data <-> file_at v fat x nm ex data;
  ho_paths x ns : paths d !! x = Some ns <-> located v ns x
}.

Record disk_shows (v : volume) (m : driver) (d : disk_map) : Prop := MkShows {
  sh_mounted : mounted m;
  sh_disk : exists cs, disk_ok v (fat_table m) cs;
  sh_holds : holds v (fat_table m) d
}.

(** A request a caller may make: the parent is a folder, the name is not
    blank and neither the folder's own name nor its parent's, and the buffer
    has the clusters the call copies.  A new folder has a name of its own and
    is not made outside the root ([overruns_literal]). *)
Record callable (v : volume) (m : driver) (c : disk_call) : Prop := MkCallable {
  ca_request : request_ok (request_of c);
  ca_parent : exists ns, located v ns (parent_cluster_number (request_of c));
  ca_blank : matches (req_name (request_of c)) (req_ext (request_of c)) empty_entry = false;
  ca_first : Forall (fun e => matches (req_name (request_of c)) (req_ext (request_of c)) e = false) (take 2 (table_at v (parent_cluster_number (request_of c))));
  ca_buffer : CLUSTER_SIZE * number_of_partition (buffer_size (request_of c)) ≤ Zlen (buf (request_of c));
  ca_write : match c with
    | Write rq => write_args_ok m rq /\ overruns_literal v m rq = false /\ (buffer_size rq = 0 -> folder_name (CString.cstr (req_name rq)))
    | _ => True
    end
}.

(** ** Facts about a disk in order *)

Lemma number_of_partition_le a b : 0 ≤ a -> a ≤ b -> number_of_partition a ≤ number_of_partition b.
Proof.
  intros Ha Hab. unfold number_of_partition, CLUSTER_SIZE, BLOCK_SIZE, CLUSTER_BLOCK_COUNT. change (512 * 4) with 2048.
  destruct (Z.ltb_spec 0 (a mod 2048)), (Z.ltb_spec 0 (b mod 2048)); Z.div_mod_to_equations; lia.
Qed.

Lemma number_of_partition_ge a : 0 ≤ a -> a ≤ 2048 * number_of_partition a.
Proof.
  intros Ha. unfold number_of_partition, CLUSTER_SIZE, BLOCK_SIZE, CLUSTER_BLOCK_COUNT. change (512 * 4) with 2048.
  destruct (Z.ltb_spec 0 (a mod 2048)); Z.div_mod_to_equations; lia.
Qed.

Section facts.
Context (v : volume) (fat : list Z) (cs : list (list Z)).
Context (Hlen : length v = 512%nat) (Hblocks : forall c, in_map c -> block_ok (vol_get v c)) (Hd : disk_ok v fat cs).

Lemma entry_words x j e : in_map x -> table_at v x !! j = Some e -> is_word 32 (filesize e).
Proof using Hblocks.
  intros Hx He. destruct (Hblocks x Hx) as [Hl Hb]. pose proof (dec_array_wf (A := FAT32DirectoryEntry) ENTRY_COUNT _ Hl Hb) as Hw.
  eapply Forall_lookup_1 in Hw; [|exact He]. by destruct Hw.
Qed.

Lemma file_data_length ns x j e : located v ns x -> in_use v x j e -> attribute e ≠ ATTR_SUBDIRECTORY -> Zlen (file_data v fat e) = filesize e.
Proof using All.
  intros Hl Hu Ha. pose proof (located_map v _ (dk_tree _ _ _ Hd) _ _ Hl) as Hx. destruct Hu as (Hj & He & Hus) eqn:Eu.
  pose proof (entry_words _ _ _ Hx He) as Hw. unfold is_word in Hw. pose proof (dk_size _ _ _ Hd _ _ _ _ Hl Hu Ha) as Hsz.
  pose proof (number_of_partition_ge (filesize e) ltac:(lia)) as Hge. destruct (dk_chain _ _ _ Hd _ _ _ _ Hl Hu) as [Hin _].
  pose proof (chain_in_map _ _ _ (listed_chain _ _ _ (dk_part _ _ _ Hd) Hin)) as Hmap.
  unfold file_data, Zlen in *. rewrite length_take.
  rewrite length_get_data; [lia|]. eapply Forall_impl; [exact Hmap|exact Hblocks].
Qed.

Lemma file_at_functional x nm ex data data' : file_at v fat x nm ex data -> file_at v fat x nm ex data' -> data = data'.
Proof using All.
  intros (ns & i & e & Hl & Hu & Ha & <- & <- & <-) (ns' & i' & e' & Hl' & Hu' & Ha' & Hn & Hx & <-).
  destruct (dk_kind _ _ _ Hd _ _ _ _ Hl Hu) as [|H1]; [contradiction|]. destruct (dk_kind _ _ _ Hd _ _ _ _ Hl' Hu') as [|H2]; [contradiction|].
  assert (i = i') as <- by (eapply (dk_unique _ _ _ Hd); [exact Hl|exact Hu|exact Hu'|congruence..]).
  destruct Hu as (_ & H3 & _), Hu' as (_ & H4 & _). rewrite H3 in H4. by injection H4 as ->.
Qed.

(** The entry a search finds, past the first two. *)
Lemma found_in_use ns x nm ex e : located v ns x -> matches nm ex empty_entry = false ->
  Forall (fun e => matches nm ex e = false) (take 2 (table_at v x)) ->
  lookup_first (matches nm ex) (table_at v x) = Some e -> in_use v x (first_idx (matches nm ex) (table_at v x)) e /\ name e = nm /\ ext e = ex.
Proof using All.
  intros Hl Hblank Hfirst Hf. apply lookup_first_Some in Hf as (_ & He & Hm).
  assert (Hi : (2 ≤ first_idx (matches nm ex) (table_at v x))%nat).
  { destruct (decide (2 ≤ first_idx (matches nm ex) (table_at v x))%nat) as [|Hlt]; [done|].
    rewrite Forall_lookup in Hfirst. rewrite (Hfirst (first_idx (matches nm ex) (table_at v x)) e) in Hm; [done|].
    rewrite lookup_take_lt by lia. exact He. }
  assert (Hfree : free_slot e = false).
  { destruct (free_slot e) eqn:E; [|done]. rewrite (dk_blank _ _ _ Hd _ _ _ _ Hl Hi He E) in Hm. congruence. }
  split; [split; [exact Hi|split; [exact He|]]|].
  - unfold free_slot in Hfree. apply negb_false_iff in Hfree. by apply Z.eqb_eq in Hfree.
  - unfold matches, has_name in Hm. apply andb_prop in Hm as [H1 H2]. by apply bool_decide_eq_true in H1, H2.
Qed.
End facts.

(** ** The calls on the map *)

Section steps.
Context (v : volume) (m : driver) (d : disk_map) (rq : FAT32DriverRequest).
Context (Hlen : length v = 512%nat) (Hblocks : forall c, in_map c -> block_ok (vol_get v c)).
Context (Hm : mounted m) (Hh : holds v (fat_table m) d) (cs : list (list Z)) (Hd : disk_ok v (fat_table m) cs).
Context (Hrq : request_ok rq) (pns : list (list Z)) (Hp : located v pns (parent_cluster_number rq)).
Context (Hblank : matches (req_name rq) (req_ext rq) empty_entry = false).
Notation p := (parent_cluster_number rq).

Lemma file_known x nm ex data : file_at v (fat_table m) x nm ex data -> files d !! (x, nm, ex) = Some data.
Proof using Hh. apply (ho_files _ _ _ Hh). Qed.

Lemma file_unknown x nm ex : (forall data, ~ file_at v (fat_table m) x nm ex data) -> files d !! (x, nm, ex) = None.
Proof using Hh. intros H. destruct (files d !! (x, nm, ex)) as [data|] eqn:E; [|done]. by apply (ho_files _ _ _ Hh), H in E. Qed.

(** A folder in use is a sub-folder of the map. *)
Lemma slot_sub_folder i e : in_use v p i e -> attribute e = ATTR_SUBDIRECTORY -> name e = req_name rq -> sub_folder d rq (entry_cluster e).
Proof using Hh Hp.
  intros (Hi & He & _) Ha Hn. exists pns. rewrite !(ho_paths _ _ _ Hh). split; [exact Hp|]. rewrite <- Hn. eapply located_child; [exact Hp| |exact Ha].
  apply elem_drop. eauto.
Qed.

Lemma slot_file i e : in_use v p i e -> attribute e ≠ ATTR_SUBDIRECTORY -> name e = req_name rq -> ext e = req_ext rq ->
  files d !! key_of rq = Some (file_data v (fat_table m) e).
Proof using Hh Hp. intros Hu Ha Hn Hx. apply file_known. rewrite <- Hn, <- Hx. by apply file_at_slot with pns i. Qed.

(** The entry that makes a name taken. *)
Lemma taken_in_use attr e : e ∈ drop 2 (table_at v p) -> duplicate (req_name rq) (req_ext rq) attr e = true ->
  exists i, in_use v p i e /\ attribute e = attr /\ name e = req_name rq /\ ext e = req_ext rq.
Proof using All.
  intros (i & Hi & He)%elem_drop Hdup. unfold duplicate in Hdup.
  apply andb_prop in Hdup as [Hmt Ha%Z.eqb_eq]. exists i.
  assert (Hfree : free_slot e = false).
  { destruct (free_slot e) eqn:E; [|done]. rewrite (dk_blank _ _ _ Hd _ _ _ _ Hp Hi He E) in Hmt. congruence. }
  unfold free_slot in Hfree. apply negb_false_iff, Z.eqb_eq in Hfree. unfold matches, has_name in Hmt.
  apply andb_prop in Hmt as [H1%bool_decide_eq_true H2%bool_decide_eq_true]. exact (conj (conj Hi (conj He Hfree)) (conj Ha (conj H1 H2))).
Qed.

(** A file of that name has an entry that makes it taken. *)
Lemma file_is_taken data : files d !! key_of rq = Some data ->
  exists e, e ∈ drop 2 (table_at v p) /\ duplicate (req_name rq) (req_ext rq) 0 e = true.
Proof using All.
  intros (ns & i & e & Hl & Hu & Ha & Hn & Hx & _)%(ho_files _ _ _ Hh). destruct (dk_kind _ _ _ Hd _ _ _ _ Hl Hu) as [|H0]; [contradiction|].
  exists e. destruct Hu as (Hi & He & _). split; [apply elem_drop; eauto|].
  unfold duplicate, matches, has_name. by rewrite Hn, Hx, H0, !bool_decide_true.
Qed.

Lemma not_taken : lookup_first (duplicate (req_name rq) (req_ext rq) 0) (drop 2 (table_at v p)) = None -> files d !! key_of rq = None.
Proof using All.
  intros Hn. destruct (files d !! key_of rq) as [data|] eqn:E; [|done]. destruct (file_is_taken _ E) as (e & He & Hdup).
  apply lookup_first_None, first_idx_none in Hn. rewrite Forall_forall in Hn. rewrite (Hn e He) in Hdup. discriminate.
Qed.

Lemma unchanged : disk_shows v m d.
Proof using Hm Hh Hd. split; [exact Hm|by exists cs|exact Hh]. Qed.

(** The cluster a folder gets belongs to no folder. *)
Lemma first_free_no_folder : free_clusters (fat_table m) ≠ 0 -> paths d !! first_free (fat_table m) = None.
Proof using All.
  intros Hfits. destruct (paths d !! first_free (fat_table m)) as [ns|] eqn:E; [|done]. apply (ho_paths _ _ _ Hh) in E.
  pose proof (located_allocated v _ (dk_tree _ _ _ Hd) _ _ (root_allocated m Hm) E) as [_ Hne].
  destruct (first_free_mounted m Hm Hfits) as (_ & H0 & _). contradiction.
Qed.

Lemma write_step w : spec_write v m rq = w -> write_args_ok m rq -> (buffer_size rq = 0 -> folder_name (CString.cstr (req_name rq))) ->
  exists d', disk_shows w.2.1 w.2.2 d' /\ disk_step d (Write rq) w.1 (buf rq) d'.
Proof using All.
  intros Hw Hargs Hname. pose proof (mounted_write v m rq Hm Hrq) as Hm'. rewrite Hw in Hm'.
  destruct (disk_write v m rq cs Hlen Hblocks Hm Hrq Hd pns Hp w Hw (wa_buf _ _ Hargs) Hname) as (Hd' & Hloc & Hfa).
  revert Hw. unfold spec_write. rewrite (located_dir v _ (dk_tree _ _ _ Hd) _ _ Hp). cbn [negb].
  destruct (lookup_first _ (drop 2 (table_at v p))) as [e|] eqn:E.
  { intros <-. exists d. split; [exact unchanged|]. apply lookup_first_Some in E as (_ & E & Hdup). apply list_elem_of_lookup_2 in E.
    destruct (taken_in_use _ _ E Hdup) as (i & Hu & Ha & Hn & Hx). cbn [fst]. destruct (Z.eqb_spec (buffer_size rq) 0) as [Hz|Hz].
    - eapply folder_exists; [exact Hz|]. by eapply slot_sub_folder.
    - eapply file_exists; [exact Hz|]. eapply slot_file; [exact Hu|rewrite Ha; discriminate|exact Hn|exact Hx]. }
  assert (Hnone : buffer_size rq ≠ 0 -> files d !! key_of rq = None).
  { intros Hz. rewrite (proj2 (Z.eqb_neq _ _) Hz) in E. exact (not_taken E). }
  case_decide as Hslot; [intros <-; exists d; split; [exact unchanged|by apply no_room]|].
  destruct (Z.eqb_spec (buffer_size rq) 0) as [Hz|Hz].
  - destruct (Z.eqb_spec (free_clusters (fat_table m)) 0) as [|Hfits]; [intros <-; exists d; split; [exact unchanged|by apply no_room]|].
    intros Hw. assert (Hc : w.1 = 0) by (by rewrite <- Hw). rewrite Hc.
    exists (with_paths d (<[first_free (fat_table m) := pns ++ [CString.cstr (req_name rq)]]> (paths d))). split.
    2: { apply folder_made; [exact Hz|by apply (ho_paths _ _ _ Hh)|by apply first_free_no_folder]. }
    split; [exact Hm'|exact Hd'|]. split.
    + intros x nm ex data. cbn [with_paths files]. rewrite (ho_files _ _ _ Hh). split; [intros H; exact (proj2 (Hfa _ _ _ _) (or_introl H))|].
      intros H. destruct (proj1 (Hfa _ _ _ _) H) as [H'|(_ & H' & _)]; [exact H'|contradiction].
    + intros x ns. cbn [with_paths paths]. rewrite lookup_insert_Some, (ho_paths _ _ _ Hh). split.
      * intros [[<- <-]|[Hne H]]; apply (proj2 (Hloc _ _)); [right; exact (conj Hc (conj Hz (conj eq_refl eq_refl)))|left; exact H].
      * intros H. destruct (proj1 (Hloc _ _) H) as [H'|(_ & _ & -> & ->)]; [|left; split; reflexivity]. right. split; [|exact H'].
        intros <-. pose proof (first_free_no_folder Hfits) as Hno. apply (ho_paths _ _ _ Hh) in H'. congruence.
  - destruct (Z.ltb_spec (free_clusters (fat_table m)) (number_of_partition (buffer_size rq))) as [|Hfits]; [intros <-; exists d; split; [exact unchanged|by apply no_room]|].
    intros Hw. assert (Hc : w.1 = 0) by (by rewrite <- Hw). rewrite Hc.
    exists (with_files d (<[key_of rq := take (Z.to_nat (buffer_size rq)) (buf rq)]> (files d))). split; [|by apply file_written; [exact Hz|apply Hnone]].
    split; [exact Hm'|exact Hd'|]. split.
    + intros x nm ex data. cbn [with_files files]. rewrite lookup_insert_Some, (ho_files _ _ _ Hh). split.
      * unfold key_of. intros [[Heq <-]|[Hne H]]; apply (proj2 (Hfa _ _ _ _)); [injection Heq as <- <- <-; right; exact (conj Hc (conj Hz (conj eq_refl (conj eq_refl (conj eq_refl eq_refl)))))|left; exact H].
      * intros H. destruct (proj1 (Hfa _ _ _ _) H) as [H'|(_ & _ & -> & -> & -> & ->)]; [|left; split; reflexivity]. right. split; [|exact H'].
        intros Heq. apply file_known in H'. rewrite <- Heq in H'. rewrite (Hnone Hz) in H'. discriminate.
    + intros x ns. cbn [with_files paths]. rewrite (ho_paths _ _ _ Hh). split; [intros H; exact (proj2 (Hloc _ _) (or_introl H))|].
      intros H. destruct (proj1 (Hloc _ _) H) as [H'|(_ & H' & _)]; [exact H'|contradiction].
Qed.

Context (Hfirst : Forall (fun e => matches (req_name rq) (req_ext rq) e = false) (take 2 (table_at v p))).

Lemma search_in_use e : lookup_first (matches (req_name rq) (req_ext rq)) (table_at v p) = Some e ->
  in_use v p (first_idx (matches (req_name rq) (req_ext rq)) (table_at v p)) e /\ name e = req_name rq /\ ext e = req_ext rq.
Proof using All. exact (found_in_use v _ cs Hlen Hblocks Hd pns p _ _ e Hp Hblank Hfirst). Qed.

Lemma not_found : lookup_first (matches (req_name rq) (req_ext rq)) (table_at v p) = None -> files d !! key_of rq = None.
Proof using All.
  intros Hn. destruct (files d !! key_of rq) as [data|] eqn:E; [|done]. destruct (file_is_taken _ E) as (e & He & Hdup).
  apply lookup_first_None, first_idx_none in Hn. rewrite Forall_forall in Hn. apply elem_drop in He as (i & _ & He).
  apply list_elem_of_lookup_2 in He. unfold duplicate in Hdup. rewrite (Hn e He) in Hdup. discriminate.
Qed.

(** Nothing of the map is below a folder that goes. *)
Lemma nothing_lost e w : spec_delete v m rq = w -> w.1 = 0 ->
  lookup_first (matches (req_name rq) (req_ext rq)) (table_at v p) = Some e -> attribute e = ATTR_SUBDIRECTORY ->
  forall k data, files d !! k = Some data -> k.1.1 ≠ entry_cluster e.
Proof using All.
  intros Hw Hc E Ha [[x nm] ex] data Hk Heq. cbn [fst] in Heq. subst x. apply (ho_files _ _ _ Hh) in Hk as (ns & i & e1 & Hl & (Hi & He1 & Hus) & _).
  assert (He : folder_empty v e = true).
  { revert Hw. unfold spec_delete. rewrite E. destruct (negb _); [intros <-; discriminate|]. destruct (folder_empty v e); [done|intros <-; discriminate]. }
  pose proof (folder_empty_slot v e He Ha i e1 Hi He1) as Hf. unfold free_slot in Hf. by rewrite Hus in Hf.
Qed.

(** A folder that [Delete] does not find empty has a file or a folder. *)
Lemma not_empty_inhabited i e : in_use v p i e -> attribute e = ATTR_SUBDIRECTORY -> folder_empty v e = false ->
  inhabited_folder d (entry_cluster e).
Proof using Hh Hlen Hp.
  intros (Hi & He & _) Ha Hf.
  assert (Hl : located v (pns ++ [CString.cstr (name e)]) (entry_cluster e)) by (eapply located_child; [exact Hp| |exact Ha]; apply elem_drop; eauto).
  assert (Hsome : exists j e1, in_use v (entry_cluster e) j e1).
  { unfold folder_empty in Hf. apply orb_false_iff in Hf as [_ Hf]. apply bool_decide_eq_false in Hf.
    assert (0 < count (fun e => negb (free_slot e)) (drop 2 (table_at v (entry_cluster e))))%nat as Hc by lia.
    apply count_pos, first_idx_lookup in Hc as (e1 & He1 & Hus). rewrite lookup_drop in He1.
    eexists _, e1. split; [|split; [exact He1|]]; [lia|]. unfold free_slot in Hus. by apply negb_true_iff, negb_false_iff, Z.eqb_eq in Hus. }
  destruct Hsome as (j & e1 & Hu1). destruct (Z.eq_dec (attribute e1) ATTR_SUBDIRECTORY) as [Ha1|Ha1].
  - right. exists (entry_cluster e1), (pns ++ [CString.cstr (name e)]), (CString.cstr (name e1)). rewrite !(ho_paths _ _ _ Hh). split; [exact Hl|].
    destruct Hu1 as (Hj & He1 & _). eapply located_child; [exact Hl| |exact Ha1]. apply elem_drop. eauto.
  - left. exists (name e1), (ext e1), (file_data v (fat_table m) e1). apply file_known. by eapply file_at_slot.
Qed.

Lemma remove_step w : spec_delete v m rq = w ->
  exists d', disk_shows w.2.1 w.2.2 d' /\ disk_step d (Remove rq) w.1 (buf rq) d'.
Proof using All.
  intros Hw. destruct (disk_delete v m rq cs Hlen Hblocks Hm Hrq Hd pns Hp w Hw) as (Hm' & Hd' & Hloc & Hfa); [intros e He; apply search_in_use, He|].
  pose proof nothing_lost as Hlost. specialize (Hlost) with (w := w).
  revert Hw Hloc Hfa Hlost. unfold spec_delete. rewrite (located_dir v _ (dk_tree _ _ _ Hd) _ _ Hp). cbn [negb].
  destruct (lookup_first _ (table_at v p)) as [e|] eqn:E.
  2: { intros <- _ _ _. exists d. split; [exact unchanged|]. apply nothing_to_remove, not_found, E. }
  destruct (search_in_use e E) as (Hu & Hn & Hx).
  destruct (folder_empty v e) eqn:He.
  2: { intros <- _ _ _. exists d. split; [exact unchanged|].
       assert (Ha : attribute e = ATTR_SUBDIRECTORY) by (apply orb_false_iff in He as [Ha _]; by apply negb_false_iff, Z.eqb_eq in Ha).
       apply folder_not_empty with (entry_cluster e); [by eapply slot_sub_folder|]. exact (not_empty_inhabited _ _ Hu Ha He). }
  intros Hw Hloc Hfa Hlost. assert (Hc : w.1 = 0) by (by rewrite <- Hw). rewrite Hc. destruct (Z.eqb_spec (attribute e) ATTR_SUBDIRECTORY) as [Ha|Ha].
  - exists (with_paths d (delete (entry_cluster e) (paths d))). split; [|apply folder_removed; [by eapply slot_sub_folder|exact (Hlost e Hw Hc eq_refl Ha)]].
    split; [exact Hm'|exact Hd'|]. split.
    + intros x nm ex data. cbn [with_paths files]. rewrite (ho_files _ _ _ Hh), Hfa. split; [|tauto]. intros H. split; [exact H|].
      intros (_ & e2 & [= <-] & Hne & _). contradiction.
    + intros x ns. cbn [with_paths paths]. rewrite lookup_delete_Some, (ho_paths _ _ _ Hh), Hloc. split.
      * intros [Hne H]. split; [exact H|]. intros (_ & e2 & [= <-] & _ & ->). contradiction.
      * intros [H Hne]. split; [|exact H]. intros <-. apply Hne. exact (conj Hc (ex_intro _ e (conj eq_refl (conj Ha eq_refl)))).
  - exists (with_files d (delete (key_of rq) (files d))). split; [|eapply file_removed, slot_file; [exact Hu|exact Ha|exact Hn|exact Hx]].
    split; [exact Hm'|exact Hd'|]. split.
    + intros x nm ex data. cbn [with_files files]. rewrite lookup_delete_Some, (ho_files _ _ _ Hh), Hfa. unfold key_of. split.
      * intros [Hne H]. split; [exact H|]. intros (_ & e2 & [= <-] & _ & -> & -> & ->). contradiction.
      * intros [H Hne]. split; [|exact H]. intros Heq. injection Heq as <- <- <-. apply Hne.
        exact (conj Hc (ex_intro _ e (conj eq_refl (conj Ha (conj eq_refl (conj eq_refl eq_refl)))))).
    + intros x ns. cbn [with_files paths]. rewrite (ho_paths _ _ _ Hh), Hloc. split; [|tauto]. intros H. split; [exact H|].
      intros (_ & e2 & [= <-] & Hae & _). contradiction.
Qed.

Context (Hbuf : CLUSTER_SIZE * number_of_partition (buffer_size rq) ≤ Zlen (buf rq)).

(** A file that is read has a chain that fits the buffer. *)
Lemma search_backed e : lookup_first (matches (req_name rq) (req_ext rq)) (table_at v p) = Some e ->
  entry_backed (fat_table m) e /\
  (attribute e ≠ ATTR_SUBDIRECTORY -> filesize e ≤ buffer_size rq -> 2048 * Zlen (chain_of (fat_table m) (entry_cluster e)) ≤ Zlen (buf rq)).
Proof using All.
  intros E. destruct (search_in_use e E) as (Hu & _ & _). destruct (dk_chain _ _ _ Hd _ _ _ _ Hp Hu) as [Hin _].
  split; [exact (entry_backed_in _ _ _ (dk_part _ _ _ Hd) Hin)|]. intros Ha Hle. pose proof (dk_size _ _ _ Hd _ _ _ _ Hp Hu Ha) as Hsz.
  unfold entry_clusters in Hsz. rewrite (proj2 (Z.eqb_neq _ _) Ha) in Hsz. rewrite Hsz.
  assert (Hw : is_word 32 (filesize e)).
  { destruct Hu as (_ & He & _). eapply (entry_words v Hblocks); [|exact He]. exact (located_map v _ (dk_tree _ _ _ Hd) _ _ Hp). }
  unfold is_word in Hw. pose proof (number_of_partition_le (filesize e) (buffer_size rq) ltac:(lia) Hle) as Hn.
  change CLUSTER_SIZE with 2048 in Hbuf. lia.
Qed.

Lemma read_step : disk_step d (Read rq) (spec_read v (fat_table m) rq).1 (spec_read v (fat_table m) rq).2 d.
Proof using All.
  unfold spec_read. rewrite (located_dir v _ (dk_tree _ _ _ Hd) _ _ Hp). cbn [negb].
  destruct (lookup_first _ (table_at v p)) as [e|] eqn:E; [|apply nothing_to_read, not_found, E].
  destruct (search_in_use e E) as (Hu & Hn & Hx). destruct (Z.eqb_spec (attribute e) ATTR_SUBDIRECTORY) as [Ha|Ha].
  { eapply read_a_folder, slot_sub_folder; [exact Hu|exact Ha|exact Hn]. }
  pose proof (slot_file _ _ Hu Ha Hn Hx) as Hf. pose proof (file_data_length v _ cs Hlen Hblocks Hd _ _ _ _ Hp Hu Ha) as Hl.
  destruct (Z.ltb_spec (buffer_size rq) (filesize e)) as [Hlt|Hle]; cbn [fst snd]; [eapply file_too_big; [exact Hf|lia]|].
  destruct (search_backed e E) as [_ Hfit]. specialize (Hfit Ha Hle). destruct (dk_chain _ _ _ Hd _ _ _ _ Hp Hu) as [Hin _].
  pose proof (chain_in_map _ _ _ (listed_chain _ _ _ (dk_part _ _ _ Hd) Hin)) as Hmap. unfold entry_clusters in Hmap.
  pose proof Hl as Hl'. unfold file_data, entry_clusters in Hl'. rewrite (proj2 (Z.eqb_neq _ _) Ha) in Hmap, Hl'.
  assert (Hg : length (get_data v (chain_of (fat_table m) (entry_cluster e))) = (2048 * length (chain_of (fat_table m) (entry_cluster e)))%nat).
  { apply length_get_data. eapply Forall_impl; [exact Hmap|exact Hblocks]. }
  assert (Hk : Z.to_nat (CLUSTER_SIZE * number_of_partition (Zlen (file_data v (fat_table m) e))) = length (get_data v (chain_of (fat_table m) (entry_cluster e)))).
  { rewrite Hg, Hl. pose proof (dk_size _ _ _ Hd _ _ _ _ Hp Hu Ha) as Hsz. unfold entry_clusters in Hsz. rewrite (proj2 (Z.eqb_neq _ _) Ha) in Hsz.
    rewrite <- Hsz. unfold Zlen. change CLUSTER_SIZE with 2048. lia. }
  eapply file_read; [exact Hf|lia| | | |].
  - unfold splice, file_data, entry_clusters. rewrite (proj2 (Z.eqb_neq _ _) Ha). cbn [Z.to_nat]. rewrite take_0. cbn [app].
    unfold Zlen in *. rewrite length_take in Hl' |- *. rewrite take_app_le by lia. f_equal. lia.
  - apply length_splice. unfold Zlen in *. lia.
  - rewrite Hk. unfold splice. rewrite take_0. cbn [app]. rewrite take_app_length. unfold get_data. apply Forall_concat, Forall_fmap.
    eapply Forall_impl; [exact Hmap|]. intros c Hc. exact (proj2 (Hblocks c Hc)).
  - rewrite Hk. unfold splice. rewrite take_0. cbn [app]. by rewrite drop_app_length, Nat.add_0_l.
Qed.
End steps.

(** ** A formatted disk *)

Definition blank_map : disk_map := MkDiskMap ∅ {[ROOT_CLUSTER_NUMBER := []]}.

Lemma root_slot j e : root_directory !! j = Some e -> (2 ≤ j)%nat -> e = empty_entry.
Proof.
  intros He Hj. destruct j as [|[|j]]; [lia..|]. unfold root_directory, new_directory in He. cbn [lookup list_lookup] in He.
  by apply lookup_replicate in He as [-> _].
Qed.

Lemma formatted_chain : chain formatted_fat ROOT_CLUSTER_NUMBER [ROOT_CLUSTER_NUMBER].
Proof. constructor; [done|by vm_compute]. Qed.

Lemma formatted_used x : allocated formatted_fat x <-> x = ROOT_CLUSTER_NUMBER.
Proof.
  split; [|intros ->; split; [unfold ROOT_CLUSTER_NUMBER; lia|by vm_compute]]. intros [Hx Hne].
  assert (H : forallb (fun x => bool_decide (formatted_fat !! x = Some 0)) (seq 3 509) = true) by (by vm_compute).
  rewrite forallb_forall in H. destruct (decide (x = 2)) as [|Hx2]; [done|]. destruct Hne.
  specialize (H (Z.to_nat x)). rewrite in_seq in H. specialize (H ltac:(lia)). by apply bool_decide_eq_true in H.
Qed.

Section blank.
Context (v : volume) (m : driver) (Hlen : length v = 512%nat) (Hm : driver_ok m).
Notation v' := (spec_create v m).1.
Notation m' := (spec_create v m).2.

Lemma blank_located ns x : located v' ns x <-> ns = [] /\ x = ROOT_CLUSTER_NUMBER.
Proof using All.
  destruct (created_disk v m Hlen Hm) as (_ & _ & _ & _ & Ht). split; [|intros [-> ->]; constructor].
  intros Hl0. induction Hl0 as [|ns x e Hl [-> ->] He Ha]; [split; reflexivity|]. rewrite Ht in He. apply elem_drop in He as (j & Hj & He).
  by apply root_slot in He as ->.
Qed.

Lemma blank_unused ns x j e : located v' ns x -> in_use v' x j e -> False.
Proof using All.
  destruct (created_disk v m Hlen Hm) as (_ & _ & _ & _ & Ht). intros [-> ->]%blank_located (Hj & He & Hu). rewrite Ht in He.
  by apply root_slot in He as ->.
Qed.

Lemma blank_disk : disk_ok v' (fat_table m') [[ROOT_CLUSTER_NUMBER]].
Proof using All.
  destruct (created_disk v m Hlen Hm) as (_ & _ & _ & _ & Ht). change (fat_table m') with formatted_fat. split.
  - split.
    + rewrite Ht. by eexists.
    + intros ns p e [-> ->]%blank_located He Ha. rewrite Ht in He. apply elem_drop in He as (j & Hj & He). by apply root_slot in He as ->.
  - split.
    + apply Forall_singleton. eexists. exact formatted_chain.
    + apply NoDup_singleton.
    + intros x. rewrite formatted_used. cbn [concat app]. by rewrite list_elem_of_singleton.
  - by apply list_elem_of_singleton.
  - intros ns p i e Hl Hu. destruct (blank_unused _ _ _ _ Hl Hu).
  - intros ns p i e Hl Hu. destruct (blank_unused _ _ _ _ Hl Hu).
  - intros ns p i e ns2 p2 i2 e2 Hl Hu. destruct (blank_unused _ _ _ _ Hl Hu).
  - intros ns p i e i2 e2 Hl Hu. destruct (blank_unused _ _ _ _ Hl Hu).
  - intros ns p i e Hl Hu. destruct (blank_unused _ _ _ _ Hl Hu).
  - intros ns p i e [-> ->]%blank_located Hi He _. rewrite Ht in He. by apply root_slot in He.
Qed.

Lemma blank_shows : disk_shows v' m' blank_map.
Proof using All.
  destruct (created_disk v m Hlen Hm) as (_ & _ & Hmo & _ & _). split; [exact Hmo|eexists; exact blank_disk|]. split.
  - intros x nm ex data. cbn [blank_map files]. rewrite lookup_empty. split; [discriminate|].
    intros (ns & i & e & Hl & Hu & _). destruct (blank_unused _ _ _ _ Hl Hu).
  - intros x ns. cbn [blank_map paths]. rewrite lookup_singleton_Some, blank_located. naive_solver.
Qed.
End blank.

(** ** A call, whoever serves it *)

(** The code, the caller's buffer and the disk after a call, by FatSpec.v. *)
Definition spec_call (v : volume) (m : driver) (c : disk_call) : Z * list Z * (volume * driver) :=
  match c with
  | Write rq => ((spec_write v m rq).1, buf rq, (spec_write v m rq).2)
  | Remove rq => ((spec_delete v m rq).1, buf rq, (spec_delete v m rq).2)
  | Read rq => (spec_read v (fat_table m) rq, (v, m))
  end.

Section call.
Context (v : volume) (m : driver) (d : disk_map) (c : disk_call).
Context (Hlen : length v = 512%nat) (Hblocks : forall x, in_map x -> block_ok (vol_get v x)) (Hd : disk_shows v m d) (Hc : callable v m c).

Lemma callable_parent : in_map (parent_cluster_number (request_of c)).
Proof using Hd Hc. destruct Hd as [_ [cs Hdk] _], (ca_parent _ _ _ Hc) as [ns Hp]. exact (located_map v _ (dk_tree _ _ _ Hdk) _ _ Hp). Qed.

Lemma callable_backed e : lookup_first (matches (req_name (request_of c)) (req_ext (request_of c))) (table_at v (parent_cluster_number (request_of c))) = Some e ->
  entry_backed (fat_table m) e /\
  (attribute e ≠ ATTR_SUBDIRECTORY -> filesize e ≤ buffer_size (request_of c) ->
   2048 * Zlen (chain_of (fat_table m) (entry_cluster e)) ≤ Zlen (buf (request_of c))).
Proof using All.
  destruct Hd as [Hm [cs Hdk] Hh], Hc as [Hrq [ns Hp] Hblank Hfirst Hbuf _].
  exact (search_backed v m d (request_of c) Hlen Hblocks Hm Hh cs Hdk Hrq ns Hp Hblank Hfirst Hbuf e).
Qed.

(** What the specification says of a call is a step of the map. *)
Lemma spec_call_step : exists d', disk_shows (spec_call v m c).2.1 (spec_call v m c).2.2 d' /\
  disk_step d c (spec_call v m c).1.1 (spec_call v m c).1.2 d'.
Proof using All.
  destruct Hd as [Hm [cs Hdk] Hh], Hc as [Hrq [ns Hp] Hblank Hfirst Hbuf Hcw]. destruct c as [rq|rq|rq]; cbn [request_of spec_call fst snd] in *.
  - destruct Hcw as (Hargs & _ & Hname). exact (write_step v m d rq Hlen Hblocks Hm Hh cs Hdk Hrq ns Hp Hblank _ eq_refl Hargs Hname).
  - exact (remove_step v m d rq Hlen Hblocks Hm Hh cs Hdk Hrq ns Hp Hblank Hfirst _ eq_refl).
  - exists d. split; [exact Hd|]. exact (read_step v m d rq Hlen Hblocks Hm Hh cs Hdk Hrq ns Hp Hblank Hfirst Hbuf).
Qed.
End call.

(** ** The driver *)

Section calls.
Context {D : Type} `{!BlockDevice D, !BlockDeviceSpec D}.
Implicit Types (s : fs D) (v : volume) (m : driver) (c : disk_call).

(** The code, the caller's buffer and the state after a call. *)
Definition run_call s c : res (Z * list Z * fs D) :=
  match c with
  | Write rq => '(code, s) ← write s rq; Ret (code, buf rq, s)
  | Remove rq => '(code, s) ← Delete s rq; Ret (code, buf rq, s)
  | Read rq => read s rq
  end.

Lemma call_step s v m d c : repr s v m -> disk_shows v m d -> callable v m c ->
  exists code out s' v' m' d', run_call s c = Ret (code, out, s') /\ repr s' v' m' /\ disk_shows v' m' d' /\ disk_step d c code out d'.
Proof using All.
  intros Hs Hd Hc. pose proof (repr_length _ _ _ Hs) as Hlen.
  assert (Hb : forall x, in_map x -> block_ok (vol_get v x)) by (intros; by eapply repr_block).
  destruct (spec_call_step v m d c Hlen Hb Hd Hc) as (d' & Hsh & Hst). pose proof (callable_parent v m d c Hd Hc) as Hpm.
  pose proof (callable_backed v m d c Hlen Hb Hd Hc) as Hback. destruct Hc as [Hrq _ _ _ _ Hcw].
  assert (Hrun : exists s', run_call s c = Ret ((spec_call v m c).1, s') /\ repr s' (spec_call v m c).2.1 (spec_call v m c).2.2).
  { destruct c as [rq|rq|rq]; cbn [request_of spec_call run_call fst snd] in *.
    - destruct Hcw as (Hargs & Hlit & _). destruct (write_correct s v m rq Hs (sh_mounted _ _ _ Hd) Hargs Hlit) as (s' & Hw & Hs'). exists s'. rewrite Hw. exact (conj eq_refl Hs').
    - destruct (Delete_correct s v m rq Hs (sh_mounted _ _ _ Hd) Hrq Hpm) as (s' & Hw & Hs'); [intros e He; exact (proj1 (Hback e He))|].
      exists s'. rewrite Hw. exact (conj eq_refl Hs').
    - destruct (read_correct s v m rq Hs Hrq Hpm Hback) as (s' & Hs' & Hr). exists s'. exact (conj Hr Hs'). }
  destruct Hrun as (s' & Hrun & Hs'). exists (spec_call v m c).1.1, (spec_call v m c).1.2, s', (spec_call v m c).2.1, (spec_call v m c).2.2, d'.
  rewrite <- surjective_pairing. exact (conj Hrun (conj Hs' (conj Hsh Hst))).
Qed.

(** Calls one after another, with what each returned. *)
Fixpoint run_calls s (cs : list disk_call) : res (list (Z * list Z) * fs D) :=
  match cs with
  | [] => Ret ([], s)
  | c :: cs' => '(code, out, s) ← run_call s c; '(outs, s) ← run_calls s cs'; Ret ((code, out) :: outs, s)
  end.

Inductive disk_steps (d : disk_map) : list disk_call -> list (Z * list Z) -> disk_map -> Prop :=
  | steps_done : disk_steps d [] [] d
  | steps_more c code out d1 cs outs d2 : disk_step d c code out d1 -> disk_steps d1 cs outs d2 ->
      disk_steps d (c :: cs) ((code, out) :: outs) d2.

(** Every call of the sequence may be made when its turn comes. *)
Fixpoint all_callable s (cs : list disk_call) : Prop :=
  match cs with
  | [] => True
  | c :: cs' => (forall v m, repr s v m -> callable v m c) /\ forall r s', run_call s c = Ret (r, s') -> all_callable s' cs'
  end.

Lemma calls_step cs : forall s v m d, repr s v m -> disk_shows v m d -> all_callable s cs ->
  exists outs s' v' m' d', run_calls s cs = Ret (outs, s') /\ repr s' v' m' /\ disk_shows v' m' d' /\ disk_steps d cs outs d'.
Proof using All.
  induction cs as [|c cs IH]; intros s v m d Hs Hd Hcs; cbn [run_calls].
  { exists [], s, v, m, d. exact (conj eq_refl (conj Hs (conj Hd (steps_done d)))). }
  destruct Hcs as [Hc Hcs]. destruct (call_step s v m d c Hs Hd (Hc v m Hs)) as (code & out & s1 & v1 & m1 & d1 & Hrun & Hs1 & Hd1 & Hst).
  destruct (IH s1 v1 m1 d1 Hs1 Hd1 (Hcs _ _ Hrun)) as (outs & s2 & v2 & m2 & d2 & Hruns & Hs2 & Hd2 & Hsts).
  rewrite Hrun, bind_ret, Hruns, bind_ret. exists ((code, out) :: outs), s2, v2, m2, d2.
  exact (conj eq_refl (conj Hs2 (conj Hd2 (steps_more d c code out d1 cs outs d2 Hst Hsts)))).
Qed.
End calls.
