(* ===== verification/DiskProps.v ===== *)
(** * The file system refines a map

    Each call, and each sequence of calls on a formatted disk, is a step of
    the specification [disk_step] of DiskMap.v. *)
From stdpp Require Import gmap.
From S2P Require Import Prelude CString BlockDevice FatLayout Fat32 FatFacts FatChain FatLoops FatSpec FatRefine FatWrite FatMount FatContract FatProps FatInvariant FatLimits ShellFacts DirTree DiskTree DiskRemove DiskMap.

(** The folder has a free slot and the disk enough free clusters. *)
Definition has_room (v : volume) (m : driver) (c : disk_call) : Prop :=
  match c with
  | Write rq => count free_slot (drop 2 (table_at v (parent_cluster_number rq))) ≠ 0%nat /\
      Z.max 1 (number_of_partition (buffer_size rq)) ≤ free_clusters (fat_table m)
  | _ => True
  end.

Section theorems.
Context {D : Type} `{!BlockDevice D, !BlockDeviceSpec D}.
Implicit Types (s : fs D) (v : volume) (m : driver).

Lemma room_enough v m rq : request_ok rq -> has_room v m (Write rq) -> (spec_write v m rq).1 ≠ -1.
Proof using Type.
  intros Hrq [Hslot Hfree]. unfold spec_write. destruct (negb _); [discriminate|]. destruct (lookup_first _ _); [discriminate|].
  rewrite decide_False by exact Hslot. destruct (Z.eqb_spec (buffer_size rq) 0).
  - destruct (Z.eqb_spec (free_clusters (fat_table m)) 0); [lia|discriminate].
  - destruct (Z.ltb_spec (free_clusters (fat_table m)) (number_of_partition (buffer_size rq))); [lia|discriminate].
Qed.

Lemma room_was_there v m rq : request_ok rq -> (spec_write v m rq).1 = 0 -> has_room v m (Write rq).
Proof using Type.
  intros Hrq. unfold spec_write, has_room. destruct (negb _); [discriminate|]. destruct (lookup_first _ _); [discriminate|].
  case_decide as Hslot; [discriminate|]. intros H. split; [exact Hslot|]. unfold free_clusters in *. destruct (Z.eqb_spec (buffer_size rq) 0) as [Hz|Hz].
  - rewrite Hz. change (number_of_partition 0) with 0. revert H. destruct (Z.eqb_spec (Z.of_nat (count is_free (drop 3 (fat_table m)))) 0); [discriminate|lia].
  - pose proof (number_of_partition_pos (buffer_size rq)). destruct Hrq as [_ _ [Hlo _]].
    destruct (Z.ltb_spec (Z.of_nat (count is_free (drop 3 (fat_table m)))) (number_of_partition (buffer_size rq))); [discriminate|lia].
Qed.

(** A call with room is not refused for want of it. *)
Lemma call_room s v m d c code out s' : repr s v m -> disk_shows v m d -> callable v m c -> run_call s c = Ret (code, out, s') ->
  has_room v m c -> code ≠ -1 \/ exists rq, c = Read rq.
Proof using All.
  intros Hs Hd Hc Hrun Hroom. destruct (call_step s v m d c Hs Hd Hc) as (code' & out' & s1 & v1 & m1 & d1 & Hrun' & _ & _ & Hst).
  rewrite Hrun in Hrun'. injection Hrun' as <- <- <-. destruct c as [rq|rq|rq].
  - left. destruct (ca_write _ _ _ Hc) as (Hargs & Hlit & _). destruct (write_correct s v m rq Hs (sh_mounted _ _ _ Hd) Hargs Hlit) as (s2 & Hw & _).
    cbn [run_call] in Hrun. rewrite Hw in Hrun. injection Hrun as <- _ _. by apply room_enough; [apply (wa_request _ _ Hargs)|].
  - left. inversion Hst; discriminate.
  - right. by exists rq.
Qed.

(** In a sequence of calls no [write] with a free slot and enough free clusters
    at its turn returned -1. *)
Fixpoint room_used s (cs : list disk_call) (outs : list (Z * list Z)) : Prop :=
  match cs, outs with
  | c :: cs', (code, out) :: outs' =>
      (forall v m rq, repr s v m -> c = Write rq -> has_room v m c -> code ≠ -1) /\
      forall s', run_call s c = Ret (code, out, s') -> room_used s' cs' outs'
  | _, _ => True
  end.

Lemma repr_same s v m v' m' : repr s v m -> repr s v' m' -> v = v' /\ m = m'.
Proof using Type. intros (_ & <- & <-) (_ & <- & <-). by split. Qed.

Lemma calls_room cs : forall s v m d outs s', repr s v m -> disk_shows v m d -> all_callable s cs -> run_calls s cs = Ret (outs, s') ->
  room_used s cs outs.
Proof using All.
  induction cs as [|c cs IH]; intros s v m d outs s' Hs Hd Hcs Hrun; cbn [run_calls] in Hrun; [by injection Hrun as <- _|].
  destruct Hcs as [Hc Hcs]. destruct (call_step s v m d c Hs Hd (Hc v m Hs)) as (code & out & s1 & v1 & m1 & d1 & Hrun1 & Hs1 & Hd1 & _).
  rewrite Hrun1, bind_ret in Hrun. apply bind_Ret_inv in Hrun as ([outs' s2] & Hrun2 & Heq). injection Heq as <- <-. split.
  - intros v' m' rq Hs' -> Hroom. destruct (repr_same _ _ _ _ _ Hs' Hs) as [-> ->].
    destruct (call_room s v m d (Write rq) code out s1 Hs Hd (Hc v m Hs) Hrun1 Hroom) as [H|[rq' H]]; [exact H|discriminate H].
  - intros s3 H3. rewrite Hrun1 in H3. injection H3 as <-. exact (IH s1 v1 m1 d1 outs' s2 Hs1 Hd1 (Hcs _ _ Hrun1) Hrun2).
Qed.

(** C10: The calls of fat32.c refine a map from folder, name and extension to
    file contents, with the paths of the folders: on a disk in order, whatever
    [write], [Delete] and [read] return, and the buffer [read] fills, is
    what a step of the map allows, and the disk afterwards is in order and holds the
    map after that step.  A [write] with a free slot and enough free clusters
    does not fail for want of room.  The call is one that [callable] admits: the
    parent is a folder of the disk, the name is not blank and neither of the
    folder's first two entries has it, the buffer has room for the clusters of
    its size, and a new folder is not made outside the root. *)
Theorem call_refines_map s v m d c : repr s v m -> disk_shows v m d -> callable v m c ->
  exists code out s' v' m' d', run_call s c = Ret (code, out, s') /\ repr s' v' m' /\ disk_shows v' m' d' /\
    disk_step d c code out d' /\ (has_room v m c -> code ≠ -1 \/ exists rq, c = Read rq).
Proof using All.
  intros Hs Hd Hc. destruct (call_step s v m d c Hs Hd Hc) as (code & out & s' & v' & m' & d' & Hrun & Hs' & Hd' & Hst).
  exists code, out, s', v', m', d'. exact (conj Hrun (conj Hs' (conj Hd' (conj Hst (call_room _ _ _ _ _ _ _ _ Hs Hd Hc Hrun))))).
Qed.

(** C11: A disk that [initialize_filesystem_fat32] formats behaves like an
    empty map from then on: any sequence of calls, each one that [callable]
    admits at its turn, returns codes and buffers that are, call by call, those
    of a step of the map, and leaves the map's files and folders.  A [write]
    returns -1 only when its folder has no free slot or the disk too few free
    clusters at its turn: with room, a new file is stored with code 0 and an
    existing one refused with code 1. *)
Theorem formatted_disk_is_map s v m : repr s v m -> driver_ok m -> ~ formatted v ->
  exists s0, initialize_filesystem_fat32 s = Ret s0 /\
    forall cs, all_callable s0 cs -> exists outs s' v' m' d', run_calls s0 cs = Ret (outs, s') /\
      disk_steps blank_map cs outs d' /\ room_used s0 cs outs /\ repr s' v' m' /\ disk_shows v' m' d'.
Proof using All.
  intros Hs Hm Hnot. destruct (initialize_creates s v m Hs Hm Hnot) as (s0 & Hi & Hs0). exists s0. split; [exact Hi|]. intros cs Hcs.
  pose proof (blank_shows v m (repr_length _ _ _ Hs) Hm) as Hd0.
  destruct (calls_step cs s0 _ _ _ Hs0 Hd0 Hcs) as (outs & s' & v' & m' & d' & Hrun & Hs' & Hd' & Hst).
  exists outs, s', v', m', d'. exact (conj Hrun (conj Hst (conj (calls_room _ _ _ _ _ _ _ Hs0 Hd0 Hcs Hrun) (conj Hs' Hd')))).
Qed.
End theorems.

(** ** Witnesses *)

Lemma demo_callable : callable demo_vol demo_drv (Write demo_file).
Proof.
  split; cbn [request_of].
  - exact demo_file_ok.
  - exists []. change (parent_cluster_number demo_file) with ROOT_CLUSTER_NUMBER. constructor.
  - by vm_compute.
  - change (parent_cluster_number demo_file) with ROOT_CLUSTER_NUMBER. rewrite demo_root_table. repeat constructor; by vm_compute.
  - vm_compute. discriminate.
  - split; [exact demo_write_args|]. split; [reflexivity|]. intros H. discriminate H.
Qed.

Lemma demo_shows : disk_shows demo_vol demo_drv blank_map.
Proof. apply blank_shows; [by vm_compute|exact demo_memory_ok]. Qed.

(** The map leaves a write of a new file only one way to go. *)
Lemma demo_written code out d' : disk_step blank_map (Write demo_file) code out d' -> code ≠ -1 ->
  code = 0 /\ out = buf demo_file /\ d' = with_files blank_map (<[key_of demo_file := take 2000 demo_data]> ∅).
Proof.
  assert (Hsz : buffer_size demo_file ≠ 0) by discriminate. assert (Hno : files blank_map !! key_of demo_file = None) by apply lookup_empty.
  revert Hsz Hno. change (take 2000 demo_data) with (take (Z.to_nat (buffer_size demo_file)) (buf demo_file)). generalize demo_file as rq.
  intros rq Hsz Hno Hst Hne. inversion Hst; subst; try congruence. exact (conj eq_refl (conj eq_refl eq_refl)).
Qed.

Lemma demo_has_room : has_room demo_vol demo_drv (Write demo_file).
Proof.
  split; [|vm_compute; discriminate]. change (parent_cluster_number demo_file) with ROOT_CLUSTER_NUMBER. rewrite demo_root_table. by vm_compute.
Qed.

Lemma call_refines_map_witness : exists s out s' v' m', run_call s (Write demo_file) = Ret (0, out, s') /\
  repr s' v' m' /\ disk_shows v' m' (with_files blank_map (<[key_of demo_file := take 2000 demo_data]> ∅)).
Proof.
  destruct demo_repr as (s & _ & Hs).
  destruct (call_refines_map s demo_vol demo_drv blank_map (Write demo_file) Hs demo_shows demo_callable)
    as (code & out & s' & v' & m' & d' & Hrun & Hs' & Hd' & Hst & Hroom).
  destruct (Hroom demo_has_room) as [Hne|[rq Hrq]]; [|discriminate Hrq].
  destruct (demo_written _ _ _ Hst Hne) as (-> & -> & ->).
  exists s, (buf demo_file), s', v', m'. exact (conj Hrun (conj Hs' Hd')).
Defined.

Lemma formatted_disk_is_map_witness : exists s0 out s', initialize_filesystem_fat32 demo_boot = Ret s0 /\
  run_calls s0 [Write demo_file] = Ret ([(0, out)], s') /\
  exists v' m', repr s' v' m' /\ disk_shows v' m' (with_files blank_map (<[key_of demo_file := take 2000 demo_data]> ∅)).
Proof.
  destruct (formatted_disk_is_map demo_boot demo_blank demo_memory demo_boot_repr demo_memory_ok demo_unformatted) as (s0 & Hi & Hcalls).
  destruct (initialize_creates demo_boot demo_blank demo_memory demo_boot_repr demo_memory_ok demo_unformatted) as (s1 & Hi1 & Hs1).
  rewrite Hi in Hi1. injection Hi1 as <-. destruct (Hcalls [Write demo_file]) as (outs & s' & v' & m' & d' & Hrun & Hst & Hroom & Hs' & Hd').
  - split; [|done]. intros v m Hs. destruct (repr_same _ _ _ _ _ Hs Hs1) as [-> ->]. exact demo_callable.
  - inversion Hst as [|? code out d1 ? outs' ? Hstep Hrest]; subst. inversion Hrest; subst.
    destruct Hroom as [Hroom _]. destruct (demo_written _ _ _ Hstep (Hroom _ _ _ Hs1 eq_refl demo_has_room)) as (-> & -> & ->).
    exists s0, (buf demo_file), s'. split; [exact Hi|]. split; [exact Hrun|]. exists v', m'. exact (conj Hs' Hd').
Defined.
