(* ===== verification/ShellSplit.v ===== *)
(** * Typed paths

    [parse_path] is the split of the path at its separators; a separator at the
    end of the path is dropped, and one at the start stands for the root. *)
From S2P Require Import Prelude CString BlockDevice FatLayout Fat32 ShellBase Shell ShellFacts ShellLine.

(** The names between the separators. *)
Fixpoint split_path (w : list Z) : list (list Z) :=
  match w with
  | [] => [[]]
  | c :: w' =>
      if is_separator c then match w' with [] => [[]] | _ => [] :: split_path w' end
      else match split_path w' with x :: xs => (c :: x) :: xs | [] => [[c]] end
  end.

(** A [char path[512][512]] that holds names. *)
Definition rows (ns : list (list Z)) : list (list Z) := (padded 512 <$> ns) ++ replicate (512 - length ns) (replicate 512 0).

Lemma split_path_cons w : exists x xs, split_path w = x :: xs.
Proof. destruct w as [|c w]; cbn [split_path]; [eauto|]. destruct (is_separator c); [destruct w; eauto|]. destruct (split_path w); eauto. Qed.

Lemma length_split_path w : (length (split_path w) ≤ S (length w))%nat.
Proof.
  induction w as [|c w IH]; cbn [split_path]; [done|]. destruct (is_separator c); [destruct w; simpl in *; lia|].
  destruct (split_path w); simpl in *; lia.
Qed.

Lemma split_path_names w : no_nul w -> Forall (fun q => no_nul q /\ (length q ≤ length w)%nat /\ 47 ∉ q) (split_path w).
Proof.
  induction 1 as [|c w Hc Hw IH]; cbn [split_path]; [repeat constructor; set_solver|].
  assert (IH' : Forall (fun q => no_nul q /\ (length q ≤ length (c :: w))%nat /\ 47 ∉ q) (split_path w)).
  { eapply Forall_impl; [done|]. cbn [length]. intros q (? & ? & ?). auto with lia. }
  destruct (is_separator c) eqn:E.
  - destruct w; repeat constructor; try (set_solver || simpl; lia).
  - destruct (split_path_cons w) as (x & xs & Hx). rewrite Hx in *. apply Forall_cons in IH as [(H1 & H2 & H3) _].
    apply Forall_cons in IH' as [_ IH']. constructor; [|done]. split_and!; [by constructor|simpl; lia|].
    unfold is_separator in E. apply orb_false_iff in E as [E _]. apply Z.eqb_neq in E. set_solver.
Qed.

Lemma length_rows ns : (length ns ≤ 512)%nat -> length (rows ns) = 512%nat.
Proof. intros. unfold rows. rewrite length_app, length_fmap, length_replicate. lia. Qed.

Lemma lookup_rows ns i q : ns !! i = Some q -> rows ns !! i = Some (padded 512 q).
Proof. intros H. unfold rows. rewrite lookup_app_l, list_lookup_fmap, H; [done|]. rewrite length_fmap. by eapply lookup_lt_Some. Qed.

Lemma rows_nil ns : (length ns < 512)%nat -> rows (ns ++ [[]]) = rows ns.
Proof.
  intros. unfold rows. rewrite fmap_app, <- app_assoc, length_app, list_fmap_singleton, padded_nil. f_equal.
  replace (512 - length ns)%nat with (S (512 - (length ns + 1))) by lia. done.
Qed.

Lemma rows_empty : rows [[]] = empty_path.
Proof. change [[]] with ([] ++ [[]] : list (list Z)). rewrite rows_nil by (simpl; lia). unfold rows, empty_path. cbn [fmap list_fmap app length]. by rewrite Nat.sub_0_r. Qed.

(** One more character at the end of the last name. *)
Lemma rows_write pre acc c : (length pre < 512)%nat -> (length acc < 512)%nat ->
  (r ← arr_get (rows (pre ++ [acc])) (Zlen pre); r ← arr_set r (Zlen acc) c; arr_set (rows (pre ++ [acc])) (Zlen pre) r) =
  Ret (rows (pre ++ [acc ++ [c]])).
Proof.
  intros Hp Ha. assert (Hl : (pre ++ [acc]) !! length pre = Some acc) by (by rewrite lookup_app_r, Nat.sub_diag by lia).
  rewrite (arr_get_lookup _ _ (padded 512 acc)); [|unfold Zlen; lia|unfold Zlen; rewrite Nat2Z.id; by apply lookup_rows].
  rewrite bind_ret, padded_snoc, bind_ret by done.
  rewrite arr_set_in by (unfold Zlen; rewrite length_rows by len; lia). f_equal.
  unfold Zlen, rows. rewrite Nat2Z.id, insert_app_l by (rewrite length_fmap, length_app; simpl; lia).
  rewrite !length_app, !fmap_app. cbn [length]. f_equal.
  rewrite insert_app_r_alt by (rewrite length_fmap; lia). by rewrite length_fmap, Nat.sub_diag.
Qed.

Section parse.
Context {K : Type} `{!SysCalls K}.
Context (str w z : list Z) (Hstr : rest_at str 0 w z) (Hw : no_nul w).

Lemma str_len : CString.strlen str = Ret (Zlen w).
Proof using Hstr Hw. by eapply rest_at_strlen. Qed.

Lemma splits_at idx c u : rest_at str idx (c :: u) z -> idx + 1 + Zlen u = Zlen w ->
  splits str idx = Ret (is_separator c && negb (bool_decide (u = []))).
Proof using Hstr Hw.
  intros H Hlen. unfold splits. destruct (rest_at_get _ _ _ _ _ H) as [-> H']. rewrite bind_ret. destruct (is_separator c); [|done].
  rewrite str_len, bind_ret. destruct u as [|d u].
  - rewrite (proj2 (Z.ltb_ge _ _)) by len. done.
  - rewrite (proj2 (Z.ltb_lt _ _)) by len. destruct (rest_at_get _ _ _ _ _ H') as [-> _]. rewrite bind_ret. f_equal.
    rewrite bool_decide_false by done. destruct (Z.eqb_spec d 0) as [->|]; done.
Qed.

Lemma count_folders_spec u : forall fuel idx n, rest_at str idx u z -> idx + Zlen u = Zlen w -> no_nul u -> (length u < fuel)%nat ->
  0 ≤ n -> n + Zlen (split_path u) ≤ 256 -> count_folders fuel str idx n = Ret (n + Zlen (split_path u) - 1).
Proof using Hstr Hw.
  induction u as [|c u IH]; intros fuel idx n H Hlen Hu Hf Hn0 Hn; (destruct fuel as [|fuel]; [simpl in Hf; lia|]); cbn [count_folders].
  - rewrite (rest_at_end _ _ _ H), bind_ret. cbn [Z.eqb]. cbv iota. f_equal. unfold Zlen. simpl. lia.
  - assert (Hlen' : idx + 1 + Zlen u = Zlen w) by len.
    rewrite (splits_at _ _ _ H Hlen'). destruct (rest_at_get _ _ _ _ _ H) as [-> H']. rewrite !bind_ret. apply Forall_cons in Hu as [Hc Hu].
    rewrite (proj2 (Z.eqb_neq c 0)) by done. cbn [split_path length] in *. pose proof (length_split_path u) as Hls.
    destruct (split_path_cons u) as (x & xs & Hx). destruct (is_separator c); cbn [andb].
    + destruct u as [|d u]; [rewrite bool_decide_true by done; cbn [negb]; apply IH; (done || simpl in *; lia)|].
      rewrite bool_decide_false by done. cbn [negb]. set (t := split_path (d :: u)) in *.
      assert (Hz : Zlen ([] :: t) = 1 + Zlen t) by (unfold Zlen; simpl length; lia). rewrite Hz in *.
      assert (1 ≤ Zlen t) by (rewrite Hx; unfold Zlen; simpl length; lia).
      rewrite wrap_small by word. rewrite IH by (done || lia). f_equal. lia.
    + rewrite Hx in *. rewrite IH by (done || (rewrite ?Hx; len)). reflexivity.
Qed.

(** The names of the rest continue the name that is being read. *)
Definition continue (acc : list Z) (ns : list (list Z)) : list (list Z) := match ns with x :: xs => (acc ++ x) :: xs | [] => [acc] end.

Lemma split_loop_spec u : forall fuel idx pre acc, rest_at str idx u z -> idx + Zlen u = Zlen w -> no_nul u -> (length u < fuel)%nat ->
  (length pre + length (split_path u) ≤ 512)%nat -> (length acc + length u < 512)%nat ->
  split_loop fuel str (rows (pre ++ [acc])) idx (Zlen acc) (Zlen pre) = Ret (rows (pre ++ continue acc (split_path u))).
Proof using Hstr Hw.
  induction u as [|c u IH]; intros fuel idx pre acc H Hlen Hu Hf Hp Ha; (destruct fuel as [|fuel]; [simpl in Hf; lia|]); cbn [split_loop].
  - rewrite (rest_at_end _ _ _ H), bind_ret. cbn. by rewrite app_nil_r.
  - assert (Hlen' : idx + 1 + Zlen u = Zlen w) by len.
    rewrite (splits_at _ _ _ H Hlen'). destruct (rest_at_get _ _ _ _ _ H) as [-> H']. rewrite !bind_ret. apply Forall_cons in Hu as [Hc Hu].
    rewrite (proj2 (Z.eqb_neq c 0)) by done. cbn [split_path length] in *. destruct (split_path_cons u) as (x & xs & Hx). destruct (is_separator c); cbn [andb].
    + destruct u as [|d u]; [rewrite bool_decide_true by done; cbn [negb]; apply IH; (done || simpl in *; lia)|].
      rewrite bool_decide_false by done. cbn [negb]. change 0 with (Zlen ([] : list Z)) at 1.
      replace (Zlen pre + 1) with (Zlen (pre ++ [acc])) by (by rewrite Zlen_app).
      rewrite <- (rows_nil (pre ++ [acc])) by (rewrite length_app; rewrite Hx in Hp; simpl in *; lia).
      rewrite IH by (done || rewrite ?length_app; simpl in *; lia). rewrite <- app_assoc. cbn [continue app]. rewrite Hx. cbn [continue app]. by rewrite app_nil_r.
    + rewrite Hx in *. pose proof (rows_write pre acc c ltac:(simpl in *; lia) ltac:(simpl in *; lia)) as Hr.
      apply bind_Ret_inv in Hr as (r & -> & Hr). apply bind_Ret_inv in Hr as (r' & Hr' & Hr''). rewrite bind_ret, Hr', bind_ret, Hr'', bind_ret.
      replace (Zlen acc + 1) with (Zlen (acc ++ [c])) by (by rewrite Zlen_app).
      rewrite IH by (done || rewrite ?Hx, ?length_app; simpl in *; lia). cbn [continue]. by rewrite <- app_assoc.
Qed.
End parse.

(** A separator in front stands for the root. *)
Definition is_absolute (w : list Z) : bool := match w with c :: _ => is_separator c | [] => false end.
Definition path_names (w : list Z) : list (list Z) := split_path (if is_absolute w then tail w else w).

(** The rows and the count that [parse_path] returns are the split of the path
    at its separators; an absolute path moves to the root first. *)
Lemma parse_path_spec {K} `{!SysCalls K} (s : shell K) (w : list Z) :
  no_nul w -> (length w < 512)%nat -> (length (path_names w) < 256)%nat ->
  parse_path s (padded 512 w) empty_path =
  (s' ← (if is_absolute w then to_root s else Ret s); Ret (rows (path_names w), Zlen (path_names w), s')).
Proof.
  intros Hw Hl Hn. set (z := replicate (512 - length w - 1) 0). assert (H : rest_at (padded 512 w) 0 w z).
  { split; [done|]. change (Z.to_nat 0) with 0%nat. by rewrite drop_0, padded_cons. }
  pose proof (rest_at_length _ _ _ _ H) as Hl'. unfold parse_path.
  assert (Hc : exists c, arr_get (padded 512 w) 0 = Ret c /\ is_separator c = is_absolute w).
  { destruct w as [|c w]; [exists 0; by rewrite (rest_at_end _ _ _ H)|]. exists c. by destruct (rest_at_get _ _ _ _ _ H) as [-> _]; auto. }
  destruct Hc as (c & -> & Hc). rewrite bind_ret, Hc. cbv zeta. clear c Hc.
  set (u := if is_absolute w then tail w else w). set (i := if is_absolute w then 1 else 0).
  assert (Hu : rest_at (padded 512 w) i u z /\ i + Zlen u = Zlen w /\ no_nul u /\ (length u ≤ length w)%nat).
  { unfold u, i. destruct w as [|c w]; [done|]. cbn [is_absolute tail]. destruct (is_separator c); [|done].
    apply rest_at_get in H as [_ H]. apply Forall_cons in Hw as [_ Hw]. split_and!; [done|unfold Zlen; simpl length; lia|done|simpl; lia]. }
  destruct Hu as (Hu & Hlu & Hnu & Hle). unfold path_names in *. fold u in Hn |- *.
  destruct (if is_absolute w then to_root s else Ret s) as [s'| |]; [|done..]. rewrite !bind_ret.
  erewrite (count_folders_spec _ w _ H Hw u) by (done || unfold Zlen; lia). rewrite bind_ret.
  pose proof (split_loop_spec _ w _ H Hw u (S (length (padded 512 w))) i [] [] Hu Hlu Hnu ltac:(lia) ltac:(simpl; lia) ltac:(simpl; lia)) as Hs.
  cbn [app] in Hs. change (Zlen []) with 0 in Hs. rewrite rows_empty in Hs. rewrite Hs, bind_ret.
  destruct (split_path_cons u) as (x & xs & ->). do 3 f_equal. lia.
Qed.

(** ** Joining the names of a path *)

Definition plain_name (x : list Z) : Prop := x ≠ [] /\ Forall (fun c => is_separator c = false) x.

Fixpoint join_path (ns : list (list Z)) : list Z :=
  match ns with [] => [] | [x] => x | x :: xs => x ++ 47 :: join_path xs end.

(** The text of a path: from the root or not, with a separator at the end or not. *)
Definition typed_path (from_root at_end : bool) (ns : list (list Z)) : list Z :=
  (if from_root then [47] else []) ++ join_path ns ++ (if at_end then [47] else []).

Lemma split_path_app x u : Forall (fun c => is_separator c = false) x -> split_path (x ++ u) = continue x (split_path u).
Proof.
  induction 1 as [|c x Hc Hx IH]; cbn [app split_path]; [by destruct (split_path_cons u) as (? & ? & ->)|].
  rewrite Hc, IH. by destruct (split_path_cons u) as (? & ? & ->).
Qed.

Lemma split_join ns (at_end : bool) : ns ≠ [] -> Forall plain_name ns ->
  split_path (join_path ns ++ (if at_end then [47] else [])) = ns.
Proof.
  intros Hne. induction 1 as [|x ns [Hx Hsep] Hns IH]; [done|]. destruct ns as [|y ns].
  - cbn [join_path]. rewrite split_path_app by done. destruct at_end; cbn; by rewrite app_nil_r.
  - change (join_path (x :: y :: ns)) with (x ++ 47 :: join_path (y :: ns)). rewrite <- app_assoc, split_path_app by done.
    cbn [app]. set (u := join_path (y :: ns) ++ if at_end then [47] else []) in *.
    assert (Hu : u ≠ []). { intros Hu. specialize (IH ltac:(done)). rewrite Hu in IH. injection IH as <- <-. by apply Forall_cons in Hns as [[? _] _]. }
    cbn [split_path]. change (is_separator 47) with true. cbv iota. destruct u as [|d u]; [done|]. rewrite IH by done. cbn [continue]. by rewrite app_nil_r.
Qed.

Lemma join_relative ns e : ns ≠ [] -> Forall plain_name ns -> is_absolute (join_path ns ++ e) = false.
Proof.
  intros Hne Hns. destruct Hns as [|x ns [Hx Hsep] _]; [done|]. destruct x as [|c x]; [done|].
  apply Forall_cons in Hsep as [Hc _]. by destruct ns.
Qed.

Lemma typed_no_nul from_root at_end ns : Forall no_nul ns -> no_nul (typed_path from_root at_end ns).
Proof.
  intros H. assert (Hp : no_nul (join_path ns)).
  { induction H as [|x ns Hx H IH]; [constructor|]. destruct ns; [done|]. change (no_nul (x ++ [47] ++ join_path (l :: ns))).
    apply Forall_app. split; [done|]. constructor; [lia|done]. }
  unfold typed_path, no_nul. rewrite !Forall_app. split; [|split; [done|]]; [destruct from_root|destruct at_end]; repeat constructor; lia.
Qed.

(** C31: Parsing the text of a path gives back its names, one per row, and their
    number; a path from the root moves the shell to the root first. *)
Theorem parse_path_splits {K} `{!SysCalls K} (s : shell K) (from_root at_end : bool) (ns : list (list Z)) :
  ns ≠ [] -> Forall plain_name ns -> Forall no_nul ns -> (length (typed_path from_root at_end ns) < 512)%nat -> (length ns < 256)%nat ->
  parse_path s (padded 512 (typed_path from_root at_end ns)) empty_path =
  (s' ← (if from_root then to_root s else Ret s); Ret (rows ns, Zlen ns, s')).
Proof.
  intros Hne Hns Hnul Hl Hn. set (e := if at_end then [47] else []).
  assert (Hrel : is_absolute (join_path ns ++ e) = false) by by apply join_relative.
  assert (Habs : is_absolute (typed_path from_root at_end ns) = from_root) by by destruct from_root.
  assert (Hsplit : path_names (typed_path from_root at_end ns) = ns).
  { unfold path_names. rewrite Habs. destruct from_root; by apply split_join. }
  rewrite parse_path_spec by (rewrite ?Hsplit; done || by apply typed_no_nul). by rewrite Habs, Hsplit.
Qed.
