(* ===== verification/ShellNames.v ===== *)
(** * File names with an extension

    [parse_file_name] splits a name at its first dot into at most eight and at
    most three characters. *)
From S2P Require Import Prelude CString BlockDevice FatLayout Fat32 ShellBase Shell ShellFiles ShellFacts ShellLine.

Fixpoint before_dot (w : list Z) : list Z :=
  match w with
  | [] => []
  | c :: w' => if c =? 46 then [] else c :: before_dot w'
  end.
Definition after_dot (w : list Z) : list Z := drop (S (length (before_dot w))) w.

Lemma before_dot_prefix w : exists r, w = before_dot w ++ r /\ (r = [] \/ exists r', r = 46 :: r').
Proof.
  induction w as [|c w (r & Hr & Hd)]; [by exists []; auto|]. cbn [before_dot]. destruct (Z.eqb_spec c 46) as [->|Hc].
  - exists (46 :: w). split; [done|]. right. by exists w.
  - exists r. split; [cbn; by rewrite <- Hr|done].
Qed.

Lemma before_dot_no_dot w c : c ∈ before_dot w -> c ≠ 46.
Proof. induction w as [|d w IH]; cbn [before_dot]; [set_solver|]. destruct (Z.eqb_spec d 46); set_solver. Qed.

Section names.
Context (file_name w z : list Z) (Hname : rest_at file_name 0 w z) (Hw : no_nul w).

Lemma name_len : CString.strlen file_name = Ret (Zlen w).
Proof using Hname Hw. by eapply rest_at_strlen. Qed.

(** The part of [u] that a loop copies into the rest of its limit. *)
Lemma copy_name_spec (stop : bool) n limit u : forall fuel idx1 acc, rest_at file_name idx1 u z -> idx1 + Zlen u = Zlen w -> no_nul u ->
  (length u < fuel)%nat -> (length acc ≤ limit)%nat -> (limit ≤ n)%nat ->
  let q := take (limit - length acc) (if stop then before_dot u else u) in
  copy_name fuel file_name (padded n acc) stop (Z.of_nat limit) idx1 (Zlen acc) = Ret (padded n (acc ++ q), idx1 + Zlen q, Zlen acc + Zlen q).
Proof using Hname Hw.
  induction u as [|c u IH]; intros fuel idx1 acc H Hlen Hu Hf Ha Hn q; (destruct fuel as [|fuel]; [simpl in Hf; lia|]); cbn [copy_name];
    rewrite name_len, bind_ret.
  - rewrite (proj2 (Z.ltb_ge _ _)) by len. cbn [negb].
    assert (q = []) as -> by (unfold q; destruct stop; apply take_nil). rewrite app_nil_r. change (Zlen ([] : list Z)) with 0. by rewrite !Z.add_0_r.
  - rewrite (proj2 (Z.ltb_lt _ _)) by len. cbn [negb].
    destruct (rest_at_get _ _ _ _ _ H) as [-> H']. rewrite bind_ret. apply Forall_cons in Hu as [Hc Hu]. subst q. cbn [before_dot].
    destruct (stop && (c =? 46)) eqn:Hstop.
    { apply andb_true_iff in Hstop as [-> ->]. rewrite take_nil, app_nil_r. change (Zlen ([] : list Z)) with 0. by rewrite !Z.add_0_r. }
    assert (Hpart : (if stop then if c =? 46 then [] else c :: before_dot u else c :: u) = c :: (if stop then before_dot u else u)).
    { destruct stop; [|done]. cbn in Hstop. by rewrite Hstop. }
    rewrite Hpart. destruct (Z.ltb_spec (Zlen acc) (Z.of_nat limit)) as [Hlt|Hge]; cbn [negb].
    + unfold Zlen in Hlt. rewrite padded_snoc, bind_ret by lia. replace (limit - length acc)%nat with (S (limit - length (acc ++ [c]))) by len.
      cbn [firstn]. replace (Zlen acc + 1) with (Zlen (acc ++ [c])) by (by rewrite Zlen_app).
      rewrite IH; [|done|len|done|simpl in Hf; lia|len|done].
      set (t := take _ _). rewrite <- app_assoc. cbn [app]. rewrite !Zlen_app. change (Zlen [c]) with 1.
      replace (Zlen (c :: t)) with (1 + Zlen t) by (unfold Zlen; simpl length; lia). do 2 f_equal; [f_equal|]; lia.
    + unfold Zlen in Hge. replace (limit - length acc)%nat with 0%nat by lia. rewrite firstn_O, app_nil_r. change (Zlen ([] : list Z)) with 0. by rewrite !Z.add_0_r.
Qed.
End names.

(** The code of [parse_file_name], and the extension it leaves: none when the
    name is too long. *)
Definition name_code (w : list Z) : Z :=
  if decide (8 < length (before_dot w))%nat then 1 else if decide (3 < length (after_dot w))%nat then -1 else 0.
Definition extension (w : list Z) : list Z := if decide (8 < length (before_dot w))%nat then [] else take 3 (after_dot w).

Lemma parse_file_name_spec (n1 n2 n : nat) (w : list Z) :
  no_nul w -> (length w < n)%nat -> (8 ≤ n1)%nat -> (3 ≤ n2)%nat ->
  exists msg, parse_file_name (padded n w) (replicate n1 0) (replicate n2 0) =
    Ret (name_code w, msg, padded n1 (take 8 (before_dot w)), padded n2 (extension w)).
Proof. unfold name_code, extension.
  intros Hw Hl H1 H2. assert (H : rest_at (padded n w) 0 w (replicate (n - length w - 1) 0)).
  { split; [done|]. change (Z.to_nat 0) with 0%nat. by rewrite drop_0, padded_cons. }
  pose proof (rest_at_length _ _ _ _ H) as Hl'. unfold parse_file_name.
  pose proof (copy_name_spec _ w _ H Hw true n1 8 w (S (length (padded n w))) 0 [] H eq_refl Hw ltac:(lia) ltac:(simpl; lia) H1) as Hc.
  cbv zeta in Hc. rewrite padded_nil in Hc. change (Zlen ([] : list Z)) with 0 in Hc. cbn [length app] in Hc. change (Z.of_nat 8) with 8 in Hc.
  change (8 - 0)%nat with 8%nat in Hc. rewrite Hc, bind_ret. rewrite !Z.add_0_l. clear Hc.
  rewrite (name_len _ w _ H Hw), bind_ret.
  destruct (before_dot_prefix w) as (r & Hr & Hdot). set (b := before_dot w) in *.
  assert (Hrest : rest_at (padded n w) (Zlen (take 8 b)) (drop 8 b ++ r) (replicate (n - length w - 1) 0)).
  { apply (rest_at_app _ (take 8 b) 0). by rewrite app_assoc, take_drop, <- Hr. }
  destruct (decide (8 < length b)%nat) as [Hlong|Hshort].
  - assert (Ht : Zlen (take 8 b) = 8) by (unfold Zlen; rewrite length_take; lia). rewrite Ht in *. change (8 =? 8) with true.
    assert (Hlt : 8 < Zlen w) by (rewrite Hr; unfold Zlen; rewrite length_app; lia). rewrite (proj2 (Z.ltb_lt _ _)) by done. cbn [andb].
    assert (Hget : exists c, arr_get (padded n w) 8 = Ret c /\ c ≠ 46).
    { destruct (drop 8 b) as [|c d] eqn:Ed; [apply (f_equal length) in Ed; rewrite length_drop in Ed; simpl in Ed; lia|].
      exists c. destruct (rest_at_get _ _ _ _ _ Hrest) as [-> _]. split; [done|]. apply (before_dot_no_dot w). fold b.
      rewrite <- (take_drop 8 b), Ed. set_solver. }
    destruct Hget as (c & -> & Hc). rewrite !bind_ret, (proj2 (Z.eqb_neq c 46)) by done. cbn [negb].
    eexists. rewrite padded_nil. done.
  - rewrite (take_ge b), drop_ge in * by lia. cbn [app] in Hrest.
    assert (Hlong : (if (Zlen b =? 8) && (Zlen b <? Zlen w) then c ← arr_get (padded n w) (Zlen b); Ret (negb (c =? 46)) else Ret false) = Ret false).
    { destruct (Z.ltb_spec (Zlen b) (Zlen w)) as [Hlt|]; [|by rewrite andb_false_r]. destruct (Zlen b =? 8); [|done]. cbn [andb].
      destruct Hdot as [->|(r' & ->)]; [rewrite Hr, app_nil_r in Hlt; lia|]. by destruct (rest_at_get _ _ _ _ _ Hrest) as [-> _]. }
    rewrite Hlong, bind_ret. unfold after_dot. fold b. destruct Hdot as [->|(r' & ->)].
    + rewrite app_nil_r in Hr. rewrite <- Hr. rewrite (drop_ge w) by lia. cbn [copy_name].
      rewrite (name_len _ w _ H Hw), bind_ret, (proj2 (Z.ltb_ge (Zlen w + 1) (Zlen w))) by lia. cbn [negb]. rewrite bind_ret.
      rewrite (proj2 (Z.ltb_ge (Zlen w + 1) (Zlen w))) by lia. eexists. by rewrite take_nil, padded_nil.
    + destruct (rest_at_get _ _ _ _ _ Hrest) as [_ Hext].
      assert (Hd : drop (S (length b)) w = r').
      { rewrite Hr. replace (S (length b)) with (length b + 1)%nat by lia. rewrite <- drop_drop, drop_app_length. done. }
      rewrite Hd. assert (Hlw : Zlen b + 1 + Zlen r' = Zlen w) by (pose proof (f_equal Zlen Hr) as E; rewrite Zlen_app in E; unfold Zlen in *; simpl length in E; lia).
      assert (Hr' : no_nul r') by (unfold no_nul in Hw; rewrite Hr in Hw; apply Forall_app in Hw as [_ Hw]; by apply Forall_cons in Hw as [_ ?]).
      pose proof (copy_name_spec _ w _ H Hw false n2 3 r' (S (length (padded n w))) (Zlen b + 1) [] Hext Hlw Hr') as Hc.
      specialize (Hc ltac:(unfold Zlen in Hlw; lia) ltac:(simpl; lia) H2). cbv zeta in Hc. rewrite padded_nil in Hc.
      change (Zlen ([] : list Z)) with 0 in Hc. cbn [length app] in Hc. change (Z.of_nat 3) with 3 in Hc. change (3 - 0)%nat with 3%nat in Hc.
      rewrite Hc, bind_ret. destruct (decide (3 < length r')%nat) as [H3|H3].
      * rewrite (proj2 (Z.ltb_lt _ _)) by (unfold Zlen in *; rewrite length_take; lia). by eexists.
      * rewrite (proj2 (Z.ltb_ge _ _)) by (unfold Zlen in *; rewrite length_take; lia). by eexists.
Qed.

(** What [parse_file_name] computes: name and extension around
    the first dot, code 1 when the name has more than eight characters, -1 when
    the extension has more than three. *)
Theorem parse_file_name_parts (n1 n2 n : nat) (w : list Z) :
  no_nul w -> (length w < n)%nat -> (8 ≤ n1)%nat -> (3 ≤ n2)%nat ->
  exists msg nm ex,
    parse_file_name (padded n w) (replicate n1 0) (replicate n2 0) =
      Ret (if decide (8 < length (before_dot w))%nat then 1 else if decide (3 < length (after_dot w))%nat then -1 else 0, msg, nm, ex) /\
    nm = padded n1 (take 8 (before_dot w)) /\
    ((length (before_dot w) ≤ 8)%nat -> ex = padded n2 (take 3 (after_dot w))).
Proof.
  intros Hw Hl H1 H2. destruct (parse_file_name_spec n1 n2 n w Hw Hl H1 H2) as (msg & H). exists msg. eexists _, _. split; [exact H|].
  split; [done|]. intros Hs. unfold extension. by rewrite decide_False by lia.
Qed.

Lemma parse_file_name_parts_witness :
  exists msg, parse_file_name (padded 512 (bytes_of_string "notes.txt")) (replicate 9 0) (replicate 4 0) =
    Ret (0, msg, padded 9 (bytes_of_string "notes"), padded 4 (bytes_of_string "txt")).
Proof.
  destruct (parse_file_name_parts 9 4 512 (bytes_of_string "notes.txt")) as (msg & nm & ex & H & -> & Hex).
  - by repeat constructor.
  - apply Nat.ltb_lt. reflexivity.
  - lia.
  - lia.
  - exists msg. rewrite H, Hex by (apply Nat.leb_le; reflexivity). reflexivity.
Defined.
