(* ===== verification/Inserting.v ===== *)
(** * external-inserter.c: inserting a file into an image

    [insert_file] is the host tool's [main] between reading the image into
    memory and writing it back: mount, split the file name, write.  The
    function [parse_file_name] of the tool has the text of the one in cp.c.
    A program inserted as [shell] makes an image that the kernel boots from. *)
From S2P Require Import Prelude CString PortIO BlockDevice FatLayout Fat32 FatFacts FatChain FatLoops FatSpec FatRefine FatWrite FatMount FatProps.
From S2P Require Import Descriptors Pic Screen Cmos Paging PagingFacts Mmu Process Interrupt KernelBoot.
From S2P Require Import ShellBase ShellFiles ShellFacts ShellLine ShellNames.

Section insert.
Context {D : Type} `{!BlockDevice D}.

(** [filename]: the 20 bytes [sscanf] leaves, [file_buffer]: the file and the
    rest of the 4 MiB, [filesize] and [parent]: the two numbers. *)
Definition insert_file (s : fs D) (filename file_buffer : list Z) (filesize parent : Z) : res (Z * fs D) :=
  s ← initialize_filesystem_fat32 s;
  '(_, _, name, ext) ← parse_file_name filename (replicate 8 0) (replicate 3 0);
  n ← CString.memcpy (replicate 8 0) name 8;
  x ← CString.memcpy (replicate 3 0) ext 3;
  write s (MkRequest file_buffer n x (u32 parent) (u32 filesize)).
End insert.

Section inserted.
Context {D : Type} `{!BlockDevice D, !BlockDeviceSpec D}.
Implicit Types (s : fs D) (v : volume) (m : driver).

Definition shell_file (data : list Z) (size : Z) : FAT32DriverRequest :=
  MkRequest data (bytes_of_string "shell" ++ replicate 3 0) (replicate 3 0) ROOT_CLUSTER_NUMBER size.

Lemma shell_name : exists msg, parse_file_name (padded 20 (bytes_of_string "shell")) (replicate 8 0) (replicate 3 0) =
  Ret (0, msg, bytes_of_string "shell" ++ replicate 3 0, replicate 3 0).
Proof. by eexists. Qed.

Lemma insert_shell_write s s1 data size : initialize_filesystem_fat32 s = Ret s1 -> is_word 32 size ->
  insert_file s (padded 20 (bytes_of_string "shell")) data size ROOT_CLUSTER_NUMBER = write s1 (shell_file data size).
Proof.
  intros Hi Hsz. unfold insert_file. rewrite Hi, bind_ret. destruct shell_name as (msg & Hn). rewrite Hn, bind_ret.
  by rewrite (wrap_small 32 size).
Qed.

(** The root of a fresh disk has no file [shell]. *)
Lemma fresh_creates v m data size :
  table_at v ROOT_CLUSTER_NUMBER = root_directory -> mounted m -> free_clusters (fat_table m) = 509 -> 0 < size ≤ 0xFE800 ->
  creates_file v m (shell_file data size).
Proof.
  intros Hroot Hm Hfree Hsz. split; cbn [shell_file parent_cluster_number req_name req_ext buffer_size]; rewrite ?Hroot.
  - destruct (mnt_reserved m Hm 2) as (x & Hx & Hne); [lia|]. split; [done|]. unfold ROOT_CLUSTER_NUMBER. rewrite Hx. congruence.
  - by vm_compute.
  - apply Forall_forall. intros e He. apply list_elem_of_In in He.
    assert (H : forallb (fun e => negb (matches (bytes_of_string "shell" ++ replicate 3 0) (replicate 3 0) e)) root_directory = true) by (by vm_compute).
    rewrite forallb_forall in H. apply negb_true_iff, H, He.
  - by vm_compute.
  - lia.
  - rewrite Hfree. unfold number_of_partition. change CLUSTER_SIZE with 2048.
    pose proof (Z.mod_pos_bound size 2048). pose proof (Z.div_mod size 2048). destruct (Z.ltb_spec 0 (size mod 2048)); lia.
Qed.

Lemma fresh_args v m data size :
  mounted m -> free_clusters (fat_table m) = 509 -> 0 < size ≤ 0xFE800 -> bytes_ok data ->
  CLUSTER_SIZE * number_of_partition size ≤ Zlen data -> write_args_ok m (shell_file data size).
Proof.
  intros Hm Hfree Hsz Hb Hl. split; cbn [shell_file parent_cluster_number buffer_size buf]; try done.
  - split; [split; [reflexivity|]|split; [reflexivity|]|unfold is_word; cbn; lia].
    + repeat constructor; unfold is_word; simpl; lia.
    + repeat constructor; unfold is_word; simpl; lia.
  - intros _. rewrite Hfree. unfold number_of_partition. change CLUSTER_SIZE with 2048.
    pose proof (Z.mod_pos_bound size 2048). pose proof (Z.div_mod size 2048). destruct (Z.ltb_spec 0 (size mod 2048)); lia.
Qed.

(** The image after the tool ran. *)
Lemma insert_shell s v m data size :
  repr s v m -> driver_ok m -> ~ formatted v -> 0 < size ≤ 0xFE800 -> bytes_ok data ->
  CLUSTER_SIZE * number_of_partition size ≤ Zlen data ->
  exists s' v' m' e ch, insert_file s (padded 20 (bytes_of_string "shell")) data size ROOT_CLUSTER_NUMBER = Ret (0, s') /\
    repr s' v' m' /\ formatted v' /\ has_shell v' e ch /\
    (Z.to_nat size ≤ length (get_data v' ch))%nat /\ exists n, get_data v' ch = take n data.
Proof.
  intros Hs Hm Hnot Hsz Hb Hl. destruct (initialize_creates s v m Hs Hm Hnot) as (s1 & Hi & Hs1).
  destruct (created_disk v m (repr_length _ _ _ Hs) Hm) as (Hf & _ & Hmo & Hfree & Hroot).
  set (v1 := (spec_create v m).1) in *. set (m1 := (spec_create v m).2) in *. clearbody v1 m1.
  set (rq := shell_file data size). pose proof (fresh_args v1 m1 data size Hmo Hfree Hsz Hb Hl) as Hargs. fold rq in Hargs.
  pose proof (fresh_creates v1 m1 data size Hroot Hmo Hfree Hsz) as Hcf. fold rq in Hcf. pose proof (wa_request _ _ Hargs) as Hrq.
  destruct (write_correct s1 v1 m1 rq Hs1 Hmo Hargs (root_no_overrun v1 m1 rq eq_refl)) as (s2 & Hwr & Hs2). rewrite (spec_write_creates v1 m1 rq Hcf) in Hwr, Hs2. cbn [fst snd] in Hwr, Hs2.
  pose proof Hcf as [Hpar Hdir _ _ Hne Hfits]. pose proof (repr_length _ _ _ Hs1) as Hlen.
  destruct (found_after_write s1 v1 m1 rq Hs1 Hcf) as (e & _ & _ & _ & _ & Hfound).
  pose proof (table_after_write s1 v1 m1 rq Hs1 Hmo Hrq Hcf) as Ht.
  pose proof (fat_after_chain m1 rq Hmo Hrq Hne Hfits) as Hch. pose proof (length_new_clusters m1 rq Hrq Hne) as Hln.
  assert (Hcw : is_word 32 (first_free (fat_table m1))).
  { apply in_map_word. eapply Forall_forall; [by apply (new_clusters_in_map m1 rq)|]. apply elem_of_cons. by left. }
  assert (Hv : forall x, in_map x -> x < 3 -> x ≠ 2 -> vol_get (spec_write_file v1 m1 rq).1 x =
    if decide (x = 1) then enc_array (fat_after m1 rq) else vol_get v1 x).
  { intros x Hx Hx3 Hx2. rewrite vol_write_file; try done; [|by apply new_clusters_reserved]. case_decide; [done|]. by rewrite decide_False. }
  exists s2, (spec_write_file v1 m1 rq).1, (spec_write_file v1 m1 rq).2, (new_entry e (req_name rq) (req_ext rq) 0 (first_free (fat_table m1)) size), (new_clusters m1 rq).
  split; [rewrite (insert_shell_write s s1) by (done || unfold is_word; lia); exact Hwr|]. split; [exact Hs2|]. split.
  { unfold formatted. rewrite (Hv BOOT_SECTOR) by (by unfold in_map). rewrite decide_False by done. exact Hf. }
  split; [split|].
  - change ROOT_CLUSTER_NUMBER with (parent_cluster_number rq). rewrite Ht, head_after_write. exact Hdir.
  - change ROOT_CLUSTER_NUMBER with (parent_cluster_number rq). rewrite Ht. exact Hfound.
  - discriminate.
  - cbn. lia.
  - unfold disk_fat. rewrite (Hv FAT_CLUSTER_NUMBER) by (by unfold in_map). rewrite decide_True by done.
    rewrite dec_enc_fat, entry_cluster_new; [exact Hch|done|].
    apply link_ok; [apply Hmo|]. pose proof (new_clusters_in_map m1 rq Hmo Hrq Hne Hfits) as Hin. by apply Forall_cons in Hin as [_ ?].
  - rewrite data_write_file by done. split; [|by eexists]. rewrite length_take. unfold Zlen in Hln, Hl. cbn [buffer_size rq shell_file buf] in *.
    revert Hln Hl. unfold number_of_partition. change CLUSTER_SIZE with 2048.
    pose proof (Z.mod_pos_bound size 2048). pose proof (Z.div_mod size 2048). destruct (Z.ltb_spec 0 (size mod 2048)); lia.
Qed.
End inserted.

(** From the host tool to the first instruction: a program inserted
    as [shell] into a blank image is what the kernel runs.  The tool returns 0,
    and a kernel that starts on that disk enters user mode at address 0 of an
    address space that holds the program's bytes from address 0 on. *)
Theorem inserted_shell_boots `{!BlockDevice D1, !BlockDeviceSpec D1} (s : fs D1) v m data size :
  repr s v m -> driver_ok m -> ~ formatted v -> 0 < size ≤ 0xFE800 -> bytes_ok data ->
  CLUSTER_SIZE * number_of_partition size ≤ Zlen data ->
  exists s' v' m', insert_file s (padded 20 (bytes_of_string "shell")) data size ROOT_CLUSTER_NUMBER = Ret (0, s') /\ repr s' v' m' /\
    forall D `{!BlockDevice D, !BlockDeviceSpec D, !PortIO D, !KernelHalf D, !SharedBus D} (k : machine D) m0 list_addr kernel_addr c stubs tss_addr ebp,
    PagingFacts.directory_layout list_addr kernel_addr ->
    procs (kern k) = procs_init -> pages (kern k) = paging_init c -> 0 < c < 2 ^ 30 ->
    gdt k = Gdt.global_descriptor_table -> idt k = Idt.interrupt_descriptor_table -> length stubs = 64%nat ->
    repr (files (kern k)) v' m0 ->
    exists k', kernel_setup list_addr kernel_addr stubs tss_addr ebp k = Ret (SwitchTo (initial_context (directory_addr list_addr 0)), k') /\
      cr3 (pages (kern k')) = directory_addr list_addr 0 - KERNEL_VIRTUAL_ADDRESS_BASE /\
      exists dir, page_directory_list (pages (kern k')) !! 0%nat = Some dir /\
        forall i b, 0 ≤ i < size -> data !! Z.to_nat i = Some b -> load dir (umem (kern k')) i = Ret b.
Proof.
  intros Hs Hm Hnot Hsz Hb Hl. destruct (insert_shell s v m data size Hs Hm Hnot Hsz Hb Hl) as (s' & v' & m' & e & ch & Hins & Hs' & Hf & Hsh & Hlen & n & Hdata).
  exists s', v', m'. split; [exact Hins|]. split; [exact Hs'|]. intros D ? ? ? ? ? k m0 la ka c stubs ta ebp Hlay Hp Hg Hc Hgdt Hidt Hst Hk.
  destruct (setup_spec la ka Hlay v' e ch Hsh k m0 c stubs ta ebp Hp Hg Hc Hgdt Hidt Hst Hk Hf) as (p & k' & Hset & _ & _ & _ & _ & _ & _ & Hcr3 & (dir & Hdir & Hmem) & _).
  exists k'. split; [exact Hset|]. split; [exact Hcr3|]. exists dir. split; [exact Hdir|]. intros i b Hi Hbyte. apply Hmem; [lia|].
  rewrite Hdata in Hlen |- *. rewrite length_take in Hlen. by rewrite lookup_take_lt by lia.
Qed.
