(* ===== verification/ShellWalk.v ===== *)
(** * The walk of [change_path] over the directory tree

    [change_path] is shown to do the
    walk [follow] for any kernel whose file system calls keep the contract of fat32.c
    ([FileServer]). *)
From S2P Require Import Prelude CString BlockDevice FatLayout Fat32 FatFacts FatChain FatLoops FatSpec FatRefine FatMount FatProps.
From S2P Require Import ShellBase Shell ShellPath ShellFacts ShellLine ShellSplit DirTree.

(** The largest buffer a command passes: the 64 clusters [find_buffer_size]
    looks at. *)
Definition BUFFER_LIMIT : Z := 64 * CLUSTER_SIZE.

(** The system calls of the shell, on the volume [v] and the driver memory [m]
    the kernel keeps. *)
Class FileServer (K : Type) `{!SysCalls K} := {
  sees : K -> volume -> driver -> Prop;
  sees_length k v m : sees k v m -> length v = 512%nat;
  sees_block k v m c : sees k v m -> in_map c -> block_ok (vol_get v c);
  puts_sees k v m str color : sees k v m -> Zlen str ≤ BUFFER_LIMIT -> exists k', sys_puts k str color = Ret k' /\ sees k' v m;
  read_cluster_sees k v m c : sees k v m -> in_map c -> exists k', sys_read_cluster k c = Ret (vol_get v c, k') /\ sees k' v m;
  read_directory_sees k v m rq : sees k v m -> request_ok rq -> in_map (parent_cluster_number rq) -> buffer_size rq ≤ Zlen (buf rq) -> Zlen (buf rq) ≤ BUFFER_LIMIT -> bytes_ok (buf rq) ->
    (forall e, lookup_first (has_name (req_name rq)) (drop 2 (table_at v (parent_cluster_number rq))) = Some e ->
       attribute e = ATTR_SUBDIRECTORY -> in_map (entry_cluster e)) ->
    exists k', sys_read_directory k rq = Ret (spec_read_directory v rq, k') /\ sees k' v m;
  write_sees k v m rq : sees k v m -> mounted m -> write_args_ok m rq -> overruns_literal v m rq = false -> Zlen (buf rq) ≤ BUFFER_LIMIT ->
    exists k', sys_write k rq = Ret ((spec_write v m rq).1, k') /\ sees k' (spec_write v m rq).2.1 (spec_write v m rq).2.2;
  write_overruns k v m rq : sees k v m -> mounted m -> write_args_ok m rq -> overruns_literal v m rq = true -> Zlen (buf rq) ≤ BUFFER_LIMIT ->
    sys_write k rq = Ub;
  read_sees k v m rq : sees k v m -> request_ok rq -> in_map (parent_cluster_number rq) -> Zlen (buf rq) ≤ BUFFER_LIMIT -> bytes_ok (buf rq) ->
    (forall e, lookup_first (matches (req_name rq) (req_ext rq)) (table_at v (parent_cluster_number rq)) = Some e ->
       entry_backed (fat_table m) e /\
       (attribute e ≠ ATTR_SUBDIRECTORY -> filesize e ≤ buffer_size rq ->
        2048 * Zlen (chain_of (fat_table m) (entry_cluster e)) ≤ Zlen (buf rq))) ->
    exists k', sys_read k rq = Ret (spec_read v (fat_table m) rq, k') /\ sees k' v m;
  delete_sees k v m rq : sees k v m -> mounted m -> request_ok rq -> in_map (parent_cluster_number rq) -> Zlen (buf rq) ≤ BUFFER_LIMIT -> bytes_ok (buf rq) ->
    (forall e, lookup_first (matches (req_name rq) (req_ext rq)) (table_at v (parent_cluster_number rq)) = Some e -> entry_backed (fat_table m) e) ->
    exists k', sys_delete k rq = Ret ((spec_delete v m rq).1, k') /\ sees k' (spec_delete v m rq).2.1 (spec_delete v m rq).2.2
}.

(** A kernel that also lets its programs write a cluster. *)
Class ClusterServer (K : Type) `{!SysCalls K, !FileServer K} := {
  write_cluster_sees k v m c bs : sees k v m -> in_map c -> block_ok bs -> exists k', sys_write_cluster k bs c = Ret k' /\ sees k' (<[Z.to_nat c := bs]> v) m
}.

(** A name that fits a row of the path array. *)
Definition typed_name (w : list Z) : Prop := no_nul w /\ bytes_ok w /\ (length w < 512)%nat.

Lemma split_path_forall (P : Z -> Prop) w : Forall P w -> Forall (Forall P) (split_path w).
Proof.
  induction 1 as [|c w Hc Hw IH]; cbn [split_path]; [by repeat constructor|].
  destruct (is_separator c); [destruct w; repeat constructor; done|].
  destruct (split_path w); [by repeat constructor|]. apply Forall_cons in IH as [? ?]. by repeat constructor.
Qed.

Lemma path_names_typed w : no_nul w -> bytes_ok w -> (length w < 512)%nat -> Forall typed_name (path_names w).
Proof.
  intros Hw Hb Hl. unfold path_names. set (u := if is_absolute w then tail w else w).
  assert (Hu : no_nul u /\ bytes_ok u /\ (length u ≤ length w)%nat).
  { unfold u. destruct w as [|c w]; [done|]. cbn [is_absolute]. destruct (is_separator c); [|done].
    apply Forall_cons in Hw as [_ Hw]. apply Forall_cons in Hb as [_ Hb]. cbn. auto. }
  destruct Hu as (Hn & Hbu & Hlu). apply Forall_forall. intros q Hq.
  pose proof (split_path_names u Hn) as Hs. rewrite Forall_forall in Hs. destruct (Hs q Hq) as (? & ? & _).
  pose proof (split_path_forall _ u Hbu) as Hs'. rewrite Forall_forall in Hs'. split_and!; [done|by apply Hs'|lia].
Qed.

Lemma path_names_sep w : no_nul w -> Forall (fun q => 47 ∉ q) (path_names w).
Proof.
  intros Hw. eapply Forall_impl; [apply split_path_names|by intros q (_ & _ & ?)].
  destruct w; [done|]. cbn [is_absolute tail]. destruct (is_separator z); [|done]. by apply Forall_cons in Hw as [_ ?].
Qed.

Lemma name8_folder w : w ≠ [] -> no_nul w -> 47 ∉ w -> folder_name (CString.cstr (name8 w)).
Proof.
  intros Hne Hw Hs. unfold name8. rewrite take_app, take_replicate.
  assert (Hcut : forall l j, no_nul l -> CString.cstr (l ++ replicate j 0) = l).
  { intros l j. induction 1 as [|c l Hc Hl IH]; [by destruct j|]. cbn. rewrite (proj2 (Z.eqb_neq c 0)) by done. by rewrite IH. }
  rewrite Hcut by by apply Forall_take. split_and!; [by destruct w|by apply Forall_take|].
  intros Hin. apply Hs. rewrite <- (take_drop 8 w). apply elem_of_app. by left.
Qed.

Lemma name8_padded w n : (8 ≤ n)%nat -> (length w < n)%nat -> take 8 (padded n w) = name8 w.
Proof.
  intros Hn Hl. unfold padded, name8. rewrite !take_app. f_equal. rewrite !take_replicate. f_equal. lia.
Qed.

Lemma name8_ok w : typed_name w -> length (name8 w) = 8%nat /\ bytes_ok (name8 w).
Proof.
  intros (_ & Hb & _). unfold name8. split; [rewrite length_take, length_app, length_replicate; lia|].
  apply Forall_take, Forall_app. split; [done|]. by apply Forall_replicate.
Qed.

Lemma cstr_app_zero l r : CString.cstr (l ++ 0 :: r) = CString.cstr l.
Proof. induction l as [|c l IH]; [done|]. cbn. destruct (c =? 0); [done|]. by rewrite IH. Qed.

(** A string the shell prints: it ends, in an object no larger than the
    buffers of the commands. *)
Definition text (str : list Z) : Prop := 0 ∈ str /\ Zlen str ≤ BUFFER_LIMIT.

Lemma text_lit str : (String.length str <? 1000)%nat = true -> text (lit str).
Proof.
  intros H%Nat.ltb_lt. unfold lit. split; [set_solver|]. unfold Zlen. rewrite length_app, length_bytes_of_string. cbn [length].
  change BUFFER_LIMIT with 131072. lia.
Qed.

Lemma text_line str : (String.length str <? 1000)%nat = true -> text (line str).
Proof.
  intros H%Nat.ltb_lt. unfold line. split; [set_solver|]. unfold Zlen. rewrite length_app, length_bytes_of_string. cbn [length].
  change BUFFER_LIMIT with 131072. lia.
Qed.

Lemma text_padded n w : (length w < n)%nat -> (n <? 1000)%nat = true -> text (padded n w).
Proof.
  intros Hw H%Nat.ltb_lt. split; [by apply nul_in_padded|]. unfold Zlen. rewrite length_padded by lia. change BUFFER_LIMIT with 131072. lia.
Qed.

Section walk.
Context {K : Type} `{!SysCalls K, !FileServer K}.
Context (v : volume) (m : driver).
Implicit Types (s : shell K).

(** ** Messages *)

(** Only the kernel's state moved. *)
Definition printed s s' : Prop := exists k, s' = set_sys s k /\ sees k v m.

Lemma printed_trans s1 s2 s3 : printed s1 s2 -> printed s2 s3 -> printed s1 s3.
Proof using Type. intros (k & -> & _) (k' & -> & H). by exists k'. Qed.

Lemma printed_sees s s' : printed s s' -> sees (sys s') v m.
Proof using Type. by intros (k & -> & H). Qed.

Lemma put_printed s str color : sees (sys s) v m -> text str -> exists s', put s str color = Ret s' /\ printed s s'.
Proof using Type.
  intros Hs [H0 Hlim]. unfold put. rewrite CString.strlen_correct, decide_True, bind_ret by done.
  destruct (puts_sees (sys s) v m (take (Z.to_nat (Zlen (CString.cstr str))) str) (u8 color) Hs) as (k & -> & Hk).
  { unfold Zlen in *. rewrite length_take. lia. }
  rewrite bind_ret. eexists. split; [done|]. by exists k.
Qed.

(** One message after another. *)
Lemma put_then {A} s s1 str color (f : shell K -> res A) (P : A -> Prop) :
  printed s s1 -> text str -> (forall s2, printed s s2 -> exists a, f s2 = Ret a /\ P a) ->
  exists a, (s2 ← put s1 str color; f s2) = Ret a /\ P a.
Proof using Type.
  intros H1 H0 Hf. destruct (put_printed s1 str color (printed_sees _ _ H1) H0) as (s2 & -> & H2). rewrite bind_ret.
  apply Hf. by eapply printed_trans.
Qed.

Context (ws : list (list Z)) (Hws : Forall typed_name ws).

Lemma row_typed i : 0 ≤ i < Zlen ws -> exists w, ws !! Z.to_nat i = Some w /\ row (rows ws) i = Ret (padded 512 w) /\ typed_name w.
Proof using Hws.
  intros Hi. destruct (lookup_lt_is_Some_2 ws (Z.to_nat i)) as [w Hw]; [unfold Zlen in Hi; lia|]. exists w. split; [done|].
  split; [|by eapply Forall_lookup_1]. unfold row. apply arr_get_lookup; [lia|]. by apply lookup_rows.
Qed.

Lemma row_text i r : 0 ≤ i < Zlen ws -> row (rows ws) i = Ret r -> text r.
Proof using Hws.
  intros Hi Hr. destruct (row_typed i Hi) as (w & _ & Hw & _ & _ & Hl). rewrite Hw in Hr. injection Hr as <-. by apply text_padded.
Qed.

Lemma print_path_printed s s1 idx color : printed s s1 -> 0 ≤ idx < Zlen ws -> exists s', print_path s1 (rows ws) idx color = Ret s' /\ printed s s'.
Proof using Hws.
  intros H1 Hidx. unfold print_path. destruct (row_typed 0) as (w & _ & Hr & Hw); [lia|]. rewrite Hr, bind_ret.
  destruct (head_padded 512 w) as (c & -> & _); [apply Hw|apply Hw|]. rewrite bind_ret.
  assert (Hfirst : exists s2, (if negb (c =? 0) then put s1 (padded 512 w) color else Ret s1) = Ret s2 /\ printed s s2).
  { destruct (negb (c =? 0)); [|by exists s1]. destruct (put_printed s1 (padded 512 w) color) as (s2 & -> & H2); [by eapply printed_sees|by eapply row_text, Hr; lia|].
    exists s2. split; [done|]. by eapply printed_trans. }
  destruct Hfirst as (s2 & -> & H2). rewrite bind_ret.
  destruct (for_up_inv (fun _ s3 => printed s s3) (fun i s3 => s3 ← put s3 (lit "/") color; r ← row (rows ws) i; put s3 r color) (Z.to_nat idx) 1 s2 H2)
    as (s3 & -> & H3); [|by exists s3].
  intros j s3 Hj H3. destruct (put_printed s3 (lit "/") color) as (s4 & -> & H4); [by eapply printed_sees|apply text_lit; reflexivity|]. rewrite bind_ret.
  destruct (row_typed j) as (w' & _ & Hr' & _); [lia|]. rewrite Hr', bind_ret.
  destruct (put_printed s4 (padded 512 w') color) as (s5 & -> & H5); [by eapply printed_sees|by eapply row_text, Hr'; lia|].
  exists s5. split; [done|]. eapply printed_trans, H5. by eapply printed_trans.
Qed.

Lemma report_change_printed s idx err : sees (sys s) v m -> 0 ≤ idx < Zlen ws -> exists s', report_change s (rows ws) idx err = Ret s' /\ printed s s'.
Proof using Hws.
  intros Hs Hidx. assert (H0 : printed s s) by (exists (sys s); by destruct s). unfold report_change.
  destruct (err =? 1); [|destruct (err =? 2); [|by exists s]].
  - eapply put_then; [done|apply text_lit; reflexivity|]. intros s1 H1. destruct (print_path_printed s s1 idx LIGHT_RED H1 Hidx) as (s2 & -> & H2). rewrite bind_ret.
    destruct (put_printed s2 (line "' is a file, not a directory") LIGHT_RED) as (s3 & -> & H3); [by eapply printed_sees|apply text_line; reflexivity|].
    exists s3. split; [done|]. by eapply printed_trans.
  - eapply put_then; [done|apply text_lit; reflexivity|]. intros s1 H1. destruct (row_typed idx Hidx) as (w & _ & Hr & _). rewrite Hr, bind_ret.
    eapply put_then; [done|by eapply row_text, Hr|]. intros s2 H2. eapply put_then; [done|apply text_lit; reflexivity|]. intros s3 H3.
    assert (Hp : exists s4, (if 0 <? idx then s ← put s3 (lit "'") LIGHT_RED; s ← print_path s (rows ws) (idx - 1) LIGHT_RED; put s (lit "'") LIGHT_RED
       else put s3 (lit "current directory") LIGHT_RED) = Ret s4 /\ printed s s4).
    { destruct (Z.ltb_spec 0 idx).
      - eapply put_then; [done|apply text_lit; reflexivity|]. intros s4 H4. destruct (print_path_printed s s4 (idx - 1) LIGHT_RED H4) as (s5 & -> & H5); [lia|]. rewrite bind_ret.
        destruct (put_printed s5 (lit "'") LIGHT_RED) as (s6 & -> & H6); [by eapply printed_sees|apply text_lit; reflexivity|].
        exists s6. split; [done|]. by eapply printed_trans.
      - destruct (put_printed s3 (lit "current directory") LIGHT_RED) as (s4 & -> & H4); [by eapply printed_sees|apply text_lit; reflexivity|].
        exists s4. split; [done|]. by eapply printed_trans. }
    destruct Hp as (s4 & -> & H4). rewrite bind_ret.
    destruct (put_printed s4 (line "") LIGHT_RED) as (s5 & -> & H5); [by eapply printed_sees|apply text_line; reflexivity|].
    exists s5. split; [done|]. by eapply printed_trans.
Qed.
End walk.

(** ** One name *)

Section step.
Context {K : Type} `{!SysCalls K, !FileServer K}.
Context (v : volume) (m : driver) (Htree : tree_ok v (fat_table m)).
Implicit Types (s : shell K).

(** The loop stands in the folder [c] with path [ns]. *)
Record at_place s (ns : list (list Z)) (c : Z) : Prop := MkAtPlace {
  ap_sees : sees (sys s) v m;
  ap_path : current_path s = padded 512 (render ns);
  ap_table : temp_dir_table s = table_at v c;
  ap_located : located v ns c
}.

(** What the loop leaves alone. *)
Definition same_shell s s' : Prop :=
  current_directory s' = current_directory s /\ after_path s' = after_path s /\ current_dir_table s' = current_dir_table s.

#[local] Instance same_shell_preorder : PreOrder same_shell.
Proof using Type. split; [done|]. intros a b c (H1 & H2 & H3) (H4 & H5 & H6). split_and!; congruence. Qed.

Lemma sees_table k c : sees k v m -> in_map c -> table_ok (table_at v c) /\ enc_array (table_at v c) = vol_get v c.
Proof using Type.
  intros Hk Hc. destruct (sees_block k v m c Hk Hc) as [Hl Hb]. split.
  - split; [apply length_dec_array|]. exact (dec_array_wf (A := FAT32DirectoryEntry) ENTRY_COUNT _ Hl Hb).
  - exact (enc_dec_array (A := FAT32DirectoryEntry) ENTRY_COUNT _ Hl Hb).
Qed.

Lemma lookup_folder c nm e : lookup_first (has_name nm) (drop 2 (table_at v c)) = Some e -> e ∈ drop 2 (table_at v c).
Proof using Type. intros H. apply lookup_first_Some in H as (_ & H & _). by eapply list_elem_of_lookup_2. Qed.

Lemma name_at_limit k c : sees k v m -> in_map c -> Zlen (name_at (table_at v c) 0) ≤ BUFFER_LIMIT.
Proof using Type.
  intros Hk Hc. destruct (sees_table k c Hk Hc) as [_ He]. destruct (sees_block k v m c Hk Hc) as [Hl _].
  unfold name_at. rewrite Z2Nat.inj_0, Nat.mul_0_r, drop_0, He. unfold Zlen. rewrite Hl. by vm_compute.
Qed.

(** The printed name of a folder, as [append_current_path] reads it. *)
Lemma own_name k p e : sees k v m -> folder_ok v (fat_table m) p e ->
  text (name_at (table_at v (entry_cluster e)) 0) /\ CString.cstr (name_at (table_at v (entry_cluster e)) 0) = CString.cstr (name e).
Proof using Htree.
  intros Hk He. pose proof (name_at_limit k _ Hk (allocated_in_map _ _ (fo_taken _ _ _ _ He))) as Hlim.
  destruct (fo_self _ _ _ _ He) as (e0 & H0 & _ & <- & Hx & _). revert Hlim. unfold text, name_at. rewrite Z2Nat.inj_0, Nat.mul_0_r, drop_0. destruct (table_at v (entry_cluster e)) as [|e0' t]; [done|]. injection H0 as ->.
  rewrite enc_array_cons. change (enc e0) with (encode_entry e0). unfold encode_entry. rewrite Hx, <- !app_assoc.
  change (replicate 3 0) with [0; 0; 0]. cbn [app]. intros Hlim. split; [split; [set_solver|exact Hlim]|]. by rewrite cstr_app_zero.
Qed.

Lemma change_directory_spec s ns c w : at_place s ns c -> typed_name w -> (length (joined ns) + 10 ≤ 512)%nat ->
  match lookup_first (has_name (name8 w)) (drop 2 (table_at v c)) with
  | Some e =>
      if attribute e =? ATTR_SUBDIRECTORY then
        exists s', change_directory s (padded 512 w) c = Ret (0, entry_cluster e, s') /\
          at_place s' (ns ++ [CString.cstr (name e)]) (entry_cluster e) /\ same_shell s s'
      else exists s', change_directory s (padded 512 w) c = Ret (1, c, s') /\ sees (sys s') v m /\ same_shell s s'
  | None => exists s', change_directory s (padded 512 w) c = Ret (2, c, s') /\ sees (sys s') v m /\ same_shell s s'
  end.
Proof using Htree.
  intros [Hs Hpath Htab Hloc] Hw Hroom. pose proof (located_map v (fat_table m) Htree ns c Hloc) as Hc. destruct (sees_table _ _ Hs Hc) as [Htok Henc].
  destruct (sees_block _ _ _ _ Hs Hc) as [Hblk _]. unfold change_directory.
  rewrite CString.memcpy_eq by (rewrite ?length_padded by (destruct Hw as (_ & _ & ?); lia); rewrite ?length_replicate; lia).
  rewrite name8_padded, splice_all, bind_ret by (apply name8_ok || destruct Hw as (_ & _ & ?); done || lia).
  set (rq := folder_request s (name8 w) c).
  assert (Hok : request_ok rq).
  { split; [by apply name8_ok|split; [done|by repeat constructor]|unfold is_word; cbn; unfold CLUSTER_SIZE, BLOCK_SIZE, CLUSTER_BLOCK_COUNT; lia]. }
  pose proof (located_dir v (fat_table m) Htree ns c Hloc) as Hdir.
  destruct (read_directory_sees (sys s) v m rq Hs Hok Hc) as (k & -> & Hk).
  { cbn. rewrite Htab, Henc. unfold Zlen. rewrite Hblk. done. }
  { cbn. rewrite Htab, Henc. unfold Zlen. rewrite Hblk. by vm_compute. }
  { cbn. rewrite Htab, Henc. by eapply sees_block. }
  { cbn. intros e He Ha. eapply allocated_in_map, (fo_taken v (fat_table m) c e). eapply tree_folder; [done..| |done]. by eapply lookup_folder. }
  unfold spec_read_directory. cbn [buffer_size parent_cluster_number req_name rq folder_request]. rewrite Z.ltb_irrefl, Hdir, bind_ret. cbn [negb buf].
  assert (Hkeep : dec_array ENTRY_COUNT (enc_array (temp_dir_table s)) = table_at v c) by (by rewrite Htab, dec_enc_table).
  destruct (lookup_first _ _) as [e|] eqn:E; [destruct (Z.eqb_spec (attribute e) ATTR_SUBDIRECTORY) as [Ha|Ha]|].
  - apply lookup_folder in E. pose proof (tree_folder v (fat_table m) Htree ns c e Hloc E Ha) as He. cbn [negb Z.eqb].
    destruct (sees_block _ _ _ _ Hk (allocated_in_map _ _ (fo_taken _ _ _ _ He))) as [Hbe _].
    rewrite splice_all by (unfold rq; cbn; rewrite ?Htab, Henc, Hblk; done). fold (table_at v (entry_cluster e)).
    destruct (own_name k c e Hk He) as [[Hn0 _] Hn]. destruct (fo_self _ _ _ _ He) as (e0 & H0 & _ & _ & _ & Hc0).
    unfold cluster_of. cbn [temp_dir_table set_temp_table]. rewrite (arr_get_lookup _ 0 e0) by done. rewrite !bind_ret, Hc0.
    destruct (fo_name _ _ _ _ He) as [Hfn Hl8].
    rewrite (append_path _ ns _ (CString.cstr (name e))); [|exact (located_names v (fat_table m) Htree ns c Hloc)|done|done|done|done|rewrite render_snoc, length_app; simpl; lia].
    rewrite bind_ret. eexists. split; [done|]. split; [|done]. split; [done..|]. by apply (located_child v ns c e).
  - cbn [negb Z.eqb]. eexists. split; [done|]. by split.
  - cbn [negb Z.eqb]. eexists. split; [done|]. by split.
Qed.

(** ** The loop *)

Lemma to_parent_spec s ns w c : at_place s (ns ++ [w]) c -> (length (render (ns ++ [w])) < 512)%nat ->
  exists s', to_parent s = Ret (parent_of v c, s') /\ at_place s' ns (parent_of v c) /\ same_shell s s'.
Proof using Htree.
  intros [Hs Hpath Htab Hloc] Hl. destruct (located_up v (fat_table m) Htree ns w c Hloc) as (e1 & H1 & Hup). unfold to_parent, parent_of, cluster_of.
  rewrite H1, Htab, (arr_get_lookup _ 1 e1), !bind_ret by done. pose proof (located_map v (fat_table m) Htree _ _ Hup) as Hp.
  destruct (read_cluster_sees _ _ _ _ Hs Hp) as (k & Hk & Hks). unfold update_directory_table. rewrite Hk, !bind_ret.
  pose proof (located_names v (fat_table m) Htree _ _ Hloc) as Hns. apply Forall_app in Hns as [Hns Hw]. rewrite Forall_singleton in Hw.
  erewrite retract_path by done. rewrite bind_ret. eexists. split; [done|]. by split; [split|].
Qed.

(** [..] in the root never leaves the loop, whatever the fuel. *)
Lemma root_loops path num idx c : forall fuel report s, current_path s = padded 512 (render []) -> idx < num ->
  row path idx = Ret (padded 512 (bytes_of_string "..")) -> change_loop fuel report s path num idx c = Hang.
Proof using Type.
  intros fuel report s Hp Hi Hr. induction fuel as [|fuel IH]; [done|]. cbn [change_loop].
  rewrite (proj2 (Z.ltb_lt _ _)) by done. cbn [negb].
  rewrite Hr, Hp, bind_ret, (is_word_at_padded _ (bytes_of_string "..") "..") by first [by repeat constructor|apply Nat.ltb_lt; reflexivity].
  rewrite bind_ret, bool_decide_true, is_word_at_padded, bind_ret by first [done|by repeat constructor|apply Nat.ltb_lt; reflexivity].
  rewrite bool_decide_true by done. exact IH.
Qed.

Context (ws extra : list (list Z)) (Hws : Forall typed_name (ws ++ extra)).

Lemma root_is s ns c : at_place s ns c -> (length (render ns) < 512)%nat -> is_word_at (current_path s) "/" = Ret (bool_decide (ns = [])).
Proof using Htree.
  intros [_ Hp _ Hl] Hlen. pose proof (located_names v (fat_table m) Htree _ _ Hl) as Hns.
  rewrite Hp, is_word_at_padded; [|by apply no_nul_render|done|by repeat constructor].
  f_equal. apply bool_decide_ext. by apply render_root.
Qed.

Lemma render_bound ns : (length (render ns) ≤ length (joined ns) + 1)%nat.
Proof using Type. destruct ns; simpl; lia. Qed.

(** What the loop does from the folder at [c], for the names of [rest]. *)
Definition walk_result (fuel : nat) s report num idx (r : walked) c : Prop :=
  match r with
  | Arrived c' ns' => exists s', change_loop fuel report s (rows (ws ++ extra)) num idx c = Ret (0, c', s') /\ at_place s' ns' c' /\ same_shell s s'
  | Refused err => exists c' s', change_loop fuel report s (rows (ws ++ extra)) num idx c = Ret (err, c', s') /\ sees (sys s') v m /\ same_shell s s' /\ err ≠ 0
  | Stuck => change_loop fuel report s (rows (ws ++ extra)) num idx c = Hang
  end.

Lemma walk_step fuel fuel' s s' report idx idx' (r : walked) c c' : same_shell s s' ->
  change_loop fuel report s (rows (ws ++ extra)) (Zlen ws) idx c = change_loop fuel' report s' (rows (ws ++ extra)) (Zlen ws) idx' c' ->
  walk_result fuel' s' report (Zlen ws) idx' r c' -> walk_result fuel s report (Zlen ws) idx r c.
Proof using Type.
  intros Hs He. unfold walk_result. rewrite He. destruct r as [c2 ns2|err|]; [| |done].
  - intros (s2 & -> & Ha & Hsame). exists s2. split; [done|]. split; [done|]. by etrans.
  - intros (c2 & s2 & -> & Ha & Hsame & Herr). exists c2, s2. split_and!; try done. by etrans.
Qed.

(** One round of the loop, for a name that is in the path. *)
Lemma change_loop_round fuel report s ns c idx w : at_place s ns c -> (length (render ns) < 512)%nat -> 0 ≤ idx < Zlen ws ->
  (ws ++ extra) !! Z.to_nat idx = Some w ->
  row (rows (ws ++ extra)) idx = Ret (padded 512 w) /\ typed_name w /\
  change_loop (S fuel) report s (rows (ws ++ extra)) (Zlen ws) idx c =
    if decide (w = bytes_of_string "..") then
      if decide (ns = []) then change_loop fuel report s (rows (ws ++ extra)) (Zlen ws) idx c
      else '(parent, s) ← to_parent s; change_loop fuel report s (rows (ws ++ extra)) (Zlen ws) (idx + 1) parent
    else if decide (w = bytes_of_string ".") then change_loop fuel report s (rows (ws ++ extra)) (Zlen ws) (idx + 1) c
    else
      '(err_val, cluster, s) ← change_directory s (padded 512 w) c;
      s ← (if report then report_change s (rows (ws ++ extra)) idx err_val else Ret s);
      if err_val =? 0 then change_loop fuel report s (rows (ws ++ extra)) (Zlen ws) (idx + 1) cluster else Ret (err_val, cluster, s).
Proof using Htree Hws.
  intros Hap Hrender Hi Hw. destruct (row_typed (ws ++ extra) Hws idx) as (w' & Hw' & Hrow & Hty); [rewrite Zlen_app; unfold Zlen in *; lia|].
  rewrite Hw in Hw'. injection Hw' as <-. split; [done|]. split; [done|]. destruct Hty as (Hnn & _ & Hlt).
  cbn [change_loop]. rewrite (proj2 (Z.ltb_lt _ _)) by lia. cbn [negb]. rewrite Hrow, bind_ret.
  rewrite (is_word_at_padded 512 w ".."), bind_ret by (done || by repeat constructor). case_decide as Hdd.
  - rewrite bool_decide_true, (root_is s ns c), bind_ret by done. case_decide; [by rewrite bool_decide_true by done|by rewrite bool_decide_false by done].
  - rewrite bool_decide_false by done. rewrite (is_word_at_padded 512 w "."), bind_ret by (done || by repeat constructor).
    case_decide; [by rewrite bool_decide_true by done|by rewrite bool_decide_false by done].
Qed.

(** A name that cannot be entered ends the loop, after its message if one is printed. *)
Lemma refused_ends (report : bool) (s s' : shell K) err idx : sees (sys s') v m -> same_shell s s' -> 0 ≤ idx < Zlen (ws ++ extra) ->
  exists s2, (if report then report_change s' (rows (ws ++ extra)) idx err else Ret s') = Ret s2 /\ sees (sys s2) v m /\ same_shell s s2.
Proof using Hws.
  intros Hs' Hsame Hi. assert (Hr : exists s2, (if report then report_change s' (rows (ws ++ extra)) idx err else Ret s') = Ret s2 /\ printed v m s' s2).
  { destruct report; [by apply report_change_printed|]. exists s'. split; [done|]. exists (sys s'). by destruct s'. }
  destruct Hr as (s2 & -> & k & -> & Hk). by exists (set_sys s' k).
Qed.

Lemma change_loop_follows report rest : forall pre fuel s ns c, ws = pre ++ rest -> at_place s ns c ->
  (length (joined ns) + 9 * length rest ≤ 510)%nat ->
  (follow v rest c ns ≠ Stuck -> (length rest < fuel)%nat) ->
  walk_result fuel s report (Zlen ws) (Zlen pre) (follow v rest c ns) c.
Proof using Htree Hws.
  induction rest as [|w rest IH]; intros pre fuel s ns c Heq Hap Hroom Hfuel.
  { destruct fuel as [|fuel]; [destruct (Nat.nlt_0_r _ (Hfuel ltac:(done)))|]. cbn [follow walk_result change_loop].
    rewrite app_nil_r in Heq. subst pre. rewrite Z.ltb_irrefl. by exists s. }
  destruct fuel as [|fuel].
  { destruct (follow v (w :: rest) c ns) eqn:E; [by specialize (Hfuel ltac:(done)); lia..|]. done. }
  assert (Hi : 0 ≤ Zlen pre < Zlen ws) by (rewrite Heq, Zlen_app; unfold Zlen; simpl length; lia).
  assert (Hi' : 0 ≤ Zlen pre < Zlen (ws ++ extra)) by (rewrite Zlen_app; unfold Zlen in *; lia).
  assert (Hw : (ws ++ extra) !! Z.to_nat (Zlen pre) = Some w).
  { unfold Zlen. by rewrite Heq, <- app_assoc, Nat2Z.id, lookup_app_r, Nat.sub_diag by lia. }
  pose proof (render_bound ns) as Hrb. cbn [length] in Hroom.
  destruct (change_loop_round fuel report s ns c (Zlen pre) w Hap ltac:(lia) Hi Hw) as (Hrow & Hty & Hround).
  assert (Hnext : Zlen pre + 1 = Zlen (pre ++ [w])) by (by rewrite Zlen_app). rewrite Hnext in Hround.
  assert (Heq' : ws = (pre ++ [w]) ++ rest) by (by rewrite <- app_assoc).
  cbn [follow length] in *. destruct (decide (w = bytes_of_string "..")) as [Hdd|Hdd].
  - destruct (decide (ns = [])) as [->|Hne].
    { cbn [walk_result]. apply root_loops; [apply Hap|lia|by rewrite Hrow, Hdd]. }
    destruct ns as [|w0 ns _] using rev_ind; [done|]. rewrite removelast_last in *. rewrite joined_snoc, length_app in Hroom, Hrb. cbn [length] in Hroom, Hrb.
    destruct (to_parent_spec s ns w0 c Hap) as (s' & Hto & Hap' & Hsame); [lia|]. rewrite Hto, bind_ret in Hround.
    eapply (walk_step (S fuel) fuel), IH; [done|exact Hround|exact Heq'|exact Hap'|lia|intros Hs; specialize (Hfuel Hs); lia].
  - destruct (decide (w = bytes_of_string ".")) as [Hd|Hd].
    { eapply (walk_step (S fuel) fuel), IH; [reflexivity|exact Hround|exact Heq'|exact Hap|lia|intros Hs; specialize (Hfuel Hs); lia]. }
    pose proof (change_directory_spec s ns c w Hap Hty ltac:(lia)) as Hcd.
    assert (Hfail : forall err s', err ≠ 0 -> change_directory s (padded 512 w) c = Ret (err, c, s') -> sees (sys s') v m -> same_shell s s' ->
      walk_result (S fuel) s report (Zlen ws) (Zlen pre) (Refused err) c).
    { intros err s' Herr Hret Hs' Hsame. cbn [walk_result]. rewrite Hround, Hret, bind_ret.
      destruct (refused_ends report s s' err (Zlen pre) Hs' Hsame Hi') as (s2 & -> & Hs2 & Hsame2).
      rewrite bind_ret, (proj2 (Z.eqb_neq _ _)) by done. by exists c, s2. }
    destruct (lookup_first _ _) as [e|] eqn:E; [|destruct Hcd as (s' & Hret & Hs' & Hsame); by eapply Hfail].
    destruct (Z.eqb_spec (attribute e) ATTR_SUBDIRECTORY) as [Ha|Ha]; [|destruct Hcd as (s' & Hret & Hs' & Hsame); by eapply Hfail].
    destruct Hcd as (s' & Hret & Hap' & Hsame).
    eapply (walk_step (S fuel) fuel), IH; [exact Hsame| |exact Heq'|exact Hap'| |intros Hs; specialize (Hfuel Hs); lia].
    + rewrite Hround, Hret, bind_ret. by destruct report.
    + apply lookup_folder in E. destruct Hap as [_ _ _ Hl]. destruct (fo_name v (fat_table m) c e) as [_ H8]; [by eapply tree_folder|].
      rewrite joined_snoc, length_app. cbn [length]. lia.
Qed.
End step.
