(* ===== verification/UserCalls.v ===== *)
(** * The system calls of a user program on the kernel

    [syscall] of user-shell.c raises interrupt 0x30 with the four registers
    set.  The programs pass the addresses of objects of their own memory: a
    request, a byte for the result, a buffer.  [user_calls] are the calls of
    [SysCalls] made that way on the machine of Interrupt.v: each stores its
    arguments in the caller's memory, raises the interrupt and reads the
    results back.

    The three objects of a call are at the addresses of a [call_area]; the
    compiler chooses them, so they are parameters.  A call that does not come
    back to its caller (it ended the process) is [Hang]. *)
From S2P Require Import Prelude CString PortIO BlockDevice FatLayout Fat32 FatFacts Descriptors Pic Screen Cmos Paging PagingFacts Mmu UserMemory Process ProcessImage Interrupt ShellBase.

Record call_area := MkArea {
  req_at : Z;
  ret_at : Z;
  buf_at : Z
}.

(** [struct FAT32DriverRequest] in memory. *)
Definition encode_request (addr : Z) (rq : FAT32DriverRequest) : list Z :=
  le_bytes 4 addr ++ req_name rq ++ req_ext rq ++ le_bytes 4 (parent_cluster_number rq) ++ le_bytes 4 (buffer_size rq).

(** The frame the stub builds for [int 0x30]; the handler looks at no other
    register. *)
Definition call_frame (eax ebx ecx edx : Z) : InterruptFrame :=
  MkFrame (MkCpu 0 0 0 0 ebx edx ecx eax 0 0 0 0) 0x30 (MkStack 0 0 0 0).

Section calls.
Context {D : Type} `{!BlockDevice D} `{!PortIO D} `{!KernelHalf D}.
Context (list_addr kernel_addr : Z) (polls rounds : nat) (a : call_area).
Implicit Types (m : machine D) (rq : FAT32DriverRequest).

Definition syscall m (eax ebx ecx edx : Z) : res (machine D) :=
  '(h, m) ← main_interrupt_handler list_addr kernel_addr polls rounds m (call_frame eax ebx ecx edx);
  match h with Back Resume => Ret m | _ => Hang end.

(** The caller's own stores and loads. *)
Definition store_user m (va : Z) (bs : list Z) : res (machine D) := put_buffer list_addr kernel_addr m va bs.

Definition load_user m (va : Z) (n : nat) : res (list Z) :=
  dir ← Interrupt.current_directory list_addr kernel_addr m;
  let w := user_window n dir (umem (kern m)) va in
  if decide (length w = n) then Ret w else Ub.

Definition result m : res Z := bs ← load_user m (ret_at a) 1; arr_get bs 0.

Definition pass_request m rq : res (machine D) :=
  m ← store_user m (buf_at a) (buf rq);
  store_user m (req_at a) (encode_request (buf_at a) rq).

(** A call with a request, and its result. *)
Definition request_call (n : Z) m rq : res (Z * machine D) :=
  m ← pass_request m rq;
  m ← syscall m n (req_at a) (ret_at a) 0;
  c ← result m;
  Ret (s8 c, m).

(** The same for a call that fills the buffer. *)
Definition buffer_call (n : Z) m rq : res (Z * list Z * machine D) :=
  '(c, m) ← request_call n m rq;
  b ← load_user m (buf_at a) (length (buf rq));
  Ret (c, b, m).

#[local] Instance user_calls : SysCalls (machine D) := {
  sys_read := buffer_call 0;
  sys_read_directory := buffer_call 1;
  sys_write := request_call 2;
  sys_delete := request_call 3;
  sys_key m := m ← syscall m 4 (ret_at a) 0 0; c ← result m; Ret (c, m);
  sys_puts m str color := m ← store_user m (buf_at a) (u8 <$> str); syscall m 6 (buf_at a) (Zlen str) color;
  sys_keyboard_on m := syscall m 7 0 0 0;
  sys_clear m := syscall m 8 0 0 0;
  sys_read_cluster m c := m ← syscall m 9 (buf_at a) c 0; b ← load_user m (buf_at a) (Z.to_nat CLUSTER_SIZE); Ret (b, m);
  sys_write_cluster m bs c := m ← store_user m (buf_at a) bs; syscall m 10 (buf_at a) c 0;
  sys_exec := request_call 12;
  sys_ps m := syscall m 13 0 0 0;
  sys_kill m pid := m ← syscall m 14 (u32 pid) (ret_at a) 0; c ← result m; Ret (s8 c, m);
  sys_clock m := syscall m 15 0 0 0
}.
End calls.
