(* ===== verification/UserFiles.v ===== *)
(** * The file calls of a user program reach fat32.c

    A request stored in the caller's memory is the one the handler decodes, the
    buffer behind its address is the caller's, and the result and the buffer
    come back: the machine of Interrupt.v is a [FileServer] for a process whose
    pages hold the objects of a call. *)
From stdpp Require Import gmap.
From S2P Require Import Prelude CString PortIO BlockDevice FatLayout Fat32 FatFacts FatChain FatLoops FatSpec FatRefine FatWrite FatMount FatProps.
From S2P Require Import DirTree DiskTree DiskRemove DiskMap.
From S2P Require Import Descriptors Pic Screen Cmos Paging PagingFacts Mmu UserMemory Process ProcessImage FatBuffer Interrupt InterruptFacts KernelBoot.
From S2P Require Import ShellBase Shell ShellPath ShellFacts ShellLine ShellSplit DirTree ShellWalk UserCalls.

(** ** A request in memory *)

Lemma length_8 (l : list Z) : length l = 8%nat -> exists a b c d e f g h, l = [a; b; c; d; e; f; g; h].
Proof. intros H. do 8 (destruct l as [|? l]; [discriminate H|]). destruct l; [|discriminate H]. by eexists _, _, _, _, _, _, _, _. Qed.

Lemma length_3 (l : list Z) : length l = 3%nat -> exists a b c, l = [a; b; c].
Proof. intros H. do 3 (destruct l as [|? l]; [discriminate H|]). destruct l; [|discriminate H]. by eexists _, _, _. Qed.

Lemma le_word_back z : is_word 32 z -> u32 (le_val (le_bytes 4 z)) = z.
Proof. intros H. rewrite le_val_bytes by exact H. by apply wrap_small. Qed.

Lemma decode_encode_request addr rq : is_word 32 addr -> request_ok rq -> is_word 32 (parent_cluster_number rq) ->
  decode_request (encode_request addr rq) = MkUserRequest addr (with_buf rq []).
Proof.
  intros Ha [[Hn _] [Hx _] Hs] Hp. destruct rq as [b nm ex p s]. cbn [req_name req_ext parent_cluster_number buffer_size] in *.
  destruct (length_8 nm Hn) as (n1 & n2 & n3 & n4 & n5 & n6 & n7 & n8 & ->). destruct (length_3 ex Hx) as (x1 & x2 & x3 & ->).
  unfold decode_request, encode_request, with_buf. cbn [req_name req_ext parent_cluster_number buffer_size]. f_equal; [|f_equal].
  - exact (le_word_back addr Ha).
  - exact (le_word_back p Hp).
  - exact (le_word_back s Hs).
Qed.

Lemma length_encode_request addr rq : request_ok rq -> length (encode_request addr rq) = sizeof_request.
Proof. intros [[Hn _] [Hx _] _]. unfold encode_request. by rewrite !length_app, !length_le_bytes, Hn, Hx. Qed.

Lemma encode_request_ok addr rq : request_ok rq -> bytes_ok (encode_request addr rq).
Proof. intros [[_ Hn] [_ Hx] _]. unfold encode_request. repeat (apply Forall_app; split); auto with words. Qed.

(** The objects of a call, in memory the process has to itself. *)
Record area_ok (dir : PageDirectory) (a : call_area) : Prop := MkAreaOk {
  ar_req : 0 ≤ req_at a;
  ar_ret : req_at a + Z.of_nat sizeof_request ≤ ret_at a;
  ar_buf : ret_at a + 1 ≤ buf_at a;
  ar_end : buf_at a + Z.of_nat BUFFER_WINDOW ≤ KERNEL_VIRTUAL_ADDRESS_BASE;
  ar_mapped : all_mapped dir (req_at a) (buf_at a + Z.of_nat BUFFER_WINDOW - req_at a);
  ar_apart : frames_apart dir KERNEL_VIRTUAL_ADDRESS_BASE
}.

Section files.
Context {D : Type} `{!BlockDevice D, !BlockDeviceSpec D, !PortIO D, !KernelHalf D, !SharedBus D}.
Context (list_addr kernel_addr : Z) (polls rounds : nat) (a : call_area) (dir : PageDirectory) (Ha : area_ok dir a).
Implicit Types (m : machine D) (rq : FAT32DriverRequest) (v : volume).

(** The process with directory [dir] runs. *)
Definition ready m : Prop := Interrupt.current_directory list_addr kernel_addr m = Ret dir /\ ram_ok (umem (kern m)).

Definition view m : Z -> Z := peek dir (umem (kern m)).

Definition inside (va n : Z) : Prop := req_at a ≤ va /\ va + n ≤ buf_at a + Z.of_nat BUFFER_WINDOW.

Abbreviation top := KERNEL_VIRTUAL_ADDRESS_BASE.

Lemma inside_mapped va n : inside va n -> all_mapped dir va n.
Proof using Ha.
  intros [Hlo Hhi] i Hi. replace (va + i) with (req_at a + (va - req_at a + i)) by lia. apply (ar_mapped _ _ Ha). lia.
Qed.

Lemma inside_top va n : inside va n -> 0 ≤ va /\ va + n ≤ top.
Proof using Ha. intros [Hlo Hhi]. destruct Ha. lia. Qed.

Lemma store_user_ok m va bs : ready m -> inside va (Zlen bs) -> bytes_ok bs ->
  exists m', store_user list_addr kernel_addr m va bs = Ret m' /\ ready m' /\ files (kern m') = files (kern m) /\
    updated top (view m) (view m') va bs.
Proof using Ha.
  intros [Hd Hok] Hin Hbs. destruct (inside_top _ _ Hin) as [Hva Htop]. unfold store_user, put_buffer. rewrite Hd, bind_ret.
  destruct (store_bytes_peek dir top (ar_apart _ _ Ha) (umem (kern m)) va bs Hok Hbs Hva Htop (inside_mapped _ _ Hin)) as (mem & -> & Hok' & Hu).
  rewrite bind_ret. eexists. split; [reflexivity|]. split; [by split|]. by split.
Qed.

Lemma put_user_ok m va b : ready m -> inside va 1 ->
  exists m', put_user list_addr kernel_addr m va b = Ret m' /\ ready m' /\ files (kern m') = files (kern m) /\
    updated top (view m) (view m') va [u8 b].
Proof using Ha.
  intros Hr Hin. pose proof (inside_top _ _ Hin) as [Hva Htop].
  assert (Hb : bytes_ok [u8 b]) by (apply Forall_singleton, wrap_word; lia).
  destruct (store_user_ok m va [u8 b] Hr Hin Hb) as (m' & Hs & H'). exists m'. split; [|exact H'].
  destruct Hr as [Hd _]. unfold store_user, put_buffer in Hs. unfold put_user. rewrite (proj2 (Z.ltb_lt va _)) by lia. rewrite Hd, bind_ret in *. unfold store_bytes in Hs. cbn [length for_up] in Hs.
  change (arr_get [u8 b] 0) with (Ret (u8 b)) in Hs. rewrite bind_ret, Z.add_0_r in Hs. destruct (store _ _ _ _); [|done|done]. exact Hs.
Qed.

Lemma user_window_ok m va n : inside va (Z.of_nat n) -> user_window n dir (umem (kern m)) va = bytes_from (view m) va n.
Proof using Ha.
  intros Hin. pose proof (inside_top _ _ Hin) as [Hva Htop]. unfold user_window.
  replace (Z.to_nat (Z.min (Z.of_nat n) (top - va))) with n by lia.
  apply window_peek; [exact Hva|unfold KERNEL_VIRTUAL_ADDRESS_BASE in *; lia|by apply inside_mapped].
Qed.

Lemma seen_ok m va n : ready m -> inside va (Z.of_nat n) -> seen list_addr kernel_addr n m va = bytes_from (view m) va n.
Proof using Ha.
  intros [Hd _] Hin. pose proof (inside_top _ _ Hin) as [Hva Htop]. rewrite (seen_window _ _ dir) by (exact Hd || lia).
  rewrite <- (user_window_ok m va n Hin). unfold user_window. by replace (Z.to_nat (Z.min (Z.of_nat n) (top - va))) with n by lia.
Qed.

Lemma load_user_ok m va n : ready m -> inside va (Z.of_nat n) -> load_user list_addr kernel_addr m va n = Ret (bytes_from (view m) va n).
Proof using Ha.
  intros [Hd _] Hin. unfold load_user. rewrite Hd, bind_ret, user_window_ok by exact Hin. by rewrite decide_True by apply length_bytes_from.
Qed.

Lemma view_ok m va n : ready m -> bytes_ok (bytes_from (view m) va n).
Proof using Type. intros [_ Hok]. apply bytes_from_ok. intros x. by apply peek_ok. Qed.

Lemma result_after m m' b : ready m' -> updated top (view m) (view m') (ret_at a) [u8 b] -> result list_addr kernel_addr a m' = Ret (u8 b).
Proof using Ha.
  intros Hr Hu. assert (Hin : inside (ret_at a) 1) by (destruct Ha; unfold inside; lia). unfold result. rewrite load_user_ok by done.
  pose proof (inside_top _ _ Hin) as [Hlo Hhi]. rewrite (updated_inside top _ _ _ _ Hu Hlo Hhi : bytes_from (view m') (ret_at a) 1 = [u8 b]). reflexivity.
Qed.

(** Only the request, the result and the first [n] bytes of the buffer may
    have changed in the memory the process sees. *)
Definition kept (n : Z) m m' : Prop :=
  forall x, 0 ≤ x < top -> ~ (req_at a ≤ x < req_at a + Z.of_nat sizeof_request) -> x ≠ ret_at a ->
    ~ (buf_at a ≤ x < buf_at a + n) -> view m' x = view m x.

Lemma kept_trans n m1 m2 m3 : kept n m1 m2 -> kept n m2 m3 -> kept n m1 m3.
Proof using Type. intros H1 H2 x Hx Hr Hc Hb. by rewrite H2, H1. Qed.

Lemma updated_kept n m m' va bs : updated top (view m) (view m') va bs ->
  (forall x, va ≤ x < va + Zlen bs -> req_at a ≤ x < req_at a + Z.of_nat sizeof_request \/ x = ret_at a \/ buf_at a ≤ x < buf_at a + n) -> kept n m m'.
Proof using Type. intros Hu Hin x Hx Hr Hc Hb. rewrite Hu by exact Hx. apply decide_False. intros H. destruct (Hin x H) as [|[|]]; tauto. Qed.

(** The window stored back behind a buffer holds what was there. *)
Lemma window_kept n m m' out rest (old : list Z) : updated top (view m) (view m') (buf_at a) (out ++ rest) ->
  bytes_from (view m) (buf_at a) (length (old ++ rest)) = old ++ rest -> length out = length old -> Zlen out ≤ n -> kept n m m'.
Proof using Type.
  intros Hu Hold Hl Hn x Hx Hr Hc Hb. rewrite Hu by exact Hx. case_decide as Hin; [|done].
  assert (Hi : (length old ≤ Z.to_nat (x - buf_at a))%nat) by (unfold Zlen in *; lia).
  rewrite lookup_app_r, Hl by (rewrite Hl; exact Hi). rewrite <- (lookup_app_r old rest) by exact Hi. rewrite <- Hold.
  destruct (bytes_from _ _ _ !! _) as [b|] eqn:E.
  - apply lookup_bytes_from in E as [_ ->]. cbn. f_equal. lia.
  - apply lookup_ge_None in E. rewrite length_bytes_from in E. rewrite length_app in E. unfold Zlen in Hin. rewrite length_app in Hin. lia.
Qed.

(** ** The interrupt *)

Lemma syscall_of m n b c d r : interrupt list_addr kernel_addr polls rounds m (call_frame n b c d) = (m' ← r; Ret (Resume, m')) ->
  syscall list_addr kernel_addr polls rounds m n b c d = r.
Proof using Type.
  intros H. unfold syscall, main_interrupt_handler. cbn [int_number call_frame].
  change (0x30 =? PAGE_FAULT) with false. change (0x30 =? IRQ_KEYBOARD + PIC1_OFFSET) with false.
  change (0x30 =? IRQ_TIMER + PIC1_OFFSET) with false. change (0x30 =? 0x30) with true. cbv iota. fold (call_frame n b c d). rewrite H.
  by destruct r.
Qed.

(** The handler finds the request the caller stored. *)
Lemma request_passed m rq : ready m -> request_ok rq -> in_map (parent_cluster_number rq) -> (length (buf rq) ≤ BUFFER_WINDOW)%nat -> bytes_ok (buf rq) ->
  exists m' rest, pass_request list_addr kernel_addr a m rq = Ret m' /\ ready m' /\ files (kern m') = files (kern m) /\ bytes_ok rest /\
    length (buf rq ++ rest) = BUFFER_WINDOW /\ bytes_from (view m') (buf_at a) BUFFER_WINDOW = buf rq ++ rest /\
    fetch_request list_addr kernel_addr m' (req_at a) = Ret (MkUserRequest (buf_at a) (extended rq rest)) /\ kept (Zlen (buf rq)) m m'.
Proof using Ha.
  intros Hr Hrq Hp Hl Hb. destruct Ha as [A1 A2 A3 A4 A5 A6]. unfold pass_request.
  assert (Hib : inside (buf_at a) (Zlen (buf rq))) by (unfold inside, Zlen; lia).
  destruct (store_user_ok m (buf_at a) (buf rq) Hr Hib Hb) as (m1 & -> & Hr1 & Hf1 & Hu1). rewrite bind_ret.
  pose proof (length_encode_request (buf_at a) rq Hrq) as Hle.
  assert (Hir : inside (req_at a) (Zlen (encode_request (buf_at a) rq))) by (unfold inside, Zlen; rewrite Hle; lia).
  destruct (store_user_ok m1 (req_at a) _ Hr1 Hir (encode_request_ok (buf_at a) rq Hrq)) as (m2 & -> & Hr2 & Hf2 & Hu2).
  destruct (inside_top _ _ Hib) as [Hb0 Hbt]. destruct (inside_top _ _ Hir) as [Hr0 Hrt].
  set (rest := bytes_from (view m2) (buf_at a + Z.of_nat (length (buf rq))) (BUFFER_WINDOW - length (buf rq))).
  assert (Hwin : bytes_from (view m2) (buf_at a) BUFFER_WINDOW = buf rq ++ rest).
  { replace BUFFER_WINDOW with (length (buf rq) + (BUFFER_WINDOW - length (buf rq)))%nat at 1 by lia. rewrite bytes_from_app. fold rest. f_equal.
    rewrite (updated_outside top _ _ _ _ (buf_at a) (length (buf rq)) Hu2) by (unfold Zlen in *; rewrite ?Hle; lia).
    by apply (updated_inside top (view m) (view m1)). }
  exists m2, rest. split; [done|]. split; [exact Hr2|]. split; [by rewrite Hf2|]. split; [by apply view_ok|].
  split; [by rewrite <- Hwin, length_bytes_from|]. split; [exact Hwin|]. split.
  2: { apply (kept_trans _ m m1 m2).
       - apply (updated_kept _ m m1 _ _ Hu1). intros x Hx. exact (or_intror (or_intror Hx)).
       - apply (updated_kept _ m1 m2 _ _ Hu2). intros x Hx. left. unfold Zlen in Hx. rewrite Hle in Hx. exact Hx. }
  unfold fetch_request, load_request. rewrite seen_ok by (exact Hr2 || (unfold inside; lia)).
  pose proof (updated_inside top _ _ _ _ Hu2 Hr0 Hrt) as Henc. rewrite Hle in Henc. rewrite Henc, decide_True, bind_ret by exact Hle.
  rewrite (proj1 Hr2), bind_ret. rewrite decode_encode_request by first [exact Hrq|unfold in_map, is_word in *; unfold KERNEL_VIRTUAL_ADDRESS_BASE in *; lia].
  cbn [req_addr request]. rewrite user_window_ok by (unfold inside; lia). by rewrite Hwin.
Qed.
Lemma ready_files m f : ready m -> ready (set_files m f).
Proof using Type. exact (fun H => H). Qed.

Lemma ret_inside : inside (ret_at a) 1.
Proof using Ha. destruct Ha. unfold inside. lia. Qed.

(** ** System calls 0 to 3 *)

Lemma buffer_call_ok n op (P : fs D -> Prop) code out m rq :
  (forall m b c, syscall list_addr kernel_addr polls rounds m n b c 0 = fill_call list_addr kernel_addr op m (call_frame n b c 0)) ->
  ready m -> request_ok rq -> in_map (parent_cluster_number rq) -> (length (buf rq) ≤ BUFFER_WINDOW)%nat -> bytes_ok (buf rq) ->
  length out = length (buf rq) -> bytes_ok out -> s8 (u8 code) = code ->
  (forall rest, exists s', op (files (kern m)) (extended rq rest) = Ret (code, out ++ rest, s') /\ P s') ->
  exists m', buffer_call list_addr kernel_addr polls rounds a n m rq = Ret (code, out, m') /\ ready m' /\ P (files (kern m')) /\
    kept (Zlen (buf rq)) m m'.
Proof using Ha.
  intros Hsys Hr Hrq Hp Hl Hb Hlo Hbo Hcode Hop. unfold buffer_call, request_call.
  destruct (request_passed m rq Hr Hrq Hp Hl Hb) as (m1 & rest & -> & Hr1 & Hf1 & Hrest & Hlen & Hwin & Hfetch & Hk1). rewrite !bind_ret, Hsys.
  destruct (Hop rest) as (s' & Hs & HP). unfold fill_call. cbn [call_frame frame_cpu ebx ecx]. rewrite Hfetch, bind_ret.
  cbn [request req_addr]. rewrite Hf1, Hs. cbn [driver_call].
  assert (Hlen' : length (out ++ rest) = BUFFER_WINDOW) by (rewrite <- Hlen, !length_app; lia).
  assert (Hin : inside (buf_at a) (Zlen (out ++ rest))) by (destruct Ha; unfold inside, Zlen; lia).
  destruct (store_user_ok (set_files m1 s') (buf_at a) (out ++ rest) (ready_files _ _ Hr1) Hin) as (m2 & Hst & Hr2 & Hf2 & Hu2);
    [exact (proj2 (Forall_app _ _ _) (conj Hbo Hrest))|].
  unfold store_user in Hst. rewrite Hst, bind_ret.
  destruct (put_user_ok m2 (ret_at a) code Hr2 ret_inside) as (m3 & -> & Hr3 & Hf3 & Hu3).
  rewrite !bind_ret, (result_after m2 m3 code Hr3 Hu3), !bind_ret, Hcode.
  assert (Hlb : inside (buf_at a) (Z.of_nat (length (buf rq)))) by (destruct Ha; unfold inside; lia).
  rewrite load_user_ok by done. rewrite bind_ret. exists m3. split; [|split; [exact Hr3|split; [by rewrite Hf3, Hf2|]]].
  2: { apply (kept_trans _ m m1 m3 Hk1), (kept_trans _ m1 m2 m3).
       - apply (window_kept _ (set_files m1 s') m2 out rest (buf rq) Hu2); [rewrite Hlen; exact Hwin|exact Hlo|unfold Zlen; lia].
       - apply (updated_kept _ m2 m3 _ _ Hu3). unfold Zlen. cbn [length]. intros x Hx. right. left. lia. }
  destruct (inside_top _ _ Hlb) as [Hb0 Hbt]. destruct (inside_top _ _ Hin) as [_ Hint]. repeat f_equal.
  rewrite (updated_outside top _ _ _ _ (buf_at a) _ Hu3) by (first [exact Hb0|exact Hbt|destruct Ha; unfold Zlen; cbn [length]; lia]).
  pose proof (updated_inside top _ _ _ _ Hu2 Hb0 Hint) as Hw. rewrite length_app, bytes_from_app in Hw.
  apply app_inj_1 in Hw as [Hw _]; [|by rewrite length_bytes_from]. by rewrite <- Hlo.
Qed.

Lemma request_call_ok n op (P : fs D -> Prop) code m rq :
  (forall m b c, syscall list_addr kernel_addr polls rounds m n b c 0 = store_call list_addr kernel_addr op m (call_frame n b c 0)) ->
  ready m -> request_ok rq -> in_map (parent_cluster_number rq) -> (length (buf rq) ≤ BUFFER_WINDOW)%nat -> bytes_ok (buf rq) ->
  s8 (u8 code) = code ->
  (forall rest, bytes_ok rest -> exists s', op (files (kern m)) (extended rq rest) = Ret (code, s') /\ P s') ->
  exists m', request_call list_addr kernel_addr polls rounds a n m rq = Ret (code, m') /\ ready m' /\ P (files (kern m')) /\
    kept (Zlen (buf rq)) m m'.
Proof using Ha.
  intros Hsys Hr Hrq Hp Hl Hb Hcode Hop. unfold request_call.
  destruct (request_passed m rq Hr Hrq Hp Hl Hb) as (m1 & rest & -> & Hr1 & Hf1 & Hrest & _ & _ & Hfetch & Hk1). rewrite !bind_ret, Hsys.
  destruct (Hop rest Hrest) as (s' & Hs & HP). unfold store_call. cbn [call_frame frame_cpu ebx ecx]. rewrite Hfetch, bind_ret.
  cbn [request]. rewrite Hf1, Hs. cbn [driver_call].
  destruct (put_user_ok (set_files m1 s') (ret_at a) code (ready_files _ _ Hr1) ret_inside) as (m3 & -> & Hr3 & Hf3 & Hu3).
  rewrite bind_ret, (result_after _ m3 code Hr3 Hu3), bind_ret, Hcode. exists m3. split; [done|]. split; [exact Hr3|]. split; [by rewrite Hf3|].
  apply (kept_trans _ m m1 m3 Hk1), (updated_kept _ (set_files m1 s') m3 _ _ Hu3). unfold Zlen. cbn [length]. intros x Hx. right. left. lia.
Qed.
(** ** The screen and single clusters *)

Lemma putchar_bus (s : console D) c color : same_disk (ports s) (ports (putchar s c color)).
Proof using All.
  unfold putchar. set (s1 := framebuffer_write _ _ _ 0 0xF 0). etrans; [|apply cursor_bus].
  assert (H : ports s1 = ports s) by (unfold s1; destruct (c =? 10); [done|]; by destruct (negb (c =? 0))). by rewrite H.
Qed.

Lemma puts_bus (s : console D) str color : exists s', puts s str (Zlen str) color = Ret s' /\ same_disk (ports s) (ports s').
Proof using All.
  unfold puts. destruct (for_up_inv (fun _ s' => same_disk (ports s) (ports s')) (fun i s => c ← arr_get str i; Ret (putchar s c color)) (Z.to_nat (Zlen str)) 0 s)
    as (s' & Hs & H); [done| |by exists s'].
  intros j s1 Hj H1. destruct (arr_get_is str j) as (c & -> & _); [unfold Zlen in *; lia|]. rewrite bind_ret. eexists. split; [done|].
  etrans; [exact H1|apply putchar_bus].
Qed.

Lemma repr_screen m s v drv : repr (files (kern m)) v drv -> same_disk (ports (screen m)) (ports s) -> repr (files (kern (set_screen m s))) v drv.
Proof using Type. intros H Hs. by apply (repr_bus (files (kern m))). Qed.

Lemma puts_call m str color v drv : ready m -> repr (files (kern m)) v drv -> (length str ≤ BUFFER_WINDOW)%nat ->
  exists m', (m ← store_user list_addr kernel_addr m (buf_at a) (u8 <$> str);
     syscall list_addr kernel_addr polls rounds m 6 (buf_at a) (Zlen str) color) = Ret m' /\ ready m' /\ repr (files (kern m')) v drv.
Proof using All.
  intros Hr Hv Hl. assert (Hlen : Zlen (u8 <$> str) = Zlen str) by (unfold Zlen; by rewrite length_fmap).
  assert (Hin : inside (buf_at a) (Zlen (u8 <$> str))) by (rewrite Hlen; destruct Ha; unfold inside, Zlen; lia).
  destruct (store_user_ok m (buf_at a) (u8 <$> str) Hr Hin) as (m1 & -> & Hr1 & Hf1 & Hu1).
  { apply Forall_fmap, Forall_true. intros x. apply wrap_word. lia. }
  destruct (inside_top _ _ Hin) as [Hlo Hhi].
  assert (Hw : seen list_addr kernel_addr (Z.to_nat (Zlen str)) m1 (buf_at a) = u8 <$> str).
  { rewrite seen_ok by (exact Hr1 || (rewrite <- Hlen; unfold inside in *; unfold Zlen in *; lia)). rewrite <- (updated_inside top _ _ _ _ Hu1 Hlo Hhi). f_equal.
    unfold Zlen. by rewrite length_fmap, Nat2Z.id. }
  destruct (puts_bus (screen m1) (u8 <$> str) color) as (s & Hs & Hbus). rewrite Hlen in Hs. rewrite bind_ret.
  exists (set_screen m1 s). split; [|split; [exact Hr1|apply repr_screen; [by rewrite Hf1|exact Hbus]]].
  apply syscall_of. unfold interrupt. cbn [frame_cpu call_frame eax ebx ecx edx Z.eqb Pos.eqb]. cbv iota. by rewrite Hw, Hs.
Qed.

Lemma read_cluster_call m c v drv : ready m -> repr (files (kern m)) v drv -> in_map c ->
  exists m', (m ← syscall list_addr kernel_addr polls rounds m 9 (buf_at a) c 0; b ← load_user list_addr kernel_addr m (buf_at a) (Z.to_nat CLUSTER_SIZE); Ret (b, m)) =
    Ret (vol_get v c, m') /\ ready m' /\ repr (files (kern m')) v drv.
Proof using All.
  intros Hr Hv Hc. destruct (read_clusters_repr (files (kern m)) v drv c Hv Hc) as (f & Hf & Hf').
  destruct (repr_block _ _ _ _ Hv Hc) as [Hl Hb]. pose proof window_size as Hwin.
  assert (Hin : inside (buf_at a) (Zlen (vol_get v c))) by (destruct Ha; unfold inside, Zlen; rewrite Hl; lia).
  destruct (store_user_ok (set_files m f) (buf_at a) (vol_get v c) (ready_files _ _ Hr) Hin Hb) as (m1 & Hs & Hr1 & Hf1 & Hu1).
  destruct (inside_top _ _ Hin) as [Hlo Hhi].
  assert (Hsys : syscall list_addr kernel_addr polls rounds m 9 (buf_at a) c 0 = Ret m1).
  { apply syscall_of. unfold interrupt. cbn [frame_cpu call_frame eax ebx ecx edx Z.eqb Pos.eqb]. cbv iota. rewrite Hf, bind_ret.
    rewrite (proj2 (Z.leb_le _ _)) by exact Hhi. unfold store_user in Hs. by rewrite Hs. }
  rewrite Hsys, bind_ret. change (Z.to_nat CLUSTER_SIZE) with 2048%nat. rewrite <- Hl, load_user_ok by (exact Hr1 || exact Hin). rewrite bind_ret.
  rewrite (updated_inside top _ _ _ _ Hu1 Hlo Hhi). exists m1. split; [done|]. split; [exact Hr1|]. by rewrite Hf1.
Qed.

Lemma write_cluster_call m c bs v drv : ready m -> repr (files (kern m)) v drv -> in_map c -> block_ok bs ->
  exists m', (m ← store_user list_addr kernel_addr m (buf_at a) bs; syscall list_addr kernel_addr polls rounds m 10 (buf_at a) c 0) = Ret m' /\
    ready m' /\ repr (files (kern m')) (<[Z.to_nat c := bs]> v) drv.
Proof using All.
  intros Hr Hv Hc Hbs. pose proof Hbs as [Hl Hb]. pose proof window_size as Hwin.
  assert (Hin : inside (buf_at a) (Zlen bs)) by (destruct Ha; unfold inside, Zlen; rewrite Hl; lia).
  destruct (store_user_ok m (buf_at a) bs Hr Hin Hb) as (m1 & -> & Hr1 & Hf1 & Hu1). rewrite bind_ret. destruct (inside_top _ _ Hin) as [Hlo Hhi].
  rewrite <- Hf1 in Hv. destruct (write_block_repr (files (kern m1)) v drv bs c Hv Hc Hbs) as (f & Hf & Hf'). exists (set_files m1 f). split; [|split; [by apply ready_files|exact Hf']].
  apply syscall_of. unfold interrupt. cbn [frame_cpu call_frame eax ebx ecx edx Z.eqb Pos.eqb]. cbv iota.
  change (Z.to_nat CLUSTER_SIZE) with 2048%nat. rewrite <- Hl, seen_ok by (exact Hr1 || exact Hin). rewrite (updated_inside top _ _ _ _ Hu1 Hlo Hhi), Hf. reflexivity.
Qed.

(** ** The calls together *)

Lemma window_room (b : list Z) : Zlen b ≤ BUFFER_LIMIT -> (length b ≤ BUFFER_WINDOW)%nat.
Proof using Type. pose proof window_size as Hw. intros H. change BUFFER_LIMIT with 131072 in H. unfold Zlen in H. lia. Qed.

Lemma small_code code : -1 ≤ code ≤ 2 -> s8 (u8 code) = code.
Proof using Type. intros H. assert (code = -1 \/ code = 0 \/ code = 1 \/ code = 2) as [->|[->|[->| ->]]] by lia; reflexivity. Qed.

Lemma write_code v drv rq : -1 ≤ (spec_write v drv rq).1 ≤ 2.
Proof using Type. unfold spec_write. repeat (case_match; try (cbn [fst]; lia)). Qed.

Lemma delete_code v drv rq : -1 ≤ (spec_delete v drv rq).1 ≤ 2.
Proof using Type. unfold spec_delete. repeat (case_match; try (cbn [fst]; lia)). Qed.

Definition user_sees m v drv : Prop := ready m /\ repr (files (kern m)) v drv.

#[local] Instance calls : SysCalls (machine D) := user_calls list_addr kernel_addr polls rounds a.

Lemma user_blocks m v drv : user_sees m v drv -> forall c, in_map c -> block_ok (vol_get v c).
Proof using Type. intros [_ Hv] c Hc. by eapply repr_block. Qed.

Lemma user_read m v drv rq : user_sees m v drv -> request_ok rq -> in_map (parent_cluster_number rq) -> Zlen (buf rq) ≤ BUFFER_LIMIT -> bytes_ok (buf rq) ->
  read_backed v (fat_table drv) rq -> exists m', sys_read m rq = Ret (spec_read v (fat_table drv) rq, m') /\ user_sees m' v drv /\ kept (Zlen (buf rq)) m m'.
Proof using All.
  intros Hm Hrq Hp Hl Hb Hback. pose proof (user_blocks _ _ _ Hm) as Hblk. destruct Hm as [Hr Hv].
  destruct (spec_read_extended v (fat_table drv) rq [] Hblk Hback Hb) as (_ & Hlo & Hbo & Hc).
  destruct (buffer_call_ok 0 Fat32.read (fun f => repr f v drv) (spec_read v (fat_table drv) rq).1 (spec_read v (fat_table drv) rq).2 m rq)
    as (m' & Hcall & Hr' & Hv' & Hkept).
  { intros. by apply syscall_of. } { exact Hr. } { exact Hrq. } { exact Hp. } { by apply window_room. } { exact Hb. } { exact Hlo. } { exact Hbo. } { by apply small_code. }
  - intros rest. destruct (read_correct (files (kern m)) v drv (extended rq rest) Hv) as (f & Hf & Hread).
    { destruct Hrq. by split. } { exact Hp. }
    { intros e He. destruct (Hback e He) as [H1 H2]. split; [exact H1|]. intros H3 H4. specialize (H2 H3 H4).
      cbn [extended with_buf buf]. rewrite Zlen_app. unfold Zlen in *. lia. }
    exists f. split; [|exact Hf]. rewrite Hread. by rewrite (proj1 (spec_read_extended v (fat_table drv) rq rest Hblk Hback Hb)).
  - exists m'. split; [|by split; [split|]]. change (sys_read m rq) with (buffer_call list_addr kernel_addr polls rounds a 0 m rq). rewrite Hcall.
    by rewrite <- surjective_pairing.
Qed.

Lemma user_read_directory m v drv rq : user_sees m v drv -> request_ok rq -> in_map (parent_cluster_number rq) -> buffer_size rq ≤ Zlen (buf rq) ->
  Zlen (buf rq) ≤ BUFFER_LIMIT -> bytes_ok (buf rq) ->
  (forall e, lookup_first (has_name (req_name rq)) (drop 2 (table_at v (parent_cluster_number rq))) = Some e ->
     attribute e = ATTR_SUBDIRECTORY -> in_map (entry_cluster e)) ->
  exists m', sys_read_directory m rq = Ret (spec_read_directory v rq, m') /\ user_sees m' v drv /\ kept (Zlen (buf rq)) m m'.
Proof using All.
  intros Hm Hrq Hp Hsz Hl Hb Hback. pose proof (user_blocks _ _ _ Hm) as Hblk. destruct Hm as [Hr Hv].
  destruct (spec_read_directory_extended v rq [] Hblk Hsz Hb Hback) as (_ & Hlo & Hbo & Hc).
  destruct (buffer_call_ok 1 Fat32.read_directory (fun f => repr f v drv) (spec_read_directory v rq).1 (spec_read_directory v rq).2 m rq)
    as (m' & Hcall & Hr' & Hv' & Hkept).
  { intros. by apply syscall_of. } { exact Hr. } { exact Hrq. } { exact Hp. } { by apply window_room. } { exact Hb. } { exact Hlo. } { exact Hbo. } { by apply small_code. }
  - intros rest. destruct (read_directory_correct (files (kern m)) v drv (extended rq rest) Hv) as (f & Hf & Hread).
    { destruct Hrq. by split. } { exact Hp. }
    { cbn [extended with_buf buf buffer_size]. rewrite Zlen_app. unfold Zlen in *. lia. } { exact Hback. }
    exists f. split; [|exact Hf]. rewrite Hread. by rewrite (proj1 (spec_read_directory_extended v rq rest Hblk Hsz Hb Hback)).
  - exists m'. split; [|by split; [split|]]. change (sys_read_directory m rq) with (buffer_call list_addr kernel_addr polls rounds a 1 m rq). rewrite Hcall.
    by rewrite <- surjective_pairing.
Qed.

Lemma user_write m v drv rq : user_sees m v drv -> mounted drv -> write_args_ok drv rq -> overruns_literal v drv rq = false -> Zlen (buf rq) ≤ BUFFER_LIMIT ->
  exists m', sys_write m rq = Ret ((spec_write v drv rq).1, m') /\ user_sees m' (spec_write v drv rq).2.1 (spec_write v drv rq).2.2 /\ kept (Zlen (buf rq)) m m'.
Proof using All.
  intros [Hr Hv] Hmo Hargs Hlit Hl. pose proof Hargs as [Hrq Hp Hbuf Hb Hcount].
  destruct (request_call_ok 2 Fat32.write (fun f => repr f (spec_write v drv rq).2.1 (spec_write v drv rq).2.2) (spec_write v drv rq).1 m rq)
    as (m' & Hcall & Hr' & Hv' & Hkept).
  { intros. by apply syscall_of. } { exact Hr. } { exact Hrq. } { exact Hp. } { by apply window_room. } { exact Hb. } { apply small_code, write_code. }
  - intros rest Hrest. rewrite <- (spec_write_extended v drv rq rest Hargs). apply write_correct; [exact Hv|exact Hmo|by apply write_args_extended|].
    unfold overruns_literal. by rewrite (spec_write_extended v drv rq rest Hargs).
  - exists m'. split; [exact Hcall|]. by split; [split|].
Qed.

(** A folder outside the root stops the call, and with it the caller. *)
Lemma user_write_overrun m v drv rq : user_sees m v drv -> mounted drv -> write_args_ok drv rq -> overruns_literal v drv rq = true ->
  Zlen (buf rq) ≤ BUFFER_LIMIT -> sys_write m rq = Ub.
Proof using All.
  intros [Hr Hv] Hmo Hargs Hlit Hl. pose proof Hargs as [Hrq Hp Hbuf Hb Hcount].
  change (request_call list_addr kernel_addr polls rounds a 2 m rq = Ub). unfold request_call.
  destruct (request_passed m rq Hr Hrq Hp (window_room _ Hl) Hb) as (m1 & rest & -> & Hr1 & Hf1 & Hrest & Hlen & _ & Hfetch & _). rewrite bind_ret.
  rewrite (syscall_of m1 2 (req_at a) (ret_at a) 0 (store_call list_addr kernel_addr Fat32.write m1 (call_frame 2 (req_at a) (ret_at a) 0))) by reflexivity.
  unfold store_call. cbn [call_frame frame_cpu ebx ecx]. rewrite Hfetch, bind_ret. cbn [request].
  rewrite <- Hf1 in Hv. pose proof (write_outcome (files (kern m1)) v drv (extended rq rest) Hv Hmo (write_args_extended _ _ _ Hargs Hrest)) as Hw.
  replace (overruns_literal v drv (extended rq rest)) with true in Hw.
  2: { unfold overruns_literal. by rewrite (spec_write_extended v drv rq rest Hargs). }
  rewrite Hw. cbn [driver_call]. unfold reaches_kernel. cbn [req_addr].
  by rewrite (proj2 (Z.ltb_ge _ _)) by exact (ar_end _ _ Ha).
Qed.

Lemma user_delete m v drv rq : user_sees m v drv -> mounted drv -> request_ok rq -> in_map (parent_cluster_number rq) -> Zlen (buf rq) ≤ BUFFER_LIMIT ->
  bytes_ok (buf rq) ->
  (forall e, lookup_first (matches (req_name rq) (req_ext rq)) (table_at v (parent_cluster_number rq)) = Some e -> entry_backed (fat_table drv) e) ->
  exists m', sys_delete m rq = Ret ((spec_delete v drv rq).1, m') /\ user_sees m' (spec_delete v drv rq).2.1 (spec_delete v drv rq).2.2 /\ kept (Zlen (buf rq)) m m'.
Proof using All.
  intros [Hr Hv] Hmo Hrq Hp Hl Hb Hback.
  destruct (request_call_ok 3 Fat32.Delete (fun f => repr f (spec_delete v drv rq).2.1 (spec_delete v drv rq).2.2) (spec_delete v drv rq).1 m rq)
    as (m' & Hcall & Hr' & Hv' & Hkept).
  { intros. by apply syscall_of. } { exact Hr. } { exact Hrq. } { exact Hp. } { by apply window_room. } { exact Hb. } { apply small_code, delete_code. }
  - intros rest _. apply (Delete_correct (files (kern m)) v drv (extended rq rest) Hv Hmo); [|exact Hp|exact Hback]. destruct Hrq. by split.
  - exists m'. split; [exact Hcall|]. by split; [split|].
Qed.

(** The kernel serves the process's file calls. *)
#[local, program] Instance user_files : FileServer (machine D) := { sees := user_sees }.
Next Obligation. intros m v drv [_ Hv]. by eapply repr_length. Qed.
Next Obligation. intros m v drv c Hm. by eapply user_blocks. Qed.
Next Obligation. intros m v drv str color [Hr Hv] Hl. by apply puts_call, window_room. Qed.
Next Obligation. intros m v drv c [Hr Hv] Hc. by apply read_cluster_call. Qed.
Next Obligation.
  intros m v drv rq Hm Hrq Hp Hsz Hl Hb Hback. destruct (user_read_directory m v drv rq Hm Hrq Hp Hsz Hl Hb Hback) as (m' & H & Hm' & _). by exists m'.
Qed.
Next Obligation. intros m v drv rq Hm Hmo Hargs Hlit Hl. destruct (user_write m v drv rq Hm Hmo Hargs Hlit Hl) as (m' & H & Hm' & _). by exists m'. Qed.
Next Obligation. intros m v drv rq Hm Hmo Hargs Hlit Hl. exact (user_write_overrun m v drv rq Hm Hmo Hargs Hlit Hl). Qed.
Next Obligation. intros m v drv rq Hm Hrq Hp Hl Hb Hback. destruct (user_read m v drv rq Hm Hrq Hp Hl Hb Hback) as (m' & H & Hm' & _). by exists m'. Qed.
Next Obligation. intros m v drv rq Hm Hmo Hrq Hp Hl Hb Hback. destruct (user_delete m v drv rq Hm Hmo Hrq Hp Hl Hb Hback) as (m' & H & Hm' & _). by exists m'. Qed.

#[local, program] Instance user_clusters : ClusterServer (machine D).
Next Obligation. intros m v drv c bs [Hr Hv] Hc Hb. destruct (write_cluster_call m c bs v drv Hr Hv Hc Hb) as (m' & H & Hr' & Hv'). exists m'. split; [exact H|by split]. Qed.
End files.

(** ** A file call of a process, from its memory to the map of the disk *)

Section calls.
Context {D : Type} `{!BlockDevice D, !BlockDeviceSpec D, !PortIO D, !KernelHalf D, !SharedBus D}.
Context (list_addr kernel_addr : Z) (polls rounds : nat) (a : call_area) (dir : PageDirectory).
Implicit Types (m : machine D) (v : volume) (drv : driver).

(** The code, the buffer and the machine after a call through interrupt 0x30. *)
Definition user_call m (c : disk_call) : res (Z * list Z * machine D) :=
  match c with
  | Write rq => '(code, m) ← request_call list_addr kernel_addr polls rounds a 2 m rq; Ret (code, buf rq, m)
  | Remove rq => '(code, m) ← request_call list_addr kernel_addr polls rounds a 3 m rq; Ret (code, buf rq, m)
  | Read rq => buffer_call list_addr kernel_addr polls rounds a 0 m rq
  end.

(** C6: A file call a process makes through interrupt 0x30, as [callable] says it
    may be made, is a step of the map of its disk: the parent is a folder of
    the disk, the name is not blank and neither of the folder's first two
    entries has it, the buffer has room for the clusters of its size, a new
    folder is not made outside the root, and request, result and buffer are in
    memory the process has to itself.  Then the request and the buffer it stores in its memory arrive in
    the driver, the code and the buffer that come back are those of the step,
    the disk of the machine holds the map after it, and in the memory of the
    process nothing but the request, the result and the buffer has
    changed. *)
Theorem call_through_interrupt m v drv d c :
  area_ok dir a -> user_sees list_addr kernel_addr dir m v drv -> disk_shows v drv d -> callable v drv c ->
  Zlen (buf (request_of c)) ≤ BUFFER_LIMIT -> bytes_ok (buf (request_of c)) ->
  exists code out m' v' drv' d', user_call m c = Ret (code, out, m') /\ user_sees list_addr kernel_addr dir m' v' drv' /\
    disk_shows v' drv' d' /\ disk_step d c code out d' /\ kept a dir (Zlen (buf (request_of c))) m m'.
Proof using All.
  intros Ha Hm Hd Hc Hl Hb. pose proof (repr_length _ _ _ (proj2 Hm)) as Hlen.
  pose proof (user_blocks list_addr kernel_addr dir m v drv Hm) as Hblk.
  destruct (spec_call_step v drv d c Hlen Hblk Hd Hc) as (d' & Hsh & Hst). pose proof (callable_parent v drv d c Hd Hc) as Hpm.
  pose proof (callable_backed v drv d c Hlen Hblk Hd Hc) as Hback. destruct Hc as [Hrq _ _ _ _ Hcw].
  assert (Hrun : exists m', user_call m c = Ret ((spec_call v drv c).1, m') /\
    user_sees list_addr kernel_addr dir m' (spec_call v drv c).2.1 (spec_call v drv c).2.2 /\ kept a dir (Zlen (buf (request_of c))) m m').
  { destruct c as [rq|rq|rq]; cbn [request_of spec_call user_call fst snd] in *.
    - destruct (user_write list_addr kernel_addr polls rounds a dir Ha m v drv rq Hm (sh_mounted _ _ _ Hd) (proj1 Hcw) (proj1 (proj2 Hcw)) Hl) as (m' & Hw & Hs' & Hk).
      exists m'. change (sys_write m rq) with (request_call list_addr kernel_addr polls rounds a 2 m rq) in Hw. rewrite Hw. exact (conj eq_refl (conj Hs' Hk)).
    - destruct (user_delete list_addr kernel_addr polls rounds a dir Ha m v drv rq Hm (sh_mounted _ _ _ Hd) Hrq Hpm Hl Hb) as (m' & Hw & Hs' & Hk);
        [intros e He; exact (proj1 (Hback e He))|].
      exists m'. change (sys_delete m rq) with (request_call list_addr kernel_addr polls rounds a 3 m rq) in Hw. rewrite Hw. exact (conj eq_refl (conj Hs' Hk)).
    - destruct (user_read list_addr kernel_addr polls rounds a dir Ha m v drv rq Hm Hrq Hpm Hl Hb Hback) as (m' & Hw & Hs' & Hk).
      exists m'. exact (conj Hw (conj Hs' Hk)). }
  destruct Hrun as (m' & Hrun & Hs' & Hk). exists (spec_call v drv c).1.1, (spec_call v drv c).1.2, m', (spec_call v drv c).2.1, (spec_call v drv c).2.2, d'.
  rewrite <- surjective_pairing. exact (conj Hrun (conj Hs' (conj Hsh (conj Hst Hk)))).
Qed.
End calls.
