(* ===== verification/ShellCd.v ===== *)
(** * [cd]

    The shell between two commands stands in a folder of the tree ([settled]);
    [cd] moves it where [follow] leads. *)
From S2P Require Import Prelude CString BlockDevice FatLayout Fat32 FatFacts FatChain FatLoops FatSpec FatMount.
From S2P Require Import ShellBase Shell ShellPath ShellFacts ShellLine ShellSplit DirTree ShellWalk.

Section cd.
Context {K : Type} `{!SysCalls K, !FileServer K}.
Context (v : volume) (m : driver).
Implicit Types (s : shell K).

Record settled s (ns : list (list Z)) : Prop := MkSettled {
  st_sees : sees (sys s) v m;
  st_path : current_path s = padded 512 (render ns);
  st_table : current_dir_table s = table_at v (current_directory s);
  st_located : located v ns (current_directory s);
  st_room : (length (joined ns) ≤ 510)%nat;
  st_after : 512 * 511 ≤ Zlen (after_path s)
}.

(** [char path_temp[512][512]], copied from [current_path] and what follows. *)
Lemma saved_path (p a : list Z) : length p = 512%nat -> 512 * 511 ≤ Zlen a ->
  length (take (512 * 512) (p ++ a)) = (512 * 512)%nat /\ take 512 (take (512 * 512) (p ++ a)) = p /\
  drop 512 (take (512 * 512) (p ++ a)) ++ drop (512 * 511) a = a.
Proof using Type.
  intros Hp Ha'. assert (Ha : (512 * 511 ≤ length a)%nat) by (unfold Zlen in Ha'; lia). clear Ha'. set (n := (512 * 511)%nat) in *. assert (H : (512 * 512 = 512 + n)%nat) by (unfold n; lia). rewrite H. clearbody n.
  rewrite take_app, Hp, Nat.add_comm, Nat.add_sub, (take_ge p) by lia. split; [rewrite length_app, length_take; lia|].
  rewrite <- Hp at 1 2. rewrite take_app_length, drop_app_length. split; [done|]. apply take_drop.
Qed.

Lemma settled_sys s ns k : settled s ns -> sees k v m -> settled (set_sys s k) ns.
Proof using Type. intros [H1 H2 H3 H4 H5 H6] Hk. by split. Qed.

Context (Htree : tree_ok v (fat_table m)).

(** [change_path] goes where the names lead and keeps the directory, its table
    and its printed path in step; when a name is refused, everything is as
    before; [..] in the root does not return. *)
Lemma change_path_spec s ns ws extra : settled s ns -> Forall typed_name (ws ++ extra) -> (length (joined ns) + 9 * length ws ≤ 510)%nat ->
  match follow v ws (current_directory s) ns with
  | Arrived c' ns' => exists s', change_path s (rows (ws ++ extra)) (Zlen ws) = Ret (0, s') /\ settled s' ns' /\ current_directory s' = c'
  | Refused err => exists s', change_path s (rows (ws ++ extra)) (Zlen ws) = Ret (err, s') /\ err ≠ 0 /\ settled s' ns /\
      current_directory s' = current_directory s
  | Stuck => change_path s (rows (ws ++ extra)) (Zlen ws) = Hang
  end.
Proof using Htree.
  intros Hset Hws Hroom. destruct (decide (ws = [])) as [->|Hne]; [by exists s|]. destruct Hset as [Hs Hp Ht Hl Hr Ha]. unfold change_path.
  rewrite (proj2 (Z.eqb_neq _ _)) by (destruct ws; [done|unfold Zlen; simpl; lia]).
  assert (Hpl : length (current_path s) = 512%nat).
  { rewrite Hp. apply length_padded. pose proof (render_bound ns). lia. }
  destruct (saved_path _ _ Hpl Ha) as (Hlen & Htake & Hdrop).
  set (saved := take (512 * 512) (current_path s ++ after_path s)) in *. rewrite decide_True by exact Hlen.
  pose proof (change_loop_follows v m Htree ws extra Hws true ws [] (S (Z.to_nat (Zlen ws))) (set_temp_table s (current_dir_table s)) ns
    (current_directory s) eq_refl) as H. unfold walk_result in H. change (Zlen []) with 0 in H.
  assert (Hap : at_place v m (set_temp_table s (current_dir_table s)) ns (current_directory s)) by by split.
  specialize (H Hap Hroom ltac:(unfold Zlen; lia)). clearbody saved.
  pose proof (follow_room v _ Htree ws _ _ Hl) as Hfr.
  destruct (follow v ws (current_directory s) ns) as [c' ns'|err|].
  - destruct H as (s' & -> & [Hs' Hp' Ht' Hl'] & Hc & Haf & Htb). rewrite bind_ret. cbn [Z.eqb]. eexists. split; [done|]. split; [|done].
    split; [done..| |]; [lia|]. cbn [after_path set_directory set_table]. rewrite Haf. exact Ha.
  - destruct H as (c' & s' & -> & Hs' & (Hc & Haf & Htb) & Herr). rewrite bind_ret, (proj2 (Z.eqb_neq _ _)) by done.
    eexists. split; [done|]. split; [done|]. cbn in Hc, Haf, Htb. rewrite Haf, Hdrop, Htake. split; [|exact Hc]. by split; cbn; rewrite ?Hc, ?Htb.
  - by rewrite H.
Qed.

Lemma to_root_spec s ns : settled s ns ->
  exists s', to_root s = Ret s' /\ settled s' [] /\ current_directory s' = ROOT_CLUSTER_NUMBER.
Proof using Type.
  intros [Hs Hp Ht Hl Hroom Ha]. unfold to_root, update_directory_table.
  destruct (read_cluster_sees _ _ _ ROOT_CLUSTER_NUMBER Hs) as (k & -> & Hk); [done|].
  rewrite !bind_ret. assert (Hpl : length (current_path s) = 512%nat).
  { rewrite Hp. apply length_padded. pose proof (render_bound ns). lia. }
  cbn [current_path set_directory set_table set_sys]. rewrite CString.memset_eq, bind_ret by lia.
  rewrite drop_ge, app_nil_r by lia. change (u8 0) with 0. rewrite <- padded_nil.
  pose proof (padded_snoc 512 [] 47) as Hset. change (Zlen []) with 0 in Hset. rewrite Hset, bind_ret by (simpl; lia).
  eexists. split; [done|]. split; [|done]. split; [done|done|done|constructor|simpl; lia|exact Ha].
Qed.

(** Where a path starts. *)
Lemma start_spec s ns w : settled s ns -> exists s0, (if is_absolute w then to_root s else Ret s) = Ret s0 /\
  settled s0 (if is_absolute w then [] else ns) /\ current_directory s0 = (if is_absolute w then ROOT_CLUSTER_NUMBER else current_directory s).
Proof using Type. intros Hs. destruct (is_absolute w); [exact (to_root_spec s ns Hs)|by exists s]. Qed.

Lemma cd_spec s ns w :
  settled s ns -> no_nul w -> bytes_ok w -> (length w < 512)%nat ->
  (length (joined ns) + 9 * length (path_names w) ≤ 510)%nat ->
  let c0 := if is_absolute w then ROOT_CLUSTER_NUMBER else current_directory s in
  let ns0 := if is_absolute w then [] else ns in
  match follow v (path_names w) c0 ns0 with
  | Arrived c' ns' => exists s', cd s (padded 512 w) 1 = Ret s' /\ settled s' ns' /\ current_directory s' = c'
  | Refused _ => exists s', cd s (padded 512 w) 1 = Ret s' /\ settled s' ns0 /\ current_directory s' = c0
  | Stuck => cd s (padded 512 w) 1 = Hang
  end.
Proof using Htree.
  intros Hs Hw Hb Hl Hroom c0 ns0.
  destruct (start_spec s ns w Hs) as (s0 & Hs0 & Hset & Hc0). fold c0 ns0 in Hset, Hc0. unfold cd. cbn [Z.eqb Pos.eqb].
  assert (Hroom0 : (length (joined ns0) + 9 * length (path_names w) ≤ 510)%nat) by (unfold ns0; destruct (is_absolute w); simpl; lia).
  rewrite parse_path_spec, Hs0, !bind_ret by (done || lia).
  assert (Hnames : Forall typed_name (path_names w)) by by apply path_names_typed.
  pose proof (change_path_spec s0 ns0 (path_names w) []) as H. rewrite app_nil_r in H. specialize (H Hset Hnames Hroom0). rewrite Hc0 in H.
  destruct (follow _ _ _ _) as [c' ns'|err|].
  - destruct H as (s' & -> & ? & ?). rewrite bind_ret. by exists s'.
  - destruct H as (s' & -> & ? & ? & ?). rewrite bind_ret. by exists s'.
  - by rewrite H.
Qed.
(** C13: [cd path] puts the shell into the folder the path leads to.
    The directory, its table and its printed path agree again afterwards; when
    a name is missing or is a file, the shell stays where it was, or in the
    root when the path was absolute; [..] in the root never returns. *)
Theorem cd_follows s ns w :
  settled s ns -> no_nul w -> bytes_ok w -> (length w < 512)%nat ->
  (length (joined ns) + 9 * length (path_names w) ≤ 510)%nat ->
  let c0 := if is_absolute w then ROOT_CLUSTER_NUMBER else current_directory s in
  let ns0 := if is_absolute w then [] else ns in
  match follow v (path_names w) c0 ns0 with
  | Arrived c' ns' => exists s', cd s (padded 512 w) 1 = Ret s' /\ settled s' ns' /\ current_directory s' = c'
  | Refused _ => exists s', cd s (padded 512 w) 1 = Ret s' /\ settled s' ns0 /\ current_directory s' = c0
  | Stuck => cd s (padded 512 w) 1 = Hang
  end.
Proof using Htree. apply cd_spec. Qed.
End cd.
