(* ===== verification/ShellMkdir.v ===== *)
(** * [mkdir]

    The command walks to the folder the path names, asks the kernel for a new
    folder there and comes back. *)
From S2P Require Import Prelude CString BlockDevice FatLayout Fat32 FatFacts FatChain FatLoops FatSpec FatRefine FatWrite FatMount FatProps FatInvariant.
From S2P Require Import ShellBase Shell ShellPath ShellFiles ShellFacts ShellLine ShellSplit DirTree ShellWalk ShellCd.

Section mkdir.
Context {K : Type} `{!SysCalls K, !FileServer K}.
Implicit Types (s : shell K) (v : volume) (m : driver).

(** ** Back to where the command started *)

Lemma settled_length v m s ns : settled v m s ns -> length (current_path s) = 512%nat.
Proof using Type. intros [_ Hp _ _ Hr _]. rewrite Hp. apply length_padded. pose proof (render_bound ns). lia. Qed.

Lemma cancel_spec v m s ns c : sees (sys s) v m -> located v ns c -> in_map c -> (length (joined ns) ≤ 510)%nat ->
  length (current_path s) = 512%nat -> 512 * 511 ≤ Zlen (after_path s) ->
  exists s', cancel_change_path s c (padded 512 (render ns)) = Ret s' /\ settled v m s' ns /\ current_directory s' = c.
Proof using Type.
  intros Hs Hl Hc Hr Hp Ha. unfold cancel_change_path, update_directory_table. destruct (read_cluster_sees _ _ _ _ Hs Hc) as (k & -> & Hk).
  assert (Hlen : length (padded 512 (render ns)) = 512%nat) by (apply length_padded; pose proof (render_bound ns); lia).
  rewrite !bind_ret, CString.memcpy_eq by lia. rewrite splice_all, bind_ret by (rewrite length_take; lia).
  eexists. split; [done|]. split; [|done]. split; [done| |done|done|done|done]. cbn. by rewrite take_ge by lia.
Qed.

Lemma save_path v m s ns : settled v m s ns -> CString.memcpy (replicate 512 0) (current_path s) 512 = Ret (padded 512 (render ns)).
Proof using Type.
  intros Hs. pose proof (settled_length _ _ _ _ Hs) as Hl. rewrite CString.memcpy_eq by (rewrite ?length_replicate; lia).
  rewrite take_ge by lia. rewrite splice_all by (by rewrite length_replicate). f_equal. apply Hs.
Qed.

(** ** The message of [write_to] *)

Lemma text_table v m s p ns : tree_ok v (fat_table m) -> sees (sys s) v m -> located v ns p -> text (name_at (table_at v p) 0).
Proof using Type.
  intros Ht Hs Hp. pose proof (name_at_limit v m (sys s) p Hs (located_map v _ Ht _ _ Hp)) as Hlim. destruct Hp as [|ns' q e Hl He Ha].
  - split; [clear Hlim|exact Hlim]. destruct (tree_root v _ Ht) as (e0 & H0 & _ & Hx & _). unfold name_at. rewrite Z2Nat.inj_0, Nat.mul_0_r, drop_0.
    destruct (table_at v ROOT_CLUSTER_NUMBER) as [|e0' t]; [done|]. injection H0 as ->.
    rewrite enc_array_cons. change (enc e0) with (encode_entry e0). unfold encode_entry. rewrite Hx. change (replicate 3 0) with [0; 0; 0]. set_solver.
  - by apply (own_name v m Ht (sys s) q e Hs); eapply tree_folder.
Qed.

Section report.
Context v m (ws : list (list Z)) (Hws : Forall typed_name ws) (Hne : ws ≠ []).

Lemma put_parent_printed s s1 : printed v m s s1 -> text (name_at (current_dir_table s1) 0) ->
  exists s', put_parent s1 (rows ws) (Zlen ws) = Ret s' /\ printed v m s s'.
Proof using Hws.
  intros H1 H0. unfold put_parent. destruct (Z.leb_spec 2 (Zlen ws)).
  - eapply put_then; [done|apply text_lit; reflexivity|]. intros s2 H2. apply print_path_printed; [done|done|lia].
  - destruct (put_printed v m s1 (lit "current directory '") LIGHT_RED) as (s2 & -> & k & -> & Hk); [by eapply printed_sees|apply text_lit; reflexivity|]. rewrite bind_ret.
    destruct (put_printed v m (set_sys s1 k) (name_at (current_dir_table (set_sys s1 k)) 0) LIGHT_RED) as (s3 & -> & H3); [done|done|].
    exists s3. split; [done|]. eapply printed_trans, H3. eapply printed_trans; [done|]. by exists k.
Qed.

Lemma report_write_printed s name code (dir : bool) : sees (sys s) v m -> text name -> text (name_at (current_dir_table s) 0) ->
  exists s', report_write s (rows ws) (Zlen ws) code name dir = Ret s' /\ printed v m s s'.
Proof using Hws.
  intros Hs Hn H0. assert (Hp : printed v m s s) by (exists (sys s); by destruct s).
  assert (Hkeep : forall s1, printed v m s s1 -> text (name_at (current_dir_table s1) 0)) by (by intros s1 (k & -> & _)).
  unfold report_write. destruct (code =? -1); [|destruct (code =? 1); [|by exists s]].
  - eapply put_then; [done|apply text_lit; reflexivity|]. intros s1 H1. destruct (put_parent_printed s s1 H1 (Hkeep _ H1)) as (s2 & -> & H2). rewrite bind_ret.
    destruct (put_printed v m s2 (line "' is full") LIGHT_RED) as (s3 & -> & H3); [by eapply printed_sees|apply text_line; reflexivity|].
    exists s3. split; [done|]. by eapply printed_trans.
  - cbn [puts_all].
    assert (Hputs : exists s2, (s ← put s (lit "error: there's already a ") LIGHT_RED; s ← put s (if dir then lit "folder" else lit "file") LIGHT_RED;
       s ← put s (lit " with the name '") LIGHT_RED; s ← put s name LIGHT_RED; s ← put s (lit "' in ") LIGHT_RED; Ret s) = Ret s2 /\ printed v m s s2).
    { eapply put_then; [done|apply text_lit; reflexivity|]. intros s1 H1. eapply put_then; [done|destruct dir; apply text_lit; reflexivity|]. intros s2 H2.
      eapply put_then; [done|apply text_lit; reflexivity|]. intros s3 H3. eapply put_then; [done|done|]. intros s4 H4.
      eapply put_then; [done|apply text_lit; reflexivity|]. intros s5 H5. by exists s5. }
    destruct Hputs as (s2 & -> & H2). rewrite bind_ret.
    destruct (put_parent_printed s s2 H2 (Hkeep _ H2)) as (s3 & -> & H3). rewrite bind_ret.
    destruct (put_printed v m s3 (line "'") LIGHT_RED) as (s4 & -> & H4); [by eapply printed_sees|apply text_line; reflexivity|].
    exists s4. split; [done|]. by eapply printed_trans.
Qed.
End report.

(** ** The call *)

Definition folder_rq (nm : list Z) (p : Z) : FAT32DriverRequest := MkRequest [] (name8 nm) (replicate 3 0) p 0.

Lemma folder_rq_ok m nm p : typed_name nm -> in_map p -> write_args_ok m (folder_rq nm p).
Proof using Type.
  intros Hn Hp. split; [split; [by apply name8_ok|split; [done|by repeat constructor]|by unfold is_word]|done|done|constructor|].
  intros _. cbn. unfold free_clusters. change (number_of_partition 0) with 0. lia.
Qed.

(** What the call leaves: a tree that still has every folder, and the new one
    when the code is 0. *)
Lemma write_folder_tree v m k nm p pns : sees k v m -> mounted m -> tree_ok v (fat_table m) -> located v pns p ->
  typed_name nm -> folder_name (CString.cstr (name8 nm)) ->
  let v' := (spec_write v m (folder_rq nm p)).2.1 in let m' := (spec_write v m (folder_rq nm p)).2.2 in
  mounted m' /\ tree_ok v' (fat_table m') /\ (forall ns c, located v ns c -> located v' ns c) /\
  ((spec_write v m (folder_rq nm p)).1 = 0 -> located v' (pns ++ [CString.cstr (name8 nm)]) (first_free (fat_table m))).
Proof using Type.
  intros Hk Hm Htree Hp Hty Hn. pose proof (located_map v _ Htree _ _ Hp) as Hpm. pose proof (wa_request _ _ (folder_rq_ok m nm p Hty Hpm)) as Hrq.
  pose proof (sees_length k v m Hk) as Hlen. assert (Hb : forall c, in_map c -> block_ok (vol_get v c)) by (intros; by eapply sees_block).
  pose proof (mounted_write v m (folder_rq nm p) Hm Hrq) as Hmo. cbv zeta. split; [exact Hmo|]. clear Hmo.
  unfold spec_write. cbn [buffer_size folder_rq]. change (0 =? 0) with true. cbv iota.
  destruct (negb _); [by cbn|]. destruct (lookup_first _ _); [by cbn|]. case_decide as Hslot; [by cbn|].
  destruct (Z.eqb_spec (free_clusters (fat_table m)) 0) as [|Hfits]; [by cbn|]. cbn [fst snd]. cbv zeta.
  split; [exact (folder_keeps_tree v m (folder_rq nm p) Hlen Hb Hm Hrq Htree pns Hp Hslot Hfits Hn)|]. split.
  - intros ns c. exact (located_kept v m (folder_rq nm p) Hlen Hb Hm Hrq Htree pns Hp Hslot Hfits Hn ns c).
  - intros _. exact (folder_located v m (folder_rq nm p) Hlen Hb Hm Hrq Htree pns Hp Hslot Hfits Hn).
Qed.

Lemma no_dot_valid s nm : typed_name nm -> 46 ∉ nm -> contains_invalid_character s (padded 512 nm) = Ret (false, s).
Proof using Type.
  intros (Hn & _ & Hl) Hdot. unfold contains_invalid_character. rewrite strlen_padded, bind_ret by done.
  replace (Z.to_nat (Zlen nm)) with (length nm) by (unfold Zlen; lia).
  pose proof (scan_while_arr (fun c => c =? 46) (padded 512 nm) (fun i => c ← arr_get (padded 512 nm) i; Ret (negb (c =? 46))) (length nm) 0) as Hs.
  rewrite Hs; [|lia|unfold Zlen; rewrite length_padded; lia|].
  - rewrite bind_ret. change (Z.to_nat 0) with 0%nat. unfold padded. rewrite drop_0, take_app_length, first_idx_forall.
    + unfold Zlen. by rewrite Z.ltb_irrefl.
    + apply Forall_forall. intros c Hc. apply Z.eqb_neq. intros ->. done.
  - intros i c Hi Hc. by rewrite (arr_get_lookup _ _ c), bind_ret by (lia || done).
Qed.

Lemma write_to_spec v m s ns dirs nm : settled v m s ns -> mounted m -> tree_ok v (fat_table m) -> Forall typed_name (dirs ++ [nm]) ->
  folder_name (CString.cstr (name8 nm)) -> (length (joined ns) + 9 * length dirs ≤ 510)%nat ->
  match follow v dirs (current_directory s) ns with
  | Arrived p pns =>
      if overruns_literal v m (folder_rq nm p)
      then write_to s (padded 512 nm) (rows (dirs ++ [nm])) (Zlen (dirs ++ [nm])) [] 0 true = Ub
      else
      let '(code, (v', m')) := spec_write v m (folder_rq nm p) in
      exists s', write_to s (padded 512 nm) (rows (dirs ++ [nm])) (Zlen (dirs ++ [nm])) [] 0 true = Ret (s8 code, s') /\
        settled v' m' s' ns /\ current_directory s' = current_directory s /\ mounted m' /\ tree_ok v' (fat_table m') /\
        (code = 0 -> located v' (pns ++ [CString.cstr (name8 nm)]) (first_free (fat_table m)))
  | Refused err =>
      exists s', write_to s (padded 512 nm) (rows (dirs ++ [nm])) (Zlen (dirs ++ [nm])) [] 0 true = Ret (err, s') /\
        settled v m s' ns /\ current_directory s' = current_directory s
  | Stuck => write_to s (padded 512 nm) (rows (dirs ++ [nm])) (Zlen (dirs ++ [nm])) [] 0 true = Hang
  end.
Proof using Type.
  intros Hs Hm Htree Hty Hn Hroom. unfold write_to. rewrite (save_path v m s ns Hs), bind_ret.
  replace (Zlen (dirs ++ [nm]) - 1) with (Zlen dirs) by (rewrite Zlen_app; unfold Zlen; simpl; lia).
  pose proof (change_path_spec v m Htree s ns dirs [nm] Hs Hty Hroom) as Hcp.
  pose proof (located_map v _ Htree _ _ (st_located _ _ _ _ Hs)) as Hc0.
  destruct (follow v dirs (current_directory s) ns) as [p pns|err|].
  - destruct Hcp as (s1 & -> & Hs1 & <-). rewrite bind_ret. cbn [Z.eqb negb]. rewrite !bind_assoc.
    apply Forall_app in Hty as Hty'. destruct Hty' as [_ Hnm]. rewrite Forall_singleton in Hnm.
    assert (Hreq : make_request [] (padded 512 nm) (replicate 3 0) (current_directory s1) 0 = Ret (folder_rq nm (current_directory s1))).
    { unfold make_request. destruct Hnm as (? & ? & ?). rewrite (CString.memcpy_eq (replicate 8 0)) by (rewrite ?length_padded, ?length_replicate; lia).
      rewrite name8_padded, splice_all, bind_ret by first [done|lia|apply name8_ok; by split]. done. }
    rewrite Hreq, !bind_ret. pose proof (st_located _ _ _ _ Hs1) as Hl1. pose proof (located_map v _ Htree _ _ Hl1) as Hp.
    destruct (overruns_literal v m (folder_rq nm (current_directory s1))) eqn:Hlit.
    { by rewrite (write_overruns _ v m _ (st_sees _ _ _ _ Hs1) Hm (folder_rq_ok m nm _ Hnm Hp) Hlit) by by vm_compute. }
    destruct (write_sees _ v m _ (st_sees _ _ _ _ Hs1) Hm (folder_rq_ok m nm _ Hnm Hp) Hlit) as (k & -> & Hk); [by vm_compute|].
    destruct (write_folder_tree v m _ nm _ pns (st_sees _ _ _ _ Hs1) Hm Htree Hl1 Hnm Hn) as (Hm' & Htree' & Hkept & Hnew).
    destruct (spec_write v m (folder_rq nm (current_directory s1))) as [code [v' m']] eqn:Espec. cbn [fst snd] in *. rewrite bind_ret.
    destruct (report_write_printed v' m' (dirs ++ [nm]) Hty (set_sys s1 k) (padded 512 nm) (s8 code) true Hk) as (s2 & -> & k2 & -> & Hk2).
    { destruct Hnm as (? & ? & ?). by apply text_padded. }
    { cbn. rewrite (st_table _ _ _ _ Hs1). eapply text_table; [exact Htree|apply Hs1|exact Hl1]. }
    rewrite bind_ret. destruct (cancel_spec v' m' (set_sys (set_sys s1 k) k2) ns (current_directory s)) as (s3 & -> & Hs3 & Hc3).
    { exact Hk2. } { apply Hkept, Hs. } { done. } { apply Hs. } { exact (settled_length _ _ _ _ Hs1). } { apply (st_after _ _ _ _ Hs1). }
    rewrite bind_ret. exists s3. by split_and!.
  - destruct Hcp as (s1 & -> & Herr & Hs1 & Hc1). rewrite bind_ret, (proj2 (Z.eqb_neq _ _)) by done. cbn [negb].
    destruct (cancel_spec v m s1 ns (current_directory s)) as (s2 & -> & Hs2 & Hc2); try apply Hs; try apply Hs1; [done|by eapply settled_length|].
    rewrite bind_ret. by exists s2.
  - by rewrite Hcp.
Qed.

(** A name with a dot is refused with a message. *)
Lemma dot_invalid v m s nm : sees (sys s) v m -> typed_name nm -> 46 ∈ nm ->
  exists s', contains_invalid_character s (padded 512 nm) = Ret (true, s') /\ printed v m s s'.
Proof using Type.
  intros Hs (Hn & Hb & Hl) Hdot. unfold contains_invalid_character. rewrite strlen_padded, bind_ret by done.
  replace (Z.to_nat (Zlen nm)) with (length nm) by (unfold Zlen; lia).
  rewrite (scan_while_arr (fun c => c =? 46) (padded 512 nm)); [|lia|unfold Zlen; rewrite length_padded; lia|].
  - rewrite bind_ret. change (Z.to_nat 0) with 0%nat. unfold padded at 1. rewrite drop_0, take_app_length.
    assert (Hlt : (first_idx (fun c : Z => (c =? 46)%Z) nm < length nm)%nat).
    { apply list_elem_of_lookup in Hdot as [i Hi]. destruct (decide (first_idx (fun c : Z => (c =? 46)%Z) nm < length nm)%nat) as [|Hge]; [done|].
      pose proof (first_idx_le (fun c : Z => c =? 46) nm). assert (Hall : first_idx (fun c : Z => c =? 46) nm = length nm) by lia.
      apply first_idx_none in Hall. rewrite Forall_forall in Hall. by specialize (Hall 46 (list_elem_of_lookup_2 _ _ _ Hi)). }
    rewrite (proj2 (Z.ltb_lt _ _)) by (unfold Zlen; lia). cbn [puts_all].
    assert (Hp : printed v m s s) by (exists (sys s); by destruct s).
    destruct (put_printed v m s (lit "error: name of the new directory '") LIGHT_RED) as (s1 & -> & H1); [done|apply text_lit; reflexivity|]. rewrite bind_ret.
    destruct (put_printed v m s1 (padded 512 nm) LIGHT_RED) as (s2 & -> & H2); [by eapply printed_sees|by apply text_padded|]. rewrite bind_ret.
    destruct (put_printed v m s2 (line "' cannot contain invalid character '.'") LIGHT_RED) as (s3 & -> & H3); [by eapply printed_sees|apply text_line; reflexivity|].
    rewrite !bind_ret. exists s3. split; [done|]. eapply printed_trans; [eapply printed_trans; [exact H1|exact H2]|exact H3].
  - intros i c Hi Hc. by rewrite (arr_get_lookup _ _ c), bind_ret by (lia || done).
Qed.

Lemma mkdir_spec v m s ns w dirs nm :
  settled v m s ns -> mounted m -> tree_ok v (fat_table m) ->
  no_nul w -> bytes_ok w -> (length w < 512)%nat -> path_names w = dirs ++ [nm] ->
  nm ≠ [] -> (length (joined ns) + 9 * S (length dirs) ≤ 510)%nat ->
  let c0 := if is_absolute w then ROOT_CLUSTER_NUMBER else current_directory s in
  let ns0 := if is_absolute w then [] else ns in
  if decide (46 ∈ nm) then exists s', mkdir s (padded 512 w) 1 = Ret s' /\ settled v m s' ns0 /\ current_directory s' = c0 else
  match follow v dirs c0 ns0 with
  | Arrived p pns =>
      if overruns_literal v m (folder_rq nm p) then mkdir s (padded 512 w) 1 = Ub else
      let '(code, (v', m')) := spec_write v m (folder_rq nm p) in
      exists s', mkdir s (padded 512 w) 1 = Ret s' /\ settled v' m' s' ns0 /\ current_directory s' = c0 /\ mounted m' /\ tree_ok v' (fat_table m') /\
        (code = 0 -> located v' (pns ++ [CString.cstr (name8 nm)]) (first_free (fat_table m)))
  | Refused _ => exists s', mkdir s (padded 512 w) 1 = Ret s' /\ settled v m s' ns0 /\ current_directory s' = c0
  | Stuck => mkdir s (padded 512 w) 1 = Hang
  end.
Proof using Type.
  intros Hs Hm Htree Hw Hb Hl Hnames Hnm Hroom c0 ns0. unfold mkdir. cbn [Z.eqb Pos.eqb].
  rewrite parse_path_spec by (done || rewrite Hnames, length_app; simpl; lia).
  destruct (start_spec v m s ns w Hs) as (s0 & -> & Hs0 & Hc0). rewrite !bind_ret.
  pose proof (path_names_typed w Hw Hb Hl) as Hty. rewrite Hnames in *. unfold create_directory.
  assert (Hnmt : typed_name nm) by (apply Forall_app in Hty as [_ Hty]; by rewrite Forall_singleton in Hty).
  replace (Zlen (dirs ++ [nm]) - 1) with (Zlen dirs) by (rewrite Zlen_app; unfold Zlen; simpl; lia).
  unfold row. rewrite (arr_get_lookup _ _ (padded 512 nm)), bind_ret; [|unfold Zlen; lia|].
  2: { apply lookup_rows. unfold Zlen. by rewrite Nat2Z.id, lookup_app_r, Nat.sub_diag by lia. }
  case_decide as Hdot.
  { destruct (dot_invalid v m s0 nm (st_sees _ _ _ _ Hs0) Hnmt Hdot) as (s1 & -> & k & -> & Hk). rewrite bind_ret.
    exists (set_sys s0 k). split; [done|]. split; [by apply settled_sys|exact Hc0]. }
  rewrite no_dot_valid, bind_ret by done.
  assert (Hroom0 : (length (joined ns0) + 9 * length dirs ≤ 510)%nat) by (unfold ns0; destruct (is_absolute w); simpl; lia).
  assert (Hfn : folder_name (CString.cstr (name8 nm))).
  { apply name8_folder; [done|apply Hnmt|]. pose proof (path_names_sep w Hw) as Hsep. rewrite Hnames in Hsep.
    apply Forall_app in Hsep as [_ Hsep]. by rewrite Forall_singleton in Hsep. }
  pose proof (write_to_spec v m s0 ns0 dirs nm Hs0 Hm Htree Hty Hfn Hroom0) as H. rewrite Hc0 in H. fold c0 ns0 in H.
  destruct (follow v dirs c0 ns0) as [p pns|err|].
  - destruct (overruns_literal _ _ _); [by rewrite H|].
    destruct (spec_write v m (folder_rq nm p)) as [code [v' m']]. destruct H as (s' & -> & ? & ? & ? & ? & ?). rewrite bind_ret. by exists s'.
  - destruct H as (s' & -> & ? & ?). rewrite bind_ret. by exists s'.
  - by rewrite H.
Qed.
(** C12: [mkdir path] in the root makes the folder [path] names: the volume and
    the driver memory afterwards are those of the specified [write] call in the
    folder the path leads to, the directory tree is still a tree, the new
    folder is in it when the call returns 0, and the shell is back in its
    directory (in the root for an absolute path).  The same holds in any other
    folder when the call is refused (a duplicate, a full folder, a full disk).
    Where it is not refused, outside the root, the program is undefined, and so
    is the result here: the driver writes over a literal of one byte.  A name
    with a dot is refused with a message and nothing changes; a path with a
    missing folder changes nothing, and one with [..] at the root does not come
    back.  The path is at most 511 bytes, and the path of the shell's folder
    plus 9 bytes for each part of the typed one at most 510. *)
Theorem mkdir_makes_folder v m s ns w dirs nm :
  settled v m s ns -> mounted m -> tree_ok v (fat_table m) ->
  no_nul w -> bytes_ok w -> (length w < 512)%nat -> path_names w = dirs ++ [nm] ->
  nm ≠ [] -> (length (joined ns) + 9 * S (length dirs) ≤ 510)%nat ->
  let c0 := if is_absolute w then ROOT_CLUSTER_NUMBER else current_directory s in
  let ns0 := if is_absolute w then [] else ns in
  if decide (46 ∈ nm) then exists s', mkdir s (padded 512 w) 1 = Ret s' /\ settled v m s' ns0 /\ current_directory s' = c0 else
  match follow v dirs c0 ns0 with
  | Arrived p pns =>
      if overruns_literal v m (folder_rq nm p) then mkdir s (padded 512 w) 1 = Ub else
      let '(code, (v', m')) := spec_write v m (folder_rq nm p) in
      exists s', mkdir s (padded 512 w) 1 = Ret s' /\ settled v' m' s' ns0 /\ current_directory s' = c0 /\ mounted m' /\ tree_ok v' (fat_table m') /\
        (code = 0 -> located v' (pns ++ [CString.cstr (name8 nm)]) (first_free (fat_table m)))
  | Refused _ => exists s', mkdir s (padded 512 w) 1 = Ret s' /\ settled v m s' ns0 /\ current_directory s' = c0
  | Stuck => mkdir s (padded 512 w) 1 = Hang
  end.
Proof using Type. apply mkdir_spec. Qed.
End mkdir.
