(* ===== verification/ShellRm.v ===== *)
(** * Requests for files, and [rm]

    The commands on files walk to the folder of the path, split the last name
    at its dot and make a request ([file_rq]) from the parts.

    [rm] walks to the folder of the path, asks the kernel to delete the
    entry and comes back: on the map of the disk it is one step of
    [disk_step].  The result of [parse_file_name] is not looked at, so a name
    that is too long removes the file of its first eight characters. *)
From stdpp Require Import gmap.
From S2P Require Import Prelude CString BlockDevice FatLayout Fat32 FatFacts FatChain FatLoops FatSpec FatRefine FatWrite FatMount FatProps FatInvariant.
From S2P Require Import ShellBase Shell ShellPath ShellFiles ShellCommands ShellFacts ShellLine DirTree DiskTree DiskRemove DiskMap ShellSplit ShellNames ShellWalk ShellCd ShellMkdir.

Definition name3 (w : list Z) : list Z := take 3 (w ++ replicate 3 0).

(** The request for the file called [nm] in the folder [p]. *)
Definition file_rq (nm : list Z) (p : Z) (b : list Z) (size : Z) : FAT32DriverRequest :=
  MkRequest b (name8 (before_dot nm)) (name3 (extension nm)) p size.

Lemma before_dot_no_nul nm : no_nul nm -> no_nul (before_dot nm).
Proof. intros H. destruct (before_dot_prefix nm) as (r & Hr & _). unfold no_nul in *. rewrite Hr in H. by apply Forall_app in H as [? _]. Qed.

Lemma before_dot_all nm : 46 ∉ nm -> before_dot nm = nm.
Proof.
  induction nm as [|c nm IH]; intros H; [done|]. cbn [before_dot]. rewrite (proj2 (Z.eqb_neq c 46)) by set_solver. f_equal. apply IH. set_solver.
Qed.

Lemma extension_le nm : (length (extension nm) ≤ 3)%nat.
Proof. unfold extension. case_decide; [simpl; lia|]. rewrite length_take. lia. Qed.

Lemma part_bytes nm : bytes_ok nm -> bytes_ok (before_dot nm) /\ bytes_ok (extension nm).
Proof.
  intros H. destruct (before_dot_prefix nm) as (r & Hr & _). split; [rewrite Hr in H; by apply Forall_app in H as [? _]|].
  unfold extension. case_decide; [constructor|]. by apply Forall_take, Forall_drop.
Qed.

Lemma name_parts_ok nm : bytes_ok nm ->
  (length (name8 (before_dot nm)) = 8%nat /\ bytes_ok (name8 (before_dot nm))) /\ length (name3 (extension nm)) = 3%nat /\ bytes_ok (name3 (extension nm)).
Proof.
  intros [H1 H2]%part_bytes. unfold name8, name3. rewrite !length_take, !length_app, !length_replicate. split; split; try lia.
  - apply Forall_take, Forall_app. split; [exact H1|]. by apply Forall_replicate.
  - apply Forall_take, Forall_app. split; [exact H2|]. by repeat constructor.
Qed.

Lemma file_rq_ok nm p b size : bytes_ok nm -> is_word 32 size -> request_ok (file_rq nm p b size).
Proof. intros Hn Hs. destruct (name_parts_ok nm Hn) as [H1 H2]. split; [exact H1|exact H2|exact Hs]. Qed.

(** A name that does not start with a dot or end is no blank entry's. *)
Lemma not_blank nm ex : no_nul nm -> before_dot nm ≠ [] -> matches (name8 (before_dot nm)) ex empty_entry = false.
Proof.
  intros Hn Hne. unfold matches, has_name. rewrite bool_decide_false; [done|]. cbn [name empty_entry].
  pose proof (before_dot_no_nul nm Hn) as Hb. destruct (before_dot nm) as [|c b]; [done|]. apply Forall_cons in Hb as [Hc _].
  unfold name8. cbn [app firstn]. intros Heq. injection Heq as Heq _. by apply Hc.
Qed.

Lemma take_padded k n w : (k ≤ n)%nat -> (length w ≤ n)%nat -> take k (padded n w) = take k (w ++ replicate k 0).
Proof.
  intros Hk Hw. unfold padded. rewrite !take_app, !take_replicate. f_equal. f_equal. lia.
Qed.

Section requests.
Context {K : Type} `{!SysCalls K, !FileServer K}.
Implicit Types (s : shell K) (v : volume) (m : driver).

Lemma printed_refl v m s : sees (sys s) v m -> printed v m s s.
Proof using Type. intros H. exists (sys s). split; [by destruct s|exact H]. Qed.

Lemma parse_message nm l1 l2 r str nm' ext : parse_file_name nm l1 l2 = Ret (r, Some str, nm', ext) -> text (lit str).
Proof using Type.
  unfold parse_file_name. intros H. invert_ret H; repeat case_match; invert_ret H; repeat case_match; simplify_eq; apply text_lit; reflexivity.
Qed.

Lemma parse_name_printed v m s nm : sees (sys s) v m -> typed_name nm ->
  exists s', parse_name s (padded 512 nm) = Ret (s8 (name_code nm), padded 9 (take 8 (before_dot nm)), padded 4 (extension nm), s') /\ printed v m s s'.
Proof using Type.
  intros Hs (Hn & _ & Hl). unfold parse_name. destruct (parse_file_name_spec 9 4 512 nm Hn Hl ltac:(lia) ltac:(lia)) as (msg & Hr). rewrite Hr, bind_ret.
  destruct msg as [str|].
  - destruct (put_printed v m s (lit str) LIGHT_RED Hs (parse_message _ _ _ _ _ _ _ Hr)) as (s' & -> & Hp). rewrite bind_ret. by exists s'.
  - rewrite bind_ret. exists s. split; [done|]. by apply printed_refl.
Qed.

Lemma make_file_request (b nm : list Z) p size :
  make_request b (padded 9 (take 8 (before_dot nm))) (padded 4 (extension nm)) p size = Ret (file_rq nm p b size).
Proof using Type.
  unfold make_request. pose proof (extension_le nm) as He.
  assert (H8 : (length (take 8 (before_dot nm)) ≤ 8)%nat) by (rewrite length_take; lia).
  rewrite (CString.memcpy_eq (replicate 8 0)) by (rewrite ?length_padded, ?length_replicate by lia; lia).
  rewrite take_padded by lia. rewrite splice_all, bind_ret by (rewrite length_take, length_app, length_replicate; lia).
  rewrite CString.memcpy_eq by (rewrite ?length_padded, ?length_replicate by lia; lia).
  rewrite take_padded by lia. rewrite splice_all, bind_ret by (rewrite length_take, length_app, length_replicate; lia).
  unfold file_rq. f_equal. f_equal. unfold name8. rewrite !take_app, take_take, length_take, !take_replicate. f_equal. f_equal. lia.
Qed.
End requests.

(** ** Removing *)

(** A folder of another path stays. *)
Lemma remove_keeps_path d rq code out d' x ns pns : disk_step d (Remove rq) code out d' -> paths d !! x = Some ns ->
  paths d !! parent_cluster_number rq = Some pns -> ns ≠ pns ++ [CString.cstr (req_name rq)] -> paths d' !! x = Some ns.
Proof.
  intros Hst Hx Hp Hne. remember (Remove rq) as c eqn:Hc. destruct Hst; try discriminate Hc; injection Hc as ->; try exact Hx.
  cbn [with_paths paths]. rewrite lookup_delete_ne; [exact Hx|]. intros ->. destruct H as (pns' & Hp' & Hc). rewrite Hp in Hp'. injection Hp' as <-.
  rewrite Hx in Hc. injection Hc as ->. by apply Hne.
Qed.

(** The name is the folder's own or its parent's. *)
Definition reserved_name (v : volume) (p : Z) (nm : list Z) : Prop :=
  exists e, e ∈ take 2 (table_at v p) /\ matches (name8 (before_dot nm)) (name3 (extension nm)) e = true.

Lemma not_reserved v p nm : ~ reserved_name v p nm ->
  Forall (fun e => matches (name8 (before_dot nm)) (name3 (extension nm)) e = false) (take 2 (table_at v p)).
Proof.
  intros H. apply Forall_forall. intros e He. destruct (matches _ _ e) eqn:E; [|done]. destruct H. by exists e.
Qed.

Section rm.
Context {K : Type} `{!SysCalls K, !FileServer K}.
Implicit Types (s : shell K) (v : volume) (m : driver).

Lemma report_delete_printed v m ws s code fname : Forall typed_name ws -> ws ≠ [] -> sees (sys s) v m -> text fname -> text (name_at (current_dir_table s) 0) ->
  exists s', report_delete s (rows ws) (Zlen ws) code fname = Ret s' /\ printed v m s s'.
Proof using Type.
  intros Hws Hne Hs Hn H0. pose proof (printed_refl v m s Hs) as Hp. unfold report_delete.
  assert (Hkeep : forall s1, printed v m s s1 -> text (name_at (current_dir_table s1) 0)) by (by intros s1 (k & -> & _)).
  destruct (code =? 1); [|destruct (code =? 2); [|by exists s]].
  - cbn [puts_all].
    assert (Hputs : exists s2, (s ← put s (lit "error: '") LIGHT_RED; s ← put s fname LIGHT_RED; s ← put s (lit "' not found in ") LIGHT_RED; Ret s) = Ret s2 /\ printed v m s s2).
    { eapply put_then; [exact Hp|apply text_lit; reflexivity|]. intros s1 H1. eapply put_then; [exact H1|exact Hn|]. intros s2 H2.
      eapply put_then; [exact H2|apply text_lit; reflexivity|]. intros s3 H3. by exists s3. }
    destruct Hputs as (s2 & -> & H2). rewrite bind_ret.
    destruct (put_parent_printed v m ws Hws s s2 H2 (Hkeep _ H2)) as (s3 & -> & H3). rewrite bind_ret.
    destruct (put_printed v m s3 (line "'") LIGHT_RED) as (s4 & -> & H4); [by eapply printed_sees|apply text_line; reflexivity|].
    exists s4. split; [done|]. by eapply printed_trans.
  - eapply put_then; [exact Hp|apply text_lit; reflexivity|]. intros s1 H1.
    destruct (print_path_printed v m ws Hws s s1 (Zlen ws - 1) LIGHT_RED H1) as (s2 & -> & H2); [destruct ws; [done|unfold Zlen; simpl length; lia]|]. rewrite bind_ret.
    destruct (put_printed v m s2 (line "' is not empty") LIGHT_RED) as (s3 & -> & H3); [by eapply printed_sees|apply text_line; reflexivity|].
    exists s3. split; [done|]. by eapply printed_trans.
Qed.

Definition rm_rq (nm : list Z) (p : Z) : FAT32DriverRequest := file_rq nm p [] 0.

(** The call on the map. *)
Lemma delete_call v m d k nm p pns : sees k v m -> disk_shows v m d -> located v pns p -> typed_name nm -> before_dot nm ≠ [] -> ~ reserved_name v p nm ->
  exists code k' v' m' d', sys_delete k (rm_rq nm p) = Ret (code, k') /\ sees k' v' m' /\ disk_shows v' m' d' /\ disk_step d (Remove (rm_rq nm p)) code [] d' /\
    code = (spec_delete v m (rm_rq nm p)).1.
Proof using Type.
  intros Hk [Hm [cs Hd] Hh] Hp (Hn & Hb & _) Hne Hres. pose proof (file_rq_ok nm p [] 0 Hb ltac:(by unfold is_word)) as Hrq.
  pose proof (located_map v _ (dk_tree _ _ _ Hd) _ _ Hp) as Hpm. pose proof (sees_length _ _ _ Hk) as Hlen.
  assert (Hblk : forall c, in_map c -> block_ok (vol_get v c)) by (intros c; by eapply sees_block).
  pose proof (not_blank nm (name3 (extension nm)) Hn Hne) as Hblank.
  destruct (remove_step v m d (rm_rq nm p) Hlen Hblk Hm Hh cs Hd Hrq pns Hp Hblank (not_reserved _ _ _ Hres) _ eq_refl) as (d' & Hsh & Hst).
  destruct (delete_sees k v m (rm_rq nm p) Hk Hm Hrq Hpm) as (k' & Hdel & Hk'); [by vm_compute|constructor| |].
  - intros e He. refine (proj1 (search_backed v m d (rm_rq nm p) Hlen Hblk Hm Hh cs Hd Hrq pns Hp Hblank (not_reserved _ _ _ Hres) _ e He)). by vm_compute.
  - exists (spec_delete v m (rm_rq nm p)).1, k', (spec_delete v m (rm_rq nm p)).2.1, (spec_delete v m (rm_rq nm p)).2.2, d'.
    exact (conj Hdel (conj Hk' (conj Hsh (conj Hst eq_refl)))).
Qed.

Lemma rm_spec v m d s ns w dirs nm :
  settled v m s ns -> disk_shows v m d -> no_nul w -> bytes_ok w -> (length w < 512)%nat -> path_names w = dirs ++ [nm] ->
  before_dot nm ≠ [] -> (length (joined ns) + 9 * S (length dirs) ≤ 510)%nat ->
  match follow v dirs (if is_absolute w then ROOT_CLUSTER_NUMBER else current_directory s) (if is_absolute w then [] else ns) with
  | Arrived p pns => ~ reserved_name v p nm -> ns ≠ pns ++ [CString.cstr (name8 (before_dot nm))] ->
      exists code v' m' d' s', rm s (padded 512 w) 1 = Ret s' /\ settled v' m' s' ns /\ current_directory s' = current_directory s /\
        disk_shows v' m' d' /\ disk_step d (Remove (rm_rq nm p)) code [] d' /\ code = (spec_delete v m (rm_rq nm p)).1
  | Refused _ => exists s', rm s (padded 512 w) 1 = Ret s' /\ settled v m s' ns /\ current_directory s' = current_directory s
  | Stuck => rm s (padded 512 w) 1 = Hang
  end.
Proof using Type.
  intros Hs Hd Hw Hb Hl Hnames Hnm Hroom. destruct (sh_disk _ _ _ Hd) as [cs Hdk]. pose proof (dk_tree _ _ _ Hdk) as Htree.
  unfold rm. cbn [Z.eqb Pos.eqb]. rewrite (save_path v m s ns Hs), bind_ret.
  rewrite parse_path_spec by (done || rewrite Hnames, length_app; simpl; lia).
  destruct (start_spec v m s ns w Hs) as (s0 & -> & Hs0 & Hc0). rewrite !bind_ret.
  pose proof (path_names_typed w Hw Hb Hl) as Hty. rewrite Hnames in *.
  replace (Zlen (dirs ++ [nm]) - 1) with (Zlen dirs) by (rewrite Zlen_app; unfold Zlen; simpl; lia).
  assert (Hroom0 : (length (joined (if is_absolute w then [] else ns)) + 9 * length dirs ≤ 510)%nat) by (destruct (is_absolute w); simpl; lia).
  pose proof (change_path_spec v m Htree s0 _ dirs [nm] Hs0 Hty Hroom0) as Hcp. rewrite Hc0 in Hcp.
  pose proof (located_map v _ Htree _ _ (st_located _ _ _ _ Hs)) as Hcm.
  destruct (follow v dirs _ _) as [p pns|err|].
  - intros Hres Hown. destruct Hcp as (s1 & -> & Hs1 & <-). rewrite bind_ret. cbn [Z.eqb negb].
    unfold row. rewrite (arr_get_lookup _ _ (padded 512 nm)), bind_ret; [|unfold Zlen; lia|].
    2: { apply lookup_rows. unfold Zlen. by rewrite Nat2Z.id, lookup_app_r, Nat.sub_diag by lia. }
    assert (Hnmt : typed_name nm) by (apply Forall_app in Hty as [_ Hty]; by rewrite Forall_singleton in Hty).
    destruct (parse_name_printed v m s1 nm (st_sees _ _ _ _ Hs1) Hnmt) as (s2 & -> & k2 & -> & Hk2). rewrite bind_ret, make_file_request, bind_ret.
    pose proof (st_located _ _ _ _ Hs1) as Hl1. cbn [current_directory set_sys sys]. fold (rm_rq nm (current_directory s1)).
    destruct (delete_call v m d k2 nm _ pns Hk2 Hd Hl1 Hnmt Hnm Hres) as (code & k3 & v' & m' & d' & -> & Hk3 & Hd' & Hst & Hco). rewrite bind_ret.
    assert (Hkept : located v' ns (current_directory s)).
    { apply (ho_paths _ _ _ (sh_holds _ _ _ Hd')). eapply remove_keeps_path; [exact Hst|apply (ho_paths _ _ _ (sh_holds _ _ _ Hd)), Hs| |exact Hown].
      apply (ho_paths _ _ _ (sh_holds _ _ _ Hd)), Hl1. }
    destruct (report_delete_printed v' m' (dirs ++ [nm]) (set_sys (set_sys s1 k2) k3) (s8 code) (padded 9 (take 8 (before_dot nm))) Hty) as (s3 & -> & k4 & -> & Hk4).
    { by destruct dirs. } { exact Hk3. } { apply text_padded; [rewrite length_take; lia|done]. }
    { cbn. rewrite (st_table _ _ _ _ Hs1). eapply text_table; [exact Htree|apply Hs1|exact Hl1]. }
    rewrite bind_ret. destruct (cancel_spec v' m' (set_sys (set_sys (set_sys s1 k2) k3) k4) ns (current_directory s)) as (s4 & -> & Hs4 & Hc4).
    { exact Hk4. } { exact Hkept. } { exact Hcm. } { apply Hs. } { exact (settled_length _ _ _ _ Hs1). } { apply (st_after _ _ _ _ Hs1). }
    exists code, v', m', d', s4. exact (conj eq_refl (conj Hs4 (conj Hc4 (conj Hd' (conj Hst Hco))))).
  - destruct Hcp as (s1 & -> & Herr & Hs1 & Hc1). rewrite bind_ret, (proj2 (Z.eqb_neq _ _)) by done. cbn [negb].
    destruct (cancel_spec v m s1 ns (current_directory s)) as (s2 & -> & Hs2 & Hc2); [apply Hs1|apply Hs|exact Hcm|apply Hs|by eapply settled_length|apply Hs1|].
    exists s2. exact (conj eq_refl (conj Hs2 Hc2)).
  - by rewrite Hcp.
Qed.

(** C14: [rm path] removes the entry the path names: when the path leads to a
    folder, the call's effect on the disk is one step of the map for a removal
    in that folder, with the code of the specified [Delete] (0 removed, 1 not
    found, 2 a folder that is not empty), and the shell is back where it was,
    an absolute path included; when a name on the way is refused, nothing
    changes, and a path with [..] at the root does not come back.  The entry
    asked for has the first eight characters of the name and no more than
    three of the extension, however long they are.  Two removals are left out
    by hypotheses: of a name that one of the folder's first two entries has
    ([reserved_name]: the folder itself and its parent, which the driver would
    remove), and of the folder the shell is in.  The name has a character before
    its dot, the path at most 511 bytes, and the path of the shell's folder plus
    9 bytes for each part of the typed one at most 510. *)
Theorem rm_removes v m d s ns w dirs nm :
  settled v m s ns -> disk_shows v m d -> no_nul w -> bytes_ok w -> (length w < 512)%nat -> path_names w = dirs ++ [nm] ->
  before_dot nm ≠ [] -> (length (joined ns) + 9 * S (length dirs) ≤ 510)%nat ->
  match follow v dirs (if is_absolute w then ROOT_CLUSTER_NUMBER else current_directory s) (if is_absolute w then [] else ns) with
  | Arrived p pns => ~ reserved_name v p nm -> ns ≠ pns ++ [CString.cstr (name8 (before_dot nm))] ->
      exists code v' m' d' s', rm s (padded 512 w) 1 = Ret s' /\ settled v' m' s' ns /\ current_directory s' = current_directory s /\
        disk_shows v' m' d' /\ disk_step d (Remove (rm_rq nm p)) code [] d' /\ code = (spec_delete v m (rm_rq nm p)).1
  | Refused _ => exists s', rm s (padded 512 w) 1 = Ret s' /\ settled v m s' ns /\ current_directory s' = current_directory s
  | Stuck => rm s (padded 512 w) 1 = Hang
  end.
Proof using Type. apply rm_spec. Qed.
End rm.
