(* ===== verification/ShellCat.v ===== *)
(** * Reading a file: [read_file] and [cat]

    [read_file] walks to the folder of the path, makes one [read] call for
    the file and comes back; [cat] prints the buffer up to its first zero
    byte. *)
From stdpp Require Import gmap.
From S2P Require Import Prelude CString BlockDevice FatLayout Fat32 FatFacts FatChain FatLoops FatSpec FatRefine FatWrite FatMount FatProps FatInvariant.
From S2P Require Import ShellBase Shell ShellPath ShellFiles ShellCommands ShellFacts ShellLine DirTree DiskTree DiskRemove DiskMap ShellSplit ShellNames ShellWalk ShellCd ShellMkdir ShellRm.

(** A buffer of 32 clusters and what the calls may look at behind it. *)
Definition cluster_buffer (b : list Z) : Prop := CLUSTER_SIZE * BUFFER_CLUSTERS ≤ Zlen b ≤ BUFFER_LIMIT /\ bytes_ok b.

Definition read_rq (nm : list Z) (p : Z) (b : list Z) : FAT32DriverRequest := file_rq nm p b (CLUSTER_SIZE * 32).

Section read.
Context {K : Type} `{!SysCalls K, !FileServer K}.
Implicit Types (s : shell K) (v : volume) (m : driver).

Lemma report_read_printed v m ws s code fname : Forall typed_name ws -> ws ≠ [] -> sees (sys s) v m -> text fname -> text (name_at (current_dir_table s) 0) ->
  exists s', report_read s (rows ws) (Zlen ws) code fname = Ret s' /\ printed v m s s'.
Proof using Type.
  intros Hws Hne Hs Hn H0. pose proof (printed_refl v m s Hs) as Hp. unfold report_read. cbn [puts_all].
  assert (Hputs : exists s2, (s ← put s (lit "error: '") LIGHT_RED; s ← put s fname LIGHT_RED; Ret s) = Ret s2 /\ printed v m s s2).
  { eapply put_then; [exact Hp|apply text_lit; reflexivity|]. intros s1 H1. eapply put_then; [exact H1|exact Hn|]. intros s2 H2. by exists s2. }
  destruct Hputs as (s2 & -> & H2). rewrite bind_ret. assert (H02 : text (name_at (current_dir_table s2) 0)) by (by destruct H2 as (k & -> & _)).
  destruct (code =? 1); [|destruct (code =? 2); [|by exists s2]].
  - destruct (put_printed v m s2 (line "' is a folder, not a file") LIGHT_RED) as (s3 & -> & H3); [by eapply printed_sees|apply text_line; reflexivity|].
    exists s3. split; [done|]. by eapply printed_trans.
  - eapply put_then; [exact H2|apply text_lit; reflexivity|]. intros s3 H3.
    destruct (put_parent_printed v m ws Hws s s3 H3) as (s4 & -> & H4); [by destruct H3 as (k & -> & _)|]. rewrite bind_ret.
    destruct (put_printed v m s4 (line "'") LIGHT_RED) as (s5 & -> & H5); [by eapply printed_sees|apply text_line; reflexivity|].
    exists s5. split; [done|]. by eapply printed_trans.
Qed.

(** The call on the map. *)
Lemma read_call v m d k nm p pns b : sees k v m -> disk_shows v m d -> located v pns p -> typed_name nm -> before_dot nm ≠ [] -> ~ reserved_name v p nm ->
  cluster_buffer b ->
  exists code out k', sys_read k (read_rq nm p b) = Ret (code, out, k') /\ sees k' v m /\ disk_step d (Read (read_rq nm p b)) code out d.
Proof using Type.
  intros Hk [Hm [cs Hd] Hh] Hp (Hn & Hb & _) Hne Hres [Hlb Hbb]. pose proof (file_rq_ok nm p b (CLUSTER_SIZE * 32) Hb ltac:(by unfold is_word)) as Hrq.
  pose proof (located_map v _ (dk_tree _ _ _ Hd) _ _ Hp) as Hpm. pose proof (sees_length _ _ _ Hk) as Hlen.
  assert (Hblk : forall c, in_map c -> block_ok (vol_get v c)) by (intros c; by eapply sees_block).
  pose proof (not_blank nm (name3 (extension nm)) Hn Hne) as Hblank.
  assert (Hbuf : CLUSTER_SIZE * number_of_partition (buffer_size (read_rq nm p b)) ≤ Zlen (buf (read_rq nm p b))) by exact (proj1 Hlb).
  pose proof (read_step v m d (read_rq nm p b) Hlen Hblk Hm Hh cs Hd Hrq pns Hp Hblank (not_reserved _ _ _ Hres) Hbuf) as Hst.
  destruct (read_sees k v m (read_rq nm p b) Hk Hrq Hpm (proj2 Hlb) Hbb) as (k' & Hr & Hk').
  { intros e He. exact (search_backed v m d (read_rq nm p b) Hlen Hblk Hm Hh cs Hd Hrq pns Hp Hblank (not_reserved _ _ _ Hres) Hbuf e He). }
  exists (spec_read v (fat_table m) (read_rq nm p b)).1, (spec_read v (fat_table m) (read_rq nm p b)).2, k'.
  rewrite Hr, <- surjective_pairing. exact (conj eq_refl (conj Hk' Hst)).
Qed.

(** The codes of [read] fit a signed byte. *)
Lemma read_code d rq code out d' : disk_step d (Read rq) code out d' -> s8 code = code /\ (code ≠ 0 -> out = buf rq).
Proof using Type. intros Hst. remember (Read rq) as c eqn:Hc. destruct Hst; try discriminate Hc; injection Hc as ->; split; try reflexivity; done. Qed.

(** Code 0 means a file of the map. *)
Lemma read_found d rq code out d' : disk_step d (Read rq) code out d' -> code = 0 -> exists data, files d !! key_of rq = Some data /\ Zlen data ≤ buffer_size rq /\
  take (length data) out = data /\ length out = length (buf rq) /\
  bytes_ok (take (Z.to_nat (CLUSTER_SIZE * number_of_partition (Zlen data))) out) /\
  drop (Z.to_nat (CLUSTER_SIZE * number_of_partition (Zlen data))) out = drop (Z.to_nat (CLUSTER_SIZE * number_of_partition (Zlen data))) (buf rq).
Proof using Type.
  intros Hst H0. remember (Read rq) as c eqn:Hc. destruct Hst; try discriminate Hc; try discriminate H0; injection Hc as ->.
  eexists. refine (conj _ (conj _ (conj _ (conj _ (conj _ _))))); eassumption.
Qed.

Lemma read_text d rq out d' : disk_step d (Read rq) 0 out d' -> cluster_buffer (buf rq) -> 0 ∈ out -> text out.
Proof using Type.
  intros Hst [[_ Hb] _] H0. destruct (read_found _ _ _ _ _ Hst eq_refl) as (data & _ & _ & _ & Hl & _). split; [exact H0|].
  unfold Zlen in *. by rewrite Hl.
Qed.

Lemma read_file_spec v m d s ns dirs nm b :
  settled v m s ns -> disk_shows v m d -> Forall typed_name (dirs ++ [nm]) -> before_dot nm ≠ [] -> cluster_buffer b ->
  (length (joined ns) + 9 * length dirs ≤ 510)%nat ->
  match follow v dirs (current_directory s) ns with
  | Arrived p pns => ~ reserved_name v p nm ->
      exists code out s', read_file s (rows (dirs ++ [nm])) (Zlen (dirs ++ [nm])) b = Ret (code, out, s') /\ settled v m s' ns /\
        current_directory s' = current_directory s /\
        if name_code nm =? 0 then disk_step d (Read (read_rq nm p b)) code out d else code = s8 (name_code nm) /\ out = b
  | Refused err => exists s', read_file s (rows (dirs ++ [nm])) (Zlen (dirs ++ [nm])) b = Ret (err, b, s') /\ err ≠ 0 /\ settled v m s' ns /\
        current_directory s' = current_directory s
  | Stuck => read_file s (rows (dirs ++ [nm])) (Zlen (dirs ++ [nm])) b = Hang
  end.
Proof using Type.
  intros Hs Hd Hty Hnm Hb Hroom. destruct (sh_disk _ _ _ Hd) as [cs Hdk]. pose proof (dk_tree _ _ _ Hdk) as Htree.
  unfold read_file. rewrite (save_path v m s ns Hs), bind_ret.
  replace (Zlen (dirs ++ [nm]) - 1) with (Zlen dirs) by (rewrite Zlen_app; unfold Zlen; simpl; lia).
  pose proof (change_path_spec v m Htree s ns dirs [nm] Hs Hty Hroom) as Hcp.
  pose proof (located_map v _ Htree _ _ (st_located _ _ _ _ Hs)) as Hcm.
  destruct (follow v dirs _ _) as [p pns|err|].
  - intros Hres. destruct Hcp as (s1 & -> & Hs1 & <-). rewrite bind_ret. cbn [Z.eqb negb].
    unfold row. rewrite (arr_get_lookup _ _ (padded 512 nm)), bind_ret; [|unfold Zlen; lia|].
    2: { apply lookup_rows. unfold Zlen. by rewrite Nat2Z.id, lookup_app_r, Nat.sub_diag by lia. }
    assert (Hnmt : typed_name nm) by (apply Forall_app in Hty as [_ Hty']; by rewrite Forall_singleton in Hty').
    destruct (parse_name_printed v m s1 nm (st_sees _ _ _ _ Hs1) Hnmt) as (s2 & -> & k2 & -> & Hk2). rewrite bind_ret.
    assert (Hback : forall k3, sees k3 v m -> exists s3, cancel_change_path (set_sys s1 k3) (current_directory s) (padded 512 (render ns)) = Ret s3 /\
      settled v m s3 ns /\ current_directory s3 = current_directory s).
    { intros k3 Hk3. destruct (cancel_spec v m (set_sys s1 k3) ns (current_directory s)) as (s3 & -> & Hs3 & Hc3); [exact Hk3|apply Hs|exact Hcm|apply Hs|by eapply (settled_length _ _ s1)|apply Hs1|].
      by exists s3. }
    assert (Hcode : s8 (name_code nm) =? 0 = (name_code nm =? 0)) by (unfold name_code; repeat case_decide; reflexivity). rewrite Hcode.
    destruct (name_code nm =? 0); cbn [negb].
    + rewrite make_file_request, bind_ret. pose proof (st_located _ _ _ _ Hs1) as Hl1. cbn [current_directory set_sys sys]. fold (read_rq nm (current_directory s1) b).
      destruct (read_call v m d k2 nm _ pns b Hk2 Hd Hl1 Hnmt Hnm Hres Hb) as (code & out & k3 & -> & Hk3 & Hst). rewrite bind_ret.
      destruct (read_code _ _ _ _ _ Hst) as [-> _].
      assert (Hrep : exists k4, (if negb (code =? 0) then report_read (set_sys (set_sys s1 k2) k3) (rows (dirs ++ [nm])) (Zlen (dirs ++ [nm])) code (padded 9 (take 8 (before_dot nm)))
        else Ret (set_sys (set_sys s1 k2) k3)) = Ret (set_sys s1 k4) /\ sees k4 v m).
      { destruct (negb _); [|by exists k3].
        destruct (report_read_printed v m (dirs ++ [nm]) (set_sys (set_sys s1 k2) k3) code (padded 9 (take 8 (before_dot nm))) Hty) as (s3 & -> & k4 & -> & Hk4).
        { by destruct dirs. } { exact Hk3. } { apply text_padded; [rewrite length_take; lia|done]. }
        { cbn. rewrite (st_table _ _ _ _ Hs1). eapply text_table; [exact Htree|apply Hs1|exact Hl1]. }
        by exists k4. }
      destruct Hrep as (k4 & -> & Hk4). rewrite bind_ret. destruct (Hback k4 Hk4) as (s5 & -> & Hs5 & Hc5). rewrite bind_ret.
      exists code, out, s5. exact (conj eq_refl (conj Hs5 (conj Hc5 Hst))).
    + destruct (Hback k2 Hk2) as (s3 & -> & Hs3 & Hc3). rewrite bind_ret. eexists _, _, s3. exact (conj eq_refl (conj Hs3 (conj Hc3 (conj eq_refl eq_refl)))).
  - destruct Hcp as (s1 & -> & Herr & Hs1 & Hc1). rewrite bind_ret, (proj2 (Z.eqb_neq _ _)) by done. cbn [negb].
    destruct (cancel_spec v m s1 ns (current_directory s)) as (s2 & -> & Hs2 & Hc2); [apply Hs1|apply Hs|exact Hcm|apply Hs|by eapply settled_length|apply Hs1|].
    rewrite bind_ret. exists s2. exact (conj eq_refl (conj Herr (conj Hs2 Hc2))).
  - by rewrite Hcp.
Qed.
End read.

(** ** What is on the screen *)

(** The texts printed so far: only [sys_puts] adds to them. *)
Class Screen (K : Type) `{!SysCalls K} := {
  shown : K -> list (list Z * Z);
  puts_shown k str color k' : sys_puts k str color = Ret k' -> shown k' = shown k ++ [(str, color)];
  read_shown k rq code out k' : sys_read k rq = Ret (code, out, k') -> shown k' = shown k;
  read_directory_shown k rq code out k' : sys_read_directory k rq = Ret (code, out, k') -> shown k' = shown k;
  read_cluster_shown k c bs k' : sys_read_cluster k c = Ret (bs, k') -> shown k' = shown k
}.

(** Any kernel with a log of what it was asked to print is one: the log is
    written by [sys_puts] and read by nothing. *)
Record logged (K : Type) := MkLogged { unlogged : K; log : list (list Z * Z) }.
Arguments MkLogged {K}.
Arguments unlogged {K}.
Arguments log {K}.

Section logged.
Context {K : Type} `{!SysCalls K}.

Definition relog (k : logged K) (x : K) : logged K := MkLogged x (log k).

#[export] Instance logged_calls : SysCalls (logged K) := {
  sys_read k rq := '(c, b, x) ← sys_read (unlogged k) rq; Ret (c, b, relog k x);
  sys_read_directory k rq := '(c, b, x) ← sys_read_directory (unlogged k) rq; Ret (c, b, relog k x);
  sys_write k rq := '(c, x) ← sys_write (unlogged k) rq; Ret (c, relog k x);
  sys_delete k rq := '(c, x) ← sys_delete (unlogged k) rq; Ret (c, relog k x);
  sys_key k := '(c, x) ← sys_key (unlogged k); Ret (c, relog k x);
  sys_puts k str color := x ← sys_puts (unlogged k) str color; Ret (MkLogged x (log k ++ [(str, color)]));
  sys_keyboard_on k := x ← sys_keyboard_on (unlogged k); Ret (relog k x);
  sys_clear k := x ← sys_clear (unlogged k); Ret (relog k x);
  sys_read_cluster k c := '(b, x) ← sys_read_cluster (unlogged k) c; Ret (b, relog k x);
  sys_write_cluster k b c := x ← sys_write_cluster (unlogged k) b c; Ret (relog k x);
  sys_exec k rq := '(c, x) ← sys_exec (unlogged k) rq; Ret (c, relog k x);
  sys_ps k := x ← sys_ps (unlogged k); Ret (relog k x);
  sys_kill k pid := '(c, x) ← sys_kill (unlogged k) pid; Ret (c, relog k x);
  sys_clock k := x ← sys_clock (unlogged k); Ret (relog k x)
}.

#[export, program] Instance logged_screen : Screen (logged K) := { shown := log }.
Next Obligation. intros k str color k' H. cbn in H. by invert_ret H. Qed.
Next Obligation. intros k rq code out k' H. cbn in H. by invert_ret H. Qed.
Next Obligation. intros k rq code out k' H. cbn in H. by invert_ret H. Qed.
Next Obligation. intros k c bs k' H. cbn in H. by invert_ret H. Qed.

#[export, program] Instance logged_files `{!FileServer K} : FileServer (logged K) := { sees k := sees (unlogged k) }.
Next Obligation. intros ? k v m H. exact (sees_length _ _ _ H). Qed.
Next Obligation. intros ? k v m c H. exact (sees_block _ _ _ c H). Qed.
Next Obligation.
  intros ? k v m str color H Hl. destruct (puts_sees _ _ _ str color H Hl) as (x & Hx & Hs). eexists. cbn. rewrite Hx. exact (conj eq_refl Hs).
Qed.
Next Obligation.
  intros ? k v m c H Hc. destruct (read_cluster_sees _ _ _ c H Hc) as (x & Hx & Hs). eexists. cbn. rewrite Hx. exact (conj eq_refl Hs).
Qed.
Next Obligation.
  intros ? k v m rq H H1 H2 H3 H4 H5 H6. destruct (read_directory_sees _ _ _ rq H H1 H2 H3 H4 H5 H6) as (x & Hx & Hs). exists (relog k x). cbn. rewrite Hx.
  destruct (spec_read_directory v rq). exact (conj eq_refl Hs).
Qed.
Next Obligation.
  intros ? k v m rq H H1 H2 H3 H4. destruct (write_sees _ _ _ rq H H1 H2 H3 H4) as (x & Hx & Hs). exists (relog k x). cbn. rewrite Hx. exact (conj eq_refl Hs).
Qed.
Next Obligation.
  intros ? k v m rq H H1 H2 H3 H4. pose proof (write_overruns _ _ _ rq H H1 H2 H3 H4) as Hx. cbn. by rewrite Hx.
Qed.
Next Obligation.
  intros ? k v m rq H H1 H2 H3 H4 H5. destruct (read_sees _ _ _ rq H H1 H2 H3 H4 H5) as (x & Hx & Hs). exists (relog k x). cbn. rewrite Hx.
  destruct (spec_read v (fat_table m) rq). exact (conj eq_refl Hs).
Qed.
Next Obligation.
  intros ? k v m rq H H1 H2 H3 H4 H5 H6. destruct (delete_sees _ _ _ rq H H1 H2 H3 H4 H5 H6) as (x & Hx & Hs). exists (relog k x). cbn. rewrite Hx. exact (conj eq_refl Hs).
Qed.

#[export, program] Instance logged_clusters `{!FileServer K, !ClusterServer K} : ClusterServer (logged K).
Next Obligation.
  intros ? ? k v m c bs H Hc Hb. destruct (write_cluster_sees (unlogged k) v m c bs H Hc Hb) as (x & Hx & Hs). exists (relog k x). cbn. rewrite Hx. exact (conj eq_refl Hs).
Qed.
End logged.

Section screen.
Context {K : Type} `{!SysCalls K, !FileServer K, !Screen K}.
Implicit Types (s : shell K) (v : volume) (m : driver).

(** Nothing was printed in between. *)
Definition quiet s s' : Prop := shown (sys s') = shown (sys s).

#[local] Instance quiet_preorder : PreOrder quiet.
Proof using Type. split; [done|]. unfold quiet. intros a b c H1 H2. congruence. Qed.

Lemma update_quiet k c t k' : update_directory_table k c = Ret (t, k') -> shown k' = shown k.
Proof using Type. intros H. unfold update_directory_table in H. invert_ret H. by eapply read_cluster_shown. Qed.

Lemma put_shown s str color s' : put s str color = Ret s' ->
  shown (sys s') = shown (sys s) ++ [(take (length (CString.cstr str)) str, u8 color)].
Proof using Type.
  intros H. unfold put in H. invert_ret H. apply puts_shown in Hret0. cbn [sys set_sys]. rewrite Hret0.
  destruct (decide (0 ∈ str)) as [Hin|Hin]; rewrite CString.strlen_correct in Hret; [rewrite decide_True in Hret by done|rewrite decide_False in Hret by done; discriminate].
  injection Hret as <-. unfold Zlen. by rewrite Nat2Z.id.
Qed.

Lemma append_quiet s path s' : append_current_path s path = Ret s' -> quiet s s'.
Proof using Type. intros H. unfold append_current_path in H. invert_ret H. reflexivity. Qed.

Lemma retract_quiet s s' : retract_current_path s = Ret s' -> quiet s s'.
Proof using Type. intros H. unfold retract_current_path in H. invert_ret H. reflexivity. Qed.

Lemma change_directory_quiet s nm c code c' s' : change_directory s nm c = Ret (code, c', s') -> quiet s s'.
Proof using Type.
  intros H. unfold change_directory in H. invert_ret H. apply read_directory_shown in Hret0.
  destruct (negb _); invert_ret H; [exact Hret0|]. apply append_quiet in Hret2. unfold quiet in *. cbn in *. congruence.
Qed.

Lemma to_parent_quiet s p s' : to_parent s = Ret (p, s') -> quiet s s'.
Proof using Type.
  intros H. unfold to_parent in H. invert_ret H. apply update_quiet in Hret0. apply retract_quiet in Hret1. unfold quiet in *. cbn in *. congruence.
Qed.

(** A walk that arrives prints nothing. *)
Lemma change_loop_quiet fuel report : forall s path n i c c' s', change_loop fuel report s path n i c = Ret (0, c', s') -> quiet s s'.
Proof using Type.
  induction fuel as [|fuel IH]; intros s path n i c c' s' H; [discriminate|]. cbn [change_loop] in H.
  destruct (negb _); [injection H as _ <-; reflexivity|]. invert_ret H. destruct x0.
  - invert_ret H. destruct x0; [by eapply IH|]. invert_ret H. apply to_parent_quiet in Hret2. etrans; [exact Hret2|by eapply IH].
  - invert_ret H. destruct x0; [by eapply IH|]. invert_ret H. apply change_directory_quiet in Hret2. etrans; [exact Hret2|].
    destruct (Z.eqb_spec a0 0) as [->|Hne]; [|by injection H].
    assert (b = x0) as <- by (destruct report; [unfold report_change in Hret3|]; cbn in Hret3; by injection Hret3). by eapply IH.
Qed.

Lemma Ret_fst {A B} (a a' : A) (b b' : B) : Ret (a, b) = Ret (a', b') -> a = a'.
Proof using Type. congruence. Qed.

Lemma Ret_snd {A B} (a a' : A) (b b' : B) : Ret (a, b) = Ret (a', b') -> b = b'.
Proof using Type. congruence. Qed.

Lemma change_path_quiet s path n s' : change_path s path n = Ret (0, s') -> quiet s s'.
Proof using Type.
  intros H. unfold change_path in H. destruct (n =? 0); [injection H as <-; reflexivity|]. destruct (decide _) as [_|_]; [|discriminate H]. invert_ret H.
  destruct (Z.eqb_spec a0 0) as [->|Hne]; [|destruct (Hne (Ret_fst _ _ _ _ H))].
  apply change_loop_quiet in Hret. rewrite <- (Ret_snd _ _ _ _ H). exact Hret.
Qed.

Lemma cancel_quiet s c p s' : cancel_change_path s c p = Ret s' -> quiet s s'.
Proof using Type. intros H. unfold cancel_change_path in H. invert_ret H. by eapply update_quiet. Qed.

Lemma to_root_quiet s s' : to_root s = Ret s' -> quiet s s'.
Proof using Type. intros H. unfold to_root in H. invert_ret H. by eapply update_quiet. Qed.

Lemma parse_path_quiet s str paths ws n s' : parse_path s str paths = Ret (ws, n, s') -> quiet s s'.
Proof using Type.
  intros H. unfold parse_path in H. invert_ret H. destruct (is_separator x); [by eapply to_root_quiet|by injection Hret0 as <-].
Qed.

Lemma parse_file_name_silent nm n x r str nm' ex : parse_file_name nm n x = Ret (r, Some str, nm', ex) -> r = 1 \/ r = -1.
Proof using Type.
  intros H. unfold parse_file_name in H. apply bind_Ret_inv in H as ([[? ?] ?] & _ & H). apply bind_Ret_inv in H as (len & _ & H).
  apply bind_Ret_inv in H as (long & _ & H). destruct long; [left; congruence|]. apply bind_Ret_inv in H as ([[? ?] ?] & _ & H).
  destruct (_ <? len); [right|]; congruence.
Qed.

Lemma parse_name_quiet s nm fname ext s' : parse_name s nm = Ret (0, fname, ext, s') -> quiet s s'.
Proof using Type.
  intros H. unfold parse_name in H. apply bind_Ret_inv in H as ([[[r msg] nm'] ex] & Hp & H). apply bind_Ret_inv in H as (s1 & Hm & H).
  injection H as Hr _ _ <-. destruct msg as [str|]; [|by injection Hm as <-].
  by apply parse_file_name_silent in Hp as [-> | ->].
Qed.

(** A file that is read prints nothing. *)
Lemma read_file_quiet s path n b out s' : read_file s path n b = Ret (0, out, s') -> quiet s s'.
Proof using Type.
  intros H. unfold read_file in H. apply bind_Ret_inv in H as (saved & _ & H). apply bind_Ret_inv in H as ([code s1] & Hcp & H).
  destruct (Z.eqb_spec code 0) as [->|Hne]; cbn [negb] in H; [|apply bind_Ret_inv in H as (s2 & _ & H); congruence].
  apply change_path_quiet in Hcp. etrans; [exact Hcp|]. clear Hcp. apply bind_Ret_inv in H as (nm & _ & H).
  apply bind_Ret_inv in H as ([[[code2 fname] ext] s2] & Hpn & H).
  destruct (Z.eqb_spec code2 0) as [->|Hne]; cbn [negb] in H; [|apply bind_Ret_inv in H as (s3 & _ & H); congruence].
  apply parse_name_quiet in Hpn. etrans; [exact Hpn|]. clear Hpn. apply bind_Ret_inv in H as (rq & _ & H).
  apply bind_Ret_inv in H as ([[code3 out3] k] & Hrd & H). apply read_shown in Hrd. apply bind_Ret_inv in H as (s3 & Hrep & H).
  apply bind_Ret_inv in H as (s4 & Hc & H). injection H as H3 _ <-. rewrite H3 in Hrep. cbn [negb Z.eqb] in Hrep. injection Hrep as <-.
  apply cancel_quiet in Hc. unfold quiet in *. cbn [sys set_sys] in *. congruence.
Qed.
End screen.

(** The bytes up to the first zero. *)
Lemma cstr_app l r : CString.cstr (l ++ r) = if decide (0 ∈ l) then CString.cstr l else l ++ CString.cstr r.
Proof.
  induction l as [|c l IH]; [by rewrite decide_False by set_solver|]. cbn [app CString.cstr]. destruct (Z.eqb_spec c 0) as [->|Hc].
  - by rewrite decide_True by set_solver.
  - rewrite IH. destruct (decide (0 ∈ l)); [by rewrite decide_True by set_solver|by rewrite decide_False by set_solver].
Qed.

Section cat.
Context {K : Type} `{!SysCalls K, !FileServer K, !Screen K}.
Implicit Types (s : shell K) (v : volume) (m : driver).

(** A file the map has is read. *)
Lemma read_known d rq code out d' data : disk_step d (Read rq) code out d' -> files d !! key_of rq = Some data ->
  Zlen data ≤ buffer_size rq -> (forall c, ~ sub_folder d rq c) ->
  code = 0 /\ take (length data) out = data /\
  drop (Z.to_nat (CLUSTER_SIZE * number_of_partition (Zlen data))) out = drop (Z.to_nat (CLUSTER_SIZE * number_of_partition (Zlen data))) (buf rq).
Proof using Type.
  intros Hst Hf Hle Hno.
  assert (H0 : code = 0).
  { remember (Read rq) as c eqn:Hc. destruct Hst as [| | | | | | | | | |rq' data' Hf' Hlt|rq' c' Hsub|rq' Hf']; try discriminate Hc; try reflexivity; injection Hc as ->.
    - rewrite Hf in Hf'. injection Hf' as <-. lia.
    - by destruct (Hno c').
    - rewrite Hf in Hf'. discriminate. }
  destruct (read_found _ _ _ _ _ Hst H0) as (data' & Hf' & _ & Ht & _ & _ & Hd). rewrite Hf in Hf'. injection Hf' as <-. exact (conj H0 (conj Ht Hd)).
Qed.

Lemma cat_spec v m d s ns w dirs nm b p pns data :
  settled v m s ns -> disk_shows v m d -> no_nul w -> bytes_ok w -> (length w < 512)%nat -> path_names w = dirs ++ [nm] ->
  before_dot nm ≠ [] -> name_code nm = 0 -> (length (joined ns) + 9 * S (length dirs) ≤ 510)%nat -> cluster_buffer b ->
  follow v dirs (if is_absolute w then ROOT_CLUSTER_NUMBER else current_directory s) (if is_absolute w then [] else ns) = Arrived p pns ->
  ~ reserved_name v p nm -> files d !! key_of (read_rq nm p b) = Some data -> Zlen data ≤ CLUSTER_SIZE * 32 ->
  (forall c, ~ sub_folder d (read_rq nm p b) c) ->
  0 ∈ data \/ 0 ∈ drop (Z.to_nat (CLUSTER_SIZE * number_of_partition (Zlen data))) b ->
  exists s' rest, cat s (padded 512 w) 1 b = Ret s' /\ settled v m s' (if is_absolute w then [] else ns) /\
    shown (sys s') = shown (sys s) ++ [(if decide (0 ∈ data) then CString.cstr data else data ++ rest, WHITE); ([10], WHITE)].
Proof using All.
  intros Hs Hd Hw Hb Hl Hnames Hnm Hcode Hroom Hbuf Hfol Hres Hfile Hsize Hno Hzero. unfold cat. cbn [Z.eqb Pos.eqb].
  destruct (start_spec v m s ns w Hs) as (s0 & Hs0r & Hs0 & Hc0).
  assert (Hpp : parse_path s (padded 512 w) empty_path = Ret (rows (dirs ++ [nm]), Zlen (dirs ++ [nm]), s0)).
  { rewrite parse_path_spec by (done || rewrite Hnames, length_app; simpl; lia). by rewrite Hs0r, bind_ret, Hnames. }
  rewrite Hpp, bind_ret. apply parse_path_quiet in Hpp.
  pose proof (path_names_typed w Hw Hb Hl) as Hty. rewrite Hnames in Hty.
  assert (Hroom0 : (length (joined (if is_absolute w then [] else ns)) + 9 * length dirs ≤ 510)%nat) by (destruct (is_absolute w); simpl; lia).
  pose proof (read_file_spec v m d s0 _ dirs nm b Hs0 Hd Hty Hnm Hbuf Hroom0) as Hrf. rewrite Hc0, Hfol in Hrf.
  destruct (Hrf Hres) as (code & out & s1 & Hrun & Hs1 & _ & Hst). rewrite Hcode in Hst. cbn [Z.eqb] in Hst.
  destruct (read_known _ _ _ _ _ _ Hst Hfile Hsize Hno) as (-> & Ht & Hdr). rewrite Hrun, bind_ret. cbn [Z.eqb negb puts_all]. apply read_file_quiet in Hrun.
  assert (Hout : out = data ++ drop (length data) out) by (rewrite <- Ht at 1; by rewrite take_drop).
  assert (H0 : 0 ∈ out).
  { destruct Hzero as [H|H]; [rewrite Hout; set_solver|]. change (buf (read_rq nm p b)) with b in Hdr. rewrite <- Hdr in H.
    rewrite <- (take_drop (Z.to_nat (CLUSTER_SIZE * number_of_partition (Zlen data))) out). set_solver. }
  destruct (put_printed v m s1 out WHITE) as (s2 & Hp2 & H2); [apply Hs1|by eapply read_text|]. rewrite Hp2, bind_ret. apply put_shown in Hp2.
  destruct (put_printed v m s2 (line "") WHITE) as (s3 & Hp3 & H3); [by eapply printed_sees|apply text_line; reflexivity|]. rewrite Hp3, bind_ret. apply put_shown in Hp3.
  exists s3, (CString.cstr (drop (length data) out)). split; [done|]. split.
  - destruct H2 as (k2 & -> & Hk2), H3 as (k3 & -> & Hk3). apply settled_sys; [|exact Hk3]. by apply settled_sys.
  - rewrite Hp3, Hp2. unfold quiet in *. rewrite Hrun, Hpp, <- app_assoc. f_equal. cbn [app]. rewrite cstr_take. rewrite Hout at 1. rewrite cstr_app.
    reflexivity.
Qed.

(** C15: [cat path] prints the file: what it adds to the screen is the file's
    bytes up to the first zero and a newline; a file without a zero byte is
    printed in full, followed by whatever is behind it in the buffer. *)
Theorem cat_prints v m d s ns w dirs nm b p pns data :
  settled v m s ns -> disk_shows v m d -> no_nul w -> bytes_ok w -> (length w < 512)%nat -> path_names w = dirs ++ [nm] ->
  before_dot nm ≠ [] -> name_code nm = 0 -> (length (joined ns) + 9 * S (length dirs) ≤ 510)%nat -> cluster_buffer b ->
  follow v dirs (if is_absolute w then ROOT_CLUSTER_NUMBER else current_directory s) (if is_absolute w then [] else ns) = Arrived p pns ->
  ~ reserved_name v p nm -> files d !! key_of (read_rq nm p b) = Some data -> Zlen data ≤ CLUSTER_SIZE * 32 ->
  (forall c, ~ sub_folder d (read_rq nm p b) c) ->
  0 ∈ data \/ 0 ∈ drop (Z.to_nat (CLUSTER_SIZE * number_of_partition (Zlen data))) b ->
  exists s' rest, cat s (padded 512 w) 1 b = Ret s' /\ settled v m s' (if is_absolute w then [] else ns) /\
    shown (sys s') = shown (sys s) ++ [(if decide (0 ∈ data) then CString.cstr data else data ++ rest, WHITE); ([10], WHITE)].
Proof using All. apply cat_spec. Qed.
End cat.
