(* ===== verification/ShellCp.v ===== *)
(** * [cp]

    Both paths are split before anything is read, so an absolute one makes
    the other start in the root as well.  The copy is as long as the clusters
    [find_buffer_size] counts: the file and what is left of its last cluster. *)
From stdpp Require Import gmap.
From S2P Require Import Prelude CString BlockDevice FatLayout Fat32 FatFacts FatChain FatLoops FatSpec FatRefine FatWrite FatMount FatProps FatInvariant.
From S2P Require Import ShellBase Shell ShellPath ShellFiles ShellCommands ShellFacts ShellLine DirTree DiskTree DiskRemove DiskMap ShellSplit ShellNames ShellWalk ShellCd ShellMkdir ShellRm ShellCat DiskProps.

(** ** The size of the buffer *)

(** Cluster [j] of the buffer has a byte other than 0. *)
Definition cluster_has_data (b : list Z) (j : nat) : Prop :=
  exists i c, (2048 * j ≤ i < 2048 * S j)%nat /\ b !! i = Some c /\ c ≠ 0.
Definition cluster_is_blank (b : list Z) (j : nat) : Prop := forall i, (2048 * j ≤ i < 2048 * S j)%nat -> b !! i = Some 0.

Lemma cluster_used_spec b j : (2048 * S j ≤ length b)%nat ->
  exists r, cluster_used b (Z.of_nat j) = Ret r /\ (cluster_has_data b j -> r = true) /\ (cluster_is_blank b j -> r = false).
Proof.
  intros Hl. unfold cluster_used. set (q := fun c : Z => negb (c =? 0)). set (t := take 2048 (drop (2048 * j) b)).
  assert (Ht : length t = 2048%nat) by (unfold t; rewrite length_take, length_drop; lia).
  pose proof (scan_while_arr q (drop (2048 * j) b) (fun i => c ← arr_get b (2048 * Z.of_nat j + i); Ret (c =? 0)) 2048 0) as Hs.
  rewrite Hs; clear Hs.
  - change (Z.to_nat 0) with 0%nat. rewrite drop_0, bind_ret. fold t. eexists. split; [reflexivity|]. split.
    + intros (i & c & Hi & Hc & Hne). apply Z.ltb_lt. destruct (decide (first_idx q t < 2048)%nat) as [|Hge]; [lia|].
      assert (Hall : first_idx q t = length t) by (pose proof (first_idx_le q t); lia).
      apply first_idx_none in Hall. rewrite Forall_lookup in Hall. specialize (Hall (i - 2048 * j)%nat c). unfold t in Hall.
      rewrite lookup_take_lt, lookup_drop in Hall by lia. replace (2048 * j + (i - 2048 * j))%nat with i in Hall by lia.
      specialize (Hall Hc). unfold q in Hall. apply negb_false_iff, Z.eqb_eq in Hall. contradiction.
    + intros Hb. apply Z.ltb_ge. rewrite first_idx_forall; [lia|]. apply Forall_lookup. intros i c Hc. unfold t in Hc.
      pose proof (lookup_lt_Some _ _ _ Hc) as Hlt. fold t in Hlt. rewrite Ht in Hlt. rewrite lookup_take_lt, lookup_drop in Hc by lia.
      rewrite Hb in Hc by lia. by injection Hc as <-.
  - lia.
  - unfold Zlen. rewrite length_drop. lia.
  - intros i y Hi Hy. rewrite lookup_drop in Hy. rewrite (arr_get_lookup _ _ y), bind_ret; [unfold q; by rewrite negb_involutive|lia|].
    rewrite <- Hy. f_equal. lia.
Qed.

Lemma find_empty_loop_spec b k : cluster_is_blank b k -> (k < 64)%nat -> (2048 * S k ≤ length b)%nat ->
  forall n j fuel, (j + n = k)%nat -> (n < fuel)%nat -> (forall i, (j ≤ i < k)%nat -> cluster_has_data b i) ->
  find_empty_loop fuel b (Z.of_nat j) = Ret (Z.of_nat k).
Proof.
  intros Hk H64 Hl. induction n as [|n IH]; intros j fuel Hj Hf Hd; (destruct fuel as [|fuel]; [lia|]); cbn [find_empty_loop];
    rewrite (proj2 (Z.ltb_lt _ _)) by lia; cbn [negb].
  - assert (j = k) as -> by lia. rewrite (arr_get_lookup _ _ 0), bind_ret by (lia || (rewrite <- (Hk (2048 * k)%nat) by lia; f_equal; lia)).
    cbn [Z.eqb]. destruct (cluster_used_spec b k Hl) as (r & -> & _ & Hr). rewrite bind_ret, Hr by done. done.
  - assert (Hlj : (2048 * S j ≤ length b)%nat) by lia. destruct (lookup_lt_is_Some_2 b (2048 * j)) as [c Hc]; [lia|].
    rewrite (arr_get_lookup _ _ c), bind_ret by (lia || (rewrite <- Hc; f_equal; lia)).
    assert (Hu : (if c =? 0 then cluster_used b (Z.of_nat j) else Ret true) = Ret true).
    { destruct (c =? 0); [|done]. destruct (cluster_used_spec b j Hlj) as (r & -> & Hr & _). by rewrite Hr by (apply Hd; lia). }
    rewrite Hu, bind_ret. replace (Z.of_nat j + 1) with (Z.of_nat (S j)) by lia. apply IH; [lia|lia|]. intros i Hi. apply Hd. lia.
Qed.

(** The clusters before the first blank one. *)
Lemma find_buffer_size_spec b k : cluster_is_blank b k -> (k < 64)%nat -> (2048 * S k ≤ length b)%nat ->
  (forall i, (i < k)%nat -> cluster_has_data b i) -> find_buffer_size b = Ret (CLUSTER_SIZE * Z.of_nat k).
Proof.
  intros Hk H64 Hl Hd. unfold find_buffer_size.
  pose proof (find_empty_loop_spec b k Hk H64 Hl k 0 65 eq_refl ltac:(lia) (fun i Hi => Hd i (proj2 Hi))) as H. change (Z.of_nat 0) with 0 in H. rewrite H, bind_ret.
  unfold CLUSTER_SIZE, BLOCK_SIZE, CLUSTER_BLOCK_COUNT. rewrite (wrap_small 32) by (unfold is_word; change (2 ^ 32) with 4294967296; lia). f_equal. lia.
Qed.

Section cp.
Context {K : Type} `{!SysCalls K, !FileServer K}.
Implicit Types (s : shell K) (v : volume) (m : driver).

(** ** Writing a file to a folder *)

(** The call of [write] for a file, on the map. *)
Lemma write_call v m d k nm p pns b size : sees k v m -> disk_shows v m d -> located v pns p -> typed_name nm -> before_dot nm ≠ [] ->
  size ≠ 0 -> write_args_ok m (file_rq nm p b size) -> Zlen b ≤ BUFFER_LIMIT ->
  exists code k' v' m' d', sys_write k (file_rq nm p b size) = Ret (code, k') /\ sees k' v' m' /\ disk_shows v' m' d' /\
    disk_step d (Write (file_rq nm p b size)) code b d' /\ (forall x ns, paths d !! x = Some ns -> paths d' !! x = Some ns) /\
    code = (spec_write v m (file_rq nm p b size)).1.
Proof using Type.
  intros Hk [Hm [cs Hd] Hh] Hp (Hn & Hb & _) Hne Hsz Hargs Hlim. pose proof (wa_request _ _ Hargs) as Hrq. pose proof (sees_length _ _ _ Hk) as Hlen.
  assert (Hblk : forall c, in_map c -> block_ok (vol_get v c)) by (intros c; by eapply sees_block).
  pose proof (not_blank nm (name3 (extension nm)) Hn Hne) as Hblank.
  destruct (write_step v m d (file_rq nm p b size) Hlen Hblk Hm Hh cs Hd Hrq pns Hp Hblank _ eq_refl Hargs) as (d' & Hsh & Hst); [done|].
  destruct (write_sees k v m (file_rq nm p b size) Hk Hm Hargs (file_no_overrun v m (file_rq nm p b size) Hsz) Hlim) as (k' & Hw & Hk').
  exists (spec_write v m (file_rq nm p b size)).1, k', (spec_write v m (file_rq nm p b size)).2.1, (spec_write v m (file_rq nm p b size)).2.2, d'.
  refine (conj Hw (conj Hk' (conj Hsh (conj Hst (conj _ eq_refl))))). intros x ns Hx.
  remember (Write (file_rq nm p b size)) as c eqn:Hc. destruct Hst; try discriminate Hc; injection Hc as ->; try exact Hx. contradiction.
Qed.

(** The call of [write] for a folder. *)
Lemma folder_call v m d k nm p pns : sees k v m -> disk_shows v m d -> located v pns p -> typed_name nm -> nm ≠ [] -> 46 ∉ nm -> 47 ∉ nm ->
  exists d', disk_shows (spec_write v m (folder_rq nm p)).2.1 (spec_write v m (folder_rq nm p)).2.2 d' /\
    disk_step d (Write (folder_rq nm p)) (spec_write v m (folder_rq nm p)).1 [] d'.
Proof using Type.
  intros Hk [Hm [cs Hd] Hh] Hp Hty Hne Hdot Hsep. pose proof (sees_length _ _ _ Hk) as Hlen.
  assert (Hblk : forall c, in_map c -> block_ok (vol_get v c)) by (intros c; by eapply sees_block).
  pose proof (folder_rq_ok m nm p Hty (located_map v _ (dk_tree _ _ _ Hd) _ _ Hp)) as Hargs.
  assert (Hblank : matches (name8 nm) (replicate 3 0) empty_entry = false).
  { pose proof (not_blank nm (replicate 3 0) (proj1 Hty)) as H. rewrite before_dot_all in H by exact Hdot. by apply H. }
  destruct (write_step v m d (folder_rq nm p) Hlen Hblk Hm Hh cs Hd (wa_request _ _ Hargs) pns Hp Hblank _ eq_refl Hargs) as (d' & Hsh & Hst).
  - intros _. apply name8_folder; [exact Hne|apply Hty|exact Hsep].
  - by exists d'.
Qed.

Lemma write_file_to_spec v m d s ns dirs nm b size :
  settled v m s ns -> disk_shows v m d -> Forall typed_name dirs -> typed_name nm -> before_dot nm ≠ [] ->
  size ≠ 0 -> (forall p, in_map p -> write_args_ok m (file_rq nm p b size)) -> Zlen b ≤ BUFFER_LIMIT ->
  (length (joined ns) + 9 * length dirs ≤ 510)%nat ->
  match follow v dirs (current_directory s) ns with
  | Arrived p pns =>
      exists code v' m' d' s', write_to s (padded 512 nm) (rows dirs) (Zlen dirs) b size false = Ret (s8 code, s') /\ settled v' m' s' ns /\
        current_directory s' = current_directory s /\ disk_shows v' m' d' /\ disk_step d (Write (file_rq nm p b size)) code b d' /\
        code = (spec_write v m (file_rq nm p b size)).1
  | Refused err => exists s', write_to s (padded 512 nm) (rows dirs) (Zlen dirs) b size false = Ret (err, s') /\ settled v m s' ns /\
        current_directory s' = current_directory s
  | Stuck => write_to s (padded 512 nm) (rows dirs) (Zlen dirs) b size false = Hang
  end.
Proof using Type.
  intros Hs Hd Hty Hnmt Hnm Hsz Hargs Hlim Hroom. destruct (sh_disk _ _ _ Hd) as [cs Hdk]. pose proof (dk_tree _ _ _ Hdk) as Htree.
  unfold write_to. rewrite (save_path v m s ns Hs), bind_ret.
  pose proof (change_path_spec v m Htree s ns dirs [] Hs) as Hcp. rewrite app_nil_r in Hcp. specialize (Hcp Hty Hroom).
  pose proof (located_map v _ Htree _ _ (st_located _ _ _ _ Hs)) as Hcm.
  destruct (follow v dirs _ _) as [p pns|err|].
  - destruct Hcp as (s1 & -> & Hs1 & <-). rewrite bind_ret. cbn [Z.eqb negb].
    destruct (parse_name_printed v m s1 nm (st_sees _ _ _ _ Hs1) Hnmt) as (s2 & -> & k2 & -> & Hk2). rewrite !bind_assoc, bind_ret, make_file_request, !bind_ret.
    pose proof (st_located _ _ _ _ Hs1) as Hl1. pose proof (located_map v _ Htree _ _ Hl1) as Hpm. cbn [current_directory set_sys sys].
    destruct (write_call v m d k2 nm _ pns b size Hk2 Hd Hl1 Hnmt Hnm Hsz (Hargs _ Hpm) Hlim) as (code & k3 & v' & m' & d' & -> & Hk3 & Hd' & Hst & Hpk & Hco). rewrite bind_ret.
    assert (Hkept : located v' ns (current_directory s)).
    { apply (ho_paths _ _ _ (sh_holds _ _ _ Hd')), Hpk, (ho_paths _ _ _ (sh_holds _ _ _ Hd)), Hs. }
    destruct (report_write_printed v' m' dirs Hty (set_sys (set_sys s1 k2) k3) (padded 512 nm) (s8 code) false) as (s3 & -> & k4 & -> & Hk4).
    { exact Hk3. } { apply text_padded; [apply Hnmt|done]. } { cbn. rewrite (st_table _ _ _ _ Hs1). eapply text_table; [exact Htree|apply Hs1|exact Hl1]. }
    rewrite bind_ret. destruct (cancel_spec v' m' (set_sys (set_sys (set_sys s1 k2) k3) k4) ns (current_directory s)) as (s4 & -> & Hs4 & Hc4).
    { exact Hk4. } { exact Hkept. } { exact Hcm. } { apply Hs. } { exact (settled_length _ _ _ _ Hs1). } { apply (st_after _ _ _ _ Hs1). }
    rewrite bind_ret. exists code, v', m', d', s4. exact (conj eq_refl (conj Hs4 (conj Hc4 (conj Hd' (conj Hst Hco))))).
  - destruct Hcp as (s1 & -> & Herr & Hs1 & Hc1). rewrite bind_ret, (proj2 (Z.eqb_neq _ _)) by done. cbn [negb].
    destruct (cancel_spec v m s1 ns (current_directory s)) as (s2 & -> & Hs2 & Hc2); [apply Hs1|apply Hs|exact Hcm|apply Hs|by eapply settled_length|apply Hs1|].
    rewrite bind_ret. exists s2. exact (conj eq_refl (conj Hs2 Hc2)).
  - by rewrite Hcp.
Qed.

(** ** The command *)

(** Where both paths start. *)
Definition both_absolute (w1 w2 : list Z) : bool := is_absolute w1 || is_absolute w2.

Lemma two_starts v m s ns w1 w2 : settled v m s ns -> exists s0 s1, (if is_absolute w1 then to_root s else Ret s) = Ret s0 /\
  (if is_absolute w2 then to_root s0 else Ret s0) = Ret s1 /\ settled v m s1 (if both_absolute w1 w2 then [] else ns) /\
  current_directory s1 = (if both_absolute w1 w2 then ROOT_CLUSTER_NUMBER else current_directory s).
Proof using Type.
  intros Hs. destruct (start_spec v m s ns w1 Hs) as (s0 & Hr0 & Hs0 & Hc0). destruct (start_spec v m s0 _ w2 Hs0) as (s1 & Hr1 & Hs1 & Hc1).
  exists s0, s1. split; [exact Hr0|]. split; [exact Hr1|]. unfold both_absolute. rewrite Hc0 in Hc1. by destruct (is_absolute w1), (is_absolute w2).
Qed.

Lemma copy_write_args m nm out k : mounted m -> typed_name nm -> bytes_ok out -> (2048 * k ≤ length out)%nat -> (k ≤ 32)%nat ->
  (is_free (word_after_map m) = true -> Z.of_nat k ≠ free_clusters (fat_table m) + 1) ->
  forall p, in_map p -> write_args_ok m (file_rq nm p out (CLUSTER_SIZE * Z.of_nat k)).
Proof using Type.
  intros Hm Hn Hb Hl Hk Hcount p Hp.
  assert (Hnp : number_of_partition (CLUSTER_SIZE * Z.of_nat k) = Z.of_nat k).
  { unfold number_of_partition. change CLUSTER_SIZE with 2048. rewrite (Z.mul_comm 2048), Z.mod_mul, Z.div_mul by lia. simpl. lia. }
  split; [|exact Hp| |exact Hb|].
  - apply file_rq_ok; [apply Hn|]. unfold is_word. change CLUSTER_SIZE with 2048. change (2 ^ 32) with 4294967296. lia.
  - cbn [file_rq buffer_size buf]. rewrite Hnp. change CLUSTER_SIZE with 2048. unfold Zlen. lia.
  - cbn [file_rq buffer_size]. by rewrite Hnp.
Qed.

Lemma copied_buffer (b out data : list Z) k : k = Z.to_nat (number_of_partition (Zlen data)) -> bytes_ok b ->
  take (length data) out = data -> length out = length b -> bytes_ok (take (Z.to_nat (CLUSTER_SIZE * number_of_partition (Zlen data))) out) ->
  drop (Z.to_nat (CLUSTER_SIZE * number_of_partition (Zlen data))) out = drop (Z.to_nat (CLUSTER_SIZE * number_of_partition (Zlen data))) b ->
  cluster_is_blank b k -> (forall j, (j < k)%nat -> cluster_has_data data j) ->
  bytes_ok out /\ cluster_is_blank out k /\ (forall j, (j < k)%nat -> cluster_has_data out j) /\ (2048 * S k ≤ length out)%nat.
Proof using Type.
  intros Hk Hb Ht Hl Hbt Hdr Hblank Hdata. pose proof (number_of_partition_ge (Zlen data) ltac:(unfold Zlen; lia)) as Hge.
  assert (HK : Z.to_nat (CLUSTER_SIZE * number_of_partition (Zlen data)) = (2048 * k)%nat) by (change CLUSTER_SIZE with 2048; unfold Zlen in *; lia).
  rewrite HK in *. split; [rewrite <- (take_drop (2048 * k) out); apply Forall_app; split; [exact Hbt|rewrite Hdr; by apply Forall_drop]|].
  assert (Hsame : forall i, (2048 * k ≤ i)%nat -> out !! i = b !! i).
  { intros i Hi. replace i with (2048 * k + (i - 2048 * k))%nat by lia. by rewrite <- !lookup_drop, Hdr. }
  split; [|split].
  - intros i Hi. rewrite Hsame by lia. by apply Hblank.
  - intros j Hj. destruct (Hdata j Hj) as (i & c & Hi & Hc & Hne). exists i, c. split; [exact Hi|]. split; [|exact Hne].
    rewrite <- Ht in Hc. rewrite lookup_take_Some in Hc. apply Hc.
  - rewrite Hl. pose proof (lookup_lt_Some _ _ _ (Hblank (2048 * S k - 1)%nat ltac:(lia))). lia.
Qed.

(** The file can be copied: no cluster of it is blank, the one behind it in
    the buffer is, and the look behind the table does not mislead [write]. *)
Definition copies m (data b : list Z) : Prop :=
  let k := Z.to_nat (number_of_partition (Zlen data)) in
  data ≠ [] /\ (forall j, (j < k)%nat -> cluster_has_data data j) /\ cluster_is_blank b k /\
  (is_free (word_after_map m) = true -> Z.of_nat k ≠ free_clusters (fat_table m) + 1).

(** Both paths are split, then the file is copied. *)
Lemma cp_starts v m s ns w1 w2 b : settled v m s ns -> no_nul w1 -> no_nul w2 -> (length w1 < 512)%nat -> (length w2 < 512)%nat ->
  (length (path_names w1) < 256)%nat -> (length (path_names w2) < 256)%nat ->
  exists s1, cp s (padded 512 w1) (padded 512 w2) 2 b = copy_file s1 (rows (path_names w1)) (Zlen (path_names w1)) (rows (path_names w2)) (Zlen (path_names w2)) b /\
    settled v m s1 (if both_absolute w1 w2 then [] else ns) /\
    current_directory s1 = (if both_absolute w1 w2 then ROOT_CLUSTER_NUMBER else current_directory s).
Proof using Type.
  intros Hs Hw1 Hw2 Hl1 Hl2 Hn1 Hn2. destruct (two_starts v m s ns w1 w2 Hs) as (s0 & s1 & Hr0 & Hr1 & Hs1 & Hc1). exists s1. split; [|exact (conj Hs1 Hc1)].
  unfold cp. cbn [Z.eqb Pos.eqb]. rewrite parse_path_spec, Hr0, !bind_ret by done. by rewrite parse_path_spec, Hr1, !bind_ret by done.
Qed.

(** The second half: the file is in the buffer. *)
Lemma copy_known v m d s ns dirs nm ws2 p1 b out data : settled v m s ns -> disk_shows v m d -> typed_name nm -> before_dot nm ≠ [] -> Forall typed_name ws2 ->
  (length (joined ns) + 9 * length ws2 ≤ 510)%nat -> cluster_buffer b -> disk_step d (Read (read_rq nm p1 b)) 0 out d ->
  files d !! key_of (read_rq nm p1 b) = Some data -> Zlen data ≤ CLUSTER_SIZE * 32 -> copies m data b ->
  let k := Z.to_nat (number_of_partition (Zlen data)) in
  let rest := name ← row (rows (dirs ++ [nm])) (Zlen (dirs ++ [nm]) - 1); size ← find_buffer_size out;
    '(_, s) ← write_to s name (rows ws2) (Zlen ws2) out size false; Ret s in
  take (length data) out = data /\ (2048 * k ≤ length out)%nat /\
  match follow v ws2 (current_directory s) ns with
  | Arrived p2 _ => exists code v' m' d' s', rest = Ret s' /\ settled v' m' s' ns /\ current_directory s' = current_directory s /\
      disk_shows v' m' d' /\ disk_step d (Write (file_rq nm p2 out (CLUSTER_SIZE * Z.of_nat k))) code out d' /\
      code = (spec_write v m (file_rq nm p2 out (CLUSTER_SIZE * Z.of_nat k))).1
  | Refused _ => exists s', rest = Ret s' /\ settled v m s' ns
  | Stuck => rest = Hang
  end.
Proof using Type.
  intros Hs Hd Hnmt Hnm Hty2 Hroom Hbuf Hst Hfile Hsize (Hne & Hdata & Hblank & Hcount) k rest.
  assert (Hread : take (length data) out = data /\ length out = length b /\ bytes_ok (take (Z.to_nat (CLUSTER_SIZE * number_of_partition (Zlen data))) out) /\
    drop (Z.to_nat (CLUSTER_SIZE * number_of_partition (Zlen data))) out = drop (Z.to_nat (CLUSTER_SIZE * number_of_partition (Zlen data))) b).
  { destruct (read_found _ _ _ _ _ Hst eq_refl) as (data' & Hf' & _ & Ht & Hlo & Hbt & Hdr). rewrite Hfile in Hf'. injection Hf' as <-.
    exact (conj Ht (conj Hlo (conj Hbt Hdr))). }
  destruct Hread as (Ht & Hlo & Hbt & Hdr).
  destruct (copied_buffer b out data k eq_refl (proj2 Hbuf) Ht Hlo Hbt Hdr Hblank Hdata) as (Hbo & Hblo & Hdo & Hll).
  split; [exact Ht|]. split; [lia|].
  pose proof (number_of_partition_ge (Zlen data) ltac:(unfold Zlen; lia)) as Hge.
  assert (Hk0 : (0 < k)%nat) by (destruct data; [done|]; unfold k, Zlen in *; simpl length in *; lia).
  assert (Hk32 : (k ≤ 32)%nat).
  { pose proof (number_of_partition_le (Zlen data) (CLUSTER_SIZE * 32) ltac:(unfold Zlen; lia) Hsize) as H.
    change (number_of_partition (CLUSTER_SIZE * 32)) with 32 in H. unfold k. lia. }
  assert (Hlim : Zlen out ≤ BUFFER_LIMIT) by (unfold Zlen; rewrite Hlo; apply Hbuf).
  assert (Hsz : CLUSTER_SIZE * Z.of_nat k ≠ 0) by (change CLUSTER_SIZE with 2048; lia).
  pose proof (copy_write_args m nm out k (sh_mounted _ _ _ Hd) Hnmt Hbo ltac:(lia) Hk32 Hcount) as Hargs.
  assert (Hrest : rest = ('(_, s) ← write_to s (padded 512 nm) (rows ws2) (Zlen ws2) out (CLUSTER_SIZE * Z.of_nat k) false; Ret s)).
  { unfold rest. replace (Zlen (dirs ++ [nm]) - 1) with (Zlen dirs) by (rewrite Zlen_app; unfold Zlen; simpl; lia).
    unfold row. rewrite (arr_get_lookup _ _ (padded 512 nm)), bind_ret; [|unfold Zlen; lia|].
    2: { apply lookup_rows. unfold Zlen. by rewrite Nat2Z.id, lookup_app_r, Nat.sub_diag by lia. }
    by rewrite (find_buffer_size_spec out k Hblo ltac:(lia) Hll Hdo), bind_ret. }
  rewrite Hrest. pose proof (write_file_to_spec v m d s ns ws2 nm out _ Hs Hd Hty2 Hnmt Hnm Hsz Hargs Hlim Hroom) as Hwr.
  destruct (follow v ws2 (current_directory s) ns) as [p2 pns2|err|].
  - destruct Hwr as (code & v' & m' & d' & s3 & -> & Hs3 & Hc3 & Hd' & Hst' & Hco). rewrite bind_ret.
    exists code, v', m', d', s3. exact (conj eq_refl (conj Hs3 (conj Hc3 (conj Hd' (conj Hst' Hco))))).
  - destruct Hwr as (s3 & -> & Hs3 & _). rewrite bind_ret. exists s3. exact (conj eq_refl Hs3).
  - by rewrite Hwr.
Qed.

Lemma cp_spec v m d s ns w1 w2 dirs nm b p1 pns1 p2 pns2 data :
  settled v m s ns -> disk_shows v m d ->
  no_nul w1 -> bytes_ok w1 -> (length w1 < 512)%nat -> path_names w1 = dirs ++ [nm] ->
  no_nul w2 -> bytes_ok w2 -> (length w2 < 512)%nat ->
  before_dot nm ≠ [] -> name_code nm = 0 -> (length (joined ns) + 9 * S (length dirs) ≤ 510)%nat -> (length (joined ns) + 9 * length (path_names w2) ≤ 510)%nat ->
  cluster_buffer b ->
  let c0 := if both_absolute w1 w2 then ROOT_CLUSTER_NUMBER else current_directory s in
  let ns0 := if both_absolute w1 w2 then [] else ns in
  follow v dirs c0 ns0 = Arrived p1 pns1 -> follow v (path_names w2) c0 ns0 = Arrived p2 pns2 ->
  ~ reserved_name v p1 nm -> files d !! key_of (read_rq nm p1 b) = Some data -> Zlen data ≤ CLUSTER_SIZE * 32 ->
  (forall c, ~ sub_folder d (read_rq nm p1 b) c) -> copies m data b ->
  let k := Z.to_nat (number_of_partition (Zlen data)) in
  exists code v' m' d' s' out, cp s (padded 512 w1) (padded 512 w2) 2 b = Ret s' /\ settled v' m' s' ns0 /\ current_directory s' = c0 /\
    disk_shows v' m' d' /\ disk_step d (Write (file_rq nm p2 out (CLUSTER_SIZE * Z.of_nat k))) code out d' /\
    code = (spec_write v m (file_rq nm p2 out (CLUSTER_SIZE * Z.of_nat k))).1 /\
    take (length data) out = data /\ (2048 * k ≤ length out)%nat.
Proof using Type.
  intros Hs Hd Hw1 Hb1 Hl1 Hn1 Hw2 Hb2 Hl2 Hnm Hcode Hroom1 Hroom2 Hbuf c0 ns0 Hf1 Hf2 Hres Hfile Hsize Hno Hcop k.
  destruct (cp_starts v m s ns w1 w2 b Hs Hw1 Hw2 Hl1 Hl2) as (s1 & -> & Hs1 & Hc1); [rewrite Hn1, length_app; simpl; lia|lia|]. fold c0 ns0 in Hs1, Hc1.
  pose proof (path_names_typed w1 Hw1 Hb1 Hl1) as Hty1. rewrite Hn1 in *. pose proof (path_names_typed w2 Hw2 Hb2 Hl2) as Hty2.
  assert (Hnmt : typed_name nm) by (apply Forall_app in Hty1 as [_ Hty']; by rewrite Forall_singleton in Hty').
  assert (Hj : (length (joined ns0) ≤ length (joined ns))%nat) by (unfold ns0; destruct (both_absolute w1 w2); simpl; lia).
  pose proof (read_file_spec v m d s1 ns0 dirs nm b Hs1 Hd Hty1 Hnm Hbuf ltac:(lia)) as Hrf. rewrite Hc1, Hf1 in Hrf. unfold copy_file.
  destruct (Hrf Hres) as (code & out & s2 & -> & Hs2 & Hc2 & Hst). rewrite Hcode in Hst. cbn [Z.eqb] in Hst.
  destruct (read_known _ _ _ _ _ _ Hst Hfile Hsize Hno) as (-> & _). rewrite bind_ret. cbn [Z.eqb negb].
  destruct (copy_known v m d s2 ns0 dirs nm (path_names w2) p1 b out data Hs2 Hd Hnmt Hnm Hty2 ltac:(lia) Hbuf Hst Hfile Hsize Hcop) as (Ht & Hlo & Hwr).
  rewrite Hc2, Hf2 in Hwr. destruct Hwr as (code & v' & m' & d' & s3 & Hrun & Hs3 & Hc3 & Hd' & Hst' & Hco).
  exists code, v', m', d', s3, out. exact (conj Hrun (conj Hs3 (conj Hc3 (conj Hd' (conj Hst' (conj Hco (conj Ht Hlo))))))).
Qed.

(** What a [write] of a file left on the map, by the room there was. *)
Lemma write_decided v m d rq code out d' : request_ok rq -> buffer_size rq ≠ 0 -> code = (spec_write v m rq).1 ->
  disk_step d (Write rq) code out d' ->
  (files d !! key_of rq = None -> has_room v m (Write rq) -> d' = with_files d (<[key_of rq := take (Z.to_nat (buffer_size rq)) (buf rq)]> (files d))) /\
  (~ (files d !! key_of rq = None /\ has_room v m (Write rq)) -> d' = d).
Proof using Type.
  intros Hrq Hsz Hcode Hst. split.
  - intros Hnone Hroom. apply (room_enough v m rq Hrq) in Hroom. rewrite <- Hcode in Hroom. inversion Hst; subst; congruence.
  - intros Hnot. inversion Hst; subst; try congruence. destruct Hnot. split; [assumption|]. by apply room_was_there.
Qed.

End cp.
