(* ===== verification/ShellSession.v ===== *)
(** * Sessions

    Any sequence of [cd], [mkdir], [rm], [cat] and [cp] commands leaves a disk
    in order, a mounted driver and a shell that stands in a folder of its
    tree; what happened to the disk is a sequence of steps of the map. *)
From stdpp Require Import gmap.
From S2P Require Import Prelude CString BlockDevice FatLayout Fat32 FatFacts FatChain FatLoops FatSpec FatRefine FatWrite FatMount FatProps.
From S2P Require Import ShellBase Shell ShellPath ShellFiles ShellCommands ShellFacts ShellLine ShellSplit DirTree DiskTree DiskRemove DiskMap ShellNames ShellWalk ShellCd ShellMkdir ShellRm ShellCat ShellCp.

(** [b]: what the stack holds where the command has its buffer. *)
Inductive command :=
  | Cd (w : list Z)
  | Mkdir (w : list Z)
  | Rm (w : list Z)
  | Cat (w b : list Z)
  | Cp (w1 w2 b : list Z).

(** The paths of a command, and the buffer it is run with. *)
Definition paths_of (c : command) : list (list Z) :=
  match c with Cd w | Mkdir w | Rm w | Cat w _ => [w] | Cp w1 w2 _ => [w1; w2] end.

(** The argument fits its buffer. *)
Definition argument (w : list Z) : Prop := no_nul w /\ bytes_ok w /\ (length w < 512)%nat.

(** Bytes a command can add to the printed path. *)
Definition depth (c : command) : nat := sum_list_with (fun w => 9 * length (path_names w))%nat (paths_of c).

(** The last name of the path, in the folder the rest of it leads to. *)
Definition names_file (v : volume) (c0 : Z) (ns0 : list (list Z)) (w : list Z) (P : list Z -> Z -> list (list Z) -> Prop) : Prop :=
  exists dirs nm, path_names w = dirs ++ [nm] /\ before_dot nm ≠ [] /\
    forall p pns, follow v dirs c0 ns0 = Arrived p pns -> ~ reserved_name v p nm /\ P nm p pns.

Section session.
Context {K : Type} `{!SysCalls K, !FileServer K}.
Implicit Types (s : shell K) (v : volume) (m : driver) (ns : list (list Z)).

Definition run_one s (c : command) : res (shell K) :=
  match c with
  | Cd w => cd s (padded 512 w) 1
  | Mkdir w => mkdir s (padded 512 w) 1
  | Rm w => rm s (padded 512 w) 1
  | Cat w b => cat s (padded 512 w) 1 b
  | Cp w1 w2 b => cp s (padded 512 w1) (padded 512 w2) 2 b
  end.

Fixpoint run_commands s (cs : list command) : res (shell K) :=
  match cs with [] => Ret s | c :: cs' => s ← run_one s c; run_commands s cs' end.

Record in_order v m d s ns : Prop := MkInOrder {
  io_settled : settled v m s ns;
  io_shows : disk_shows v m d
}.

Definition start_cluster (w : list Z) s : Z := if is_absolute w then ROOT_CLUSTER_NUMBER else current_directory s.
Definition start_names (w : list Z) (ns : list (list Z)) : list (list Z) := if is_absolute w then [] else ns.

(** What a command asks for: arguments that fit, room for the printed path; a
    folder is not made outside the root; a file that is not called as its folder
    or the folder's parent; a folder that is removed is not the shell's own;
    a zero byte behind the clusters of a buffer that is printed; a file that is
    copied has no blank cluster ([copies]). *)
Definition admissible v m d s ns (c : command) : Prop :=
  Forall argument (paths_of c) /\ (length (joined ns) + depth c ≤ 510)%nat /\
  match c with
  | Cd _ => True
  | Mkdir w => exists dirs nm, path_names w = dirs ++ [nm] /\ nm ≠ [] /\
      forall p pns, follow v dirs (start_cluster w s) (start_names w ns) = Arrived p pns -> 46 ∉ nm -> overruns_literal v m (folder_rq nm p) = false
  | Rm w => names_file v (start_cluster w s) (start_names w ns) w (fun nm p pns => ns ≠ pns ++ [CString.cstr (name8 (before_dot nm))])
  | Cat w b => cluster_buffer b /\ 0 ∈ drop (Z.to_nat (CLUSTER_SIZE * 32)) b /\
      names_file v (start_cluster w s) (start_names w ns) w (fun _ _ _ => True)
  | Cp w1 w2 b => cluster_buffer b /\
      names_file v (if both_absolute w1 w2 then ROOT_CLUSTER_NUMBER else current_directory s) (if both_absolute w1 w2 then [] else ns) w1
        (fun nm p pns => forall data, files d !! key_of (read_rq nm p b) = Some data -> copies m data b)
  end.

(** Every command may be run when its turn comes. *)
Fixpoint all_admissible s (cs : list command) : Prop :=
  match cs with
  | [] => True
  | c :: cs' => (forall v m d ns, in_order v m d s ns -> admissible v m d s ns c) /\ forall s', run_one s c = Ret s' -> all_admissible s' cs'
  end.

(** A walk only gets stuck on a name [..]. *)
Lemma follow_stuck v path : forall c ns, follow v path c ns = Stuck -> bytes_of_string ".." ∈ path.
Proof using Type.
  induction path as [|w path IH]; intros c ns H; cbn [follow] in H; [done|]. case_decide as Hw; [subst; by apply elem_of_cons; left|].
  apply elem_of_cons. right. case_decide; [by eapply IH|]. destruct (lookup_first _ _) as [e|]; [|done]. destruct (_ =? _); [by eapply IH|done].
Qed.

Definition climbs (c : command) : Prop := Exists (fun w => bytes_of_string ".." ∈ path_names w) (paths_of c).

(** What a command does to the map: [cd] and [cat] nothing; [mkdir] and [rm] the
    step of the call they make in the folder the path leads to, with the code
    of FatSpec.v; [cp] the step of the [write] of the original's bytes, where
    there is a file that can be read; and nothing when the path leads
    nowhere. *)
Definition command_step v m s ns d (c : command) d' : Prop :=
  match c with
  | Cd _ | Cat _ _ => d' = d
  | Mkdir w => exists dirs nm, path_names w = dirs ++ [nm] /\
      if decide (46 ∈ nm) then d' = d
      else match follow v dirs (start_cluster w s) (start_names w ns) with
           | Arrived p _ => disk_step d (Write (folder_rq nm p)) (spec_write v m (folder_rq nm p)).1 [] d'
           | _ => d' = d
           end
  | Rm w => exists dirs nm, path_names w = dirs ++ [nm] /\
      match follow v dirs (start_cluster w s) (start_names w ns) with
      | Arrived p _ => disk_step d (Remove (rm_rq nm p)) (spec_delete v m (rm_rq nm p)).1 [] d'
      | _ => d' = d
      end
  | Cp w1 w2 b => exists dirs nm, path_names w1 = dirs ++ [nm] /\
      let c0 := if both_absolute w1 w2 then ROOT_CLUSTER_NUMBER else current_directory s in
      let ns0 := if both_absolute w1 w2 then [] else ns in
      match follow v dirs c0 ns0, follow v (path_names w2) c0 ns0 with
      | Arrived p _, Arrived p2 _ =>
          (exists data out, files d !! key_of (read_rq nm p b) = Some data /\ take (length data) out = data /\
             let rq := file_rq nm p2 out (CLUSTER_SIZE * number_of_partition (Zlen data)) in
             disk_step d (Write rq) (spec_write v m rq).1 out d') \/
          (d' = d /\ forall data, files d !! key_of (read_rq nm p b) = Some data ->
             ~ (name_code nm = 0 /\ Zlen data ≤ CLUSTER_SIZE * 32 /\ forall x, ~ sub_folder d (read_rq nm p b) x))
      | _, _ => d' = d
      end
  end.

(** The commands one after another, each on the disk and in the folder its
    predecessor left. *)
Inductive session_steps : shell K -> disk_map -> list command -> shell K -> disk_map -> Prop :=
  | session_done s d : session_steps s d [] s d
  | session_more v m ns s d c s1 d1 cs s2 d2 : in_order v m d s ns -> run_one s c = Ret s1 -> command_step v m s ns d c d1 ->
      session_steps s1 d1 cs s2 d2 -> session_steps s d (c :: cs) s2 d2.

(** What the session theorem says of one command. *)
Definition keeps_order v m d s ns (c : command) : Prop :=
  (run_one s c = Hang /\ climbs c) \/
  exists s' v' m' d' ns', run_one s c = Ret s' /\ in_order v' m' d' s' ns' /\ command_step v m s ns d c d' /\
    (length (joined ns') ≤ length (joined ns) + depth c)%nat.

Lemma ends_in_order v m d s ns c s' v' m' d' ns' : run_one s c = Ret s' -> settled v' m' s' ns' -> disk_shows v' m' d' ->
  command_step v m s ns d c d' -> (length (joined ns') ≤ length (joined ns) + depth c)%nat -> keeps_order v m d s ns c.
Proof using Type.
  intros Hr Hs Hd Hst Hl. right. exists s', v', m', d', ns'. refine (conj Hr (conj _ (conj Hst Hl))). by split.
Qed.

(** A command that comes back ends where it started, or in the root. *)
Local Ltac comes_back := cbn [paths_of]; first [lia | destruct (is_absolute _); simpl; lia | destruct (both_absolute _ _); simpl; lia].
Local Ltac same := eapply ends_in_order; [eassumption|eassumption|eassumption| |comes_back].

Lemma start_room w ns : (length (joined (start_names w ns)) ≤ length (joined ns))%nat.
Proof using Type. unfold start_names. destruct (is_absolute w); simpl; lia. Qed.

Lemma start_located v m s ns w : settled v m s ns ->
  located v (if is_absolute w then [] else ns) (if is_absolute w then ROOT_CLUSTER_NUMBER else current_directory s).
Proof using Type. intros Hs. destruct (is_absolute w); [constructor|apply Hs]. Qed.

Lemma cd_keeps v m d s ns w : in_order v m d s ns -> admissible v m d s ns (Cd w) -> keeps_order v m d s ns (Cd w).
Proof using Type.
  intros [Hs Hd] (Hw & Hroom & _). apply Forall_singleton in Hw as (Hw & Hb & Hl). destruct (sh_disk _ _ _ Hd) as [cs Hdk].
  unfold depth in Hroom. cbn [paths_of sum_list_with] in Hroom. rewrite Nat.add_0_r in Hroom.
  pose proof (cd_spec v m (dk_tree _ _ _ Hdk) s ns w Hs Hw Hb Hl Hroom) as H. cbv zeta in H.
  pose proof (follow_room v _ (dk_tree _ _ _ Hdk) (path_names w) _ _ (start_located v m s ns w Hs)) as Hfr.
  destruct (follow _ _ _ _) as [c' ns'|err|] eqn:E.
  - destruct H as (s2 & H & Hs2 & _). eapply ends_in_order; [exact H|exact Hs2|exact Hd|reflexivity|]. pose proof (start_room w ns) as Hsr. unfold start_names in Hsr.
    unfold depth. cbn [paths_of sum_list_with]. lia.
  - destruct H as (s2 & H & Hs2 & _). same. reflexivity.
  - left. split; [exact H|]. constructor. by eapply follow_stuck.
Qed.

Lemma mkdir_keeps v m d s ns w : in_order v m d s ns -> admissible v m d s ns (Mkdir w) -> keeps_order v m d s ns (Mkdir w).
Proof using Type.
  intros [Hs Hd] (Hw & Hroom & dirs & nm & Hn & Hne & Hroot). apply Forall_singleton in Hw as (Hw & Hb & Hl). destruct (sh_disk _ _ _ Hd) as [cs Hdk].
  unfold depth in Hroom. cbn [paths_of sum_list_with] in Hroom. rewrite Hn, length_app in Hroom. cbn [length] in Hroom.
  pose proof (mkdir_spec v m s ns w dirs nm Hs (sh_mounted _ _ _ Hd) (dk_tree _ _ _ Hdk) Hw Hb Hl Hn Hne ltac:(lia)) as H. cbv zeta in H.
  pose proof (follow_room v _ (dk_tree _ _ _ Hdk) dirs (if is_absolute w then ROOT_CLUSTER_NUMBER else current_directory s) (if is_absolute w then [] else ns)) as Hfr.
  assert (Hcs : forall d', (if decide (46 ∈ nm) then d' = d
      else match follow v dirs (start_cluster w s) (start_names w ns) with
           | Arrived p _ => disk_step d (Write (folder_rq nm p)) (spec_write v m (folder_rq nm p)).1 [] d'
           | _ => d' = d
           end) -> command_step v m s ns d (Mkdir w) d') by (intros d' Hc; by exists dirs, nm).
  unfold start_cluster, start_names in Hcs, Hroot.
  destruct (decide (46 ∈ nm)) as [Hdot|Hdot]; [destruct H as (s2 & H & Hs2 & _); same; by apply Hcs|].
  destruct (follow _ _ _ _) as [p pns|err|] eqn:E.
  - assert (Hp : located v pns p).
    { apply Hfr. exact (start_located v m s ns w Hs). }
    rewrite (Hroot p pns eq_refl Hdot) in H.
    destruct (spec_write v m (folder_rq nm p)) as [code [v' m']] eqn:Ew. destruct H as (s2 & H & Hs2 & _).
    pose proof (path_names_typed w Hw Hb Hl) as Hty. rewrite Hn in Hty. apply Forall_app in Hty as [_ Hty]. rewrite Forall_singleton in Hty.
    pose proof (folder_call v m d (sys s) nm p pns (st_sees _ _ _ _ Hs) Hd Hp Hty Hne Hdot) as Hc. rewrite Ew in Hc.
    destruct Hc as (d' & Hd' & Hst); [|same; by apply Hcs].
    pose proof (path_names_sep w Hw) as Hsep. rewrite Hn in Hsep. apply Forall_app in Hsep as [_ Hsep]. by rewrite Forall_singleton in Hsep.
  - destruct H as (s2 & H & Hs2 & _). same. by apply Hcs.
  - left. split; [exact H|]. constructor. rewrite Hn. apply elem_of_app. left. by eapply follow_stuck.
Qed.

Lemma rm_keeps v m d s ns w : in_order v m d s ns -> admissible v m d s ns (Rm w) -> keeps_order v m d s ns (Rm w).
Proof using Type.
  intros [Hs Hd] (Hw & Hroom & dirs & nm & Hn & Hne & Hfile). apply Forall_singleton in Hw as (Hw & Hb & Hl).
  unfold depth in Hroom. cbn [paths_of sum_list_with] in Hroom. rewrite Hn, length_app in Hroom. cbn [length] in Hroom.
  pose proof (rm_spec v m d s ns w dirs nm Hs Hd Hw Hb Hl Hn Hne ltac:(lia)) as H.
  assert (Hcs : forall d', match follow v dirs (start_cluster w s) (start_names w ns) with
      | Arrived p _ => disk_step d (Remove (rm_rq nm p)) (spec_delete v m (rm_rq nm p)).1 [] d'
      | _ => d' = d
      end -> command_step v m s ns d (Rm w) d') by (intros d' Hc; by exists dirs, nm).
  unfold start_cluster, start_names in Hcs, Hfile.
  destruct (follow _ _ _ _) as [p pns|err|] eqn:E.
  - destruct (Hfile p pns eq_refl) as [Hres Hown]. destruct (H Hres Hown) as (code & v' & m' & d' & s' & Hrun & Hs' & _ & Hd' & Hst & ->).
    same. by apply Hcs.
  - destruct H as (s2 & H & Hs2 & _). same. by apply Hcs.
  - left. split; [exact H|]. constructor. rewrite Hn. apply elem_of_app. left. by eapply follow_stuck.
Qed.

Lemma read_leaves_zero d rq out d' b : disk_step d (Read rq) 0 out d' -> buf rq = b -> buffer_size rq = CLUSTER_SIZE * 32 ->
  0 ∈ drop (Z.to_nat (CLUSTER_SIZE * 32)) b -> 0 ∈ out.
Proof using Type.
  intros Hst Hb Hsz H0. destruct (read_found _ _ _ _ _ Hst eq_refl) as (data & _ & Hle & _ & _ & _ & Hd). rewrite Hb in Hd. rewrite Hsz in Hle.
  pose proof (number_of_partition_le (Zlen data) (CLUSTER_SIZE * 32) ltac:(unfold Zlen; lia) Hle) as Hn. change (number_of_partition (CLUSTER_SIZE * 32)) with 32 in Hn.
  set (k := Z.to_nat (CLUSTER_SIZE * number_of_partition (Zlen data))) in *.
  assert (Hk : exists j, Z.to_nat (CLUSTER_SIZE * 32) = (k + j)%nat) by (exists (Z.to_nat (CLUSTER_SIZE * 32) - k)%nat; unfold k; change CLUSTER_SIZE with 2048; lia).
  destruct Hk as [j Hj]. rewrite Hj, <- drop_drop, <- Hd, drop_drop in H0. apply elem_drop in H0 as (i & _ & Hi). by eapply list_elem_of_lookup_2.
Qed.

Lemma cat_keeps v m d s ns w b : in_order v m d s ns -> admissible v m d s ns (Cat w b) -> keeps_order v m d s ns (Cat w b).
Proof using Type.
  intros [Hs Hd] (Hw & Hroom & Hbuf & H0 & dirs & nm & Hn & Hne & Hfile). apply Forall_singleton in Hw as (Hw & Hb & Hl).
  unfold depth in Hroom. cbn [paths_of sum_list_with] in Hroom. rewrite Hn, length_app in Hroom. cbn [length] in Hroom.
  destruct (start_spec v m s ns w Hs) as (s0 & Hs0r & Hs0 & Hc0). pose proof (path_names_typed w Hw Hb Hl) as Hty. rewrite Hn in Hty.
  assert (Hrun : run_one s (Cat w b) = ('(code, out, s) ← read_file s0 (rows (dirs ++ [nm])) (Zlen (dirs ++ [nm])) b;
    if negb (code =? 0) then Ret s else puts_all s [(out, WHITE); (line "", WHITE)])).
  { unfold run_one, cat. cbn [Z.eqb Pos.eqb]. rewrite parse_path_spec by (done || rewrite Hn, length_app; simpl; lia). by rewrite Hs0r, !bind_ret, Hn. }
  pose proof (start_room w ns) as Hsr. unfold start_names, start_cluster in *.
  pose proof (read_file_spec v m d s0 _ dirs nm b Hs0 Hd Hty Hne Hbuf ltac:(lia)) as Hrf. rewrite Hc0 in Hrf.
  destruct (follow _ _ _ _) as [p pns|err|] eqn:E.
  - destruct (Hfile p pns eq_refl) as [Hres _]. destruct (Hrf Hres) as (code & out & s1 & Hr & Hs1 & _ & Hst). rewrite Hr, bind_ret in Hrun.
    destruct (Z.eqb_spec code 0) as [->|Hcode]; cbn [negb] in Hrun; [|same; reflexivity].
    assert (Hz : text out).
    { destruct (Z.eqb_spec (name_code nm) 0) as [|Hnc]; [eapply read_text; [exact Hst|exact Hbuf|by eapply read_leaves_zero]|].
      destruct Hst as [Hst _]. exfalso. revert Hst Hnc. unfold name_code. repeat case_decide; by vm_compute. }
    cbn [puts_all] in Hrun. destruct (put_printed v m s1 out WHITE) as (s2 & Hp2 & k2 & -> & Hk2); [apply Hs1|exact Hz|]. rewrite Hp2, bind_ret in Hrun.
    destruct (put_printed v m (set_sys s1 k2) (line "") WHITE) as (s3 & Hp3 & k3 & -> & Hk3); [exact Hk2|apply text_line; reflexivity|]. rewrite Hp3, bind_ret in Hrun.
    eapply (ends_in_order v m d s ns _ _ v m d (if is_absolute w then [] else ns)); [exact Hrun| |exact Hd|reflexivity|comes_back]. apply settled_sys; [|exact Hk3]. by apply settled_sys.
  - destruct Hrf as (s1 & Hr & Herr & Hs1 & _). rewrite Hr, bind_ret, (proj2 (Z.eqb_neq _ _)) in Hrun by exact Herr. cbn [negb] in Hrun. same. reflexivity.
  - rewrite Hrf in Hrun. left. split; [exact Hrun|]. constructor. rewrite Hn. apply elem_of_app. left. by eapply follow_stuck.
Qed.

Lemma cp_keeps v m d s ns w1 w2 b : in_order v m d s ns -> admissible v m d s ns (Cp w1 w2 b) -> keeps_order v m d s ns (Cp w1 w2 b).
Proof using Type.
  intros [Hs Hd] (Hw & Hroom & Hbuf & dirs & nm & Hn & Hne & Hfile). cbn [paths_of] in Hw. apply Forall_cons in Hw as [(Hw1 & Hb1 & Hl1) Hw].
  apply Forall_singleton in Hw as (Hw2 & Hb2 & Hl2). unfold depth in Hroom. cbn [paths_of sum_list_with] in Hroom. rewrite Hn, length_app in Hroom. cbn [length] in Hroom.
  destruct (cp_starts v m s ns w1 w2 b Hs Hw1 Hw2 Hl1 Hl2) as (s1 & Hcp & Hs1 & Hc1); [rewrite Hn, length_app; simpl; lia|lia|].
  pose proof (path_names_typed w1 Hw1 Hb1 Hl1) as Hty. pose proof (path_names_typed w2 Hw2 Hb2 Hl2) as Hty2. rewrite Hn in *.
  assert (Hnmt : typed_name nm) by (apply Forall_app in Hty as [_ Hty']; by rewrite Forall_singleton in Hty').
  assert (Hj : (length (joined (if both_absolute w1 w2 then [] else ns)) ≤ length (joined ns))%nat) by (destruct (both_absolute w1 w2); simpl; lia).
  pose proof (read_file_spec v m d s1 _ dirs nm b Hs1 Hd Hty Hne Hbuf ltac:(lia)) as Hrf. rewrite Hc1 in Hrf.
  assert (Hrun : run_one s (Cp w1 w2 b) = copy_file s1 (rows (dirs ++ [nm])) (Zlen (dirs ++ [nm])) (rows (path_names w2)) (Zlen (path_names w2)) b) by exact Hcp.
  pose (nothing := fun p => forall data, files d !! key_of (read_rq nm p b) = Some data ->
    ~ (name_code nm = 0 /\ Zlen data ≤ CLUSTER_SIZE * 32 /\ forall x, ~ sub_folder d (read_rq nm p b) x)).
  pose (copied := fun p p2 d' => exists data out, files d !! key_of (read_rq nm p b) = Some data /\ take (length data) out = data /\
    disk_step d (Write (file_rq nm p2 out (CLUSTER_SIZE * number_of_partition (Zlen data))))
      (spec_write v m (file_rq nm p2 out (CLUSTER_SIZE * number_of_partition (Zlen data)))).1 out d').
  assert (Hcs : forall d', match follow v dirs (if both_absolute w1 w2 then ROOT_CLUSTER_NUMBER else current_directory s) (if both_absolute w1 w2 then [] else ns),
      follow v (path_names w2) (if both_absolute w1 w2 then ROOT_CLUSTER_NUMBER else current_directory s) (if both_absolute w1 w2 then [] else ns) with
      | Arrived p _, Arrived p2 _ => copied p p2 d' \/ (d' = d /\ nothing p)
      | _, _ => d' = d
      end -> command_step v m s ns d (Cp w1 w2 b) d') by (intros d' Hc; by exists dirs, nm).
  assert (Hstay : forall p pns, nothing p -> match Arrived p pns,
      follow v (path_names w2) (if both_absolute w1 w2 then ROOT_CLUSTER_NUMBER else current_directory s) (if both_absolute w1 w2 then [] else ns) with
      | Arrived p _, Arrived p2 _ => copied p p2 d \/ (d = d /\ nothing p)
      | _, _ => d = d
      end) by (intros p pns Hno; destruct (follow v (path_names w2) _ _); [by right|done|done]).
  unfold copy_file in Hrun. destruct (follow v dirs _ _) as [p pns|err|] eqn:E.
  - destruct (Hfile p pns eq_refl) as [Hres Hcop]. destruct (Hrf Hres) as (code & out & s2 & Hr & Hs2 & Hc2 & Hst). rewrite Hr, bind_ret in Hrun.
    destruct (Z.eqb_spec code 0) as [->|Hcode]; cbn [negb] in Hrun.
    2: { same. apply Hcs, (Hstay p pns). intros data Hdata (Hnc & Hle & Hno). rewrite Hnc in Hst. cbn [Z.eqb] in Hst.
         by destruct (read_known _ _ _ _ _ _ Hst Hdata Hle Hno) as (-> & _). }
    destruct (Z.eqb_spec (name_code nm) 0) as [Hnc|Hnc]; [|exfalso; destruct Hst as [Hst _]; revert Hst Hnc; unfold name_code; repeat case_decide; by vm_compute].
    destruct (read_found _ _ _ _ _ Hst eq_refl) as (data & Hdata & Hle & _).
    destruct (copy_known v m d s2 _ dirs nm (path_names w2) p b out data Hs2 Hd Hnmt Hne Hty2 ltac:(lia) Hbuf Hst Hdata Hle (Hcop data Hdata)) as (Ht & _ & Hwr).
    rewrite Hc2 in Hwr. cbv zeta in Hcs. destruct (follow v (path_names w2) _ _) as [p2 pns2|err|] eqn:E2.
    + destruct Hwr as (code2 & v' & m' & d' & s3 & Hw3 & Hs3 & _ & Hd' & Hst' & Hco). rewrite Hw3 in Hrun. same. apply Hcs. left.
      exists data, out. pose proof (number_of_partition_ge (Zlen data) ltac:(unfold Zlen; lia)).
      rewrite Z2Nat.id in Hst', Hco by (unfold Zlen in *; lia). rewrite <- Hco. by split_and!.
    + destruct Hwr as (s3 & Hw3 & Hs3). rewrite Hw3 in Hrun. same. by apply Hcs.
    + rewrite Hwr in Hrun. left. split; [exact Hrun|]. apply Exists_cons. right. constructor. by eapply follow_stuck.
  - destruct Hrf as (s2 & Hr & Herr & Hs2 & _). rewrite Hr, bind_ret, (proj2 (Z.eqb_neq _ _)) in Hrun by exact Herr. cbn [negb] in Hrun. same. by apply Hcs.
  - rewrite Hrf in Hrun. left. split; [exact Hrun|]. constructor. rewrite Hn. apply elem_of_app. left. by eapply follow_stuck.
Qed.

Lemma run_one_keeps v m d s ns c : in_order v m d s ns -> admissible v m d s ns c -> keeps_order v m d s ns c.
Proof using Type. destruct c; [apply cd_keeps|apply mkdir_keeps|apply rm_keeps|apply cat_keeps|apply cp_keeps]. Qed.

Lemma session_spec (cs : list command) : forall v m d s ns, in_order v m d s ns -> all_admissible s cs ->
  (run_commands s cs = Hang /\ Exists climbs cs) \/
  exists s' v' m' d' ns', run_commands s cs = Ret s' /\ in_order v' m' d' s' ns' /\ session_steps s d cs s' d'.
Proof using Type.
  induction cs as [|c cs IH]; intros v m d s ns Hs Hadm; cbn [run_commands].
  - right. exists s, v, m, d, ns. exact (conj eq_refl (conj Hs (session_done s d))).
  - destruct Hadm as [Hc Hadm]. destruct (run_one_keeps v m d s ns c Hs (Hc v m d ns Hs)) as [[Hh Hup]|(s1 & v1 & m1 & d1 & ns1 & Hr & Hs1 & Hst & _)].
    + left. rewrite Hh. split; [done|]. by constructor.
    + rewrite Hr, bind_ret. destruct (IH v1 m1 d1 s1 ns1 Hs1 (Hadm _ Hr)) as [[Hh Hup]|(s2 & v2 & m2 & d2 & ns2 & Hrun & Hs2 & Hst2)].
      * left. split; [exact Hh|by constructor].
      * right. exists s2, v2, m2, d2, ns2. refine (conj Hrun (conj Hs2 _)). by eapply session_more.
Qed.

(** [cd], and [mkdir] of a folder of the root, need no look at the disk. *)
Definition plain (c : command) : Prop :=
  Forall argument (paths_of c) /\
  match c with
  | Cd _ => True
  | Mkdir w => is_absolute w = true /\ exists nm, path_names w = [nm] /\ nm ≠ []
  | _ => False
  end.

Lemma plain_admissible v m d s ns c : plain c -> (length (joined ns) + depth c ≤ 510)%nat -> admissible v m d s ns c.
Proof using Type.
  intros [Hw Hc] Hd. refine (conj Hw (conj Hd _)). destruct c as [w|w|w|w b|w1 w2 b]; [done| |done..].
  destruct Hc as (Habs & nm & Hn & Hne). exists [], nm. split; [exact Hn|]. split; [exact Hne|].
  unfold start_cluster. rewrite Habs. intros p pns [= <- _] _. by apply root_no_overrun.
Qed.

(** The printed path of a shell in order has one length. *)
Lemma one_path v m d s ns v2 m2 d2 ns2 : in_order v m d s ns -> in_order v2 m2 d2 s ns2 -> length (joined ns2) = length (joined ns).
Proof using Type.
  intros [Hs [_ [cs Hd] _]] [Hs2 [_ [cs2 Hd2] _]].
  pose proof (located_names v _ (dk_tree _ _ _ Hd) _ _ (st_located _ _ _ _ Hs)) as Hn.
  pose proof (located_names v2 _ (dk_tree _ _ _ Hd2) _ _ (st_located _ _ _ _ Hs2)) as Hn2.
  assert (Hr : render ns2 = render ns).
  { rewrite <- (cstr_padded 512 (render ns)), <- (cstr_padded 512 (render ns2)).
    - f_equal. by rewrite <- (st_path _ _ _ _ Hs), <- (st_path _ _ _ _ Hs2).
    - by apply no_nul_render.
    - pose proof (render_bound ns2). pose proof (st_room _ _ _ _ Hs2). lia.
    - by apply no_nul_render.
    - pose proof (render_bound ns). pose proof (st_room _ _ _ _ Hs). lia. }
  destruct (decide (ns = [])) as [->|Hne], (decide (ns2 = [])) as [->|Hne2]; [done|..].
  - exfalso. by apply Hne2, render_root.
  - exfalso. by apply Hne, render_root.
  - destruct ns, ns2; try done. unfold render in Hr. by rewrite Hr.
Qed.

(** A session of plain commands that fits the path may be run. *)
Lemma plain_all_admissible (cs : list command) : forall v m d s ns, in_order v m d s ns -> Forall plain cs ->
  (length (joined ns) + sum_list_with depth cs ≤ 510)%nat -> all_admissible s cs.
Proof using Type.
  induction cs as [|c cs IH]; intros v m d s ns Hs Hp Hl; [done|]. apply Forall_cons in Hp as [Hc Hp]. cbn [sum_list_with] in Hl. split.
  - intros v2 m2 d2 ns2 Hs2. apply plain_admissible; [exact Hc|]. rewrite (one_path _ _ _ _ _ _ _ _ _ Hs Hs2). lia.
  - intros s' Hr. destruct (run_one_keeps v m d s ns c Hs (plain_admissible v m d s ns c Hc ltac:(lia))) as [[Hh _]|(s1 & v1 & m1 & d1 & ns1 & Hr1 & Hs1 & _ & Hd1)].
    { rewrite Hr in Hh. discriminate. }
    rewrite Hr in Hr1. injection Hr1 as ->. eapply IH; [exact Hs1|exact Hp|]. lia.
Qed.

(** C7: A session of [cd], [mkdir], [rm], [cat] and [cp] commands, each one
    [admissible] at its turn, keeps the disk in order: it does nothing
    undefined; it returns unless one of the paths has a [..] that keeps it in
    the root for ever; and then each command did to the map of files and
    folders what [command_step] says (the step of the call it makes, on the
    request its path names, with the code of the specified call), the disk
    holds the map, the driver is mounted, and the directory of the shell, its
    table and its printed path agree with the disk, whichever of the commands
    failed.  Admissible are commands with arguments of at most 511 bytes that
    fit the printed path; [mkdir] when it does not get as far as making a
    folder outside the root; [rm], [cat] and [cp] of a name that neither of the
    folder's first two entries has, [rm] not of the shell's own folder, [cat]
    with a zero byte behind the clusters of its buffer, [cp] of a file without
    blank clusters, with a blank one behind it in the buffer. *)
Theorem session_refines_map (cs : list command) v m d s ns : in_order v m d s ns -> all_admissible s cs ->
  (run_commands s cs = Hang /\ Exists climbs cs) \/
  exists s' v' m' d' ns', run_commands s cs = Ret s' /\ in_order v' m' d' s' ns' /\ session_steps s d cs s' d'.
Proof using Type. apply session_spec. Qed.

(** A session of [cd] and of [mkdir] in the root needs no such look at the disk:
    any sequence whose paths fit the printed path keeps the tree and the
    shell in order. *)
Theorem session_keeps_tree (cs : list command) v m d s ns :
  in_order v m d s ns -> Forall plain cs -> (length (joined ns) + sum_list_with depth cs ≤ 510)%nat ->
  (run_commands s cs = Hang /\ Exists climbs cs) \/ exists s' v' m' d' ns', run_commands s cs = Ret s' /\ in_order v' m' d' s' ns'.
Proof using Type.
  intros Hs Hp Hl. destruct (session_spec cs v m d s ns Hs (plain_all_admissible cs v m d s ns Hs Hp Hl)) as [H|(s' & v' & m' & d' & ns' & Hr & Hs' & _)];
    [by left|right]. by exists s', v', m', d', ns'.
Qed.
End session.
