(* ===== verification/ShellListing.v ===== *)
(** * Listing a folder and searching the tree: [ls] and [find]

    [ls] makes no call on the disk: it prints the table of the working
    directory.  What it prints is [listing] of the entries in use, and those
    entries are the files and the folders of the map.  [find] reads directory
    after directory and prints the path of every match; which directories it
    comes to is [search]. *)
From stdpp Require Import gmap.
From S2P Require Import Prelude CString BlockDevice FatLayout Fat32 FatFacts FatChain FatLoops FatSpec FatRefine FatWrite FatMount FatProps FatInvariant.
From S2P Require Import ShellBase Shell ShellPath ShellFiles ShellCommands ShellFacts ShellLine DirTree DiskTree DiskRemove DiskMap ShellSplit ShellNames ShellWalk ShellCd ShellMkdir ShellRm ShellCat.

(** ** What is printed for a list of entries *)

Definition entry_shown (e : FAT32DirectoryEntry) : list (list Z * Z) :=
  if attribute e =? ATTR_SUBDIRECTORY then [(CString.cstr (name e), LIGHT_BLUE)]
  else (CString.cstr (name e), WHITE) :: (if decide (ext e = replicate 3 0) then [] else [([46], WHITE); (CString.cstr (ext e), WHITE)]).

Definition gap : list (list Z * Z) := [(replicate 4 32, WHITE)].

(** Four blanks between two entries. *)
Definition in_line (es : list FAT32DirectoryEntry) : list (list Z * Z) :=
  match es with [] => [] | e :: es' => entry_shown e ++ concat ((fun e' => gap ++ entry_shown e') <$> es') end.

Definition listing (label : list Z) (es : list FAT32DirectoryEntry) : list (list Z * Z) :=
  (if decide (es = []) then [(bytes_of_string "Current directory '", LIGHT_GREY); (label, LIGHT_GREY); (bytes_of_string "' is empty", LIGHT_GREY)]
   else in_line es) ++ [([10], WHITE)].

(** The entries in use of a folder's table, in their order. *)
Definition entries_of (t : list FAT32DirectoryEntry) : list FAT32DirectoryEntry := filter (fun e => user_attribute e = UATTR_NOT_EMPTY) (drop 2 t).

Lemma in_line_snoc es e : in_line (es ++ [e]) = in_line es ++ (if decide (es = []) then [] else gap) ++ entry_shown e.
Proof.
  destruct es as [|e0 es]; [simpl; by rewrite app_nil_r|]. rewrite decide_False by discriminate. cbn [in_line app].
  rewrite fmap_app, concat_app, <- app_assoc. simpl. by rewrite app_nil_r.
Qed.

Lemma elem_entries v p e : e ∈ entries_of (table_at v p) <-> exists i, in_use v p i e.
Proof.
  unfold entries_of. rewrite list_elem_of_filter, elem_drop. unfold in_use. split.
  - intros (Hu & i & Hi & He). by exists i.
  - intros (i & Hi & He & Hu). split; [done|]. by exists i.
Qed.

Lemma filter_step (P : FAT32DirectoryEntry -> Prop) `{!forall e, Decision (P e)} t i e : t !! i = Some e -> (2 ≤ i)%nat ->
  filter P (drop 2 (take (S i) t)) = filter P (drop 2 (take i t)) ++ (if decide (P e) then [e] else []).
Proof.
  intros He Hi. pose proof (lookup_lt_Some _ _ _ He) as Hl. rewrite (take_S_r _ _ e He), drop_app_le by (rewrite length_take; lia).
  by rewrite filter_app.
Qed.

Lemma cstr_bytes w r : no_nul w -> CString.cstr (w ++ 0 :: r) = w.
Proof. intros H. by apply CString.cstr_app_nul. Qed.

Section shows.
Context {K : Type} `{!SysCalls K, !FileServer K, !Screen K}.
Context (v : volume) (m : driver).
Implicit Types (s : shell K).

(** [s'] is [s] after the texts [l] were printed. *)
Definition shows s (l : list (list Z * Z)) s' : Prop := printed v m s s' /\ shown (sys s') = shown (sys s) ++ l.

Lemma shows_nil s : sees (sys s) v m -> shows s [] s.
Proof using Type. intros H. split; [by apply printed_refl|by rewrite app_nil_r]. Qed.

Lemma shows_trans s1 l1 s2 l2 s3 : shows s1 l1 s2 -> shows s2 l2 s3 -> shows s1 (l1 ++ l2) s3.
Proof using Type. intros [H1 H2] [H3 H4]. split; [by eapply printed_trans|]. by rewrite H4, H2, app_assoc. Qed.

Lemma shows_sees s l s' : shows s l s' -> sees (sys s') v m.
Proof using Type. intros [H _]. by eapply printed_sees. Qed.

Lemma shows_table s l s' : shows s l s' -> current_dir_table s' = current_dir_table s.
Proof using Type. by intros [(k & -> & _) _]. Qed.

Lemma put_shows s str color w : sees (sys s) v m -> text str -> CString.cstr str = w -> u8 color = color ->
  exists s', put s str color = Ret s' /\ shows s [(w, color)] s'.
Proof using Type.
  intros Hs Ht <- Hc. destruct (put_printed v m s str color Hs Ht) as (s' & Hp & H). exists s'. split; [exact Hp|]. split; [exact H|].
  apply put_shown in Hp. by rewrite Hp, cstr_take, Hc.
Qed.
End shows.

Section ls.
Context {K : Type} `{!SysCalls K, !FileServer K, !Screen K}.
Context (v : volume) (m : driver) (c : Z) (Hc : in_map c).
Implicit Types (s : shell K).

Lemma name_at_cstr s i e : sees (sys s) v m -> table_at v c !! i = Some e -> ext e = replicate 3 0 ->
  text (name_at (table_at v c) (Z.of_nat i)) /\ CString.cstr (name_at (table_at v c) (Z.of_nat i)) = CString.cstr (name e).
Proof using Hc.
  intros Hs He Hx. destruct (sees_table v m (sys s) c Hs Hc) as [[Hl Hok] Henc]. destruct (sees_block (sys s) v m c Hs Hc) as [Hb _].
  pose proof (slice_enc_array (table_at v c) i e Hok He) as Hsl. unfold slice in Hsl. unfold name_at. rewrite Nat2Z.id.
  set (r := drop (32 * i) (enc_array (table_at v c))) in *. assert (Hr : exists r', r = name e ++ 0 :: r').
  { exists ([0; 0] ++ drop 11 (encode_entry e) ++ drop 32 r). rewrite <- (take_drop 32 r) at 1. change (take 32 r) with (take (esize (A := FAT32DirectoryEntry)) (drop (esize (A := FAT32DirectoryEntry) * i) (enc_array (table_at v c)))).
    rewrite Hsl. change (enc e) with (encode_entry e). rewrite <- (take_drop 11 (encode_entry e)) at 1. rewrite <- !app_assoc.
    replace (take 11 (encode_entry e)) with (name e ++ [0; 0; 0]); [rewrite <- app_assoc; reflexivity|]. eapply Forall_lookup_1 in Hok as [[Hn _] _ _ _ _ _]; [|exact He].
    unfold encode_entry. rewrite Hx, !app_assoc. rewrite <- !app_assoc, app_assoc. rewrite take_app_length' by (rewrite length_app, Hn; reflexivity). reflexivity. }
  destruct Hr as [r' Hr]. split; [split|].
  - rewrite Hr. set_solver.
  - unfold r. rewrite Henc. unfold Zlen. rewrite length_drop, Hb. change BUFFER_LIMIT with 131072. lia.
  - rewrite Hr. apply cstr_app_zero.
Qed.

Lemma cstr_array n w : (length w < n)%nat -> CString.cstr (splice 0 w (replicate n 0)) = CString.cstr w.
Proof using Type.
  intros H. unfold splice. rewrite firstn_O, drop_replicate. cbn [app]. replace (n - (0 + length w))%nat with (S (n - length w - 1)) by lia.
  apply (cstr_app_zero w (replicate (n - length w - 1) 0)).
Qed.

Lemma text_array n w : (length w < n)%nat -> (n <? 1000)%nat = true -> text (splice 0 w (replicate n 0)).
Proof using Type.
  intros H Hn. replace (splice 0 w (replicate n 0)) with (padded n w); [by apply text_padded|].
  unfold padded, splice. rewrite firstn_O, drop_replicate. reflexivity.
Qed.

(** The name of one entry. *)
Lemma print_entry s i e : current_dir_table s = table_at v c -> sees (sys s) v m -> table_at v c !! i = Some e ->
  (attribute e = ATTR_SUBDIRECTORY -> ext e = replicate 3 0) ->
  exists s', print_directory_entry s (Z.of_nat i) false = Ret s' /\ shows v m s (entry_shown e) s'.
Proof using Hc.
  intros Ht Hs He Hx. unfold print_directory_entry. rewrite bind_ret, Ht, (arr_get_lookup _ _ e), bind_ret by (lia || by rewrite Nat2Z.id).
  unfold entry_shown. destruct (Z.eqb_spec (attribute e) ATTR_SUBDIRECTORY) as [Ha|Ha].
  - destruct (name_at_cstr s i e Hs He (Hx Ha)) as [Htx Hn]. by apply put_shows.
  - destruct (sees_table v m (sys s) c Hs Hc) as [[_ Hok] _]. eapply Forall_lookup_1 in Hok as [[Hn _] [Hx3 _] _ _ _ _]; [|exact He].
    rewrite (CString.memcpy_eq _ (name e)), (take_ge (name e)), bind_ret by (rewrite ?length_replicate; lia).
    destruct (put_shows v m s (splice 0 (name e) (replicate 9 0)) WHITE (CString.cstr (name e)) Hs) as (s1 & -> & H1); [by apply text_array; [lia|]|by apply cstr_array; lia|done|]. rewrite bind_ret.
    pose proof (CString.memcmp_eqb (ext e) (replicate 3 0) 3 ltac:(lia) ltac:(rewrite length_replicate; lia)) as Hr.
    apply bind_Ret_inv in Hr as (r & -> & [= Hr]). rewrite bind_ret, Hr, !take_ge by (rewrite ?length_replicate; lia). destruct (decide (ext e = replicate 3 0)) as [Hd|Hd].
    + rewrite bool_decide_true by exact Hd. by exists s1.
    + rewrite bool_decide_false by done. cbn [negb]. rewrite (CString.memcpy_eq _ (ext e)), (take_ge (ext e)), bind_ret by (rewrite ?length_replicate; lia). cbn [puts_all].
      destruct (put_shows v m s1 (lit ".") WHITE [46]) as (s2 & -> & H2); [by eapply shows_sees|by apply text_lit|reflexivity|done|]. rewrite bind_ret.
      destruct (put_shows v m s2 (splice 0 (ext e) (replicate 4 0)) WHITE (CString.cstr (ext e))) as (s3 & -> & H3); [by eapply shows_sees|by apply text_array; [lia|]|by apply cstr_array; lia|done|].
      exists s3. split; [reflexivity|]. eapply (shows_trans v m s [_]); [exact H1|]. by eapply (shows_trans v m s1 [_]).
Qed.

(** With the blanks before it. *)
Lemma print_spaced s i e spaces : current_dir_table s = table_at v c -> sees (sys s) v m -> table_at v c !! i = Some e ->
  (attribute e = ATTR_SUBDIRECTORY -> ext e = replicate 3 0) ->
  exists s', print_directory_entry s (Z.of_nat i) spaces = Ret s' /\ shows v m s ((if spaces : bool then gap else []) ++ entry_shown e) s'.
Proof using Hc.
  intros Ht Hs He Hx. destruct spaces; [|by apply print_entry].
  destruct (put_shows v m s (lit "    ") WHITE (replicate 4 32) Hs) as (s1 & Hp & H1); [by apply text_lit|reflexivity|done|].
  destruct (print_entry s1 i e) as (s2 & H2 & Hs2); [|by eapply shows_sees|done..|].
  { rewrite (shows_table _ _ _ _ _ H1). exact Ht. }
  exists s2. split; [|by eapply shows_trans]. rewrite <- H2. unfold print_directory_entry. by rewrite Hp.
Qed.

(** The table up to entry [i] printed. *)
Lemma print_loop s : current_dir_table s = table_at v c -> sees (sys s) v m ->
  Forall (fun e => attribute e = ATTR_SUBDIRECTORY -> ext e = replicate 3 0) (entries_of (table_at v c)) ->
  exists s', for_up 62 2 (fun idx '(found, s) =>
      e ← arr_get (current_dir_table s) idx;
      if user_attribute e =? UATTR_NOT_EMPTY then s ← print_directory_entry s idx found; Ret (true, s) else Ret (found, s)) (false, s) =
    Ret (bool_decide (entries_of (table_at v c) ≠ []), s') /\ shows v m s (in_line (entries_of (table_at v c))) s'.
Proof using Hc.
  intros Ht Hs Hx. set (t := table_at v c) in *. destruct (sees_table v m (sys s) c Hs Hc) as [[Hl _] _]. fold t in Hl. change (length t = 64%nat) in Hl.
  destruct (for_up_inv (fun i '(found, s') => found = bool_decide (entries_of (take (Z.to_nat i) t) ≠ []) /\ shows v m s (in_line (entries_of (take (Z.to_nat i) t))) s')
    (fun idx '(found, s) => e ← arr_get (current_dir_table s) idx;
      if user_attribute e =? UATTR_NOT_EMPTY then s ← print_directory_entry s idx found; Ret (true, s) else Ret (found, s)) 62 2 (false, s)) as ([found s'] & -> & -> & H).
  - assert (entries_of (take (Z.to_nat 2) t) = []) as ->; [|split; [done|by apply shows_nil]].
    unfold entries_of. rewrite drop_ge; [done|]. rewrite length_take. lia.
  - intros j [found s1] Hj [-> H1]. destruct (lookup_lt_is_Some_2 t (Z.to_nat j)) as [e He]; [lia|].
    rewrite (shows_table _ _ _ _ _ H1), Ht, (arr_get_lookup _ _ e), bind_ret by (lia || done). replace (Z.to_nat (j + 1)) with (S (Z.to_nat j)) by lia.
    unfold entries_of in *. rewrite (filter_step _ t (Z.to_nat j) e He) by lia. set (es := filter _ (drop 2 (take (Z.to_nat j) t))) in *.
    destruct (Z.eqb_spec (user_attribute e) UATTR_NOT_EMPTY) as [Hu|Hu]; [rewrite decide_True by done|rewrite decide_False, app_nil_r by done; by eexists].
    destruct (print_spaced s1 (Z.to_nat j) e (bool_decide (es ≠ []))) as (s2 & H2 & Hs2); [rewrite (shows_table _ _ _ _ _ H1); exact Ht|by eapply shows_sees|done| |].
    { rewrite Forall_forall in Hx. apply Hx, elem_entries. exists (Z.to_nat j). split_and!; [lia|done|done]. }
    rewrite Z2Nat.id in H2 by lia. rewrite H2, bind_ret. eexists. split; [reflexivity|]. split.
    + rewrite bool_decide_true; [done|]. by destruct es.
    + rewrite in_line_snoc. eapply shows_trans; [exact H1|]. destruct es; exact Hs2.
  - exists s'. change (Z.to_nat (2 + Z.of_nat 62)) with 64%nat in *. rewrite (take_ge t) in * by lia. by split.
Qed.
End ls.

(** ** The entries are those of the map *)

Section map.
Context (v : volume) (m : driver) (d : disk_map) (Hd : disk_shows v m d) (ns : list (list Z)) (p : Z) (Hp : located v ns p).

Lemma file_listed nm ex : (exists e, e ∈ entries_of (table_at v p) /\ attribute e ≠ ATTR_SUBDIRECTORY /\ name e = nm /\ ext e = ex) <->
  is_Some (files d !! (p, nm, ex)).
Proof using Hd Hp.
  destruct Hd as [_ _ Hh]. split.
  - intros (e & (i & Hu)%elem_entries & Ha & <- & <-). eexists. apply (ho_files _ _ _ Hh). by eapply file_at_slot.
  - intros [data H]. apply (ho_files _ _ _ Hh) in H as (ns' & i & e & _ & Hu & Ha & Hn & Hx & _). exists e. split; [|done]. apply elem_entries. by exists i.
Qed.

Lemma folder_listed e : e ∈ entries_of (table_at v p) -> attribute e = ATTR_SUBDIRECTORY -> paths d !! entry_cluster e = Some (ns ++ [CString.cstr (name e)]).
Proof using Hd Hp.
  intros (i & Hi & He & _)%elem_entries Ha. apply (ho_paths _ _ _ (sh_holds _ _ _ Hd)). apply (located_child v ns p e Hp); [|exact Ha].
  apply elem_drop. by exists i.
Qed.

Lemma path_listed c w : (forall q, paths d !! q = Some ns -> q = p) -> paths d !! c = Some (ns ++ [w]) ->
  exists e, e ∈ entries_of (table_at v p) /\ attribute e = ATTR_SUBDIRECTORY /\ CString.cstr (name e) = w /\ entry_cluster e = c.
Proof using Hd Hp.
  intros Hone H. apply (ho_paths _ _ _ (sh_holds _ _ _ Hd)) in H. destruct (sh_disk _ _ _ Hd) as [cs Hdk].
  inversion H as [Heq Hr|ns' q e Hl He Ha Heq Hc]; [by destruct ns|]. apply app_inj_tail in Heq as [-> <-].
  assert (q = p) as -> by (apply Hone, (ho_paths _ _ _ (sh_holds _ _ _ Hd)); exact Hl).
  exists e. split; [|done]. apply elem_drop in He as (i & Hi & He). apply elem_entries. exists i. by eapply (folder_in_use v _ cs Hdk).
Qed.
End map.

Section command.
Context {K : Type} `{!SysCalls K, !FileServer K, !Screen K}.
Implicit Types (s : shell K) (v : volume) (m : driver).

Lemma ls_spec v m d s ns : settled v m s ns -> disk_shows v m d ->
  Forall (fun e => attribute e = ATTR_SUBDIRECTORY -> ext e = replicate 3 0) (entries_of (table_at v (current_directory s))) ->
  exists s', ls s 0 = Ret s' /\ settled v m s' ns /\ current_directory s' = current_directory s /\
    shown (sys s') = shown (sys s) ++
      listing (CString.cstr (name_at (table_at v (current_directory s)) 0)) (entries_of (table_at v (current_directory s))).
Proof using Type.
  intros Hs Hd Hx. destruct (sh_disk _ _ _ Hd) as [cs Hdk]. pose proof (dk_tree _ _ _ Hdk) as Htree.
  pose proof (st_located _ _ _ _ Hs) as Hl. pose proof (located_map v _ Htree _ _ Hl) as Hc. pose proof (st_table _ _ _ _ Hs) as Ht. pose proof (st_sees _ _ _ _ Hs) as Hk.
  unfold ls, print_directory_entries. cbn [Z.eqb]. destruct (print_loop v m _ Hc s Ht Hk Hx) as (s1 & -> & H1). rewrite bind_ret.
  set (es := entries_of _) in *. set (label := CString.cstr _).
  assert (H2 : exists s2, (if negb (bool_decide (es ≠ [])) then puts_all s1 [(lit "Current directory '", LIGHT_GREY); (name_at (current_dir_table s1) 0, LIGHT_GREY); (lit "' is empty", LIGHT_GREY)] else Ret s1) = Ret s2 /\
    shows v m s (if decide (es = []) then [(bytes_of_string "Current directory '", LIGHT_GREY); (label, LIGHT_GREY); (bytes_of_string "' is empty", LIGHT_GREY)] else in_line es) s2).
  { destruct (decide (es = [])) as [E|E]; [|rewrite bool_decide_true by exact E; by exists s1]. rewrite E in *. cbn [puts_all negb bool_decide].
    change (negb (bool_decide ([] ≠ @nil FAT32DirectoryEntry))) with true. cbv iota.
    destruct (put_shows v m s1 (lit "Current directory '") LIGHT_GREY (bytes_of_string "Current directory '")) as (s2 & -> & H2); [by eapply shows_sees|by apply text_lit|reflexivity|done|]. rewrite bind_ret.
    rewrite (shows_table _ _ _ _ _ H1), Ht.
    destruct (put_shows v m s2 (name_at (table_at v (current_directory s)) 0) LIGHT_GREY label) as (s3 & -> & H3); [by eapply shows_sees|by eapply text_table|reflexivity|done|]. rewrite bind_ret.
    destruct (put_shows v m s3 (lit "' is empty") LIGHT_GREY (bytes_of_string "' is empty")) as (s4 & -> & H4); [by eapply shows_sees|by apply text_lit|reflexivity|done|].
    exists s4. split; [reflexivity|]. eapply (shows_trans v m s []); [exact H1|]. eapply (shows_trans v m s1 [_]); [exact H2|]. by eapply (shows_trans v m s2 [_]). }
  destruct H2 as (s2 & -> & H2). rewrite bind_ret.
  destruct (put_shows v m s2 (line "") WHITE [10]) as (s3 & -> & H3); [by eapply shows_sees|by apply text_line|reflexivity|done|].
  destruct (shows_trans _ _ _ _ _ _ _ H2 H3) as [(k & -> & Hks) Hsh].
  exists (set_sys s k). split; [done|]. split; [by apply settled_sys|]. split; [done|exact Hsh].
Qed.

(** C18: [ls] prints the working directory: [listing] of the entries in use,
    in the order of the table.  These are exactly the files of the map in this
    folder, and folders under its path, all of them when no other folder has
    that path. *)
Theorem ls_lists v m d s ns : settled v m s ns -> disk_shows v m d ->
  let cur := current_directory s in let es := entries_of (table_at v cur) in
  Forall (fun e => attribute e = ATTR_SUBDIRECTORY -> ext e = replicate 3 0) es ->
  (exists s', ls s 0 = Ret s' /\ settled v m s' ns /\ current_directory s' = cur /\
    shown (sys s') = shown (sys s) ++ listing (CString.cstr (name_at (table_at v cur) 0)) es) /\
  (forall nm ex, (exists e, e ∈ es /\ attribute e ≠ ATTR_SUBDIRECTORY /\ name e = nm /\ ext e = ex) <-> is_Some (files d !! (cur, nm, ex))) /\
  (forall e, e ∈ es -> attribute e = ATTR_SUBDIRECTORY -> paths d !! entry_cluster e = Some (ns ++ [CString.cstr (name e)])) /\
  ((forall q, paths d !! q = Some ns -> q = cur) -> forall c w, paths d !! c = Some (ns ++ [w]) ->
    exists e, e ∈ es /\ attribute e = ATTR_SUBDIRECTORY /\ CString.cstr (name e) = w /\ entry_cluster e = c).
Proof using Type.
  intros Hs Hd cur es Hx. pose proof (st_located _ _ _ _ Hs) as Hl. split; [exact (ls_spec v m d s ns Hs Hd Hx)|]. split; [|split].
  - exact (file_listed v m d Hd ns cur Hl).
  - exact (folder_listed v m d Hd ns cur Hl).
  - intros Hone c w. exact (path_listed v m d Hd ns cur Hl c w Hone).
Qed.
End command.

(** * [find]

    The search goes over a queue of directories; [trackToParent] prints the
    path of every match.  A directory writes its folders into the queue behind
    itself, over those that still wait ([search]). *)

Section depth.
Context (v : volume) (fat : list Z) (cs : list (list Z)) (Hd : disk_ok v fat cs).

(** Distinct clusters that are taken. *)
Lemma taken_bound (l : list Z) : NoDup l -> Forall (allocated fat) l -> (length l ≤ 510)%nat.
Proof using Type.
  intros Hnd Hl. assert (H : l ⊆+ seqZ 2 510).
  { apply NoDup_submseteq; [exact Hnd|]. intros x Hx. eapply Forall_forall in Hl as [Hr _]; [|exact Hx]. apply elem_of_seqZ. lia. }
  apply submseteq_length in H. by rewrite length_seqZ in H.
Qed.

Lemma located_taken ns c : located v ns c -> allocated fat c.
Proof using Hd.
  intros Hl. destruct (located_slot _ _ _ Hd _ _ Hl) as [Hin _]. eapply listed_allocated; [apply Hd|exact Hin|by apply list_elem_of_singleton].
Qed.

(** The folders on the way from the root. *)
Lemma ancestors ns c : located v ns c -> exists l, length l = S (length ns) /\ forall j x, l !! j = Some x -> located v (take j ns) x.
Proof using Type.
  induction 1 as [|ns p e Hl (l & Hlen & IH) He Ha].
  - exists [ROOT_CLUSTER_NUMBER]. split; [done|]. intros [|j] x Hx; [|done]. injection Hx as <-. constructor.
  - exists (l ++ [entry_cluster e]). split; [rewrite !length_app, Hlen; simpl; lia|]. intros j x Hx. apply lookup_app_Some in Hx as [Hx|[Hj Hx]].
    + rewrite take_app_le by (apply lookup_lt_Some in Hx; lia). by apply IH.
    + apply list_lookup_singleton_Some in Hx as [Hj0 <-]. rewrite take_ge by (rewrite length_app; simpl; lia). by apply (located_child v ns p e).
Qed.

Lemma depth_bound ns c : located v ns c -> (length ns ≤ 509)%nat.
Proof using Hd.
  intros Hl. destruct (ancestors _ _ Hl) as (l & Hlen & Ha). assert (Hb : (length l ≤ 510)%nat); [|lia]. apply taken_bound.
  - apply NoDup_alt. intros i j x Hi Hj. pose proof (located_path _ _ _ Hd _ _ (Ha _ _ Hi) _ (Ha _ _ Hj)) as Heq. apply (f_equal length) in Heq.
    apply lookup_lt_Some in Hi, Hj. rewrite !length_take in Heq. lia.
  - apply Forall_forall. intros x (j & Hx)%list_elem_of_lookup. by eapply located_taken, Ha.
Qed.
End depth.

(** ** [trackToParent] *)

(** A match: every folder from the root on, whose entry has the name [label]. *)
Definition found_line (label : list Z) (ns : list (list Z)) (goal : list Z) : list (list Z * Z) :=
  concat ((fun w => [(w, WHITE); ([47], WHITE)]) <$> [] :: label :: ns) ++ [(goal, WHITE); ([10], WHITE)].

Definition root_label (v : volume) : list Z := match table_at v ROOT_CLUSTER_NUMBER !! 0%nat with Some e => CString.cstr (name e) | None => [] end.

Definition blank_row : list Z := replicate 512 0.

Section track.
Context {K : Type} `{!SysCalls K, !FileServer K, !Screen K}.
Context (v : volume) (m : driver) (cs : list (list Z)) (Hd : disk_ok v (fat_table m) cs).
Implicit Types (s : shell K).

(** A row that holds the text [w]. *)
Definition row_of (r w : list Z) : Prop := text r /\ CString.cstr r = w.

(** The folder's own name and its parent, as the loop reads them. *)
Lemma own_entries k ns c : sees k v m -> located v ns c -> exists k' e0 e1, update_directory_table k c = Ret (table_at v c, k') /\ sees k' v m /\ shown k' = shown k /\
  table_at v c !! 0%nat = Some e0 /\ table_at v c !! 1%nat = Some e1 /\ entry_ok e0 /\ entry_ok e1 /\ cluster_low e0 = c.
Proof using Hd.
  intros Hk Hl. pose proof (dk_tree _ _ _ Hd) as Ht. pose proof (located_map v _ Ht _ _ Hl) as Hc. destruct (read_cluster_sees k v m c Hk Hc) as (k' & Hr & Hk').
  destruct (sees_table v m k c Hk Hc) as [[Hlen Hok] _]. change ENTRY_COUNT with 64%nat in Hlen.
  destruct (located_self v _ Ht _ _ Hl) as (e0 & H0 & Hself & _). destruct (lookup_lt_is_Some_2 (table_at v c) 1) as [e1 H1]; [lia|].
  exists k', e0, e1. unfold update_directory_table. rewrite Hr, bind_ret. split; [done|]. split; [exact Hk'|]. split; [by eapply read_cluster_shown|].
  split; [exact H0|]. split; [exact H1|]. split; [by eapply Forall_lookup_1|]. split; [by eapply Forall_lookup_1|].
  rewrite small_cluster; [exact Hself|by eapply Forall_lookup_1|by rewrite Hself].
Qed.

(** One round of the loop. *)
Lemma track_step fuel k t0 e c k' t e0 e1 acc : t0 !! 0%nat = Some e -> cluster_low e ≠ 2 -> update_directory_table k c = Ret (t, k') ->
  t !! 0%nat = Some e0 -> t !! 1%nat = Some e1 -> entry_ok e0 -> (length acc < 512)%nat ->
  track_loop (S fuel) k t0 c (acc ++ replicate (512 - length acc) blank_row) (Zlen acc) =
  track_loop fuel k' t (cluster_low e1) ((acc ++ [splice 0 (name e0) blank_row]) ++ replicate (512 - length (acc ++ [splice 0 (name e0) blank_row])) blank_row)
    (Zlen (acc ++ [splice 0 (name e0) blank_row])) /\ row_of (splice 0 (name e0) blank_row) (CString.cstr (name e0)).
Proof using Type.
  intros H Hne Hu H0 H1 Hok Hl. destruct (ok_name e0 Hok) as [Hn _]. cbn [track_loop].
  rewrite (arr_get_lookup t0 0 e), bind_ret, (proj2 (Z.eqb_neq _ _)), Hu, bind_ret by (done || lia). rewrite (arr_get_lookup t 0 e0), bind_ret by (done || lia).
  set (r := splice 0 (name e0) blank_row). replace (512 - length acc)%nat with (S (512 - length acc - 1)) by lia.
  change (replicate (S (512 - length acc - 1)) blank_row) with (blank_row :: replicate (512 - length acc - 1) blank_row).
  assert (Hi : Z.to_nat (Zlen acc) = length acc) by (unfold Zlen; lia).
  rewrite (arr_get_lookup _ (Zlen acc) blank_row), bind_ret by (first [unfold Zlen; lia|rewrite Hi, lookup_app_r, Nat.sub_diag by lia; reflexivity]).
  rewrite CString.memcpy_eq, take_ge, bind_ret by (unfold blank_row; rewrite ?length_replicate; lia). fold r.
  rewrite arr_set_in, Hi, bind_ret by (unfold Zlen; rewrite length_app; simpl; lia). rewrite (arr_get_lookup t 1 e1), bind_ret by (done || lia).
  rewrite insert_app_r_alt, Nat.sub_diag by lia. cbn [insert list_insert].
  split; [|split; [|]].
  - rewrite <- (app_assoc acc [r]), length_app. cbn [length app]. replace (512 - (length acc + 1))%nat with (512 - length acc - 1)%nat by lia.
    f_equal. unfold Zlen. rewrite length_app. simpl. lia.
  - unfold r, blank_row. by apply text_array; [lia|].
  - unfold r, blank_row. apply cstr_array. lia.
Qed.

Lemma track_spec ns c : located v ns c -> forall fuel k t0 e acc, sees k v m -> t0 !! 0%nat = Some e -> cluster_low e ≠ 2 ->
  (length acc + S (length ns) ≤ 511)%nat -> (S (length ns) < fuel)%nat ->
  exists rs k', track_loop fuel k t0 c (acc ++ replicate (512 - length acc) blank_row) (Zlen acc) =
      Ret ((acc ++ rs) ++ replicate (512 - length (acc ++ rs)) blank_row, Zlen (acc ++ rs), k') /\
    sees k' v m /\ shown k' = shown k /\ Forall2 row_of rs (reverse (root_label v :: ns)).
Proof using Hd.
  induction 1 as [|ns p e1 Hl IH He1 Ha1]; intros fuel k t0 e acc Hk H0 Hne Hroom Hfuel; (destruct fuel as [|fuel]; [lia|]).
  - destruct (own_entries k [] _ Hk (located_root v)) as (k' & e0 & e2 & Hu & Hk' & Hsh & HE0 & HE1 & Hok & _ & Hlow).
    destruct (track_step fuel k t0 e _ k' _ e0 e2 acc H0 Hne Hu HE0 HE1 Hok ltac:(lia)) as [-> Hrow]. set (r := splice 0 (name e0) blank_row) in *.
    cbn [length] in Hfuel. destruct fuel as [|fuel]; [lia|]. cbn [track_loop]. rewrite (arr_get_lookup _ 0 e0), bind_ret by (done || lia).
    change ROOT_CLUSTER_NUMBER with 2 in Hlow. rewrite Hlow. cbn [Z.eqb Pos.eqb]. exists [r], k'. split; [done|]. split; [exact Hk'|]. split; [exact Hsh|].
    assert (Hlab : root_label v = CString.cstr (name e0)) by (unfold root_label; by rewrite HE0). rewrite Hlab. constructor; [exact Hrow|constructor].
  - pose proof (located_child v ns p e1 Hl He1 Ha1) as Hch. destruct (own_entries k _ _ Hk Hch) as (k' & e0 & e2 & Hu & Hk' & Hsh & HE0 & HE1 & Hok & Hok2 & Hlow).
    destruct (track_step fuel k t0 e _ k' _ e0 e2 acc H0 Hne Hu HE0 HE1 Hok ltac:(lia)) as [-> Hrow]. set (r := splice 0 (name e0) blank_row) in *.
    pose proof (dk_tree _ _ _ Hd) as Ht. destruct (tree_folder _ _ Ht ns p e1 Hl He1 Ha1) as [_ _ _ (e0' & H0' & _ & Hn & _) (e1' & H1' & Hpar)].
    rewrite HE0 in H0'. injection H0' as <-. rewrite HE1 in H1'. injection H1' as <-.
    assert (Hp2 : cluster_low e2 = p) by (rewrite small_cluster; [exact Hpar|exact Hok2|rewrite Hpar; exact (located_map v _ Ht _ _ Hl)]). rewrite Hp2.
    assert (Hne2 : cluster_low e0 ≠ 2).
    { rewrite Hlow. apply elem_drop in He1 as (i & Hi & Hi1). pose proof (folder_in_use _ _ _ Hd _ _ _ _ Hl Hi Hi1 Ha1) as Hu1. exact (proj2 (dk_chain _ _ _ Hd _ _ _ _ Hl Hu1)). }
    rewrite length_app in Hroom, Hfuel. cbn [length] in Hroom, Hfuel.
    destruct (IH fuel k' (table_at v (entry_cluster e1)) e0 (acc ++ [r]) Hk' HE0 Hne2 ltac:(rewrite length_app; simpl; lia) ltac:(lia)) as (rs & k2 & -> & Hk2 & Hsh2 & Hrs).
    exists (r :: rs), k2. rewrite <- (app_assoc acc [r] rs). cbn [app]. split; [done|]. split; [exact Hk2|]. split; [by rewrite Hsh2|].
    change (root_label v :: ns ++ [CString.cstr (name e1)]) with ((root_label v :: ns) ++ [CString.cstr (name e1)]). rewrite reverse_app. cbn [reverse rev_append app].
    constructor; [by rewrite <- Hn|exact Hrs].
Qed.

(** The rows from the last one up. *)
Lemma print_up_shows n : forall s rows ws extra, sees (sys s) v m -> length rows = S n -> Forall2 row_of rows ws ->
  exists s', print_up n s (rows ++ extra) = Ret s' /\ shows v m s (concat ((fun w => [(w, WHITE); ([47], WHITE)]) <$> reverse ws)) s'.
Proof using Type.
  induction n as [|n IH]; intros s rs ws extra Hs Hl Hf; (destruct rs as [|r rs _] using rev_ind; [done|]); rewrite length_app in Hl; cbn [length] in Hl;
    apply Forall2_app_inv_l in Hf as (ws' & ws1 & Hf & Hr & ->); inversion Hr as [|r' w l1 l2 [Hrt Hrc] Hnil]; subst; apply Forall2_nil_inv_l in Hnil as ->;
    rewrite reverse_app; cbn [reverse rev_append app fmap list_fmap concat]; cbn [print_up]; unfold row;
    rewrite (arr_get_lookup _ _ r), bind_ret by (first [lia|rewrite lookup_app_l by (rewrite length_app; simpl; lia); rewrite lookup_app_r by lia; replace (_ - _)%nat with 0%nat by lia; reflexivity]);
    cbn [puts_all]; destruct (put_shows v m s r WHITE (CString.cstr r) Hs Hrt eq_refl eq_refl) as (s1 & -> & H1); rewrite bind_ret;
    (destruct (put_shows v m s1 (lit "/") WHITE [47]) as (s2 & -> & H2); [by eapply shows_sees|by apply text_lit|reflexivity|done|]); rewrite bind_ret.
  - destruct rs; [|simpl in Hl; lia]. apply Forall2_nil_inv_l in Hf as ->. exists s2. split; [done|]. eapply (shows_trans v m s [_]); [exact H1|exact H2].
  - destruct (IH s2 rs ws' ([r] ++ extra)) as (s3 & H3 & Hs3); [by eapply shows_sees|lia|exact Hf|]. exists s3. split; [by rewrite <- app_assoc|].
    eapply (shows_trans v m s [_]); [exact H1|]. eapply (shows_trans v m s1 [_]); [exact H2|exact Hs3].
Qed.

Lemma trackToParent_shows s ns c goal : sees (sys s) v m -> located v ns c -> no_nul goal -> (length goal < 512)%nat ->
  exists s', trackToParent s c (padded 512 goal) = Ret s' /\ shows v m s (found_line (root_label v) ns goal) s'.
Proof using Hd.
  intros Hs Hl Hg Hgl. pose proof (depth_bound v _ cs Hd _ _ Hl) as Hdep. unfold trackToParent.
  destruct (track_spec ns c Hl 514 (sys s) (replicate ENTRY_COUNT empty_entry) empty_entry [] Hs) as (rs & k & Hrun & Hk & Hsh & Hrs); [reflexivity|discriminate|simpl; lia|lia|].
  cbn [app length] in Hrun. change (replicate (512 - 0) blank_row) with empty_path in Hrun. change (Zlen []) with 0 in Hrun. rewrite Hrun, bind_ret.
  pose proof (Forall2_length _ _ _ Hrs) as Hlen. rewrite length_reverse in Hlen. cbn [length] in Hlen.
  assert (H1 : shows v m s [] (set_sys s k)) by (split; [by exists k|by rewrite app_nil_r]).
  unfold Zlen. rewrite Nat2Z.id. replace (512 - length rs)%nat with (S (512 - length rs - 1)) by lia.
  change (replicate (S (512 - length rs - 1)) blank_row) with ([blank_row] ++ replicate (512 - length rs - 1) blank_row). rewrite app_assoc.
  assert (Hblank : row_of blank_row []) by (split; [apply (text_padded 512 []); [simpl; lia|done]|reflexivity]).
  destruct (print_up_shows (length rs) (set_sys s k) (rs ++ [blank_row]) (reverse (root_label v :: ns) ++ [[]]) (replicate (512 - length rs - 1) blank_row)) as (s2 & -> & H2);
    [exact Hk|rewrite length_app; simpl; lia|apply Forall2_app; [exact Hrs|by constructor]|]. rewrite bind_ret. cbn [puts_all].
  rewrite reverse_app, reverse_involutive in H2. cbn [reverse rev_append app] in H2.
  destruct (put_shows v m s2 (padded 512 goal) WHITE goal) as (s3 & -> & H3); [by eapply shows_sees|by apply text_padded|by apply cstr_padded|done|]. rewrite bind_ret.
  destruct (put_shows v m s3 (line "") WHITE [10]) as (s4 & -> & H4); [by eapply shows_sees|by apply text_line|reflexivity|done|].
  exists s4. split; [done|]. unfold found_line. apply (shows_trans v m s [] (set_sys s k) _ s4 H1), (shows_trans v m (set_sys s k) _ s2 _ s4 H2). exact (shows_trans v m s2 [_] s3 [_] s4 H3 H4).
Qed.
End track.

(** ** The search *)

(** The folders of a table, by their clusters. *)
Definition sub_folders (t : list FAT32DirectoryEntry) : list Z :=
  cluster_low <$> filter (fun e => user_attribute e = UATTR_NOT_EMPTY /\ attribute e = ATTR_SUBDIRECTORY) (drop 2 t).

(** The entries of that name, in use or not. *)
Definition hits (goal : list Z) (t : list FAT32DirectoryEntry) : nat := length (filter (fun e => CString.cstr (name e) = goal) (drop 2 t)).

(** The queue behind a directory that was searched. *)
Definition behind (t : list FAT32DirectoryEntry) (rest : list Z) : list Z := sub_folders t ++ drop (length (sub_folders t)) rest.

(** The directories searched from [c] on, with [rest] behind it in the queue. *)
Fixpoint search (fuel : nat) (v : volume) (c : Z) (rest : list Z) : list Z :=
  match fuel with
  | O => []
  | S fuel' => if c =? 0 then [] else c :: match behind (table_at v c) rest with c' :: rest' => search fuel' v c' rest' | [] => [] end
  end.

Lemma hits_step goal t i e : t !! i = Some e -> (2 ≤ i)%nat ->
  hits goal (take (S i) t) = (hits goal (take i t) + if decide (CString.cstr (name e) = goal) then 1 else 0)%nat.
Proof. intros He Hi. unfold hits. rewrite (filter_step _ t i e He Hi), length_app. by case_decide. Qed.

Lemma sub_folders_step t i e : t !! i = Some e -> (2 ≤ i)%nat ->
  sub_folders (take (S i) t) = sub_folders (take i t) ++ (if decide (user_attribute e = UATTR_NOT_EMPTY /\ attribute e = ATTR_SUBDIRECTORY) then [cluster_low e] else []).
Proof. intros He Hi. unfold sub_folders. rewrite (filter_step _ t i e He Hi), fmap_app. by case_decide. Qed.

Lemma sub_folders_length t i : (length (sub_folders (take i t)) ≤ i - 2)%nat.
Proof. unfold sub_folders. rewrite length_fmap. etrans; [apply length_filter|]. rewrite length_drop, length_take. lia. Qed.

(** One folder more in the queue. *)
Lemma queue_folder (pre l rest : list Z) c : (length l < length rest)%nat ->
  arr_set (pre ++ l ++ drop (length l) rest) (Zlen (pre ++ l)) c = Ret (pre ++ (l ++ [c]) ++ drop (length (l ++ [c])) rest).
Proof.
  intros Hl. destruct (lookup_lt_is_Some_2 rest (length l) Hl) as [x Hx]. rewrite (drop_S rest x _ Hx), !app_assoc.
  rewrite arr_set_in by (unfold Zlen; rewrite !length_app; simpl; lia). unfold Zlen. rewrite Nat2Z.id, insert_app_r_alt, Nat.sub_diag by lia. cbn [insert list_insert].
  f_equal. rewrite <- (app_assoc (pre ++ l) [c]). rewrite length_app, Nat.add_1_r. reflexivity.
Qed.

(** The same name, as [find] compares. *)
Lemma same_text nm goal n : 0 ∈ nm -> no_nul goal -> (length goal < n)%nat ->
  (len ← CString.strlen nm; glen ← CString.strlen (padded n goal);
   if len =? glen then r ← CString.memcmp nm (padded n goal) (Z.to_nat glen); Ret (r =? 0) else Ret false) = Ret (bool_decide (CString.cstr nm = goal)).
Proof.
  intros H0 Hg Hl. rewrite (CString.strlen_correct nm), decide_True, bind_ret by done. rewrite (strlen_padded n goal), bind_ret by done.
  destruct (Z.eqb_spec (Zlen (CString.cstr nm)) (Zlen goal)) as [Heq|Hne]; unfold Zlen in *.
  - rewrite Nat2Z.id. assert (Hle : (length goal ≤ length nm)%nat) by (rewrite <- (cstr_take nm) in Heq; rewrite length_take in Heq; lia).
    rewrite CString.memcmp_eqb by (rewrite ?length_padded; lia). f_equal. unfold padded. rewrite take_app_length.
    replace (length goal) with (length (CString.cstr nm)) by lia. by rewrite cstr_take.
  - f_equal. symmetry. apply bool_decide_false. intros <-. by apply Hne.
Qed.

(** ** The queue *)

Section queue.
Lemma elem_sub_folders t x : x ∈ sub_folders t <-> exists j e, (2 ≤ j)%nat /\ t !! j = Some e /\ user_attribute e = UATTR_NOT_EMPTY /\ attribute e = ATTR_SUBDIRECTORY /\ cluster_low e = x.
Proof using Type.
  unfold sub_folders. rewrite list_elem_of_fmap. split.
  - intros (e & -> & [[Hu Ha] (j & Hj & He)%elem_drop]%list_elem_of_filter). by exists j, e.
  - intros (j & e & Hj & He & Hu & Ha & <-). exists e. split; [done|]. apply list_elem_of_filter. split; [done|]. apply elem_drop. by exists j.
Qed.

Context (v : volume) (fat : list Z) (cs : list (list Z)) (Hd : disk_ok v fat cs) (Hblk : forall c, in_map c -> block_ok (vol_get v c)).

(** A folder of the table: its cluster, and its path. *)
Lemma sub_folder_slot ns c j e : located v ns c -> (2 ≤ j)%nat -> table_at v c !! j = Some e -> attribute e = ATTR_SUBDIRECTORY ->
  cluster_low e = entry_cluster e /\ located v (ns ++ [CString.cstr (name e)]) (entry_cluster e).
Proof using Hd Hblk.
  intros Hl Hj He Ha. pose proof (dk_tree _ _ _ Hd) as Ht. destruct (Hblk c (located_map v _ Ht _ _ Hl)) as [Hb1 Hb2].
  pose proof (located_child v ns c e Hl ltac:(apply elem_drop; eauto) Ha) as Hch. split; [|exact Hch].
  apply small_cluster; [|exact (located_map v _ Ht _ _ Hch)]. pose proof (dec_array_wf (A := FAT32DirectoryEntry) ENTRY_COUNT _ Hb1 Hb2) as Hok. by eapply Forall_lookup_1 in Hok.
Qed.

Lemma sub_folder_located ns c x : located v ns c -> x ∈ sub_folders (table_at v c) ->
  exists i e, in_use v c i e /\ attribute e = ATTR_SUBDIRECTORY /\ x = entry_cluster e /\ located v (ns ++ [CString.cstr (name e)]) x.
Proof using Hd Hblk.
  intros Hl (j & e & Hj & He & Hus & Ha & <-)%elem_sub_folders. destruct (sub_folder_slot _ _ _ _ Hl Hj He Ha) as [-> Hch].
  exists j, e. split; [exact (conj Hj (conj He Hus))|]. exact (conj Ha (conj eq_refl Hch)).
Qed.

Lemma sub_folders_nodup ns c i : located v ns c -> NoDup (sub_folders (take i (table_at v c))).
Proof using Hd Hblk.
  intros Hl. set (t := table_at v c). induction i as [|i IH]; [constructor|].
  destruct (t !! i) as [e|] eqn:He; [|rewrite take_ge by (apply lookup_ge_None in He; lia); rewrite <- (take_ge t i) by (apply lookup_ge_None in He; lia); exact IH].
  destruct (decide (2 ≤ i)%nat) as [Hi|Hi]; [|unfold sub_folders; rewrite drop_ge by (rewrite length_take; lia); constructor].
  rewrite (sub_folders_step t i e He Hi). case_decide as Hf; [|by rewrite app_nil_r]. apply NoDup_app. split; [exact IH|]. split; [|apply NoDup_singleton].
  intros x (j & e1 & Hj & [He1 Hji]%lookup_take_Some & Hu1 & Ha1 & Hx)%elem_sub_folders ->%list_elem_of_singleton.
  destruct (sub_folder_slot _ _ _ _ Hl Hj He1 Ha1) as [H1 _], (sub_folder_slot _ _ _ _ Hl Hi He (proj2 Hf)) as [H2 _].
  destruct (dk_own _ _ _ Hd _ _ _ _ _ _ _ _ Hl (conj Hj (conj He1 Hu1)) Hl (conj Hi (conj He (proj1 Hf)))) as [_ Heq]; [congruence|]. lia.
Qed.

(** The directories searched, the one in turn and the rest of the queue. *)
Definition waiting (c : Z) (rest : list Z) : list Z := filter (.≠ 0) (c :: rest).

Record in_line_ok (done : list Z) (c : Z) (rest : list Z) : Prop := MkInLine {
  il_done : NoDup done;
  il_waiting : NoDup (waiting c rest);
  il_new x : x ∈ waiting c rest -> x ∉ done;
  il_located x : x ∈ done \/ x ∈ waiting c rest -> exists ns, located v ns x;
  il_from x : x ∈ done \/ x ∈ waiting c rest -> x = ROOT_CLUSTER_NUMBER \/
    exists q ns i e, q ∈ done /\ located v ns q /\ in_use v q i e /\ attribute e = ATTR_SUBDIRECTORY /\ x = entry_cluster e
}.

Lemma waiting_nonzero x rest c : x ∈ waiting c rest <-> x ≠ 0 /\ (x = c \/ x ∈ rest).
Proof using Type. unfold waiting. rewrite list_elem_of_filter, elem_of_cons. done. Qed.

(** A folder of the directory in turn is new. *)
Lemma sub_folder_new done c rest ns x : in_line_ok done c rest -> c ≠ 0 -> located v ns c -> x ∈ sub_folders (table_at v c) ->
  x ∉ done /\ x ∉ waiting c rest /\ x ≠ 0.
Proof using Hd Hblk.
  intros Hok Hc Hl Hx. destruct (sub_folder_located _ _ _ Hl Hx) as (i & e & Hu & Ha & -> & Hch).
  assert (Hno : ~ (entry_cluster e ∈ done \/ entry_cluster e ∈ waiting c rest)).
  { intros Hin. destruct (il_from _ _ _ Hok _ Hin) as [Hroot|(q & ns' & i' & e' & Hq & Hl' & Hu' & Ha' & Heq)].
    - by destruct (dk_chain _ _ _ Hd _ _ _ _ Hl Hu).
    - destruct (dk_own _ _ _ Hd _ _ _ _ _ _ _ _ Hl Hu Hl' Hu' Heq) as [<- _]. eapply (il_new _ _ _ Hok c); [|exact Hq]. apply waiting_nonzero. split; [exact Hc|by left]. }
  split; [tauto|]. split; [tauto|]. destruct (located_taken v _ _ Hd _ _ Hch) as [? _]. lia.
Qed.

Lemma filter_nonzero_drop k (rest : list Z) : NoDup (filter (.≠ 0) rest) -> NoDup (filter (.≠ 0) (drop k rest)).
Proof using Type. rewrite <- (take_drop k rest) at 1. rewrite filter_app. by intros (_ & _ & ?)%NoDup_app. Qed.

Lemma in_line_step done c rest ns c' rest' : in_line_ok done c rest -> c ≠ 0 -> located v ns c -> behind (table_at v c) rest = c' :: rest' ->
  in_line_ok (done ++ [c]) c' rest'.
Proof using Hd Hblk.
  intros Hok Hc Hl Hb. set (l := sub_folders (table_at v c)) in *. assert (Hcw : c ∈ waiting c rest) by (apply waiting_nonzero; split; [exact Hc|by left]).
  assert (Hnd : NoDup (filter (.≠ 0) rest) /\ c ∉ filter (.≠ 0) rest).
  { pose proof (il_waiting _ _ _ Hok) as Hw. unfold waiting in Hw. rewrite filter_cons_True in Hw by done. apply NoDup_cons in Hw. tauto. }
  assert (Hw : waiting c' rest' = l ++ filter (.≠ 0) (drop (length l) rest)).
  { unfold waiting. rewrite <- Hb. unfold behind. fold l. rewrite filter_app. f_equal. assert (Hnz : Forall (.≠ 0) l).
    { apply Forall_forall. intros x Hx. by destruct (sub_folder_new _ _ _ _ _ Hok Hc Hl Hx) as (_ & _ & ?). }
    clear -Hnz. induction Hnz; [done|]. rewrite filter_cons_True by done. by f_equal. }
  assert (Hrest : forall x, x ∈ filter (.≠ 0) (drop (length l) rest) -> x ∈ waiting c rest /\ x ∈ filter (.≠ 0) rest).
  { intros x [Hx0 (i & _ & Hi)%elem_drop]%list_elem_of_filter. apply list_elem_of_lookup_2 in Hi. split; [apply waiting_nonzero; auto|by apply list_elem_of_filter]. }
  assert (Hold : forall x, x ∈ done ++ [c] \/ x ∈ waiting c' rest' -> x ∈ l \/ (x ∈ done \/ x ∈ waiting c rest)).
  { intros x [[Hx| ->%list_elem_of_singleton]%elem_of_app|Hx]; [auto..|]. rewrite Hw in Hx. apply elem_of_app in Hx as [Hx|Hx]; [by left|]. right. right. by apply Hrest. }
  split.
  - apply NoDup_app. split; [apply Hok|]. split; [|apply NoDup_singleton]. intros x Hx ->%list_elem_of_singleton. exact (il_new _ _ _ Hok c Hcw Hx).
  - rewrite Hw. apply NoDup_app. split; [|split].
    + unfold l. rewrite <- (take_ge (table_at v c) (length (table_at v c))) by lia. by eapply sub_folders_nodup.
    + intros x Hx Hr. destruct (sub_folder_new _ _ _ _ _ Hok Hc Hl Hx) as (_ & Hno & _). by apply Hno, Hrest.
    + apply filter_nonzero_drop, Hnd.
  - intros x Hx [Hxd| ->%list_elem_of_singleton]%elem_of_app; rewrite Hw in Hx; apply elem_of_app in Hx as [Hx|Hx].
    + by destruct (sub_folder_new _ _ _ _ _ Hok Hc Hl Hx).
    + by apply (il_new _ _ _ Hok x); [apply Hrest|].
    + by destruct (sub_folder_new _ _ _ _ _ Hok Hc Hl Hx) as (_ & Hno & _).
    + apply (proj2 Hnd). by apply Hrest.
  - intros x [Hx|Hx]%Hold; [|by apply (il_located _ _ _ Hok)]. destruct (sub_folder_located _ _ _ Hl Hx) as (i & e & _ & _ & _ & Hch). by eexists.
  - intros x [Hx|Hx]%Hold.
    + right. destruct (sub_folder_located _ _ _ Hl Hx) as (i & e & Hu & Ha & Heq & _). exists c, ns, i, e. split; [apply elem_of_app; right; by apply list_elem_of_singleton|]. by split_and!.
    + destruct (il_from _ _ _ Hok x Hx) as [|(q & ns' & i & e & Hq & H)]; [by left|right]. exists q, ns', i, e. split; [apply elem_of_app; by left|exact H].
Qed.
End queue.

(** ** The command *)

Section find.
Context {K : Type} `{!SysCalls K, !FileServer K, !Screen K}.
Context (v : volume) (m : driver) (cs : list (list Z)) (Hd : disk_ok v (fat_table m) cs).
Context (goal : list Z) (Hg : no_nul goal) (Hgl : (length goal < 512)%nat).
Context (Hnames : forall ns c, located v ns c -> Forall (fun e => 0 ∈ name e) (drop 2 (table_at v c))).
Implicit Types (s : shell K).

Lemma find_entries_shows s ns c pre rest count : sees (sys s) v m -> located v ns c -> (62 ≤ length rest)%nat ->
  exists s', find_entries s (table_at v c) c (padded 512 goal) (pre ++ rest) (Zlen pre) count =
      Ret (s', pre ++ behind (table_at v c) rest, Zlen (pre ++ sub_folders (table_at v c)), count + Z.of_nat (hits goal (table_at v c))) /\
    shows v m s (concat (replicate (hits goal (table_at v c)) (found_line (root_label v) ns goal))) s'.
Proof using All.
  intros Hs Hl Hrest. pose proof (located_map v _ (dk_tree _ _ _ Hd) _ _ Hl) as Hc. destruct (sees_table v m (sys s) c Hs Hc) as [[Hlen Hok] _].
  change ENTRY_COUNT with 64%nat in Hlen. pose proof (Hnames _ _ Hl) as Hnm. set (t := table_at v c) in *. unfold find_entries.
  match goal with |- context [for_up 62 2 ?body ?init] =>
    destruct (for_up_inv (fun i '(s', q, n, k) => let t' := take (Z.to_nat i) t in
      q = pre ++ behind t' rest /\ n = Zlen (pre ++ sub_folders t') /\ k = count + Z.of_nat (hits goal t') /\
      shows v m s (concat (replicate (hits goal t') (found_line (root_label v) ns goal))) s') body 62 2 init) as ([[[s' q] n] k] & -> & -> & -> & -> & H)
  end.
  - assert (Hnil : forall P (HP : forall e : FAT32DirectoryEntry, Decision (P e)), filter P (drop 2 (take (Z.to_nat 2) t)) = []).
    { intros P HP. rewrite drop_ge; [done|]. rewrite length_take. lia. }
    unfold behind, sub_folders, hits. rewrite !Hnil. cbn [fmap list_fmap length app concat]. rewrite drop_0, app_nil_r, Z.add_0_r. split; [done|]. split; [done|]. split; [done|]. by apply shows_nil.
  - intros j [[[s1 q] n] k] Hj (-> & -> & -> & H1). destruct (lookup_lt_is_Some_2 t (Z.to_nat j)) as [e He]; [lia|].
    assert (H0 : 0 ∈ name e) by (rewrite Forall_forall in Hnm; apply Hnm, elem_drop; exists (Z.to_nat j); split; [lia|done]).
    eapply Forall_lookup_1 in Hok as Hoke; [|exact He]. destruct (ok_name e Hoke) as [Hn8 _].
    rewrite (arr_get_lookup t j e), bind_ret by (lia || done). rewrite (CString.memcpy_eq _ (name e)), (take_ge (name e)), splice_all, bind_ret by (rewrite ?length_replicate; lia).
    pose proof (same_text (name e) goal 512 H0 Hg Hgl) as Heq. apply bind_Ret_inv in Heq as (len & -> & Heq). apply bind_Ret_inv in Heq as (glen & -> & Heq).
    rewrite !bind_ret, Heq, bind_ret. clear Heq len glen. cbv zeta. replace (Z.to_nat (j + 1)) with (S (Z.to_nat j)) by lia.
    rewrite (hits_step goal t _ e He) by lia. unfold behind. rewrite (sub_folders_step t _ e He) by lia. set (l := sub_folders (take (Z.to_nat j) t)) in *. set (h := hits goal (take (Z.to_nat j) t)) in *.
    assert (Hll : (length l < length rest)%nat) by (pose proof (sub_folders_length t (Z.to_nat j)) as Hsl; fold l in Hsl; lia).
    assert (Htr : exists s2, (if bool_decide (CString.cstr (name e) = goal) then trackToParent s1 c (padded 512 goal) else Ret s1) = Ret s2 /\
      shows v m s (concat (replicate (h + if decide (CString.cstr (name e) = goal) then 1 else 0) (found_line (root_label v) ns goal))) s2).
    { destruct (decide (CString.cstr (name e) = goal)) as [Heq|Heq]; [rewrite bool_decide_true by done|rewrite bool_decide_false, Nat.add_0_r by done; by exists s1].
      destruct (trackToParent_shows v m cs Hd s1 ns c goal (shows_sees _ _ _ _ _ H1) Hl Hg Hgl) as (s2 & H2 & Hs2). exists s2. split; [exact H2|].
      rewrite replicate_add, concat_app. apply (shows_trans v m s _ s1 _ s2 H1).
      assert (Hone : forall L : list (list Z * Z), concat (replicate 1 L) = L) by (intros L; apply app_nil_r). by rewrite Hone. }
    destruct Htr as (s2 & -> & H2). rewrite bind_ret.
    assert (Hcount : (if bool_decide (CString.cstr (name e) = goal) then count + Z.of_nat h + 1 else count + Z.of_nat h) = count + Z.of_nat (h + if decide (CString.cstr (name e) = goal) then 1 else 0)).
    { destruct (decide (CString.cstr (name e) = goal)); [rewrite bool_decide_true by done|rewrite bool_decide_false by done]; lia. }
    rewrite Hcount. clear Hcount. assert (Hfold : (user_attribute e =? UATTR_NOT_EMPTY) && (attribute e =? ATTR_SUBDIRECTORY) = bool_decide (user_attribute e = UATTR_NOT_EMPTY /\ attribute e = ATTR_SUBDIRECTORY)).
    { rewrite bool_decide_and. destruct (Z.eqb_spec (user_attribute e) UATTR_NOT_EMPTY), (Z.eqb_spec (attribute e) ATTR_SUBDIRECTORY); rewrite ?bool_decide_true, ?bool_decide_false by done; done. }
    rewrite Hfold. destruct (decide (user_attribute e = UATTR_NOT_EMPTY /\ attribute e = ATTR_SUBDIRECTORY)) as [Hf|Hf].
    + rewrite bool_decide_true by exact Hf. rewrite (queue_folder pre l rest (cluster_low e) Hll), bind_ret. eexists. split; [reflexivity|]. cbn [fst snd].
      split; [reflexivity|]. split; [unfold Zlen; rewrite !length_app; simpl; lia|]. split; [reflexivity|exact H2].
    + rewrite bool_decide_false, app_nil_r by exact Hf. eexists. split; [reflexivity|]. cbn [fst snd]. split; [reflexivity|]. split; [reflexivity|]. split; [reflexivity|exact H2].
  - change (Z.to_nat (2 + Z.of_nat 62)) with 64%nat in *. rewrite (take_ge t) in * by lia. exists s'. split; [reflexivity|exact H].
Qed.
(** What is printed for the directories searched, with their paths. *)
Definition lines_for (ns : list (list Z)) (c : Z) : list (list Z * Z) := concat (replicate (hits goal (table_at v c)) (found_line (root_label v) ns goal)).

Lemma done_bound done c rest : in_line_ok v done c rest -> (length done ≤ 510)%nat.
Proof using All.
  intros Hok. apply (taken_bound (fat_table m)); [apply Hok|]. apply Forall_forall. intros x Hx.
  destruct (il_located _ _ _ _ Hok x (or_introl Hx)) as [ns Hl]. by eapply located_taken.
Qed.

Lemma waiting_first c rest : c ≠ 0 -> c ∈ waiting c rest.
Proof using Type. intros Hc. apply waiting_nonzero. split; [exact Hc|by left]. Qed.

Lemma waiting_bound done c rest : in_line_ok v done c rest -> c ≠ 0 -> (length done ≤ 509)%nat.
Proof using All.
  intros Hok Hc. assert (Hb : (length (done ++ [c]) ≤ 510)%nat); [|rewrite length_app in Hb; simpl in Hb; lia]. apply (taken_bound (fat_table m)).
  - apply NoDup_app. split; [apply Hok|]. split; [|apply NoDup_singleton]. intros x Hx ->%list_elem_of_singleton. exact (il_new _ _ _ _ Hok c (waiting_first c rest Hc) Hx).
  - apply Forall_forall. intros x Hx. assert (Hl : exists ns, located v ns x).
    { apply elem_of_app in Hx as [Hx| ->%list_elem_of_singleton]; apply (il_located _ _ _ _ Hok); [by left|right; by apply waiting_first]. }
    destruct Hl as [ns Hl]. by eapply located_taken.
Qed.

Lemma find_loop_shows n : forall s done c rest count, sees (sys s) v m -> in_line_ok v done c rest -> (length done + length rest = 2047)%nat ->
  (510 < n + length done)%nat ->
  let V := search n v c rest in
  exists s' P, find_loop n s (padded 512 goal) (done ++ c :: rest) (Zlen done) count = Ret (s', count + Z.of_nat (sum_list_with (fun c => hits goal (table_at v c)) V)) /\
    shows v m s (concat (zip_with lines_for P V)) s' /\ Forall2 (located v) P V /\ NoDup (done ++ V) /\
    (c ≠ 0 -> head V = Some c) /\ (forall q x l, q ∈ V -> sub_folders (table_at v q) = x :: l -> x ∈ V).
Proof using All.
  assert (Hblk : forall k, sees k v m -> forall c, in_map c -> block_ok (vol_get v c)) by (intros k Hk c; exact (sees_block k v m c Hk)).
  induction n as [|n IH]; intros s done c rest count Hs Hok Hlen Hn V; [pose proof (done_bound _ _ _ Hok); lia|].
  assert (Hi : Z.to_nat (Zlen done) = length done) by (unfold Zlen; lia).
  unfold V. clear V. cbn [search find_loop]. rewrite (arr_get_lookup _ (Zlen done) c), bind_ret by (first [unfold Zlen; lia|rewrite Hi, lookup_app_r, Nat.sub_diag by lia; reflexivity]).
  destruct (Z.eqb_spec c 0) as [->|Hc].
  { exists s, []. cbn [sum_list_with zip_with concat]. split; [by rewrite Z.add_0_r|]. split; [by apply shows_nil|]. split; [constructor|]. split; [rewrite app_nil_r; apply Hok|]. split; [done|]. by intros q x l Hq%elem_of_nil. }
  destruct (il_located _ _ _ _ Hok c (or_intror (waiting_first c rest Hc))) as [ns Hl]. pose proof (waiting_bound _ _ _ Hok Hc) as Hb.
  pose proof (located_map v _ (dk_tree _ _ _ Hd) _ _ Hl) as Hcm. destruct (own_entries v m cs Hd (sys s) ns c Hs Hl) as (k & _ & _ & Hu & Hk & Hsh & _).
  assert (Hu32 : u32 c = c) by (apply wrap_small; unfold in_map, is_word in *; lia). rewrite Hu32, Hu, bind_ret.
  assert (H1 : shows v m s [] (set_sys s k)) by (split; [by exists k|by rewrite app_nil_r]).
  replace (done ++ c :: rest) with ((done ++ [c]) ++ rest) by (by rewrite <- app_assoc). replace (Zlen done + 1) with (Zlen (done ++ [c])) by (rewrite Zlen_app; reflexivity).
  destruct (find_entries_shows (set_sys s k) ns c (done ++ [c]) rest count Hk Hl ltac:(lia)) as (s2 & -> & H2). rewrite bind_ret.
  pose proof (sub_folders_length (table_at v c) 64) as Hsub. destruct (sees_table v m _ c Hs Hcm) as [[Ht64 _] _]. change ENTRY_COUNT with 64%nat in Ht64. rewrite take_ge in Hsub by lia.
  assert (Hbl : length (behind (table_at v c) rest) = length rest) by (unfold behind; rewrite length_app, length_drop; lia).
  destruct (behind (table_at v c) rest) as [|c' rest'] eqn:E; [simpl in Hbl; lia|].
  pose proof (in_line_step v _ cs Hd (Hblk _ Hs) _ _ _ _ _ _ Hok Hc Hl E) as Hok'. cbn [length] in Hbl.
  destruct (IH s2 (done ++ [c]) c' rest' (count + Z.of_nat (hits goal (table_at v c))) (shows_sees _ _ _ _ _ H2) Hok') as (s3 & P & -> & H3 & HP & Hnd & Hhd & Hcl);
    [rewrite length_app; simpl; lia|rewrite length_app; simpl; lia|].
  exists s3, (ns :: P). cbn [sum_list_with zip_with concat]. split; [f_equal; f_equal; lia|]. split.
  { apply (shows_trans v m s [] (set_sys s k) _ s3 H1). exact (shows_trans v m (set_sys s k) _ s2 _ s3 H2 H3). }
  split; [by constructor|]. split; [by rewrite <- app_assoc in Hnd|]. split; [done|].
  intros q x l [->|Hq]%elem_of_cons Hx; [|apply elem_of_cons; right; by eapply Hcl]. apply elem_of_cons. right.
  assert (c' = x) as -> by (unfold behind in E; rewrite Hx in E; by injection E). apply head_Some_elem_of, Hhd.
  assert (Hx0 : x ∈ sub_folders (table_at v c)) by (rewrite Hx; apply elem_of_cons; by left).
  by destruct (sub_folder_new v _ cs Hd (Hblk _ Hs) _ _ _ _ _ Hok Hc Hl Hx0) as (_ & _ & ?).
Qed.
Lemma first_in_line rest : filter (.≠ 0) rest = [] -> in_line_ok v [] ROOT_CLUSTER_NUMBER rest.
Proof using Type.
  intros Hr. assert (Hw : waiting ROOT_CLUSTER_NUMBER rest = [ROOT_CLUSTER_NUMBER]) by (unfold waiting; rewrite filter_cons_True by done; by rewrite Hr). split.
  - constructor.
  - rewrite Hw. apply NoDup_singleton.
  - intros x _ Hx. by apply elem_of_nil in Hx.
  - rewrite Hw. intros x [Hx|Hx]; [by apply elem_of_nil in Hx|]. apply list_elem_of_singleton in Hx as ->. eexists. constructor.
  - rewrite Hw. intros x [Hx|Hx]; [by apply elem_of_nil in Hx|]. left. by apply list_elem_of_singleton in Hx.
Qed.

Definition not_found : list (list Z * Z) :=
  [(bytes_of_string "error: there are no folder or file with the name '", LIGHT_RED); (goal, LIGHT_RED); (bytes_of_string "'" ++ [10], LIGHT_RED)].

Lemma find_spec s ns : settled v m s ns ->
  let V := search 2049 v ROOT_CLUSTER_NUMBER (replicate 2047 0) in
  exists s' P, find s (padded 512 goal) 1 (replicate 2048 0) = Ret s' /\ settled v m s' ns /\ current_directory s' = current_directory s /\
    shown (sys s') = shown (sys s) ++ concat (zip_with lines_for P V) ++
      (if decide (sum_list_with (fun c => hits goal (table_at v c)) V = 0%nat) then not_found else []) /\
    Forall2 (located v) P V /\ NoDup V /\ head V = Some ROOT_CLUSTER_NUMBER /\ (forall q x l, q ∈ V -> sub_folders (table_at v q) = x :: l -> x ∈ V).
Proof using All.
  intros Hs V. unfold find. cbn [Z.eqb Pos.eqb]. change (arr_set (replicate 2048 0) 0 2) with (Ret (ROOT_CLUSTER_NUMBER :: replicate 2047 0)). rewrite bind_ret.
  rewrite length_replicate.
  destruct (find_loop_shows 2049 s [] ROOT_CLUSTER_NUMBER (replicate 2047 0) 0 (st_sees _ _ _ _ Hs)) as (s1 & P & Hrun & H1 & HP & Hnd & Hhd & Hcl);
    [apply first_in_line; by vm_compute|reflexivity|simpl; lia|]. fold V in Hrun, H1, HP, Hnd, Hhd, Hcl.
  cbn [app] in Hrun. change (Zlen []) with 0 in Hrun. rewrite Z.add_0_l in Hrun. rewrite Hrun, bind_ret.
  assert (H2 : exists s2, (if Z.of_nat (sum_list_with (fun c => hits goal (table_at v c)) V) =? 0 then
      puts_all s1 [(lit "error: there are no folder or file with the name '", LIGHT_RED); (padded 512 goal, LIGHT_RED); (line "'", LIGHT_RED)] else Ret s1) = Ret s2 /\
    shows v m s1 (if decide (sum_list_with (fun c => hits goal (table_at v c)) V = 0%nat) then not_found else []) s2).
  { destruct (decide (sum_list_with (fun c => hits goal (table_at v c)) V = 0%nat)) as [H0|H0].
    - rewrite (proj2 (Z.eqb_eq _ _)) by lia. cbn [puts_all].
      destruct (put_shows v m s1 (lit "error: there are no folder or file with the name '") LIGHT_RED (bytes_of_string "error: there are no folder or file with the name '")) as (s2 & -> & H2);
        [by eapply shows_sees|by apply text_lit|reflexivity|done|]. rewrite bind_ret.
      destruct (put_shows v m s2 (padded 512 goal) LIGHT_RED goal) as (s3 & -> & H3); [by eapply shows_sees|by apply text_padded|by apply cstr_padded|done|]. rewrite bind_ret.
      destruct (put_shows v m s3 (line "'") LIGHT_RED (bytes_of_string "'" ++ [10])) as (s4 & -> & H4); [by eapply shows_sees|by apply text_line|reflexivity|done|].
      exists s4. split; [done|]. apply (shows_trans v m s1 [_] s2 _ s4 H2), (shows_trans v m s2 [_] s3 [_] s4 H3 H4).
    - rewrite (proj2 (Z.eqb_neq _ _)) by lia. exists s1. split; [done|]. apply shows_nil. by eapply shows_sees. }
  destruct H2 as (s2 & Hr2 & H2). exists s2, P. split; [exact Hr2|]. destruct (shows_trans _ _ _ _ _ _ _ H1 H2) as [(k & -> & Hk) Hsh].
  split; [by apply settled_sys|]. split; [done|]. split; [exact Hsh|]. split; [exact HP|]. split; [exact Hnd|]. split; [by apply Hhd|exact Hcl].
Qed.
End find.

Section search.
Context {K : Type} `{!SysCalls K, !FileServer K, !Screen K}.

(** C19: [find name] searches the directories [search] goes through, each once,
    the root first, and with every directory the first of its folders; for
    every entry of that name it prints the path of its folder from the root
    on.  It ends, and reports a failure when there was none, on a disk whose
    names are shorter than their eight bytes and with a queue that starts as
    zeros. *)
Theorem find_searches v m cs (s : shell K) ns goal : settled v m s ns -> disk_ok v (fat_table m) cs -> no_nul goal -> (length goal < 512)%nat ->
  (forall ns c, located v ns c -> Forall (fun e => 0 ∈ name e) (drop 2 (table_at v c))) ->
  let V := search 2049 v ROOT_CLUSTER_NUMBER (replicate 2047 0) in
  exists s' P, find s (padded 512 goal) 1 (replicate 2048 0) = Ret s' /\ settled v m s' ns /\ current_directory s' = current_directory s /\
    shown (sys s') = shown (sys s) ++ concat (zip_with (lines_for v goal) P V) ++
      (if decide (sum_list_with (fun c => hits goal (table_at v c)) V = 0%nat) then not_found goal else []) /\
    Forall2 (located v) P V /\ NoDup V /\ head V = Some ROOT_CLUSTER_NUMBER /\ (forall q x l, q ∈ V -> sub_folders (table_at v q) = x :: l -> x ∈ V).
Proof using Type. intros Hs Hd Hg Hl Hn. exact (find_spec v m cs Hd goal Hg Hl Hn s ns Hs). Qed.
End search.
