(* ===== verification/ShellMv.v ===== *)
(** * Renaming a file: [mv]

    [mv] with a second path that is not there renames an entry in its folder's
    table and writes the table back.  On a disk in order that is the same file
    under another key of the map. *)
From stdpp Require Import gmap.
From S2P Require Import Prelude CString BlockDevice FatLayout Fat32 FatFacts FatChain FatLoops FatSpec FatRefine FatWrite FatMount FatProps FatInvariant.
From S2P Require Import ShellBase Shell ShellPath ShellFiles ShellCommands ShellMove ShellFacts ShellLine DirTree DiskTree DiskRemove DiskMap ShellSplit ShellNames ShellWalk ShellCd ShellMkdir ShellRm ShellCat.

(** ** A file's entry under another name *)

Section renamed.
Context (v : volume) (fat : list Z) (cs : list (list Z)) (p : Z) (pns : list (list Z)) (i : nat) (e : FAT32DirectoryEntry) (nm : list Z).
Context (Hlen : length v = 512%nat) (Hblocks : forall c, in_map c -> block_ok (vol_get v c)) (Hd : disk_ok v fat cs).
Context (Hp : located v pns p) (Hu : in_use v p i e) (Ha : attribute e ≠ ATTR_SUBDIRECTORY) (Hnm : length nm = 8%nat /\ bytes_ok nm).
Context (Hfresh : Forall (fun e => has_name nm e = false) (drop 2 (table_at v p))).
Notation e' := (set_name_of e nm).
Notation t' := (<[i := e']> (table_at v p)).
Notation v' := (<[Z.to_nat p := enc_array t']> v).

Lemma renamed_table_ok : table_ok t'.
Proof using Hblocks Hd Hp Hu Hnm.
  destruct (Hblocks p) as [Hb1 Hb2]; [by eapply (located_map v _ (dk_tree _ _ _ Hd))|].
  pose proof (dec_array_wf (A := FAT32DirectoryEntry) ENTRY_COUNT _ Hb1 Hb2) as Hw. split; [rewrite length_insert; apply length_dec_array|].
  apply Forall_insert; [exact Hw|]. destruct Hu as (_ & He & _). eapply Forall_lookup_1 in Hw; [|exact He]. destruct Hw. by split.
Qed.

Lemma renamed_table x : in_map x -> table_at v' x = if decide (x = p) then t' else table_at v x.
Proof using All.
  intros Hx. pose proof (located_map v _ (dk_tree _ _ _ Hd) _ _ Hp) as Hpm. unfold table_at at 1. rewrite vol_get_insert by done.
  case_decide; [|done]. apply dec_enc_table, renamed_table_ok.
Qed.

Lemma renamed_slot ns x j e1 : located v ns x -> table_at v' x !! j = Some e1 ->
  table_at v x !! j = Some e1 /\ (x, j) ≠ (p, i) \/ x = p /\ j = i /\ e1 = e'.
Proof using All.
  intros Hl He. rewrite renamed_table in He by (by eapply (located_map v _ (dk_tree _ _ _ Hd))). case_decide as Hxp; [|left; split; [done|congruence]]. subst x.
  destruct (decide (j = i)) as [->|Hj].
  - right. rewrite list_lookup_insert_eq in He; [by simplify_eq|]. destruct Hu as (_ & H & _). by eapply lookup_lt_Some.
  - rewrite list_lookup_insert_ne in He by done. left. split; [done|congruence].
Qed.

Lemma renamed_slot_kept ns x j e1 : located v ns x -> table_at v x !! j = Some e1 -> (x, j) ≠ (p, i) -> table_at v' x !! j = Some e1.
Proof using All.
  intros Hl He Hne. rewrite renamed_table by (by eapply (located_map v _ (dk_tree _ _ _ Hd))). case_decide as Hxp; [|done]. subst x. rewrite list_lookup_insert_ne; [done|congruence].
Qed.

Lemma renamed_slot_new : table_at v' p !! i = Some e'.
Proof using All.
  rewrite renamed_table by (by eapply (located_map v _ (dk_tree _ _ _ Hd))). rewrite decide_True by done. apply list_lookup_insert_eq. destruct Hu as (_ & H & _). by eapply lookup_lt_Some.
Qed.

Lemma renamed_located ns x : located v' ns x <-> located v ns x.
Proof using All.
  split.
  - induction 1 as [|ns x e1 Hl IH He Ha1]; [constructor|]. eapply located_child; [exact IH| |exact Ha1]. apply elem_drop in He as (j & Hj & He).
    destruct (renamed_slot _ _ _ _ IH He) as [[He' _]|(_ & _ & ->)]; [apply elem_drop; eauto|done].
  - induction 1 as [|ns x e1 Hl IH He Ha1]; [constructor|]. eapply located_child; [exact IH| |exact Ha1]. apply elem_drop in He as (j & Hj & He).
    apply elem_drop. exists j. split; [exact Hj|]. eapply renamed_slot_kept; [exact Hl|exact He|]. intros [= -> ->]. destruct Hu as (_ & H & _). rewrite He in H. by injection H as ->.
Qed.

Lemma renamed_in_use ns x j e1 : located v ns x -> in_use v' x j e1 <-> in_use v x j e1 /\ (x, j) ≠ (p, i) \/ x = p /\ j = i /\ e1 = e'.
Proof using All.
  intros Hl. split.
  - intros (Hj & He & Hus). destruct (renamed_slot _ _ _ _ Hl He) as [[He' Hne]|H]; [left; exact (conj (conj Hj (conj He' Hus)) Hne)|right; exact H].
  - intros [[(Hj & He & Hus) Hne]|(-> & -> & ->)]; [exact (conj Hj (conj (renamed_slot_kept _ _ _ _ Hl He Hne) Hus))|].
    destruct Hu as (Hi & _ & Hus). exact (conj Hi (conj renamed_slot_new Hus)).
Qed.

Lemma renamed_first ns x j : located v ns x -> (j < 2)%nat -> table_at v' x !! j = table_at v x !! j.
Proof using All.
  intros Hl Hj. rewrite renamed_table by (by eapply (located_map v _ (dk_tree _ _ _ Hd))). case_decide; [|done]. subst x. apply list_lookup_insert_ne. destruct Hu as [? _]. lia.
Qed.

Lemma renamed_tree : tree_ok v' fat.
Proof using All.
  pose proof (dk_tree _ _ _ Hd) as Ht. split.
  - rewrite (renamed_first [] _ 0 (located_root v)) by lia. by apply (tree_root v fat).
  - intros ns x e1 Hl He Ha1. apply renamed_located in Hl. apply elem_drop in He as (j & Hj & He).
    destruct (renamed_slot _ _ _ _ Hl He) as [[He' _]|(_ & _ & ->)]; [|done]. assert (Hin : e1 ∈ drop 2 (table_at v x)) by (apply elem_drop; eauto).
    destruct (tree_folder _ _ Ht ns x e1 Hl Hin Ha1) as [Htk Hus Hn Hs Hpr]. pose proof (located_child v ns x e1 Hl Hin Ha1) as Hch.
    split; [exact Htk|exact Hus|exact Hn|rewrite (renamed_first _ _ 0%nat Hch) by lia; exact Hs|rewrite (renamed_first _ _ 1%nat Hch) by lia; exact Hpr].
Qed.

(** No other entry of the folder has the new name. *)
Lemma renamed_unique j e1 : in_use v p j e1 -> name e1 ≠ nm.
Proof using Hfresh.
  intros (Hj & He & _) Hn. rewrite Forall_forall in Hfresh. specialize (Hfresh e1 ltac:(apply elem_drop; eauto)). unfold has_name in Hfresh.
  by rewrite bool_decide_true in Hfresh.
Qed.

Lemma disk_renamed : disk_ok v' fat cs.
Proof using All.
  split; [exact renamed_tree|apply Hd|apply Hd|..].
  - intros ns x j e1 Hl%renamed_located Hu1. apply (renamed_in_use _ _ _ _ Hl) in Hu1 as [[Hu1 _]|(-> & -> & ->)]; [by eapply dk_chain|]. exact (dk_chain _ _ _ Hd _ _ _ _ Hp Hu).
  - intros ns x j e1 Hl%renamed_located Hu1 Ha1. apply (renamed_in_use _ _ _ _ Hl) in Hu1 as [[Hu1 _]|(-> & -> & ->)]; [by eapply dk_size|]. exact (dk_size _ _ _ Hd _ _ _ _ Hp Hu Ha).
  - assert (Hold : forall ns x j e1, located v ns x -> in_use v' x j e1 -> exists e2, in_use v x j e2 /\ entry_cluster e2 = entry_cluster e1).
    { intros ns x j e1 Hl Hu1. apply (renamed_in_use _ _ _ _ Hl) in Hu1 as [[Hu1 _]|(-> & -> & ->)]; [by exists e1|by exists e]. }
    intros ns x j e1 ns2 x2 j2 e2 Hl%renamed_located Hu1 Hl2%renamed_located Hu2 Heq. destruct (Hold _ _ _ _ Hl Hu1) as (f1 & Hf1 & E1), (Hold _ _ _ _ Hl2 Hu2) as (f2 & Hf2 & E2).
    eapply (dk_own _ _ _ Hd); [exact Hl|exact Hf1|exact Hl2|exact Hf2|congruence].
  - intros ns x j e1 j2 e2 Hl%renamed_located Hu1 Hu2 Hn Hx Hat.
    apply (renamed_in_use _ _ _ _ Hl) in Hu1 as [[Hu1 _]|(Hxp & -> & ->)]; apply (renamed_in_use _ _ _ _ Hl) in Hu2 as [[Hu2 _]|(Hxp' & -> & ->)]; [|..|done].
    + by eapply dk_unique.
    + subst x. by destruct (renamed_unique _ _ Hu1).
    + subst x. by destruct (renamed_unique _ _ Hu2).
  - intros ns x j e1 Hl%renamed_located Hu1. apply (renamed_in_use _ _ _ _ Hl) in Hu1 as [[Hu1 _]|(-> & -> & ->)]; [by eapply dk_kind|]. exact (dk_kind _ _ _ Hd _ _ _ _ Hp Hu).
  - intros ns x j e1 Hl%renamed_located Hj He Hf. destruct (renamed_slot _ _ _ _ Hl He) as [[He' _]|(_ & _ & ->)]; [by eapply dk_blank|].
    destruct Hu as (_ & _ & Hus). unfold free_slot in Hf. cbn [user_attribute set_name_of] in Hf. by rewrite Hus in Hf.
Qed.
End renamed.

Section renamed_files.
Context (v : volume) (fat : list Z) (cs : list (list Z)) (p : Z) (pns : list (list Z)) (i : nat) (e : FAT32DirectoryEntry) (nm : list Z).
Context (Hlen : length v = 512%nat) (Hblocks : forall c, in_map c -> block_ok (vol_get v c)) (Hd : disk_ok v fat cs).
Context (Hp : located v pns p) (Hu : in_use v p i e) (Ha : attribute e ≠ ATTR_SUBDIRECTORY) (Hnm : length nm = 8%nat /\ bytes_ok nm).
Context (Hfresh : Forall (fun e => has_name nm e = false) (drop 2 (table_at v p))).
Notation e' := (set_name_of e nm).
Notation v' := (<[Z.to_nat p := enc_array (<[i := e']> (table_at v p))]> v).

(** The clusters of a file are no folder's. *)
Lemma renamed_data ns x j e1 : located v ns x -> in_use v x j e1 -> attribute e1 ≠ ATTR_SUBDIRECTORY -> file_data v' fat e1 = file_data v fat e1.
Proof using Hlen Hd Hp.
  intros Hl Hu1 Ha1. unfold file_data, get_data. do 2 f_equal. apply list_fmap_ext. intros n y Hy%list_elem_of_lookup_2.
  pose proof (located_map v _ (dk_tree _ _ _ Hd) _ _ Hp) as Hpm.
  rewrite vol_get_insert by (first [exact Hlen|exact Hpm|by eapply allocated_in_map, (slot_allocated _ _ _ Hd _ _ _ _ _ Hl Hu1)]). rewrite decide_False; [done|].
  intros ->. destruct (located_of_slot _ _ _ Hd _ _ _ _ _ _ Hp Hl Hu1 Hy) as [Hsub _]. exact (Ha1 Hsub).
Qed.

Lemma renamed_file_at x nm1 ex data : file_at v' fat x nm1 ex data <->
  file_at v fat x nm1 ex data /\ (x, nm1, ex) ≠ (p, name e, ext e) \/ (x, nm1, ex) = (p, nm, ext e) /\ data = file_data v fat e.
Proof using All.
  pose proof (fun ns x => renamed_located v fat cs p pns i e nm Hlen Hblocks Hd Hp Hu Ha Hnm Hfresh ns x) as Hloc.
  pose proof (fun ns x j e1 Hl => renamed_in_use v fat cs p pns i e nm Hlen Hblocks Hd Hp Hu Ha Hnm Hfresh ns x j e1 Hl) as Huse. split.
  - intros (ns & j & e1 & Hl%Hloc & Hu1 & Ha1 & <- & <- & <-). apply (Huse _ _ _ _ Hl) in Hu1 as [[Hu1 Hne]|(-> & -> & ->)].
    + left. rewrite (renamed_data _ _ _ _ Hl Hu1 Ha1). split; [by eapply file_at_slot|]. intros [= -> Hn Hx]. apply Hne. f_equal.
      destruct (dk_kind _ _ _ Hd _ _ _ _ Hp Hu1) as [|H1]; [contradiction|]. destruct (dk_kind _ _ _ Hd _ _ _ _ Hp Hu) as [|H2]; [contradiction|].
      eapply (dk_unique _ _ _ Hd); [exact Hp|exact Hu1|exact Hu|exact Hn|exact Hx|congruence].
    + right. split; [done|]. exact (renamed_data _ _ _ _ Hp Hu Ha).
  - intros [[(ns & j & e1 & Hl & Hu1 & Ha1 & <- & <- & <-) Hne]|[[= -> -> ->] ->]].
    + rewrite <- (renamed_data _ _ _ _ Hl Hu1 Ha1). assert (Hne' : (x, j) ≠ (p, i)).
      { intros [= -> ->]. apply Hne. destruct Hu as (_ & H1 & _), Hu1 as (_ & H2 & _). rewrite H1 in H2. by injection H2 as ->. }
      eapply file_at_slot; [by apply Hloc| |exact Ha1]. apply (Huse _ _ _ _ Hl). left. exact (conj Hu1 Hne').
    + rewrite <- (renamed_data _ _ _ _ Hp Hu Ha). exists pns, i, e'. split; [by apply Hloc|]. split; [apply (Huse _ _ _ _ Hp); right; exact (conj eq_refl (conj eq_refl eq_refl))|].
      exact (conj Ha (conj eq_refl (conj eq_refl eq_refl))).
Qed.
End renamed_files.

(** The file [old] has the name [new]. *)
Definition renamed_map (d : disk_map) (p : Z) (old new ex data : list Z) : disk_map :=
  with_files d (<[(p, new, ex) := data]> (delete (p, old, ex) (files d))).

Lemma rename_shows v m d p pns i e nm data : length v = 512%nat -> (forall c, in_map c -> block_ok (vol_get v c)) -> disk_shows v m d ->
  located v pns p -> in_use v p i e -> attribute e ≠ ATTR_SUBDIRECTORY -> length nm = 8%nat /\ bytes_ok nm ->
  Forall (fun e => has_name nm e = false) (drop 2 (table_at v p)) -> files d !! (p, name e, ext e) = Some data ->
  disk_shows (<[Z.to_nat p := enc_array (<[i := set_name_of e nm]> (table_at v p))]> v) m (renamed_map d p (name e) nm (ext e) data).
Proof.
  intros Hlen Hblk [Hm [cs Hd] [Hf Hpa]] Hp Hu Ha Hnm Hfresh Hdata. split; [exact Hm|by eexists; eapply disk_renamed|].
  assert (Hfd : file_data v (fat_table m) e = data).
  { apply Hf in Hdata. eapply (file_at_functional v (fat_table m) cs Hlen Hblk Hd); [by eapply file_at_slot|exact Hdata]. }
  split.
  - intros x nm1 ex data1. rewrite (renamed_file_at v _ cs p pns i e nm Hlen Hblk Hd Hp Hu Ha Hnm Hfresh), Hfd. cbn [renamed_map with_files files].
    rewrite lookup_insert_Some, lookup_delete_Some, Hf. symmetry. split.
    + intros [[Hat Hne]|[Heq ->]]; [right|left; split; [by rewrite Heq|done]]. split; [|split; [by apply not_eq_sym|exact Hat]].
      intros Heq. injection Heq as <- <- <-. destruct Hat as (ns & j & e1 & _ & Hu1 & _ & Hn & _). by destruct (renamed_unique v p nm Hfresh j e1 Hu1).
    + intros [[Heq <-]|(_ & Hne & Hat)]; [right; split; [by rewrite Heq|done]|left]. split; [exact Hat|by apply not_eq_sym].
  - intros x ns. cbn [renamed_map with_files paths]. rewrite Hpa. symmetry. by eapply renamed_located.
Qed.

(** ** The command *)

Section mv.
Context {K : Type} `{!SysCalls K, !FileServer K, !ClusterServer K}.
Implicit Types (s : shell K) (v : volume) (m : driver).

(** A name that is in no entry of the folder. *)
Lemma change_directory_missing v m s ns c w : tree_ok v (fat_table m) -> sees (sys s) v m -> located v ns c -> table_ok (temp_dir_table s) -> typed_name w ->
  lookup_first (has_name (name8 w)) (drop 2 (table_at v c)) = None ->
  exists k t, change_directory s (padded 512 w) c = Ret (2, c, set_temp_table (set_sys s k) t) /\ sees k v m.
Proof using Type.
  intros Ht Hs Hl Htab Hw Hnone. pose proof (located_map v _ Ht ns c Hl) as Hc. destruct (table_block _ Htab) as [Hbl Hbb]. unfold change_directory.
  rewrite CString.memcpy_eq by (rewrite ?length_padded by (destruct Hw as (_ & _ & ?); lia); rewrite ?length_replicate; lia).
  rewrite name8_padded, splice_all, bind_ret by (apply name8_ok || destruct Hw as (_ & _ & ?); done || lia).
  set (rq := folder_request s (name8 w) c).
  assert (Hok : request_ok rq).
  { split; [by apply name8_ok|split; [done|by repeat constructor]|unfold is_word; cbn; unfold CLUSTER_SIZE, BLOCK_SIZE, CLUSTER_BLOCK_COUNT; lia]. }
  destruct (read_directory_sees (sys s) v m rq Hs Hok Hc) as (k & -> & Hk).
  { cbn. unfold Zlen. rewrite Hbl. done. } { cbn. unfold Zlen. rewrite Hbl. by vm_compute. } { exact Hbb. }
  { cbn. intros e He. rewrite Hnone in He. discriminate. }
  unfold spec_read_directory. cbn [buffer_size parent_cluster_number req_name rq folder_request].
  rewrite Z.ltb_irrefl, (located_dir v (fat_table m) Ht ns c Hl), Hnone, bind_ret. cbn [negb buf Z.eqb]. by eexists _, _.
Qed.

(** The first look at the second path. *)
Lemma change_mv_missing v m s ns nw : tree_ok v (fat_table m) -> settled v m s ns -> table_ok (temp_dir_table s) -> typed_name nw -> 46 ∉ nw ->
  lookup_first (has_name (name8 nw)) (drop 2 (table_at v (current_directory s))) = None ->
  exists k t, change_path_mv s (rows [nw]) 1 = Ret (2, set_temp_table (set_sys s k) t) /\ sees k v m.
Proof using Type.
  intros Ht [Hs _ _ Hl _ _] Htab Hw Hdot Hnone. unfold change_path_mv. cbn [Z.eqb]. change (S (Z.to_nat 1)) with 2%nat. cbn [change_mv_loop].
  change (negb (0 <? 1)) with false. cbv iota. unfold row. rewrite (arr_get_lookup _ 0 (padded 512 nw)), bind_ret by (done || by apply (lookup_rows [nw] 0)).
  destruct Hw as (Hn & Hb & Hlen) eqn:E. clear E.
  assert (Hno : forall word, 46 ∈ bytes_of_string word -> bool_decide (nw = bytes_of_string word) = false) by (intros word Hin; apply bool_decide_false; by intros ->).
  rewrite (is_word_at_padded 512 nw ".."), bind_ret, (Hno "..") by (done || by repeat constructor). 
  rewrite (is_word_at_padded 512 nw "."), bind_ret, (Hno ".") by (done || by repeat constructor).
  destruct (change_directory_missing v m s ns (current_directory s) nw Ht Hs Hl Htab (conj Hn (conj Hb Hlen)) Hnone) as (k & t & -> & Hk).
  rewrite !bind_ret. cbn [Z.eqb]. by exists k, t.
Qed.

Lemma no_invalid_char nw : no_nul nw -> (length nw < 512)%nat -> 46 ∉ nw -> contains_invalid_char (padded 512 nw) 46 = Ret false.
Proof using Type.
  intros Hn Hl Hdot. unfold contains_invalid_char. rewrite strlen_padded, bind_ret by done.
  rewrite (scan_while_arr (fun c => c =? 46) (padded 512 nw)); [|lia|unfold Zlen; rewrite length_padded by lia; lia|].
  2: { intros j y Hj Hy. rewrite (arr_get_lookup _ j y), bind_ret by (lia || done). reflexivity. }
  change (Z.to_nat 0) with 0%nat. rewrite drop_0. unfold Zlen. rewrite !Nat2Z.id. unfold padded at 1. rewrite take_app_length.
  rewrite first_idx_forall by (apply Forall_forall; intros c Hc; apply Z.eqb_neq; by intros ->). rewrite Z.add_0_l, bind_ret. by rewrite Z.ltb_irrefl.
Qed.

Lemma find_name_first t w : table_ok t -> (length w < 512)%nat -> find_name t (padded 512 w) 0 = Ret (Z.of_nat (first_idx (has_name (name8 w)) t)).
Proof using Type.
  intros [Hl Ht] Hw. change ENTRY_COUNT with 64%nat in Hl. unfold find_name. rewrite (scan_while_arr (has_name (name8 w)) t); [|lia|unfold Zlen; lia|].
  - change (Z.to_nat (64 - 0)) with 64%nat. change (Z.to_nat 0) with 0%nat. rewrite drop_0, take_ge, Z.add_0_l by lia. reflexivity.
  - intros j y Hj Hy. rewrite (arr_get_lookup _ j y), bind_ret by (lia || done). eapply Forall_lookup_1 in Ht as [[Hn _] _ _ _ _ _]; [|exact Hy].
    pose proof (CString.memcmp_eqb (name y) (padded 512 w) 8 ltac:(lia) ltac:(rewrite length_padded; lia)) as Hr.
    apply bind_Ret_inv in Hr as (r & -> & [= Hr]). rewrite bind_ret, Hr, name8_padded, (take_ge (name y)) by lia. reflexivity.
Qed.
(** The entry [rename] comes upon. *)
Lemma first_named v m d p pns w ex data : length v = 512%nat -> (forall c, in_map c -> block_ok (vol_get v c)) -> disk_shows v m d -> located v pns p ->
  no_nul w -> w ≠ [] -> files d !! (p, name8 w, ex) = Some data ->
  Forall (fun e => name e ≠ name8 w) (take 2 (table_at v p)) ->
  Forall (fun e => name e = name8 w -> attribute e ≠ ATTR_SUBDIRECTORY /\ ext e = ex) (drop 2 (table_at v p)) ->
  exists e, in_use v p (first_idx (has_name (name8 w)) (table_at v p)) e /\ name e = name8 w /\ ext e = ex /\ attribute e ≠ ATTR_SUBDIRECTORY.
Proof using Type.
  intros Hlen Hblk [_ [cs Hd] Hh] Hp Hw Hne Hf Htwo Honly. apply (ho_files _ _ _ Hh) in Hf as (_ & j & e1 & _ & (_ & He1 & _) & _ & Hn1 & _).
  assert (Hlt : (first_idx (has_name (name8 w)) (table_at v p) < length (table_at v p))%nat).
  { destruct (decide (first_idx (has_name (name8 w)) (table_at v p) < length (table_at v p))%nat) as [|Hge]; [done|].
    assert (Hnone : Forall (fun e => has_name (name8 w) e = false) (table_at v p)) by (apply first_idx_none; pose proof (first_idx_le (has_name (name8 w)) (table_at v p)); lia).
    eapply Forall_lookup_1 in Hnone; [|exact He1]. unfold has_name in Hnone. by rewrite bool_decide_true in Hnone. }
  destruct (first_idx_lookup _ _ Hlt) as (e & He & Hname). unfold has_name in Hname. apply bool_decide_eq_true in Hname.
  set (i := first_idx _ _) in *. assert (Hi : (2 ≤ i)%nat).
  { destruct (decide (2 ≤ i)%nat) as [|Hi]; [done|]. eapply (Forall_lookup_1 _ _ i e) in Htwo; [done|]. by rewrite lookup_take_lt by lia. }
  rewrite Forall_forall in Honly. destruct (Honly e ltac:(apply elem_drop; eauto) Hname) as [Ha Hx].
  exists e. split; [|done]. split; [exact Hi|]. split; [exact He|]. destruct (free_slot e) eqn:E.
  - exfalso. rewrite (dk_blank _ _ _ Hd _ _ _ _ Hp Hi He E) in Hname. destruct w as [|c w]; [done|]. apply Forall_cons in Hw as [Hc _].
    unfold name8 in Hname. cbn [app firstn name empty_entry] in Hname. by injection Hname.
  - unfold free_slot in E. apply negb_false_iff in E. by apply Z.eqb_eq in E.
Qed.

Lemma rename_spec v m d s ns w q nw ex data : settled v m s ns -> disk_shows v m d ->
  no_nul w -> (length w < 512)%nat -> is_absolute w = false -> path_names w = [q] -> typed_name nw -> 46 ∉ nw -> w ≠ [] ->
  files d !! (current_directory s, name8 w, ex) = Some data ->
  Forall (fun e => name e ≠ name8 w) (take 2 (table_at v (current_directory s))) ->
  Forall (fun e => name e = name8 w -> attribute e ≠ ATTR_SUBDIRECTORY /\ ext e = ex) (drop 2 (table_at v (current_directory s))) ->
  lookup_first (has_name (name8 nw)) (drop 2 (table_at v (current_directory s))) = None ->
  exists v' s', rename s (padded 512 w) (padded 512 nw) = Ret s' /\ settled v' m s' ns /\ current_directory s' = current_directory s /\
    disk_shows v' m (renamed_map d (current_directory s) (name8 w) (name8 nw) ex data).
Proof using All.
  intros Hs Hd Hw Hwl Habs Hq (Hn & Hb & Hnl) Hdot Hne Hf Htwo Honly Hnone. set (p := current_directory s) in *.
  pose proof (st_located _ _ _ _ Hs) as Hl. fold p in Hl. destruct (sh_disk _ _ _ Hd) as [cs Hdk]. pose proof (dk_tree _ _ _ Hdk) as Ht.
  pose proof (located_map v _ Ht _ _ Hl) as Hpm. pose proof (sees_length _ _ _ (st_sees _ _ _ _ Hs)) as Hlen.
  assert (Hblk : forall c, in_map c -> block_ok (vol_get v c)) by (intros c; exact (sees_block _ _ _ c (st_sees _ _ _ _ Hs))).
  pose proof (first_named v m d p ns w ex data Hlen Hblk Hd Hl Hw Hne Hf Htwo Honly) as (e & Hu & Hname & Hx & Ha). destruct (sees_table v m _ p (st_sees _ _ _ _ Hs) Hpm) as [Htok _].
  set (i := first_idx _ _) in *. pose proof Hu as (Hi & He & _). pose proof (lookup_lt_Some _ _ _ He) as Hit. rewrite (proj1 Htok) in Hit. change ENTRY_COUNT with 64%nat in Hit.
  assert (Hnm : length (name8 nw) = 8%nat /\ bytes_ok (name8 nw)) by (by apply name8_ok).
  assert (Hfresh : Forall (fun e => has_name (name8 nw) e = false) (drop 2 (table_at v p))) by (by apply lookup_first_None, first_idx_none in Hnone).
  rewrite <- Hname, <- Hx in Hf. pose proof (rename_shows v m d p ns i e (name8 nw) data Hlen Hblk Hd Hl Hu Ha Hnm Hfresh Hf) as Hd'. rewrite Hname, Hx in Hd'.
  pose proof (renamed_table_ok v _ cs p ns i e (name8 nw) Hblk Hdk Hl Hu Hnm) as Htok'. set (t' := <[i := set_name_of e (name8 nw)]> (table_at v p)) in *.
  unfold rename. rewrite no_invalid_char, bind_ret by done. cbv iota.
  rewrite parse_path_spec, Habs, !bind_ret by (done || rewrite Hq; apply Nat.ltb_lt; reflexivity). rewrite (save_path v m s ns Hs), bind_ret, Hq.
  change (change_path s (rows [q]) (Zlen [q] - 1)) with (Ret (0, s)). rewrite bind_ret, (st_table _ _ _ _ Hs). fold p.
  rewrite find_name_first, bind_ret by done. fold i. rewrite (proj2 (Z.eqb_neq (Z.of_nat i) 64)) by lia.
  unfold rename_entry. rewrite (arr_get_lookup _ (Z.of_nat i) e), bind_ret by (lia || by rewrite Nat2Z.id).
  eapply Forall_lookup_1 in He as Hen; [|exact (proj2 Htok)]. destruct Hen as [[Hen _] _ _ _ _ _].
  rewrite CString.memcpy_eq, name8_padded, splice_all, bind_ret by (rewrite ?length_padded by lia; lia).
  rewrite arr_set_in, Nat2Z.id, bind_ret by (unfold Zlen; rewrite (proj1 Htok); change ENTRY_COUNT with 64%nat; lia). fold t'.
  destruct (write_cluster_sees (sys s) v m p (enc_array t') (st_sees _ _ _ _ Hs) Hpm (table_block _ Htok')) as (k & -> & Hk). rewrite bind_ret.
  assert (Hnew : t' !! i = Some (set_name_of e (name8 nw))) by (apply list_lookup_insert_eq; by eapply lookup_lt_Some).
  rewrite (arr_get_lookup t' _ (set_name_of e (name8 nw))), bind_ret by (lia || by rewrite Nat2Z.id).
  cbn [attribute set_name_of]. rewrite (proj2 (Z.eqb_neq _ _)), bind_ret by exact Ha.
  destruct (sh_disk _ _ _ Hd') as [cs' Hdk']. pose proof (renamed_located v _ cs p ns i e (name8 nw) Hlen Hblk Hdk Hl Hu Ha Hnm Hfresh ns p) as Hloc.
  destruct (cancel_spec _ m (set_table (set_sys s k) t') ns p Hk (proj2 Hloc Hl) Hpm (st_room _ _ _ _ Hs)) as (s' & Hcan & Hs' & Hc'); [exact (settled_length v m s ns Hs)|exact (st_after _ _ _ _ Hs)|].
  eexists _, s'. split; [exact Hcan|]. split; [exact Hs'|]. split; [exact Hc'|exact Hd'].
Qed.
Lemma mv_spec v m d s ns w q w2 nw ex data g : settled v m s ns -> disk_shows v m d -> table_ok (temp_dir_table s) ->
  no_nul w -> (length w < 512)%nat -> is_absolute w = false -> path_names w = [q] -> w ≠ [] ->
  no_nul w2 -> bytes_ok w2 -> (length w2 < 512)%nat -> is_absolute w2 = false -> path_names w2 = [nw] -> 46 ∉ nw ->
  files d !! (current_directory s, name8 w, ex) = Some data ->
  Forall (fun e => name e ≠ name8 w) (take 2 (table_at v (current_directory s))) ->
  Forall (fun e => name e = name8 w -> attribute e ≠ ATTR_SUBDIRECTORY /\ ext e = ex) (drop 2 (table_at v (current_directory s))) ->
  lookup_first (has_name (name8 nw)) (drop 2 (table_at v (current_directory s))) = None ->
  exists v' s', mv s (padded 512 w) (padded 512 w2) 2 g = Ret s' /\ settled v' m s' ns /\ current_directory s' = current_directory s /\
    disk_shows v' m (renamed_map d (current_directory s) (name8 w) (name8 nw) ex data).
Proof using All.
  intros Hs Hd Htab Hw Hwl Habs Hq Hne Hw2 Hb2 Hl2 Habs2 Hq2 Hdot Hf Htwo Honly Hnone. destruct (sh_disk _ _ _ Hd) as [cs Hdk]. pose proof (dk_tree _ _ _ Hdk) as Ht.
  pose proof (st_located _ _ _ _ Hs) as Hl. pose proof (located_map v _ Ht _ _ Hl) as Hpm. pose proof (path_names_typed w2 Hw2 Hb2 Hl2) as Hnw. rewrite Hq2, Forall_singleton in Hnw.
  unfold mv. cbn [Z.eqb Pos.eqb]. rewrite (save_path v m s ns Hs), bind_ret.
  rewrite parse_path_spec, Habs2, !bind_ret by (done || rewrite Hq2; apply Nat.ltb_lt; reflexivity). rewrite Hq2. change (Zlen [nw]) with 1.
  destruct (change_mv_missing v m s ns nw Ht Hs Htab Hnw Hdot Hnone) as (k & t & -> & Hk). rewrite bind_ret.
  destruct (cancel_spec v m (set_temp_table (set_sys s k) t) ns (current_directory s) Hk Hl Hpm (st_room _ _ _ _ Hs)) as (s1 & -> & Hs1 & Hc1);
    [exact (settled_length v m s ns Hs)|exact (st_after _ _ _ _ Hs)|]. rewrite bind_ret. cbn [Z.eqb Pos.eqb].
  destruct (located_self v _ Ht ns _ Hl) as (e0 & H0 & Hself & _). destruct (sees_table v m _ _ (st_sees _ _ _ _ Hs) Hpm) as [[_ Htok] _].
  eapply Forall_lookup_1 in Htok; [|exact H0]. rewrite (st_table _ _ _ _ Hs1), Hc1, (arr_get_lookup _ 0 e0), bind_ret by (lia || exact H0).
  rewrite (small_cluster e0 Htok), Hself, Z.eqb_refl by (by rewrite Hself). unfold row. change (1 - 1) with 0.
  rewrite (arr_get_lookup _ 0 (padded 512 nw)), bind_ret by (done || by apply (lookup_rows [nw] 0)).
  rewrite <- Hc1 in *. exact (rename_spec v m d s1 ns w q nw ex data Hs1 Hd Hw Hwl Habs Hq Hnw Hdot Hne Hf Htwo Honly Hnone).
Qed.

(** C17: [mv old new] renames, for two relative paths of one name: in a folder
    that has a file [old], where no other entry stands in its way (neither of
    the first two entries, the folder's own and its parent's, has the name of
    [old], and every later entry of that name is a file with the same
    extension, so the first one found is the file) and nothing is called [new],
    a name without dot, the file is afterwards the one called [new], with its
    extension and its bytes, no other file of the disk has changed, and the
    shell stands where it stood. *)
Theorem mv_renames v m d s ns w q w2 nw ex data g : settled v m s ns -> disk_shows v m d -> table_ok (temp_dir_table s) ->
  no_nul w -> (length w < 512)%nat -> is_absolute w = false -> path_names w = [q] -> w ≠ [] ->
  no_nul w2 -> bytes_ok w2 -> (length w2 < 512)%nat -> is_absolute w2 = false -> path_names w2 = [nw] -> 46 ∉ nw ->
  files d !! (current_directory s, name8 w, ex) = Some data ->
  Forall (fun e => name e ≠ name8 w) (take 2 (table_at v (current_directory s))) ->
  Forall (fun e => name e = name8 w -> attribute e ≠ ATTR_SUBDIRECTORY /\ ext e = ex) (drop 2 (table_at v (current_directory s))) ->
  lookup_first (has_name (name8 nw)) (drop 2 (table_at v (current_directory s))) = None ->
  exists v' s', mv s (padded 512 w) (padded 512 w2) 2 g = Ret s' /\ settled v' m s' ns /\ current_directory s' = current_directory s /\
    disk_shows v' m (renamed_map d (current_directory s) (name8 w) (name8 nw) ex data).
Proof using All. apply mv_spec. Qed.
End mv.
