(* ===== verification/UserExec.v ===== *)
(** * [exec]: a program started from the shell

    [process_create_user_process] on a file of the disk, the system call that
    asks for it, and the command. *)
From stdpp Require Import gmap.
From S2P Require Import Prelude CString PortIO BlockDevice FatLayout Fat32 FatFacts FatChain FatLoops FatSpec FatRefine FatWrite FatMount FatProps.
From S2P Require Import DirTree DiskTree DiskRemove DiskMap.
From S2P Require Import Descriptors Pic Screen Cmos Paging PagingFacts PagingProps Mmu UserMemory Process ProcessFacts ProcessProps ProcessImage ProcessCreate KernelProps FatBuffer Interrupt InterruptFacts InterruptProps Preemption KernelBoot.
From S2P Require Import ShellBase Shell ShellPath ShellFiles ShellCommands ShellFacts ShellLine ShellSplit ShellNames ShellWalk ShellCd ShellMkdir ShellRm ShellCat UserCalls UserFiles.

(** ** Creation from a file of the map *)

(** The buffer size [exec] asks with: 1 MiB, the size of the window. *)
Definition EXEC_SIZE : Z := 0x100000.

(** There is room for one more process with two pages. *)
Record has_room {D} (k : kernel D) : Prop := MkHasRoom {
  rm_active : active_process_count (procs k) < 16;
  rm_frames : 2 ≤ free_count (pages k);
  rm_dir : (first_idx negb (page_directory_used (pages k)) < 32)%nat
}.

(** A request for a file of the map. *)
Record program_rq (v : volume) (d : disk_map) (rq : FAT32DriverRequest) (pns : list (list Z)) (data : list Z) : Prop := MkProgramRq {
  pq_ok : request_ok rq;
  pq_size : buffer_size rq = EXEC_SIZE;
  pq_parent : located v pns (parent_cluster_number rq);
  pq_blank : matches (req_name rq) (req_ext rq) empty_entry = false;
  pq_first : Forall (fun e => matches (req_name rq) (req_ext rq) e = false) (take 2 (table_at v (parent_cluster_number rq)));
  pq_file : DiskMap.files d !! key_of rq = Some data;
  pq_fits : Zlen data ≤ EXEC_SIZE;
  pq_no_folder c : ~ sub_folder d rq c
}.

Lemma program_buf v d rq pns data b : program_rq v d rq pns data -> program_rq v d (with_buf rq b) pns data.
Proof. intros [[? ? ?] ? ? ? ? ? ? ?]. by split. Qed.

(** The process and its memory when a program has been started from [k]. *)
Record started {D} (list_addr : Z) (name data : list Z) (k k' : kernel D) : Prop := MkStarted {
  sd_process : exists i dn p dir, slot i /\ (exists q, pcb_at (procs k) i = Some q /\ state q = NEW) /\
    pcb_at (procs k') i = Some p /\ state p = READY /\ process_name p = name /\ pid_free (procs k) (pid p) /\
    context p = initial_context (directory_addr list_addr (Z.of_nat dn)) /\
    page_directory_list (pages k') !! dn = Some dir /\
    (forall j, slot j -> j ≠ i -> pcb_at (procs k') j = pcb_at (procs k) j) /\
    (forall j, j ≠ dn -> page_directory_list (pages k') !! j = page_directory_list (pages k) !! j) /\
    page_directory_used (pages k) !! dn = Some false /\
    page_directory_used (pages k') = <[dn := true]> (page_directory_used (pages k)) /\
    (forall x b, 0 ≤ x -> data !! Z.to_nat x = Some b -> load dir (umem k') x = Ret b);
  sd_running : running_process_idx (procs k') = running_process_idx (procs k);
  sd_active : active_process_count (procs k') = active_process_count (procs k) + 1;
  sd_cr3 : cr3 (pages k') = cr3 (pages k)
}.

(** A directory is its entries. *)
Lemma same_directory pg pg' j : frames_ok pg -> frames_ok pg' -> (forall b, entry pg' j b = entry pg j b) ->
  page_directory_list pg' !! j = page_directory_list pg !! j.
Proof.
  intros Hok Hok' He. destruct (fr_dirs _ Hok) as [Hl _]. destruct (fr_dirs _ Hok') as [Hl' _].
  destruct (decide (j < 32)%nat) as [Hj|Hj]; [|rewrite !lookup_ge_None_2; [done|lia..]].
  destruct (lookup_lt_is_Some_2 (page_directory_list pg) j) as [d Hd]; [lia|]. destruct (lookup_lt_is_Some_2 (page_directory_list pg') j) as [d' Hd']; [lia|].
  rewrite Hd, Hd'. f_equal. apply list_eq. intros b. specialize (He b). unfold entry in He. by rewrite Hd, Hd' in He.
Qed.

Section create.
Context {D : Type} `{!BlockDevice D, !BlockDeviceSpec D}.
Context (list_addr kernel_addr : Z) (Hlay : directory_layout list_addr kernel_addr).
Implicit Types (k : kernel D) (r : user_request).

Lemma exec_frames r : buffer_size (Process.request r) = EXEC_SIZE -> frames_needed r = 2.
Proof using Type. unfold frames_needed. intros ->. by vm_compute. Qed.

(** The executable read into any window. *)
Definition read_image (v : volume) (drv : driver) (rq : FAT32DriverRequest) (w : list Z) : list Z := (spec_read v (fat_table drv) (with_buf rq w)).2.

Lemma image_read_ok (s : fs D) v drv d rq pns data w : repr s v drv -> disk_shows v drv d -> program_rq v d rq pns data -> length w = BUFFER_WINDOW ->
  exists s', repr s' v drv /\ Fat32.read s (with_buf rq w) = Ret (0, read_image v drv rq w, s') /\
    length (read_image v drv rq w) = BUFFER_WINDOW /\ take (length data) (read_image v drv rq w) = data /\
    (bytes_ok w -> bytes_ok (read_image v drv rq w)).
Proof using Type.
  intros Hs [Hm [cs Hd] Hh] Hp Hw. apply (program_buf _ _ _ _ _ w) in Hp as [Hrq Hsz Hpar Hblank Hfirst Hfile Hfit Hno].
  pose proof (repr_length _ _ _ Hs) as Hlen. assert (Hblk : forall c, in_map c -> block_ok (vol_get v c)) by (intros c; by eapply repr_block).
  assert (Hbuf : CLUSTER_SIZE * number_of_partition (buffer_size (with_buf rq w)) ≤ Zlen (buf (with_buf rq w))).
  { rewrite Hsz. cbn [with_buf buf]. unfold Zlen. rewrite Hw, window_size. by vm_compute. }
  pose proof (read_step v drv d (with_buf rq w) Hlen Hblk Hm Hh cs Hd Hrq pns Hpar Hblank Hfirst Hbuf) as Hst.
  pose proof (search_backed v drv d (with_buf rq w) Hlen Hblk Hm Hh cs Hd Hrq pns Hpar Hblank Hfirst Hbuf) as Hback.
  destruct (read_correct s v drv (with_buf rq w) Hs Hrq (located_map v _ (dk_tree _ _ _ Hd) _ _ Hpar) Hback) as (s' & Hs' & Hr).
  destruct (read_known _ _ _ _ _ data Hst Hfile ltac:(rewrite Hsz; exact Hfit) Hno) as (Hc & Ht & _).
  destruct (read_found _ _ _ _ _ Hst Hc) as (_ & _ & _ & _ & Hl & _).
  exists s'. split; [exact Hs'|]. split; [rewrite Hr; unfold read_image; by rewrite <- Hc, <- surjective_pairing|]. split; [by rewrite <- Hw|]. split; [exact Ht|].
  intros Hb. by destruct (spec_read_extended v (fat_table drv) (with_buf rq w) [] Hblk Hback Hb) as (_ & _ & ? & _).
Qed.

Lemma create_from_disk k r v drv d pns data :
  kernel_ok k -> repr (Process.files k) v drv -> disk_shows v drv d -> program_rq v d (request r) pns data -> has_room k -> 0 < cr3 (pages k) < 2 ^ 30 ->
  0 ≤ req_addr r ≤ PAGE_FRAME_SIZE ->
  exists k', process_create_user_process list_addr kernel_addr k r = Ret (0, k') /\
    started list_addr (req_name (request r)) data k k' /\ repr (Process.files k') v drv /\ kernel_ok k' /\ (ram_ok (umem k) -> ram_ok (umem k')).
Proof using Hlay.
  intros [Hwf Hok] Hs Hd Hp [Hact Hfree Hdn] Hcr3 Ha. pose proof (exec_frames r (pq_size _ _ _ _ _ Hp)) as Hfr.
  pose proof (rq_name _ (pq_ok _ _ _ _ _ Hp)) as [Hname _].
  assert (Hcr : creatable k r) by (split; rewrite ?Hfr; try done; unfold KERNEL_VIRTUAL_ADDRESS_BASE, PAGE_FRAME_SIZE in *; lia).
  assert (Hld : loadable k r (read_image v drv (request r))).
  { split; rewrite ?Hfr, ?Z.min_l by lia; [lia|lia|unfold PAGE_FRAME_SIZE in *; lia|lia|].
    intros w Hw. destruct (image_read_ok (Process.files k) v drv d _ pns data w Hs Hd Hp Hw) as (s' & _ & Hr & Hl & _). split; [exact Hl|by exists s']. }
  destruct (create_prefix list_addr kernel_addr Hlay k r (creatable_admitted k r Hcr)) as (Hi & q & pg & vs & Hq & Hst & Hpr & Hrun).
  set (i := new_slot_index (procs k)) in *. set (dn := new_dir_index (pages k)) in *.
  destruct (load_success list_addr kernel_addr Hlay k r i dn q pg vs _ Hi Hq Hst Hwf Hpr Hdn ltac:(rewrite Hfr; lia) Hld)
    as (n & k' & (_ & Hpid & _) & Hload & Hpg & Hprocs & w & Hw & Hrd & Him & Hram).
  destruct (image_read_ok (Process.files k) v drv d _ pns data w Hs Hd Hp Hw) as (s' & Hs' & Hr & _ & Ht & Hib). rewrite Hrd in Hr. injection Hr as Hfk. rewrite <- Hfk in Hs'.
  pose proof (tw_len _ Hwf) as Hl. pose proof (fr_used_len _ Hok) as Hul. pose proof (pr_ok _ _ _ _ _ Hpr) as Hokg.
  exists k'. split; [by rewrite Hrun|]. split; [|split; [exact Hs'|split; [|intros Hm; by apply Hram]]].
  2: { apply (create_keeps_ok list_addr kernel_addr Hlay k r 0 k'); [by split|lia|by rewrite Hrun]. }
  destruct Him as [(dir & Hdir & Hb & _) _].
  split; [exists i, dn, (new_process list_addr n r dn vs), dir|by rewrite Hprocs|by rewrite Hprocs|].
  - rewrite Hprocs. unfold pcb_at, slot in *. cbn [process_list with_process new_process state process_name pid context].
    split; [exact Hi|]. split; [by exists q|]. split; [apply list_lookup_insert_eq; lia|]. split; [done|]. split; [apply take_ge; lia|]. split; [exact Hpid|].
    split; [done|]. split; [exact Hdir|]. split; [intros j Hj Hne; apply list_lookup_insert_ne; lia|]. split; [|split; [|split]].
    + intros j Hj. rewrite Hpg. change (page_directory_list (back_to list_addr pg dn)) with (page_directory_list pg).
      apply (same_directory (pages k) pg j Hok Hokg). intros b. by apply (pr_frame _ _ _ _ _ Hpr).
    + destruct (first_idx_lookup negb (page_directory_used (pages k))) as ([] & Hx & Hxf); [rewrite Hul; exact Hdn|done|exact Hx].
    + rewrite Hpg. apply (pr_used _ _ _ _ _ Hpr).
    + intros x b Hx Hxb. apply Hb; [exact Hx|]. rewrite <- Ht in Hxb. apply lookup_take_Some in Hxb as [Hxb _]. exact Hxb.
  - rewrite Hpg. unfold back_to. rewrite cr3_restored; rewrite (pr_cr3 _ _ _ _ _ Hpr); done.
Qed.
End create.

(** ** The calls of a process keep the kernel's tables *)

Section calls.
Context {D : Type} `{!BlockDevice D, !BlockDeviceSpec D, !PortIO D, !KernelHalf D, !SharedBus D}.
Context (list_addr kernel_addr : Z) (polls rounds : nat) (a : call_area).
Implicit Types (m : machine D) (rq : FAT32DriverRequest).

Lemma store_user_tables m va bs m' : store_user list_addr kernel_addr m va bs = Ret m' -> same_tables m m'.
Proof using Type. unfold store_user, put_buffer. intros H. invert_ret H. by split. Qed.

Lemma pass_request_tables m rq m' : pass_request list_addr kernel_addr a m rq = Ret m' -> same_tables m m'.
Proof using Type.
  unfold pass_request. intros H. invert_ret H. apply store_user_tables in Hret. apply store_user_tables in H. by etrans.
Qed.

Lemma syscall_interrupt m n b c e m' : syscall list_addr kernel_addr polls rounds m n b c e = Ret m' ->
  interrupt list_addr kernel_addr polls rounds m (call_frame n b c e) = Ret (Resume, m').
Proof using Type.
  unfold syscall, main_interrupt_handler. cbn [int_number call_frame].
  change (0x30 =? PAGE_FAULT) with false. change (0x30 =? IRQ_KEYBOARD + PIC1_OFFSET) with false.
  change (0x30 =? IRQ_TIMER + PIC1_OFFSET) with false. change (0x30 =? 0x30) with true. cbv iota. fold (call_frame n b c e).
  destruct (interrupt _ _ _ _ _ _) as [[o m1]| |]; [|discriminate..]. rewrite !bind_ret. destruct o; [|discriminate]. by intros [= ->].
Qed.

Lemma syscall_tables m n b c e m' : n ∉ [11; 12; 14] -> 0 ≤ b -> 0 ≤ c -> user_pointers list_addr kernel_addr m (call_frame n b c e) ->
  syscall list_addr kernel_addr polls rounds m n b c e = Ret m' -> same_tables m m'.
Proof using Type.
  intros Hn Hb Hc Hu H%syscall_interrupt. by apply (call_contained list_addr kernel_addr polls rounds m (call_frame n b c e)) in H as [[? _] _].
Qed.

Context (dir : PageDirectory) (Ha : area_ok dir a).

Lemma area_nonneg : 0 ≤ req_at a /\ 0 ≤ ret_at a /\ 0 ≤ buf_at a.
Proof using Ha. destruct Ha. lia. Qed.

(** The pointers of a call with a request are those of the area. *)
Lemma passed_pointers m rq m1 n : ready list_addr kernel_addr dir m -> request_ok rq -> in_map (parent_cluster_number rq) ->
  Zlen (buf rq) ≤ BUFFER_LIMIT -> bytes_ok (buf rq) -> n ∈ [0; 1; 2; 3] -> pass_request list_addr kernel_addr a m rq = Ret m1 ->
  user_pointers list_addr kernel_addr m1 (call_frame n (req_at a) (ret_at a) 0).
Proof using Ha.
  intros Hr Hrq Hp Hl Hb Hn Hpass. destruct (request_passed list_addr kernel_addr a dir Ha m rq Hr Hrq Hp (window_room _ Hl) Hb)
    as (m2 & rest & Hpass2 & _ & _ & _ & _ & _ & Hfetch & _). rewrite Hpass in Hpass2. injection Hpass2 as <-.
  unfold user_pointers. cbn [call_frame frame_cpu eax ebx ecx]. rewrite !elem_of_cons, elem_of_nil in Hn. split; [|split; [|split]].
  - intros _. destruct Ha. lia.
  - intros _ r Hf. cbn [call_frame frame_cpu ebx] in Hf. rewrite Hfetch in Hf. injection Hf as <-. unfold reaches_kernel. cbn [req_addr].
    by rewrite (proj2 (Z.ltb_ge _ _)) by exact (ar_end _ _ Ha).
  - lia.
  - lia.
Qed.

Lemma request_call_tables n m rq c m' : ready list_addr kernel_addr dir m -> request_ok rq -> in_map (parent_cluster_number rq) ->
  Zlen (buf rq) ≤ BUFFER_LIMIT -> bytes_ok (buf rq) -> n ∈ [0; 1; 2; 3] ->
  request_call list_addr kernel_addr polls rounds a n m rq = Ret (c, m') -> same_tables m m'.
Proof using Ha.
  intros Hr Hrq Hp Hl Hb Hn H. destruct area_nonneg as (H1a & H2a & _).
  unfold request_call in H. apply bind_Ret_inv in H as (m1 & H1 & H). apply bind_Ret_inv in H as (m2 & H2 & H).
  apply bind_Ret_inv in H as (x & _ & H). injection H as _ <-.
  pose proof (passed_pointers m rq m1 n Hr Hrq Hp Hl Hb Hn H1) as Hu. apply pass_request_tables in H1.
  apply syscall_tables in H2; [by etrans| |exact H1a|exact H2a|exact Hu].
  rewrite !not_elem_of_cons. rewrite !elem_of_cons, elem_of_nil in Hn. split_and!; [lia..|apply not_elem_of_nil].
Qed.

Lemma buffer_call_tables n m rq c b m' : ready list_addr kernel_addr dir m -> request_ok rq -> in_map (parent_cluster_number rq) ->
  Zlen (buf rq) ≤ BUFFER_LIMIT -> bytes_ok (buf rq) -> n ∈ [0; 1; 2; 3] ->
  buffer_call list_addr kernel_addr polls rounds a n m rq = Ret (c, b, m') -> same_tables m m'.
Proof using Ha.
  intros Hr Hrq Hp Hl Hb Hn H. unfold buffer_call in H. apply bind_Ret_inv in H as ([c1 m1] & H1 & H). apply bind_Ret_inv in H as (x & _ & H).
  injection H as _ _ <-. by eapply request_call_tables.
Qed.
End calls.

(** A [FileServer] that also says what the process table and the page tables
    are: no file call changes them. *)
Section server.
Context {D : Type} `{!BlockDevice D, !BlockDeviceSpec D, !PortIO D, !KernelHalf D, !SharedBus D}.
Context (list_addr kernel_addr : Z) (polls rounds : nat) (a : call_area) (dir : PageDirectory) (Ha : area_ok dir a).
Context (P : ProcessManagerState) (G : paging).
Implicit Types (m : machine D) (v : volume) (drv : driver).

#[local] Hint Extern 0 (SysCalls (machine D)) => exact (user_calls list_addr kernel_addr polls rounds a) : typeclass_instances.

Definition table_sees m v drv : Prop := user_sees list_addr kernel_addr dir m v drv /\ procs (kern m) = P /\ pages (kern m) = G.

Lemma table_sees_same m m' v drv v' drv' : table_sees m v drv -> user_sees list_addr kernel_addr dir m' v' drv' -> same_tables m m' -> table_sees m' v' drv'.
Proof using Type. intros (_ & H1 & H2) Hm [Hp Hg]. split; [exact Hm|]. by rewrite Hp, Hg. Qed.

#[local, program] Instance table_files : FileServer (machine D) := { sees := table_sees }.
Next Obligation. intros m v drv [[_ Hv] _]. by eapply repr_length. Qed.
Next Obligation. intros m v drv c [Hm _]. by eapply user_blocks. Qed.
Next Obligation.
  intros m v drv str color Hm Hl. destruct (puts_sees (FileServer := user_files list_addr kernel_addr polls rounds a dir Ha) m v drv str color (proj1 Hm) Hl) as (m' & H & Hm').
  exists m'. split; [exact H|]. eapply table_sees_same; [exact Hm|exact Hm'|]. destruct (area_nonneg a dir Ha) as (_ & _ & Hb).
  change ((m1 ← store_user list_addr kernel_addr m (buf_at a) (u8 <$> str); syscall list_addr kernel_addr polls rounds m1 6 (buf_at a) (Zlen str) color) = Ret m') in H.
  apply bind_Ret_inv in H as (m1 & H1 & H2). apply store_user_tables in H1. apply syscall_tables in H2; [by etrans|by apply (bool_decide_unpack _)|done|unfold Zlen; lia|].
  unfold user_pointers. cbn [call_frame frame_cpu eax ebx ecx]. rewrite !elem_of_cons, elem_of_nil. split; [lia|]. split; [lia|]. split; lia.
Qed.
Next Obligation.
  intros m v drv c Hm Hc. destruct (read_cluster_sees (FileServer := user_files list_addr kernel_addr polls rounds a dir Ha) m v drv c (proj1 Hm) Hc) as (m' & H & Hm').
  exists m'. split; [exact H|]. eapply table_sees_same; [exact Hm|exact Hm'|]. destruct (area_nonneg a dir Ha) as (_ & _ & Hb).
  change ((m1 ← syscall list_addr kernel_addr polls rounds m 9 (buf_at a) c 0; b ← load_user list_addr kernel_addr m1 (buf_at a) (Z.to_nat CLUSTER_SIZE); Ret (b, m1)) = Ret (vol_get v c, m')) in H.
  apply bind_Ret_inv in H as (m1 & H1 & H2). apply bind_Ret_inv in H2 as (b & _ & H2). injection H2 as _ <-.
  apply syscall_tables in H1; [done|by apply (bool_decide_unpack _)|done|unfold in_map in Hc; lia|].
  unfold user_pointers. cbn [call_frame frame_cpu eax ebx ecx]. rewrite !elem_of_cons, elem_of_nil. split; [lia|]. split; [lia|]. split; [lia|].
  intros _ cluster s Hs. destruct Hm as [[_ Hv] _]. destruct (read_clusters_repr (files (kern m)) v drv c Hv Hc) as (s1 & Hs1 & _).
  rewrite Hs1 in Hs. injection Hs as <- _. destruct (repr_block _ _ _ _ Hv Hc) as [Hl _]. pose proof window_size. destruct Ha. unfold Zlen. rewrite Hl. lia.
Qed.
Next Obligation.
  intros m v drv rq Hm Hrq Hp Hsz Hl Hb Hback.
  destruct (user_read_directory list_addr kernel_addr polls rounds a dir Ha m v drv rq (proj1 Hm) Hrq Hp Hsz Hl Hb Hback) as (m' & H & Hm' & _).
  exists m'. split; [exact H|]. eapply table_sees_same; [exact Hm|exact Hm'|].
  rewrite (surjective_pairing (spec_read_directory v rq)) in H. eapply (buffer_call_tables list_addr kernel_addr polls rounds a dir Ha); [apply Hm|exact Hrq|exact Hp|exact Hl|exact Hb| |exact H]. by apply (bool_decide_unpack _).
Qed.
Next Obligation.
  intros m v drv rq Hm Hmo Hargs Hlit Hl. destruct (user_write list_addr kernel_addr polls rounds a dir Ha m v drv rq (proj1 Hm) Hmo Hargs Hlit Hl) as (m' & H & Hm' & _).
  exists m'. split; [exact H|]. eapply table_sees_same; [exact Hm|exact Hm'|].
  eapply (request_call_tables list_addr kernel_addr polls rounds a dir Ha); [apply Hm|apply Hargs|apply Hargs|exact Hl|apply Hargs| |exact H]. by apply (bool_decide_unpack _).
Qed.
Next Obligation.
  intros m v drv rq Hm Hmo Hargs Hlit Hl. exact (user_write_overrun list_addr kernel_addr polls rounds a dir Ha m v drv rq (proj1 Hm) Hmo Hargs Hlit Hl).
Qed.
Next Obligation.
  intros m v drv rq Hm Hrq Hp Hl Hb Hback.
  destruct (user_read list_addr kernel_addr polls rounds a dir Ha m v drv rq (proj1 Hm) Hrq Hp Hl Hb Hback) as (m' & H & Hm' & _).
  exists m'. split; [exact H|]. eapply table_sees_same; [exact Hm|exact Hm'|].
  rewrite (surjective_pairing (spec_read v (fat_table drv) rq)) in H. eapply (buffer_call_tables list_addr kernel_addr polls rounds a dir Ha); [apply Hm|exact Hrq|exact Hp|exact Hl|exact Hb| |exact H]. by apply (bool_decide_unpack _).
Qed.
Next Obligation.
  intros m v drv rq Hm Hmo Hrq Hp Hl Hb Hback.
  destruct (user_delete list_addr kernel_addr polls rounds a dir Ha m v drv rq (proj1 Hm) Hmo Hrq Hp Hl Hb Hback) as (m' & H & Hm' & _).
  exists m'. split; [exact H|]. eapply table_sees_same; [exact Hm|exact Hm'|].
  eapply (request_call_tables list_addr kernel_addr polls rounds a dir Ha); [apply Hm|exact Hrq|exact Hp|exact Hl|exact Hb| |exact H]. by apply (bool_decide_unpack _).
Qed.
End server.

(** ** The system call *)

(** The process that calls runs in slot [j] of the directories. *)
Record runs_in {D} (list_addr : Z) (k : kernel D) (dir : PageDirectory) : Prop := MkRunsIn {
  rn_slot : exists j, (j < 32)%nat /\ page_directory_used (pages k) !! j = Some true /\ page_directory_list (pages k) !! j = Some dir /\
    cr3 (pages k) = directory_addr list_addr (Z.of_nat j) - KERNEL_VIRTUAL_ADDRESS_BASE
}.

Section exec_call.
Context {D : Type} `{!BlockDevice D, !BlockDeviceSpec D, !PortIO D, !KernelHalf D, !SharedBus D}.
Context (list_addr kernel_addr : Z) (Hlay : directory_layout list_addr kernel_addr) (polls rounds : nat) (a : call_area) (dir : PageDirectory) (Ha : area_ok dir a).
Implicit Types (m : machine D) (v : volume) (drv : driver) (rq : FAT32DriverRequest).

Lemma runs_in_directory m : runs_in list_addr (kern m) dir -> Interrupt.current_directory list_addr kernel_addr m = Ret dir.
Proof using Hlay.
  intros [(j & Hj & _ & Hd & Hc)]. unfold Interrupt.current_directory, paging_get_current_page_directory_addr. rewrite Hc, Z.sub_add, wrap_small.
  - apply (get_directory_list list_addr kernel_addr Hlay); [lia|by rewrite Nat2Z.id].
  - destruct Hlay as [Hlow Hhigh _]. unfold directory_addr, PAGING_DIRECTORY_TABLE_MAX_COUNT, is_word, KERNEL_VIRTUAL_ADDRESS_BASE in *. lia.
Qed.

Lemma runs_in_started k k' name data : started list_addr name data k k' -> runs_in list_addr k dir -> runs_in (D := D) list_addr k' dir.
Proof using Type.
  intros [(i & dn & p & dir' & _ & _ & _ & _ & _ & _ & _ & _ & _ & Hother & Hfree & Hu' & _) _ _ Hc] [(j & Hj & Hu & Hd & Hcr)].
  assert (Hne : j ≠ dn) by (intros ->; congruence). split. exists j. split; [exact Hj|]. split; [|split].
  - rewrite Hu'. by rewrite list_lookup_insert_ne.
  - by rewrite Hother.
  - by rewrite Hc.
Qed.

Lemma runs_in_cr3 (k : kernel D) : runs_in list_addr k dir -> 0 < cr3 (pages k) < 2 ^ 30.
Proof using Hlay.
  intros [(j & Hj & _ & _ & ->)]. destruct Hlay as [Hlow Hhigh _].
  unfold directory_addr, PAGING_DIRECTORY_TABLE_MAX_COUNT, KERNEL_VIRTUAL_ADDRESS_BASE in *. lia.
Qed.

(** What [put_user] leaves of a start. *)
Lemma started_contained name data k m m' : started list_addr name data k (kern m) -> frames_ok (pages (kern m)) -> runs_in list_addr k dir ->
  Interrupt.current_directory list_addr kernel_addr m = Ret dir -> contained list_addr kernel_addr m m' -> Zlen data ≤ EXEC_SIZE ->
  started list_addr name data k (kern m').
Proof using Type.
  intros [Hpr Hr Hact Hc] Hok [(j & Hj & Hu & Hd & _)] Hcur [[Hp Hg] Hmem] Hlen. destruct Hpr as (i & dn & p & dir' & H1 & H2 & H3 & H4 & H5 & H6 & H7 & H8 & H9 & H10 & H11 & H12 & Hb).
  assert (Hne : j ≠ dn) by (intros ->; congruence).
  split; rewrite ?Hp, ?Hg; [|done..]. exists i, dn, p, dir'.
  repeat (split; [assumption|]). intros x b Hx Hxb. rewrite <- (Hb x b Hx Hxb).
  assert (Hjd : page_directory_list (pages (kern m)) !! j = Some dir) by (by rewrite H10).
  apply (Hmem j dir Hok Hjd Hcur dn dir' x); [by apply not_eq_sym|exact H8|]. apply lookup_lt_Some in Hxb.
  unfold Zlen, EXEC_SIZE, KERNEL_VIRTUAL_ADDRESS_BASE in *. lia.
Qed.

(** System call 12 with a request for a program of the disk. *)
Lemma exec_call m v drv d rq pns data : user_sees list_addr kernel_addr dir m v drv -> disk_shows v drv d -> kernel_ok (kern m) -> runs_in list_addr (kern m) dir ->
  has_room (kern m) -> program_rq v d rq pns data -> Zlen (buf rq) ≤ BUFFER_LIMIT -> bytes_ok (buf rq) -> buf_at a ≤ PAGE_FRAME_SIZE ->
  exists m', request_call list_addr kernel_addr polls rounds a 12 m rq = Ret (0, m') /\ user_sees list_addr kernel_addr dir m' v drv /\
    started list_addr (req_name rq) data (kern m) (kern m') /\ kernel_ok (kern m').
Proof using All.
  intros [Hr Hv] Hd Hk Hin Hroom Hp Hl Hb Hat. unfold request_call.
  destruct (sh_disk _ _ _ Hd) as [cs Hdk]. pose proof (located_map v _ (dk_tree _ _ _ Hdk) _ _ (pq_parent _ _ _ _ _ Hp)) as Hpm.
  destruct (request_passed list_addr kernel_addr a dir Ha m rq Hr (pq_ok _ _ _ _ _ Hp) Hpm (window_room _ Hl) Hb)
    as (m1 & rest & Hpass & Hr1 & Hf1 & Hrest & _ & _ & Hfetch & _). rewrite Hpass, bind_ret.
  apply pass_request_tables in Hpass as [Hpr Hpg].
  set (r := MkUserRequest (buf_at a) (extended rq rest)) in *.
  assert (Hk1 : kernel_ok (kern m1)) by (destruct Hk; split; rewrite ?Hpr, ?Hpg; assumption).
  assert (Hin1 : runs_in list_addr (kern m1) dir) by (destruct Hin as [H]; split; by rewrite Hpg).
  assert (Hroom1 : has_room (kern m1)) by (destruct Hroom; split; rewrite ?Hpr, ?Hpg; assumption).
  rewrite <- Hf1 in Hv. pose proof (program_buf v d rq pns data (buf rq ++ rest) Hp) as Hp1.
  destruct (create_from_disk list_addr kernel_addr Hlay (kern m1) r v drv d pns data Hk1 Hv Hd Hp1 Hroom1 (runs_in_cr3 _ Hin1))
    as (k' & Hcreate & Hst & Hv' & Hok' & Hram); [destruct Ha; unfold r; cbn [req_addr]; unfold sizeof_request in *; lia|].
  pose proof (runs_in_started _ _ _ _ Hst Hin1) as Hin'.
  assert (Hr' : ready list_addr kernel_addr dir (set_kern m1 k')) by (split; [by apply runs_in_directory|apply Hram, Hr1]).
  destruct (put_user_ok list_addr kernel_addr a dir Ha (set_kern m1 k') (ret_at a) 0 Hr' (ret_inside a dir Ha)) as (m2 & Hput & Hr2 & Hf2 & Hu2).
  assert (Hsys : syscall list_addr kernel_addr polls rounds m1 12 (req_at a) (ret_at a) 0 = Ret m2).
  { apply syscall_of. unfold interrupt. cbn [frame_cpu call_frame eax ebx ecx edx Z.eqb Pos.eqb]. cbv iota.
    rewrite Hfetch, bind_ret, Hcreate, bind_ret, Hput. reflexivity. }
  rewrite Hsys, bind_ret, (result_after list_addr kernel_addr a dir Ha (set_kern m1 k') m2 0 Hr2 Hu2), bind_ret. exists m2. split; [reflexivity|].
  split; [split; [exact Hr2|by rewrite Hf2]|].
  apply put_user_contained in Hput; [|destruct Ha; unfold sizeof_request in *; lia].
  assert (Hst' : started list_addr (req_name rq) data (kern m) k').
  { destruct Hst as [(i & dn & p & dir' & H) H1 H2 H3]. split; [|congruence..]. exists i, dn, p, dir'. rewrite <- Hpr, <- Hpg. exact H. }
  split; [exact (started_contained _ _ _ (set_kern m1 k') m2 Hst' (proj2 Hok') Hin (proj1 Hr') Hput (pq_fits _ _ _ _ _ Hp))|].
  by apply (ok_same_tables (set_kern m1 k') m2 (proj1 Hput)).
Qed.
End exec_call.

(** ** The command *)

Section command.
Context {D : Type} `{!BlockDevice D, !BlockDeviceSpec D, !PortIO D, !KernelHalf D, !SharedBus D}.
Context (list_addr kernel_addr : Z) (Hlay : directory_layout list_addr kernel_addr) (polls rounds : nat) (a : call_area) (dir : PageDirectory) (Ha : area_ok dir a).

#[local] Hint Extern 0 (SysCalls (machine D)) => exact (user_calls list_addr kernel_addr polls rounds a) : typeclass_instances.
#[local] Instance exec_files : FileServer (machine D) := user_files list_addr kernel_addr polls rounds a dir Ha.
Implicit Types (s : shell (machine D)) (v : volume) (m : driver).

Abbreviation with_tables s := (table_files list_addr kernel_addr polls rounds a dir Ha (procs (kern (sys s))) (pages (kern (sys s)))).

Lemma settled_tables v m s ns : settled v m s ns -> settled (FileServer0 := with_tables s) v m s ns.
Proof using Type. intros [H1 H2 H3 H4 H5 H6]. split; [split; [exact H1|by split]|assumption..]. Qed.

Definition exec_rq (nm : list Z) (p : Z) (garbage : list Z) : FAT32DriverRequest := file_rq nm p garbage EXEC_SIZE.

Lemma exec_rq_program v m d nm p pns data garbage : typed_name nm -> before_dot nm ≠ [] -> located v pns p -> ~ reserved_name v p nm ->
  DiskMap.files d !! key_of (exec_rq nm p garbage) = Some data -> Zlen data ≤ EXEC_SIZE -> (forall c, ~ sub_folder d (exec_rq nm p garbage) c) ->
  disk_shows v m d -> program_rq v d (exec_rq nm p garbage) pns data.
Proof using Type.
  intros (Hn & Hb & _) Hne Hp Hres Hf Hl Hno Hd. split; [by apply file_rq_ok|reflexivity|exact Hp|by apply not_blank|by apply not_reserved|exact Hf|exact Hl|exact Hno].
Qed.

(** The argument [w] of the command in a shell that stands at [ns]: a path whose
    folders lead to [p], with a program [nm] of the map in it; [garbage] is the
    uninitialised buffer. *)
Record exec_args s v (d : disk_map) (ns : list (list Z)) (w : list Z) (dirs : list (list Z)) (nm garbage : list Z) (p : Z) (pns : list (list Z))
    (data : list Z) : Prop := MkExecArgs {
  ea_nul : no_nul w;
  ea_bytes : bytes_ok w;
  ea_len : (length w < 512)%nat;
  ea_names : path_names w = dirs ++ [nm];
  ea_name : before_dot nm ≠ [] /\ name_code nm = 0 /\ ~ reserved_name v p nm;
  ea_room : (length (joined ns) + 9 * S (length dirs) ≤ 510)%nat;
  ea_garbage : Zlen garbage ≤ BUFFER_LIMIT /\ bytes_ok garbage;
  ea_follow : follow v dirs (if is_absolute w then ROOT_CLUSTER_NUMBER else current_directory s) (if is_absolute w then [] else ns) = Arrived p pns;
  ea_file : DiskMap.files d !! key_of (exec_rq nm p garbage) = Some data;
  ea_fits : Zlen data ≤ EXEC_SIZE;
  ea_no_folder c : ~ sub_folder d (exec_rq nm p garbage) c
}.

Lemma exec_spec v m d s ns w dirs nm garbage p pns data :
  settled v m s ns -> disk_shows v m d -> exec_args s v d ns w dirs nm garbage p pns data ->
  kernel_ok (kern (sys s)) -> runs_in list_addr (kern (sys s)) dir -> has_room (kern (sys s)) -> buf_at a ≤ PAGE_FRAME_SIZE ->
  exists s', exec s (padded 512 w) 1 garbage = Ret s' /\ settled v m s' pns /\ current_directory s' = p /\
    started list_addr (name8 (before_dot nm)) data (kern (sys s)) (kern (sys s')) /\ kernel_ok (kern (sys s')).
Proof using All.
  intros Hs Hd [Hw Hb Hl Hnames (Hnm & Hcode & Hres) Hroom [Hlg Hbg] Hfol Hfile Hsize Hno] Hk Hin Hrm Hat.
  apply settled_tables in Hs. destruct (sh_disk _ _ _ Hd) as [cs Hdk]. pose proof (dk_tree _ _ _ Hdk) as Htree.
  unfold exec. cbn [Z.eqb Pos.eqb]. rewrite parse_path_spec by (done || rewrite Hnames, length_app; simpl; lia).
  destruct (start_spec (FileServer0 := with_tables s) v m s ns w Hs) as (s0 & -> & Hs0 & Hc0). rewrite !bind_ret.
  pose proof (path_names_typed w Hw Hb Hl) as Hty. rewrite Hnames in *. unfold execute_program.
  replace (Zlen (dirs ++ [nm]) - 1) with (Zlen dirs) by (rewrite Zlen_app; unfold Zlen; simpl; lia).
  assert (Hroom0 : (length (joined (if is_absolute w then [] else ns)) + 9 * length dirs ≤ 510)%nat) by (destruct (is_absolute w); simpl; lia).
  pose proof (change_path_spec (FileServer0 := with_tables s) v m Htree s0 _ dirs [nm] Hs0 Hty Hroom0) as Hcp. rewrite Hc0, Hfol in Hcp.
  destruct Hcp as (s1 & -> & Hs1 & Hc1). rewrite bind_ret. cbn [Z.eqb negb].
  unfold row. rewrite (arr_get_lookup _ _ (padded 512 nm)), bind_ret; [|unfold Zlen; lia|].
  2: { apply lookup_rows. unfold Zlen. by rewrite Nat2Z.id, lookup_app_r, Nat.sub_diag by lia. }
  assert (Hnmt : typed_name nm) by (apply Forall_app in Hty as [_ Hty]; by rewrite Forall_singleton in Hty).
  destruct (parse_name_printed (FileServer0 := with_tables s) v m s1 nm (st_sees _ _ _ _ Hs1) Hnmt) as (s2 & -> & k2 & -> & Hk2).
  rewrite Hcode, bind_ret. change (s8 0) with 0. cbn [Z.eqb negb]. change 0x100000 with EXEC_SIZE. rewrite make_file_request, bind_ret.
  cbn [current_directory set_sys sys]. rewrite Hc1. fold (exec_rq nm p garbage).
  destruct Hk2 as (Hu2 & Hp2 & Hg2). pose proof (st_located _ _ _ _ Hs1) as Hl1. rewrite Hc1 in Hl1.
  pose proof (exec_rq_program v m d nm p pns data garbage Hnmt Hnm Hl1 Hres Hfile Hsize Hno Hd) as Hprog.
  destruct (exec_call list_addr kernel_addr Hlay polls rounds a dir Ha k2 v m d (exec_rq nm p garbage) pns data Hu2 Hd) as (k3 & Hcall & Hu3 & Hst & Hk3).
  { destruct Hk; split; by rewrite ?Hp2, ?Hg2. } { destruct Hin as [H]. split. by rewrite Hg2. } { destruct Hrm. split; by rewrite ?Hp2, ?Hg2. }
  { exact Hprog. } { exact Hlg. } { exact Hbg. } { exact Hat. }
  change (sys_exec k2 (exec_rq nm p garbage)) with (request_call list_addr kernel_addr polls rounds a 12 k2 (exec_rq nm p garbage)).
  rewrite Hcall, bind_ret. change (s8 0) with 0. cbn [Z.eqb negb]. eexists. split; [reflexivity|].
  destruct Hs1 as [_ H2 H3 H4 H5 H6]. split; [split; [exact Hu3|assumption..]|]. split; [exact Hc1|].
  split; [|exact Hk3]. destruct Hst as [(i & dn & q & dir' & H) G1 G2 G3]. cbn [sys set_sys]. split; [|congruence..]. exists i, dn, q, dir'. by rewrite <- Hp2, <- Hg2.
Qed.

(** C8: [exec path] starts the program the path names: the system call through
    interrupt 0x30 makes a new process of the file, with a pid no process has,
    READY to be entered at address 0 of an address space that holds the
    file's bytes from address 0 on; the other processes, the running one and
    the caller's page directory are as before, one more process is counted,
    and the disk is unchanged.  The shell is left in the folder of the
    program. *)
Theorem exec_starts_program v m d s ns w dirs nm garbage p pns data :
  settled v m s ns -> disk_shows v m d -> exec_args s v d ns w dirs nm garbage p pns data ->
  kernel_ok (kern (sys s)) -> runs_in list_addr (kern (sys s)) dir -> has_room (kern (sys s)) -> buf_at a ≤ PAGE_FRAME_SIZE ->
  exists s', exec s (padded 512 w) 1 garbage = Ret s' /\ settled v m s' pns /\ current_directory s' = p /\
    started list_addr (name8 (before_dot nm)) data (kern (sys s)) (kern (sys s')) /\ kernel_ok (kern (sys s')).
Proof using All. apply exec_spec. Qed.

(** One of the first sixteen of the timer interrupts [fs] on [m] enters a
    program that holds [data], at address 0 of a page directory of its own. *)
Definition enters (m : machine D) (data : list Z) (fs : list InterruptFrame) : Prop :=
  exists dn prog k f (m1 m2 : machine D), (k < 16)%nat /\ handle_all list_addr kernel_addr polls rounds (take k fs) m = Ret m1 /\ fs !! k = Some f /\
    main_interrupt_handler list_addr kernel_addr polls rounds m1 f = Ret (Back (SwitchTo (initial_context (directory_addr list_addr (Z.of_nat dn)))), m2) /\
    cr3 (pages (kern m2)) = directory_addr list_addr (Z.of_nat dn) - KERNEL_VIRTUAL_ADDRESS_BASE /\
    page_directory_list (pages (kern m2)) !! dn = Some prog /\
    forall x b, 0 ≤ x -> data !! Z.to_nat x = Some b -> load prog (umem (kern m2)) x = Ret b.

(** A started process gets the processor. *)
Lemma started_entered (m : machine D) k0 nm data fs : started list_addr nm data k0 (kern m) -> kernel_ok k0 -> kernel_ok (kern m) ->
  slot (running_process_idx (procs k0)) -> Forall timer_frame fs -> (16 ≤ length fs)%nat -> enters m data fs.
Proof using Hlay.
  intros [(i & dn & p & prog & Hi & (q & Hq & Hnew) & Hp & Hst & _ & _ & Hctx & Hdir & _ & _ & _ & _ & Hb) Hrun _ _] [Hwf _] [Hwf' _] Hr Hfs Hlen.
  assert (Hne : i ≠ running_process_idx (procs (kern m))).
  { rewrite Hrun. intros ->. destruct (tw_running _ Hwf Hr) as (p0 & Hp0 & Hu). unfold pcb_at in Hq. rewrite Hq in Hp0. injection Hp0 as <-.
    unfold ProcessFacts.in_use in Hu. by rewrite Hnew in Hu. }
  destruct (wait_turn list_addr kernel_addr polls rounds i p 16 fs m) as (k & f & m1 & m2 & Hk & H1 & H2 & H3 & H4 & H5 & H6 & H7).
  - apply Hwf'.
  - by rewrite Hrun.
  - exact Hi.
  - exact Hne.
  - exact Hp.
  - exact Hst.
  - exact Hfs.
  - unfold distance. pose proof (Z.mod_pos_bound (i - running_process_idx (procs (kern m)) - 1) 16). lia.
  - exact Hlen.
  - exists dn, prog, k, f, m1, m2. rewrite <- Hctx. split; [exact Hk|]. split; [exact H1|]. split; [exact H2|]. split; [exact H3|]. split.
    + rewrite H5, Hctx. change (page_directory_virtual_addr (initial_context (directory_addr list_addr (Z.of_nat dn)))) with (directory_addr list_addr (Z.of_nat dn)).
      destruct Hlay as [Hlow _ _]. unfold paging_use_page_directory. rewrite (proj2 (Z.ltb_lt _ _)); [done|]. unfold directory_addr. lia.
    + rewrite H7, H6. by split.
Qed.

(** C9: A program started from the shell gets the processor: at the latest the
    sixteenth timer interrupt after [exec path] enters it at address 0, on the
    page directory of its own, and the bytes of the file are there. *)
Theorem exec_program_entered v m d s ns w dirs nm garbage p pns data fs :
  settled v m s ns -> disk_shows v m d -> exec_args s v d ns w dirs nm garbage p pns data ->
  kernel_ok (kern (sys s)) -> runs_in list_addr (kern (sys s)) dir -> has_room (kern (sys s)) -> buf_at a ≤ PAGE_FRAME_SIZE ->
  slot (running_process_idx (procs (kern (sys s)))) -> Forall timer_frame fs -> (16 ≤ length fs)%nat ->
  exists s', exec s (padded 512 w) 1 garbage = Ret s' /\ enters (sys s') data fs.
Proof using All.
  intros Hs Hd Hargs Hk Hin Hrm Hat Hr Hfs Hl.
  destruct (exec_spec v m d s ns w dirs nm garbage p pns data Hs Hd Hargs Hk Hin Hrm Hat) as (s' & Hrun & _ & _ & Hst & Hk').
  exists s'. split; [exact Hrun|]. exact (started_entered (sys s') (kern (sys s)) _ data fs Hst Hk Hk' Hr Hfs Hl).
Qed.
End command.
