(* ===== verification/Booted.v ===== *)
(** * The shell on the kernel

    The shell's theorems hold for every kernel that is a [FileServer]; the
    kernel of Interrupt.v is one for a process with its pages.  Here the two
    meet on the machine that start-up leaves, and on the image the host tool
    makes. *)
From stdpp Require Import gmap relations.
From S2P Require Import Prelude CString PortIO BlockDevice FatLayout Fat32 FatFacts FatChain FatLoops FatSpec FatRefine FatWrite FatMount FatProps.
From S2P Require Import Descriptors Pic Screen Cmos Paging PagingFacts PagingProps Mmu UserMemory Process ProcessFacts ProcessProps ProcessImage ProcessCreate KernelProps FatBuffer Interrupt InterruptFacts InterruptProps Preemption KernelBoot Inserting.
From S2P Require Import ShellBase Shell ShellPath ShellFiles ShellCommands ShellMove ShellFacts ShellLine DirTree DiskTree DiskRemove DiskMap ShellSplit ShellNames ShellWalk UserCalls UserFiles ShellCd ShellMkdir ShellRm ShellCat ShellCp ShellSession ShellListing ShellMv UserExec.

(** ** The start of the shell *)

Section start.
Context {K : Type} `{!SysCalls K, !FileServer K}.

Lemma first_path (p : list Z) : length p = 512%nat ->
  (p ← arr_set p 0 47; for_up 511 1 (fun i p => arr_set p i 0) p) = Ret (padded 512 (render [])).
Proof using Type.
  intros Hl. pose proof (CString.arr_set_splice_end p [] 0 0 47 eq_refl ltac:(rewrite Hl; simpl; lia)) as H0.
  rewrite CString.splice_nil in H0. rewrite H0, bind_ret. cbn [app].
  destruct (for_up_inv (fun i q => q = splice 0 (47 :: replicate (Z.to_nat i - 1) 0) p) (fun i p => arr_set p i 0) 511 1 (splice 0 [47] p))
    as (q & -> & ->); [done| |].
  - intros j q Hj ->. eexists. split; [apply CString.arr_set_splice_end; [cbn [length]; rewrite length_replicate; lia|cbn [length]; rewrite length_replicate; lia]|].
    f_equal. cbn [app]. f_equal. replace (Z.to_nat (j + 1) - 1)%nat with ((Z.to_nat j - 1) + 1)%nat by lia. by rewrite replicate_add.
  - rewrite splice_all; [done|]. cbn [length]. by rewrite length_replicate, Hl.
Qed.

(** The beginning of [main] on any kernel: the shell stands in the root. *)
Lemma shell_starts k v m d path after t1 t2 : sees k v m -> disk_shows v m d -> length path = 512%nat -> 512 * 511 ≤ Zlen after ->
  exists s, shell_start (MkShell k ROOT_CLUSTER_NUMBER path after t1 t2) = Ret s /\ in_order v m d s [].
Proof using Type.
  intros Hk Hd Hl Ha. unfold shell_start, update_directory_table. cbn [sys].
  destruct (read_cluster_sees k v m ROOT_CLUSTER_NUMBER Hk) as (k' & -> & Hk'); [done|]. rewrite !bind_ret. cbn [current_path set_table set_sys].
  destruct (bind_Ret_inv _ _ _ (first_path path Hl)) as (p & -> & Hp). rewrite bind_ret, Hp, bind_ret.
  eexists. split; [reflexivity|]. split; [|exact Hd]. split; [exact Hk'|done|done|constructor|simpl; lia|exact Ha].
Qed.
End start.

(** What a shell that has started can be asked to do: it stands in the root
    of a disk in order, and every session of admissible commands does to the map
    what its commands say and ends with the shell and the disk in order, or a
    path with a [..] that stays in the root keeps it for ever. *)
Definition serves {K} `{!SysCalls K, !FileServer K} (s : shell K) (d : disk_map) : Prop :=
  (exists v m, in_order v m d s []) /\ forall cs, all_admissible s cs ->
    (run_commands s cs = Hang /\ Exists climbs cs) \/
    exists s' v' m' d' ns', run_commands s cs = Ret s' /\ in_order v' m' d' s' ns' /\ session_steps s d cs s' d'.

(** The objects of a call lie in the first two pages. *)
Record area_fits (a : call_area) : Prop := MkAreaFits {
  af_req : 0 ≤ req_at a;
  af_ret : req_at a + Z.of_nat sizeof_request ≤ ret_at a;
  af_buf : ret_at a + 1 ≤ buf_at a;
  af_end : buf_at a + Z.of_nat BUFFER_WINDOW ≤ 2 * PAGE_FRAME_SIZE
}.

(** The variables of user-shell.c before [main]; [after], [t1] and [t2] are
    the memory behind the path and the two tables. *)
Definition fresh_shell {K} (k : K) (after : list Z) (t1 t2 : list FAT32DirectoryEntry) : shell K :=
  MkShell k ROOT_CLUSTER_NUMBER (replicate 512 0) after t1 t2.

Section booted.
Context {D : Type} `{!BlockDevice D, !BlockDeviceSpec D, !PortIO D, !KernelHalf D, !SharedBus D}.
Context (list_addr kernel_addr : Z) (Hlay : directory_layout list_addr kernel_addr) (polls rounds : nat) (a : call_area) (Ha : area_fits a).
Context (v : volume) (e : FAT32DirectoryEntry) (ch : list Z) (Hshell : has_shell v e ch).

Lemma booted_area (k : machine D) m dir : user_space v (kern k) m -> page_directory_list (pages (kern k)) !! 0%nat = Some dir -> area_ok dir a.
Proof using Ha.
  intros [Hok Hmap _ _ _] Hdir. destruct Ha as [A1 A2 A3 A4].
  assert (Htop : 2 * PAGE_FRAME_SIZE ≤ KERNEL_VIRTUAL_ADDRESS_BASE) by discriminate.
  split; [exact A1|exact A2|exact A3|lia| |by eapply directory_apart].
  apply (pages_all_mapped (pages (kern k)) 0 dir 2); [exact Hdir|exact Hmap|lia|exact A1|lia].
Qed.

Lemma booted_directory (k : machine D) dir : cr3 (pages (kern k)) = directory_addr list_addr 0 - KERNEL_VIRTUAL_ADDRESS_BASE ->
  page_directory_list (pages (kern k)) !! 0%nat = Some dir -> Interrupt.current_directory list_addr kernel_addr k = Ret dir.
Proof using Hlay.
  intros Hc Hd. unfold Interrupt.current_directory, paging_get_current_page_directory_addr. rewrite Hc, Z.sub_add, wrap_small.
  - by apply (get_directory_list list_addr kernel_addr Hlay).
  - destruct Hlay as [Hlow Hhigh _]. unfold directory_addr, PAGING_DIRECTORY_TABLE_MAX_COUNT, is_word, KERNEL_VIRTUAL_ADDRESS_BASE in *. lia.
Qed.

(** Start-up leaves a machine on which the shell can start programs. *)
Lemma booted_tables (k k' : machine D) m0 c stubs tss_addr ebp o dir :
  procs (kern k) = procs_init -> pages (kern k) = paging_init c -> kernel_setup list_addr kernel_addr stubs tss_addr ebp k = Ret (o, k') ->
  active_process_count (procs (kern k')) = 1 -> cr3 (pages (kern k')) = directory_addr list_addr 0 - KERNEL_VIRTUAL_ADDRESS_BASE ->
  page_directory_list (pages (kern k')) !! 0%nat = Some dir -> user_space v (kern k') m0 ->
  kernel_ok (kern k') /\ runs_in list_addr (kern k') dir /\ has_room (kern k').
Proof using Hlay.
  intros Hp Hg Hset Hact Hcr3 Hdir [_ _ Hfree Hused _]. split; [|split].
  - apply (setup_ok list_addr kernel_addr Hlay) in Hset; [exact Hset|]. split; [rewrite Hp; apply procs_init_wf|rewrite Hg; apply init_ok].
  - split. exists 0%nat. rewrite Hused. split; [lia|]. split; [reflexivity|]. split; [exact Hdir|exact Hcr3].
  - split; [lia|lia|]. rewrite Hused. apply Nat.ltb_lt. reflexivity.
Qed.

#[local] Hint Extern 0 (SysCalls (machine D)) => exact (user_calls list_addr kernel_addr polls rounds a) : typeclass_instances.

Section tables.
Context (dir : PageDirectory) (Har : area_ok dir a) (P : ProcessManagerState) (G : paging).

Abbreviation on_kernel := (user_files list_addr kernel_addr polls rounds a dir Har).
Abbreviation on_tables := (table_files list_addr kernel_addr polls rounds a dir Har P G).

Lemma order_tables v' m d (s : shell (machine D)) ns : in_order (FileServer0 := on_tables) v' m d s ns ->
  in_order (FileServer0 := on_kernel) v' m d s ns /\ procs (kern (sys s)) = P /\ pages (kern (sys s)) = G.
Proof using Type. intros [[(H1 & Hp & Hg) H2 H3 H4 H5 H6] Hd]. split; [|by split]. split; [|exact Hd]. by split. Qed.

Lemma order_with_tables v' m d (s : shell (machine D)) ns : in_order (FileServer0 := on_kernel) v' m d s ns ->
  procs (kern (sys s)) = P -> pages (kern (sys s)) = G -> in_order (FileServer0 := on_tables) v' m d s ns.
Proof using Type. intros [[H1 H2 H3 H4 H5 H6] Hd] Hp Hg. split; [|exact Hd]. split; [split; [exact H1|by split]|assumption..]. Qed.

Lemma admissible_tables cs : forall s : shell (machine D),
  all_admissible (FileServer0 := on_kernel) s cs -> all_admissible (FileServer0 := on_tables) s cs.
Proof using Type.
  induction cs as [|c cs IH]; intros s; [done|]. intros [Hc Hcs]. split; [|intros s' Hr; by apply IH, Hcs].
  intros v' m d ns Hs. apply (Hc v' m d ns). by apply order_tables in Hs as [? _].
Qed.

Lemma steps_tables (s : shell (machine D)) d cs s' d' :
  session_steps (FileServer0 := on_tables) s d cs s' d' -> session_steps (FileServer0 := on_kernel) s d cs s' d'.
Proof using Type.
  induction 1 as [|v' m ns s d c s1 d1 cs s2 d2 Hin Hr Hst _ IH]; [constructor|].
  eapply session_more; [exact (proj1 (order_tables _ _ _ _ _ Hin))|exact Hr|exact Hst|exact IH].
Qed.
End tables.

(** What a started shell can do with programs: after any session, [exec] with
    a path to a program of the disk starts it, and the timer enters it. *)
Definition executes (dir : PageDirectory) (Har : area_ok dir a) (s : shell (machine D)) (d : disk_map) : Prop :=
  let server := user_files list_addr kernel_addr polls rounds a dir Har in
  forall cs s', all_admissible s cs -> run_commands s cs = Ret s' -> exists v' m' d' ns', in_order v' m' d' s' ns' /\ session_steps s d cs s' d' /\
    forall w dirs nm garbage p pns data fs, exec_args s' v' d' ns' w dirs nm garbage p pns data -> Forall timer_frame fs -> (16 ≤ length fs)%nat ->
      exists s2, exec s' (padded 512 w) 1 garbage = Ret s2 /\ settled v' m' s2 pns /\
        started list_addr (name8 (before_dot nm)) data (kern (sys s')) (kern (sys s2)) /\
        enters list_addr kernel_addr polls rounds (sys s2) data fs.

Lemma tables_execute dir (Har : area_ok dir a) (s : shell (machine D)) v0 m0 d : buf_at a ≤ PAGE_FRAME_SIZE ->
  in_order (FileServer0 := user_files list_addr kernel_addr polls rounds a dir Har) v0 m0 d s [] ->
  kernel_ok (kern (sys s)) -> runs_in list_addr (kern (sys s)) dir -> has_room (kern (sys s)) -> slot (running_process_idx (procs (kern (sys s)))) ->
  executes dir Har s d.
Proof using Hlay.
  intros Hat Hin Hk Hrun Hroom Hslot cs s' Hadm Hcs.
  set (P := procs (kern (sys s))) in *. set (G := pages (kern (sys s))) in *.
  pose proof (order_with_tables dir Har P G _ _ _ _ _ Hin eq_refl eq_refl) as Hin'.
  destruct (session_spec (FileServer0 := table_files list_addr kernel_addr polls rounds a dir Har P G) cs v0 m0 d s [] Hin' (admissible_tables dir Har P G cs s Hadm))
    as [[Hh _]|(s1 & v' & m' & d' & ns' & Hr & Hs1 & Hst)]; [by rewrite Hh in Hcs|].
  rewrite Hcs in Hr. injection Hr as <-. apply order_tables in Hs1 as (Hs1 & HP & HG). exists v', m', d', ns'.
  split; [exact Hs1|]. split; [exact (steps_tables _ _ _ _ _ _ _ _ _ Hst)|]. intros w dirs nm garbage p pns data fs Hargs Hfs Hlen.
  assert (Hk' : kernel_ok (kern (sys s'))) by (destruct Hk; split; by rewrite ?HP, ?HG).
  destruct (exec_spec list_addr kernel_addr Hlay polls rounds a dir Har v' m' d' s' ns' w dirs nm garbage p pns data (io_settled _ _ _ _ _ Hs1) (io_shows _ _ _ _ _ Hs1) Hargs Hk')
    as (s2 & Hex & Hset & _ & Hstd & Hk2).
  { destruct Hrun as [H]. split. by rewrite HG. } { destruct Hroom. split; by rewrite ?HP, ?HG. } { exact Hat. }
  exists s2. split; [exact Hex|]. split; [exact Hset|]. split; [exact Hstd|].
  apply (started_entered list_addr kernel_addr Hlay polls rounds (sys s2) (kern (sys s')) (name8 (before_dot nm))); [exact Hstd|exact Hk'|exact Hk2|by rewrite HP|exact Hfs|exact Hlen].
Qed.
(** Start-up leaves a machine that serves the shell. *)
Lemma boot_serves (k : machine D) m0 c stubs tss_addr ebp d after t1 t2 :
  procs (kern k) = procs_init -> pages (kern k) = paging_init c -> 0 < c < 2 ^ 30 ->
  gdt k = Gdt.global_descriptor_table -> idt k = Idt.interrupt_descriptor_table -> length stubs = 64%nat ->
  repr (Process.files (kern k)) v m0 -> formatted v -> ram_ok (umem (kern k)) -> disk_shows v (set_fat m0 (disk_fat v)) d ->
  512 * 511 ≤ Zlen after ->
  exists k' dir (Har : area_ok dir a), kernel_setup list_addr kernel_addr stubs tss_addr ebp k = Ret (SwitchTo (initial_context (directory_addr list_addr 0)), k') /\
    page_directory_list (pages (kern k')) !! 0%nat = Some dir /\
    (forall i b, 0 ≤ i -> get_data v ch !! Z.to_nat i = Some b -> load dir (umem (kern k')) i = Ret b) /\
    let calls := user_calls list_addr kernel_addr polls rounds a in
    let server := user_files list_addr kernel_addr polls rounds a dir Har in
    exists s, shell_start (fresh_shell k' after t1 t2) = Ret s /\ serves s d /\ (buf_at a ≤ PAGE_FRAME_SIZE -> executes dir Har s d).
Proof using All.
  intros Hp Hg Hc Hgdt Hidt Hst Hk Hf Hram Hd Hafter.
  destruct (setup_spec list_addr kernel_addr Hlay v e ch Hshell k m0 c stubs tss_addr ebp Hp Hg Hc Hgdt Hidt Hst Hk Hf)
    as (p & k' & Hset & Hidx & Hact & _ & _ & _ & _ & Hcr3 & (dir & Hdir & Hmem) & _ & _ & _ & Hus & Hram').
  pose proof (booted_area k' m0 dir Hus Hdir) as Har. exists k', dir, Har.
  split; [exact Hset|]. split; [exact Hdir|]. split; [exact Hmem|]. intros calls server.
  destruct (booted_tables k k' m0 c stubs tss_addr ebp _ dir Hp Hg Hset Hact Hcr3 Hdir Hus) as (Hkok & Hrn & Hrm).
  set (P := procs (kern k')). set (G := pages (kern k')).
  assert (Hsees : table_sees list_addr kernel_addr dir P G k' v (set_fat m0 (disk_fat v))).
  { split; [|by split]. split; [split; [by apply booted_directory|by apply Hram']|]. exact (us_disk _ _ _ Hus). }
  destruct (shell_starts (FileServer0 := table_files list_addr kernel_addr polls rounds a dir Har P G) k' v _ d (replicate 512 0) after t1 t2 Hsees Hd eq_refl Hafter)
    as (s & Hs & Hin).
  apply (order_tables dir Har P G) in Hin as (Hin & HP & HG). exists s. split; [exact Hs|]. split; [split|].
  - by eexists _, _.
  - intros cs Hcs. by apply (session_spec cs v (set_fat m0 (disk_fat v)) d s []).
  - intros Hat. apply (tables_execute dir Har s v (set_fat m0 (disk_fat v)) d Hat Hin).
    + destruct Hkok. split; by rewrite ?HP, ?HG.
    + destruct Hrn as [H]. split. by rewrite HG.
    + destruct Hrm. split; by rewrite ?HP, ?HG.
    + rewrite HP. unfold P. rewrite Hidx. by unfold slot.
Qed.
End booted.

(** ** What the shell prints on the kernel *)

Section printing.
Context {D : Type} `{!BlockDevice D, !BlockDeviceSpec D, !PortIO D, !KernelHalf D, !SharedBus D}.
Context (list_addr kernel_addr : Z) (polls rounds : nat) (a : call_area) (dir : PageDirectory) (Ha : area_ok dir a).
#[local] Hint Extern 0 (SysCalls (machine D)) => exact (user_calls list_addr kernel_addr polls rounds a) : typeclass_instances.
#[local] Hint Extern 0 (FileServer (machine D)) => exact (user_files list_addr kernel_addr polls rounds a dir Ha) : typeclass_instances.
#[local] Hint Extern 0 (ClusterServer (machine D)) => exact (user_clusters list_addr kernel_addr polls rounds a dir Ha) : typeclass_instances.

(** With a log of the texts passed to interrupt 0x30, [ls] prints there what
    it prints on any [Screen]. *)
Lemma machine_lists v m d (s : shell (logged (machine D))) ns : settled v m s ns -> disk_shows v m d ->
  Forall (fun e => attribute e = ATTR_SUBDIRECTORY -> ext e = replicate 3 0) (entries_of (table_at v (current_directory s))) ->
  exists s', ls s 0 = Ret s' /\ settled v m s' ns /\ current_directory s' = current_directory s /\
    log (sys s') = log (sys s) ++ listing (CString.cstr (name_at (table_at v (current_directory s)) 0)) (entries_of (table_at v (current_directory s))).
Proof using Type. exact (ls_spec v m d s ns). Qed.

(** And [mv] renames through system calls 1, 9 and 10. *)
Lemma machine_renames v m d (s : shell (machine D)) ns w q nw ex data : settled v m s ns -> disk_shows v m d ->
  no_nul w -> (length w < 512)%nat -> is_absolute w = false -> path_names w = [q] -> typed_name nw -> 46 ∉ nw -> w ≠ [] ->
  files d !! (current_directory s, name8 w, ex) = Some data ->
  Forall (fun e => name e ≠ name8 w) (take 2 (table_at v (current_directory s))) ->
  Forall (fun e => name e = name8 w -> attribute e ≠ ATTR_SUBDIRECTORY /\ ext e = ex) (drop 2 (table_at v (current_directory s))) ->
  lookup_first (has_name (name8 nw)) (drop 2 (table_at v (current_directory s))) = None ->
  exists v' s', rename s (padded 512 w) (padded 512 nw) = Ret s' /\ settled v' m s' ns /\ current_directory s' = current_directory s /\
    disk_shows v' m (renamed_map d (current_directory s) (name8 w) (name8 nw) ex data).
Proof using Type. exact (rename_spec v m d s ns w q nw ex data). Qed.
End printing.

(** ** The image of the host tool *)

(** The disk with the shell on it and nothing else. *)
Definition shell_map (data : list Z) (size : Z) : disk_map :=
  with_files blank_map (<[key_of (shell_file data size) := take (Z.to_nat size) data]> ∅).

(** Another driver memory with the same table. *)
Lemma shows_driver v m m' d : disk_shows v m d -> driver_ok m' -> disk_shows v (set_fat m' (fat_table m)) d.
Proof. intros [[Hm Hres] Hd Hh] [_ H2 H3 H4]. split; [split; [split; [apply Hm|done..]|exact Hres]|exact Hd|exact Hh]. Qed.

Section image.
Context {D : Type} `{!BlockDevice D, !BlockDeviceSpec D}.

Lemma repr_functional (s : fs D) v m v' m' : repr s v m -> repr s v' m' -> v' = v /\ m' = m.
Proof using Type. by intros (_ & <- & <-) (_ & <- & <-). Qed.

Lemma inserted_disk (s : fs D) v m data size s' v' m' :
  repr s v m -> driver_ok m -> ~ formatted v -> 0 < size ≤ 0xFE800 -> bytes_ok data -> CLUSTER_SIZE * number_of_partition size ≤ Zlen data ->
  insert_file s (padded 20 (bytes_of_string "shell")) data size ROOT_CLUSTER_NUMBER = Ret (0, s') -> repr s' v' m' ->
  disk_shows v' m' (shell_map data size) /\ fat_table m' = disk_fat v'.
Proof using Type.
  intros Hs Hm Hnot Hsz Hb Hl Hins Hs'. destruct (initialize_creates s v m Hs Hm Hnot) as (s1 & Hi & Hs1).
  pose proof (repr_length _ _ _ Hs) as Hlen. pose proof (blank_shows v m Hlen Hm) as Hd1.
  destruct (created_disk v m Hlen Hm) as (_ & _ & Hmo & Hfree & Hroot).
  set (v1 := (spec_create v m).1) in *. set (m1 := (spec_create v m).2) in *. clearbody v1 m1.
  set (rq := shell_file data size). pose proof (fresh_args v1 m1 data size Hmo Hfree Hsz Hb Hl) as Hargs. fold rq in Hargs.
  pose proof (fresh_creates v1 m1 data size Hroot Hmo Hfree Hsz) as Hcf. fold rq in Hcf.
  rewrite (insert_shell_write s s1) in Hins by first [exact Hi|unfold is_word; lia]. fold rq in Hins.
  destruct (write_correct s1 v1 m1 rq Hs1 Hmo Hargs (root_no_overrun v1 m1 rq eq_refl)) as (s2 & Hwr & Hs2). rewrite Hins in Hwr. injection Hwr as Hcode ->.
  destruct (repr_functional _ _ _ _ _ Hs2 Hs') as [-> ->].
  destruct (sh_disk _ _ _ Hd1) as [cs Hdk].
  destruct (write_step v1 m1 blank_map rq (repr_length _ _ _ Hs1) (fun c => repr_block _ _ _ c Hs1) Hmo (sh_holds _ _ _ Hd1) cs Hdk
    (wa_request _ _ Hargs) [] (located_root v1)) with (w := spec_write v1 m1 rq) as (d' & Hsh & Hst).
  - by vm_compute.
  - reflexivity.
  - exact Hargs.
  - intros H. exfalso. cbn in H. lia.
  - rewrite (spec_write_creates v1 m1 rq Hcf) in *. cbn [fst snd] in *. split.
    + assert (d' = shell_map data size) as <-; [|exact Hsh].
      remember (Write rq) as call eqn:Hcall in Hst. remember 0 as code eqn:Hc in Hst.
      destruct Hst; try discriminate Hcall; try discriminate Hc; injection Hcall as ->; [reflexivity|exfalso; cbn in H; lia].
    + pose proof (drv_fat _ (mnt_ok _ (sh_mounted _ _ _ Hsh))) as Hfat. unfold disk_fat, spec_write_file in *. cbn [fst snd fat_table set_fat] in *.
      rewrite vol_get_insert, decide_True by (first [reflexivity|by unfold in_map|rewrite length_put_data, length_insert; apply (repr_length _ _ _ Hs1)]). by rewrite dec_enc_fat.
Qed.
End image.
