(* ===== verification/InserterMain.v ===== *)
(** * external-inserter.c: the whole of [main]

    The host is the files it has, by path.  [fopen] for reading gives [NULL]
    for a path that is not there; a file that is there can be written.  What
    [malloc] leaves in the two buffers and the static variables of fat32.c are
    arguments.  [fread] takes at most the 4 MiB it is asked for.

    The last part puts tool, kernel and shell together: the image that [main]
    leaves boots into a shell that serves its sessions. *)
From stdpp Require Import gmap pretty relations.
From S2P Require Import Prelude CString PortIO BlockDevice FatLayout Fat32 FatFacts FatChain FatLoops FatSpec FatRefine FatWrite FatMount FatProps.
From S2P Require Import Descriptors Pic Screen Cmos Paging PagingFacts PagingProps Mmu UserMemory Process ProcessImage ProcessCreate FatBuffer Interrupt KernelBoot Inserting.
From S2P Require Import ShellBase Shell ShellPath ShellFiles ShellCommands ShellMove ShellFacts ShellLine DirTree DiskTree DiskRemove DiskMap ShellSplit ShellNames ShellWalk UserCalls UserFiles ShellCd ShellMkdir ShellRm ShellCat ShellCp ShellSession UserExec Booted.

Abbreviation host := (gmap (list Z) (list Z)).

(** Rows of [BLOCK_SIZE] bytes in 4 MiB. *)
Definition STORAGE_ROWS : nat := Z.to_nat 8192.

Fixpoint chunks (n : nat) (l : list Z) : list (list Z) :=
  match n with O => [] | S n' => take 512 l :: chunks n' (drop 512 l) end.

(** [fread(buffer, 4*1024*1024, 1, file)]. *)
Definition fread (bytes buffer : list Z) : list Z := splice 0 (take (512 * STORAGE_ROWS) bytes) buffer.

Definition is_space (c : Z) : bool := (c =? 32) || ((9 <=? c) && (c <=? 13)).

Fixpoint skip_spaces (s : list Z) : list Z :=
  match s with c :: s' => if is_space c then skip_spaces s' else s | [] => [] end.

Fixpoint word_of (s : list Z) : list Z :=
  match s with c :: s' => if is_space c then [] else c :: word_of s' | [] => [] end.

Definition is_decimal (c : Z) : bool := (48 <=? c) && (c <=? 57).

Fixpoint number_of (acc : Z) (s : list Z) : Z :=
  match s with c :: s' => if is_decimal c then number_of (10 * acc + (c - 48)) s' else acc | [] => acc end.

(** [sscanf(s, "%s", filename)] into the 20 zero bytes of [filename]. *)
Definition sscanf_s (s : list Z) : res (list Z) :=
  let w := word_of (skip_spaces s) in if (length w <? 20)%nat then Ret (padded 20 w) else Ub.

(** [sscanf(s, "%u", &n)] with [n] in the variable before: without a number it
    stays, and one that does not fit is undefined. *)
Definition sscanf_u (s : list Z) (n : Z) : res Z :=
  let s := skip_spaces s in
  let '(negative, s) := match s with 45 :: s' => (true, s') | 43 :: s' => (false, s') | _ => (false, s) end in
  match s with
  | c :: _ => if is_decimal c then let x := number_of 0 s in
                if x <? 2 ^ 32 then Ret (u32 (if negative : bool then - x else x)) else Ub
              else Ret n
  | [] => Ret n
  end.

(** The file to insert and its size; without one the buffer stays as it is. *)
Definition read_target (h : host) (target file_garbage : list Z) : list Z * Z :=
  match h !! target with
  | None => (file_garbage, 0)
  | Some bytes => (fread bytes file_garbage, Zlen bytes)
  end.

Definition write_message (retcode : Z) : list Z :=
  if retcode =? 0 then bytes_of_string "Write success"
  else if retcode =? 1 then bytes_of_string "Error: File/folder name already exist"
  else if retcode =? 2 then bytes_of_string "Error: Invalid parent cluster"
  else bytes_of_string "Error: Unknown error".

Definition target_lines (name : list Z) (filesize : Z) : list (list Z) :=
  [bytes_of_string "Filename : " ++ name; bytes_of_string "Filesize : " ++ bytes_of_string (pretty filesize) ++ bytes_of_string " bytes"].

(** The exit code, the lines on the standard output and the files afterwards.
    [insert_file] is the middle of the function; [parse_file_name] prints its
    message there. *)
Definition main (h : host) (argv : list (list Z)) (image_garbage file_garbage : list Z) (m : driver) :
    res (Z * list (list Z) * host) :=
  if (length argv <? 4)%nat then Ret (1, [], h)
  else
    storage ← arr_get argv 3;
    bytes ← of_option (h !! storage);
    let image_storage := fread bytes image_garbage in
    target ← arr_get argv 1;
    let '(file_buffer, filesize) := read_target h target file_garbage in
    index ← arr_get argv 2;
    parent ← sscanf_u index 0;
    filename ← sscanf_s target;
    '(_, msg, _, _) ← parse_file_name filename (replicate 8 0) (replicate 3 0);
    '(retcode, s) ← insert_file (MkFs (Inserter.Image (chunks STORAGE_ROWS image_storage)) m) filename file_buffer filesize parent;
    Ret (0, target_lines target filesize ++ option_list (bytes_of_string <$> msg) ++ [write_message retcode],
         <[storage := concat (Inserter.rows (dev s))]> h).

(** ** The image as rows *)

Lemma length_chunks n l : length (chunks n l) = n.
Proof. revert l. induction n as [|n IH]; intros l; [done|]. cbn [chunks length]. by rewrite IH. Qed.

Lemma concat_chunks n l : length l = (512 * n)%nat -> concat (chunks n l) = l.
Proof.
  revert l. induction n as [|n IH]; intros l Hl; [by destruct l|]. cbn [chunks concat].
  rewrite IH by (rewrite length_drop; lia). apply take_drop.
Qed.

Lemma chunks_concat n rs : length rs = n -> Forall (fun r => length r = 512%nat) rs -> chunks n (concat rs) = rs.
Proof.
  intros <-. induction 1 as [|r rs Hr _ IH]; [done|]. cbn [chunks concat length].
  rewrite take_app_length', drop_app_length' by (symmetry; exact Hr). by rewrite IH.
Qed.

Lemma length_concat_rows (rs : list (list Z)) : Forall (fun r => length r = 512%nat) rs -> length (concat rs) = (512 * length rs)%nat.
Proof. induction 1 as [|r rs Hr _ IH]; [done|]. cbn [concat length]. rewrite length_app, IH, Hr. lia. Qed.

Lemma chunks_ok n l : length l = (512 * n)%nat -> bytes_ok l -> Forall Inserter.row_ok (chunks n l).
Proof.
  revert l. induction n as [|n IH]; intros l Hl Hb; [done|]. cbn [chunks]. apply Forall_cons. split.
  - split; [rewrite length_take; lia|by apply Forall_take].
  - apply IH; [rewrite length_drop; lia|by apply Forall_drop].
Qed.

Lemma storage_rows : Z.of_nat STORAGE_ROWS = 8192.
Proof. reflexivity. Qed.
#[global] Opaque STORAGE_ROWS.

(** [image_storage] of the tool is a device of 8192 sectors, whatever is
    written to it. *)
#[local, program] Instance storage_spec : BlockDeviceSpec Inserter.image := {
  sector := Inserter.image_sector;
  sectors := fun img => Zlen (Inserter.rows img);
  dev_ok := fun img => Inserter.image_ok img /\ length (Inserter.rows img) = STORAGE_ROWS
}.
Next Obligation. intros img k [Hok _] Hk. exact (sector_ok (BlockDeviceSpec := Inserter.image_spec) img k Hok Hk). Qed.
Next Obligation.
  intros img lba n [Hok Hn] H1 H2 H3. exists img. split_and!; [|done..]. apply Inserter.image_read; (done || lia).
Qed.
Next Obligation.
  intros img bs lba n [Hok Hn] Hl H0 Hr Hlen Hb.
  destruct (Inserter.image_write img bs lba n) as (img' & ? & ? & HZ & Hs); [done || lia..|].
  exists img'. split_and!; [done|done|unfold Zlen in HZ; lia|done|]. intros k Hk. apply Hs. lia.
Qed.

(** The file system of the tool that has read [bytes]. *)
Definition image_fs (bytes : list Z) (m : driver) : fs Inserter.image := MkFs (Inserter.Image (chunks STORAGE_ROWS bytes)) m.

Definition storage_ok (bytes : list Z) : Prop := length bytes = (512 * STORAGE_ROWS)%nat /\ bytes_ok bytes.

Lemma fread_ok bytes buffer : bytes_ok bytes -> storage_ok buffer -> storage_ok (fread bytes buffer).
Proof.
  intros Hb [Hl Hbuf]. unfold fread. split.
  - rewrite length_splice; [exact Hl|]. rewrite length_take. lia.
  - apply FatBuffer.bytes_splice; [by apply Forall_take|exact Hbuf].
Qed.

Lemma fread_all bytes buffer : storage_ok buffer -> length bytes = (512 * STORAGE_ROWS)%nat -> fread bytes buffer = bytes.
Proof. intros [Hl _] Hb. unfold fread. rewrite <- Hb, take_ge by lia. apply splice_all. lia. Qed.

Lemma image_repr bytes m : storage_ok bytes -> repr (image_fs bytes m) (vol (image_fs bytes m)) m.
Proof.
  intros [Hl Hb]. apply repr_refl. split; [split; [split|]|].
  - by apply chunks_ok.
  - cbn. unfold Zlen. rewrite length_chunks, storage_rows. by vm_compute.
  - apply length_chunks.
  - cbn. unfold Zlen. rewrite length_chunks, storage_rows. by vm_compute.
Qed.

(** What the tool writes back is, read again, the disk it had. *)
Lemma image_back (s : fs Inserter.image) v m : repr s v m ->
  let bytes := concat (Inserter.rows (dev s)) in
  storage_ok bytes /\ forall m0, repr (image_fs bytes m0) v m0.
Proof.
  intros ([[[Hrows Hmax] Hn] Hsec] & Hv & _) bytes.
  assert (Hr : Forall (fun r => length r = 512%nat) (Inserter.rows (dev s))) by (eapply Forall_impl; [exact Hrows|by intros r [? _]]).
  assert (Hok : storage_ok bytes).
  { split; [unfold bytes; by rewrite length_concat_rows, Hn|]. apply Forall_concat. eapply Forall_impl; [exact Hrows|by intros r [_ ?]]. }
  split; [exact Hok|]. intros m0.
  assert (Hvol : vol (image_fs bytes m0) = v).
  { rewrite <- Hv. unfold vol, image_fs, bytes. cbn [dev]. by rewrite chunks_concat by first [exact Hn|exact Hr]. }
  rewrite <- Hvol. by apply image_repr.
Qed.

(** ** [main] *)

(** What [initialize_filesystem_fat32] makes of a disk. *)
Definition mount (v : volume) (m : driver) : volume * driver :=
  if decide (formatted v) then (v, set_fat m (dec_array 512 (vol_get v FAT_CLUSTER_NUMBER))) else spec_create v m.

Lemma initialize_mounts `{!BlockDevice D, !BlockDeviceSpec D} (s : fs D) v m : repr s v m -> driver_ok m ->
  exists s', initialize_filesystem_fat32 s = Ret s' /\ repr s' (mount v m).1 (mount v m).2.
Proof.
  intros Hs Hm. unfold mount. destruct (decide (formatted v)) as [Hf|Hf]; [exact (initialize_loads s v m Hs Hf)|exact (initialize_creates s v m Hs Hm Hf)].
Qed.

(** The first word of [argv[1]]. *)
Definition target_word (target : list Z) : list Z := word_of (skip_spaces target).

Lemma sscanf_short target : (length (target_word target) < 20)%nat -> sscanf_s target = Ret (padded 20 (target_word target)).
Proof. intros H. unfold sscanf_s. fold (target_word target). by rewrite (proj2 (Nat.ltb_lt _ _) H). Qed.

Lemma target_word_forall (P : Z -> Prop) target : Forall P target -> Forall P (target_word target).
Proof.
  intros H. unfold target_word. assert (Hs : Forall P (skip_spaces target)).
  { induction H as [|c s Hc H IH]; cbn [skip_spaces]; [done|]. destruct (is_space c); [exact IH|by constructor]. }
  induction Hs as [|c s Hc H' IH]; cbn [word_of]; [done|]. destruct (is_space c); by constructor.
Qed.

Lemma Forall_before_dot (P : Z -> Prop) w : Forall P w -> Forall P (before_dot w).
Proof. intros H. destruct (before_dot_prefix w) as (r & Hr & _). rewrite Hr in H. by apply Forall_app in H as [? _]. Qed.

Lemma Forall_extension (P : Z -> Prop) w : Forall P w -> Forall P (extension w).
Proof. intros H. unfold extension. case_decide; [done|]. by apply Forall_take, Forall_drop. Qed.

(** The request the tool makes. *)
Definition tool_request (h : host) (target file_garbage : list Z) (parent : Z) : FAT32DriverRequest :=
  let '(file_buffer, filesize) := read_target h target file_garbage in
  MkRequest file_buffer (padded 8 (take 8 (before_dot (target_word target)))) (padded 3 (extension (target_word target))) (u32 parent) (u32 filesize).

Lemma tool_request_ok h target file_garbage parent : bytes_ok target ->
  length (req_name (tool_request h target file_garbage parent)) = 8%nat /\ length (req_ext (tool_request h target file_garbage parent)) = 3%nat /\
  request_ok (tool_request h target file_garbage parent).
Proof.
  intros Hb. apply (target_word_forall _) in Hb.
  assert (H8 : (length (take 8 (before_dot (target_word target))) ≤ 8)%nat) by (rewrite length_take; lia).
  assert (H3 : (length (extension (target_word target)) ≤ 3)%nat) by (unfold extension; case_decide; [simpl; lia|rewrite length_take; lia]).
  unfold tool_request. destruct (read_target h target file_garbage) as [b z]. cbn [req_name req_ext].
  pose proof (length_padded 8 _ H8) as L8. pose proof (length_padded 3 _ H3) as L3. split; [exact L8|]. split; [exact L3|].
  split; cbn [req_name req_ext buffer_size].
  - split; [exact L8|]. apply Forall_app. split; [by apply Forall_take, Forall_before_dot|by apply Forall_replicate].
  - split; [exact L3|]. apply Forall_app. split; [by apply Forall_extension|by apply Forall_replicate].
  - apply wrap_word. lia.
Qed.

Lemma insert_file_writes `{!BlockDevice D} (s s1 : fs D) h target file_garbage parent :
  bytes_ok target -> no_nul target -> (length (target_word target) < 20)%nat -> initialize_filesystem_fat32 s = Ret s1 ->
  insert_file s (padded 20 (target_word target)) (read_target h target file_garbage).1 (read_target h target file_garbage).2 parent =
    write s1 (tool_request h target file_garbage parent).
Proof.
  intros Hb Hn Hl Hi. unfold insert_file. rewrite Hi, bind_ret.
  destruct (parse_file_name_spec 8 3 20 (target_word target)) as (msg & ->); [by apply target_word_forall|done|lia|lia|].
  destruct (tool_request_ok h target file_garbage parent Hb) as (L8 & L3 & _).
  unfold tool_request in *. destruct (read_target h target file_garbage) as [b z]. cbn [req_name req_ext fst snd] in *. rewrite !bind_ret.
  rewrite !CString.memcpy_eq by (rewrite ?L8, ?L3; simpl; lia). rewrite !bind_ret.
  rewrite (take_ge (padded 8 _)), (take_ge (padded 3 _)) by (rewrite ?L8, ?L3; lia).
  rewrite !splice_all by (rewrite ?L8, ?L3; reflexivity). reflexivity.
Qed.

(** What the tool writes back when [insert_file] leaves [v'] on the disk. *)
Definition host_after (h : host) (storage : list Z) (v' : volume) (h' : host) : Prop :=
  exists image, h' = <[storage := image]> h /\ storage_ok image /\ forall m0, repr (image_fs image m0) v' m0.

(** Up to the call of [insert_file], [main] reads its arguments and files. *)
Lemma main_inserts h prog target index storage bytes ig fg m parent r :
  h !! storage = Some bytes -> sscanf_u index 0 = Ret parent -> (length (target_word target) < 20)%nat ->
  parse_file_name (padded 20 (target_word target)) (replicate 8 0) (replicate 3 0) = Ret r ->
  main h [prog; target; index; storage] ig fg m =
    '(retcode, s) ← insert_file (image_fs (fread bytes ig) m) (padded 20 (target_word target)) (read_target h target fg).1 (read_target h target fg).2 parent;
    Ret (0, target_lines target (read_target h target fg).2 ++ option_list (bytes_of_string <$> r.1.1.2) ++ [write_message retcode],
         <[storage := concat (Inserter.rows (dev s))]> h).
Proof.
  intros Hst Hp Hl Hmsg. destruct r as [[[code msg] name] ext]. unfold main. cbn [length Nat.ltb Nat.leb].
  change (arr_get [prog; target; index; storage] 3) with (Ret storage).
  change (arr_get [prog; target; index; storage] 1) with (Ret target). change (arr_get [prog; target; index; storage] 2) with (Ret index).
  rewrite bind_ret, Hst. cbn [of_option]. rewrite bind_ret. rewrite bind_ret.
  destruct (read_target h target fg) as [b z]. cbn [fst snd]. rewrite bind_ret.
  rewrite Hp, bind_ret, (sscanf_short _ Hl), bind_ret, Hmsg, bind_ret. reflexivity.
Qed.

Lemma main_spec h prog target index storage bytes ig fg m parent :
  h !! storage = Some bytes -> bytes_ok bytes -> storage_ok ig -> driver_ok m ->
  bytes_ok target -> no_nul target -> (length (target_word target) < 20)%nat -> sscanf_u index 0 = Ret parent ->
  let disk := mount (vol (image_fs (fread bytes ig) m)) m in
  let rq := tool_request h target fg parent in
  mounted disk.2 -> write_args_ok disk.2 rq ->
  if overruns_literal disk.1 disk.2 rq then main h [prog; target; index; storage] ig fg m = Ub
  else exists msg name ext h', main h [prog; target; index; storage] ig fg m =
      Ret (0, target_lines target (read_target h target fg).2 ++ option_list (bytes_of_string <$> msg) ++
        [write_message (spec_write disk.1 disk.2 rq).1], h') /\
    parse_file_name (padded 20 (target_word target)) (replicate 8 0) (replicate 3 0) = Ret (name_code (target_word target), msg, name, ext) /\
    host_after h storage (spec_write disk.1 disk.2 rq).2.1 h'.
Proof.
  intros Hst Hb Hig Hm Ht Hn Hl Hp disk rq Hmo Hargs.
  pose proof (image_repr (fread bytes ig) m (fread_ok _ _ Hb Hig)) as Hs.
  destruct (initialize_mounts _ _ _ Hs Hm) as (s1 & Hi & Hs1). fold disk in Hs1. clearbody disk.
  pose proof (write_outcome s1 disk.1 disk.2 rq Hs1 Hmo Hargs) as Hout.
  pose proof (insert_file_writes _ _ h target fg parent Ht Hn Hl Hi) as Hins. fold rq in Hins.
  destruct (parse_file_name_spec 8 3 20 (target_word target)) as (msg & Hmsg); [by apply target_word_forall|done|lia|lia|].
  pose proof (main_inserts h prog target index storage bytes ig fg m parent _ Hst Hp Hl Hmsg) as Hmain.
  destruct (overruns_literal disk.1 disk.2 rq).
  - rewrite Hmain, Hins, Hout. reflexivity.
  - destruct Hout as (s2 & Hwr & Hs2). rewrite Hwr in Hins.
    exists msg. eexists _, _, (<[storage := concat (Inserter.rows (dev s2))]> h). split; [|split; [exact Hmsg|]].
    + rewrite Hmain, Hins, bind_ret. reflexivity.
    + eexists. split; [reflexivity|]. exact (image_back s2 _ _ Hs2).
Qed.

(** The file fits into the buffer. *)
Lemma tool_args_ok h target fg parent m : bytes_ok target -> storage_ok fg -> in_map (u32 parent) ->
  (forall data, h !! target = Some data -> bytes_ok data /\ Zlen data ≤ 0x400000) ->
  (is_free (word_after_map m) = true -> number_of_partition (read_target h target fg).2 ≠ free_clusters (fat_table m) + 1) ->
  write_args_ok m (tool_request h target fg parent).
Proof.
  intros Ht Hfg Hp Hdata Hc. destruct (tool_request_ok h target fg parent Ht) as (_ & _ & Hrq).
  assert (H : storage_ok (read_target h target fg).1 /\ 0 ≤ (read_target h target fg).2 ≤ 0x400000).
  { unfold read_target. destruct (h !! target) as [data|]; cbn [fst snd]; [|by split].
    destruct (Hdata data eq_refl) as [Hb Hl]. split; [by apply fread_ok|]. unfold Zlen in *. lia. }
  unfold tool_request in *. destruct (read_target h target fg) as [b z]. cbn [fst snd] in *. destruct H as [[Hlen Hb] Hz].
  split; cbn [parent_cluster_number buffer_size buf]; [exact Hrq|exact Hp| |exact Hb|].
  - rewrite wrap_small by (unfold is_word; lia). unfold Zlen. rewrite Hlen, Nat2Z.inj_mul, storage_rows. unfold number_of_partition.
    change CLUSTER_SIZE with 2048. pose proof (Z.mod_pos_bound z 2048). pose proof (Z.div_mod z 2048). destruct (Z.ltb_spec 0 (z mod 2048)); lia.
  - by rewrite wrap_small by (unfold is_word; lia).
Qed.

(** C20: The host tool implements the specified [write] on the image file.  For
    a target whose first word is shorter than the buffer of its name and whose
    file, if there is one, has at most the 4 MiB of the buffer, and a parent
    that is a cluster of the map, on an image that mounts: [main] exits with 0,
    prints the two lines on the target, the message on its name and what the
    call answers, and leaves in the storage file an image of 4 MiB whose disk is
    the one of the call on the mounted image.  So the answers that the name is
    taken, the folder is full or the cluster is no folder leave the disk as
    mounting made it.  A target that is not there, or is empty, makes a folder,
    in the root only: a call that gets as far as making one elsewhere is
    undefined.  A file of just one cluster more than are free, while the word
    behind the map reads as free, is left out. *)
Theorem main_writes_file h prog target index storage bytes ig fg m parent :
  h !! storage = Some bytes -> bytes_ok bytes -> storage_ok ig -> storage_ok fg -> driver_ok m ->
  bytes_ok target -> no_nul target -> (length (target_word target) < 20)%nat ->
  sscanf_u index 0 = Ret parent -> in_map (u32 parent) ->
  (forall data, h !! target = Some data -> bytes_ok data /\ Zlen data ≤ 0x400000) ->
  let disk := mount (vol (image_fs (fread bytes ig) m)) m in
  let rq := tool_request h target fg parent in
  mounted disk.2 ->
  (is_free (word_after_map disk.2) = true -> number_of_partition (read_target h target fg).2 ≠ free_clusters (fat_table disk.2) + 1) ->
  if overruns_literal disk.1 disk.2 rq then main h [prog; target; index; storage] ig fg m = Ub
  else exists msg name ext h', main h [prog; target; index; storage] ig fg m =
      Ret (0, target_lines target (read_target h target fg).2 ++ option_list (bytes_of_string <$> msg) ++
        [write_message (spec_write disk.1 disk.2 rq).1], h') /\
    parse_file_name (padded 20 (target_word target)) (replicate 8 0) (replicate 3 0) = Ret (name_code (target_word target), msg, name, ext) /\
    host_after h storage (spec_write disk.1 disk.2 rq).2.1 h'.
Proof.
  intros Hst Hb Hig Hfg Hm Ht Hn Hl Hp Hin Hdata disk rq Hmo Hc.
  apply (main_spec h prog target index storage bytes ig fg m parent); try assumption. by apply tool_args_ok.
Qed.

(** A name of 20 characters does not fit into [filename]. *)
Lemma main_name_overflow h prog target index storage bytes ig fg m parent :
  h !! storage = Some bytes -> sscanf_u index 0 = Ret parent -> (20 ≤ length (target_word target))%nat ->
  main h [prog; target; index; storage] ig fg m = Ub.
Proof.
  intros Hst Hp Hl. unfold main. cbn [length Nat.ltb Nat.leb]. change (arr_get [prog; target; index; storage] 3) with (Ret storage).
  change (arr_get [prog; target; index; storage] 1) with (Ret target). change (arr_get [prog; target; index; storage] 2) with (Ret index).
  rewrite bind_ret, Hst. cbn [of_option]. rewrite bind_ret. rewrite bind_ret. destruct (read_target h target fg) as [b z]. rewrite bind_ret, Hp, bind_ret.
  unfold sscanf_s. fold (target_word target). by rewrite (proj2 (Nat.ltb_ge _ _) Hl).
Qed.

(** ** The disk with the shell *)

Definition shell_path : list Z := bytes_of_string "shell".
Definition inserter_command (prog storage : list Z) : list (list Z) := [prog; shell_path; bytes_of_string "2"; storage].

Definition inserted_lines (size : Z) : list (list Z) := target_lines shell_path size ++ [bytes_of_string "Write success"].

Lemma take_fread data fg : storage_ok fg -> (length data ≤ 512 * STORAGE_ROWS)%nat -> take (length data) (fread data fg) = data.
Proof.
  intros [Hl _] Hd. unfold fread. rewrite (take_ge data) by exact Hd. unfold splice. rewrite take_0. cbn [app]. apply take_app_length.
Qed.

(** The tool on a blank image. *)
Lemma main_inserts_shell h prog storage bytes data ig fg m :
  h !! storage = Some bytes -> h !! shell_path = Some data -> bytes_ok bytes -> bytes_ok data -> storage_ok ig -> storage_ok fg ->
  driver_ok m -> ~ formatted (vol (image_fs (fread bytes ig) m)) -> 0 < Zlen data ≤ 0xFE800 ->
  exists h' v' m' e ch, main h (inserter_command prog storage) ig fg m = Ret (0, inserted_lines (Zlen data), h') /\
    host_after h storage v' h' /\ formatted v' /\ has_shell v' e ch /\ fat_table m' = disk_fat v' /\
    disk_shows v' m' (shell_map data (Zlen data)) /\
    (length data ≤ length (get_data v' ch))%nat /\ exists n, get_data v' ch = take n (fread data fg).
Proof.
  intros Hst Hd Hb Hdb Hig Hfg Hm Hnot Hsz.
  assert (Hlen : Z.of_nat (length (fread data fg)) = 0x400000).
  { destruct (fread_ok _ _ Hdb Hfg) as [-> _]. by rewrite Nat2Z.inj_mul, storage_rows. }
  assert (Hdl : (length data ≤ 512 * STORAGE_ROWS)%nat) by (pose proof storage_rows; unfold Zlen in Hsz; lia).
  assert (Hbuf : CLUSTER_SIZE * number_of_partition (Zlen data) ≤ Zlen (fread data fg)).
  { unfold Zlen at 2. rewrite Hlen. unfold number_of_partition. change CLUSTER_SIZE with 2048. pose proof (Z.mod_pos_bound (Zlen data) 2048).
    pose proof (Z.div_mod (Zlen data) 2048). destruct (Z.ltb_spec 0 (Zlen data mod 2048)); lia. }
  pose proof (image_repr (fread bytes ig) m (fread_ok _ _ Hb Hig)) as Hs. pose proof (fread_ok _ _ Hdb Hfg) as [_ Hfb].
  destruct (insert_shell _ _ m (fread data fg) (Zlen data) Hs Hm Hnot Hsz Hfb Hbuf) as (s' & v' & m' & e & ch & Hins & Hs' & Hf & Hsh & Hl & n & Hg).
  destruct (inserted_disk _ _ m (fread data fg) (Zlen data) s' v' m' Hs Hm Hnot Hsz Hfb Hbuf Hins Hs') as [Hshow Hfat].
  exists (<[storage := concat (Inserter.rows (dev s'))]> h), v', m', e, ch. split; [|split; [|split; [exact Hf|split; [exact Hsh|split; [exact Hfat|split; [|split]]]]]].
  - unfold main, inserter_command. cbn [length Nat.ltb Nat.leb].
    set (argv := [prog; shell_path; bytes_of_string "2"; storage]). change (arr_get argv 3) with (Ret storage).
    change (arr_get argv 1) with (Ret shell_path). change (arr_get argv 2) with (Ret (bytes_of_string "2")). clear argv.
    rewrite bind_ret, Hst. cbn [of_option]. rewrite bind_ret. rewrite bind_ret. unfold read_target. rewrite Hd. rewrite bind_ret.
    change (sscanf_u (bytes_of_string "2") 0) with (Ret 2). change (sscanf_s shell_path) with (Ret (padded 20 (bytes_of_string "shell"))).
    rewrite !bind_ret. assert (Hn : parse_file_name (padded 20 (bytes_of_string "shell")) (replicate 8 0) (replicate 3 0) =
      Ret (0, None, bytes_of_string "shell" ++ replicate 3 0, replicate 3 0)) by reflexivity.
    rewrite Hn, bind_ret. change 2 with ROOT_CLUSTER_NUMBER at 1. unfold image_fs in Hins. rewrite Hins, bind_ret. reflexivity.
  - eexists. split; [reflexivity|]. exact (image_back s' _ _ Hs').
  - assert (E : shell_map data (Zlen data) = shell_map (fread data fg) (Zlen data)); [|rewrite E; exact Hshow].
    unfold shell_map. unfold Zlen at 2 4. rewrite Nat2Z.id, take_fread, take_ge by first [exact Hfg|exact Hdl|reflexivity]. reflexivity.
  - unfold Zlen in Hl. by rewrite Nat2Z.id in Hl.
  - by exists n.
Qed.

(** ** The whole system *)

(** C1: From the host tool to a working shell: the command that inserts a
    program as [shell] into a blank image exits with 0 and reports success, and
    what it leaves in the storage file is a disk that the kernel boots from, whose
    system calls serve the commands of the shell.  A kernel that starts on the
    disk enters user mode at address 0 of an address space that holds the
    program; the start of [main] leaves the shell in the root of a disk that
    holds the one file.  A session of [cd], [mkdir], [rm], [cat] and [cp]
    commands made through interrupt 0x30, each of which is [admissible] when its
    turn comes, does to the map of files what its commands say
    ([session_steps]), and the disk of the machine holds that map at the end;
    or it never ends, which takes a [..] in a path.  Admissible are paths
    that fit the argument and the printed path, folders made in the root,
    removals of anything but a folder called as its parent folders are or the
    shell's own, buffers with a zero byte behind what [cat] prints, and files
    that [cp] can copy.  After any such session [exec] with a path to a
    program of the disk starts a process of it, and one of the next sixteen
    timer interrupts enters it (the buffer [exec] loads it by lies in the
    first page). *)
Theorem inserted_system_runs (h : host) prog storage bytes data ig fg m :
  h !! storage = Some bytes -> h !! shell_path = Some data -> bytes_ok bytes -> bytes_ok data -> storage_ok ig -> storage_ok fg ->
  driver_ok m -> ~ formatted (vol (image_fs (fread bytes ig) m)) -> 0 < Zlen data ≤ 0xFE800 ->
  exists h' v' m', main h (inserter_command prog storage) ig fg m = Ret (0, inserted_lines (Zlen data), h') /\
    host_after h storage v' h' /\ disk_shows v' m' (shell_map data (Zlen data)) /\
    forall D `{!BlockDevice D, !BlockDeviceSpec D, !PortIO D, !KernelHalf D, !SharedBus D} (k : machine D) m0 list_addr kernel_addr c stubs tss_addr ebp
      polls rounds (a : call_area) after t1 t2,
    directory_layout list_addr kernel_addr -> area_fits a -> 512 * 511 ≤ Zlen after ->
    procs (kern k) = procs_init -> pages (kern k) = paging_init c -> 0 < c < 2 ^ 30 -> ram_ok (umem (kern k)) ->
    gdt k = Gdt.global_descriptor_table -> idt k = Idt.interrupt_descriptor_table -> length stubs = 64%nat ->
    repr (Process.files (kern k)) v' m0 -> driver_ok m0 ->
    exists k' dir (Har : area_ok dir a),
      kernel_setup list_addr kernel_addr stubs tss_addr ebp k = Ret (SwitchTo (initial_context (directory_addr list_addr 0)), k') /\
      page_directory_list (pages (kern k')) !! 0%nat = Some dir /\
      (forall i b, 0 ≤ i -> data !! Z.to_nat i = Some b -> load dir (umem (kern k')) i = Ret b) /\
      let calls := user_calls list_addr kernel_addr polls rounds a in
      let server := user_files list_addr kernel_addr polls rounds a dir Har in
      exists sh, shell_start (fresh_shell k' after t1 t2) = Ret sh /\ serves sh (shell_map data (Zlen data)) /\
        (buf_at a ≤ PAGE_FRAME_SIZE -> executes list_addr kernel_addr polls rounds a dir Har sh (shell_map data (Zlen data))).
Proof.
  intros Hst Hd Hb Hdb Hig Hfg Hm Hnot Hsz.
  destruct (main_inserts_shell h prog storage bytes data ig fg m Hst Hd Hb Hdb Hig Hfg Hm Hnot Hsz)
    as (h' & v' & m' & e & ch & Hrun & Hafter & Hf & Hsh & Hfat & Hshow & Hlen & n & Hdata).
  exists h', v', m'. split; [exact Hrun|]. split; [exact Hafter|]. split; [exact Hshow|].
  intros D ? ? ? ? ? k m0 la ka c stubs ta ebp polls rounds a after t1 t2 Hlay Ha Haf Hp Hg Hc Hram Hgdt Hidt Hstub Hk Hm0.
  pose proof (shows_driver v' m' m0 _ Hshow Hm0) as Hd0. rewrite Hfat in Hd0.
  destruct (boot_serves la ka Hlay polls rounds a Ha v' e ch Hsh k m0 c stubs ta ebp _ after t1 t2 Hp Hg Hc Hgdt Hidt Hstub Hk Hf Hram Hd0 Haf)
    as (k' & dir & Har & Hset & Hdir & Hmem & Hserve).
  exists k', dir, Har. split; [exact Hset|]. split; [exact Hdir|]. split; [|exact Hserve]. intros i b Hi Hbyte. apply Hmem; [exact Hi|].
  rewrite Hdata in Hlen |- *. rewrite length_take in Hlen. assert (Hlt : (Z.to_nat i < length data)%nat) by (by apply lookup_lt_Some in Hbyte).
  rewrite lookup_take_lt by lia. assert (Hdl : (length data ≤ 512 * STORAGE_ROWS)%nat) by (pose proof storage_rows; unfold Zlen in Hsz; lia).
  rewrite <- (take_fread data fg Hfg Hdl) in Hbyte. rewrite lookup_take_lt in Hbyte by exact Hlt. exact Hbyte.
Qed.
