(* ===== verification/ShellWitness.v ===== *)
(** * A concrete terminal

    A disk with the driver of fat32.c, keys still to be typed and the text
    printed so far: the system calls of the shell without processes.  Its file
    calls are those of Fat32, so it is a [FileServer], and the shell's theorems
    are applied to it on a freshly formatted disk. *)
From stdpp Require Import gmap.
From S2P Require Import Prelude CString BlockDevice FatLayout Fat32 FatFacts FatChain FatLoops FatSpec FatRefine FatWrite FatMount FatContract FatProps FatInvariant FatLimits FatWitness.
From S2P Require Import DirTree DiskTree DiskRemove DiskMap DiskProps.
From S2P Require Import ShellBase Shell ShellPath ShellFiles ShellCommands ShellMove ShellFacts ShellLine ShellSplit ShellNames ShellWalk ShellCd ShellMkdir ShellRm ShellCat ShellCp ShellSession ShellListing ShellMv.

Record terminal := MkTerminal {
  disk : fs Inserter.image;
  typed_ahead : list Z;
  output : list (list Z * Z)
}.

Definition set_disk (k : terminal) (f : fs Inserter.image) : terminal := MkTerminal f (typed_ahead k) (output k).

#[export] Instance terminal_calls : SysCalls terminal := {
  sys_read k rq := '(r, b, f) ← read (disk k) rq; Ret (r, b, set_disk k f);
  sys_read_directory k rq := '(r, b, f) ← read_directory (disk k) rq; Ret (r, b, set_disk k f);
  sys_write k rq := '(r, f) ← write (disk k) rq; Ret (r, set_disk k f);
  sys_delete k rq := '(r, f) ← Delete (disk k) rq; Ret (r, set_disk k f);
  sys_key k := Ret (default 0 (head (typed_ahead k)), MkTerminal (disk k) (tail (typed_ahead k)) (output k));
  sys_puts k str color := Ret (MkTerminal (disk k) (typed_ahead k) (output k ++ [(str, color)]));
  sys_keyboard_on k := Ret k;
  sys_clear k := Ret (MkTerminal (disk k) (typed_ahead k) []);
  sys_read_cluster k c := '(b, f) ← read_clusters (disk k) c 1; Ret (b, set_disk k f);
  sys_write_cluster k b c := f ← write_clusters (disk k) b c 1; Ret (set_disk k f);
  sys_exec k rq := Ret (-1, k);
  sys_ps k := Ret k;
  sys_kill k pid := Ret (-1, k);
  sys_clock k := Ret k
}.

#[export, program] Instance terminal_files : FileServer terminal := { sees k v m := repr (disk k) v m }.
Next Obligation. intros k v m. apply repr_length. Qed.
Next Obligation. intros k v m c. apply repr_block. Qed.
Next Obligation. intros k v m str color Hk _. by eexists. Qed.
Next Obligation.
  intros k v m c Hk Hc. destruct (read_clusters_repr (disk k) v m c Hk Hc) as (f & Hf & Hr). exists (set_disk k f).
  split; [|exact Hr]. unfold sys_read_cluster, terminal_calls. by rewrite Hf.
Qed.
Next Obligation.
  intros k v m rq Hk Hrq Hp Hb _ _ Hback. destruct (read_directory_correct (disk k) v m rq Hk Hrq Hp Hb Hback) as (f & Hr & Hf).
  exists (set_disk k f). split; [|exact Hr]. unfold sys_read_directory, terminal_calls. rewrite Hf. by destruct (spec_read_directory v rq).
Qed.
Next Obligation.
  intros k v m rq Hk Hm Ha Hlit _. destruct (write_correct (disk k) v m rq Hk Hm Ha Hlit) as (f & Hf & Hr).
  exists (set_disk k f). split; [|exact Hr]. unfold sys_write, terminal_calls. by rewrite Hf.
Qed.
Next Obligation.
  intros k v m rq Hk Hm Ha Hlit _. pose proof (write_outcome (disk k) v m rq Hk Hm Ha) as H. rewrite Hlit in H.
  unfold sys_write, terminal_calls. by rewrite H.
Qed.
Next Obligation.
  intros k v m rq Hk Hrq Hp _ _ Hback. destruct (read_correct (disk k) v m rq Hk Hrq Hp Hback) as (f & Hr & Hf).
  exists (set_disk k f). split; [|exact Hr]. unfold sys_read, terminal_calls. rewrite Hf. by destruct (spec_read v (fat_table m) rq).
Qed.
Next Obligation.
  intros k v m rq Hk Hm Hrq Hp _ _ Hback. destruct (Delete_correct (disk k) v m rq Hk Hm Hrq Hp Hback) as (f & Hf & Hr).
  exists (set_disk k f). split; [|exact Hr]. unfold sys_delete, terminal_calls. by rewrite Hf.
Qed.

#[export, program] Instance terminal_clusters : ClusterServer terminal.
Next Obligation.
  intros k v m c bs Hk Hc Hb. destruct (write_block_repr (disk k) v m bs c Hk Hc Hb) as (f & Hf & Hr).
  exists (set_disk k f). split; [|exact Hr]. unfold sys_write_cluster, terminal_calls. by rewrite Hf.
Qed.

#[export, program] Instance terminal_keyboard : Keyboard terminal := { pending := typed_ahead }.
Next Obligation. intros k c cs H. eexists. cbn. by rewrite H. Qed.

Lemma get_input_edits_witness :
  exists k', get_input 9 (MkTerminal demo_boot (bytes_of_string "lx" ++ [8; 0] ++ bytes_of_string "s" ++ [10]) []) (replicate 2048 0) =
    Ret (padded 2048 (bytes_of_string "ls"), k') /\ pending k' = [].
Proof.
  destruct (get_input_edits (MkTerminal demo_boot (bytes_of_string "lx" ++ [8; 0] ++ bytes_of_string "s" ++ [10]) [])
    (bytes_of_string "lx" ++ [8; 0] ++ bytes_of_string "s") [] 9) as (k' & Hk & Hp).
  - reflexivity.
  - apply (bool_decide_unpack _). by vm_compute.
  - intros i. do 6 (destruct i as [|i]; [apply Nat.ltb_lt; reflexivity|]). apply Nat.ltb_lt. reflexivity.
  - apply Nat.ltb_lt. reflexivity.
  - by exists k'.
Defined.

(** ** The tree of a fresh disk *)

Lemma demo_root_is : root_directory !! 0%nat = Some (new_entry empty_entry (take 8 root_literal) (take 3 no_ext) ATTR_SUBDIRECTORY 2 0).
Proof. by vm_compute. Qed.

Lemma demo_root_empty : drop 2 root_directory = replicate 62 empty_entry.
Proof. by vm_compute. Qed.

Lemma demo_located ns c : located demo_vol ns c -> ns = [] /\ c = ROOT_CLUSTER_NUMBER.
Proof.
  induction 1 as [|ns p e Hl [-> ->] He Ha]; [done|]. rewrite demo_root_table, demo_root_empty in He. by apply elem_of_replicate in He as [-> _].
Qed.

Lemma demo_tree : tree_ok demo_vol (fat_table demo_drv).
Proof.
  split; [rewrite demo_root_table; eexists; split; [apply demo_root_is|done]|].
  intros ns p e [-> ->]%demo_located He Ha. rewrite demo_root_table, demo_root_empty in He. by apply elem_of_replicate in He as [-> _].
Qed.

Definition demo_shell (f : fs Inserter.image) (after : list Z) : shell terminal :=
  MkShell (MkTerminal f [] []) ROOT_CLUSTER_NUMBER (padded 512 (render [])) after root_directory root_directory.

(** The stack behind the path is as long as [change_path] reads. *)
Definition stack_after : list Z := replicate (Z.to_nat (512 * 511)) 0.

Lemma stack_long : 512 * 511 ≤ Zlen stack_after.
Proof. unfold stack_after, Zlen. rewrite length_replicate. lia. Qed.

#[global] Opaque stack_after.

Lemma demo_settled f : repr f demo_vol demo_drv -> settled demo_vol demo_drv (demo_shell f stack_after) [].
Proof. intros Hf. split; [exact Hf|done|exact (eq_sym demo_root_table)|constructor|simpl; lia|apply stack_long]. Qed.

(** ** A folder [docs] *)

Definition docs : list Z := bytes_of_string "docs".
Definition docs_rq : FAT32DriverRequest := folder_rq docs ROOT_CLUSTER_NUMBER.
Definition docs_vol : volume := (spec_write_folder demo_vol demo_drv docs_rq).1.
Definition docs_drv : driver := (spec_write_folder demo_vol demo_drv docs_rq).2.

Lemma docs_written : spec_write demo_vol demo_drv docs_rq = (0, (docs_vol, docs_drv)).
Proof.
  unfold spec_write. cbv zeta. change (parent_cluster_number docs_rq) with ROOT_CLUSTER_NUMBER. rewrite demo_root_table, demo_dir, demo_root_empty.
  cbn [negb]. replace (lookup_first _ (replicate 62 empty_entry)) with (@None FAT32DirectoryEntry) by (by vm_compute).
  rewrite decide_False by (by vm_compute). change (buffer_size docs_rq =? 0) with true. cbv iota.
  replace (free_clusters (fat_table demo_drv) =? 0) with false by (by vm_compute).
  unfold docs_vol, docs_drv. by destruct (spec_write_folder demo_vol demo_drv docs_rq).
Qed.

Lemma docs_name : typed_name docs.
Proof. split; [by repeat constructor|]. split; [by apply bytes_dec|by apply Nat.ltb_lt]. Qed.

Lemma docs_entry : exists e0, table_at docs_vol ROOT_CLUSTER_NUMBER =
  <[new_slot root_directory := new_entry e0 (name8 docs) (replicate 3 0) ATTR_SUBDIRECTORY 3 0]> root_directory.
Proof.
  destruct demo_repr as (f & _ & Hf).
  destruct (parent_table demo_vol demo_drv docs_rq (repr_length _ _ _ Hf) (fun c => repr_block f _ _ c Hf) demo_mounted
    (wa_request _ _ (folder_rq_ok demo_drv docs ROOT_CLUSTER_NUMBER docs_name ltac:(done))) demo_tree [] (located_root demo_vol)) as (e0 & _ & _ & Ht).
  - change (parent_cluster_number docs_rq) with ROOT_CLUSTER_NUMBER. rewrite demo_root_table. by vm_compute.
  - by vm_compute.
  - apply name8_folder; [done|apply docs_name|]. apply (bool_decide_unpack _). by vm_compute.
  - exists e0. change (parent_cluster_number docs_rq) with ROOT_CLUSTER_NUMBER in Ht. rewrite demo_first_free, demo_root_table in Ht. exact Ht.
Qed.

Lemma follow_docs : follow docs_vol [docs] ROOT_CLUSTER_NUMBER [] = Arrived 3 [docs].
Proof.
  destruct docs_entry as (e0 & Ht). cbn [follow]. rewrite decide_False by done. rewrite decide_False by done. rewrite Ht.
  change (new_slot root_directory) with (2 + first_idx free_slot (drop 2 root_directory))%nat. rewrite demo_root_empty.
  change (first_idx free_slot (replicate 62 empty_entry)) with 0%nat. rewrite drop_insert_ge by lia.
  rewrite demo_root_empty. cbn [Nat.add Nat.sub]. change (<[0%nat := ?x]> (replicate 62 empty_entry)) with (x :: replicate 61 empty_entry).
  unfold lookup_first. cbn [first_idx]. unfold has_name at 1 2. cbn [name new_entry]. rewrite bool_decide_true by done. cbn [lookup list_lookup attribute new_entry].
  change (ATTR_SUBDIRECTORY =? ATTR_SUBDIRECTORY) with true. cbv iota. rewrite entry_cluster_new by (unfold is_word; lia).
  cbn [follow app]. reflexivity.
Qed.

Lemma mkdir_makes_folder_witness :
  exists s s', mkdir s (padded 512 docs) 1 = Ret s' /\ settled docs_vol docs_drv s' [] /\ located docs_vol [docs] 3.
Proof.
  destruct demo_repr as (f & _ & Hf).
  pose proof (mkdir_makes_folder demo_vol demo_drv (demo_shell f stack_after) [] docs [] docs (demo_settled f Hf) demo_mounted demo_tree) as H.
  destruct docs_name as (Hn & Hb & Hl).
  specialize (H Hn Hb Hl eq_refl ltac:(done) ltac:(simpl; lia)).
  cbv zeta in H. rewrite decide_False in H by (apply (bool_decide_unpack _); by vm_compute). change (is_absolute docs) with false in H. cbn [follow] in H.
  change (current_directory (demo_shell f stack_after)) with ROOT_CLUSTER_NUMBER in H. fold docs_rq in H.
  rewrite root_no_overrun in H by reflexivity. rewrite docs_written in H.
  destruct H as (s' & Hmk & Hset & _ & _ & _ & Hnew). exists (demo_shell f stack_after), s'. split; [exact Hmk|]. split; [exact Hset|].
  specialize (Hnew eq_refl). rewrite demo_first_free in Hnew. exact Hnew.
Defined.

Lemma docs_tree : tree_ok docs_vol (fat_table docs_drv).
Proof.
  destruct demo_repr as (f & _ & Hf).
  pose proof (write_folder_tree demo_vol demo_drv (MkTerminal f [] []) docs ROOT_CLUSTER_NUMBER [] Hf demo_mounted demo_tree (located_root _) docs_name) as H.
  fold docs_rq in H. rewrite docs_written in H. apply H. apply name8_folder; [done|apply docs_name|]. apply (bool_decide_unpack _). by vm_compute.
Qed.

Lemma cd_follows_witness :
  exists s s', cd s (padded 512 docs) 1 = Ret s' /\ settled docs_vol docs_drv s' [docs] /\ current_directory s' = 3.
Proof.
  destruct demo_repr as (f & _ & Hf).
  destruct (write_correct f demo_vol demo_drv docs_rq Hf demo_mounted (folder_rq_ok demo_drv docs ROOT_CLUSTER_NUMBER docs_name ltac:(done))
    (root_no_overrun _ _ docs_rq eq_refl)) as (f' & _ & Hf'). rewrite docs_written in Hf'. cbn [fst snd] in Hf'.
  destruct docs_name as (Hn & Hb & Hl).
  set (s := MkShell (MkTerminal f' [] []) ROOT_CLUSTER_NUMBER (padded 512 (render [])) stack_after (table_at docs_vol ROOT_CLUSTER_NUMBER) root_directory).
  assert (Hs : settled docs_vol docs_drv s []) by (split; [exact Hf'|done|done|constructor|simpl; lia|apply stack_long]).
  pose proof (cd_follows docs_vol docs_drv docs_tree s [] docs Hs Hn Hb Hl ltac:(simpl; lia)) as H.
  cbv zeta in H. change (is_absolute docs) with false in H. change (path_names docs) with [docs] in H.
  change (current_directory s) with ROOT_CLUSTER_NUMBER in H. cbv iota in H. rewrite follow_docs in H.
  destruct H as (s' & Hcd & Hset & Hc). exists s, s'. split; [exact Hcd|]. split; [exact Hset|exact Hc].
Defined.

Lemma docs_argument : argument docs.
Proof. destruct docs_name as (Hn & Hb & Hl). exact (conj Hn (conj Hb Hl)). Qed.

Lemma no_climb (P : Prop) cs : Exists climbs cs -> Forall (fun c => ~ climbs c) cs -> P.
Proof. intros H1 H2. apply Exists_exists in H1 as (c & Hc & Hx). rewrite Forall_forall in H2. by destruct (H2 c Hc). Qed.

Lemma docs_no_climb : bytes_of_string ".." ∉ path_names docs.
Proof. apply (bool_decide_unpack _). by vm_compute. Qed.

Lemma not_climbing w : bytes_of_string ".." ∉ path_names w -> ~ Exists (fun w => bytes_of_string ".." ∈ path_names w) [w].
Proof. intros H Hx. apply Exists_cons in Hx as [|Hx]; [done|]. by apply Exists_nil in Hx. Qed.

Lemma demo_in_order f : repr f demo_vol demo_drv -> in_order demo_vol demo_drv blank_map (demo_shell f stack_after) [].
Proof. intros Hf. split; [exact (demo_settled f Hf)|exact demo_shows]. Qed.

Definition root_docs : list Z := bytes_of_string "/docs".

Lemma root_docs_argument : argument root_docs.
Proof. split; [by repeat constructor|]. split; [by apply bytes_dec|by apply Nat.ltb_lt]. Qed.

Lemma docs_plain : Forall plain [Mkdir root_docs; Cd docs].
Proof.
  apply Forall_cons. split; [split; [apply Forall_singleton, root_docs_argument|]|apply Forall_singleton; split; [apply Forall_singleton, docs_argument|done]].
  split; [reflexivity|]. exists docs. split; [reflexivity|done].
Qed.

Lemma docs_session_comes_back (P : Prop) : Exists climbs [Mkdir root_docs; Cd docs] -> P.
Proof.
  intros Hup. apply (no_climb _ _ Hup). apply Forall_cons. split; [|apply Forall_singleton]; apply not_climbing; [|apply docs_no_climb].
  apply (bool_decide_unpack _). by vm_compute.
Qed.

Lemma session_keeps_tree_witness :
  exists s s' v' m' d' ns', run_commands s [Mkdir root_docs; Cd docs] = Ret s' /\ in_order v' m' d' s' ns'.
Proof.
  destruct demo_repr as (f & _ & Hf). exists (demo_shell f stack_after).
  destruct (session_keeps_tree [Mkdir root_docs; Cd docs] demo_vol demo_drv blank_map (demo_shell f stack_after) [] (demo_in_order f Hf) docs_plain) as [[_ Hup]|H]; [..|exact H].
  - apply Nat.leb_le. reflexivity.
  - exact (docs_session_comes_back _ Hup).
Defined.

(** ** A disk with the file [notes.txt] *)

Definition notes : list Z := bytes_of_string "notes.txt".
Definition notes_text : list Z := take 2000 demo_data.
Definition notes_map : disk_map := with_files blank_map (<[key_of demo_file := notes_text]> ∅).

Lemma notes_shows : disk_shows demo_vol2 demo_drv2 notes_map.
Proof.
  destruct demo_shows as [Hm [cs Hd] Hh]. destruct demo_repr as (f & _ & Hf).
  destruct (write_step demo_vol demo_drv blank_map demo_file (repr_length _ _ _ Hf) (fun c => repr_block f _ _ c Hf) Hm Hh cs Hd demo_file_ok [] (located_root _)
    ltac:(by vm_compute) _ demo_spec_write demo_write_args) as (d' & Hsh & Hst); [discriminate|]. cbn [fst snd] in Hsh, Hst.
  destruct (demo_written _ _ _ Hst) as (_ & _ & ->); [discriminate|]. exact Hsh.
Qed.

Definition notes_shell (f : fs Inserter.image) : shell terminal :=
  MkShell (MkTerminal f [] []) ROOT_CLUSTER_NUMBER (padded 512 (render [])) stack_after (table_at demo_vol2 ROOT_CLUSTER_NUMBER) root_directory.

Lemma notes_settled f : repr f demo_vol2 demo_drv2 -> settled demo_vol2 demo_drv2 (notes_shell f) [].
Proof. intros Hf. split; [exact Hf|done|done|constructor|simpl; lia|apply stack_long]. Qed.

Lemma notes_argument : argument notes.
Proof. split; [by repeat constructor|]. split; [by apply bytes_dec|by apply Nat.ltb_lt]. Qed.

Lemma notes_free : ~ reserved_name demo_vol2 ROOT_CLUSTER_NUMBER notes.
Proof.
  intros (e & He & Hm). rewrite demo_table2 in He.
  assert (H : forallb (fun e => negb (matches (name8 (before_dot notes)) (name3 (extension notes)) e)) (take 2 (add_entry root_directory demo_file 0 3)) = true) by (by vm_compute).
  rewrite forallb_forall in H. apply list_elem_of_In, H in He. by rewrite Hm in He.
Qed.

Lemma notes_known b : files notes_map !! key_of (read_rq notes ROOT_CLUSTER_NUMBER b) = Some notes_text.
Proof. change (key_of (read_rq notes ROOT_CLUSTER_NUMBER b)) with (key_of demo_file). apply lookup_insert_eq. Qed.

Lemma notes_no_folder rq c : parent_cluster_number rq = ROOT_CLUSTER_NUMBER -> ~ sub_folder notes_map rq c.
Proof.
  intros Hp (ns & H1 & H2). rewrite Hp in H1. cbn [notes_map with_files paths blank_map] in H1, H2.
  apply lookup_singleton_Some in H1 as [_ <-]. by apply lookup_singleton_Some in H2 as [_ H2].
Qed.

(** A blank stack under the buffer. *)
Definition blank_buffer : list Z := replicate (Z.to_nat (2048 * 33)) 0.

Lemma blank_length : length blank_buffer = Z.to_nat (2048 * 33).
Proof. apply length_replicate. Qed.

Lemma blank_lookup i : (i < Z.to_nat (2048 * 33))%nat -> blank_buffer !! i = Some 0.
Proof. intros H. by apply lookup_replicate_2. Qed.

Lemma blank_bytes : bytes_ok blank_buffer.
Proof. by apply Forall_replicate. Qed.

#[global] Opaque blank_buffer.

Lemma blank_is_buffer : cluster_buffer blank_buffer.
Proof.
  split; [|exact blank_bytes]. unfold Zlen. rewrite blank_length. unfold BUFFER_LIMIT, BUFFER_CLUSTERS. change CLUSTER_SIZE with 2048. lia.
Qed.

Lemma blank_zero k : (k < Z.to_nat (2048 * 33))%nat -> 0 ∈ drop k blank_buffer.
Proof. intros H. apply elem_drop. exists k. split; [lia|]. by apply blank_lookup. Qed.

Lemma notes_size : Zlen notes_text = 2000.
Proof. by vm_compute. Qed.

Lemma notes_copies : copies demo_drv2 notes_text blank_buffer.
Proof.
  unfold copies. rewrite notes_size. change (Z.to_nat (number_of_partition 2000)) with 1%nat. split; [by vm_compute|]. split; [|split].
  - intros j Hj. assert (j = 0%nat) as -> by lia. exists 0%nat, 65. split; [lia|]. by vm_compute.
  - intros i Hi. apply blank_lookup. lia.
  - intros _. by vm_compute.
Qed.

(** Of the steps for a removal only one fits a file that is there. *)
Lemma file_gone d rq code out d' : disk_step d (Remove rq) code out d' -> is_Some (files d !! key_of rq) -> (forall c, ~ sub_folder d rq c) ->
  code = 0 /\ d' = with_files d (delete (key_of rq) (files d)).
Proof. intros Hst [data Hd] Hno. inversion Hst; subst; try congruence; try (exfalso; by eapply Hno). exact (conj eq_refl eq_refl). Qed.

Lemma rm_removes_witness : exists s s' v' m', rm s (padded 512 notes) 1 = Ret s' /\ settled v' m' s' [] /\
  disk_shows v' m' (with_files notes_map (delete (key_of demo_file) (files notes_map))).
Proof.
  destruct demo_repr2 as (f & Hf). destruct notes_argument as (Hn & Hb & Hl).
  pose proof (rm_removes demo_vol2 demo_drv2 notes_map (notes_shell f) [] notes [] notes (notes_settled f Hf) notes_shows Hn Hb Hl eq_refl) as H.
  specialize (H ltac:(by vm_compute) ltac:(apply Nat.leb_le; reflexivity)). change (is_absolute notes) with false in H. cbn [follow] in H.
  change (current_directory (notes_shell f)) with ROOT_CLUSTER_NUMBER in H.
  destruct (H notes_free) as (code & v' & m' & d' & s' & Hrun & Hs' & _ & Hd' & Hst & _); [done|].
  destruct (file_gone _ _ _ _ _ Hst) as [_ ->]; [exists notes_text; exact (notes_known [])|intros c; by apply notes_no_folder|].
  exists (notes_shell f), s', v', m'. exact (conj Hrun (conj Hs' Hd')).
Defined.

#[export, program] Instance terminal_screen : Screen terminal := { shown := output }.
Next Obligation. intros k str color k' H. by injection H as <-. Qed.
Next Obligation. intros k rq code out k' H. cbn in H. by invert_ret H. Qed.
Next Obligation. intros k rq code out k' H. cbn in H. by invert_ret H. Qed.
Next Obligation. intros k c bs k' H. cbn in H. by invert_ret H. Qed.

Lemma cat_prints_witness : exists s s' rest, cat s (padded 512 notes) 1 blank_buffer = Ret s' /\
  shown (sys s') = [(notes_text ++ rest, WHITE); ([10], WHITE)].
Proof.
  destruct demo_repr2 as (f & Hf). destruct notes_argument as (Hn & Hb & Hl).
  destruct (cat_prints demo_vol2 demo_drv2 notes_map (notes_shell f) [] notes [] notes blank_buffer ROOT_CLUSTER_NUMBER [] notes_text (notes_settled f Hf) notes_shows Hn Hb Hl eq_refl)
    as (s' & rest & Hrun & _ & Hshown).
  - by vm_compute.
  - by vm_compute.
  - apply Nat.leb_le. reflexivity.
  - exact blank_is_buffer.
  - reflexivity.
  - exact notes_free.
  - apply notes_known.
  - rewrite notes_size. by vm_compute.
  - intros c. by apply notes_no_folder.
  - right. apply blank_zero. rewrite notes_size. apply Nat.ltb_lt. by vm_compute.
  - exists (notes_shell f), s', rest. split; [exact Hrun|]. rewrite Hshown. rewrite decide_False; [reflexivity|]. apply (bool_decide_unpack _). by vm_compute.
Defined.

(** The folder has one entry in use. *)
Lemma ls_lists_witness : exists s s', ls s 0 = Ret s' /\
  shown (sys s') = [(bytes_of_string "notes", WHITE); (bytes_of_string ".", WHITE); (bytes_of_string "txt", WHITE); ([10], WHITE)].
Proof.
  destruct demo_repr2 as (f & Hf). pose proof (ls_lists demo_vol2 demo_drv2 notes_map (notes_shell f) [] (notes_settled f Hf) notes_shows) as H.
  cbv zeta in H. change (current_directory (notes_shell f)) with ROOT_CLUSTER_NUMBER in H. rewrite demo_table2 in H.
  destruct H as ((s' & Hrun & _ & _ & Hshown) & _).
  - apply (bool_decide_unpack _). by vm_compute.
  - exists (notes_shell f), s'. split; [exact Hrun|]. rewrite Hshown. by vm_compute.
Defined.

Lemma notes_located ns c : located demo_vol2 ns c -> ns = [] /\ c = ROOT_CLUSTER_NUMBER.
Proof.
  induction 1 as [|ns p e Hl [-> ->] He Ha]; [done|]. rewrite demo_table2 in He. exfalso.
  assert (H : Forall (fun e => attribute e ≠ ATTR_SUBDIRECTORY) (drop 2 (add_entry root_directory demo_file 0 3))) by (apply (bool_decide_unpack _); by vm_compute).
  rewrite Forall_forall in H. exact (H e He Ha).
Qed.

(** The root is the only folder. *)
Lemma notes_searched P V : Forall2 (located demo_vol2) P V -> NoDup V -> head V = Some ROOT_CLUSTER_NUMBER -> P = [[]] /\ V = [ROOT_CLUSTER_NUMBER].
Proof.
  intros HP Hnd Hhd. destruct HP as [|ns c P V [-> ->]%notes_located HP]; [done|]. destruct HP as [|ns c P V [-> ->]%notes_located HP]; [done|].
  exfalso. apply NoDup_cons in Hnd as [H _]. apply H, elem_of_cons. by left.
Qed.

Lemma find_searches_witness : exists s s', find s (padded 512 (take 5 notes)) 1 (replicate 2048 0) = Ret s' /\
  shown (sys s') = found_line (bytes_of_string "root") [] (take 5 notes).
Proof.
  destruct demo_repr2 as (f & Hf). destruct notes_shows as [_ [cs Hd] _].
  destruct (find_searches demo_vol2 demo_drv2 cs (notes_shell f) [] (take 5 notes) (notes_settled f Hf) Hd) as (s' & P & Hrun & _ & _ & Hsh & HP & Hnd & Hhd & _).
  - by repeat constructor.
  - by apply Nat.ltb_lt.
  - intros ns c [-> ->]%notes_located. rewrite demo_table2. apply (bool_decide_unpack _). by vm_compute.
  - destruct (notes_searched _ _ HP Hnd Hhd) as [-> HV]. rewrite HV in Hsh. exists (notes_shell f), s'. split; [exact Hrun|]. rewrite Hsh.
    unfold lines_for, root_label. cbn [zip_with sum_list_with concat]. rewrite demo_table2. by vm_compute.
Defined.

Definition memo : list Z := bytes_of_string "memo".

Lemma mv_renames_witness : exists s s' v', mv s (padded 512 (take 5 notes)) (padded 512 memo) 2 false = Ret s' /\ settled v' demo_drv2 s' [] /\
  disk_shows v' demo_drv2 (renamed_map notes_map ROOT_CLUSTER_NUMBER (name8 (take 5 notes)) (name8 memo) (bytes_of_string "txt") notes_text).
Proof.
  destruct demo_repr2 as (f & Hf). exists (notes_shell f).
  destruct (mv_renames demo_vol2 demo_drv2 notes_map (notes_shell f) [] (take 5 notes) (take 5 notes) memo memo (bytes_of_string "txt") notes_text false
    (notes_settled f Hf) notes_shows) as (v' & s' & Hrun & Hs' & _ & Hd').
  - exact root_directory_ok.
  - by repeat constructor.
  - by apply Nat.ltb_lt.
  - reflexivity.
  - reflexivity.
  - discriminate.
  - by repeat constructor.
  - by apply bytes_dec.
  - by apply Nat.ltb_lt.
  - reflexivity.
  - reflexivity.
  - apply (bool_decide_unpack _). by vm_compute.
  - exact (notes_known []).
  - change (current_directory (notes_shell f)) with ROOT_CLUSTER_NUMBER. rewrite demo_table2. apply (bool_decide_unpack _). by vm_compute.
  - change (current_directory (notes_shell f)) with ROOT_CLUSTER_NUMBER. rewrite demo_table2. apply (bool_decide_unpack _). by vm_compute.
  - change (current_directory (notes_shell f)) with ROOT_CLUSTER_NUMBER. rewrite demo_table2. by vm_compute.
  - exists s', v'. split; [exact Hrun|]. split; [exact Hs'|exact Hd'].
Defined.

(** ** The folder [docs] beside the file *)

Definition both_vol : volume := (spec_write_folder demo_vol2 demo_drv2 docs_rq).1.
Definition both_drv : driver := (spec_write_folder demo_vol2 demo_drv2 docs_rq).2.

Lemma both_written : spec_write demo_vol2 demo_drv2 docs_rq = (0, (both_vol, both_drv)).
Proof.
  unfold spec_write. cbv zeta. change (parent_cluster_number docs_rq) with ROOT_CLUSTER_NUMBER. rewrite demo_table2.
  replace (is_dir (add_entry root_directory demo_file 0 3)) with true by (by vm_compute).
  cbn [negb]. replace (lookup_first _ (drop 2 (add_entry root_directory demo_file 0 3))) with (@None FAT32DirectoryEntry) by (by vm_compute).
  rewrite decide_False by (by vm_compute). change (buffer_size docs_rq =? 0) with true. cbv iota.
  replace (free_clusters (fat_table demo_drv2) =? 0) with false by (by vm_compute).
  unfold both_vol, both_drv. by destruct (spec_write_folder demo_vol2 demo_drv2 docs_rq).
Qed.

Lemma both_repr : exists f, repr f both_vol both_drv.
Proof.
  destruct demo_repr2 as (f & Hf).
  destruct (write_correct f demo_vol2 demo_drv2 docs_rq Hf demo_mounted2 (folder_rq_ok demo_drv2 docs ROOT_CLUSTER_NUMBER docs_name ltac:(done))
    (root_no_overrun _ _ docs_rq eq_refl)) as (f' & _ & Hf'). rewrite both_written in Hf'. by exists f'.
Qed.

Lemma both_shows : exists c, disk_shows both_vol both_drv (with_paths notes_map (<[c := [docs]]> (paths notes_map))).
Proof.
  destruct demo_repr2 as (f & Hf). destruct docs_name as (Hn & Hb & Hl).
  assert (Hk : sees (MkTerminal f [] []) demo_vol2 demo_drv2) by exact Hf.
  destruct (folder_call demo_vol2 demo_drv2 notes_map (MkTerminal f [] []) docs ROOT_CLUSTER_NUMBER [] Hk notes_shows (located_root _) docs_name) as (d' & Hsh & Hst).
  - done.
  - apply (bool_decide_unpack _). by vm_compute.
  - apply (bool_decide_unpack _). by vm_compute.
  - fold docs_rq in Hsh, Hst. rewrite both_written in Hsh, Hst. cbn [fst snd] in Hsh, Hst.
    inversion Hst as [|rq ns c Hz Hp Hc| | | | | | | | | | |]; subst; [done|]. exists c.
    change (parent_cluster_number docs_rq) with ROOT_CLUSTER_NUMBER in Hp. change (paths notes_map) with (paths blank_map) in Hp. cbn [blank_map paths] in Hp. apply lookup_singleton_Some in Hp as [_ <-]. exact Hsh.
Qed.

Lemma both_follow : follow both_vol [docs] ROOT_CLUSTER_NUMBER [] = Arrived 4 [docs].
Proof. by vm_compute. Qed.

Lemma both_free : ~ reserved_name both_vol ROOT_CLUSTER_NUMBER notes.
Proof.
  intros (e & He & Hm).
  assert (H : forallb (fun e => negb (matches (name8 (before_dot notes)) (name3 (extension notes)) e)) (take 2 (table_at both_vol ROOT_CLUSTER_NUMBER)) = true) by (by vm_compute).
  rewrite forallb_forall in H. apply list_elem_of_In, H in He. by rewrite Hm in He.
Qed.

Lemma both_no_folder c x : ~ sub_folder (with_paths notes_map (<[c := [docs]]> (paths notes_map))) (read_rq notes ROOT_CLUSTER_NUMBER blank_buffer) x.
Proof.
  intros (ns & _ & H). cbn [with_paths paths] in H. change (req_name (read_rq notes ROOT_CLUSTER_NUMBER blank_buffer)) with (name8 (before_dot notes)) in H.
  destruct (decide (c = x)) as [->|Hne].
  - rewrite lookup_insert_eq in H. injection H as H. destruct ns as [|n ns]; [|by destruct ns]. discriminate H.
  - rewrite lookup_insert_ne in H by exact Hne. change (paths notes_map) with (paths blank_map) in H. cbn [blank_map paths] in H.
    apply lookup_singleton_Some in H as [_ H]. by destruct ns.
Qed.

Lemma both_copies : copies both_drv notes_text blank_buffer.
Proof.
  destruct notes_copies as (H1 & H2 & H3 & _). refine (conj H1 (conj H2 (conj H3 _))). intros _. by vm_compute.
Qed.

Definition both_shell (f : fs Inserter.image) : shell terminal :=
  MkShell (MkTerminal f [] []) ROOT_CLUSTER_NUMBER (padded 512 (render [])) stack_after (table_at both_vol ROOT_CLUSTER_NUMBER) root_directory.

Lemma both_settled f : repr f both_vol both_drv -> settled both_vol both_drv (both_shell f) [].
Proof. intros Hf. split; [exact Hf|done|done|constructor|simpl; lia|apply stack_long]. Qed.


Lemma session_refines_map_witness : exists s s' v' m' d' ns', run_commands s [Mkdir root_docs; Cd docs] = Ret s' /\ in_order v' m' d' s' ns' /\
  session_steps s blank_map [Mkdir root_docs; Cd docs] s' d'.
Proof.
  destruct demo_repr as (f & _ & Hf). exists (demo_shell f stack_after).
  destruct (session_refines_map [Mkdir root_docs; Cd docs] demo_vol demo_drv blank_map (demo_shell f stack_after) [] (demo_in_order f Hf)) as [[_ Hup]|H]; [..|exact H].
  - apply (plain_all_admissible _ demo_vol demo_drv blank_map _ [] (demo_in_order f Hf) docs_plain). apply Nat.leb_le. reflexivity.
  - exact (docs_session_comes_back _ Hup).
Defined.

Lemma parse_path_splits_witness :
  parse_path (demo_shell demo_boot stack_after) (padded 512 (bytes_of_string "a/b/")) empty_path =
  Ret (rows [bytes_of_string "a"; bytes_of_string "b"], 2, demo_shell demo_boot stack_after).
Proof.
  rewrite (parse_path_splits (demo_shell demo_boot stack_after) false true [bytes_of_string "a"; bytes_of_string "b"]); try exact eq_refl.
  - discriminate.
  - repeat constructor; discriminate.
  - repeat constructor; discriminate.
  - apply Nat.ltb_lt. reflexivity.
  - apply Nat.ltb_lt. reflexivity.
Defined.
