(* ===== verification/SystemWitness.v ===== *)
(** * A concrete system

    The tool, the kernel and the shell on the board of MachineWitness.v: the
    shell makes a folder and enters it. *)
From stdpp Require Import gmap relations.
From S2P Require Import Prelude CString PortIO BlockDevice FatLayout Fat32 FatFacts FatChain FatLoops FatSpec FatRefine FatWrite FatMount FatContract.
From S2P Require Import Descriptors Pic Screen Cmos Paging PagingFacts PagingProps Mmu UserMemory Process ProcessFacts ProcessProps ProcessImage ProcessCreate KernelProps KernelWitness Interrupt InterruptFacts InterruptProps Preemption KernelBoot MachineWitness Inserting FatWitness.
From S2P Require Import ShellBase Shell ShellCommands ShellMove ShellFacts ShellLine DirTree DiskTree DiskMap DiskProps ShellNames ShellWalk ShellCd UserCalls UserFiles ShellSession UserExec ShellWitness Booted InserterMain.

Definition demo_area : call_area := MkArea 0x200000 0x200100 0x300000.

Lemma demo_area_fits : area_fits demo_area.
Proof. split; rewrite ?window_size; by vm_compute. Qed.

Definition demo_session : list command := [Mkdir root_docs; Cd docs].

(** A host with a blank image of 4 MiB and a program. *)
Definition zeros : list Z := replicate (512 * STORAGE_ROWS) 0.
Definition storage_path : list Z := bytes_of_string "storage.bin".
Definition demo_host : host := <[storage_path := zeros]> {[shell_path := demo_data]}.

Lemma zeros_ok : storage_ok zeros.
Proof. split; [apply length_replicate|by apply Forall_replicate]. Qed.

Lemma chunks_replicate n x : chunks n (replicate (512 * n) x) = replicate n (replicate 512 x).
Proof.
  induction n as [|n IH]; [reflexivity|]. cbn [chunks]. rewrite take_replicate, drop_replicate.
  rewrite (Nat.min_l 512) by lia. replace (512 * S n - 512)%nat with (512 * n)%nat by lia. rewrite IH. reflexivity.
Qed.

Lemma zeros_blank m : vol (image_fs (fread zeros zeros) m) = demo_blank.
Proof.
  rewrite fread_all by apply zeros_ok. unfold image_fs, zeros. rewrite chunks_replicate. pose proof storage_rows as Hr.
  apply list_eq. intros i. destruct (decide (i < 512)%nat).
  - replace i with (Z.to_nat (Z.of_nat i)) at 1 by lia. rewrite lookup_vol by (unfold in_map; lia).
    unfold demo_blank. rewrite lookup_replicate_2 by assumption. f_equal.
    unfold cluster. rewrite seqZ_4. cbn [fmap list_fmap concat dev sector Inserter.image_spec].
    unfold Inserter.image_sector. cbn [Inserter.rows]. rewrite !lookup_replicate_2 by lia. cbn [default]. by vm_compute.
  - rewrite !lookup_ge_None_2; [reflexivity|..]; rewrite ?length_vol; unfold demo_blank; rewrite ?length_replicate; lia.
Qed.

Lemma storage_repr (s : fs Inserter.image) v m : @repr _ _ storage_spec s v m -> repr s v m.
Proof. intros ([[Hok _] Hn] & Hv & Hm). split; [split; [exact Hok|exact Hn]|]. split; [exact Hv|exact Hm]. Qed.

Lemma inserted_system_runs_witness :
  exists h' (k k' : machine board) dir (Har : area_ok dir demo_area) sh sh' d', main demo_host (inserter_command [] storage_path) zeros zeros demo_memory = Ret (0, inserted_lines 2048, h') /\
    kernel_setup demo_list demo_kernel demo_stub_table 0xC0104000 0xC0300000 k = Ret (SwitchTo (initial_context (directory_addr demo_list 0)), k') /\
    let calls := user_calls demo_list demo_kernel 1 1 demo_area in
    let server := user_files demo_list demo_kernel 1 1 demo_area dir Har in
    shell_start (fresh_shell k' stack_after root_directory root_directory) = Ret sh /\
    run_commands sh demo_session = Ret sh' /\ session_steps sh (shell_map demo_data 2048) demo_session sh' d'.
Proof.
  destruct (inserted_system_runs demo_host [] storage_path zeros demo_data zeros zeros demo_memory)
    as (h' & v' & m' & Hrun & (image & _ & _ & Himage) & Hshows & Hboot).
  - apply lookup_insert_eq.
  - unfold demo_host. rewrite lookup_insert_ne by discriminate. apply lookup_singleton_eq.
  - apply zeros_ok.
  - by apply Forall_replicate.
  - exact zeros_ok.
  - exact zeros_ok.
  - exact demo_memory_ok.
  - change (~ formatted (vol (image_fs (fread zeros zeros) demo_memory))). rewrite zeros_blank. exact demo_unformatted.
  - by vm_compute.
  - pose proof (storage_repr _ _ _ (Himage m')) as Hs'. set (s' := image_fs image m') in *. clearbody s'.
    apply (board_repr _ _ _ [] []) in Hs'.
    set (k := demo_machine (MkKernel procs_init (paging_init 0x100000) (fun _ => 0) (MkFs (MkBoard (dev s') [] []) (drv s')))).
    pose proof (mnt_ok _ (sh_mounted _ _ _ Hshows)) as Hmem.
    destruct (Hboot board _ _ _ _ _ k m' demo_list demo_kernel 0x100000 demo_stub_table 0xC0104000 0xC0300000 1%nat 1%nat demo_area stack_after root_directory root_directory)
      as (k' & dir & Har & Hset & _ & _ & sh & Hsh & ((v & m & Hin) & Hserve) & _).
    + exact demo_layout.
    + exact demo_area_fits.
    + exact stack_long.
    + reflexivity.
    + reflexivity.
    + lia.
    + intros p. by split.
    + reflexivity.
    + reflexivity.
    + reflexivity.
    + exact Hs'.
    + exact Hmem.
    + destruct (Hserve demo_session) as [[_ Hup]|(sh' & v1 & m1 & d1 & ns1 & Hr & _ & Hst)].
      * eapply plain_all_admissible; [exact Hin|exact docs_plain|]. apply Nat.leb_le. by vm_compute.
      * exact (docs_session_comes_back _ Hup).
      * exists h', k, k', dir, Har, sh, sh', d1. split; [exact Hrun|]. split; [exact Hset|]. split; [exact Hsh|]. exact (conj Hr Hst).
Defined.

(** A target that is not there is made a folder. *)
Lemma main_writes_file_witness : exists msg h' v',
  main demo_host [[]; bytes_of_string "docs"; bytes_of_string "2"; storage_path] zeros zeros demo_memory =
    Ret (0, target_lines (bytes_of_string "docs") 0 ++ msg ++ [bytes_of_string "Write success"], h') /\
  host_after demo_host storage_path v' h'.
Proof.
  assert (Hnone : demo_host !! bytes_of_string "docs" = None).
  { unfold demo_host. rewrite lookup_insert_ne by discriminate. by apply lookup_singleton_ne. }
  assert (Hread : read_target demo_host (bytes_of_string "docs") zeros = (zeros, 0)) by (unfold read_target; by rewrite Hnone).
  assert (Hdisk : mount (@vol _ _ storage_spec (image_fs (fread zeros zeros) demo_memory)) demo_memory = (demo_vol, demo_drv)).
  { change (mount (vol (image_fs (fread zeros zeros) demo_memory)) demo_memory = (demo_vol, demo_drv)). rewrite zeros_blank. unfold mount. rewrite decide_False by exact demo_unformatted. apply surjective_pairing. }
  pose proof (main_writes_file demo_host [] (bytes_of_string "docs") (bytes_of_string "2") storage_path zeros zeros zeros demo_memory 2) as H.
  cbv zeta in H. rewrite root_no_overrun in H by (unfold tool_request; rewrite Hread; reflexivity).
  destruct H as (msg & name & ext & h' & Hrun & _ & Hafter).
  - apply lookup_insert_eq.
  - apply zeros_ok.
  - exact zeros_ok.
  - exact zeros_ok.
  - exact demo_memory_ok.
  - repeat constructor; unfold is_word; cbn; lia.
  - by repeat constructor.
  - apply Nat.ltb_lt. reflexivity.
  - reflexivity.
  - by split.
  - intros data Hdata. rewrite Hnone in Hdata. discriminate.
  - rewrite Hdisk. exact demo_mounted.
  - rewrite Hdisk, Hread. intros _. by vm_compute.
  - rewrite Hdisk in Hrun, Hafter. unfold tool_request in Hrun, Hafter. rewrite Hread in Hrun, Hafter. cbn [fst snd] in Hrun, Hafter.
    eexists _, h', _. split; [|exact Hafter]. rewrite Hrun.
    reflexivity.
Defined.

(** The machine after start-up with the file [demo_file] to be written. *)
Lemma call_through_interrupt_witness : exists dir m m' code out d',
  area_ok dir demo_area /\ user_call demo_list demo_kernel 1 1 demo_area m (Write demo_file) = Ret (code, out, m') /\
  disk_step blank_map (Write demo_file) code out d'.
Proof.
  destruct shell_repr as (s & Hs). apply (board_repr _ _ _ [] []) in Hs. destruct demo_repr as (f & _ & Hf). apply (board_repr _ _ _ [] []) in Hf.
  set (k := demo_machine (MkKernel procs_init (paging_init 0x100000) (fun _ => 0) (MkFs (MkBoard (dev s) [] []) (drv s)))).
  destruct (setup_spec demo_list demo_kernel demo_layout shell_vol shell_entry [3] shell_on_disk k shell_drv 0x100000
    demo_stub_table 0xC0104000 0xC0300000) as (p & k' & _ & _ & _ & _ & _ & _ & _ & Hcr3 & (dir & Hdir & _) & _ & _ & _ & Hus & Hram);
    [reflexivity|reflexivity|lia|reflexivity|reflexivity|reflexivity|exact Hs|exact shell_formatted|].
  pose proof (booted_area demo_area demo_area_fits shell_vol k' shell_drv dir Hus Hdir) as Har.
  set (m := set_files k' (MkFs (MkBoard (dev f) [] []) (drv f))).
  assert (Hm : user_sees demo_list demo_kernel dir m demo_vol demo_drv).
  { split; [split; [by apply (booted_directory demo_list demo_kernel demo_layout)|apply Hram; intros x; by split]|exact Hf]. }
  destruct (call_through_interrupt demo_list demo_kernel 1 1 demo_area dir m demo_vol demo_drv blank_map (Write demo_file) Har Hm demo_shows demo_callable)
    as (code & out & m' & v' & drv' & d' & Hrun & _ & _ & Hst & _).
  - by vm_compute.
  - by apply Forall_replicate.
  - exists dir, m, m', code, out, d'. split; [exact Har|]. split; [exact Hrun|exact Hst].
Defined.

(** The machine after start-up with [notes.txt] on its disk. *)
Lemma exec_machine : exists dir (m : machine board), area_ok dir demo_area /\
  user_sees demo_list demo_kernel dir m demo_vol2 demo_drv2 /\ kernel_ok (kern m) /\ runs_in demo_list (kern m) dir /\ has_room (kern m) /\
  slot (running_process_idx (procs (kern m))).
Proof.
  destruct shell_repr as (s & Hs). apply (board_repr _ _ _ [] []) in Hs. destruct demo_repr2 as (f & Hf). apply (board_repr _ _ _ [] []) in Hf.
  set (k := demo_machine (MkKernel procs_init (paging_init 0x100000) (fun _ => 0) (MkFs (MkBoard (dev s) [] []) (drv s)))).
  destruct (setup_spec demo_list demo_kernel demo_layout shell_vol shell_entry [3] shell_on_disk k shell_drv 0x100000
    demo_stub_table 0xC0104000 0xC0300000) as (p & k' & Hset & Hidx & Hact & _ & _ & _ & _ & Hcr3 & (dir & Hdir & _) & _ & _ & _ & Hus & Hram);
    [reflexivity|reflexivity|lia|reflexivity|reflexivity|reflexivity|exact Hs|exact shell_formatted|].
  destruct (booted_tables demo_list demo_kernel demo_layout shell_vol k k' shell_drv 0x100000 _ _ _ _ dir eq_refl eq_refl Hset Hact Hcr3 Hdir Hus) as (Hk & Hrn & Hrm).
  exists dir, (set_files k' (MkFs (MkBoard (dev f) [] []) (drv f))).
  split; [exact (booted_area demo_area demo_area_fits shell_vol k' shell_drv dir Hus Hdir)|]. split.
  { split; [split; [by apply (booted_directory demo_list demo_kernel demo_layout)|apply Hram; intros x; by split]|exact Hf]. }
  split; [exact Hk|]. split; [destruct Hrn as [H]; split; exact H|]. split; [destruct Hrm as [H1 H2 H3]; split; [exact H1|exact H2|exact H3]|]. change (slot (running_process_idx (procs (kern k')))). rewrite Hidx. exact (conj (Z.le_refl 0) eq_refl).
Qed.

Definition exec_shell (m : machine board) : shell (machine board) :=
  MkShell m ROOT_CLUSTER_NUMBER (padded 512 (render [])) stack_after (table_at demo_vol2 ROOT_CLUSTER_NUMBER) root_directory.

Lemma exec_shell_settled dir (Har : area_ok dir demo_area) m : user_sees demo_list demo_kernel dir m demo_vol2 demo_drv2 ->
  @settled _ _ (user_files demo_list demo_kernel 1 1 demo_area dir Har) demo_vol2 demo_drv2 (exec_shell m) [].
Proof. intros Hm. split; [exact Hm|reflexivity|reflexivity|constructor|simpl; lia|apply stack_long]. Qed.

Lemma exec_notes m : exec_args (exec_shell m) demo_vol2 notes_map [] notes [] notes blank_buffer ROOT_CLUSTER_NUMBER [] notes_text.
Proof.
  destruct notes_argument as (Hn & Hb & Hl).
  split; [exact Hn|exact Hb|exact Hl|reflexivity| |apply Nat.leb_le; reflexivity| |reflexivity|exact (notes_known blank_buffer)|rewrite notes_size; by vm_compute|].
  - split; [by vm_compute|]. split; [by vm_compute|exact notes_free].
  - destruct blank_is_buffer as [[_ H] Hbb]. by split.
  - intros c. by apply notes_no_folder.
Qed.

Lemma exec_starts_program_witness : exists s s' : shell (machine board), let calls := user_calls demo_list demo_kernel 1 1 demo_area in
  exec s (padded 512 notes) 1 blank_buffer = Ret s' /\ started demo_list (name8 (before_dot notes)) notes_text (kern (sys s)) (kern (sys s')).
Proof.
  destruct exec_machine as (dir & m & Har & Hm & Hk & Hrn & Hrm & _). exists (exec_shell m).
  destruct (exec_starts_program demo_list demo_kernel demo_layout 1 1 demo_area dir Har demo_vol2 demo_drv2 notes_map (exec_shell m) [] notes [] notes blank_buffer
    ROOT_CLUSTER_NUMBER [] notes_text (exec_shell_settled dir Har m Hm) notes_shows (exec_notes m) Hk Hrn Hrm) as (s' & Hrun & _ & _ & Hst & _); [by vm_compute|].
  exists s'. exact (conj Hrun Hst).
Defined.

Lemma exec_program_entered_witness : exists s s' : shell (machine board), let calls := user_calls demo_list demo_kernel 1 1 demo_area in
  exec s (padded 512 notes) 1 blank_buffer = Ret s' /\ enters demo_list demo_kernel 1 1 (sys s') notes_text (replicate 16 (demo_frame 0x20 0 0)).
Proof.
  destruct exec_machine as (dir & m & Har & Hm & Hk & Hrn & Hrm & Hsl). exists (exec_shell m).
  destruct (exec_program_entered demo_list demo_kernel demo_layout 1 1 demo_area dir Har demo_vol2 demo_drv2 notes_map (exec_shell m) [] notes [] notes blank_buffer
    ROOT_CLUSTER_NUMBER [] notes_text (replicate 16 (demo_frame 0x20 0 0)) (exec_shell_settled dir Har m Hm) notes_shows (exec_notes m) Hk Hrn Hrm) as (s' & Hrun & Hen).
  - by vm_compute.
  - exact Hsl.
  - by apply Forall_replicate.
  - apply Nat.leb_le. reflexivity.
  - exists s'. exact (conj Hrun Hen).
Defined.

Lemma inserted_shell_boots_witness :
  exists s' k k', insert_file demo_boot (padded 20 (bytes_of_string "shell")) demo_data 2000 ROOT_CLUSTER_NUMBER = Ret (0, s') /\
    kernel_setup demo_list demo_kernel demo_stub_table 0xC0104000 0xC0300000 k =
      Ret (SwitchTo (initial_context (directory_addr demo_list 0)), k') /\
    exists dir, page_directory_list (pages (kern k')) !! 0%nat = Some dir /\ load dir (umem (kern k')) 1999 = Ret 65.
Proof.
  destruct (inserted_shell_boots demo_boot demo_blank demo_memory demo_data 2000 demo_boot_repr demo_memory_ok demo_unformatted)
    as (s' & v' & m' & Hins & Hs' & Hboot); [lia|by apply Forall_replicate|by vm_compute|].
  apply (board_repr _ _ _ [] []) in Hs'.
  set (k := demo_machine (MkKernel procs_init (paging_init 0x100000) (fun _ => 0) (MkFs (MkBoard (dev s') [] []) (drv s')))).
  destruct (Hboot board _ _ _ _ _ k m' demo_list demo_kernel 0x100000 demo_stub_table 0xC0104000 0xC0300000) as (k' & Hset & _ & dir & Hdir & Hmem).
  - exact demo_layout.
  - reflexivity.
  - reflexivity.
  - lia.
  - reflexivity.
  - reflexivity.
  - reflexivity.
  - exact Hs'.
  - exists s', k, k'. split; [exact Hins|]. split; [exact Hset|]. exists dir. split; [exact Hdir|]. apply Hmem; [lia|]. by vm_compute.
Defined.
